(* ===== verification/_CoqProject ===== *)
-Q . S2P
Prelude.v
Text.v
Net.v
Quote.v
Http.v
Clock.v
Calendar.v
Protocol.v
Crypto.v
Auth.v
Commands.v
Router.v
Traffic.v
Duration.v
Flags.v
Database.v
Accounts.v
Devices.v
CommandStore.v
History.v
Migrations.v
StoreSteps.v
StoreProperties.v
Session.v
Dataplane.v
DataplaneProperties.v
DataClient.v
Config.v
System.v
Startup.v
Installer.v
NativeTunnel.v
PlatformTunnel.v
Control.v
ControlAPI.v
ControlStream.v
ControlEffects.v
ControlProperties.v
ControlSettings.v
ControlPresence.v
ControlAccess.v
ControlDevices.v
ControlDelivery.v
ControlPlane.v
ControlScenario.v
ServerMain.v
ServerRestart.v
ServerAdmin.v
ServerScenario.v
ClientAgent.v
ClientLocal.v
ClientRun.v
ClientEffects.v
ClientCommands.v
ClientProperties.v
ClientIdentity.v
ClientAdapter.v
ClientGuard.v
ClientServer.v
ClientMain.v
CtlMain.v
Icons.v
TrayMain.v
ClientScenario.v
EndToEnd.v
