(* ===== verification/Prelude.v ===== *)
(** * TyxNet: a verification development

    TyxNet is a self-hosted virtual private network in Go: a management server
    with a SQLite store and a web API, a data plane that switches encrypted
    packets between devices over UDP, and a client per device with a local web
    interface.  This library models the core of it as executable definitions
    and proves what makes it correct.  The files, in the order of _CoqProject:

    ** Foundations

    - [Prelude]: [result] (a Go function's value or error text), bytes,
      big-endian integers, notations in [tyx_scope], tactics ([guards], [bprop])
      and the rewriting base [tyx];
    - [Text], [Net], [Clock], [Calendar], [Duration]: what the program uses of
      Go's [strings], [strconv], [base64], [net], [time]; [Quote] and [Flags]:
      [strconv.Quote], [html.EscapeString] and the command lines of [flag];
    - [System]: the machine that programs act on: its files and the calls made
      to the operating system, with the monad [Sh];
    - [Http]: requests as net/http hands them over (internal/control/server.go).

    ** Packets (pkg/protocol, internal/crypto, internal/dataplane, internal/routing)

    - [Protocol]: the packet header and the text a device signs;
    - [Crypto]: replay window, cipher, key derivation over the class
      [Primitives] of cryptographic functions;
    - [Session]: bootstraps and sealed packets (session.go);
    - [Router], [Traffic]: the packet switch and the payload-blind monitor;
    - [Dataplane], [DataplaneProperties]: the UDP server with its heap of
      shared sessions (server.go); [DataClient]: the device's end (client.go)
      and internal/tunnel/memory.go.

    ** The store (internal/storage, internal/auth)

    - [Auth]: permissions and password hashes;
    - [Database]: the tables with their constraints, statements, transactions;
    - [Accounts], [Devices], [CommandStore], [History]: the methods of store.go;
      [Migrations]: opening it;
    - [StoreSteps], [StoreProperties]: every interleaving of their accesses,
      the invariants, and the behaviour of each method.

    ** The management server (internal/control/server.go)

    - [Control]: its state; the class [DataPlane] is what it needs of the data
      plane, [DataPlaneLaws] what it relies on; [ControlPlane] shows that
      [Dataplane] keeps them;
    - [ControlAPI], [ControlStream]: every handler, the event streams pass by
      pass, the multiplexer ([serve]) and the server as a step relation
      ([ctl_step]);
    - [ControlEffects], [ControlProperties], [ControlSettings],
      [ControlPresence], [ControlAccess], [ControlDevices], [ControlDelivery]:
      its properties; [ControlScenario]: a run of it.

    ** The client (internal/client/client.go)

    - [Commands], [Config]: the operating-system actions and the configuration
      files;
    - [ClientAgent]: enrollment, identity file, adapter, data plane, commands
      and the stream, over the class [Remote] of a server that answers
      requests; [ClientLocal]: the local web interface; [ClientRun]: the loop,
      as a step relation with both of them ([agent_step]);
    - [ClientEffects], [ClientCommands], [ClientProperties], [ClientIdentity],
      [ClientAdapter], [ClientGuard]: its properties; [ClientScenario]: runs;
    - [ClientServer]: the client on the network of a real [ControlStream.serve];
      [EndToEnd]: a command from the administrator to the device and back.

    ** The programs (cmd/, internal/application, internal/installer,
       internal/platform, internal/apiclient)

    - [NativeTunnel], [PlatformTunnel]: the devices of internal/tunnel and how an
      adapter is opened and configured on each operating system;

    - [Startup], [Installer]: the start-up entries of the operating systems and
      the native services;
    - [ServerMain], [ClientMain]: the commands of tyxnet-server and
      tyxnet-client, and how they put the parts together;
    - [ServerRestart], [ServerAdmin]: a server started again, installed and
      administered; [ServerScenario]: runs;
    - [CtlMain]: tyxnetctl; [TrayMain]: the tray applications; [Icons]: the
      pictures of the trays and of the macOS package.

    ** How the parts interact

    The server registers data-plane sessions and hands their bootstrap to the
    client on its event stream; the client derives the same keys from it
    ([DataClient.tunnel_end_to_end]).  The monitor's finished seconds go to the
    store through [persistFlowHistory].  Every handler changes the database by
    the store's methods only ([control_refines_store]), so that the store's
    invariants hold in every state of the server.  The client's requests are
    answered by the server's handlers ([command_completes]).  [runServer] loads
    the configuration, opens the store and hands the management server the
    callbacks for the ports and the start-up entry, whose arguments are a command
    line of the same program ([server_restart], [client_restart]).  What tyxnetctl
    and the trays request is what the server and the client's local interface
    understand by it ([ctl_reaches], [tray_offers]).

    ** What the theorems show

    - Round trips and formats: packets, key strings, configuration files,
      settings across a restart, the client's identity file, the start-up entries
      and the command lines in them; the pixels of the ICO file ([ico_file]).
    - Refinements: the bitmap window implements the set of accepted numbers; a
      packet crosses the whole tunnel unchanged, and the buffers of the native
      device; the server refines the steps of the store.
    - Equivalences: what a command line or a menu offers and what the server
      does and permits; the configurations that are accepted; the limiter.
    - Invariants: the store's tables, the data plane's tables, the reference
      counts of the monitor, presence and streams, the client's adapter.
    - Safety: no source address but the assigned one, no packet number
      twice, no API call without its permission, no stream or result without
      the device's signature, no command twice, no change through the client's
      local interface by another site or another program's token.
    - Liveness and termination: a queued command is written to the stream that
      wakes; a delivered one is carried out and reported; a client asked to
      stop has returned after six steps.
    - Errors and bounds: each branch of the fallible operations; the limiters
      ([invalid_limiter], [rate_limit_exact]); the channels of the pictures
      ([mac_picture]); and the defects found, stated as theorems where they fit
      (see the manifest's findings).

    ** Conventions

    A Go integer is a [Z] with its wrap-around written out ([u64], [i64]);
    floating-point numbers are binary64 ([SpecFloat]).  A time is its number of
    nanoseconds.  Clock readings, random bytes and what the operating system
    answers are arguments, in the order in which the code asks for them ([Env]
    of the server, [Sys] of the client).  Maps are [gmap]s; tables are lists of
    rows.  Errors are their text, where the code looks at no more.  Locks are
    modelled by the size of the steps: what runs under one lock is one step.

    Recursion that is not structural has fuel, which is at least the length of
    the text that is consumed ([trim_go], [fields_go], [fold_go], [parse_terms],
    whose fuel is proved enough), the number of digits ([fmt_dec_go], proved
    enough by [log2_fuel]), the eight groups of an IPv6 address ([ip6_emit],
    [parse_ip6_go]), or, for the walk of [nextIP], a round of all the addresses
    of the network, after which [next_ip_spec] shows that it cannot go on.

    Cryptography, Argon2id, Ed25519, JSON, YAML, url.Parse, the embedded files,
    the library of the adapters, the user database and which runes are printable
    are parameters; the laws used of them are [PrimitiveLaws], [identity_json],
    [wired] and named hypotheses, and the scenarios instantiate them.

    ** Not modelled

    TLS and sockets, SQLite itself and what it does with the text of a migration,
    wireguard-go and the systray library, the PNG encoder, the web pages and the
    packaging scripts: they are calls of the operating system or of libraries with little
    logic of their own.  Of internal/crypto the two functions that only draw keys. *)
From stdpp Require Export base tactics list strings gmap numbers sorting relations.
From Stdlib Require Export ZArith Lia.
From Stdlib Require Import Init.Byte Strings.Byte Ascii.

Declare Scope tyx_scope.
Delimit Scope tyx_scope with tyx.
Global Open Scope tyx_scope.
Global Open Scope Z_scope.

(** ** Results of fallible Go functions: the value, or the error's message *)

Inductive result (A : Type) : Type :=
  | Ok (a : A)
  | Err (e : string).
Global Arguments Ok {A} a.
Global Arguments Err {A} e.

Definition result_bind {A B} (f : A → result B) (r : result A) : result B :=
  match r with Ok a => f a | Err e => Err e end.

Notation "'let?' x := r 'in' k" := (result_bind (λ x, k) r)
  (at level 10, x pattern, r at level 100, k at level 200) : tyx_scope.

(** An early return with an error: [if c { return errors.New(e) }; k]. *)
Notation "'fail_if' c 'with' e ; k" := (if c then Err e else k)
  (at level 10, c at level 100, e at level 100, k at level 200) : tyx_scope.

Definition is_ok {A} (r : result A) : bool := match r with Ok _ => true | Err _ => false end.

Global Instance result_eq_dec {A} `{EqDecision A} : EqDecision (result A).
Proof. solve_decision. Defined.

(** ** Bytes and machine integers *)

Abbreviation byte := Byte.byte.

Global Instance byte_eq_dec : EqDecision byte := Byte.byte_eq_dec.
Global Program Instance byte_countable : Countable byte :=
  inj_countable Byte.to_N Byte.of_N _.
Next Obligation. intros x. apply Byte.of_to_N. Qed.

(** The value of a byte, and the byte a Go conversion [byte(z)] yields. *)
Definition bZ (b : byte) : Z := Z.of_N (Byte.to_N b).
Definition Zb (z : Z) : byte :=
  match Byte.of_N (Z.to_N (z mod 256)) with Some b => b | None => x00 end.

(** Conversions to the unsigned types of Go. *)
Definition u8 (z : Z) : Z := z mod 2 ^ 8.
Definition u16 (z : Z) : Z := z mod 2 ^ 16.
Definition u32 (z : Z) : Z := z mod 2 ^ 32.
Definition u64 (z : Z) : Z := z mod 2 ^ 64.

Definition in_u8 (z : Z) : Prop := 0 ≤ z < 2 ^ 8.
Definition in_u16 (z : Z) : Prop := 0 ≤ z < 2 ^ 16.
Definition in_u32 (z : Z) : Prop := 0 ≤ z < 2 ^ 32.
Definition in_u64 (z : Z) : Prop := 0 ≤ z < 2 ^ 64.

(** [binary.BigEndian.PutUint8n] on [n] bytes and [binary.BigEndian.Uint8n]. *)
Fixpoint be_put (n : nat) (z : Z) : list byte :=
  match n with
  | O => []
  | S m => Zb (Z.shiftr z (8 * Z.of_nat m)) :: be_put m z
  end.
Definition be_get (l : list byte) : Z :=
  foldl (λ acc b, Z.lor (Z.shiftl acc 8) (bZ b)) 0 l.

(** [b[lo:hi]] of a Go slice or string, for [lo <= hi <= len(b)]. *)
Definition slice {A} (lo hi : nat) (b : list A) : list A := take (hi - lo) (drop lo b).

(** [len] of a Go slice or string. *)
Definition len {A} (l : list A) : Z := Z.of_nat (length l).
Definition slen (s : string) : Z := Z.of_nat (String.length s).

(** Go strings are byte sequences. *)
Definition s2b (s : string) : list byte := String.list_byte_of_string s.
Definition b2s (l : list byte) : string := String.string_of_list_byte l.

(** ** Decision helpers *)

(** [p == nil] of a pointer. *)
Definition is_none {A} (o : option A) : bool := match o with None => true | Some _ => false end.

Notation "x =s y" := (String.eqb x y) (at level 70) : tyx_scope.

(** ** Lemmas on bytes *)

Lemma bZ_range b : 0 ≤ bZ b < 256.
Proof. pose proof (Byte.to_N_bounded b). unfold bZ. lia. Qed.

Lemma bZ_inj b1 b2 : bZ b1 = bZ b2 → b1 = b2.
Proof.
  unfold bZ. intros H. apply (inj Z.of_N) in H.
  apply (f_equal Byte.of_N) in H. rewrite !Byte.of_to_N in H. by simplify_eq.
Qed.

Lemma bZ_Zb z : bZ (Zb z) = z mod 256.
Proof.
  unfold bZ, Zb. pose proof (Z.mod_pos_bound z 256 ltac:(lia)) as Hr.
  destruct (Byte.of_N (Z.to_N (z mod 256))) as [b|] eqn:E.
  - apply Byte.to_of_N in E. rewrite E. lia.
  - apply Byte.of_N_None_iff in E. lia.
Qed.

Lemma Zb_bZ b : Zb (bZ b) = b.
Proof. apply bZ_inj. rewrite bZ_Zb. apply Z.mod_small, bZ_range. Qed.

Lemma Zb_bZ_eq z b : bZ b = z → Zb z = b.
Proof. intros <-. apply Zb_bZ. Qed.

(** ** Exhaustive checks *)

Lemma range_check (P : Z → bool) lo n z :
  forallb P (seqZ lo n) = true → lo ≤ z < lo + n → P z = true.
Proof.
  intros H Hz. rewrite forallb_forall in H. apply H, list_elem_of_In, elem_of_seqZ. lia.
Qed.

Lemma byte_check (P : byte → bool) :
  forallb (λ z, P (Zb z)) (seqZ 0 256) = true → ∀ b, P b = true.
Proof.
  intros H b. rewrite <- (Zb_bZ b). pose proof (bZ_range b).
  by apply (range_check (λ z, P (Zb z)) 0 256).
Qed.

(** ** Big-endian encoding *)

Lemma lor_shiftl_add a b : 0 ≤ b < 256 → Z.lor (Z.shiftl a 8) b = a * 256 + b.
Proof.
  intros Hb. rewrite Z.shiftl_mul_pow2 by lia. change (2 ^ 8) with 256.
  symmetry. apply Z.add_nocarry_lor. change 256 with (2 ^ 8).
  rewrite <- Z.shiftl_mul_pow2 by lia. apply Z.bits_inj'. intros n Hn.
  rewrite Z.land_spec, Z.bits_0. destruct (decide (n < 8)).
  - rewrite Z.shiftl_spec_low by lia. done.
  - rewrite (Z.bits_above_log2 b); [apply andb_false_r|lia|].
    destruct (decide (b = 0)) as [->|]; [change (Z.log2 0) with 0; lia|].
    apply Z.log2_lt_pow2; [lia|].
    apply Z.lt_le_trans with (2 ^ 8); [lia|]. apply Z.pow_le_mono_r; lia.
Qed.

Lemma be_get_snoc l b : be_get (l ++ [b]) = be_get l * 256 + bZ b.
Proof.
  unfold be_get. rewrite foldl_app. simpl. apply lor_shiftl_add, bZ_range.
Qed.

Lemma be_get_app l k : be_get (l ++ k) = be_get l * 256 ^ len k + be_get k.
Proof.
  unfold len. induction k as [|b k IH] using rev_ind.
  - rewrite app_nil_r. change (be_get []) with 0. simpl. lia.
  - rewrite (assoc_L (++)), !be_get_snoc, IH, length_app. simpl.
    rewrite Nat2Z.inj_add, Z.pow_add_r by lia. lia.
Qed.

Lemma be_get_cons b k : be_get (b :: k) = bZ b * 256 ^ len k + be_get k.
Proof.
  change (b :: k) with (([] ++ [b]) ++ k). rewrite be_get_app, be_get_snoc.
  change (be_get []) with 0. lia.
Qed.

Lemma be_get_range l : 0 ≤ be_get l < 256 ^ len l.
Proof.
  unfold len. induction l as [|b l IH] using rev_ind; [done|].
  rewrite be_get_snoc, length_app, Nat2Z.inj_add. simpl.
  rewrite Z.pow_add_r by lia. pose proof (bZ_range b). lia.
Qed.

Lemma be_put_length n z : length (be_put n z) = n.
Proof. induction n; simpl; auto. Qed.

Lemma be_get_put n z : be_get (be_put n z) = z mod 256 ^ Z.of_nat n.
Proof.
  induction n as [|n IH]; [by rewrite Z.mod_1_r|].
  simpl be_put. rewrite be_get_cons, IH, bZ_Zb. unfold len. rewrite be_put_length.
  rewrite Z.shiftr_div_pow2 by lia.
  replace (2 ^ (8 * Z.of_nat n)) with (256 ^ Z.of_nat n).
  2:{ rewrite Z.pow_mul_r by lia. done. }
  replace (256 ^ Z.of_nat (S n)) with (256 ^ Z.of_nat n * 256).
  2:{ rewrite Nat2Z.inj_succ, Z.pow_succ_r by lia. lia. }
  rewrite Z.rem_mul_r by lia. lia.
Qed.

Lemma be_get_inj l1 l2 : length l1 = length l2 → be_get l1 = be_get l2 → l1 = l2.
Proof.
  revert l2. induction l1 as [|b1 l1 IH]; intros [|b2 l2]; simpl; [done..|].
  intros [= Hl] H. rewrite !be_get_cons in H. unfold len in H. rewrite Hl in H.
  pose proof (be_get_range l1) as R1. pose proof (be_get_range l2) as R2.
  unfold len in R1, R2. rewrite Hl in R1.
  assert (bZ b1 = bZ b2) by nia. f_equal; [by apply bZ_inj|].
  apply IH; [done|]. nia.
Qed.

Lemma be_put_get n l : length l = n → be_put n (be_get l) = l.
Proof.
  intros <-. apply be_get_inj; [apply be_put_length|].
  rewrite be_get_put. apply Z.mod_small, be_get_range.
Qed.

Lemma be_get_put_small n z : 0 ≤ z < 256 ^ Z.of_nat n → be_get (be_put n z) = z.
Proof. intros. rewrite be_get_put. by apply Z.mod_small. Qed.

Lemma be_put_inj n z1 z2 :
  0 ≤ z1 < 256 ^ Z.of_nat n → 0 ≤ z2 < 256 ^ Z.of_nat n →
  be_put n z1 = be_put n z2 → z1 = z2.
Proof.
  intros H1 H2 H. rewrite <- (be_get_put_small n z1), <- (be_get_put_small n z2) by done.
  by rewrite H.
Qed.

Lemma u64_small z : in_u64 z → u64 z = z.
Proof. apply Z.mod_small. Qed.

(** ** Equality modulo the width of [uint64] *)

Definition eq64 (a b : Z) : Prop := u64 a = u64 b.
Infix "≡64" := eq64 (at level 70) : tyx_scope.

Global Instance eq64_equiv : Equivalence eq64.
Proof.
  split; [by intros ?|by intros ?? H; symmetry; exact H|].
  intros a b c H1 H2. unfold eq64 in *. by rewrite H1.
Qed.
Global Instance eq64_add : Proper (eq64 ==> eq64 ==> eq64) Z.add.
Proof.
  unfold eq64, u64. intros a b H c d H'. by rewrite Zplus_mod, H, H', <- Zplus_mod.
Qed.
Global Instance eq64_u64 : Proper (eq64 ==> eq) u64.
Proof. by intros a b H. Qed.
Lemma u64_eq64 z : u64 z ≡64 z.
Proof. unfold eq64, u64. by rewrite Zmod_mod. Qed.

Lemma u64_add_l a b : u64 (u64 a + b) = u64 (a + b).
Proof. apply eq64_u64, eq64_add; [apply u64_eq64|done]. Qed.
Lemma u64_add_r a b : u64 (a + u64 b) = u64 (a + b).
Proof. apply eq64_u64, eq64_add; [done|apply u64_eq64]. Qed.

(** ** Slices *)

Lemma slice_length {A} lo hi (b : list A) :
  (lo ≤ hi)%nat → (hi ≤ length b)%nat → length (slice lo hi b) = (hi - lo)%nat.
Proof. intros. unfold slice. rewrite length_take, length_drop. lia. Qed.

Lemma slice_app_drop {A} (p q : list A) lo hi :
  length p = lo → slice lo hi (p ++ q) = take (hi - lo) q.
Proof. intros <-. unfold slice. by rewrite drop_app_length. Qed.

Lemma slice_app_here {A} (p q r : list A) lo hi :
  length p = lo → (length p + length q)%nat = hi → slice lo hi (p ++ q ++ r) = q.
Proof.
  intros <- <-. unfold slice. rewrite drop_app_length.
  replace (length p + length q - length p)%nat with (length q) by lia.
  apply take_app_length.
Qed.

Lemma slice_0 {A} hi (b : list A) : slice 0 hi b = take hi b.
Proof. unfold slice. by rewrite Nat.sub_0_r. Qed.

Lemma take_slice {A} lo hi (b : list A) :
  (lo ≤ hi)%nat → take hi b = take lo b ++ slice lo hi b.
Proof.
  intros. unfold slice. rewrite take_take_drop.
  f_equal. lia.
Qed.

(** ** Strings as byte lists *)

Lemma b2s_s2b s : b2s (s2b s) = s.
Proof. apply String.string_of_list_byte_of_string. Qed.
Lemma s2b_b2s l : s2b (b2s l) = l.
Proof. apply String.list_byte_of_string_of_list_byte. Qed.
Global Instance s2b_inj : Inj (=) (=) s2b.
Proof. intros s1 s2 H. rewrite <- (b2s_s2b s1), <- (b2s_s2b s2). by rewrite H. Qed.
Global Instance b2s_inj : Inj (=) (=) b2s.
Proof. intros s1 s2 H. rewrite <- (s2b_b2s s1), <- (s2b_b2s s2). by rewrite H. Qed.
Lemma s2b_app s t : s2b (s +:+ t) = s2b s ++ s2b t.
Proof.
  unfold s2b, String.list_byte_of_string. induction s as [|c s IH]; [done|].
  change (String c s +:+ t) with (String c (s +:+ t)).
  cbn [String.list_ascii_of_string map app]. by rewrite IH.
Qed.
Lemma s2b_length s : length (s2b s) = String.length s.
Proof. induction s; simpl; auto. Qed.
Lemma slen_len s : slen s = len (s2b s).
Proof. unfold slen, len. by rewrite s2b_length. Qed.

Lemma Ok_inj {A} (a b : A) : Ok a = Ok b → a = b.
Proof. by intros [=]. Qed.

(** ** Sums over lists and maps *)

Definition sumZ (l : list Z) : Z := foldr Z.add 0 l.
Definition msum `{Countable K} {A} (g : A → Z) (m : gmap K A) : Z :=
  map_fold (λ _ a n, g a + n) 0 m.

Lemma sumZ_app l k : sumZ (l ++ k) = sumZ l + sumZ k.
Proof. induction l; simpl; lia. Qed.
Global Instance sumZ_perm : Proper ((≡ₚ) ==> (=)) sumZ.
Proof. induction 1; simpl; lia. Qed.

Section msum.
  Context `{Countable K} {A : Type} (g : A → Z).
  Implicit Types m : gmap K A.

Lemma msum_delete m k : msum g m = from_option g 0 (m !! k) + msum g (delete k m).
Proof.
  destruct (m !! k) as [a|] eqn:E; simpl; [|by rewrite delete_id].
  unfold msum at 1. by rewrite (map_fold_delete_L _ _ k a m) by (done || (intros; lia)).
Qed.
Lemma msum_insert m k a : msum g (<[k := a]> m) = g a + msum g (delete k m).
Proof. rewrite (msum_delete _ k), lookup_insert_eq. simpl. by rewrite delete_insert_eq. Qed.
Lemma msum_insert_new m k a : m !! k = None → msum g (<[k := a]> m) = g a + msum g m.
Proof. intros. by rewrite msum_insert, delete_id. Qed.
Lemma msum_nonneg m : (∀ a, 0 ≤ g a) → 0 ≤ msum g m.
Proof.
  intros Hg. unfold msum. apply (map_fold_weak_ind (λ r _, 0 ≤ r)); [done|].
  intros k a ? r _ IH. specialize (Hg a). lia.
Qed.
Lemma msum_list m : msum g m = sumZ (map (λ p, g (snd p)) (map_to_list m)).
Proof.
  unfold msum. rewrite map_fold_foldr. unfold sumZ.
  induction (map_to_list m) as [|[k a] l IH]; simpl; [done|]. by rewrite IH.
Qed.
End msum.

(** ** Sorting functions given as a Go [less] *)

(** A strict total order given by booleans, as Go's [<] on strings, integers
    and flags is. *)
Class StrictTotal {A} (lt : A → A → bool) : Prop := {
  st_total a b : a ≠ b → lt a b = negb (lt b a);
  st_trans a b c : a ≠ b → b ≠ c → a ≠ c → lt a b = true → lt b c = true → lt a c = true
}.

(** A [less] that [sort.Slice] can sort by. *)
Class WeakOrder {A} (less : A → A → bool) : Prop := {
  wo_asym a b : less a b = true → less b a = false;
  wo_trans a b c : less b a = false → less c b = false → less c a = false
}.

(** [if f(a) != f(b) { return f(a) < f(b) }; return rest(a, b)]. *)
Lemma weak_lex {A B} (f : A → B) (eqb lt : B → B → bool) (rest : A → A → bool) :
  (∀ x y, eqb x y = true ↔ x = y) → StrictTotal lt → WeakOrder rest →
  WeakOrder (λ a b, if negb (eqb (f a) (f b)) then lt (f a) (f b) else rest a b).
Proof.
  intros Heq [Ht Htr] [Hr1 Hr2].
  assert (∀ x y, eqb x y = false ↔ x ≠ y) as Hne.
  { intros. rewrite <- Heq. by destruct (eqb x y); split. }
  assert (∀ x y, eqb x y = eqb y x) as Hsym.
  { intros. destruct (eqb y x) eqn:E; [apply Heq in E as ->; by apply Heq|].
    apply Hne. apply Hne in E. congruence. }
  split.
  - intros a b. rewrite (Hsym (f b)). destruct (eqb (f a) (f b)) eqn:E; simpl; [apply Hr1|].
    apply Hne in E. rewrite (Ht (f a)) by done. by destruct (lt (f b) (f a)).
  - intros a b c.
    destruct (eqb (f b) (f a)) eqn:E1, (eqb (f c) (f b)) eqn:E2, (eqb (f c) (f a)) eqn:E3; simpl;
      repeat match goal with
        | H : eqb _ _ = true |- _ => apply Heq in H
        | H : eqb _ _ = false |- _ => apply Hne in H
        end; try congruence; intros H1 H2.
    + by apply (Hr2 a b c).
    + rewrite <- E3, Ht, H2 in H1 by done. done.
    + rewrite Ht in H1, H2 |- * by done. apply negb_false_iff in H1, H2.
      apply negb_false_iff. by apply (Htr _ (f b)); try congruence.
Qed.

Global Instance StrictTotal_Zltb : StrictTotal Z.ltb.
Proof.
  split; intros *; [|rewrite !Z.ltb_lt; lia].
  intros. destruct (Z.ltb_spec a b), (Z.ltb_spec b a); simpl; lia || done.
Qed.

(** [if p(a) != p(b) { return p(a) }]: the flagged ones first. *)
Global Instance StrictTotal_first : StrictTotal (λ a _ : bool, a).
Proof. split; [by intros [] []|by intros [] [] []]. Qed.

Lemma string_compare_lt_trans (a b c : string) :
  String.compare a b = Lt → String.compare b c = Lt → String.compare a c = Lt.
Proof.
  revert b c. induction a as [|x a IH]; intros [|y b] [|z c]; simpl; try done.
  unfold Ascii.compare. intros H1 H2.
  destruct (N.compare_spec (Ascii.N_of_ascii x) (Ascii.N_of_ascii y)); try done;
  destruct (N.compare_spec (Ascii.N_of_ascii y) (Ascii.N_of_ascii z)); try done;
  destruct (N.compare_spec (Ascii.N_of_ascii x) (Ascii.N_of_ascii z)); try done; try lia.
  by apply (IH b).
Qed.

Global Instance StrictTotal_Sltb : StrictTotal String.ltb.
Proof.
  unfold String.ltb. split.
  - intros a b Hab. rewrite String.compare_antisym.
    destruct (String.compare b a) eqn:E; try done. apply String.compare_eq_iff in E. congruence.
  - intros a b c _ _ _. destruct (String.compare a b) eqn:E1; try done.
    destruct (String.compare b c) eqn:E2; try done. by rewrite (string_compare_lt_trans _ b).
Qed.

Lemma WeakOrder_ltb {A B} (f : A → B) (lt : B → B → bool) (irr : ∀ x, lt x x = false) :
  EqDecision B → StrictTotal lt → WeakOrder (λ a b, lt (f a) (f b)).
Proof.
  intros ? [Ht Htr]. split.
  - intros a b H. destruct (decide (f a = f b)) as [E|]; [by rewrite E, irr in H|].
    rewrite Ht in H by done. by apply negb_true_iff.
  - intros a b c H1 H2. destruct (decide (f b = f a)) as [<-|], (decide (f c = f b)) as [->|]; try done.
    destruct (decide (f c = f a)) as [->|]; [apply irr|].
    rewrite Ht in H1, H2 |- * by done. apply negb_false_iff in H1, H2.
    apply negb_false_iff. by apply (Htr _ (f b)); try congruence.
Qed.

(** ** Automation *)

Create HintDb tyx.
Create Rewrite HintDb tyx.
#[export] Hint Resolve bZ_range be_get_range : tyx.
#[export] Hint Rewrite bZ_Zb Zb_bZ be_put_length be_get_put b2s_s2b s2b_b2s : tyx.

(** Case analysis on the guards of a Go function that returned. *)
Ltac guards :=
  repeat match goal with
    | H : (if ?c then Err _ else _) = Ok _ |- _ => destruct c eqn:?; [discriminate H|]
    | H : (if ?c then _ else Err _) = Ok _ |- _ => destruct c eqn:?; [|discriminate H]
    | H : result_bind _ ?r = Ok _ |- _ =>
        destruct r eqn:?; simpl in H; [|discriminate H]
    | H : Ok _ = Ok _ |- _ => apply Ok_inj in H
    | H : Err _ = Ok _ |- _ => discriminate H
    | H : Ok _ = Err _ |- _ => discriminate H
    end.

(** Boolean conditions of the code as propositions. *)
Ltac bprop :=
  repeat match goal with
    | H : _ || _ = false |- _ => apply orb_false_iff in H as [? ?]
    | H : _ && _ = true |- _ => apply andb_true_iff in H as [? ?]
    | H : negb _ = true |- _ => apply negb_true_iff in H
    | H : negb _ = false |- _ => apply negb_false_iff in H
    | H : bool_decide _ = true |- _ => apply bool_decide_eq_true in H
    | H : bool_decide _ = false |- _ => apply bool_decide_eq_false in H
    | H : (_ =? _) = true |- _ => apply Z.eqb_eq in H
    | H : (_ =? _) = false |- _ => apply Z.eqb_neq in H
    | H : (_ <? _) = true |- _ => apply Z.ltb_lt in H
    | H : (_ <? _) = false |- _ => apply Z.ltb_ge in H
    | H : (_ <=? _) = true |- _ => apply Z.leb_le in H
    | H : (_ <=? _) = false |- _ => apply Z.leb_gt in H
    | H : String.eqb _ _ = true |- _ => apply String.eqb_eq in H
    | H : String.eqb _ _ = false |- _ => apply String.eqb_neq in H
    end.

(** ** Filtering *)

Lemma filter_none {A} (p : A → bool) l : (∀ r, r ∈ l → p r = false) → List.filter p l = [].
Proof.
  induction l as [|r l IH]; intros Hp; simpl; [done|].
  rewrite (Hp r) by left. apply IH. intros x Hx. apply Hp. by right.
Qed.
