(* ===== verification/Text.v ===== *)
(** * Text: the functions of Go's [strings], [strconv] and [encoding/base64]
    that TyxNet calls, on byte sequences

    - [fmt_dec], [FormatUint], [ParseUint]: decimal printing of unsigned
      integers ([strconv.FormatUint(n, 10)], [fmt]'s [%d] on a non-negative
      value) and parsing ([strconv.ParseUint(s, 10, 64)], which returns the
      value 0 or the largest uint64 beside its error);
    - [split_on], [TrimSpace], [has_prefix]: [strings.Split] with a one-byte
      separator, [strings.TrimSpace] (all of Unicode's white space, by its
      UTF-8 encodings), [strings.HasPrefix] and [strings.Contains];
    - [b64_encode], [b64_decode]: [base64.RawStdEncoding], whose decoder skips
      line breaks and does not check the unused trailing bits.

    - [b32_encode], [lower]: [base32.StdEncoding] without padding, lower case
      of ASCII letters.

    The lemmas are the round trips the components use. *)
From S2P Require Import Prelude.
From Stdlib Require Import Init.Byte Strings.Byte.

(** ** Decimal numbers *)

Definition digit (d : Z) : byte := Zb (48 + d).
Definition is_digit (b : byte) : bool := (48 <=? bZ b) && (bZ b <=? 57).
Definition digit_val (b : byte) : Z := bZ b - 48.

Fixpoint fmt_dec_go (fuel : nat) (n : Z) (acc : list byte) : list byte :=
  match fuel with
  | O => acc
  | S f =>
    let acc := digit (n mod 10) :: acc in
    if n <? 10 then acc else fmt_dec_go f (n / 10) acc
  end.
(** One more digit than the number of bits is always enough. *)
Definition fmt_dec (n : Z) : list byte := fmt_dec_go (S (Z.to_nat (Z.log2 n))) n [].
Definition FormatUint (n : Z) : string := b2s (fmt_dec n).

Definition err_syntax : string := "invalid syntax".
Definition err_range : string := "value out of range".

(** The value and the error of [strconv.ParseUint(s, 10, 64)]. *)
Fixpoint parse_uint_go (l : list byte) (n : Z) : Z * option string :=
  match l with
  | [] => (n, None)
  | c :: l =>
    if negb (is_digit c) then (0, Some err_syntax)
    else
      let n1 := n * 10 + digit_val c in
      if 2 ^ 64 <=? n1 then (2 ^ 64 - 1, Some err_range) else parse_uint_go l n1
  end.
Definition ParseUint (s : string) : Z * option string :=
  match s2b s with
  | [] => (0, Some err_syntax)
  | l => parse_uint_go l 0
  end.

(** An optional sign: whether it is a minus, and the rest. *)
Definition split_sign (l : list byte) : bool * list byte :=
  match l with
  | c :: d =>
    if bool_decide (c = x2d) then (true, d)
    else if bool_decide (c = x2b) then (false, d) else (false, l)
  | [] => (false, [])
  end.

(** The value and the error of [strconv.Atoi] ([int] has 64 bits). *)
Definition Atoi (s : string) : Z * option string :=
  let '(neg, digits) := split_sign (s2b s) in
  match ParseUint (b2s digits) with
  | (un, err) =>
    if bool_decide (err = Some err_syntax) then (0, Some err_syntax)
    else if negb neg && (2 ^ 63 <=? un) then (2 ^ 63 - 1, Some err_range)
    else if neg && (2 ^ 63 <? un) then (- 2 ^ 63, Some err_range)
    else (if neg then - un else un, None)
  end.

(** ** Splitting and trimming *)

(** [strings.IndexByte] and [strings.LastIndexByte]. *)
Fixpoint index_byte (c : byte) (l : list byte) : option nat :=
  match l with
  | [] => None
  | x :: l => if bool_decide (x = c) then Some O else S <$> index_byte c l
  end.
Definition last_index_byte (c : byte) (l : list byte) : option nat :=
  (λ i, (length l - 1 - i)%nat) <$> index_byte c (rev l).

Fixpoint split_go (sep : byte) (l cur : list byte) : list (list byte) :=
  match l with
  | [] => [rev cur]
  | c :: l =>
    if bool_decide (c = sep) then rev cur :: split_go sep l [] else split_go sep l (c :: cur)
  end.
Definition split_on (sep : byte) (l : list byte) : list (list byte) := split_go sep l [].

Fixpoint has_prefix_b (p l : list byte) : bool :=
  match p, l with
  | [], _ => true
  | x :: p, y :: l => bool_decide (x = y) && has_prefix_b p l
  | _, _ => false
  end.
Definition has_prefix (s p : string) : bool := has_prefix_b (s2b p) (s2b s).

(** [strings.Contains], and SQLite's [instr(s, sub) > 0] for a non-empty [sub]. *)
Fixpoint contains_b (p l : list byte) : bool :=
  has_prefix_b p l || match l with [] => false | _ :: l => contains_b p l end.
Definition contains (s sub : string) : bool := contains_b (s2b sub) (s2b s).

(** The UTF-8 encodings of the characters [unicode.IsSpace] accepts. *)
Definition spaces : list (list byte) :=
  [[x09]; [x0a]; [x0b]; [x0c]; [x0d]; [x20]; [xc2; x85]; [xc2; xa0]; [xe1; x9a; x80]] ++
  map (λ b, [xe2; x80; b])
    [x80; x81; x82; x83; x84; x85; x86; x87; x88; x89; x8a; xa8; xa9; xaf] ++
  [[xe2; x81; x9f]; [xe3; x80; x80]].

Definition strip_space (l : list byte) : option (list byte) :=
  foldr (λ p r, if has_prefix_b p l then Some (drop (length p) l) else r) None spaces.
(** Reading backwards: the encodings reversed. *)
Definition strip_space_rev (l : list byte) : option (list byte) :=
  foldr (λ p r, if has_prefix_b (rev p) l then Some (drop (length p) l) else r) None spaces.

Fixpoint trim_go (strip : list byte → option (list byte)) (fuel : nat) (l : list byte) :=
  match fuel with
  | O => l
  | S f => match strip l with Some l' => trim_go strip f l' | None => l end
  end.
Definition trim_left (l : list byte) : list byte := trim_go strip_space (length l) l.
Definition trim_right (l : list byte) : list byte :=
  rev (trim_go strip_space_rev (length l) (rev l)).
Definition TrimSpace (s : string) : string := b2s (trim_right (trim_left (s2b s))).

(** ** Base 64 without padding *)

Definition b64_char (v : Z) : byte :=
  if v <? 26 then Zb (65 + v)
  else if v <? 52 then Zb (97 + (v - 26))
  else if v <? 62 then Zb (48 + (v - 52))
  else if v =? 62 then Zb 43 else Zb 47.
Definition b64_val (b : byte) : option Z :=
  let z := bZ b in
  if (65 <=? z) && (z <=? 90) then Some (z - 65)
  else if (97 <=? z) && (z <=? 122) then Some (z - 97 + 26)
  else if (48 <=? z) && (z <=? 57) then Some (z - 48 + 52)
  else if z =? 43 then Some 62
  else if z =? 47 then Some 63
  else None.

Fixpoint b64_encode (l : list byte) : list byte :=
  match l with
  | a :: b :: c :: l =>
    let v := bZ a * 65536 + bZ b * 256 + bZ c in
    b64_char (v / 262144) :: b64_char (v / 4096 mod 64) ::
    b64_char (v / 64 mod 64) :: b64_char (v mod 64) :: b64_encode l
  | [a; b] =>
    let v := bZ a * 65536 + bZ b * 256 in
    [b64_char (v / 262144); b64_char (v / 4096 mod 64); b64_char (v / 64 mod 64)]
  | [a] =>
    let v := bZ a * 65536 in [b64_char (v / 262144); b64_char (v / 4096 mod 64)]
  | [] => []
  end.

Fixpoint b64_quads (l : list Z) : option (list byte) :=
  match l with
  | a :: b :: c :: d :: l =>
    let v := a * 262144 + b * 4096 + c * 64 + d in
    r ← b64_quads l; Some (Zb (v / 65536) :: Zb (v / 256) :: Zb v :: r)
  | [a; b; c] =>
    let v := a * 262144 + b * 4096 + c * 64 in Some [Zb (v / 65536); Zb (v / 256)]
  | [a; b] => let v := a * 262144 + b * 4096 in Some [Zb (v / 65536)]
  | [a] => None
  | [] => Some []
  end.
Definition not_newline (b : byte) : bool := bool_decide (b ≠ x0a ∧ b ≠ x0d).
Definition b64_decode (l : list byte) : option (list byte) :=
  vs ← mapM b64_val (List.filter not_newline l); b64_quads vs.

Definition EncodeToString (l : list byte) : string := b2s (b64_encode l).
Definition DecodeString (s : string) : option (list byte) := b64_decode (s2b s).

(** ** [base32.StdEncoding] without padding, and [strings.ToLower] on ASCII *)

Definition b32_char (v : Z) : byte := if v <? 26 then Zb (65 + v) else Zb (24 + v).
Definition b32_group (l : list byte) : list byte :=
  let n := len l in
  let k := (8 * n + 4) / 5 in
  let v := Z.shiftl (be_get l) (5 * k - 8 * n) in
  map (λ i, b32_char (Z.land (Z.shiftr v (5 * (k - 1 - i))) 31)) (seqZ 0 k).
Fixpoint b32_encode (l : list byte) : list byte :=
  match l with
  | a :: b :: c :: d :: e :: r => b32_group [a; b; c; d; e] ++ b32_encode r
  | [] => []
  | l => b32_group l
  end.

Definition lower_byte (b : byte) : byte :=
  if (65 <=? bZ b) && (bZ b <=? 90) then Zb (bZ b + 32) else b.
Definition lower (s : string) : string := b2s (map lower_byte (s2b s)).

(** ** Lemmas: decimal numbers *)

Lemma digit_spec d :
  0 ≤ d < 10 → is_digit (digit d) = true ∧ digit_val (digit d) = d.
Proof.
  intros. unfold is_digit, digit_val, digit. rewrite bZ_Zb, Z.mod_small by lia. lia.
Qed.

Lemma fmt_dec_go_acc fuel n acc : fmt_dec_go fuel n acc = fmt_dec_go fuel n [] ++ acc.
Proof.
  revert n acc. induction fuel as [|f IH]; intros n acc; [done|]. simpl.
  case_match; [done|]. rewrite IH, (IH _ [_]). by rewrite <- (assoc_L (++)).
Qed.

Lemma fmt_dec_go_enough f1 f2 m :
  0 ≤ m < 10 ^ Z.of_nat (S f1) → m < 10 ^ Z.of_nat (S f2) →
  fmt_dec_go (S f1) m [] = fmt_dec_go (S f2) m [].
Proof.
  revert f2 m. induction f1 as [|f1 IH]; intros f2 m H1 H2.
  - change (10 ^ Z.of_nat 1) with 10 in H1. simpl.
    by rewrite (proj2 (Z.ltb_lt m 10)) by lia.
  - change (fmt_dec_go (S ?f) m []) with
      (if m <? 10 then [digit (m mod 10)] else fmt_dec_go f (m / 10) [digit (m mod 10)]).
    destruct (Z.ltb_spec m 10) as [|Hm]; [done|].
    rewrite fmt_dec_go_acc, (fmt_dec_go_acc f2). f_equal.
    rewrite Nat2Z.inj_succ, Z.pow_succ_r in H1, H2 by lia.
    destruct f2 as [|f2]; [change (10 ^ Z.of_nat 0) with 1 in H2; lia|].
    apply IH; [split; [apply Z.div_pos; lia|]|]; apply Z.div_lt_upper_bound; lia.
Qed.

Lemma log2_fuel n : 0 ≤ n → n < 10 ^ Z.of_nat (S (Z.to_nat (Z.log2 n))).
Proof.
  intros Hn. destruct (decide (n = 0)) as [->|Hn0]; [done|].
  pose proof (Z.log2_nonneg n). pose proof (Z.log2_spec n ltac:(lia)) as [_ Hs].
  eapply Z.lt_le_trans; [exact Hs|].
  rewrite Nat2Z.inj_succ, Z2Nat.id by lia. apply Z.pow_le_mono_l. lia.
Qed.

Lemma fmt_dec_eq n :
  0 ≤ n → fmt_dec n = if n <? 10 then [digit n] else fmt_dec (n / 10) ++ [digit (n mod 10)].
Proof.
  intros Hn. pose proof (log2_fuel n Hn) as Hf. unfold fmt_dec at 1. simpl.
  destruct (Z.ltb_spec n 10) as [|Hge]; [by rewrite Z.mod_small by lia|].
  rewrite fmt_dec_go_acc. f_equal. unfold fmt_dec.
  rewrite Nat2Z.inj_succ, Z.pow_succ_r in Hf by lia.
  destruct (Z.to_nat (Z.log2 n)) as [|f]; [change (10 ^ Z.of_nat 0) with 1 in Hf; lia|].
  assert (0 ≤ n / 10) by (apply Z.div_pos; lia).
  apply fmt_dec_go_enough; [split; [done|]; apply Z.div_lt_upper_bound; lia|].
  by apply log2_fuel.
Qed.

Lemma fmt_dec_ind (P : Z → Prop) :
  (∀ n, 0 ≤ n < 10 → P n) → (∀ n, 10 ≤ n → P (n / 10) → P n) → ∀ n, 0 ≤ n → P n.
Proof.
  intros H0 H1. apply (well_founded_induction (Z.lt_wf 0) (λ n, 0 ≤ n → P n)).
  intros n IH Hn. destruct (Z_lt_le_dec n 10); [by apply H0|].
  assert (0 ≤ n / 10 < n) by (split; [apply Z.div_pos; lia|apply Z.div_lt; lia]).
  apply H1; [done|]. apply IH; lia.
Qed.

Lemma fmt_dec_digits n : 0 ≤ n → Forall (λ b, is_digit b = true) (fmt_dec n).
Proof.
  revert n. apply fmt_dec_ind; intros n Hn; rewrite (fmt_dec_eq n) by lia;
    destruct (Z.ltb_spec n 10); try lia.
  - repeat constructor. by apply digit_spec.
  - intros IH. apply Forall_app; split; [done|]. repeat constructor.
    apply digit_spec, Z.mod_pos_bound. lia.
Qed.

Lemma fmt_dec_nonempty n : 0 ≤ n → fmt_dec n ≠ [].
Proof.
  intros Hn. rewrite fmt_dec_eq by done. case_match; [done|].
  intros [_ [=]]%app_eq_nil.
Qed.

Lemma parse_uint_go_app l k n v :
  parse_uint_go l n = (v, None) → parse_uint_go (l ++ k) n = parse_uint_go k v.
Proof.
  revert n. induction l as [|c l IH]; intros n; simpl; [by intros [= ->]|].
  repeat case_match; try done. apply IH.
Qed.

Lemma parse_fmt_dec n : 0 ≤ n < 2 ^ 64 → parse_uint_go (fmt_dec n) 0 = (n, None).
Proof.
  intros [Hn Hb]. revert n Hn Hb. apply (fmt_dec_ind (λ n, n < 2 ^ 64 → _)).
  - intros n Hn _. rewrite fmt_dec_eq, (proj2 (Z.ltb_lt _ _)) by lia. simpl.
    destruct (digit_spec n) as [-> ->]; [lia|]. simpl. case_match; bprop; [lia|done].
  - intros n Hn IH Hb. rewrite fmt_dec_eq, (proj2 (Z.ltb_ge _ _)) by lia.
    assert (n / 10 < 2 ^ 64) by (apply Z.div_lt_upper_bound; lia).
    rewrite (parse_uint_go_app _ _ _ (n / 10)) by auto. simpl.
    pose proof (Z.mod_pos_bound n 10 ltac:(lia)).
    destruct (digit_spec (n mod 10)) as [-> ->]; [lia|]. simpl.
    pose proof (Z.div_mod n 10 ltac:(lia)).
    case_match; bprop; [lia|]. f_equal. lia.
Qed.

Lemma ParseUint_FormatUint n : in_u64 n → ParseUint (FormatUint n) = (n, None).
Proof.
  intros Hn. unfold ParseUint, FormatUint. rewrite s2b_b2s.
  pose proof (parse_fmt_dec n Hn) as Hp. pose proof (fmt_dec_nonempty n (proj1 Hn)).
  by destruct (fmt_dec n).
Qed.

Lemma parse_uint_go_range l n v o :
  in_u64 n → parse_uint_go l n = (v, o) → in_u64 v.
Proof.
  unfold in_u64. revert n. induction l as [|c l IH]; intros n Hn; simpl; [by intros [= <-]|].
  unfold is_digit, digit_val. repeat case_match; intros [= <- <-] || intros H'; bprop; try lia.
  eapply IH; [|done]. lia.
Qed.

Lemma ParseUint_range s v o : ParseUint s = (v, o) → in_u64 v.
Proof.
  unfold ParseUint. case_match; [intros [= <- _]; split; lia|].
  apply parse_uint_go_range. split; lia.
Qed.

(** ** Lemmas: base 64 *)

Lemma b64_val_char v : 0 ≤ v < 64 → b64_val (b64_char v) = Some v.
Proof.
  intros Hv. pose proof (range_check (λ v, bool_decide (b64_val (b64_char v) = Some v)) 0 64 v
    ltac:(by vm_compute) Hv) as H. by apply bool_decide_eq_true in H.
Qed.

Lemma b64_char_not_newline v : 0 ≤ v < 64 → not_newline (b64_char v) = true.
Proof.
  intros Hv. by apply (range_check (λ v, not_newline (b64_char v)) 0 64); [vm_compute|].
Qed.

(** The 6-bit groups of a byte sequence. *)
Fixpoint b64_groups (l : list byte) : list Z :=
  match l with
  | a :: b :: c :: l =>
    let v := bZ a * 65536 + bZ b * 256 + bZ c in
    v / 262144 :: v / 4096 mod 64 :: v / 64 mod 64 :: v mod 64 :: b64_groups l
  | [a; b] =>
    let v := bZ a * 65536 + bZ b * 256 in [v / 262144; v / 4096 mod 64; v / 64 mod 64]
  | [a] => let v := bZ a * 65536 in [v / 262144; v / 4096 mod 64]
  | [] => []
  end.

Lemma list_ind3 {A} (P : list A → Prop) :
  P [] → (∀ a, P [a]) → (∀ a b, P [a; b]) → (∀ a b c l, P l → P (a :: b :: c :: l)) → ∀ l, P l.
Proof.
  intros H0 H1 H2 H3. fix IH 1. intros [|a [|b [|c l]]]; [done|done|done|]. apply H3, IH.
Qed.

Lemma b64_groups_spec l :
  b64_encode l = map b64_char (b64_groups l) ∧ Forall (λ v, 0 ≤ v < 64) (b64_groups l).
Proof.
  induction l as [|a|a b|a b c l [IH1 IH2]] using list_ind3; simpl;
    (split; [by rewrite ?IH1|]); repeat constructor; auto;
    try (apply Z.mod_pos_bound; lia);
    try (apply Z.div_pos; [|lia]); try (apply Z.div_lt_upper_bound; [lia|]);
    pose proof (bZ_range a); try pose proof (bZ_range b); try pose proof (bZ_range c); lia.
Qed.

Lemma b64_quads_groups l : b64_quads (b64_groups l) = Some l.
Proof.
  induction l as [|a|a b|a b c l IH] using list_ind3; simpl; [done|..];
    pose proof (bZ_range a); try pose proof (bZ_range b); try pose proof (bZ_range c);
    rewrite ?IH; simpl; repeat f_equal; apply bZ_inj; rewrite bZ_Zb;
    Z.div_mod_to_equations; lia.
Qed.

Lemma b64_decode_encode l : b64_decode (b64_encode l) = Some l.
Proof.
  destruct (b64_groups_spec l) as [He Hf]. unfold b64_decode. rewrite He.
  assert (List.filter not_newline (map b64_char (b64_groups l)) = map b64_char (b64_groups l))
    as ->.
  { clear He. induction Hf; simpl; [done|]. rewrite b64_char_not_newline by done.
    by f_equal. }
  assert (mapM b64_val (map b64_char (b64_groups l)) = Some (b64_groups l)) as ->.
  { clear He. induction Hf as [|v vs Hv _ IH]; [done|]. simpl.
    rewrite b64_val_char by done. simpl. by rewrite IH. }
  apply b64_quads_groups.
Qed.

Lemma DecodeString_EncodeToString l : DecodeString (EncodeToString l) = Some l.
Proof. unfold DecodeString, EncodeToString. rewrite s2b_b2s. apply b64_decode_encode. Qed.

#[export] Hint Rewrite ParseUint_FormatUint DecodeString_EncodeToString : tyx.

(** ** Lemmas: splitting *)

Lemma split_go_app sep a l cur :
  sep ∉ a → split_go sep (a ++ sep :: l) cur = rev (rev a ++ cur) :: split_on sep l.
Proof.
  revert cur. induction a as [|c a IH]; intros cur Hs.
  - cbn [app split_go]. by rewrite bool_decide_eq_true_2 by done.
  - apply not_elem_of_cons in Hs as [Hc Ha]. cbn [app split_go].
    rewrite bool_decide_eq_false_2 by done. rewrite IH by done. cbn [rev].
    by rewrite <- (assoc_L (++)).
Qed.

Lemma split_on_app sep a l :
  sep ∉ a → split_on sep (a ++ sep :: l) = a :: split_on sep l.
Proof.
  intros Ha. unfold split_on at 1. rewrite split_go_app by done.
  by rewrite app_nil_r, rev_involutive.
Qed.

Lemma split_on_last sep a : sep ∉ a → split_on sep a = [a].
Proof.
  intros Ha. unfold split_on. cut (∀ cur, split_go sep a cur = [rev (rev a ++ cur)]).
  { intros ->. by rewrite app_nil_r, rev_involutive. }
  induction a as [|c a IH]; intros cur; [done|]. apply not_elem_of_cons in Ha as [Hc Ha].
  cbn [split_go]. rewrite bool_decide_eq_false_2 by done. rewrite IH by done. cbn [rev].
  by rewrite <- (assoc_L (++)).
Qed.
