(* ===== verification/Net.v ===== *)
(** * Net: the parts of Go's [net] that TyxNet uses

    A [net.IP] is a byte slice: 4 or 16 bytes, or empty for nil.  [To4],
    [ip_equal], [ip_string], [IsLoopback] are its methods; [ParseIP],
    [ParseCIDR], [Contains], [mask_size] are the functions on addresses and
    networks as of Go 1.25 ([net/netip]'s parsers, IPv6 text included);
    [SplitHostPort] splits [host:port].  The lemmas give what the components
    need: dotted-decimal text is parsed back, so it is injective on IPv4
    addresses, and an IPv4 network contains exactly an interval. *)
From S2P Require Import Prelude Text.
From Stdlib Require Import Init.Byte Strings.Byte.

(** ** Addresses *)

Definition v4InV6Prefix : list byte := replicate 10 x00 ++ [xff; xff].

(** [ip.To4()]; the empty list is nil. *)
Definition To4 (ip : list byte) : list byte :=
  if bool_decide (length ip = 4)%nat then ip
  else if bool_decide (length ip = 16)%nat && bool_decide (take 12 ip = v4InV6Prefix)
  then drop 12 ip else [].

Definition ip_equal (ip x : list byte) : bool :=
  if bool_decide (length ip = length x) then bool_decide (ip = x)
  else if bool_decide (length ip = 4)%nat && bool_decide (length x = 16)%nat then
    bool_decide (take 12 x = v4InV6Prefix) && bool_decide (ip = drop 12 x)
  else if bool_decide (length ip = 16)%nat && bool_decide (length x = 4)%nat then
    bool_decide (take 12 ip = v4InV6Prefix) && bool_decide (drop 12 ip = x)
  else false.

Definition IsLoopback (ip : list byte) : bool :=
  match To4 ip with
  | b :: _ => bool_decide (b = x7f)
  | [] => bool_decide (ip = replicate 15 x00 ++ [x01])
  end.

(** *** Text *)

Definition dot : byte := x2e.
Definition colon : byte := x3a.

Fixpoint join (sep : byte) (ls : list (list byte)) : list byte :=
  match ls with
  | [] => []
  | [l] => l
  | l :: ls => l ++ sep :: join sep ls
  end.

Definition ip4_text (ip : list byte) : list byte := join dot (map (λ b, fmt_dec (bZ b)) ip).

Definition hex_digit (d : Z) : byte := if d <? 10 then Zb (48 + d) else Zb (87 + d).
(** [appendHex] of [net/netip]: four digits without leading zeros. *)
Definition hex_text (x : Z) : list byte :=
  (if 4096 <=? x then [hex_digit (x / 4096)] else []) ++
  (if 256 <=? x then [hex_digit (x / 256 mod 16)] else []) ++
  (if 16 <=? x then [hex_digit (x / 16 mod 16)] else []) ++ [hex_digit (x mod 16)].

Fixpoint ip6_groups (ip : list byte) : list Z :=
  match ip with
  | a :: b :: ip => be_get [a; b] :: ip6_groups ip
  | _ => []
  end.
Fixpoint zero_run (g : list Z) : nat :=
  match g with z :: g => if z =? 0 then S (zero_run g) else 0 | [] => 0 end.
(** Start and length of the first longest run of at least two zero groups. *)
Fixpoint best_run (g : list Z) (i : nat) (best : nat * nat) : nat * nat :=
  match g with
  | [] => best
  | _ :: g' =>
    let l := zero_run g in
    best_run g' (S i)
      (if bool_decide (2 ≤ l)%nat && bool_decide (best.2 < l)%nat then (i, l) else best)
  end.
Fixpoint ip6_emit (fuel : nat) (g : list Z) (i : nat) (best : nat * nat) : list byte :=
  match fuel, g with
  | S f, x :: g' =>
    if bool_decide (0 < best.2)%nat && bool_decide (i = best.1) then
      let g := drop best.2 g in
      colon :: colon ::
        match g with
        | [] => []
        | x :: g' => hex_text x ++ ip6_emit f g' (i + best.2 + 1) best
        end
    else (if bool_decide (0 < i)%nat then [colon] else []) ++
         hex_text x ++ ip6_emit f g' (S i) best
  | _, _ => []
  end.
Definition ip6_text (ip : list byte) : list byte :=
  let g := ip6_groups ip in ip6_emit 8 g 0 (best_run g 0 (0, 0)%nat).

Definition hex_all (ip : list byte) : list byte :=
  concat (map (λ b, [hex_digit (bZ b / 16); hex_digit (bZ b mod 16)]) ip).

(** [ip.String()]. *)
Definition ip_string (ip : list byte) : string :=
  if bool_decide (ip = []) then "<nil>"
  else if negb (bool_decide (length ip = 4)%nat || bool_decide (length ip = 16)%nat)
  then b2s (x3f :: hex_all ip)
  else match To4 ip with
       | [] => b2s (ip6_text ip)
       | p4 => b2s (ip4_text p4)
       end.

(** *** Parsing *)

(** [parseIPv4Fields]: the current value, its number of digits, the fields read. *)
Fixpoint parse_ip4_go (l : list byte) (v digits : Z) (fields : list byte) : option (list byte) :=
  match l with
  | [] => if (length fields =? 3)%nat && negb (digits =? 0) then Some (fields ++ [Zb v]) else None
  | c :: l =>
    if is_digit c then
      if (digits =? 1) && (v =? 0) then None
      else
        let v := v * 10 + digit_val c in
        if 255 <? v then None else parse_ip4_go l v (digits + 1) fields
    else if bool_decide (c = dot) then
      if (digits =? 0) || (length fields =? 3)%nat then None
      else parse_ip4_go l 0 0 (fields ++ [Zb v])
    else None
  end.
Definition parse_ip4 (l : list byte) : option (list byte) := parse_ip4_go l 0 0 [].

Definition hex_val (b : byte) : option Z :=
  let z := bZ b in
  if (48 <=? z) && (z <=? 57) then Some (z - 48)
  else if (97 <=? z) && (z <=? 102) then Some (z - 87)
  else if (65 <=? z) && (z <=? 70) then Some (z - 55)
  else None.
(** The hexadecimal group at the head: its value, its digits, the rest. *)
Fixpoint take_hex (l : list byte) (acc : Z) (digits : nat) : option (Z * nat * list byte) :=
  match l with
  | [] => Some (acc, digits, [])
  | c :: l' =>
    match hex_val c with
    | None => Some (acc, digits, l)
    | Some d => if bool_decide (4 ≤ digits)%nat then None else take_hex l' (acc * 16 + d) (S digits)
    end
  end.
(** The bytes read so far and the position of "::", if any. *)
Definition ip6_finish (ip : list byte) (ellipsis : option nat) : option (list byte) :=
  match ellipsis with
  | None => if bool_decide (length ip = 16)%nat then Some ip else None
  | Some e =>
    if bool_decide (length ip < 16)%nat
    then Some (take e ip ++ replicate (16 - length ip) x00 ++ drop e ip) else None
  end.
Fixpoint parse_ip6_go (fuel : nat) (s ip : list byte) (ellipsis : option nat)
    : option (list byte) :=
  match fuel with
  | O => None
  | S f =>
    if bool_decide (16 ≤ length ip)%nat then
      if bool_decide (s = []) then ip6_finish ip ellipsis else None
    else
      match take_hex s 0 0 with
      | None => None
      | Some (_, O, _) => None
      | Some (acc, _, rest) =>
        match rest with
        | [] => ip6_finish (ip ++ be_put 2 acc) ellipsis
        | c :: rest' =>
          if bool_decide (c = dot) then
            if (bool_decide (ellipsis = None) && negb (bool_decide (length ip = 12)%nat)) ||
               bool_decide (12 < length ip)%nat then None
            else ip4 ← parse_ip4 s; ip6_finish (ip ++ ip4) ellipsis
          else if negb (bool_decide (c = colon)) then None
          else
            let ip := ip ++ be_put 2 acc in
            match rest' with
            | [] => None
            | c' :: rest'' =>
              if bool_decide (c' = colon) then
                if bool_decide (ellipsis = None) then
                  if bool_decide (rest'' = []) then ip6_finish ip (Some (length ip))
                  else parse_ip6_go f rest'' ip (Some (length ip))
                else None
              else parse_ip6_go f rest' ip ellipsis
            end
        end
      end
  end.
Definition parse_ip6 (s : list byte) : option (list byte) :=
  match s with
  | x3a :: x3a :: [] => Some (replicate 16 x00)
  | x3a :: x3a :: s' => parse_ip6_go 9 s' [] (Some 0%nat)
  | _ => parse_ip6_go 9 s [] None
  end.

(** [netip.ParseAddr]: the first of '.', ':' and '%' decides the format.  A zone
    is refused by both callers below, and a '%' makes every group fail here. *)
Fixpoint parse_addr_go (s l : list byte) : option (list byte) :=
  match l with
  | [] => None
  | c :: l =>
    if bool_decide (c = dot) then parse_ip4 s
    else if bool_decide (c = colon) then parse_ip6 s
    else if bool_decide (c = x25) then None
    else parse_addr_go s l
  end.
Definition parse_addr (s : string) : option (list byte) := parse_addr_go (s2b s) (s2b s).

(** The 16-byte form. *)
Definition As16 (ip : list byte) : list byte :=
  if bool_decide (length ip = 4)%nat then v4InV6Prefix ++ ip else ip.
(** [net.ParseIP]; the empty list is nil. *)
Definition ParseIP (s : string) : list byte :=
  match parse_addr s with Some ip => As16 ip | None => [] end.

(** ** Networks *)

Record IPNet := mkIPNet { nIP : list byte; nMask : list byte }.

Definition band (a b : byte) : byte := Zb (Z.land (bZ a) (bZ b)).
Definition bor (a b : byte) : byte := Zb (Z.lor (bZ a) (bZ b)).
Definition bnot (a : byte) : byte := Zb (255 - bZ a).

(** [CIDRMask(ones, 8*n)]. *)
Fixpoint CIDRMask (ones : Z) (n : nat) : list byte :=
  match n with
  | O => []
  | S n =>
    if 8 <=? ones then xff :: CIDRMask (ones - 8) n
    else bnot (Zb (Z.shiftr 255 ones)) :: CIDRMask 0 n
  end.

(** [ip.Mask(mask)] for a mask of 4 or 16 bytes. *)
Definition ip_mask (ip mask : list byte) : list byte :=
  let ip := if bool_decide (length mask = 4)%nat && bool_decide (length ip = 16)%nat &&
               bool_decide (take 12 ip = v4InV6Prefix) then drop 12 ip else ip in
  if bool_decide (length ip = length mask) then zip_with band ip mask else [].

(** [dtoi]: digits only, below 0xFFFFFF. *)
Fixpoint dtoi (l : list byte) (n : Z) : option Z :=
  match l with
  | [] => Some n
  | c :: l =>
    if is_digit c then
      let n := n * 10 + digit_val c in if 16777215 <=? n then None else dtoi l n
    else None
  end.

Fixpoint cut_go (sep : byte) (l acc : list byte) : option (list byte * list byte) :=
  match l with
  | [] => None
  | c :: l => if bool_decide (c = sep) then Some (rev acc, l) else cut_go sep l (c :: acc)
  end.
Definition cut (sep : byte) (l : list byte) : option (list byte * list byte) := cut_go sep l [].

(** [net.ParseCIDR]: the address in 16-byte form and the network. *)
Definition ParseCIDR (s : string) : option (list byte * IPNet) :=
  '(addr, mask) ← cut x2f (s2b s);
  ip ← parse_addr (b2s addr);
  n ← (if bool_decide (mask = []) then None else dtoi mask 0);
  if 8 * len ip <? n then None
  else
    let m := CIDRMask n (length ip) in
    Some (As16 ip, mkIPNet (ip_mask (As16 ip) m) m).

(** [n.Contains(ip)]. *)
Definition networkNumberAndMask (n : IPNet) : option (list byte * list byte) :=
  let ip := match To4 (nIP n) with [] => nIP n | ip4 => ip4 end in
  if negb (bool_decide (length ip = 4)%nat || bool_decide (length ip = 16)%nat) then None
  else if bool_decide (length (nMask n) = 4)%nat then
    if bool_decide (length ip = 4)%nat then Some (ip, nMask n) else None
  else if bool_decide (length (nMask n) = 16)%nat then
    Some (ip, if bool_decide (length ip = 4)%nat then drop 12 (nMask n) else nMask n)
  else None.
Definition Contains (n : IPNet) (ip : list byte) : bool :=
  let '(nn, m) := default ([], []) (networkNumberAndMask n) in
  let ip := match To4 ip with [] => ip | x => x end in
  bool_decide (length ip = length nn) &&
  bool_decide (zip_with band nn m = zip_with band ip m).

(** [n.Mask.Size()]: the number of leading ones and the number of bits, (0, 0)
    when the mask is not ones followed by zeros. *)
Fixpoint simpleMaskLength (mask : list byte) : option Z :=
  match mask with
  | [] => Some 0
  | b :: mask =>
    if bool_decide (b = xff) then n ← simpleMaskLength mask; Some (n + 8)
    else if forallb (λ b, bool_decide (b = x00)) mask then
      head (List.filter (λ n, bool_decide (b = bnot (Zb (Z.shiftr 255 n)))) (seqZ 0 8))
    else None
  end.
Definition mask_size (mask : list byte) : Z * Z :=
  match simpleMaskLength mask with
  | Some n => (n, 8 * len mask)
  | None => (0, 0)
  end.

(** ** Hosts and ports *)

Definition has_byte (c : byte) (l : list byte) : bool := bool_decide (c ∈ l).

(** [net.SplitHostPort]; which error it is does not matter to the callers. *)
Definition SplitHostPort (hostport : string) : option (string * string) :=
  let l := s2b hostport in
  match last_index_byte colon l with
  | None => None
  | Some i =>
    let port := b2s (drop (S i) l) in
    if bool_decide (head l = Some x5b) then
      match index_byte x5d l with
      | None => None
      | Some e =>
        if negb (bool_decide (S e = i)) then None
        else if has_byte x5b (drop 1 l) || has_byte x5d (drop (S e) l) then None
        else Some (b2s (slice 1 e l), port)
      end
    else
      let host := take i l in
      if has_byte colon host || has_byte x5b l || has_byte x5d l then None
      else Some (b2s host, port)
  end.

Definition JoinHostPort (host port : string) : string :=
  if has_byte colon (s2b host) then "[" +:+ host +:+ "]:" +:+ port else host +:+ ":" +:+ port.

(** ** Lemmas: text of IPv4 addresses *)

(** The value and digits after reading decimal digits. *)
Fixpoint scan_digits (l : list byte) (v digits : Z) : option (Z * Z) :=
  match l with
  | [] => Some (v, digits)
  | c :: l =>
    if is_digit c then
      if (digits =? 1) && (v =? 0) then None
      else
        let v := v * 10 + digit_val c in
        if 255 <? v then None else scan_digits l v (digits + 1)
    else None
  end.

Lemma parse_ip4_scan l k v d fields v' d' :
  scan_digits l v d = Some (v', d') →
  parse_ip4_go (l ++ k) v d fields = parse_ip4_go k v' d' fields.
Proof.
  revert v d. induction l as [|c l IH]; intros v d; simpl; [by intros [= -> ->]|].
  repeat case_match; try done. apply IH.
Qed.

Lemma scan_octet b :
  ∃ d, scan_digits (fmt_dec (bZ b)) 0 0 = Some (bZ b, d) ∧ 0 < d.
Proof.
  set (P b := match scan_digits (fmt_dec (bZ b)) 0 0 with
              | Some (v, d) => (v =? bZ b) && (0 <? d) | None => false end).
  assert (P b = true) as H by (apply byte_check; by vm_compute).
  unfold P in H. case_match; [|done]. case_match. bprop. subst. eauto.
Qed.

Lemma parse_octet_dot b k fields :
  (length fields < 3)%nat →
  parse_ip4_go (fmt_dec (bZ b) ++ dot :: k) 0 0 fields = parse_ip4_go k 0 0 (fields ++ [b]).
Proof.
  intros Hf. destruct (scan_octet b) as (d & Hs & Hd).
  rewrite (parse_ip4_scan _ _ _ _ _ _ _ Hs). cbn [parse_ip4_go].
  change (is_digit dot) with false. cbn iota. rewrite bool_decide_eq_true_2 by done.
  rewrite (proj2 (Z.eqb_neq _ _)), (proj2 (Nat.eqb_neq _ _)) by lia. simpl orb. cbn iota.
  by rewrite Zb_bZ.
Qed.

Lemma parse_octet_end b fields :
  length fields = 3%nat → parse_ip4_go (fmt_dec (bZ b)) 0 0 fields = Some (fields ++ [b]).
Proof.
  intros Hf. destruct (scan_octet b) as (d & Hs & Hd).
  rewrite <- (app_nil_r (fmt_dec _)), (parse_ip4_scan _ _ _ _ _ _ _ Hs). cbn [parse_ip4_go].
  rewrite (proj2 (Z.eqb_neq _ _)), (proj2 (Nat.eqb_eq _ _)) by lia. cbn [andb negb].
  by rewrite Zb_bZ.
Qed.

Lemma parse_ip4_text ip : length ip = 4%nat → parse_ip4 (ip4_text ip) = Some ip.
Proof.
  destruct ip as [|a [|b [|c [|d [|? ?]]]]]; try done. intros _.
  unfold parse_ip4, ip4_text. cbn [map join].
  rewrite !parse_octet_dot by (simpl; lia). by rewrite parse_octet_end.
Qed.

Lemma To4_of_4 ip : length ip = 4%nat → To4 ip = ip.
Proof. intros. unfold To4. by rewrite bool_decide_eq_true_2. Qed.

Lemma ip_string_4 ip : length ip = 4%nat → ip_string ip = b2s (ip4_text ip).
Proof.
  intros Hl. unfold ip_string. rewrite bool_decide_eq_false_2 by by intros ->.
  rewrite (bool_decide_eq_true_2 (length ip = 4)%nat) by done. cbn [orb negb].
  rewrite To4_of_4 by done. by destruct ip.
Qed.

Lemma ip_string_inj ip1 ip2 :
  length ip1 = 4%nat → length ip2 = 4%nat → ip_string ip1 = ip_string ip2 → ip1 = ip2.
Proof.
  intros H1 H2. rewrite !ip_string_4 by done. intros E%(inj b2s).
  apply (f_equal parse_ip4) in E. rewrite !parse_ip4_text in E by done. by simplify_eq.
Qed.

(** The first separator of a dotted text is a dot. *)
Lemma parse_addr_digits s l k :
  Forall (λ b, is_digit b = true) l → parse_addr_go s (l ++ dot :: k) = parse_ip4 s.
Proof.
  induction 1 as [|c l Hc Hl IH]; cbn [app parse_addr_go].
  - by rewrite bool_decide_eq_true_2.
  - unfold is_digit in Hc. bprop.
    rewrite !bool_decide_eq_false_2; [done|..]; intros ->; by vm_compute in Hc || done.
Qed.

Lemma parse_addr_string ip : length ip = 4%nat → parse_addr (ip_string ip) = Some ip.
Proof.
  intros Hl. rewrite ip_string_4 by done. unfold parse_addr. rewrite s2b_b2s.
  etrans; [|by apply parse_ip4_text].
  destruct ip as [|a [|b ip]]; [done..|].
  apply parse_addr_digits, fmt_dec_digits, bZ_range.
Qed.

Lemma ParseIP_string ip : length ip = 4%nat → To4 (ParseIP (ip_string ip)) = ip.
Proof.
  intros Hl. unfold ParseIP. rewrite parse_addr_string by done. unfold As16.
  rewrite bool_decide_eq_true_2 by done. unfold To4.
  rewrite length_app, Hl. cbn [length]. rewrite bool_decide_eq_false_2 by done.
  rewrite bool_decide_eq_true_2 by done. by rewrite bool_decide_eq_true_2.
Qed.

Lemma To4_length ip : To4 ip = [] ∨ length (To4 ip) = 4%nat.
Proof.
  unfold To4. case_bool_decide; [by right|]. destruct (_ && _) eqn:E; [|by left].
  bprop. right. rewrite length_drop. lia.
Qed.

Lemma ip_equal_4 a b : length a = 4%nat → length b = 4%nat → ip_equal a b = bool_decide (a = b).
Proof. intros Ha Hb. unfold ip_equal. by rewrite bool_decide_eq_true_2 by by rewrite Ha, Hb. Qed.

(** ** Lemmas: IPv4 networks are intervals *)

Lemma bits_byte_high b i : 8 ≤ i → Z.testbit (bZ b) i = false.
Proof.
  intros Hi. rewrite <- (Z.mod_small (bZ b) (2 ^ 8)) by apply bZ_range.
  by apply Z.mod_pow2_bits_high.
Qed.

Lemma band_bZ a b : bZ (band a b) = Z.land (bZ a) (bZ b).
Proof.
  unfold band. rewrite bZ_Zb. change 256 with (2 ^ 8). rewrite <- Z.land_ones by lia.
  apply Z.bits_inj'. intros i Hi. rewrite !Z.land_spec, Z.testbit_ones_nonneg by lia.
  destruct (Z.ltb_spec i 8); [by rewrite andb_true_r|].
  by rewrite (bits_byte_high a) by lia.
Qed.

Lemma be_get_band a m :
  length a = length m → be_get (zip_with band a m) = Z.land (be_get a) (be_get m).
Proof.
  revert m. induction a as [|b a IH] using rev_ind; intros m Hl.
  - by destruct m.
  - rewrite length_app in Hl. simpl in Hl. induction m as [|c m _] using rev_ind; [simpl in Hl; lia|].
    rewrite length_app in Hl. simpl in Hl. rewrite zip_with_app by lia. simpl.
    rewrite !be_get_snoc, IH, band_bZ by lia.
    rewrite <- !lor_shiftl_add; [|apply bZ_range..|rewrite <- band_bZ; apply bZ_range].
    apply Z.bits_inj'. intros i Hi. rewrite Z.land_spec, !Z.lor_spec, !Z.shiftl_spec, !Z.land_spec
      by done.
    destruct (decide (i < 8)).
    + by rewrite !(Z.testbit_neg_r _ (i - 8)) by lia.
    + by rewrite !bits_byte_high, !orb_false_r by lia.
Qed.

Lemma CIDRMask_4 n : 0 ≤ n ≤ 32 → be_get (CIDRMask n 4) = 2 ^ 32 - 2 ^ (32 - n).
Proof.
  intros Hn. apply Z.eqb_eq.
  by apply (range_check (λ n, be_get (CIDRMask n 4) =? 2 ^ 32 - 2 ^ (32 - n)) 0 33);
    [vm_compute|lia].
Qed.

Lemma CIDRMask_length ones n : length (CIDRMask ones n) = n.
Proof. revert ones. induction n; intros; simpl; [done|]. case_match; simpl; auto. Qed.

Lemma land_cidr x n :
  0 ≤ x < 2 ^ 32 → 0 ≤ n ≤ 32 →
  Z.land x (2 ^ 32 - 2 ^ (32 - n)) = x / 2 ^ (32 - n) * 2 ^ (32 - n).
Proof.
  intros Hx Hn. rewrite <- Z.shiftr_div_pow2, <- Z.shiftl_mul_pow2 by lia.
  replace (2 ^ 32 - 2 ^ (32 - n)) with (Z.shiftl (Z.ones n) (32 - n)).
  2:{ rewrite Z.shiftl_mul_pow2, Z.ones_equiv by lia. unfold Z.pred.
      rewrite Z.mul_add_distr_r, <- Z.pow_add_r by lia. replace (n + (32 - n)) with 32 by lia. lia. }
  apply Z.bits_inj'. intros i Hi. rewrite Z.land_spec, !Z.shiftl_spec by lia.
  destruct (decide (i < 32 - n)).
  { by rewrite !(Z.testbit_neg_r _ (i - (32 - n))), andb_false_r by lia. }
  rewrite Z.shiftr_spec, Z.testbit_ones_nonneg by lia.
  replace (i - (32 - n) + (32 - n)) with i by lia.
  destruct (Z.ltb_spec (i - (32 - n)) n); [by rewrite andb_true_r|].
  rewrite <- (Z.mod_small x (2 ^ 32)) by done. by rewrite Z.mod_pow2_bits_high by lia.
Qed.

Lemma Contains_4 base ip n :
  length base = 4%nat → length ip = 4%nat → 0 ≤ n ≤ 32 →
  Contains (mkIPNet base (CIDRMask n 4)) ip =
  (be_get base / 2 ^ (32 - n) =? be_get ip / 2 ^ (32 - n)).
Proof.
  intros Hb Hi Hn. unfold Contains, networkNumberAndMask. cbn [nIP nMask].
  rewrite !To4_of_4 by done.
  assert (∀ l : list byte, match l with [] => l | b :: l' => b :: l' end = l) as Hm
    by by intros [].
  rewrite !Hm, CIDRMask_length. rewrite !(bool_decide_eq_true_2 (length base = 4)%nat) by done.
  cbn [orb negb]. rewrite (bool_decide_eq_true_2 (4 = 4)%nat) by done. cbn [default from_option id].
  rewrite bool_decide_eq_true_2 by congruence. cbn [andb].
  apply (f_equal Z.of_nat) in Hb as Hb', Hi as Hi'.
  pose proof (be_get_range base) as Rb. pose proof (be_get_range ip) as Ri.
  unfold len in Rb, Ri. rewrite Hb in Rb. rewrite Hi in Ri.
  change (256 ^ Z.of_nat 4) with (2 ^ 32) in Rb, Ri.
  apply eq_bool_prop_intro. rewrite bool_decide_spec. rewrite Is_true_true, Z.eqb_eq.
  pose proof (Z.pow_pos_nonneg 2 (32 - n) ltac:(lia) ltac:(lia)).
  split; intros E.
  - apply (f_equal be_get) in E. rewrite !be_get_band in E by (rewrite CIDRMask_length; lia).
    rewrite CIDRMask_4, !land_cidr in E by lia. nia.
  - apply be_get_inj; [rewrite !length_zip_with, CIDRMask_length; lia|].
    rewrite !be_get_band by (rewrite CIDRMask_length; lia).
    rewrite CIDRMask_4, !land_cidr by lia. by rewrite E.
Qed.

Lemma bor_bZ a b : bZ (bor a b) = Z.lor (bZ a) (bZ b).
Proof.
  unfold bor. rewrite bZ_Zb. change 256 with (2 ^ 8). rewrite <- Z.land_ones by lia.
  apply Z.bits_inj'. intros i Hi. rewrite Z.land_spec, !Z.lor_spec, Z.testbit_ones_nonneg by lia.
  destruct (Z.ltb_spec i 8); [by rewrite andb_true_r|].
  by rewrite !bits_byte_high by lia.
Qed.

Lemma be_get_bor a m :
  length a = length m → be_get (zip_with bor a m) = Z.lor (be_get a) (be_get m).
Proof.
  revert m. induction a as [|b a IH] using rev_ind; intros m Hl.
  - by destruct m.
  - rewrite length_app in Hl. simpl in Hl. induction m as [|c m _] using rev_ind; [simpl in Hl; lia|].
    rewrite length_app in Hl. simpl in Hl. rewrite zip_with_app by lia. simpl.
    rewrite !be_get_snoc, IH, bor_bZ by lia.
    rewrite <- !lor_shiftl_add; [|apply bZ_range..|rewrite <- bor_bZ; apply bZ_range].
    apply Z.bits_inj'. intros i Hi. rewrite !Z.lor_spec, !Z.shiftl_spec, !Z.lor_spec by done.
    by destruct (Z.testbit (be_get a) (i - 8)), (Z.testbit (bZ b) i),
      (Z.testbit (be_get m) (i - 8)), (Z.testbit (bZ c) i).
Qed.

Lemma be_get_bnot_mask n : 0 ≤ n ≤ 32 → be_get (map bnot (CIDRMask n 4)) = 2 ^ (32 - n) - 1.
Proof.
  intros Hn. apply Z.eqb_eq.
  by apply (range_check (λ n, be_get (map bnot (CIDRMask n 4)) =? 2 ^ (32 - n) - 1) 0 33);
    [vm_compute|lia].
Qed.

Lemma mask_size_4 n : 0 ≤ n ≤ 32 → mask_size (CIDRMask n 4) = (n, 32).
Proof.
  intros Hn.
  pose proof (range_check (λ n, let '(a, b) := mask_size (CIDRMask n 4) in (a =? n) && (b =? 32))
    0 33 n ltac:(by vm_compute) ltac:(lia)) as Hc. cbv beta in Hc. destruct (mask_size _). bprop. by subst.
Qed.

Lemma mask_size_bits m ones : mask_size m = (ones, 32) → length m = 4%nat.
Proof. unfold mask_size, len. case_match; intros [=]; lia. Qed.

(** The broadcast address of a network. *)
Lemma bor_broadcast base n :
  length base = 4%nat → 0 ≤ n ≤ 32 → be_get base mod 2 ^ (32 - n) = 0 →
  be_get (zip_with bor base (map bnot (CIDRMask n 4))) = be_get base + (2 ^ (32 - n) - 1).
Proof.
  intros Hl Hn Hm. rewrite be_get_bor by (rewrite length_map, CIDRMask_length; done).
  rewrite be_get_bnot_mask by done. symmetry. apply Z.add_nocarry_lor.
  apply Z.bits_inj'. intros i Hi. rewrite Z.land_spec, Z.bits_0.
  replace (2 ^ (32 - n) - 1) with (Z.ones (32 - n)) by (rewrite Z.ones_equiv; lia).
  rewrite Z.testbit_ones_nonneg by lia. destruct (Z.ltb_spec i (32 - n)); [|apply andb_false_r].
  rewrite andb_true_r. rewrite <- (Z.mod_pow2_bits_low (be_get base) (32 - n)) by lia.
  by rewrite Hm, Z.bits_0.
Qed.

Lemma dtoi_range l n m : dtoi l n = Some m → 0 ≤ n → 0 ≤ m.
Proof.
  revert n. induction l as [|c l IH]; simpl; [by intros n [= <-]|]. intros n.
  destruct (is_digit c) eqn:Hc; [|done]. case_match; [done|]. intros Hd Hn.
  apply (IH _ Hd). unfold is_digit, digit_val in *. bprop. lia.
Qed.

Lemma To4_As16 ip : length ip = 4%nat → To4 (As16 ip) = ip.
Proof.
  intros Hl. unfold As16. rewrite bool_decide_eq_true_2 by done. unfold To4.
  rewrite length_app, Hl. cbn [length]. rewrite bool_decide_eq_false_2 by done.
  rewrite bool_decide_eq_true_2 by done. by rewrite bool_decide_eq_true_2.
Qed.

Lemma ip_mask_4 ip n :
  length ip = 4%nat → ip_mask (As16 ip) (CIDRMask n 4) = zip_with band ip (CIDRMask n 4).
Proof.
  intros Hl. unfold ip_mask, As16. rewrite (bool_decide_eq_true_2 (length ip = 4)%nat) by done.
  rewrite CIDRMask_length, length_app, Hl. cbn [length].
  rewrite !bool_decide_eq_true_2 by done. cbn [andb].
  done.
Qed.

(** What [ParseCIDR] returns for a network whose mask has 32 bits. *)
Lemma ParseCIDR_4 s ip n ones :
  ParseCIDR s = Some (ip, n) → mask_size (nMask n) = (ones, 32) →
  ∃ base, n = mkIPNet base (CIDRMask ones 4) ∧ length base = 4%nat ∧ 0 ≤ ones ≤ 32 ∧
    be_get base mod 2 ^ (32 - ones) = 0 ∧ length (To4 ip) = 4%nat.
Proof.
  unfold ParseCIDR. intros Hp Hm. destruct (cut _ _) as [[addr mask]|]; [|done]. simpl in Hp.
  destruct (parse_addr _) as [a|]; [|done]. simpl in Hp.
  destruct (if bool_decide (mask = []) then None else dtoi mask 0) as [k|] eqn:Ek; [|done].
  simpl in Hp. destruct (Z.ltb_spec (8 * len a) k) as [|Hk]; [done|].
  injection Hp as <- <-. cbn [nMask] in Hm.
  pose proof (mask_size_bits _ _ Hm) as Hl. rewrite CIDRMask_length in Hl.
  assert (0 ≤ k ≤ 32).
  { split; [|unfold len in Hk; lia]. case_bool_decide; [done|]. by eapply dtoi_range. }
  rewrite Hl, mask_size_4 in Hm by done. injection Hm as <-. rewrite Hl, ip_mask_4 by done.
  eexists. split; [done|]. rewrite length_zip_with, CIDRMask_length, Hl. split; [done|].
  split; [done|]. rewrite To4_As16 by done. split; [|done].
  rewrite be_get_band by by rewrite CIDRMask_length. pose proof (be_get_range a) as Ra.
  unfold len in Ra. rewrite Hl in Ra. change (256 ^ Z.of_nat 4) with (2 ^ 32) in Ra.
  rewrite CIDRMask_4, land_cidr by done. apply Z.mod_mul.
  pose proof (Z.pow_pos_nonneg 2 (32 - k)). lia.
Qed.

Lemma Contains_To4 n ip : To4 ip ≠ [] → Contains n ip = Contains n (To4 ip).
Proof.
  intros Hne. unfold Contains. destruct (To4_length ip) as [|Hl]; [done|].
  rewrite (To4_of_4 (To4 ip)) by done. by destruct (To4 ip).
Qed.

Lemma ip_equal_To4 ip b : To4 ip ≠ [] → length b = 4%nat → ip_equal ip b = bool_decide (To4 ip = b).
Proof.
  unfold To4, ip_equal. intros Hne Hb. rewrite Hb. repeat case_bool_decide; simpl in *; try done; congruence.
Qed.
