(* ===== verification/Quote.v ===== *)
(** * Quote: texts that are written into other texts

    - [Quote]: [strconv.Quote], over the UTF-8 characters of the text; which
      characters above U+00FF are printable is a parameter (the tables of
      Unicode);
    - [EscapeString]: [html.EscapeString]; [psLiteral]: the literals of
      PowerShell that internal/application/startup_windows.go writes.

    The lemmas say that what is written ends where it should: the text that
    follows is read from its beginning, and different texts are written
    differently. *)
From S2P Require Import Prelude Text Net.
From Stdlib Require Import Init.Byte Strings.Byte.

(** ** UTF-8 *)

Definition between (lo hi : Z) (b : byte) : bool := (lo <=? bZ b) && (bZ b <=? hi).
Definition tail_byte : byte → bool := between 128 191.

(** [utf8.DecodeRune]: the character and its width; [None] for an encoding that
    is not valid. *)
Definition decode_rune (l : list byte) : option (Z * nat) :=
  match l with
  | [] => None
  | a :: l =>
    let x := bZ a in
    if x <? 128 then Some (x, 1%nat)
    else if (194 <=? x) && (x <=? 223) then
      match l with
      | b :: _ =>
        if tail_byte b then Some ((x - 192) * 64 + (bZ b - 128), 2%nat) else None
      | [] => None
      end
    else if (224 <=? x) && (x <=? 239) then
      match l with
      | b :: c :: _ =>
        if between (if x =? 224 then 160 else 128) (if x =? 237 then 159 else 191) b && tail_byte c
        then Some ((x - 224) * 4096 + (bZ b - 128) * 64 + (bZ c - 128), 3%nat) else None
      | _ => None
      end
    else if (240 <=? x) && (x <=? 244) then
      match l with
      | b :: c :: d :: _ =>
        if between (if x =? 240 then 144 else 128) (if x =? 244 then 143 else 191) b
           && tail_byte c && tail_byte d
        then Some ((x - 240) * 262144 + (bZ b - 128) * 4096 + (bZ c - 128) * 64 + (bZ d - 128), 4%nat)
        else None
      | _ => None
      end
    else None
  end.

(** A character with its bytes, or a byte that is part of none. *)
Definition chunk : Type := option Z * list byte.

(** The loop over the text; [skip]: how many bytes of the last character are left. *)
Fixpoint chunks (skip : nat) (l : list byte) : list chunk :=
  match l with
  | [] => []
  | c :: l' =>
    match skip with
    | S skip => chunks skip l'
    | O =>
      match decode_rune l with
      | None => (None, [c]) :: chunks 0 l'
      | Some (r, w) => (Some r, take w l) :: chunks (w - 1) l'
      end
    end
  end.

(** ** [strconv.Quote] *)

(** The last [n] hexadecimal digits. *)
Fixpoint hex_text_n (n : nat) (v : Z) : list byte :=
  match n with O => [] | S n => hex_digit (v / 16 ^ Z.of_nat n mod 16) :: hex_text_n n v end.

Definition control_letters : list (Z * byte) :=
  [(7, x61); (8, x62); (12, x66); (10, x6e); (13, x72); (9, x74); (11, x76)].
Definition control_letter (r : Z) : option byte :=
  snd <$> find (λ '(k, _), k =? r) control_letters.

Section quote.
Context (printable : Z → bool).

Definition IsPrint (r : Z) : bool :=
  if r <=? 255 then ((32 <=? r) && (r <=? 126)) || ((161 <=? r) && negb (r =? 173))
  else printable r.

(** [appendEscapedRune], and the escape of a byte that is part of no character. *)
Definition escape (c : chunk) : list byte :=
  match c with
  | (None, l) => x5c :: x78 :: hex_text_n 2 (be_get l)
  | (Some r, l) =>
    if (r =? 34) || (r =? 92) then x5c :: l
    else if IsPrint r then l
    else
      match control_letter r with
      | Some c => [x5c; c]
      | None =>
        if (r <? 32) || (r =? 127) then x5c :: x78 :: hex_text_n 2 r
        else if r <? 65536 then x5c :: x75 :: hex_text_n 4 r
        else x5c :: x55 :: hex_text_n 8 r
      end
  end.
Definition quote_bytes (l : list byte) : list byte :=
  x22 :: flat_map escape (chunks 0 l) ++ [x22].
Definition Quote (s : string) : string := b2s (quote_bytes (s2b s)).
End quote.

(** ** [html.EscapeString] and PowerShell's literals *)

Definition html_char (b : byte) : list byte :=
  if bool_decide (b = x26) then s2b "&amp;"
  else if bool_decide (b = x27) then s2b "&#39;"
  else if bool_decide (b = x3c) then s2b "&lt;"
  else if bool_decide (b = x3e) then s2b "&gt;"
  else if bool_decide (b = x22) then s2b "&#34;"
  else [b].
Definition EscapeString (s : string) : string := b2s (flat_map html_char (s2b s)).

Definition double (c : byte) (b : byte) : list byte := if bool_decide (b = c) then [c; c] else [b].
(** [strings.ReplaceAll(s, c, c + c)] for a text of one byte. *)
Definition double_all (c : byte) (s : string) : string := b2s (flat_map (double c) (s2b s)).
Definition psLiteral (value : string) : string := "'" +:+ double_all x27 value +:+ "'".

(** ** Lemmas: texts written piece by piece *)

(** No piece is the beginning of another one; [stop] is what ends the pieces,
    [next] what follows a piece. *)
Lemma pieces_inj {A} (f : A → list byte) (good : A → Prop) (next stop : list byte → Prop) l1 l2 s1 s2 :
  (∀ a b t u, good a → good b → next t → next u → f a ++ t = f b ++ u → a = b ∧ t = u) →
  (∀ a t, good a → next (f a ++ t) ∧ ¬ stop (f a ++ t)) → (∀ s, stop s → next s) →
  Forall good l1 → Forall good l2 → stop s1 → stop s2 →
  flat_map f l1 ++ s1 = flat_map f l2 ++ s2 → l1 = l2 ∧ s1 = s2.
Proof.
  intros Hf Hs Hn G1 G2 S1 S2.
  assert (∀ l s, Forall good l → stop s → next (flat_map f l ++ s)) as Hnext.
  { intros l s G S. destruct G as [|a l Ga _]; [by apply Hn|]. cbn [flat_map].
    rewrite <- (assoc_L (++)). by apply Hs. }
  revert l2 G2. induction G1 as [|a l1 Ga G1 IH]; intros l2 [|b l2' Gb G2]; cbn [flat_map app];
    rewrite <- ?(assoc_L (++)); intros E.
  - done.
  - subst. by destruct (proj2 (Hs b (flat_map f l2' ++ s2) Gb)).
  - subst. by destruct (proj2 (Hs a (flat_map f l1 ++ s1) Ga)).
  - apply Hf in E as [-> E]; [|auto..]. by apply IH in E as [-> ->].
Qed.
(** The same, when a piece is recognised whatever follows. *)
Lemma flat_map_inj {A} (f : A → list byte) (good : A → Prop) (stop : list byte → Prop) l1 l2 s1 s2 :
  (∀ a b t u, good a → good b → f a ++ t = f b ++ u → a = b ∧ t = u) →
  (∀ a t, good a → ¬ stop (f a ++ t)) → Forall good l1 → Forall good l2 → stop s1 → stop s2 →
  flat_map f l1 ++ s1 = flat_map f l2 ++ s2 → l1 = l2 ∧ s1 = s2.
Proof. intros Hf Hs. apply (pieces_inj f good (λ _, True) stop); auto. Qed.

(** Texts with a separator between them, up to what ends them. *)
Lemma join_flat {A} (q : A → list byte) sep a l :
  join sep (map q (a :: l)) = q a ++ flat_map (λ b, sep :: q b) l.
Proof.
  revert a. induction l as [|b l IH]; intros a; [cbn; by rewrite app_nil_r|].
  change (join sep (map q (a :: b :: l))) with (q a ++ sep :: join sep (map q (b :: l))).
  by rewrite IH.
Qed.
Lemma join_inj {A} (q : A → list byte) (next stop : list byte → Prop) sep a1 l1 a2 l2 e1 e2 :
  (∀ a b t u, next t → next u → q a ++ t = q b ++ u → a = b ∧ t = u) →
  (∀ t, next (sep :: t)) → (∀ s, stop s → next s ∧ head s ≠ Some sep) → stop e1 → stop e2 →
  join sep (map q (a1 :: l1)) ++ e1 = join sep (map q (a2 :: l2)) ++ e2 →
  a1 :: l1 = a2 :: l2 ∧ e1 = e2.
Proof.
  intros Hq Hsep Hs S1 S2. rewrite !join_flat, <- !(assoc_L (++)).
  assert (∀ l e, stop e → next (flat_map (λ b, sep :: q b) l ++ e)) as Hn
    by (intros [|b l] e He; [by apply Hs|apply Hsep]).
  intros E. apply Hq in E as [-> E]; [|by apply Hn..].
  apply (pieces_inj _ (λ _, True) next stop) in E as [-> ->]; try done.
  - intros a b t u _ _ Ht Hu [= Eq]. by apply Hq.
  - intros a t _. split; [apply Hsep|]. by intros [_ Hh]%Hs.
  - by intros s [? _]%Hs.
  - by apply Forall_true.
  - by apply Forall_true.
Qed.

(** Doubling a byte. *)
Lemma double_prefix c a b t u : double c a ++ t = double c b ++ u → a = b ∧ t = u.
Proof. unfold double. repeat case_bool_decide; subst; intros [=]; subst; done. Qed.
Lemma double_inj c l1 l2 s1 s2 :
  head s1 ≠ Some c → head s2 ≠ Some c →
  flat_map (double c) l1 ++ c :: s1 = flat_map (double c) l2 ++ c :: s2 → l1 = l2 ∧ s1 = s2.
Proof.
  intros H1 H2 E. apply (flat_map_inj _ (λ _, True) (λ s, ∃ t, s = c :: t ∧ head t ≠ Some c)) in E
    as [-> [= ->]]; [done|..].
  - intros. by apply (double_prefix c).
  - intros a t _ (x & E1 & Hx). revert E1. unfold double. case_bool_decide; subst.
    + by intros [= <-].
    + by intros [=].
  - by apply Forall_true.
  - by apply Forall_true.
  - by eexists.
  - by eexists.
Qed.
Lemma double_all_inj c s1 s2 : double_all c s1 = double_all c s2 → s1 = s2.
Proof.
  unfold double_all. intros E%(inj b2s). apply (inj s2b).
  assert (flat_map (double c) (s2b s1) ++ [] = flat_map (double c) (s2b s2) ++ []) as E'
    by by rewrite !app_nil_r.
  apply (flat_map_inj _ (λ _, True) (λ s, s = [])) in E' as [-> _]; try done.
  - intros. by apply (double_prefix c).
  - intros a t _. unfold double. by case_bool_decide.
  - by apply Forall_true.
  - by apply Forall_true.
Qed.

Lemma psLiteral_inj v1 v2 s1 s2 : head s1 ≠ Some x27 → head s2 ≠ Some x27 →
  s2b (psLiteral v1) ++ s1 = s2b (psLiteral v2) ++ s2 → v1 = v2 ∧ s1 = s2.
Proof.
  intros H1 H2. unfold psLiteral, double_all. rewrite !s2b_app, !s2b_b2s. change (s2b "'") with [x27].
  cbn [app]. rewrite <- !(assoc_L (++)). cbn [app]. intros [= E].
  apply double_inj in E as [E ->]; [|done..]. split; [by apply (inj s2b)|done].
Qed.

Lemma html_prefix a b t u : html_char a ++ t = html_char b ++ u → a = b ∧ t = u.
Proof. unfold html_char. repeat case_bool_decide; subst; intros [=]; subst; done. Qed.
(** An escaped text holds no tag, and ends at the next one. *)
Lemma html_no_tag l : Forall (λ b, b ≠ x3c ∧ b ≠ x3e) (flat_map html_char l).
Proof.
  apply Forall_flat_map, Forall_forall. intros b _. unfold html_char.
  repeat (case_bool_decide; [apply (bool_decide_unpack _); by vm_compute|]).
  constructor; [by split|done].
Qed.
Lemma EscapeString_inj v1 v2 s1 s2 :
  s2b (EscapeString v1) ++ x3c :: s1 = s2b (EscapeString v2) ++ x3c :: s2 → v1 = v2 ∧ s1 = s2.
Proof.
  unfold EscapeString. rewrite !s2b_b2s. intros E.
  apply (flat_map_inj _ (λ _, True) (λ s, head s = Some x3c)) in E as [E [= ->]]; try done.
  - split; [by apply (inj s2b)|done].
  - intros. by apply html_prefix.
  - intros a t _. pose proof (html_no_tag [a]) as Ht. cbn [flat_map] in Ht. rewrite app_nil_r in Ht.
    unfold html_char in *. repeat case_bool_decide; cbn; congruence.
  - by apply Forall_true.
  - by apply Forall_true.
Qed.

(** ** Lemmas: characters *)

Definition good_chunk (c : chunk) : Prop :=
  match c with
  | (None, l) => ∃ b, l = [b] ∧ 128 ≤ bZ b
  | (Some r, l) => decode_rune l = Some (r, length l) ∧ l ≠ []
  end.

(** What is decoded depends on the bytes of the character alone. *)
Lemma decode_rune_local l k r w :
  decode_rune l = Some (r, w) → (0 < w ≤ length l)%nat ∧ decode_rune (take w l ++ k) = Some (r, w).
Proof.
  destruct l as [|a [|b [|c [|d l]]]]; cbn [decode_rune]; [done|..]; cbv zeta; intros E;
    repeat match type of E with (if ?c then _ else _) = _ => destruct c eqn:? end;
    simplify_eq; (split; [cbn; lia|]); cbn [take app decode_rune]; cbv zeta;
    repeat match goal with Hc : ?c = _ |- (if ?c then _ else _) = _ => rewrite Hc end; done.
Qed.

Lemma decode_rune_take l r w :
  decode_rune l = Some (r, w) → decode_rune (take w l) = Some (r, length (take w l)) ∧ take w l ≠ [].
Proof.
  intros Hd. destruct (decode_rune_local l [] r w Hd) as [Hw Hl]. rewrite app_nil_r in Hl.
  rewrite length_take_le by lia. split; [done|]. destruct l as [|a l]; [simpl in Hw; lia|]. destruct w; [lia|done].
Qed.

Lemma decode_rune_none a l : decode_rune (a :: l) = None → 128 ≤ bZ a.
Proof. cbn [decode_rune]. destruct (Z.ltb_spec (bZ a) 128); [done|lia]. Qed.

Lemma chunks_good skip l : Forall good_chunk (chunks skip l).
Proof.
  revert skip. induction l as [|c l IH]; intros skip; cbn [chunks]; [constructor|].
  destruct skip as [|skip]; [|apply IH]. destruct (decode_rune (c :: l)) as [[r w]|] eqn:E.
  - constructor; [|apply IH]. by apply decode_rune_take.
  - constructor; [|apply IH]. exists c. split; [done|]. by eapply decode_rune_none.
Qed.

(** The chunks make up the text. *)
Lemma chunks_all skip l : flat_map snd (chunks skip l) = drop skip l.
Proof.
  revert skip. induction l as [|c l IH]; intros skip; cbn [chunks]; [by destruct skip|].
  destruct skip as [|skip]; [|apply IH]. destruct (decode_rune (c :: l)) as [[r w]|] eqn:E.
  - destruct (decode_rune_local _ [] _ _ E) as [Hw _]. cbn [flat_map snd]. rewrite IH.
    destruct w as [|w]; [lia|]. cbn [take]. rewrite Nat.sub_succ, Nat.sub_0_r. cbn [app].
    by rewrite take_drop.
  - cbn [flat_map snd]. by rewrite IH.
Qed.

(** The encodings, by their width. *)
Inductive encoding : list byte → Z → Prop :=
  | enc1 a : bZ a < 128 → encoding [a] (bZ a)
  | enc2 a b : 194 ≤ bZ a ≤ 223 → 128 ≤ bZ b ≤ 191 →
      encoding [a; b] ((bZ a - 192) * 64 + (bZ b - 128))
  | enc3 a b c : 224 ≤ bZ a ≤ 239 → 128 ≤ bZ b ≤ 191 → 128 ≤ bZ c ≤ 191 →
      (bZ a = 224 → 160 ≤ bZ b) →
      encoding [a; b; c] ((bZ a - 224) * 4096 + (bZ b - 128) * 64 + (bZ c - 128))
  | enc4 a b c d : 240 ≤ bZ a ≤ 244 → 128 ≤ bZ b ≤ 191 → 128 ≤ bZ c ≤ 191 → 128 ≤ bZ d ≤ 191 →
      (bZ a = 240 → 144 ≤ bZ b) → (bZ a = 244 → bZ b ≤ 143) →
      encoding [a; b; c; d]
        ((bZ a - 240) * 262144 + (bZ b - 128) * 4096 + (bZ c - 128) * 64 + (bZ d - 128)).

Lemma decode_encoding l r : decode_rune l = Some (r, length l) → encoding l r.
Proof.
  destruct l as [|a [|b [|c [|d [|x l]]]]]; cbn [decode_rune length]; [done|..]; cbv zeta; intros E;
    repeat match type of E with (if ?c then _ else _) = _ => destruct c eqn:? end; simplify_eq;
    unfold tail_byte, between in *; bprop; constructor; repeat case_match; bprop; lia.
Qed.

Lemma encoding_range l r : encoding l r → 0 ≤ r < 1114112.
Proof. destruct 1; pose proof (bZ_range a); lia. Qed.
Lemma encoding_head l r : encoding l r → ∃ a k, l = a :: k ∧ (r < 128 ∧ bZ a = r ∧ k = [] ∨ 128 ≤ r ∧ 194 ≤ bZ a).
Proof. destruct 1; eexists _, _; (split; [done|]); lia || (left; split_and!; [lia|lia|done]). Qed.
Lemma encoding_high l r : encoding l r → 128 ≤ r → Forall (λ b, 128 ≤ bZ b) l.
Proof. destruct 1; intros; repeat constructor; lia. Qed.
Lemma encoding_inj l1 l2 r : encoding l1 r → encoding l2 r → l1 = l2.
Proof.
  intros E1 E2. remember r as r' eqn:Er in E1. revert Er.
  destruct E1; intros Er; destruct E2; try lia; repeat f_equal; apply bZ_inj; lia.
Qed.

(** ** Reading a quoted text *)

(** What a chunk stands for: its character, or its byte as a negative number. *)
Definition key (c : chunk) : Z := match c with (Some r, _) => r | (None, l) => - be_get l end.

Lemma key_inj c1 c2 : good_chunk c1 → good_chunk c2 → key c1 = key c2 → c1 = c2.
Proof.
  destruct c1 as [[r1|] l1], c2 as [[r2|] l2]; cbn [good_chunk key].
  - intros [H1%decode_encoding _] [H2%decode_encoding _] ->. f_equal. by eapply encoding_inj.
  - intros [H1%decode_encoding%encoding_range _] (b & -> & Hb).
    change (be_get [b]) with (bZ b). lia.
  - intros (b & -> & Hb) [H1%decode_encoding%encoding_range _]. change (be_get [b]) with (bZ b). lia.
  - intros (b1 & -> & _) (b2 & -> & _). change (be_get [b1]) with (bZ b1).
    change (be_get [b2]) with (bZ b2). intros E. repeat f_equal. apply bZ_inj. lia.
Qed.

Definition read_hex (n : nat) (l : list byte) : Z :=
  foldl (λ acc b, acc * 16 + default 0 (hex_val b)) 0 (take n l).
(** A hexadecimal escape with [n] digits; a byte of 128 or more is no character. *)
Definition read_number (n : nat) (l : list byte) : Z * list byte :=
  let v := read_hex n l in
  (if bool_decide (n = 2%nat) && (128 <=? v) then - v else v, drop n l).
Definition letter_control (c : byte) : option Z :=
  fst <$> find (λ '(_, k), bool_decide (k = c)) control_letters.

(** The key of the chunk that is written at the head, and the rest. *)
Definition read_chunk (l : list byte) : option (Z * list byte) :=
  match l with
  | [] => None
  | c :: l' =>
    if bool_decide (c = x5c) then
      match l' with
      | [] => None
      | e :: l' =>
        if bool_decide (e = x78) then Some (read_number 2 l')
        else if bool_decide (e = x75) then Some (read_number 4 l')
        else if bool_decide (e = x55) then Some (read_number 8 l')
        else Some (default (bZ e) (letter_control e), l')
      end
    else
      match decode_rune l with Some (r, w) => Some (r, drop w l) | None => None end
  end.

Lemma hex_val_digit d : 0 ≤ d < 16 → hex_val (hex_digit d) = Some d.
Proof.
  intros Hd. pose proof (range_check (λ d, bool_decide (hex_val (hex_digit d) = Some d)) 0 16 d
    ltac:(by vm_compute) Hd) as H. by apply bool_decide_eq_true in H.
Qed.

Lemma hex_text_length n v : length (hex_text_n n v) = n.
Proof. induction n; cbn; auto. Qed.
Lemma hex_value n v acc : 0 ≤ v →
  foldl (λ acc b, acc * 16 + default 0 (hex_val b)) acc (hex_text_n n v) =
  acc * 16 ^ Z.of_nat n + v mod 16 ^ Z.of_nat n.
Proof.
  intros Hv. revert acc. induction n as [|n IH]; intros acc.
  { cbn [hex_text_n foldl]. change (16 ^ Z.of_nat 0) with 1. rewrite Z.mod_1_r. lia. }
  cbn [hex_text_n foldl]. rewrite hex_val_digit by (apply Z.mod_pos_bound; lia).
  match goal with |- context [default 0 (Some ?x)] => change (default 0 (Some x)) with x end.
  rewrite IH, Nat2Z.inj_succ, Z.pow_succ_r by lia.
  rewrite (Z.mul_comm 16 (16 ^ _)), Z.rem_mul_r by lia. lia.
Qed.
Lemma read_hex_text n v t : 0 ≤ v < 16 ^ Z.of_nat n → read_number n (hex_text_n n v ++ t) =
  (if bool_decide (n = 2%nat) && (128 <=? v) then - v else v, t).
Proof.
  intros Hv. unfold read_number, read_hex.
  rewrite take_app_length', drop_app_length' by (by rewrite hex_text_length). rewrite hex_value by lia. by rewrite Z.mul_0_l, Z.add_0_l, Z.mod_small.
Qed.

Lemma control_letter_spec r c : control_letter r = Some c →
  letter_control c = Some r ∧ c ≠ x78 ∧ c ≠ x75 ∧ c ≠ x55.
Proof.
  unfold control_letter. destruct (find _ _) as [[k d]|] eqn:E; [|done]. intros [= <-].
  apply find_some in E as [Hin Hk]. apply Z.eqb_eq in Hk as ->.
  repeat (destruct Hin as [Hin|Hin]; [by injection Hin as <- <-|]). done.
Qed.

Section quoted.
Context (printable : Z → bool).
Abbreviation escape := (escape printable).

Lemma escape_head c t : good_chunk c → head (escape c ++ t) ≠ Some x22.
Proof.
  destruct c as [[r|] l]; cbn [good_chunk Quote.escape]; [|done].
  intros [Hd%decode_encoding _]. destruct (_ || _) eqn:E; [done|]. bprop.
  destruct (IsPrint printable r).
  - destruct (encoding_head _ _ Hd) as (a & k & -> & Hr). intros [= ->]. change (bZ x22) with 34 in Hr. lia.
  - repeat case_match; done.
Qed.

Lemma read_escape c t : good_chunk c → read_chunk (escape c ++ t) = Some (key c, t).
Proof.
  destruct c as [[r|] l]; cbn [good_chunk Quote.escape key].
  - intros [Hd Hne]. pose proof (decode_encoding _ _ Hd) as He.
    pose proof (encoding_range _ _ He) as Hr.
    destruct (encoding_head _ _ He) as (a & k & -> & Ha).
    destruct (_ || _) eqn:E; bprop.
    { apply orb_true_iff in E. rewrite !Z.eqb_eq in E. destruct Ha as [(_ & Ea & ->)|]; [|lia].
      destruct E as [->| ->]; [assert (a = x22) as -> by (by apply bZ_inj)|
        assert (a = x5c) as -> by (by apply bZ_inj)]; done. }
    destruct (IsPrint printable r).
    { cbn [app read_chunk]. rewrite bool_decide_eq_false_2; cycle 1.
      { intros ->. change (bZ x5c) with 92 in Ha. lia. }
      destruct (decode_rune_local _ t _ _ Hd) as [_ Hl]. rewrite take_ge in Hl by done.
      cbn [app] in Hl. rewrite Hl. by rewrite app_comm_cons, drop_app_length. }
    destruct (control_letter r) as [c|] eqn:Ec.
    { apply control_letter_spec in Ec as (Ec & ? & ? & ?). cbn [app read_chunk].
      rewrite bool_decide_eq_true_2, !bool_decide_eq_false_2 by done. by rewrite Ec. }
    repeat (case_match; bprop); cbn [app read_chunk]; rewrite !(bool_decide_eq_true_2 (x5c = x5c)) by done;
      rewrite ?(bool_decide_eq_true_2 (x78 = x78)), ?(bool_decide_eq_true_2 (x75 = x75)),
        ?(bool_decide_eq_true_2 (x55 = x55)) by done;
      rewrite ?(bool_decide_eq_false_2 (x75 = x78)), ?(bool_decide_eq_false_2 (x55 = x78)),
        ?(bool_decide_eq_false_2 (x55 = x75)) by done; rewrite read_hex_text by (cbn; lia); try done.
    rewrite (proj2 (Z.leb_gt _ _)) by lia. done.
  - intros (b & -> & Hb). change (be_get [b]) with (bZ b). pose proof (bZ_range b).
    cbn [app read_chunk]. rewrite !bool_decide_eq_true_2 by done.
    rewrite read_hex_text by (cbn; lia). by rewrite (proj2 (Z.leb_le _ _)).
Qed.

Lemma escapes_inj cs1 cs2 t1 t2 : Forall good_chunk cs1 → Forall good_chunk cs2 →
  flat_map escape cs1 ++ x22 :: t1 = flat_map escape cs2 ++ x22 :: t2 → cs1 = cs2 ∧ t1 = t2.
Proof.
  intros H1 H2 E.
  apply (flat_map_inj _ good_chunk (λ s, head s = Some x22)) in E as [-> [= ->]]; try done.
  - intros a b t u Ga Gb Eq%(f_equal read_chunk). rewrite !read_escape in Eq by done.
    injection Eq as Ek ->. split; [by apply key_inj|done].
  - intros a t Ga. by apply escape_head.
Qed.

(** A quoted text ends at its closing quote and determines the text. *)
Lemma quote_bytes_inj l1 l2 t1 t2 :
  quote_bytes printable l1 ++ t1 = quote_bytes printable l2 ++ t2 → l1 = l2 ∧ t1 = t2.
Proof.
  unfold quote_bytes. cbn [app]. rewrite <- !(assoc_L (++)). intros [= E]. cbn [app] in E.
  apply escapes_inj in E as [E ->]; [|apply chunks_good..]. split; [|done].
  rewrite <- (drop_0 l1), <- (drop_0 l2), <- !chunks_all. by rewrite E.
Qed.

(** It has no control characters, so that it stays on its line. *)
Definition visible (b : byte) : Prop := 32 ≤ bZ b ∧ bZ b ≠ 127.
Lemma hex_digit_visible d : 0 ≤ d < 16 → visible (hex_digit d).
Proof.
  intros Hd. unfold visible, hex_digit. case_match; bprop; rewrite bZ_Zb, Z.mod_small; lia.
Qed.
Lemma hex_text_visible n v : Forall visible (hex_text_n n v).
Proof.
  induction n as [|n IH]; cbn; constructor; [|done]. apply hex_digit_visible, Z.mod_pos_bound. lia.
Qed.
Lemma escape_visible c : good_chunk c → Forall visible (escape c).
Proof.
  destruct c as [[r|] l]; cbn [good_chunk Quote.escape].
  - intros [Hd%decode_encoding _]. pose proof (encoding_range _ _ Hd).
    assert (32 ≤ r ∧ r ≠ 127 → Forall visible l) as Hl.
    { intros Hr. destruct (Z.lt_ge_cases r 128) as [H128|H128].
      - destruct (encoding_head _ _ Hd) as (a & k & -> & [(_ & Ea & ->)|?]); [|lia].
        constructor; [|done]. unfold visible. lia.
      - eapply Forall_impl; [by eapply encoding_high|]. unfold visible. simpl. lia. }
    destruct (_ || _) eqn:E; bprop.
    { constructor; [done|]. apply Hl. apply orb_true_iff in E. rewrite !Z.eqb_eq in E. lia. }
    destruct (IsPrint printable r) eqn:Ep.
    { apply Hl. unfold IsPrint in Ep. case_match; bprop; lia. }
    destruct (control_letter r) as [c|] eqn:Ec.
    { unfold control_letter in Ec. destruct (find _ _) as [[k d]|] eqn:E2; [|done]. injection Ec as <-.
      apply find_some in E2 as [Hin _].
      repeat (destruct Hin as [Hin|Hin]; [injection Hin as <- <-; by repeat constructor|]). done. }
    repeat case_match; repeat (constructor; [done|]); apply hex_text_visible.
  - intros _. repeat (constructor; [done|]). apply hex_text_visible.
Qed.
Lemma quote_visible l : Forall visible (quote_bytes printable l).
Proof.
  unfold quote_bytes. constructor; [done|]. apply Forall_app. split; [|by repeat constructor].
  apply Forall_flat_map. eapply Forall_impl; [apply chunks_good|]. apply escape_visible.
Qed.
End quoted.
