(* ===== verification/Http.v ===== *)
(** * Http: requests, as [internal/control/server.go] reads them

    A request after [net/http] has parsed it: its decoded path (without percent
    escapes), the headers the code looks at, the rest of the body.  The text
    functions of [strings] the handlers use, the path cleaning of
    [http.ServeMux], and the code's own readers of requests: [bearer],
    [authToken], [secureRequest], [remoteIsLoopback], [decode].

    [encoding/json] is an interface: for each type a handler decodes,
    [unmarshal strict] reads one JSON value at the head of a text ([strict] for
    [DisallowUnknownFields]) and returns the text after it.  Nothing is assumed
    of it. *)
From S2P Require Import Prelude Text Net.
From Stdlib Require Import Init.Byte Strings.Byte.

(** ** [strings] *)

Definition has_suffix (s p : string) : bool := has_prefix_b (rev (s2b p)) (rev (s2b s)).
Definition trim_prefix (s p : string) : string :=
  if has_prefix s p then b2s (drop (length (s2b p)) (s2b s)) else s.
(** [strings.Split] by one byte, and the first part of [strings.SplitN(s, sep, 2)]. *)
Definition split (sep : byte) (s : string) : list string := map b2s (split_on sep (s2b s)).
Definition first_part (sep : byte) (s : string) : string :=
  match cut sep (s2b s) with Some (a, _) => b2s a | None => s end.

(** [strings.Fields]: [cur] is the field being read, reversed. *)
Fixpoint fields_go (fuel : nat) (l cur : list byte) : list (list byte) :=
  let emit k := match cur with [] => k | _ => rev cur :: k end in
  match fuel with
  | O => emit []
  | S fuel =>
    match strip_space l with
    | Some l' => emit (fields_go fuel l' [])
    | None =>
      match l with
      | [] => emit []
      | c :: l => fields_go fuel l (c :: cur)
      end
    end
  end.
Definition Fields (s : string) : list string :=
  map b2s (fields_go (S (length (s2b s))) (s2b s) []).

(** [strings.EqualFold(s, t)] for an ASCII [t]: the only other characters that
    fold to ASCII letters are the long s and the Kelvin sign. *)
Fixpoint fold_go (fuel : nat) (l : list byte) : list byte :=
  match fuel with
  | O => []
  | S fuel =>
    if has_prefix_b [xc5; xbf] l then x73 :: fold_go fuel (drop 2 l)
    else if has_prefix_b [xe2; x84; xaa] l then x6b :: fold_go fuel (drop 3 l)
    else match l with [] => [] | c :: l => lower_byte c :: fold_go fuel l end
  end.
Definition fold_text (s : string) : list byte := fold_go (S (length (s2b s))) (s2b s).
Definition EqualFold (s t : string) : bool := bool_decide (fold_text s = fold_text t).

(** ** Requests *)

Record Request := mkRequest {
  Method : string; Path : string; Query : string → string; RemoteAddr : string;
  Authorization : string; SessionCookie : option string; ForwardedProto : string;
  TrayToken : string; TLS : bool; rBody : list byte
}.

Definition bearer (r : Request) : string :=
  match Fields (Authorization r) with
  | [scheme; token] => if EqualFold scheme "Bearer" then token else ""
  | _ => ""
  end.

Definition authToken (r : Request) : string :=
  let token := bearer r in
  if negb (token =s "") then token else default "" (SessionCookie r).

Definition secureRequest (r : Request) : bool := TLS r || EqualFold (ForwardedProto r) "https".

Definition remoteIsLoopback (remote : string) : bool :=
  match SplitHostPort remote with
  | None => false
  | Some (host, _) =>
    let ip := ParseIP host in negb (bool_decide (ip = [])) && IsLoopback ip
  end.

(** ** Bodies *)

Class Unmarshal (A : Type) := unmarshal : bool → list byte → option (A * list byte).

(** JSON's white space; [Decode] at nothing else is [io.EOF]. *)
Definition json_space (b : byte) : bool := bool_decide (b ∈ [x20; x09; x0a; x0d]).
Definition at_eof (l : list byte) : bool := forallb json_space l.

(** [io.LimitReader(r.Body, 1<<20)]. *)
Definition limited (r : Request) : list byte := take (Z.to_nat (2 ^ 20)) (rBody r).
Definition decode_value {A} `{Unmarshal A} (strict : bool) (r : Request) : option A :=
  match unmarshal strict (limited r) with
  | None => None
  | Some (v, rest) => if at_eof rest then Some v else None
  end.
Definition decode {A} `{Unmarshal A} (r : Request) : option A := decode_value true r.
Definition decodeLenient {A} `{Unmarshal A} (r : Request) : option A := decode_value false r.

(** ** [http.ServeMux]'s path cleaning *)

(** [path.Clean] on the segments of a rooted path. *)
Fixpoint clean_segments (parts stack : list string) : list string :=
  match parts with
  | [] => rev stack
  | p :: parts =>
    if (p =s "") || (p =s ".") then clean_segments parts stack
    else if p =s ".." then clean_segments parts (tail stack)
    else clean_segments parts (p :: stack)
  end.
Definition path_text (segments : list string) : string :=
  match segments with
  | [] => "/"
  | _ => foldr (λ p rest, "/" +:+ p +:+ rest) "" segments
  end.
Definition cleanPath (p : string) : string :=
  let p := if p =s "" then "/" else if has_prefix p "/" then p else "/" +:+ p in
  let np := path_text (clean_segments (split x2f p) []) in
  if has_suffix p "/" && negb (np =s "/") then np +:+ "/" else np.

(** ** Lemmas: paths *)

Lemma trim_prefix_app base' path : trim_prefix (base' +:+ path) base' = path.
Proof.
  unfold trim_prefix, has_prefix. rewrite !s2b_app.
  assert (∀ l l' : list byte, has_prefix_b l (l ++ l') = true) as Hp.
  { intros l l'. induction l as [|x l IH]; cbn; [done|]. by rewrite bool_decide_eq_true_2. }
  rewrite Hp, drop_app_length. apply b2s_s2b.
Qed.

(** A segment of a path that stays as it is. *)
Definition plain (s : string) : Prop := s ≠ "" ∧ (x2f ∉ s2b s) ∧ s ≠ "." ∧ s ≠ "..".
#[export] Instance plain_dec s : Decision (plain s).
Proof. unfold plain. apply _. Defined.

Lemma append_nil_r s : (s +:+ "")%string = s.
Proof. apply (inj s2b). by rewrite s2b_app, app_nil_r. Qed.

Lemma path_text_cons p segs :
  path_text (p :: segs) = "/" +:+ p +:+ (match segs with [] => "" | _ => path_text segs end).
Proof. destruct segs; reflexivity. Qed.

Lemma split_on_here (sep : byte) l : split_on sep (sep :: l) = [] :: split_on sep l.
Proof. apply (split_on_app sep []), not_elem_of_nil. Qed.

Lemma split_path segs : Forall plain segs → segs ≠ [] → split x2f (path_text segs) = "" :: segs.
Proof.
  intros Hs Hne. unfold split.
  assert (∀ p, plain p → x2f ∉ s2b p) as Hp by by intros p (? & ? & ?).
  assert (split_on x2f (s2b (path_text segs)) = [] :: map s2b segs) as ->.
  { induction Hs as [|p segs Hpl Hs IH]; [done|]. rewrite path_text_cons, !s2b_app.
    change (s2b "/") with [x2f]. cbn [app]. rewrite split_on_here. f_equal. cbn [map].
    destruct segs as [|q segs]; [by rewrite app_nil_r, split_on_last by by apply Hp|].
    specialize (IH ltac:(done)). rewrite path_text_cons, !s2b_app in IH |- *.
    change (s2b "/") with [x2f] in *. cbn [app] in *. rewrite split_on_here in IH.
    rewrite split_on_app by by apply Hp. f_equal. by injection IH. }
  cbn [map]. rewrite map_map. f_equal. rewrite <- (map_id segs) at 2. apply map_ext. apply b2s_s2b.
Qed.

Lemma clean_plain segs stack : Forall plain segs → clean_segments segs stack = rev stack ++ segs.
Proof.
  intros Hs. revert stack. induction Hs as [|p segs (H1 & _ & H2 & H3) _ IH]; intros stack; cbn [clean_segments].
  - by rewrite app_nil_r.
  - rewrite (proj2 (String.eqb_neq _ _) H1), (proj2 (String.eqb_neq _ _) H2), (proj2 (String.eqb_neq _ _) H3).
    cbn [orb]. rewrite IH. cbn [rev]. by rewrite <- (assoc_L (++)).
Qed.

Lemma has_suffix_app s p : has_suffix (s +:+ p) p = true.
Proof.
  unfold has_suffix. rewrite s2b_app, rev_app_distr.
  induction (rev (s2b p)) as [|c l IH]; [done|]. cbn [app has_prefix_b]. by rewrite bool_decide_eq_true_2.
Qed.

(** A clean path does not change, whatever its last segment. *)
Lemma cleanPath_plain segs : Forall plain segs → segs ≠ [] → cleanPath (path_text segs) = path_text segs.
Proof.
  intros Hs Hne. unfold cleanPath. destruct segs as [|p segs]; [done|].
  assert ((path_text (p :: segs) =s "") = false) as -> by (rewrite path_text_cons; reflexivity).
  assert (has_prefix (path_text (p :: segs)) "/" = true) as ->
    by (rewrite path_text_cons; unfold has_prefix; rewrite s2b_app; reflexivity).
  rewrite split_path by done. 
  change (clean_segments ("" :: p :: segs) []) with (clean_segments (p :: segs) []).
  rewrite clean_plain by done. cbn [rev app].
  assert (has_suffix (path_text (p :: segs)) "/" = false) as ->; [|done].
  apply not_true_iff_false. intros Hx. clear Hne.
  destruct (exists_last (l := p :: segs)) as (front & q & E); [done|]. rewrite E in *.
  apply Forall_app in Hs as [_ Hq]. apply Forall_singleton in Hq as (Hq1 & Hq2 & _).
  unfold has_suffix in Hx.
  assert (∃ t, s2b (path_text (front ++ [q])) = t ++ s2b q) as [t Ht].
  { clear -front. induction front as [|f front [t IH]]; cbn [app]; rewrite path_text_cons, !s2b_app.
    - exists (s2b "/"). by rewrite app_nil_r.
    - exists (s2b "/" ++ s2b f ++ t). destruct (front ++ [q]) eqn:E; [by destruct front|].
      rewrite <- E in *. rewrite IH. by rewrite <- !(assoc_L (++)). }
  rewrite Ht, rev_app_distr in Hx. change (rev (s2b "/")) with [x2f] in Hx.
  destruct (rev (s2b q)) as [|c l] eqn:Er.
  - apply Hq1. rewrite <- (b2s_s2b q). by rewrite <- (rev_involutive (s2b q)), Er.
  - cbn in Hx. bprop. subst. apply Hq2. rewrite <- (rev_involutive (s2b q)), Er. cbn [rev]. set_solver.
Qed.

(** ** Examples *)

Definition plain_request (method path : string) : Request :=
  mkRequest method path (λ _, "") "192.0.2.7:4711" "" None "" "" false [].

Example bearer_ex :
  bearer (mkRequest "GET" "/" (λ _, "") "" "bearer  TYX-1" None "" "" false []) = "TYX-1".
Proof. by vm_compute. Qed.
Example loopback_ex :
  remoteIsLoopback "127.0.0.1:80" = true ∧ remoteIsLoopback "[::1]:80" = true ∧
  remoteIsLoopback "127.0.0.1" = false ∧ remoteIsLoopback "10.0.0.1:80" = false.
Proof. by vm_compute. Qed.
Example clean_ex :
  cleanPath "/a/./b/../c/" = "/a/c/" ∧ cleanPath "" = "/" ∧ cleanPath "//x" = "/x".
Proof. by vm_compute. Qed.
