(* ===== verification/Clock.v ===== *)
(** * Clock: Go's [time] as TyxNet uses it

    A [time.Time] is its number of nanoseconds since the Unix epoch; every
    reading of the clock ([time.Now()]) is an argument of the operation that
    makes it. *)
From S2P Require Import Prelude Text.
From Stdlib Require Import Init.Byte Strings.Byte.

Definition Nanosecond : Z := 1.
Definition Millisecond : Z := 1000000.
Definition Second : Z := 1000000000.
Definition Minute : Z := 60 * Second.
Definition Hour : Z := 60 * Minute.

(** [time.Time{}]: the first instant of year 1. *)
Definition zeroTime : Z := -62135596800 * Second.

Definition After (t u : Z) : bool := u <? t.
Definition IsZero (t : Z) : bool := t =? zeroTime.
(** [t.Sub(u)]: a [time.Duration], which saturates. *)
Definition Sub (t u : Z) : Z := Z.max (- 2 ^ 63) (Z.min (t - u) (2 ^ 63 - 1)).
(** [t.Unix()] and [time.Unix(sec, 0)]. *)
Definition Unix (t : Z) : Z := t / Second.
Definition OfUnix (sec : Z) : Z := sec * Second.
(** [t.Truncate(time.Second)], for the whole-second zero time. *)
Definition TruncateSecond (t : Z) : Z := t - t mod Second.

Lemma Unix_OfUnix s : Unix (OfUnix s) = s.
Proof. unfold Unix, OfUnix. apply Z.div_mul. done. Qed.

Lemma Unix_Truncate t : Unix (TruncateSecond t) = Unix t.
Proof.
  unfold Unix, TruncateSecond. assert (Second ≠ 0) by done.
  rewrite (Z.div_mod t Second) at 1 by done.
  replace (Second * (t / Second) + t mod Second - t mod Second) with (t / Second * Second) by lia.
  by apply Z.div_mul.
Qed.
