(* ===== verification/Calendar.v ===== *)
(** * Calendar: times as text

    The store keeps every time as text in Go's [time.RFC3339Nano] format
    (UTC), reads it back with [time.Parse], and compares the texts in SQL.
    [FormatRFC3339Nano] prints a time (the fraction of a second without its
    trailing zeros, as the layout's [.999999999] asks for), [ParseRFC3339] is
    the parser that [time.Parse] runs on this layout.  When that parser refuses
    a text, Go tries its general one, which accepts a few more shapes (a comma
    before the fraction, an hour of one digit); they are refused here, and no
    text that the store writes has them.

    The lemmas: parsing a printed time gives the time back, and the order of
    the texts is the order of the times when their seconds differ.  Within one
    second it need not be: [format_lt] and [text_order_misleads]. *)
From S2P Require Import Prelude Text Clock.
From Stdlib Require Import Init.Byte Strings.Byte Ascii.

(** ** The proleptic Gregorian calendar, from day 0 = 1 January of year 0 *)

Definition is_leap (y : Z) : bool :=
  (y mod 4 =? 0) && (negb (y mod 100 =? 0) || (y mod 400 =? 0)).
(** The first day of a year. *)
Definition year_start (y : Z) : Z := 365 * y + (y + 3) / 4 - (y + 99) / 100 + (y + 399) / 400.
Definition daysIn (m y : Z) : Z :=
  if m =? 2 then if is_leap y then 29 else 28
  else if (m =? 4) || (m =? 6) || (m =? 9) || (m =? 11) then 30 else 31.
(** The days of a year before its month [m]. *)
Definition month_start (m y : Z) : Z := sumZ (map (λ k, daysIn k y) (seqZ 1 (m - 1))).

Definition date : Type := Z * Z * Z.
Definition day_of_date (d : date) : Z :=
  let '(y, m, d) := d in year_start y + month_start m y + (d - 1).
Definition valid_date (d : date) : bool :=
  let '(y, m, d) := d in (1 <=? m) && (m <=? 12) && (1 <=? d) && (d <=? daysIn m y).

Definition year_of_day (day : Z) : Z :=
  let y := (400 * day) / 146097 in
  if day <? year_start y then y - 1
  else if year_start (y + 1) <=? day then y + 1 else y.
Fixpoint month_go (n : nat) (m y rest : Z) : Z * Z :=
  match n with
  | O => (m, rest + 1)
  | S n => if rest <? daysIn m y then (m, rest + 1) else month_go n (m + 1) y (rest - daysIn m y)
  end.
Definition date_of_day (day : Z) : date :=
  let y := year_of_day day in
  let '(m, d) := month_go 11 1 y (day - year_start y) in (y, m, d).

(** The day of the Unix epoch. *)
Definition epoch_day : Z := 719528.

(** ** Printing *)

Fixpoint zpad (w : nat) (n : Z) : list byte :=
  match w with
  | O => []
  | S w => digit (n / 10 ^ Z.of_nat w mod 10) :: zpad w n
  end.

Definition zero_digit : byte := x30.
Fixpoint trim_zeros (l : list byte) : list byte :=
  match l with
  | [] => []
  | b :: l =>
    match trim_zeros l with
    | [] => if bool_decide (b = zero_digit) then [] else [b]
    | k => b :: k
    end
  end.

Definition frac_text (nano : Z) : list byte :=
  match trim_zeros (zpad 9 nano) with [] => [] | l => x2e :: l end.
Definition year_text (y : Z) : list byte := if y <=? 9999 then zpad 4 y else fmt_dec y.

Definition date_text (d : date) : list byte :=
  let '(y, m, d) := d in year_text y ++ [x2d] ++ zpad 2 m ++ [x2d] ++ zpad 2 d.
Definition clock_text (sod : Z) : list byte :=
  zpad 2 (sod / 3600) ++ [x3a] ++ zpad 2 (sod / 60 mod 60) ++ [x3a] ++ zpad 2 (sod mod 60).

(** [t.UTC().Format(time.RFC3339Nano)], for years from 0 on. *)
Definition rfc_bytes (t : Z) : list byte :=
  date_text (date_of_day (Unix t / 86400 + epoch_day)) ++ [x54] ++
  clock_text (Unix t mod 86400) ++ frac_text (t mod Second) ++ [x5a].
Definition FormatRFC3339Nano (t : Z) : string := b2s (rfc_bytes t).

(** ** Parsing *)

Definition dec_value (l : list byte) : Z := foldl (λ acc b, acc * 10 + digit_val b) 0 l.
(** [parseUint(s, min, max)] of the parser: [None] when it clears [ok]. *)
Definition parse_field (l : list byte) (lo hi : Z) : option Z :=
  if forallb is_digit l && (lo <=? dec_value l) && (dec_value l <=? hi)
  then Some (dec_value l) else None.
Fixpoint take_digits (l : list byte) : list byte * list byte :=
  match l with
  | [] => ([], [])
  | b :: k => if is_digit b then let '(d, r) := take_digits k in (b :: d, r) else ([], l)
  end.
(** The fraction of a second and the rest of the text. *)
Definition parse_frac (l : list byte) : Z * list byte :=
  match l with
  | x2e :: k =>
    match take_digits k with
    | ([], _) => (0, l)
    | (d, r) => (let d := take 9 d in dec_value d * 10 ^ (9 - len d), r)
    end
  | _ => (0, l)
  end.
(** The offset of a time zone, in seconds. *)
Definition parse_zone (l : list byte) : option Z :=
  match l with
  | [x5a] => Some 0
  | [s; h1; h2; c; m1; m2] =>
    hr ← parse_field [h1; h2] 0 23; mm ← parse_field [m1; m2] 0 59;
    if bool_decide ((s = x2d ∨ s = x2b) ∧ c = x3a)
    then Some (let o := (hr * 60 + mm) * 60 in if bool_decide (s = x2d) then - o else o)
    else None
  | _ => None
  end.

Definition ParseRFC3339 (s : string) : option Z :=
  let s := s2b s in
  if bool_decide (length s < 19)%nat then None
  else
    year ← parse_field (slice 0 4 s) 0 9999;
    month ← parse_field (slice 5 7 s) 1 12;
    day ← parse_field (slice 8 10 s) 1 (daysIn month year);
    hour ← parse_field (slice 11 13 s) 0 23;
    min ← parse_field (slice 14 16 s) 0 59;
    sec ← parse_field (slice 17 19 s) 0 59;
    if bool_decide (s !! 4%nat = Some x2d ∧ s !! 7%nat = Some x2d ∧ s !! 10%nat = Some x54 ∧
                    s !! 13%nat = Some x3a ∧ s !! 16%nat = Some x3a)
    then
      let '(nsec, rest) := parse_frac (drop 19 s) in
      offset ← parse_zone rest;
      Some (OfUnix ((day_of_date (year, month, day) - epoch_day) * 86400
                    + hour * 3600 + min * 60 + sec - offset) + nsec)
    else None.

(** [t, _ := time.Parse(time.RFC3339Nano, s)]: the zero time on a failure. *)
Definition ParseTime (s : string) : Z := default zeroTime (ParseRFC3339 s).

(** The times whose year has four digits. *)
Definition rfc_range (t : Z) : Prop :=
  - epoch_day * 86400 ≤ Unix t < (year_start 10000 - epoch_day) * 86400.

(** ** Lemmas: the calendar *)

#[local] Ltac Zify.zify_post_hook ::= Z.to_euclidean_division_equations.

Lemma div_succ y k :
  0 < k → (y + 1 + (k - 1)) / k = (y + (k - 1)) / k + (if y mod k =? 0 then 1 else 0).
Proof.
  intros Hk. pose proof (Z.div_mod y k ltac:(lia)). pose proof (Z.mod_pos_bound y k Hk).
  assert ((y + 1 + (k - 1)) / k = y / k + 1) as ->.
  { symmetry. apply (Z.div_unique _ _ _ (y mod k)); lia. }
  destruct (Z.eqb_spec (y mod k) 0).
  - assert ((y + (k - 1)) / k = y / k) as ->; [|lia].
    symmetry. apply (Z.div_unique _ _ _ (k - 1)); lia.
  - assert ((y + (k - 1)) / k = y / k + 1) as ->; [|lia].
    symmetry. apply (Z.div_unique _ _ _ (y mod k - 1)); lia.
Qed.

Lemma year_start_succ y : year_start (y + 1) = year_start y + (if is_leap y then 366 else 365).
Proof.
  unfold year_start, is_leap.
  pose proof (div_succ y 4) as H4. pose proof (div_succ y 100) as H100.
  pose proof (div_succ y 400) as H400.
  change (4 - 1) with 3 in *. change (100 - 1) with 99 in *. change (400 - 1) with 399 in *.
  rewrite H4, H100, H400 by lia. clear H4 H100 H400.
  assert (y mod 100 = 0 → y mod 4 = 0) by lia.
  assert (y mod 400 = 0 → y mod 100 = 0) by lia.
  destruct (Z.eqb_spec (y mod 4) 0), (Z.eqb_spec (y mod 100) 0), (Z.eqb_spec (y mod 400) 0);
    cbn [negb orb andb]; lia.
Qed.

Lemma month_start_succ m y : 1 ≤ m → month_start (m + 1) y = month_start m y + daysIn m y.
Proof.
  intros. unfold month_start. replace (m + 1 - 1) with (m - 1 + 1) by lia.
  rewrite seqZ_app by lia. rewrite map_app, sumZ_app. simpl.
  replace (Z.of_nat 0 + (1 + (m - 1))) with m by lia. lia.
Qed.

Lemma month_start_1 y : month_start 1 y = 0.
Proof. done. Qed.

Lemma daysIn_range m y : 28 ≤ daysIn m y ≤ 31.
Proof. unfold daysIn. repeat case_match; lia. Qed.

Lemma month_start_mono a b y : 1 ≤ a → a ≤ b → month_start a y ≤ month_start b y.
Proof.
  intros Ha Hab. replace b with (a + Z.of_nat (Z.to_nat (b - a))) by lia.
  induction (Z.to_nat (b - a)) as [|n IH]; [by rewrite Z.add_0_r|].
  rewrite Nat2Z.inj_succ, Z.add_succ_r, <- Z.add_1_r, month_start_succ by lia.
  pose proof (daysIn_range (a + Z.of_nat n) y). lia.
Qed.

Lemma month_start_13 y : month_start 13 y = if is_leap y then 366 else 365.
Proof. unfold month_start, daysIn. simpl. by case_match. Qed.

Lemma year_start_mono a b : a ≤ b → year_start a ≤ year_start b.
Proof. intros. unfold year_start. lia. Qed.

Lemma day_of_date_year y m d :
  valid_date (y, m, d) = true → year_start y ≤ day_of_date (y, m, d) < year_start (y + 1).
Proof.
  unfold valid_date. intros H. bprop. simpl. rewrite year_start_succ, <- month_start_13.
  pose proof (month_start_mono 1 m y) as Hlo. rewrite month_start_1 in Hlo.
  pose proof (month_start_mono (m + 1) 13 y) as Hhi. rewrite month_start_succ in Hhi by lia. lia.
Qed.

(** Dates in order are days in order. *)
Definition date_lt (a b : date) : Prop :=
  let '(y1, m1, d1) := a in let '(y2, m2, d2) := b in
  y1 < y2 ∨ (y1 = y2 ∧ (m1 < m2 ∨ (m1 = m2 ∧ d1 < d2))).

Lemma day_of_date_mono a b :
  valid_date a = true → valid_date b = true → date_lt a b → day_of_date a < day_of_date b.
Proof.
  destruct a as [[y1 m1] d1], b as [[y2 m2] d2]. intros Ha Hb [Hy|[-> Hmd]].
  - pose proof (day_of_date_year _ _ _ Ha). pose proof (day_of_date_year _ _ _ Hb).
    pose proof (year_start_mono (y1 + 1) y2). lia.
  - unfold valid_date in *. bprop. simpl. destruct Hmd as [Hm|[-> ?]]; [|lia].
    pose proof (month_start_mono (m1 + 1) m2 y2) as H'. rewrite month_start_succ in H' by lia. lia.
Qed.

Lemma year_of_day_spec day :
  year_start (year_of_day day) ≤ day < year_start (year_of_day day + 1).
Proof.
  unfold year_of_day. set (y := 400 * day / 146097).
  assert (year_start (y - 1) ≤ day < year_start (y + 2)) as H.
  { unfold y, year_start. split; lia. }
  destruct (Z.ltb_spec day (year_start y)); [replace (y - 1 + 1) with y by lia; lia|].
  destruct (Z.leb_spec (year_start (y + 1)) day); [|lia].
  replace (y + 1 + 1) with (y + 2) by lia. lia.
Qed.

Lemma month_go_spec n m y rest m' d' :
  m + Z.of_nat n = 12 → 1 ≤ m → 0 ≤ rest < month_start 13 y - month_start m y →
  month_go n m y rest = (m', d') →
  1 ≤ m' ≤ 12 ∧ 1 ≤ d' ≤ daysIn m' y ∧ month_start m' y + (d' - 1) = month_start m y + rest.
Proof.
  revert m rest. induction n as [|n IH]; intros m rest Hn Hm Hr; simpl.
  - assert (m = 12) as -> by lia. intros [= <- <-].
    change 13 with (12 + 1) in Hr. rewrite month_start_succ in Hr by lia. lia.
  - destruct (Z.ltb_spec rest (daysIn m y)); [intros [= <- <-]; lia|].
    intros Hgo. apply IH in Hgo; [|lia..|].
    + destruct Hgo as (? & ? & Hs). rewrite month_start_succ in Hs by lia. lia.
    + rewrite month_start_succ by lia. lia.
Qed.

Lemma date_of_day_spec day :
  valid_date (date_of_day day) = true ∧ day_of_date (date_of_day day) = day ∧
  fst (fst (date_of_day day)) = year_of_day day.
Proof.
  unfold date_of_day. set (y := year_of_day day).
  pose proof (year_of_day_spec day) as Hy. fold y in Hy. rewrite year_start_succ in Hy.
  destruct (month_go 11 1 y (day - year_start y)) as [m d] eqn:E.
  apply month_go_spec in E; [|lia..|rewrite month_start_13, month_start_1; lia].
  rewrite month_start_1 in E. simpl. split; [|lia].
  repeat (apply andb_true_iff; split); apply Z.leb_le; lia.
Qed.

(** Days in order are dates in order. *)
Lemma date_of_day_mono a b : a < b → date_lt (date_of_day a) (date_of_day b).
Proof.
  intros Hab. destruct (date_of_day_spec a) as (Va & Da & _), (date_of_day_spec b) as (Vb & Db & _).
  assert (date_of_day a ≠ date_of_day b) by (intros E; rewrite E, Db in Da; lia).
  assert (¬ date_lt (date_of_day b) (date_of_day a)) as Hn
    by (intros H'; apply day_of_date_mono in H'; lia || done).
  destruct (date_of_day a) as [[y1 m1] d1], (date_of_day b) as [[y2 m2] d2].
  unfold date_lt in *. destruct (decide (y1 = y2)) as [->|]; [|lia].
  destruct (decide (m1 = m2)) as [->|]; [|lia].
  destruct (decide (d1 = d2)) as [->|]; [done|lia].
Qed.

Lemma year_of_day_range day :
  0 ≤ day < year_start 10000 → 0 ≤ year_of_day day ≤ 9999.
Proof.
  intros Hd. pose proof (year_of_day_spec day) as Hy. split.
  - destruct (decide (0 ≤ year_of_day day)); [done|].
    pose proof (year_start_mono (year_of_day day + 1) 0). change (year_start 0) with 0 in *. lia.
  - destruct (decide (year_of_day day ≤ 9999)); [done|].
    pose proof (year_start_mono 10000 (year_of_day day)). lia.
Qed.

(** ** Lemmas: decimal fields *)

Lemma zpad_length w n : length (zpad w n) = w.
Proof. induction w; simpl; auto. Qed.

Lemma zpad_digits w n : forallb is_digit (zpad w n) = true.
Proof.
  induction w as [|w IH]; simpl; [done|]. rewrite IH, andb_true_r.
  apply digit_spec. apply Z.mod_pos_bound. lia.
Qed.

Lemma dec_value_snoc l b : dec_value (l ++ [b]) = dec_value l * 10 + digit_val b.
Proof. unfold dec_value. by rewrite foldl_app. Qed.

Lemma dec_value_app l k : dec_value (l ++ k) = dec_value l * 10 ^ len k + dec_value k.
Proof.
  unfold len. induction k as [|b k IH] using rev_ind.
  - rewrite app_nil_r. simpl. change (dec_value []) with 0. lia.
  - rewrite (assoc_L (++)), !dec_value_snoc, IH, length_app, Nat2Z.inj_add, Z.pow_add_r by lia.
    simpl. lia.
Qed.

Lemma dec_value_zpad w n : dec_value (zpad w n) = n mod 10 ^ Z.of_nat w.
Proof.
  induction w as [|w IH]; [by rewrite Z.mod_1_r|].
  change (zpad (S w) n) with ([digit (n / 10 ^ Z.of_nat w mod 10)] ++ zpad w n).
  rewrite dec_value_app, IH. unfold len. rewrite zpad_length.
  unfold dec_value. simpl foldl.
  rewrite (proj2 (digit_spec (n / 10 ^ Z.of_nat w mod 10) (Z.mod_pos_bound _ 10 eq_refl))).
  replace (10 ^ Z.of_nat (S w)) with (10 ^ Z.of_nat w * 10)
    by (rewrite Nat2Z.inj_succ, Z.pow_succ_r by lia; lia).
  rewrite Z.rem_mul_r by lia. lia.
Qed.

Lemma parse_field_zpad w n lo hi :
  0 ≤ n < 10 ^ Z.of_nat w → lo ≤ n ≤ hi → parse_field (zpad w n) lo hi = Some n.
Proof.
  intros Hn Hr. unfold parse_field. rewrite zpad_digits, dec_value_zpad, Z.mod_small by done.
  by rewrite (proj2 (Z.leb_le lo n)), (proj2 (Z.leb_le n hi)) by lia.
Qed.

Lemma trim_zeros_spec l : ∃ k, l = trim_zeros l ++ replicate k zero_digit.
Proof.
  induction l as [|b l [k IH]]; [by exists 0%nat|]. simpl.
  destruct (trim_zeros l) as [|c r] eqn:E.
  - simpl in IH. case_match; bprop.
    + exists (S k). simpl. by subst.
    + exists k. simpl. by rewrite <- IH.
  - exists k. simpl. by rewrite IH at 1.
Qed.

Lemma dec_value_zeros k : dec_value (replicate k zero_digit) = 0.
Proof.
  induction k as [|k IH]; [done|]. rewrite replicate_S_end, dec_value_snoc, IH. done.
Qed.

Lemma take_digits_app l k :
  forallb is_digit l = true → take_digits (l ++ k) =
    let '(d, r) := take_digits k in (l ++ d, r).
Proof.
  induction l as [|b l IH]; simpl; intros H; [by destruct (take_digits k)|].
  bprop. rewrite H, IH by done. by destruct (take_digits k).
Qed.

Lemma parse_frac_text nano :
  0 ≤ nano < 10 ^ 9 → parse_frac (frac_text nano ++ [x5a]) = (nano, [x5a]).
Proof.
  intros Hn. destruct (trim_zeros_spec (zpad 9 nano)) as [k Hk]. unfold frac_text.
  set (d := trim_zeros (zpad 9 nano)) in *.
  pose proof (dec_value_zpad 9 nano) as Hv. rewrite Z.mod_small in Hv by done.
  pose proof (zpad_length 9 nano) as Hl. pose proof (zpad_digits 9 nano) as Hd.
  rewrite Hk in Hv, Hl, Hd. rewrite dec_value_app, dec_value_zeros, Z.add_0_r in Hv.
  rewrite length_app, length_replicate in Hl. rewrite forallb_app in Hd. bprop.
  clearbody d. destruct d as [|c r].
  { simpl in *. by rewrite <- Hv. }
  change ((x2e :: c :: r) ++ [x5a]) with (x2e :: ((c :: r) ++ [x5a])).
  cbn [parse_frac]. rewrite take_digits_app by done.
  replace (take_digits [x5a]) with (([] : list byte), [x5a]) by done.
  cbv beta iota zeta. rewrite app_nil_r. cbn match.
  unfold len in Hv |- *. rewrite length_replicate in Hv.
  clear Hk. rewrite (take_ge (c :: r)) by lia.
  replace (9 - Z.of_nat (length (c :: r))) with (Z.of_nat k) by lia.
  by rewrite Hv.
Qed.

(** A printed field as its bytes, with its length and what it parses to. *)
Lemma list2 {A} (l : list A) : length l = 2%nat → ∃ a b, l = [a; b].
Proof. destruct l as [|a [|b [|]]]; try done. eauto. Qed.
Lemma list4 {A} (l : list A) : length l = 4%nat → ∃ a b c d, l = [a; b; c; d].
Proof. destruct l as [|a [|b [|c [|d [|]]]]]; try done. eauto 6. Qed.

Lemma sod_split sod : 0 ≤ sod < 86400 →
  0 ≤ sod / 3600 ≤ 23 ∧ 0 ≤ sod / 60 mod 60 ≤ 59 ∧ 0 ≤ sod mod 60 ≤ 59 ∧
  sod / 3600 * 3600 + sod / 60 mod 60 * 60 + sod mod 60 = sod.
Proof. lia. Qed.

Lemma rfc_year t : rfc_range t → 0 ≤ year_of_day (Unix t / 86400 + epoch_day) ≤ 9999.
Proof.
  unfold rfc_range. intros H. apply year_of_day_range. split; [lia|].
  assert (Unix t / 86400 < year_start 10000 - epoch_day) by (apply Z.div_lt_upper_bound; lia). lia.
Qed.

(** Reading a time back from its text. *)
Lemma parse_format t : rfc_range t → ParseRFC3339 (FormatRFC3339Nano t) = Some t.
Proof.
  intros Hr. unfold FormatRFC3339Nano, ParseRFC3339. rewrite s2b_b2s.
  pose proof (rfc_year t Hr) as Hy. unfold rfc_bytes.
  destruct (date_of_day_spec (Unix t / 86400 + epoch_day)) as (Hv & Hd & Hyd).
  destruct (date_of_day _) as [[y m] d] eqn:E. simpl in Hyd. subst y.
  set (y := year_of_day _) in *. set (sod := Unix t mod 86400).
  destruct (sod_split sod) as (Hh & Hm & Hs & Hsum); [apply Z.mod_pos_bound; lia|].
  unfold valid_date in Hv. bprop. pose proof (daysIn_range m y).
  unfold date_text, clock_text, year_text. rewrite (proj2 (Z.leb_le y 9999)) by lia.
  pose proof (parse_field_zpad 4 y 0 9999 ltac:(lia) ltac:(lia)) as Py.
  pose proof (parse_field_zpad 2 m 1 12 ltac:(lia) ltac:(lia)) as Pm.
  pose proof (parse_field_zpad 2 d 1 (daysIn m y) ltac:(lia) ltac:(lia)) as Pd.
  pose proof (parse_field_zpad 2 (sod / 3600) 0 23 ltac:(lia) ltac:(lia)) as Ph.
  pose proof (parse_field_zpad 2 (sod / 60 mod 60) 0 59 ltac:(lia) ltac:(lia)) as Pn.
  pose proof (parse_field_zpad 2 (sod mod 60) 0 59 ltac:(lia) ltac:(lia)) as Ps.
  pose proof (parse_frac_text (t mod Second)) as Pf.
  destruct (list4 _ (zpad_length 4 y)) as (?&?&?&?&Ey). rewrite Ey in *.
  destruct (list2 _ (zpad_length 2 m)) as (?&?&Em). rewrite Em in *.
  destruct (list2 _ (zpad_length 2 d)) as (?&?&Ed). rewrite Ed in *.
  destruct (list2 _ (zpad_length 2 (sod / 3600))) as (?&?&Eh). rewrite Eh in *.
  destruct (list2 _ (zpad_length 2 (sod / 60 mod 60))) as (?&?&En). rewrite En in *.
  destruct (list2 _ (zpad_length 2 (sod mod 60))) as (?&?&Es). rewrite Es in *.
  cbn [app]. rewrite bool_decide_eq_false_2 by (simpl; lia).
  cbn [slice drop take Nat.sub]. unfold slice. cbn [drop take Nat.sub].
  rewrite take_0, drop_0.
  rewrite Py. cbn [mbind option_bind]. rewrite Pm. cbn [mbind option_bind].
  rewrite Pd. cbn [mbind option_bind]. rewrite Ph. cbn [mbind option_bind].
  rewrite Pn. cbn [mbind option_bind]. rewrite Ps. cbn [mbind option_bind].
  rewrite bool_decide_eq_true_2 by done.
  rewrite Pf by (apply Z.mod_pos_bound; done). cbn [parse_zone mbind option_bind].
  f_equal. rewrite Hd. unfold OfUnix.
  replace ((Unix t / 86400 + epoch_day - epoch_day) * 86400 + sod / 3600 * 3600 +
    sod / 60 mod 60 * 60 + sod mod 60 - 0) with (Unix t).
  - unfold Unix. pose proof (Z.div_mod t Second). lia.
  - unfold sod in *. pose proof (Z.div_mod (Unix t) 86400). lia.
Qed.

(** ** The order of texts *)

(** SQLite's [<] and [<=] on two texts. *)
Definition text_lt (a b : string) : bool := String.ltb a b.
Definition text_le (a b : string) : bool := String.leb a b.

Fixpoint lexcmp (l k : list byte) : comparison :=
  match l, k with
  | [], [] => Eq
  | [], _ => Lt
  | _, [] => Gt
  | b :: l, c :: k => match bZ b ?= bZ c with Eq => lexcmp l k | r => r end
  end.

Lemma ascii_of_byte_N b : N_of_ascii (ascii_of_byte b) = Byte.to_N b.
Proof. by destruct b. Qed.

Lemma compare_b2s l k : String.compare (b2s l) (b2s k) = lexcmp l k.
Proof.
  revert k. induction l as [|b l IH]; intros [|c k]; try done.
  change (b2s (b :: l)) with (String (ascii_of_byte b) (b2s l)).
  change (b2s (c :: k)) with (String (ascii_of_byte c) (b2s k)).
  simpl. unfold Ascii.compare. rewrite !ascii_of_byte_N, IH. unfold bZ. by rewrite N2Z.inj_compare.
Qed.

Lemma lexcmp_app a b x y :
  length a = length b →
  lexcmp (a ++ x) (b ++ y) = match lexcmp a b with Eq => lexcmp x y | r => r end.
Proof.
  revert b. induction a as [|c a IH]; intros [|d b] H; simplify_eq/=; [done|].
  case_match; [by apply IH|done|done].
Qed.

Lemma lexcmp_refl l : lexcmp l l = Eq.
Proof. induction l as [|b l IH]; simpl; [done|]. by rewrite Z.compare_refl. Qed.

Lemma dec_value_range l : forallb is_digit l = true → 0 ≤ dec_value l < 10 ^ len l.
Proof.
  unfold len. induction l as [|b l IH] using rev_ind; [done|].
  rewrite forallb_app. simpl. intros H. bprop. rewrite dec_value_snoc, length_app, Nat2Z.inj_add.
  rewrite Z.pow_add_r by lia. specialize (IH ltac:(done)). simpl.
  match goal with H : is_digit b = true |- _ => unfold is_digit in H end. bprop.
  unfold digit_val. change (10 ^ 1) with 10. lia.
Qed.

Lemma lexcmp_digits l k :
  forallb is_digit l = true → forallb is_digit k = true → length l = length k →
  lexcmp l k = (dec_value l ?= dec_value k).
Proof.
  revert k. induction l as [|b l IH]; intros [|c k]; simpl; intros Hb Hc Hl; simplify_eq; [done|].
  bprop. rewrite (IH k) by done.
  change (b :: l) with ([b] ++ l). change (c :: k) with ([c] ++ k). rewrite !dec_value_app.
  pose proof (dec_value_range l ltac:(done)) as Rl. pose proof (dec_value_range k ltac:(done)) as Rk.
  unfold len in *. rewrite Hl in *. change (dec_value [b]) with (digit_val b).
  change (dec_value [c]) with (digit_val c). unfold digit_val.
  destruct (Z.compare_spec (bZ b) (bZ c)) as [E|E|E].
  - rewrite E. destruct (Z.compare_spec (dec_value l) (dec_value k)) as [E'|E'|E']; symmetry;
      [apply Z.compare_eq_iff|apply Z.compare_lt_iff|apply Z.compare_gt_iff]; lia.
  - symmetry. apply Z.compare_lt_iff. nia.
  - symmetry. apply Z.compare_gt_iff. nia.
Qed.

Lemma lexcmp_zpad w a b :
  0 ≤ a < 10 ^ Z.of_nat w → 0 ≤ b < 10 ^ Z.of_nat w → lexcmp (zpad w a) (zpad w b) = (a ?= b).
Proof.
  intros. rewrite lexcmp_digits by (rewrite ?zpad_digits, ?zpad_length; done).
  by rewrite !dec_value_zpad, !Z.mod_small.
Qed.

Lemma lexcmp_field w a b x y :
  0 ≤ a < 10 ^ Z.of_nat w → 0 ≤ b < 10 ^ Z.of_nat w →
  lexcmp (zpad w a ++ x) (zpad w b ++ y) = match a ?= b with Eq => lexcmp x y | r => r end.
Proof. intros. rewrite lexcmp_app, lexcmp_zpad by (rewrite ?zpad_length; done). done. Qed.

Lemma lexcmp_cons b x y : lexcmp (b :: x) (b :: y) = lexcmp x y.
Proof. simpl. by rewrite Z.compare_refl. Qed.

Lemma date_text_order a b x y :
  valid_date a = true → valid_date b = true →
  0 ≤ a.1.1 ≤ 9999 → 0 ≤ b.1.1 ≤ 9999 → date_lt a b →
  lexcmp (date_text a ++ x) (date_text b ++ y) = Lt.
Proof.
  destruct a as [[y1 m1] d1], b as [[y2 m2] d2]. cbn [fst snd]. intros Ha Hb R1 R2 Hlt.
  unfold date_text, valid_date, date_lt, year_text in *. rewrite !(proj2 (Z.leb_le _ 9999)) by lia.
  pose proof (daysIn_range m1 y1). pose proof (daysIn_range m2 y2). bprop.
  rewrite <- ?(assoc_L (++)), lexcmp_field by lia. cbn [app]. rewrite <- ?(assoc_L (++)).
  cbn [app]. rewrite lexcmp_cons.
  destruct (Z.compare_spec y1 y2); [|done|lia].
  rewrite lexcmp_field, lexcmp_cons by lia. destruct (Z.compare_spec m1 m2); [|done|lia].
  rewrite lexcmp_field by lia. destruct (Z.compare_spec d1 d2); [lia|done|lia].
Qed.

Lemma clock_text_order a b x y :
  0 ≤ a < 86400 → 0 ≤ b < 86400 → a < b → lexcmp (clock_text a ++ x) (clock_text b ++ y) = Lt.
Proof.
  intros Ha Hb Hlt. unfold clock_text.
  destruct (sod_split a Ha) as (?&?&?&?), (sod_split b Hb) as (?&?&?&?).
  rewrite <- ?(assoc_L (++)), lexcmp_field by (simpl; lia). cbn [app].
  rewrite <- ?(assoc_L (++)). cbn [app]. rewrite lexcmp_cons.
  destruct (Z.compare_spec (a / 3600) (b / 3600)); [|done|lia].
  rewrite lexcmp_field, lexcmp_cons by (simpl; lia).
  destruct (Z.compare_spec (a / 60 mod 60) (b / 60 mod 60)); [|done|lia].
  rewrite lexcmp_field by (simpl; lia).
  destruct (Z.compare_spec (a mod 60) (b mod 60)); [lia|done|lia].
Qed.

Lemma format_lt s t :
  rfc_range s → rfc_range t → Unix s < Unix t →
  String.compare (FormatRFC3339Nano s) (FormatRFC3339Nano t) = Lt.
Proof.
  intros Hs Ht Hlt. unfold FormatRFC3339Nano. rewrite compare_b2s. unfold rfc_bytes.
  pose proof (rfc_year s Hs) as Ys. pose proof (rfc_year t Ht) as Yt.
  destruct (date_of_day_spec (Unix s / 86400 + epoch_day)) as (Vs & _ & Es).
  destruct (date_of_day_spec (Unix t / 86400 + epoch_day)) as (Vt & _ & Et).
  destruct (decide (Unix s / 86400 = Unix t / 86400)) as [E|].
  - rewrite E, lexcmp_app, lexcmp_refl by done. cbn [app]. rewrite lexcmp_cons.
    apply clock_text_order; try (apply Z.mod_pos_bound; lia). lia.
  - apply date_text_order; rewrite ?Es, ?Et; try done. apply date_of_day_mono.
    pose proof (Z.div_le_mono (Unix s) (Unix t) 86400). lia.
Qed.

Lemma text_le_unix s t :
  rfc_range s → rfc_range t →
  text_le (FormatRFC3339Nano s) (FormatRFC3339Nano t) = true → Unix s ≤ Unix t.
Proof.
  intros Hs Ht H. destruct (decide (Unix s ≤ Unix t)); [done|].
  pose proof (format_lt t s Ht Hs ltac:(lia)) as Hc. unfold text_le, String.leb in H.
  rewrite String.compare_antisym, Hc in H. done.
Qed.

Lemma text_gt_unix s t :
  rfc_range s → rfc_range t →
  text_le (FormatRFC3339Nano s) (FormatRFC3339Nano t) = false → Unix t ≤ Unix s.
Proof.
  intros Hs Ht H. destruct (decide (Unix t ≤ Unix s)); [done|].
  pose proof (format_lt s t Hs Ht ltac:(lia)) as Hc. unfold text_le, String.leb in H.
  by rewrite Hc in H.
Qed.

(** Within one second the order of the texts can be the wrong one: the text of a
    shorter fraction is a prefix of the longer, and its final [Z] is greater
    than any digit. *)
Lemma text_order_misleads :
  ∃ s t, rfc_range s ∧ rfc_range t ∧ s < t ∧
    text_lt (FormatRFC3339Nano t) (FormatRFC3339Nano s) = true.
Proof.
  exists (1700000000 * Second), (1700000000 * Second + 500000000).
  repeat split; by vm_compute.
Qed.

Lemma ParseTime_Format t : rfc_range t → ParseTime (FormatRFC3339Nano t) = t.
Proof. intros. unfold ParseTime. by rewrite parse_format. Qed.

Definition sample_time : Z := 1700000000123456700.
Example format_sample : FormatRFC3339Nano sample_time = "2023-11-14T22:13:20.1234567Z".
Proof. by vm_compute. Qed.
Example parse_offset : ParseRFC3339 "2023-11-15T00:13:20+02:00" = Some (1700000000 * Second).
Proof. by vm_compute. Qed.
