(* ===== verification/Protocol.v ===== *)
(** * Protocol: the wire formats of [pkg/protocol]

    [packet.go]: the packet record, [MarshalBinary] (the writes into the
    46-byte header at their offsets, then the payload) and [ParsePacket] with
    its four errors in order.  [command.go]: the byte string a device signs to
    report a command's result.  A field of a Go integer type is a [Z]; the
    bounds Go's types enforce are [packet_wf]. *)
From S2P Require Import Prelude Text.
From Stdlib Require Import Init.Byte Strings.Byte.

(** ** Data *)

Definition Version : Z := 1.
Definition HeaderSize : nat := 46.
Definition MaxPayload : Z := 65535.
Definition Magic : list byte := [x54; x59; x58; x4e].

Definition TypeHello : Z := 1.
Definition TypeChallenge : Z := 2.
Definition TypeAuth : Z := 3.
Definition TypeAuthOK : Z := 4.
Definition TypeData : Z := 5.
Definition TypeKeepalive : Z := 6.
Definition TypeControl : Z := 7.
Definition TypeCommand : Z := 8.
Definition TypeCommandResult : Z := 9.
Definition TypeDisconnect : Z := 10.
Definition TypeError : Z := 11.

(** The JSON records of the control stream. *)
Record ControlCommand := mkControlCommand {
  ccVersion : Z; ccID : string; ccType : string; ccCreatedAt : Z; ccExpiresAt : Z
}.
Record CommandResult := mkCommandResult {
  crDeviceID : string; crStatus : string; crResult : string; crError : string; crSignature : string
}.

Record Packet := mkPacket {
  pType : Z; Flags : Z; NetworkID : Z; SessionID : Z;
  SourceID : Z; DestinationID : Z; Sequence : Z; Payload : list byte
}.

Global Instance Packet_eq_dec : EqDecision Packet.
Proof. solve_decision. Defined.

Record packet_wf (p : Packet) : Prop := {
  wf_type : in_u8 (pType p); wf_flags : in_u16 (Flags p);
  wf_network : in_u32 (NetworkID p); wf_session : in_u64 (SessionID p);
  wf_source : in_u64 (SourceID p); wf_destination : in_u64 (DestinationID p);
  wf_sequence : in_u64 (Sequence p)
}.

(** ** Operations *)

(** [copy(b[off:], src)] where the destination is long enough. *)
Definition copy_at (off : nat) (src b : list byte) : list byte :=
  take off b ++ src ++ drop (off + length src) b.

Definition MarshalBinary (p : Packet) : result (list byte) :=
  fail_if MaxPayload <? len (Payload p) with "payload exceeds maximum";
  let b := replicate (HeaderSize + length (Payload p)) x00 in
  let b := copy_at 0 Magic b in
  let b := copy_at 4 [Zb Version] b in
  let b := copy_at 5 [Zb (pType p)] b in
  let b := copy_at 6 (be_put 2 (Flags p)) b in
  let b := copy_at 8 (be_put 4 (NetworkID p)) b in
  let b := copy_at 12 (be_put 8 (SessionID p)) b in
  let b := copy_at 20 (be_put 8 (SourceID p)) b in
  let b := copy_at 28 (be_put 8 (DestinationID p)) b in
  let b := copy_at 36 (be_put 8 (Sequence p)) b in
  let b := copy_at 44 (be_put 2 (u16 (len (Payload p)))) b in
  Ok (copy_at 46 (Payload p) b).

Definition ParsePacket (b : list byte) : result Packet :=
  fail_if bool_decide (length b < HeaderSize)%nat with "short packet";
  fail_if negb (bool_decide (slice 0 4 b = Magic)) with "invalid magic";
  let v := be_get (slice 4 5 b) in
  fail_if negb (v =? Version) with ("unsupported protocol version " +:+ FormatUint v);
  let n := be_get (slice 44 46 b) in
  fail_if (MaxPayload <? n) || negb (len b =? Z.of_nat HeaderSize + n)
    with "invalid payload length";
  Ok (mkPacket (be_get (slice 5 6 b)) (be_get (slice 6 8 b)) (be_get (slice 8 12 b))
        (be_get (slice 12 20 b)) (be_get (slice 20 28 b)) (be_get (slice 28 36 b))
        (be_get (slice 36 44 b)) (drop 46 b)).

(** *** Command results ([command.go]) *)

Definition commandResultDomain : string := "tyxnet-command-result-v1".

(** One pass of the loop over the signed strings: a 16-bit length, then the bytes. *)
Fixpoint write_fields (payload : list byte) (values : list string) : result (list byte) :=
  match values with
  | [] => Ok payload
  | value :: values =>
    fail_if 65535 <? slen value with "command result proof field is too large";
    write_fields (payload ++ be_put 2 (u16 (slen value)) ++ s2b value) values
  end.

Definition CommandResultSigningPayload
    (nonce : list byte) (deviceID commandID status res commandError : string)
    : result (list byte) :=
  fail_if negb (len nonce =? 32) || (deviceID =s "") || (commandID =s "")
    with "invalid command result proof fields";
  let payload := s2b commandResultDomain ++ [x00] ++ nonce in
  write_fields payload [deviceID; commandID; status; res; commandError].

(** ** The header as a concatenation *)

Definition header (p : Packet) (n : Z) : list byte :=
  Magic ++ [Zb Version] ++ [Zb (pType p)] ++ be_put 2 (Flags p) ++ be_put 4 (NetworkID p) ++
  be_put 8 (SessionID p) ++ be_put 8 (SourceID p) ++ be_put 8 (DestinationID p) ++
  be_put 8 (Sequence p) ++ be_put 2 (u16 n).

Lemma header_length p n : length (header p n) = HeaderSize.
Proof. unfold header. by rewrite !length_app, !be_put_length. Qed.

Lemma copy_at_zeros pre src k off n :
  off = length pre → k = (length src + n)%nat →
  copy_at off src (pre ++ replicate k x00) = (pre ++ src) ++ replicate n x00.
Proof.
  intros -> ->. unfold copy_at. rewrite take_app_length, <- drop_drop, drop_app_length.
  rewrite drop_replicate. replace (length src + n - length src)%nat with n by lia.
  by rewrite (assoc_L (++)).
Qed.

Lemma MarshalBinary_eq p :
  MarshalBinary p =
  if MaxPayload <? len (Payload p) then Err "payload exceeds maximum"
  else Ok (header p (len (Payload p)) ++ Payload p).
Proof.
  unfold MarshalBinary. case_match; [done|]. f_equal. unfold HeaderSize.
  set (q := length (Payload p)).
  change (replicate (46 + q) x00) with ([] ++ replicate (46 + q) x00).
  rewrite (copy_at_zeros [] Magic _ 0 (42 + q)) by done.
  rewrite (copy_at_zeros _ [Zb Version] _ 4 (41 + q)) by done.
  rewrite (copy_at_zeros _ [Zb (pType p)] _ 5 (40 + q)) by done.
  repeat (erewrite copy_at_zeros;
    [|by rewrite ?length_app, ?be_put_length|by rewrite be_put_length]).
  rewrite (copy_at_zeros _ (Payload p) q 46 0) by
    (rewrite ?length_app, ?be_put_length; done || (unfold q; lia)).
  simpl replicate. rewrite app_nil_r. unfold header.
  by rewrite <- !(assoc_L (++)).
Qed.

Lemma MarshalBinary_length p b :
  MarshalBinary p = Ok b → length b = (HeaderSize + length (Payload p))%nat.
Proof.
  rewrite MarshalBinary_eq. intros H. guards. subst b.
  rewrite length_app. by rewrite header_length.
Qed.

(** ** Fields read back from the header *)

Lemma ParsePacket_header p n pl :
  packet_wf p → n = len pl → n ≤ MaxPayload →
  ParsePacket (header p n ++ pl) =
  Ok (mkPacket (pType p) (Flags p) (NetworkID p) (SessionID p) (SourceID p)
        (DestinationID p) (Sequence p) pl).
Proof.
  intros [] -> Hmax. unfold MaxPayload in *.
  assert (Hl : length (header p (len pl) ++ pl) = (46 + length pl)%nat)
    by (rewrite length_app; by rewrite header_length).
  unfold ParsePacket. rewrite (bool_decide_eq_false_2 _) by (rewrite Hl; unfold HeaderSize; lia).
  change (slice 0 4 _) with Magic. rewrite bool_decide_eq_true_2 by done. cbn [negb].
  change (slice 4 5 _) with (be_put 1 1). change (negb (be_get (be_put 1 1) =? Version)) with false. cbn iota.
  change (slice 44 46 _) with (be_put 2 (u16 (len pl))).
  rewrite (be_get_put_small 2 (u16 _)) by (apply Z.mod_pos_bound; done).
  unfold u16. rewrite Z.mod_small by (unfold len in *; lia).
  rewrite (proj2 (Z.ltb_ge _ _)) by (unfold MaxPayload, len in *; lia).
  rewrite (proj2 (Z.eqb_eq _ _)) by (unfold len at 1; rewrite Hl; unfold HeaderSize, len; lia).
  cbn [negb orb].
  change (slice 5 6 _) with (be_put 1 (pType p)).
  change (slice 6 8 _) with (be_put 2 (Flags p)).
  change (slice 8 12 _) with (be_put 4 (NetworkID p)).
  change (slice 12 20 _) with (be_put 8 (SessionID p)).
  change (slice 20 28 _) with (be_put 8 (SourceID p)).
  change (slice 28 36 _) with (be_put 8 (DestinationID p)).
  change (slice 36 44 _) with (be_put 8 (Sequence p)).
  change (drop 46 _) with pl.
  rewrite !be_get_put_small by assumption. done.
Qed.

Lemma header_cover (b : list byte) :
  (46 ≤ length b)%nat →
  b = slice 0 4 b ++ slice 4 5 b ++ slice 5 6 b ++ slice 6 8 b ++ slice 8 12 b ++
      slice 12 20 b ++ slice 20 28 b ++ slice 28 36 b ++ slice 36 44 b ++ slice 44 46 b ++
      drop 46 b.
Proof.
  intros _. rewrite <- (take_drop 46 b) at 1.
  rewrite (take_slice 44 46), (take_slice 36 44), (take_slice 28 36), (take_slice 20 28),
    (take_slice 12 20), (take_slice 8 12), (take_slice 6 8), (take_slice 5 6),
    (take_slice 4 5), (take_slice 0 4) by lia.
  simpl take. by rewrite <- !(assoc_L (++)).
Qed.

Lemma be_get_slice_range lo hi (b : list byte) :
  (lo ≤ hi)%nat → (hi ≤ length b)%nat → 0 ≤ be_get (slice lo hi b) < 256 ^ Z.of_nat (hi - lo).
Proof.
  intros. pose proof (be_get_range (slice lo hi b)) as Hr. unfold len in Hr.
  by rewrite slice_length in Hr.
Qed.

(** What a successful parse establishes about the bytes. *)
Lemma ParsePacket_inv b p :
  ParsePacket b = Ok p →
  packet_wf p ∧ len (Payload p) ≤ MaxPayload ∧ b = header p (len (Payload p)) ++ Payload p.
Proof.
  unfold ParsePacket. intros H. guards. bprop. subst p. cbn [Payload].
  match goal with H : ¬ (_ < _)%nat |- _ => rename H into Hlen end.
  unfold HeaderSize, MaxPayload, len in *.
  assert (Hl : length b = (46 + length (drop 46 b))%nat) by (rewrite length_drop; lia).
  split; [constructor; unfold in_u8, in_u16, in_u32, in_u64;
          cbn [pType Flags NetworkID SessionID SourceID DestinationID Sequence];
          apply be_get_slice_range; lia|].
  assert (Hn : Z.of_nat (length (drop 46 b)) = be_get (slice 44 46 b)) by lia.
  split; [lia|].
  rewrite (header_cover b) at 1 by lia. unfold header; cbn [pType Flags NetworkID SessionID
    SourceID DestinationID Sequence].
  rewrite !(be_put_get _ (slice _ _ b)) by (apply slice_length; lia).
  rewrite Hn. unfold u16.
  pose proof (be_get_slice_range 44 46 b ltac:(lia) ltac:(lia)) as R.
  rewrite Z.mod_small by (revert R; change (256 ^ Z.of_nat (46 - 44)) with (2 ^ 16); done).
  rewrite (be_put_get 2 (slice 44 46 b)) by (apply slice_length; lia).
  assert (∀ lo, (lo + 1 ≤ length b)%nat →
    [Zb (be_get (slice lo (lo + 1) b))] = slice lo (lo + 1) b) as Hone.
  { intros lo Hlo. rewrite <- (be_put_get 1 (slice lo (lo + 1) b)) at 2
      by (rewrite slice_length; lia). done. }
  pose proof (Hone 5%nat ltac:(lia)) as H5. pose proof (Hone 4%nat ltac:(lia)) as H4.
  cbn [Nat.add] in H4, H5. rewrite H5, <- H4.
  match goal with H : _ = Magic |- _ => rewrite H end.
  match goal with H : _ = Version |- _ => rewrite H end.
  by rewrite <- !(assoc_L (++)).
Qed.

(** ** The signed fields *)

Definition field_enc (v : string) : list byte := be_put 2 (u16 (slen v)) ++ s2b v.

Lemma write_fields_inv payload vs r :
  write_fields payload vs = Ok r →
  r = payload ++ concat (map field_enc vs) ∧ Forall (λ v, slen v ≤ 65535) vs.
Proof.
  revert payload. induction vs as [|v vs IH]; intros payload; simpl.
  - intros [= ->]. by rewrite app_nil_r.
  - intros H. guards. bprop. apply IH in H as [-> Hvs]. split; [|by constructor].
    unfold field_enc at 2. by rewrite <- !(assoc_L (++)).
Qed.

Lemma fields_inj vs1 vs2 :
  length vs1 = length vs2 →
  Forall (λ v, slen v ≤ 65535) vs1 → Forall (λ v, slen v ≤ 65535) vs2 →
  concat (map field_enc vs1) = concat (map field_enc vs2) → vs1 = vs2.
Proof.
  intros Hl H1. revert vs2 Hl. induction H1 as [|v1 vs1 Hv1 H1 IH]; intros [|v2 vs2];
    cbn [concat map]; [done..|]. intros [= Hl] [Hv2 H2]%Forall_cons E.
  unfold field_enc in E. rewrite <- !(assoc_L (++)) in E.
  apply app_inj_1 in E as [Elen E]; [|by rewrite !be_put_length].
  apply be_put_inj in Elen; [|apply Z.mod_pos_bound; done..].
  unfold u16 in Elen. rewrite !Z.mod_small in Elen by (unfold slen in *; lia).
  apply app_inj_1 in E as [Ev E].
  - apply (inj s2b) in Ev as ->. f_equal. by apply IH.
  - rewrite !slen_len in Elen. unfold len in Elen. lia.
Qed.

Lemma CommandResultSigningPayload_inv nonce d c s r e out :
  CommandResultSigningPayload nonce d c s r e = Ok out →
  length nonce = 32%nat ∧
  out = s2b commandResultDomain ++ [x00] ++ nonce ++ concat (map field_enc [d; c; s; r; e]) ∧
  Forall (λ v, slen v ≤ 65535) [d; c; s; r; e].
Proof.
  unfold CommandResultSigningPayload. intros H. guards. bprop.
  apply write_fields_inv in H as [-> HF]. unfold len in *.
  split; [lia|]. split; [|done]. by rewrite <- !(assoc_L (++)).
Qed.

(** ** Properties *)

(** C25: a packet whose fields are in range is encoded and parsed back to itself,
    for every payload of at most 65535 bytes; a longer payload is refused. *)
Theorem packet_roundtrip p :
  packet_wf p →
  (len (Payload p) ≤ MaxPayload →
     ∃ b, MarshalBinary p = Ok b ∧ len b = Z.of_nat HeaderSize + len (Payload p) ∧
          ParsePacket b = Ok p) ∧
  (MaxPayload < len (Payload p) → MarshalBinary p = Err "payload exceeds maximum").
Proof.
  intros Hwf. rewrite MarshalBinary_eq. split; intros H.
  - rewrite (proj2 (Z.ltb_ge _ _)) by done. eexists. split; [done|]. split.
    + unfold len. rewrite length_app. rewrite header_length. lia.
    + rewrite ParsePacket_header by done. by destruct p.
  - by rewrite (proj2 (Z.ltb_lt _ _)).
Qed.

Lemma packet_roundtrip_witness :
  ∃ b, MarshalBinary (mkPacket 5 0 3 4 5 6 7 [x70; x61]) = Ok b ∧
       len b = Z.of_nat HeaderSize + 2 ∧
       ParsePacket b = Ok (mkPacket 5 0 3 4 5 6 7 [x70; x61]).
Proof.
  apply (packet_roundtrip (mkPacket 5 0 3 4 5 6 7 [x70; x61])).
  - constructor; split; vm_compute; congruence.
  - vm_compute. congruence.
Defined.

(** The parser accepts only canonical encodings: the accepted bytes are
    exactly what encoding the parsed packet yields, and its fields are in range. *)
Theorem parse_canonical b p :
  ParsePacket b = Ok p → packet_wf p ∧ MarshalBinary p = Ok b.
Proof.
  intros (Hwf & Hlen & Hb)%ParsePacket_inv. split; [done|].
  rewrite MarshalBinary_eq, (proj2 (Z.ltb_ge _ _)) by done. by rewrite <- Hb.
Qed.

Definition sample_wire : list byte :=
  Magic ++ [x01; x05] ++ replicate 36 x00 ++ be_put 2 0 ++ be_put 2 1 ++ [x2a].

Lemma parse_canonical_witness :
  ∃ p, packet_wf p ∧ MarshalBinary p = Ok sample_wire.
Proof.
  exists (mkPacket 5 0 0 0 0 0 0 [x2a]). by apply parse_canonical.
Defined.

(** The byte string signed for a command result determines the nonce, the
    device, the command, the status, the result and the error, and is never a
    32-byte connect challenge. *)
Theorem signing_payload_injective n1 n2 d1 d2 c1 c2 s1 s2 r1 r2 e1 e2 out :
  CommandResultSigningPayload n1 d1 c1 s1 r1 e1 = Ok out →
  CommandResultSigningPayload n2 d2 c2 s2 r2 e2 = Ok out →
  (n1 = n2 ∧ d1 = d2 ∧ c1 = c2 ∧ s1 = s2 ∧ r1 = r2 ∧ e1 = e2) ∧ 32 < len out.
Proof.
  intros (Hn1 & H1 & F1)%CommandResultSigningPayload_inv
         (Hn2 & H2 & F2)%CommandResultSigningPayload_inv.
  split.
  - rewrite H1 in H2. apply app_inv_head, app_inv_head in H2.
    apply app_inj_1 in H2 as [-> E]; [|lia].
    apply fields_inj in E; [|done..]. by simplify_eq.
  - rewrite H1. unfold len. rewrite !length_app, Hn1. simpl length. lia.
Qed.

Lemma signing_payload_injective_witness :
  ∃ out, 32 < len out ∧
    CommandResultSigningPayload (replicate 32 x01) "dev_1" "cmd_1" "accepted" "" "" = Ok out.
Proof.
  eexists. split; [|reflexivity].
  eapply (signing_payload_injective (replicate 32 x01) (replicate 32 x01) "dev_1" "dev_1"
    "cmd_1" "cmd_1" "accepted" "accepted" "" "" "" ""); reflexivity.
Defined.
