(* ===== verification/Crypto.v ===== *)
(** * Crypto: [internal/crypto/session.go]

    The replay window (64-bit words with Go's shifts), the AEAD cipher that
    wraps it ([Seal], [Open] with the window's rollback on an authentication
    failure), the nonce, and the key derivations.  The primitives themselves
    (SHA-256, HKDF, X25519, ChaCha20-Poly1305) are not code of the repository:
    they are the operations of the class [Primitives], and what the code relies
    on is the class [PrimitiveLaws].  [Toy] is an instance of both, so that the
    properties with these hypotheses are evaluated on concrete inputs.

    [AWindow] is the abstract specification of the window: the set of accepted
    sequence numbers beside the highest one; [window_refines] is the
    simulation. *)
From S2P Require Import Prelude.
From Stdlib Require Import Init.Byte Strings.Byte.

(** ** The primitives *)

Class Primitives := {
  sha256 : list byte → list byte;
  (** The first 32 bytes of HKDF-SHA256 of a secret, a salt and an info string. *)
  hkdf : list byte → list byte → list byte → list byte;
  (** [ecdh.X25519().NewPublicKey] and [private.ECDH], which can refuse a key. *)
  x25519_public : list byte → option (list byte);
  x25519 : list byte → list byte → option (list byte);
  (** [Seal] and [Open] of ChaCha20-Poly1305: key, nonce, text, additional data. *)
  aead_seal : list byte → list byte → list byte → list byte → list byte;
  aead_open : list byte → list byte → list byte → list byte → option (list byte)
}.

Class PrimitiveLaws `{Primitives} : Prop := {
  sha256_length m : length (sha256 m) = 32%nat;
  hkdf_length s a i : length (hkdf s a i) = 32%nat;
  seal_length k n p a : length (aead_seal k n p a) = (length p + 16)%nat;
  open_seal k n p a :
    length k = 32%nat → length n = 12%nat → aead_open k n (aead_seal k n p a) a = Some p;
  (** The tag is checked against the one recomputed from key, nonce and data. *)
  open_sound k n c a p :
    length k = 32%nat → length n = 12%nat → aead_open k n c a = Some p → c = aead_seal k n p a
}.

Definition DataKeySize : Z := 32.

(** [x << n] and on [uint64], where a count of 64 or more gives 0. *)
Definition shl64 (x n : Z) : Z := if 64 <=? n then 0 else u64 (Z.shiftl x n).

(** ** The replay window *)

Record ReplayWindow := mkWindow { highest : Z; bitmap : Z }.

Definition NewReplayWindow : ReplayWindow := mkWindow 0 0.

Definition Accept (w : ReplayWindow) (seq : Z) : bool * ReplayWindow :=
  if seq =? 0 then (false, w)
  else if highest w <? seq then
    let shift := u64 (seq - highest w) in
    let bm := if 64 <=? shift then 0 else shl64 (bitmap w) shift in
    (true, mkWindow seq (Z.lor bm 1))
  else
    let d := u64 (highest w - seq) in
    if (64 <=? d) || negb (Z.land (bitmap w) (shl64 1 d) =? 0) then (false, w)
    else (true, mkWindow (highest w) (Z.lor (bitmap w) (shl64 1 d))).

Definition Rollback (w : ReplayWindow) (seq : Z) : ReplayWindow :=
  if seq <=? highest w
  then mkWindow (highest w) (Z.ldiff (bitmap w) (shl64 1 (u64 (highest w - seq))))
  else w.

(** ** The cipher *)

Record Cipher := mkCipher { ckey : list byte; replay : ReplayWindow }.

Definition NewCipher (key : list byte) : result Cipher :=
  fail_if negb (len key =? DataKeySize) with "chacha20poly1305: bad key length";
  Ok (mkCipher key NewReplayWindow).

Definition nonce (session sequence : Z) : list byte :=
  be_put 4 (u32 session) ++ be_put 8 sequence.

Section cipher.
  Context `{Primitives}.

Definition Seal (c : Cipher) (session sequence : Z) (plaintext aad : list byte) : list byte :=
  aead_seal (ckey c) (nonce session sequence) plaintext aad.

Definition Open (c : Cipher) (session sequence : Z) (ciphertext aad : list byte)
    : result (list byte) * Cipher :=
  let '(ok, w) := Accept (replay c) sequence in
  if negb ok then (Err "replayed or stale sequence", mkCipher (ckey c) w)
  else
    match aead_open (ckey c) (nonce session sequence) ciphertext aad with
    | None => (Err "authentication failed", mkCipher (ckey c) (Rollback w sequence))
    | Some p => (Ok p, mkCipher (ckey c) w)
    end.

(** ** Key derivation *)

Definition DeriveKey (private peer transcript : list byte) : result (list byte) :=
  match x25519_public peer with
  | None => Err "peer key"
  | Some pub =>
    match x25519 private pub with
    | None => Err "ecdh"
    | Some secret => Ok (hkdf secret (sha256 transcript) (s2b "tyxnet-v1-session"))
    end
  end.

Definition DeriveDirectionalKey (secret : list byte) (session : Z) (direction : string)
    : result (list byte) :=
  fail_if negb (len secret =? DataKeySize) || (session =? 0) with "invalid data-plane secret";
  fail_if negb (direction =s "client-to-server") && negb (direction =s "server-to-client")
    with "invalid data-plane direction";
  let salt := be_put 8 session in
  Ok (hkdf secret salt (s2b ("tyxnet-data-v1/" +:+ direction))).

(** A run of [Open] calls on one cipher: the results, in order, and the sequence
    numbers of the calls that returned a plaintext. *)
Fixpoint open_all (c : Cipher) (l : list (Z * Z * list byte * list byte))
    : list (result (list byte)) * Cipher :=
  match l with
  | [] => ([], c)
  | (session, sequence, ct, aad) :: l =>
    let '(r, c) := Open c session sequence ct aad in
    let '(rs, c) := open_all c l in (r :: rs, c)
  end.

Definition ok_seqs (c : Cipher) (l : list (Z * Z * list byte * list byte)) : list Z :=
  omap (λ '(x, r), if is_ok r then Some x.1.1.2 else None) (zip l (fst (open_all c l))).

End cipher.

(** ** The abstract window *)

Inductive wop := WAccept (seq : Z) | WRollback (seq : Z).

Record AWindow := mkAWindow { ahigh : Z; aseen : gset Z }.

Definition a_accept (a : AWindow) (seq : Z) : bool * AWindow :=
  if bool_decide (1 ≤ seq ∧ ahigh a - seq < 64 ∧ seq ∉ aseen a)
  then (true, mkAWindow (Z.max (ahigh a) seq) ({[seq]} ∪ aseen a))
  else (false, a).
Definition a_rollback (a : AWindow) (seq : Z) : AWindow :=
  mkAWindow (ahigh a) (aseen a ∖ {[seq]}).

Definition wstep (w : ReplayWindow) (o : wop) : bool * ReplayWindow :=
  match o with WAccept s => Accept w s | WRollback s => (true, Rollback w s) end.
Definition astep (a : AWindow) (o : wop) : bool * AWindow :=
  match o with WAccept s => a_accept a s | WRollback s => (true, a_rollback a s) end.

Fixpoint run_ops {S} (step : S → wop → bool * S) (s : S) (l : list wop) : list bool * S :=
  match l with
  | [] => ([], s)
  | o :: l => let '(b, s) := step s o in let '(bs, s) := run_ops step s l in (b :: bs, s)
  end.

Definition wop_seq (o : wop) : Z := match o with WAccept s | WRollback s => s end.

(** The simulation relation: bit [i] of the bitmap is the membership of the
    [i]-th number below the highest one. *)
Record window_rel (w : ReplayWindow) (a : AWindow) : Prop := {
  rel_high : highest w = ahigh a;
  rel_range : in_u64 (highest w) ∧ in_u64 (bitmap w);
  rel_bits i : 0 ≤ i < 64 → Z.testbit (bitmap w) i = bool_decide (highest w - i ∈ aseen a);
  rel_seen s : s ∈ aseen a → 1 ≤ s ≤ ahigh a
}.

(** ** A concrete instance of the primitives *)

Module Toy.
Definition pad (n : nat) (l : list byte) : list byte := take n (l ++ replicate n x00).
Definition tag (k : list byte) : list byte := pad 16 k.
Global Instance toy : Primitives := {|
  sha256 := pad 32;
  hkdf s a i := pad 32 (drop 15 i ++ s ++ a);
  x25519_public := Some;
  x25519 p q := Some (p ++ q);
  aead_seal k n p a := p ++ tag k;
  aead_open k n c a :=
    let m := (length c - 16)%nat in
    if bool_decide (16 ≤ length c)%nat && bool_decide (drop m c = tag k)
    then Some (take m c) else None
|}.
Lemma pad_length n l : length (pad n l) = n.
Proof. unfold pad. rewrite length_take, length_app, length_replicate. lia. Qed.
Global Instance toy_laws : PrimitiveLaws.
Proof.
  split; cbn; intros.
  - apply pad_length.
  - apply pad_length.
  - rewrite length_app. f_equal. apply pad_length.
  - assert (Hl : length (p ++ tag k) = (length p + 16)%nat)
      by (rewrite length_app; f_equal; apply pad_length).
    rewrite !Hl. replace (length p + 16 - 16)%nat with (length p) by lia.
    rewrite drop_app_length, take_app_length.
    by rewrite !bool_decide_eq_true_2 by (done || lia).
  - match goal with H : (if ?b then _ else _) = _ |- _ => destruct b eqn:E; [|done] end.
    bprop. simplify_eq. match goal with H : drop _ _ = _ |- _ => rewrite <- H end.
    by rewrite take_drop.
Qed.
End Toy.

(** ** Bits of 64-bit words *)

Lemma u64_bits z i : 0 ≤ i → Z.testbit (u64 z) i = bool_decide (i < 64) && Z.testbit z i.
Proof.
  intros Hi. unfold u64. case_bool_decide.
  - by rewrite Z.mod_pow2_bits_low.
  - by rewrite Z.mod_pow2_bits_high by lia.
Qed.

Lemma u64_range z : in_u64 (u64 z).
Proof. apply Z.mod_pos_bound. done. Qed.

Lemma in_u64_bits z : 0 ≤ z → (∀ i, 64 ≤ i → Z.testbit z i = false) → in_u64 z.
Proof.
  intros Hz H. replace z with (u64 z); [apply u64_range|].
  apply Z.bits_inj'. intros i Hi. rewrite u64_bits by done.
  case_bool_decide; [done|]. by rewrite H by lia.
Qed.

Lemma in_u64_bit_high z i : in_u64 z → 64 ≤ i → Z.testbit z i = false.
Proof.
  intros Hz Hi. rewrite <- (u64_small z Hz), u64_bits by lia.
  by rewrite bool_decide_eq_false_2 by lia.
Qed.

Lemma shl64_bits x n i :
  0 ≤ n → 0 ≤ i →
  Z.testbit (shl64 x n) i = bool_decide (n ≤ i < 64) && Z.testbit x (i - n).
Proof.
  intros Hn Hi. unfold shl64. destruct (Z.leb_spec 64 n).
  - rewrite Z.bits_0, bool_decide_eq_false_2 by lia. done.
  - rewrite u64_bits, Z.shiftl_spec by done. repeat case_bool_decide; try lia; try done.
    by rewrite Z.testbit_neg_r by lia.
Qed.

Lemma shl64_range x n : in_u64 (shl64 x n).
Proof. unfold shl64. case_match; [split; done|apply u64_range]. Qed.

Lemma one_bits i : 0 ≤ i → Z.testbit 1 i = bool_decide (i = 0).
Proof.
  intros Hi. case_bool_decide; [by subst|]. by apply (Z.pow2_bits_false 0); lia.
Qed.

Lemma lor_range a b : in_u64 a → in_u64 b → in_u64 (Z.lor a b).
Proof.
  intros Ha Hb. apply in_u64_bits.
  - apply Z.lor_nonneg. unfold in_u64 in *. lia.
  - intros. rewrite Z.lor_spec, !in_u64_bit_high by done. done.
Qed.

Lemma ldiff_range a b : in_u64 a → in_u64 (Z.ldiff a b).
Proof.
  intros Ha. apply in_u64_bits.
  - apply Z.ldiff_nonneg. unfold in_u64 in *. lia.
  - intros. by rewrite Z.ldiff_spec, in_u64_bit_high.
Qed.

(** [bitmap & (1 << d)] tests one bit. *)
Lemma land_shl64_test b d :
  in_u64 b → 0 ≤ d < 64 → (Z.land b (shl64 1 d) =? 0) = negb (Z.testbit b d).
Proof.
  intros Hb Hd. destruct (Z.testbit b d) eqn:E; simpl.
  - apply Z.eqb_neq. intros H0. apply (f_equal (λ z, Z.testbit z d)) in H0.
    rewrite Z.land_spec, E, shl64_bits, Z.sub_diag, Z.bits_0 in H0 by lia.
    by rewrite bool_decide_eq_true_2 in H0 by lia.
  - apply Z.eqb_eq, Z.bits_inj'. intros i Hi. rewrite Z.land_spec, shl64_bits, Z.bits_0 by lia.
    case_bool_decide; simpl; [|apply andb_false_r]. rewrite one_bits by lia.
    case_bool_decide; [|apply andb_false_r]. by replace i with d by lia; rewrite E.
Qed.

(** ** The simulation *)

Lemma window_rel_init : window_rel NewReplayWindow (mkAWindow 0 ∅).
Proof.
  split; simpl; [done|split; split; done| |set_solver].
  intros. by rewrite Z.bits_0, bool_decide_eq_false_2 by set_solver.
Qed.

Lemma accept_newer_rel w a seq :
  window_rel w a → in_u64 seq → highest w < seq →
  window_rel (snd (Accept w seq)) (mkAWindow seq ({[seq]} ∪ aseen a)).
Proof.
  intros [Hh [Hr1 Hr2] Hb Hs] Hseq Hlt. unfold Accept, in_u64 in *.
  rewrite (proj2 (Z.eqb_neq seq 0)), (proj2 (Z.ltb_lt _ _)) by lia. cbn [snd].
  assert (Hu : u64 (seq - highest w) = seq - highest w) by (apply u64_small; split; lia).
  rewrite Hu. set (k := seq - highest w) in *.
  assert (He : (if 64 <=? k then 0 else shl64 (bitmap w) k) = shl64 (bitmap w) k)
    by (unfold shl64; by case_match).
  rewrite He. split; simpl.
  - done.
  - split; [done|]. apply lor_range; [apply shl64_range|split; lia].
  - intros i Hi. rewrite Z.lor_spec, one_bits, shl64_bits by lia.
    destruct (decide (i = 0)) as [->|].
    { rewrite (bool_decide_eq_true_2 (0 = 0)), orb_true_r by done.
      symmetry. apply bool_decide_eq_true_2, elem_of_union_l, elem_of_singleton. lia. }
    rewrite (bool_decide_eq_false_2 (i = 0)), orb_false_r by done.
    destruct (decide (k ≤ i)).
    + rewrite bool_decide_eq_true_2, andb_true_l, Hb by lia. apply bool_decide_ext.
      replace (highest w - (i - k)) with (seq - i) by lia.
      rewrite elem_of_union, elem_of_singleton.
      split; [by right|]. intros [?|]; [lia|done].
    + rewrite bool_decide_eq_false_2 by lia. symmetry. apply bool_decide_eq_false_2.
      intros [?%elem_of_singleton|Hin]%elem_of_union; [lia|]. apply Hs in Hin. lia.
  - intros s [->%elem_of_singleton|Hin]%elem_of_union; [lia|]. apply Hs in Hin. lia.
Qed.

Lemma accept_older_rel w a seq :
  window_rel w a → 1 ≤ seq ≤ highest w → highest w - seq < 64 →
  window_rel (mkWindow (highest w) (Z.lor (bitmap w) (shl64 1 (highest w - seq))))
    (mkAWindow (ahigh a) ({[seq]} ∪ aseen a)).
Proof.
  intros [Hh [Hr1 Hr2] Hb Hs] H1 H2. split; simpl.
  - done.
  - split; [done|]. apply lor_range; [done|apply shl64_range].
  - intros i Hi. rewrite Z.lor_spec, shl64_bits, Hb by lia.
    destruct (decide (i = highest w - seq)) as [->|Hne].
    + rewrite Z.sub_diag, (bool_decide_eq_true_2 (_ ≤ _ < _)) by lia.
      rewrite orb_true_r. symmetry. apply bool_decide_eq_true_2.
      apply elem_of_union_l, elem_of_singleton. lia.
    + destruct (decide (highest w - seq ≤ i)).
      * rewrite one_bits, (bool_decide_eq_false_2 (_ = 0)), andb_false_r, orb_false_r by lia.
        apply bool_decide_ext. rewrite elem_of_union, elem_of_singleton.
        split; [by right|]. intros [?|]; [lia|done].
      * rewrite (bool_decide_eq_false_2 (_ ≤ _ < _)), orb_false_r by lia.
        apply bool_decide_ext. rewrite elem_of_union, elem_of_singleton.
        split; [by right|]. intros [?|]; [lia|done].
  - intros s [->%elem_of_singleton|Hin]%elem_of_union; [lia|]. by apply Hs in Hin.
Qed.

Lemma accept_rel w a seq :
  window_rel w a → in_u64 seq →
  fst (Accept w seq) = fst (a_accept a seq) ∧
  window_rel (snd (Accept w seq)) (snd (a_accept a seq)).
Proof.
  intros Hrel Hseq. pose proof Hrel as [Hh [Hr1 Hr2] Hb Hs].
  unfold a_accept. unfold in_u64 in Hseq, Hr1. destruct (Z.ltb_spec (highest w) seq) as [Hlt|Hge].
  - assert (seq ∉ aseen a) by (intros Hin%Hs; lia).
    rewrite bool_decide_eq_true_2 by (split_and!; lia || done).
    pose proof (accept_newer_rel w a seq Hrel Hseq Hlt) as Hn.
    rewrite Z.max_r by lia. split; [|done].
    unfold Accept. by rewrite (proj2 (Z.eqb_neq seq 0)), (proj2 (Z.ltb_lt _ _)) by lia.
  - unfold Accept. rewrite (proj2 (Z.ltb_ge _ _)) by lia.
    destruct (Z.eqb_spec seq 0) as [->|].
    { rewrite bool_decide_eq_false_2 by lia. done. }
    rewrite (u64_small (highest w - seq)) by (unfold in_u64 in *; lia).
    destruct (Z.leb_spec 64 (highest w - seq)).
    { rewrite bool_decide_eq_false_2 by lia. done. }
    rewrite orb_false_l, land_shl64_test, negb_involutive, Hb by (done || lia).
    replace (highest w - (highest w - seq)) with seq by lia.
    destruct (decide (seq ∈ aseen a)) as [Hin|Hout].
    + rewrite (bool_decide_eq_true_2 (seq ∈ _)), bool_decide_eq_false_2
        by first [done | intros (_ & _ & ?); done]. done.
    + rewrite (bool_decide_eq_false_2 (seq ∈ _)), bool_decide_eq_true_2
        by (done || split_and!; done || lia).
      split; [done|]. cbn [snd]. rewrite Z.max_l by lia. apply accept_older_rel; (done || lia).
Qed.

Lemma rollback_rel w a seq :
  window_rel w a → in_u64 seq → window_rel (Rollback w seq) (a_rollback a seq).
Proof.
  intros [Hh [Hr1 Hr2] Hb Hs] Hseq. unfold Rollback, in_u64 in Hseq |- *.
  destruct (Z.leb_spec seq (highest w)) as [Hle|Hgt].
  - rewrite (u64_small (highest w - seq)) by (unfold in_u64 in *; lia).
    split; simpl; [done|split; [done|by apply ldiff_range]| |].
    + intros i Hi. rewrite Z.ldiff_spec, shl64_bits, Hb by lia.
      destruct (decide (i = highest w - seq)) as [->|Hne].
      * rewrite Z.sub_diag, (bool_decide_eq_true_2 (_ ≤ _ < _)), andb_false_r by lia.
        symmetry. apply bool_decide_eq_false_2. rewrite elem_of_difference, elem_of_singleton. lia.
      * assert (bool_decide (highest w - seq ≤ i < 64) && Z.testbit 1 (i - (highest w - seq))
                = false) as ->.
        { case_bool_decide; [|done]. by rewrite one_bits, bool_decide_eq_false_2 by lia. }
        rewrite andb_true_r. apply bool_decide_ext.
        rewrite elem_of_difference, elem_of_singleton. split; [|by intros [? _]].
        intros; split; [done|lia].
    + intros s [Hin _]%elem_of_difference. by apply Hs.
  - split; simpl; [done|done| |].
    + intros i Hi. rewrite Hb by done. apply bool_decide_ext.
      rewrite elem_of_difference, elem_of_singleton. split; [|by intros [? _]].
      intros; split; [done|lia].
    + intros s [Hin _]%elem_of_difference. by apply Hs.
Qed.

Lemma run_ops_rel w a l :
  window_rel w a → Forall (λ o, in_u64 (wop_seq o)) l →
  fst (run_ops wstep w l) = fst (run_ops astep a l) ∧
  window_rel (snd (run_ops wstep w l)) (snd (run_ops astep a l)).
Proof.
  revert w a. induction l as [|o l IH]; intros w a Hrel; [done|].
  intros [Ho Hl]%Forall_cons.
  assert (fst (wstep w o) = fst (astep a o) ∧ window_rel (snd (wstep w o)) (snd (astep a o)))
    as [E1 E2].
  { destruct o as [s|s]; simpl in *; [by apply accept_rel|].
    split; [done|by apply rollback_rel]. }
  simpl. destruct (wstep w o) as [b w'], (astep a o) as [b' a']. simpl in *.
  destruct (IH w' a' E2 Hl) as [F1 F2].
  destruct (run_ops wstep w' l), (run_ops astep a' l). simpl in *. by subst.
Qed.

(** ** The cipher over the window *)

Section cipher_lemmas.
Context `{Primitives}.

Lemma Open_rel c a session seq ct aad :
  window_rel (replay c) a → in_u64 seq →
  let '(r, c') := Open c session seq ct aad in
  ckey c' = ckey c ∧
  ∃ a', window_rel (replay c') a' ∧
    if is_ok r then (seq ∉ aseen a) ∧ aseen a' = {[seq]} ∪ aseen a else aseen a' = aseen a.
Proof.
  intros Hrel Hseq. destruct (accept_rel _ _ seq Hrel Hseq) as [E1 E2].
  unfold Open. destruct (Accept (replay c) seq) as [b w]. simpl in E1, E2.
  unfold a_accept in E1, E2. case_bool_decide as Hd; simpl in E1, E2; subst b; cbn [negb].
  - destruct Hd as (_ & _ & Hns). destruct (aead_open _ _ _ _); split; try done.
    + eexists. split; [exact E2|]. simpl. done.
    + eexists. split; [by apply rollback_rel|]. simpl. set_solver.
  - split; [done|]. exists a. done.
Qed.

Lemma ok_seqs_NoDup c a l :
  window_rel (replay c) a → Forall (λ x, in_u64 x.1.1.2) l →
  NoDup (ok_seqs c l) ∧ ∀ s, s ∈ ok_seqs c l → s ∉ aseen a.
Proof.
  revert c a. induction l as [|[[[ss seq] ct] aad] l IH]; intros c a Hrel.
  { intros _. split; [constructor|]. intros s Hin. by apply elem_of_nil in Hin. }
  intros [Hs Hl]%Forall_cons. pose proof (Open_rel c a ss seq ct aad Hrel Hs) as Ho.
  unfold ok_seqs. simpl. destruct (Open c ss seq ct aad) as [r c'].
  destruct Ho as (_ & a' & Hrel' & Hr). destruct (IH c' a' Hrel' Hl) as [Hnd Hns].
  unfold ok_seqs in Hnd, Hns. destruct (open_all c' l) as [rs c'']. simpl in *.
  destruct (is_ok r) eqn:Er; simpl.
  - destruct Hr as [Hnew Ha']. rewrite Ha' in Hns. split.
    + constructor; [|done]. intros Hin%Hns. set_solver.
    + intros s [->|Hin]%elem_of_cons; [done|]. apply Hns in Hin. set_solver.
  - rewrite Hr in Hns. done.
Qed.

Lemma Accept_newer w s :
  in_u64 s → 0 ≤ highest w < s →
  Accept w s = (true, mkWindow s (Z.lor (shl64 (bitmap w) (s - highest w)) 1)).
Proof.
  intros Hs Hlt. unfold Accept, in_u64 in *.
  rewrite (proj2 (Z.eqb_neq s 0)), (proj2 (Z.ltb_lt _ _)) by lia.
  rewrite (u64_small (s - highest w)) by (unfold in_u64; lia).
  repeat f_equal. unfold shl64. by case_match.
Qed.

Lemma Accept_stale w q :
  in_u64 (highest w) → 0 ≤ q → q + 64 ≤ highest w → Accept w q = (false, w).
Proof.
  intros Hw Hq Hle. unfold Accept, in_u64 in *. case_match; [done|].
  rewrite (proj2 (Z.ltb_ge _ _)) by lia.
  rewrite (u64_small (highest w - q)) by (unfold in_u64; lia).
  by rewrite (proj2 (Z.leb_le _ _)) by lia.
Qed.

Context `{!PrimitiveLaws}.

Lemma nonce_length session seq : length (nonce session seq) = 12%nat.
Proof. unfold nonce. by rewrite length_app, !be_put_length. Qed.

Lemma Open_Seal c c' session seq p aad :
  ckey c = ckey c' → length (ckey c) = 32%nat → fst (Accept (replay c') seq) = true →
  Open c' session seq (Seal c session seq p aad) aad =
  (Ok p, mkCipher (ckey c') (snd (Accept (replay c') seq))).
Proof.
  intros Hk Hl Ha. unfold Open. destruct (Accept _ _) as [b w]. simpl in Ha. subst b.
  cbn [negb]. unfold Seal. rewrite <- Hk, open_seal by (done || apply nonce_length). done.
Qed.
End cipher_lemmas.

Lemma nonce_inj session s1 s2 :
  in_u64 s1 → in_u64 s2 → nonce session s1 = nonce session s2 → s1 = s2.
Proof.
  intros H1 H2 [_ E]%app_inj_1; [|by rewrite !be_put_length]. by apply be_put_inj in E.
Qed.

(** ** Properties *)


Definition sample_ops : list wop :=
  [WAccept 5; WAccept 3; WAccept 5; WRollback 3; WAccept 3; WAccept 100; WAccept 36; WAccept 37].


(** Over any sequence of [Open] calls on a new cipher, authentic or forged,
    no sequence number yields a plaintext twice. *)
Theorem open_at_most_once `{Primitives} key c l :
  NewCipher key = Ok c → Forall (λ x, in_u64 x.1.1.2) l → NoDup (ok_seqs c l).
Proof.
  unfold NewCipher. intros Hc Hl. guards. subst c.
  by eapply ok_seqs_NoDup; [apply window_rel_init|].
Qed.

Definition toy_key : list byte := replicate 32 x07.
Definition toy_cipher : Cipher := mkCipher toy_key NewReplayWindow.
Definition sample_opens : list (Z * Z * list byte * list byte) :=
  let ct := [x01] ++ Toy.tag toy_key in
  [(9, 1, ct, []); (9, 1, ct, []); (9, 3, [x00], []); (9, 3, ct, []); (9, 2, ct, [])].

Lemma open_at_most_once_witness :
  ok_seqs toy_cipher sample_opens = [1; 3; 2] ∧ NoDup (ok_seqs toy_cipher sample_opens).
Proof.
  split; [by vm_compute|].
  apply (open_at_most_once toy_key toy_cipher); [done|].
  repeat constructor; vm_compute; congruence.
Defined.

(** A message sealed under the same key is opened to its plaintext when its
    sequence number is newer than every number accepted so far, whatever the
    window's history. *)
Theorem open_seal_newer `{PrimitiveLaws} c c' session seq p aad :
  ckey c = ckey c' → length (ckey c) = 32%nat → in_u64 seq → 0 ≤ highest (replay c') < seq →
  ∃ c'', Open c' session seq (Seal c session seq p aad) aad = (Ok p, c'') ∧
         ckey c'' = ckey c' ∧ highest (replay c'') = seq.
Proof.
  intros Hk Hl Hs Hlt. rewrite Open_Seal; rewrite ?Accept_newer by done; try done.
  by eexists.
Qed.

Lemma open_seal_newer_witness :
  ∃ c'', Open toy_cipher 9 1 (Seal toy_cipher 9 1 [x01; x02] []) [] = (Ok [x01; x02], c'') ∧
         ckey c'' = toy_key ∧ highest (replay c'') = 1.
Proof. apply open_seal_newer; vm_compute; intuition congruence. Defined.

(** C26: a datagram that fails authentication is not dropped without a trace:
    its unauthenticated sequence number becomes the window's highest one, and
    every number 64 or more below it is refused from then on, authentic or not. *)
Theorem forged_sequence_poisons `{Primitives} c session s ct aad :
  in_u64 s → 0 ≤ highest (replay c) < s →
  aead_open (ckey c) (nonce session s) ct aad = None →
  ∃ c', Open c session s ct aad = (Err "authentication failed", c') ∧
    ∀ q session' ct' aad', 0 ≤ q → q + 64 ≤ s →
      Open c' session' q ct' aad' = (Err "replayed or stale sequence", c').
Proof.
  intros Hs Hlt Hf. unfold Open at 1. rewrite Accept_newer by done. cbn [negb]. rewrite Hf.
  eexists. split; [done|]. intros q ? ? ? Hq Hle. unfold Open, Rollback. simpl.
  rewrite Z.leb_refl. rewrite Accept_stale; done.
Qed.

Lemma forged_sequence_poisons_witness :
  ∃ c', Open toy_cipher 9 (2 ^ 64 - 1) [x00] [] = (Err "authentication failed", c') ∧
    Open c' 9 1 (Seal toy_cipher 9 1 [x01] []) [] = (Err "replayed or stale sequence", c').
Proof.
  destruct (forged_sequence_poisons toy_cipher 9 (2 ^ 64 - 1) [x00] []) as (c' & H1 & H2);
    [by split|by split|done|].
  exists c'. split; [exact H1|]. apply H2; by vm_compute.
Defined.
