(* ===== verification/Auth.v ===== *)
(** * Auth: roles and passwords ([internal/auth])

    [rbac.go]: the permission table and [Allowed]; [password.go]: the encoded
    Argon2id string ([HashPassword]) and its verification.  Argon2id itself is
    third-party code: a parameter, the 32-byte key for a password and a salt
    under the cost parameters the code always passes. *)
From S2P Require Import Prelude Text.
From Stdlib Require Import Init.Byte Strings.Byte.

(** ** Roles *)

Definition Admin : string := "admin".
Definition Operator : string := "operator".
Definition Member : string := "member".
Definition Viewer : string := "viewer".

(** The map literal: the permissions that are [true] for a role; no row for any
    other role. *)
Definition permissions (role : string) : option (list string) :=
  if role =s Admin then Some ["*"]
  else if role =s Operator then
    Some ["device.view"; "device.rename"; "device.disconnect"; "device.restart";
          "device.shutdown"; "token.view"; "audit.view"; "network.flow.view"]
  else if role =s Member then Some ["device.view"]
  else if role =s Viewer then
    Some ["device.view"; "user.view"; "token.view"; "audit.view"; "network.flow.view"]
  else None.

(** Indexing a nil map gives [false]. *)
Definition Allowed (role permission : string) : bool :=
  let p := default [] (permissions role) in
  bool_decide ("*" ∈ p) || bool_decide (permission ∈ p).

(** ** Passwords *)

Definition err_short_password : string := "password must be at least 12 characters".

Section passwords.
  Variable argon2id : list byte → list byte → list byte.

(** [salt] is what [rand.Read] delivered, [None] when it failed. *)
Definition HashPassword (salt : option (list byte)) (password : string) : result string :=
  fail_if slen password <? 12 with err_short_password;
  match salt with
  | None => Err "rand"
  | Some salt =>
    let h := argon2id (s2b password) salt in
    Ok ("argon2id$v=19$m=65536,t=3,p=2$" +:+ EncodeToString salt +:+ "$" +:+ EncodeToString h)
  end.

Definition VerifyPassword (encoded password : string) : bool :=
  match split_on x24 (s2b encoded) with
  | [p0; _; _; p3; p4] =>
    if negb (b2s p0 =s "argon2id") then false
    else
      match b64_decode p3, b64_decode p4 with
      | Some salt, Some want => bool_decide (argon2id (s2b password) salt = want)
      | _, _ => false
      end
  | _ => false
  end.
End passwords.

(** ** Lemmas *)

Lemma b64_no_dollar l : x24 ∉ b64_encode l.
Proof.
  destruct (b64_groups_spec l) as [-> Hf]. intros (v & Hv & Hin)%list_elem_of_fmap.
  rewrite Forall_forall in Hf. apply Hf in Hin. revert Hv.
  pose proof (range_check (λ v, negb (bool_decide (x24 = b64_char v))) 0 64 v
    ltac:(by vm_compute) Hin) as H. cbv beta in H. by bprop.
Qed.

Lemma hash_parts salt h :
  split_on x24 (s2b ("argon2id$v=19$m=65536,t=3,p=2$" +:+ EncodeToString salt +:+ "$" +:+
    EncodeToString h)) =
  [s2b "argon2id"; s2b "v=19"; s2b "m=65536,t=3,p=2"; b64_encode salt; b64_encode h].
Proof.
  rewrite !s2b_app. unfold EncodeToString. rewrite !s2b_b2s.
  change (s2b "argon2id$v=19$m=65536,t=3,p=2$") with
    (s2b "argon2id" ++ x24 :: s2b "v=19" ++ x24 :: s2b "m=65536,t=3,p=2" ++ [x24]).
  change (s2b "$" ++ b64_encode h) with (x24 :: b64_encode h).
  rewrite <- !(assoc_L (++)). cbn [app].
  rewrite split_on_app by (by apply (bool_decide_unpack _); vm_compute).
  rewrite <- !(assoc_L (++)). cbn [app].
  rewrite split_on_app by (by apply (bool_decide_unpack _); vm_compute).
  rewrite <- !(assoc_L (++)). cbn [app].
  rewrite split_on_app by (by apply (bool_decide_unpack _); vm_compute).
  rewrite split_on_app by apply b64_no_dollar.
  by rewrite split_on_last by apply b64_no_dollar.
Qed.

(** A permission held by a role other than the administrator's is in its row. *)
Lemma Allowed_row role l p :
  permissions role = Some l → "*" ∉ l → Allowed role p = true → p ∈ l.
Proof.
  unfold Allowed. intros -> Hs H. simpl in H.
  rewrite (bool_decide_eq_false_2 ("*" ∈ _)) in H by done.
  by apply bool_decide_eq_true in H.
Qed.

Lemma permissions_roles role l :
  permissions role = Some l → role ∈ [Admin; Operator; Member; Viewer].
Proof.
  unfold permissions. intros H. rewrite !elem_of_cons, elem_of_nil.
  repeat case_match; try done; bprop; tauto.
Qed.

(** ** Properties *)

(** The permissions the management API asks for before it changes users,
    tokens, devices' enrolment or the server. *)
Definition admin_only : list string :=
  ["server.configure"; "user.create"; "user.delete"; "user.password.update";
   "token.create"; "token.revoke"; "device.revoke"].
(** Those it asks for before it acts on a device. *)
Definition device_actions : list string :=
  ["device.rename"; "device.disconnect"; "device.restart"; "device.shutdown"].

(** Checks a statement on each permission of a role's row by computation. *)
Ltac by_row H :=
  eapply Allowed_row in H; [|reflexivity|by apply (bool_decide_unpack _); vm_compute];
  revert H; rewrite !elem_of_cons, elem_of_nil; intros; destruct_or?; subst; try done;
  by apply (bool_decide_unpack _); vm_compute.

(** Least privilege. Only the administrator holds a permission that changes
    users, tokens, enrolment or the server; only the administrator and the
    operator act on devices; a role outside the four holds no permission; and
    every permission of a member is a permission of the three other roles. *)
Theorem rbac_least_privilege role p :
  Allowed role p = true →
  (p ∈ admin_only → role = Admin) ∧
  (p ∈ device_actions → role = Admin ∨ role = Operator) ∧
  role ∈ [Admin; Operator; Member; Viewer] ∧
  (role = Member → Allowed Admin p ∧ Allowed Operator p ∧ Allowed Viewer p).
Proof.
  intros H. assert (role ∈ [Admin; Operator; Member; Viewer]) as Hr.
  { unfold Allowed in H. destruct (permissions role) eqn:E; [by eapply permissions_roles|].
    by apply orb_true_iff in H as [H|H]; apply bool_decide_eq_true, elem_of_nil in H. }
  revert Hr. rewrite !elem_of_cons, elem_of_nil.
  intros [->|[->|[->|[->|[]]]]].
  - split_and!; [by auto|by auto|by repeat constructor|done].
  - by_row H.
  - by_row H.
  - by_row H.
Qed.

Lemma rbac_least_privilege_witness :
  Allowed Operator "device.restart" = true ∧ Operator ∈ [Admin; Operator; Member; Viewer].
Proof.
  split; [by vm_compute|].
  exact (proj1 (proj2 (proj2 (rbac_least_privilege Operator "device.restart" eq_refl)))).
Defined.

(** A stored password hash verifies exactly the passwords with the same
    Argon2id key under its salt; in particular the hashed password itself; and
    a password shorter than 12 bytes is never hashed. *)
Theorem hash_verifies argon2id salt password :
  (12 ≤ slen password →
   ∃ enc, HashPassword argon2id (Some salt) password = Ok enc ∧
     VerifyPassword argon2id enc password = true ∧
     ∀ other, VerifyPassword argon2id enc other = true ↔
              argon2id (s2b other) salt = argon2id (s2b password) salt) ∧
  (slen password < 12 → ∀ rand, HashPassword argon2id rand password = Err err_short_password).
Proof.
  unfold HashPassword. split; intros Hl; [rewrite (proj2 (Z.ltb_ge _ _)) by done|];
    [|by rewrite (proj2 (Z.ltb_lt _ _))].
  eexists; split; [done|].
  assert (∀ other, VerifyPassword argon2id ("argon2id$v=19$m=65536,t=3,p=2$" +:+
      EncodeToString salt +:+ "$" +:+ EncodeToString (argon2id (s2b password) salt)) other =
    bool_decide (argon2id (s2b other) salt = argon2id (s2b password) salt)) as Hv.
  { intros other. unfold VerifyPassword. rewrite hash_parts, !b64_decode_encode, b2s_s2b.
    done. }
  split; [rewrite Hv; by apply bool_decide_eq_true_2|].
  intros other. rewrite Hv. apply bool_decide_eq_true.
Qed.

(** A concrete key function: enough to tell passwords and salts apart. *)
Definition toy_argon2id (password salt : list byte) : list byte := salt ++ password.

Lemma hash_verifies_witness :
  ∃ enc, HashPassword toy_argon2id (Some [x01]) "correct horse" = Ok enc ∧
    VerifyPassword toy_argon2id enc "correct horse" = true ∧
    VerifyPassword toy_argon2id enc "correct house" = false.
Proof.
  destruct (proj1 (hash_verifies toy_argon2id [x01] "correct horse"))
    as (enc & He & Hv & Hiff); [by vm_compute|].
  exists enc. split; [exact He|]. split; [exact Hv|].
  destruct (VerifyPassword toy_argon2id enc "correct house") eqn:E; [|done].
  apply Hiff in E. by vm_compute in E.
Defined.
