(* ===== verification/Commands.v ===== *)
(** * Commands: the fixed operating-system actions ([internal/commands])

    [commands.go]: the allowlist and [ExecuteSystem]; the four
    [systemCommand] files, one per platform, are the cases of [platform].
    [exec.CommandContext(...).Run()] is the operating system's: the model's
    result is the program and the arguments it is started with. *)
From S2P Require Import Prelude.

Inductive platform := Linux | Windows | Darwin | Unsupported.

Global Instance platform_eq_dec : EqDecision platform.
Proof. solve_decision. Defined.

(** [commands.Allowed]. *)
Definition AllowedCommands : list string :=
  ["system.restart"; "system.shutdown"; "client.reconnect"; "client.status";
   "client.update-check"; "logs.collect"].

Definition systemCommand_darwin (commandType : string) : result (string * list string) :=
  if commandType =s "system.restart" then Ok ("/sbin/shutdown", ["-r"; "now"])
  else if commandType =s "system.shutdown" then Ok ("/sbin/shutdown", ["-h"; "now"])
  else Err "command has no macOS system action".

Definition systemCommand_linux (commandType : string) : result (string * list string) :=
  if commandType =s "system.restart" then Ok ("systemctl", ["reboot"])
  else if commandType =s "system.shutdown" then Ok ("systemctl", ["poweroff"])
  else Err "command has no Linux system action".

Definition systemCommand_windows (commandType : string) : result (string * list string) :=
  if commandType =s "system.restart" then
    Ok ("shutdown.exe", ["/r"; "/t"; "5"; "/d"; "p:0:0"; "/c";
                         "TyxNet administrator requested a restart"])
  else if commandType =s "system.shutdown" then
    Ok ("shutdown.exe", ["/s"; "/t"; "5"; "/d"; "p:0:0"; "/c";
                         "TyxNet administrator requested a shutdown"])
  else Err "command has no Windows system action".

Definition systemCommand_unsupported (_ : string) : result (string * list string) :=
  Err "system command is not implemented on this platform".

Definition systemCommand (os : platform) : string → result (string * list string) :=
  match os with
  | Linux => systemCommand_linux
  | Windows => systemCommand_windows
  | Darwin => systemCommand_darwin
  | Unsupported => systemCommand_unsupported
  end.

(** The process [ExecuteSystem] starts, or its error. *)
Definition ExecuteSystem (os : platform) (typ : string) : result (string * list string) :=
  fail_if negb (bool_decide (typ ∈ AllowedCommands)) with "command is not allowlisted";
  systemCommand os typ.

(** ** Properties *)

(** Whatever the command text, the processes that can be started are six
    fixed ones, for exactly two command types, which are the only ones the
    control protocol also calls executable; every other text is an error. *)
Theorem execute_fixed os typ :
  match ExecuteSystem os typ with
  | Ok (name, args) =>
      (typ = "system.restart" ∨ typ = "system.shutdown") ∧
      (os, name, args) ∈
        [(Linux, "systemctl", ["reboot"]); (Linux, "systemctl", ["poweroff"]);
         (Darwin, "/sbin/shutdown", ["-r"; "now"]); (Darwin, "/sbin/shutdown", ["-h"; "now"]);
         (Windows, "shutdown.exe", ["/r"; "/t"; "5"; "/d"; "p:0:0"; "/c";
            "TyxNet administrator requested a restart"]);
         (Windows, "shutdown.exe", ["/s"; "/t"; "5"; "/d"; "p:0:0"; "/c";
            "TyxNet administrator requested a shutdown"])]
  | Err e => os = Unsupported ∨ (typ ≠ "system.restart" ∧ typ ≠ "system.shutdown")
  end.
Proof.
  unfold ExecuteSystem.
  destruct (bool_decide (typ ∈ AllowedCommands)) eqn:Ha; cbn [negb]; bprop.
  2:{ right. split; intros ->; apply Ha; apply (bool_decide_unpack _); by vm_compute. }
  destruct os; cbn [systemCommand]; [| | |by left];
    unfold systemCommand_linux, systemCommand_windows, systemCommand_darwin;
    repeat case_match; simplify_eq; bprop; subst;
    first [split; [tauto|apply (bool_decide_unpack _); by vm_compute] | right; done].
Qed.
