(* ===== verification/Router.v ===== *)
(** * Router: the star's packet switch ([internal/routing/router.go])

    A router maps the text of an IP address to a peer.  What a peer does with a
    packet is the [Send] method of an interface: here an operation on a shared
    state [S] that can fail, given to [Route] by the caller; the observer is a
    function on the same state. *)
From S2P Require Import Prelude Net.
From Stdlib Require Import Init.Byte Strings.Byte.

Section router.
  Context {P S : Type}.

Record Router := mkRouter {
  peers : gmap string P;
  observer : option (list byte → S → S)
}.

Definition New : Router := mkRouter ∅ None.
Definition NewObserved (observer : list byte → S → S) : Router := mkRouter ∅ (Some observer).

Definition Add (r : Router) (ip : list byte) (p : P) : Router :=
  mkRouter (<[ip_string ip := p]> (peers r)) (observer r).
Definition Remove (r : Router) (ip : list byte) : Router :=
  mkRouter (delete (ip_string ip) (peers r)) (observer r).

Definition err_invalid_ipv4 : string := "invalid IPv4 packet".
Definition err_spoofing : string := "source IP spoofing rejected".
Definition err_unknown_destination : string := "unknown destination".

(** Go's [packet[i]] on a slice of at least [i+1] bytes. *)
Definition byte_at (packet : list byte) (i : nat) : Z := default 0 (bZ <$> packet !! i).

(** The error ([None] for nil) and the state after the call. *)
Definition Route (r : Router) (Send : P → list byte → S → option string * S)
    (assigned packet : list byte) (s : S) : option string * S :=
  if (len packet <? 20) || negb (Z.shiftr (byte_at packet 0) 4 =? 4) then
    (Some err_invalid_ipv4, s)
  else
    let src := slice 12 16 packet in
    let dst := slice 16 20 packet in
    if negb (ip_equal src assigned) then (Some err_spoofing, s)
    else
      match peers r !! ip_string dst with
      | None => (Some err_unknown_destination, s)
      | Some p =>
        let '(err, s) := Send p packet s in
        match err with
        | Some err => (Some err, s)
        | None =>
          (None, match observer r with Some observer => observer packet s | None => s end)
        end
      end.

(** An IPv4 packet from [src] to [dst], as far as the router reads it. *)
Definition ipv4_packet (src dst packet : list byte) : Prop :=
  20 ≤ len packet ∧ Z.shiftr (byte_at packet 0) 4 = 4 ∧
  slice 12 16 packet = src ∧ slice 16 20 packet = dst.

(** ** Lemmas *)

Lemma ipv4_packet_lengths src dst packet :
  ipv4_packet src dst packet → length src = 4%nat ∧ length dst = 4%nat.
Proof.
  unfold len. intros (Hl & _ & <- & <-). unfold len in Hl. rewrite !slice_length by lia. done.
Qed.

Lemma Route_deliver r Send assigned src dst packet s p :
  ipv4_packet src dst packet → length assigned = 4%nat → peers r !! ip_string dst = Some p →
  src = assigned →
  Route r Send assigned packet s =
  let '(err, s) := Send p packet s in
  match err with
  | Some err => (Some err, s)
  | None => (None, match observer r with Some observer => observer packet s | None => s end)
  end.
Proof.
  intros Hp Ha Hd ->. pose proof (ipv4_packet_lengths _ _ _ Hp) as [Hs _].
  destruct Hp as (Hl & Hv & Hsrc & Hdst). unfold Route.
  rewrite (proj2 (Z.ltb_ge _ _)), Hv by done. cbn [orb negb].
  change (negb (4 =? 4)) with false. cbn iota.
  rewrite Hsrc, ip_equal_4, bool_decide_eq_true_2 by done. cbn [negb].
  by rewrite Hdst, Hd.
Qed.

(** Unless a peer's [Send] is reached, nothing happens. *)
Lemma Route_inv r Send assigned packet s o s' :
  length assigned = 4%nat → Route r Send assigned packet s = (o, s') →
  (o ∈ [Some err_invalid_ipv4; Some err_spoofing; Some err_unknown_destination] ∧ s' = s) ∨
  ∃ dst p, ipv4_packet assigned dst packet ∧ peers r !! ip_string dst = Some p ∧
    let '(err, s1) := Send p packet s in
    match err with
    | Some e => o = Some e ∧ s' = s1
    | None =>
        o = None ∧ s' = match observer r with Some observer => observer packet s1 | None => s1 end
    end.
Proof.
  intros Ha. unfold Route. destruct (_ || _) eqn:E1; [intros [= <- <-]; left; split; [set_solver|done]|].
  bprop. destruct (negb _) eqn:E2; [intros [= <- <-]; left; split; [set_solver|done]|]. bprop.
  destruct (peers r !! _) as [p|] eqn:E3; [|intros [= <- <-]; left; split; [set_solver|done]].
  intros HR. right. exists (slice 16 20 packet), p.
  rewrite ip_equal_4 in E2 by (done || (rewrite slice_length; unfold len in *; lia)). bprop.
  split; [by split_and!|]. split; [done|].
  destruct (Send p packet s) as [[e|] s1]; by simplify_eq.
Qed.

(** What [Send] and the observer preserve, [Route] preserves. *)
Lemma Route_frame (I : S → Prop) r Send assigned packet s :
  I s → (∀ p, I (snd (Send p packet s))) →
  (∀ obs s1, observer r = Some obs → I s1 → I (obs packet s1)) →
  I (snd (Route r Send assigned packet s)).
Proof.
  intros Hs Hsend Hobs. unfold Route.
  destruct (_ || _); [done|]. destruct (negb _); [done|].
  destruct (peers r !! _) as [p|]; [|done]. specialize (Hsend p).
  destruct (Send p packet s) as [[e|] s1]; [done|]. simpl in *.
  destruct (observer r) as [obs|]; [by apply Hobs|done].
Qed.
End router.
Global Arguments Router : clear implicits.

(** ** Properties *)

(** C27: no spoofing and no forwarding to strangers. A call of [Route] with a
    peer's assigned address changes nothing and reports no success unless the
    packet is IPv4, its source is the assigned address and its destination is
    the address of a registered peer; then that peer's [Send] gets the packet
    unchanged, and the observer sees it only if [Send] succeeded. *)
Theorem route_antispoof {P S} (r : Router P S) Send assigned packet s o s' :
  length assigned = 4%nat → Route r Send assigned packet s = (o, s') →
  (o ≠ None ∧ s' = s) ∨
  ∃ dst p, ipv4_packet assigned dst packet ∧ peers r !! ip_string dst = Some p ∧
    let '(err, s1) := Send p packet s in
    match err with
    | Some e => o = Some e ∧ s' = s1
    | None =>
        o = None ∧ s' = match observer r with Some observer => observer packet s1 | None => s1 end
    end.
Proof.
  intros Ha H. destruct (Route_inv _ _ _ _ _ _ _ Ha H) as [[Ho Hs]|Hr]; [left|by right].
  split; [|done]. intros ->. rewrite !elem_of_cons, elem_of_nil in Ho. by destruct_or?.
Qed.

Definition ip4 (a b c d : Z) : list byte := [Zb a; Zb b; Zb c; Zb d].
(** A 21-byte packet from 10.90.0.2 to 10.90.0.3. *)
Definition sample_packet : list byte :=
  [x45] ++ replicate 11 x00 ++ ip4 10 90 0 2 ++ ip4 10 90 0 3 ++ [x2a].
(** Peers that log what they are sent. *)
Definition log_send (p : nat) (packet : list byte) (s : list (nat * list byte)) :=
  (@None string, s ++ [(p, packet)]).
Definition sample_router : Router nat (list (nat * list byte)) :=
  Add (Add New (ip4 10 90 0 2) 2%nat) (ip4 10 90 0 3) 3%nat.

Lemma route_antispoof_witness :
  Route sample_router log_send (ip4 10 90 0 2) sample_packet [] =
    (None, [(3%nat, sample_packet)]) ∧
  ∃ dst p, ipv4_packet (ip4 10 90 0 2) dst sample_packet ∧
    peers sample_router !! ip_string dst = Some p.
Proof.
  split; [by vm_compute|].
  destruct (route_antispoof sample_router log_send (ip4 10 90 0 2) sample_packet []
    None [(3%nat, sample_packet)]) as [[[] _]|(dst & p & H1 & H2 & _)];
    [done|by vm_compute|done|by exists dst, p].
Defined.

(** The table follows the last change. After [Add ip p], packets for [ip]
    go to [p] and to no other peer; after [Remove ip] they are refused; packets
    for any other address are routed as before. *)
Theorem route_follows_table {P S} (r : Router P S) Send ip p assigned src dst packet s :
  length ip = 4%nat → length assigned = 4%nat → ipv4_packet src dst packet →
  src = assigned →
  (dst = ip →
     Route (Add r ip p) Send assigned packet s =
       (let '(err, s) := Send p packet s in
        match err with
        | Some err => (Some err, s)
        | None =>
          (None, match observer r with Some observer => observer packet s | None => s end)
        end) ∧
     Route (Remove r ip) Send assigned packet s = (Some err_unknown_destination, s)) ∧
  (dst ≠ ip →
     Route (Add r ip p) Send assigned packet s = Route r Send assigned packet s ∧
     Route (Remove r ip) Send assigned packet s = Route r Send assigned packet s).
Proof.
  intros Hip Ha Hp ->. pose proof (ipv4_packet_lengths _ _ _ Hp) as [_ Hd].
  pose proof Hp as (Hl & Hv & Hsrc & Hdst). split; intros Hne.
  - subst ip. split.
    + erewrite Route_deliver; [done..| |done]. simpl. by rewrite lookup_insert_eq.
    + unfold Route. rewrite (proj2 (Z.ltb_ge _ _)), Hv, Hsrc, Hdst by done. simpl.
      rewrite ip_equal_4, bool_decide_eq_true_2 by done. by rewrite lookup_delete_eq.
  - assert (ip_string ip ≠ ip_string dst) by (intros E%ip_string_inj; [congruence|done..]).
    unfold Route. rewrite !Hdst. simpl. by rewrite lookup_insert_ne, lookup_delete_ne.
Qed.

Lemma route_follows_table_witness :
  Route (Remove sample_router (ip4 10 90 0 3)) log_send (ip4 10 90 0 2) sample_packet [] =
    (Some err_unknown_destination, []).
Proof.
  refine (proj2 (proj1 (route_follows_table sample_router log_send (ip4 10 90 0 3) 7%nat
    (ip4 10 90 0 2) (ip4 10 90 0 2) (ip4 10 90 0 3) sample_packet [] _ _ _ _) _)); try done.
Defined.
