(* ===== verification/Traffic.v ===== *)
(** * Traffic: the payload-blind monitor ([internal/routing/traffic.go])

    One-second buckets of per-flow counters, kept for 60 seconds and capped at
    4096 flow keys by a reference count per key; the snapshot the management
    API serves, with Go's floating-point rates (IEEE binary64 by the Standard
    Library's [SpecFloat]); and the flush of completed seconds to a sink.  The
    lock regions are separate operations: [flush_collect] and [flush_mark] are
    the two regions of [flushHistory], between which the sink runs and other
    operations can interleave.  [W] is the state of the world the sink acts on.

    Go iterates over its maps in an unspecified order; the folds below use
    stdpp's, and the theorems do not depend on it. *)
From S2P Require Import Prelude Text Net Clock Router.
From Stdlib Require Import Init.Byte Strings.Byte.
From Stdlib Require Import SpecFloat.

Definition trafficWindowSeconds : Z := 60.
Definition rateWindowSeconds : Z := 5.
Definition maxTrackedFlows : nat := 4096.

(** ** Data *)

Record TrafficFlow := mkFlow {
  Source : string; Destination : string; Protocol : string; ProtocolNumber : Z;
  SourcePort : option Z; DestinationPort : option Z;
  ICMPType : option Z; ICMPCode : option Z;
  Bytes : Z; Packets : Z; Mbps : spec_float
}.

Record TrafficPoint := mkPoint {
  ptTimestamp : Z; ptBytes : Z; ptPackets : Z; ptMbps : spec_float
}.

Record TrafficSnapshot := mkSnapshot {
  GeneratedAt : Z; WindowSeconds : Z; RateWindowSeconds : Z; Ready : bool;
  snBytes : Z; snPackets : Z; snMbps : spec_float;
  Flows : list TrafficFlow; Series : list TrafficPoint
}.

Record TrafficHistoryRecord := mkHistory { RecordedAt : Z; hFlow : TrafficFlow }.

Record trafficKey := mkKey {
  kSource : string; kDestination : string; kProtocol : string; kNumber : Z;
  hasPorts : bool; kSourcePort : Z; kDestinationPort : Z;
  hasICMP : bool; kICMPType : Z; kICMPCode : Z
}.
Global Instance trafficKey_eq_dec : EqDecision trafficKey.
Proof. solve_decision. Defined.
Global Instance trafficKey_countable : Countable trafficKey.
Proof.
  refine (inj_countable'
    (λ k, (kSource k, kDestination k, kProtocol k, kNumber k, (hasPorts k, kSourcePort k,
      kDestinationPort k), (hasICMP k, kICMPType k, kICMPCode k)))
    (λ '(s, d, p, n, (hp, sp, dp), (hi, t, c)), mkKey s d p n hp sp dp hi t c) _).
  by intros [].
Defined.

Record trafficCount := mkCount { cBytes : Z; cPackets : Z }.
Definition zeroCount : trafficCount := mkCount 0 0.

(** ** Keys of packets *)

Definition protocolName (number : Z) : string :=
  if number =? 1 then "icmp"
  else if number =? 6 then "tcp"
  else if number =? 17 then "udp"
  else "other".

Definition trafficKeyFromIPv4 (packet : list byte) : option trafficKey :=
  if (len packet <? 20) || negb (Z.shiftr (byte_at packet 0) 4 =? 4) then None
  else
    let headerLength := Z.land (byte_at packet 0) 15 * 4 in
    if (headerLength <? 20) || (len packet <? headerLength) then None
    else
      let h := Z.to_nat headerLength in
      let protocolNumber := byte_at packet 9 in
      let key := mkKey (ip_string (slice 12 16 packet)) (ip_string (slice 16 20 packet))
                   (protocolName protocolNumber) protocolNumber false 0 0 false 0 0 in
      let fragmentOffset := Z.land (be_get (slice 6 8 packet)) 8191 in
      if negb (fragmentOffset =? 0) then Some key
      else if (protocolNumber =? 6) || (protocolNumber =? 17) then
        if headerLength + 4 <=? len packet then
          Some (mkKey (kSource key) (kDestination key) (kProtocol key) (kNumber key)
                  true (be_get (slice h (h + 2) packet)) (be_get (slice (h + 2) (h + 4) packet))
                  false 0 0)
        else Some key
      else if protocolNumber =? 1 then
        if headerLength + 2 <=? len packet then
          Some (mkKey (kSource key) (kDestination key) (kProtocol key) (kNumber key)
                  false 0 0 true (byte_at packet h) (byte_at packet (h + 1)))
        else Some key
      else Some key.

(** ** Rates *)

Definition f64 (z : Z) : spec_float := binary_normalize 53 1024 z 0 false.
Definition megabitsPerSecond (bytes seconds : Z) : spec_float :=
  SFdiv 53 1024 (SFdiv 53 1024 (f64 (u64 (bytes * 8))) (f64 seconds)) (f64 1000000).

Definition trafficFlow (key : trafficKey) (count : trafficCount) (rateBytes : Z) : TrafficFlow :=
  mkFlow (kSource key) (kDestination key) (kProtocol key) (kNumber key)
    (if hasPorts key then Some (kSourcePort key) else None)
    (if hasPorts key then Some (kDestinationPort key) else None)
    (if hasICMP key then Some (kICMPType key) else None)
    (if hasICMP key then Some (kICMPCode key) else None)
    (cBytes count) (cPackets count) (megabitsPerSecond rateBytes rateWindowSeconds).

(** ** The order of a snapshot's flows *)

Definition portValue (port : option Z) : Z := default 0 port.
Definition byteValue (value : option Z) : Z := default 0 value.
Definition is_nil (o : option Z) : bool := match o with None => true | Some _ => false end.

Definition flow_less (left right : TrafficFlow) : bool :=
  if negb (Source left =s Source right) then String.ltb (Source left) (Source right)
  else if negb (Destination left =s Destination right)
  then String.ltb (Destination left) (Destination right)
  else if negb (ProtocolNumber left =? ProtocolNumber right)
  then ProtocolNumber left <? ProtocolNumber right
  else if negb (Bool.eqb (is_nil (SourcePort left)) (is_nil (SourcePort right)))
  then is_nil (SourcePort left)
  else if negb (portValue (SourcePort left) =? portValue (SourcePort right))
  then portValue (SourcePort left) <? portValue (SourcePort right)
  else if negb (Bool.eqb (is_nil (DestinationPort left)) (is_nil (DestinationPort right)))
  then is_nil (DestinationPort left)
  else if negb (portValue (DestinationPort left) =? portValue (DestinationPort right))
  then portValue (DestinationPort left) <? portValue (DestinationPort right)
  else if negb (Bool.eqb (is_nil (ICMPType left)) (is_nil (ICMPType right)))
  then is_nil (ICMPType left)
  else if negb (byteValue (ICMPType left) =? byteValue (ICMPType right))
  then byteValue (ICMPType left) <? byteValue (ICMPType right)
  else if negb (Bool.eqb (is_nil (ICMPCode left)) (is_nil (ICMPCode right)))
  then is_nil (ICMPCode left)
  else byteValue (ICMPCode left) <? byteValue (ICMPCode right).

(** [sort.Slice(flows, less)]: an arrangement in which no later flow is less. *)
Definition flow_le (a b : TrafficFlow) : Prop := flow_less b a = false.
Global Instance flow_le_dec : RelDecision flow_le := λ a b, bool_eq_dec (flow_less b a) false.
Definition sort_flows (l : list TrafficFlow) : list TrafficFlow := merge_sort flow_le l.

(** ** The monitor *)

Section monitor.
  Context {W : Type}.

Record TrafficMonitor := mkMonitor {
  ready : bool;
  buckets : gmap Z (gmap trafficKey trafficCount);
  keys : gmap trafficKey Z;
  historyFlushed : gset Z;
  historySink : option (list TrafficHistoryRecord → W → option string * W)
}.

Definition NewTrafficMonitor : TrafficMonitor := mkMonitor false ∅ ∅ ∅ None.
Definition SetHistorySink sink (m : TrafficMonitor) : TrafficMonitor :=
  mkMonitor (ready m) (buckets m) (keys m) (historyFlushed m) sink.
Definition SetReady (r : bool) (m : TrafficMonitor) : TrafficMonitor :=
  mkMonitor r (buckets m) (keys m) (historyFlushed m) (historySink m).

(** [m.keys[key]--; if m.keys[key] <= 0 { delete(m.keys, key) }]. *)
Definition dec_key (key : trafficKey) (ks : gmap trafficKey Z) : gmap trafficKey Z :=
  let n := default 0 (ks !! key) - 1 in
  if n <=? 0 then delete key ks else <[key := n]> ks.
Definition release (b : gmap trafficKey trafficCount) (ks : gmap trafficKey Z) :=
  map_fold (λ key _ ks, dec_key key ks) ks b.

Definition prune_one (currentSecond second : Z) (b : gmap trafficKey trafficCount)
    (m : TrafficMonitor) : TrafficMonitor :=
  if second <=? currentSecond - trafficWindowSeconds
  then mkMonitor (ready m) (delete second (buckets m)) (release b (keys m))
         (historyFlushed m ∖ {[second]}) (historySink m)
  else m.
Definition prune (currentSecond : Z) (m : TrafficMonitor) : TrafficMonitor :=
  map_fold (prune_one currentSecond) m (buckets m).

Definition add_count (count : trafficCount) (packetBytes : Z) : trafficCount :=
  mkCount (u64 (cBytes count + u64 packetBytes)) (u64 (cPackets count + 1)).

Definition observe (now : Z) (key : trafficKey) (packetBytes : Z) (m : TrafficMonitor)
    : TrafficMonitor :=
  if (packetBytes <=? 0) || (kSource key =s "") || (kDestination key =s "") then m
  else
    let second := Unix now in
    let m := prune second m in
    let b := default ∅ (buckets m !! second) in
    let full ks bk := mkMonitor (ready m) bk ks (historyFlushed m) (historySink m) in
    let counted := <[second := <[key := add_count (default zeroCount (b !! key)) packetBytes]> b]>
                     (buckets m) in
    match b !! key with
    | Some _ => full (keys m) counted
    | None =>
      if (default 0 (keys m !! key) =? 0) && bool_decide (maxTrackedFlows ≤ size (keys m))%nat
      then full (keys m) (<[second := b]> (buckets m))
      else full (<[key := default 0 (keys m !! key) + 1]> (keys m)) counted
    end.

Definition Observe (now : Z) (source destination : list byte) (packetBytes : Z)
    (m : TrafficMonitor) : TrafficMonitor :=
  if (packetBytes <=? 0) || bool_decide (source = []) || bool_decide (destination = []) then m
  else observe now (mkKey (ip_string source) (ip_string destination) "other" 0
                      false 0 0 false 0 0) packetBytes m.

Definition ObservePacket (now : Z) (packet : list byte) (m : TrafficMonitor) : TrafficMonitor :=
  match trafficKeyFromIPv4 packet with
  | None => m
  | Some key => observe now key (len packet) m
  end.

(** *** Snapshots *)

Record snap_state := mkSnap {
  sFlows : gmap trafficKey trafficCount; sRate : gmap trafficKey Z;
  sSeries : list TrafficPoint; sBytes : Z; sPackets : Z
}.

Definition sum_count (a b : trafficCount) : trafficCount :=
  mkCount (u64 (cBytes a + cBytes b)) (u64 (cPackets a + cPackets b)).
Definition bucket_sum (b : gmap trafficKey trafficCount) : trafficCount :=
  map_fold (λ _ c acc, sum_count acc c) zeroCount b.
Definition merge_flows (flows b : gmap trafficKey trafficCount) : gmap trafficKey trafficCount :=
  map_fold (λ k c f, <[k := sum_count (default zeroCount (f !! k)) c]> f) flows b.
Definition merge_rate (rate : gmap trafficKey Z) (b : gmap trafficKey trafficCount) :=
  map_fold (λ k c r, <[k := u64 (default 0 (r !! k) + cBytes c)]> r) rate b.

(** One pass of the loop over the offsets, for the second it looks at. *)
Definition snap_second (currentSecond : Z) (m : TrafficMonitor) (st : snap_state) (second : Z)
    : snap_state :=
  let b := default ∅ (buckets m !! second) in
  let point := bucket_sum b in
  mkSnap (merge_flows (sFlows st) b)
    (if currentSecond - rateWindowSeconds <? second then merge_rate (sRate st) b else sRate st)
    (sSeries st ++ [mkPoint (OfUnix second) (cBytes point) (cPackets point)
                      (megabitsPerSecond (cBytes point) 1)])
    (u64 (sBytes st + cBytes point)) (u64 (sPackets st + cPackets point)).

(** The seconds of the window, oldest first. *)
Definition window_seconds (currentSecond : Z) : list Z :=
  map (λ offset, currentSecond - offset) (rev (seqZ 0 trafficWindowSeconds)).

Definition Snapshot (time : Z) (m : TrafficMonitor) : TrafficSnapshot * TrafficMonitor :=
  let now := TruncateSecond time in
  let currentSecond := Unix now in
  let m := prune currentSecond m in
  let st := foldl (snap_second currentSecond m) (mkSnap ∅ ∅ [] 0 0)
              (window_seconds currentSecond) in
  let flows := map (λ '(key, count), trafficFlow key count (default 0 (sRate st !! key)))
                 (map_to_list (sFlows st)) in
  let mbps := map_fold (λ _ bytes acc, SFadd 53 1024 acc (megabitsPerSecond bytes rateWindowSeconds))
                (f64 0) (sRate st) in
  (mkSnapshot now trafficWindowSeconds rateWindowSeconds (ready m) (sBytes st) (sPackets st)
     mbps (sort_flows flows) (sSeries st), m).

(** *** History *)

Definition flushable (includeCurrent : bool) (nowSecond : Z) (m : TrafficMonitor) (second : Z)
    : bool :=
  negb (bool_decide (second ∈ historyFlushed m)) && (includeCurrent || (second <? nowSecond)).

(** The first lock region: the seconds in increasing order, their records, the
    pruned monitor. *)
Definition flush_collect (includeCurrent : bool) (now : Z) (m : TrafficMonitor)
    : list Z * list TrafficHistoryRecord * TrafficMonitor :=
  let nowSecond := Unix now in
  let m := prune nowSecond m in
  let seconds := merge_sort Z.le
    (List.filter (flushable includeCurrent nowSecond m) (map fst (map_to_list (buckets m)))) in
  let records := concat (map (λ second,
    map (λ '(key, count), mkHistory (OfUnix second) (trafficFlow key count 0))
      (map_to_list (default ∅ (buckets m !! second)))) seconds) in
  (seconds, records, m).

(** The second lock region. *)
Definition flush_mark (seconds : list Z) (m : TrafficMonitor) : TrafficMonitor :=
  mkMonitor (ready m) (buckets m) (keys m) (list_to_set seconds ∪ historyFlushed m)
    (historySink m).

Definition flushHistory (includeCurrent : bool) (now : Z) (m : TrafficMonitor) (w : W)
    : option string * TrafficMonitor * W :=
  let '(seconds, records, m) := flush_collect includeCurrent now m in
  match historySink m, records with
  | None, _ => (None, m, w)
  | Some _, [] => (None, m, w)
  | Some sink, _ =>
    let '(err, w) := sink records w in
    match err with
    | Some e => (Some e, m, w)
    | None => (None, flush_mark seconds m, w)
    end
  end.

Definition FlushHistory : Z → TrafficMonitor → W → option string * TrafficMonitor * W :=
  flushHistory false.
Definition FlushHistoryNow : Z → TrafficMonitor → W → option string * TrafficMonitor * W :=
  flushHistory true.

(** *** Runs of the monitor

    A monitor in use: the clock, a flush between its two lock regions, the
    seconds a sink has accepted so far.  [flushMu] allows one flush at a time;
    every other operation can run in between. *)
Record mon_state := mkMonState {
  ms_now : Z; ms_mon : TrafficMonitor; ms_pending : option (list Z); ms_delivered : list Z
}.

Inductive mon_step : mon_state → mon_state → Prop :=
  | step_tick t t' m p d : t ≤ t' → mon_step (mkMonState t m p d) (mkMonState t' m p d)
  | step_observe t m p d src dst n :
      mon_step (mkMonState t m p d) (mkMonState t (Observe t src dst n m) p d)
  | step_observe_packet t m p d packet :
      mon_step (mkMonState t m p d) (mkMonState t (ObservePacket t packet m) p d)
  | step_snapshot t m p d :
      mon_step (mkMonState t m p d) (mkMonState t (snd (Snapshot t m)) p d)
  | step_ready t m p d r : mon_step (mkMonState t m p d) (mkMonState t (SetReady r m) p d)
  | step_sink t m p d sink :
      mon_step (mkMonState t m p d) (mkMonState t (SetHistorySink sink m) p d)
  | step_flush_begin t m d includeCurrent seconds records m' :
      flush_collect includeCurrent t m = (seconds, records, m') →
      mon_step (mkMonState t m None d) (mkMonState t m' (Some seconds) d)
  | step_flush_failed t m seconds d :
      mon_step (mkMonState t m (Some seconds) d) (mkMonState t m None d)
  | step_flush_ok t m seconds d :
      mon_step (mkMonState t m (Some seconds) d)
        (mkMonState t (flush_mark seconds m) None (d ++ seconds)).

Definition mon_init (t : Z) : mon_state := mkMonState t NewTrafficMonitor None [].

(** *** The invariant of the reference counts *)

Definition has (b : gmap trafficKey trafficCount) (k : trafficKey) : Z :=
  if decide (is_Some (b !! k)) then 1 else 0.
Definition refs (bs : gmap Z (gmap trafficKey trafficCount)) (k : trafficKey) : Z :=
  msum (λ b, has b k) bs.
Definition positive (n : Z) : option Z := if n <=? 0 then None else Some n.

Record keys_inv (m : TrafficMonitor) : Prop := {
  inv_refs k : keys m !! k = positive (refs (buckets m) k);
  inv_cap : (size (keys m) ≤ maxTrackedFlows)%nat
}.

End monitor.
Global Arguments TrafficMonitor : clear implicits.
Global Arguments mon_state : clear implicits.

(** ** Lemmas: pruning and reference counts *)

Lemma positive_default n : 0 ≤ n → default 0 (positive n) = n.
Proof. intros. unfold positive. case_match; bprop; simpl; lia. Qed.

Section monitor_lemmas.
Context {W : Type}.
Implicit Types (m : TrafficMonitor W) (b : gmap trafficKey trafficCount)
  (bs : gmap Z (gmap trafficKey trafficCount)).

Lemma release_lookup b ks k :
  release b ks !! k =
  if decide (is_Some (b !! k)) then positive (default 0 (ks !! k) - 1) else ks !! k.
Proof.
  set (P := λ (r : gmap trafficKey Z) (b0 : gmap trafficKey trafficCount), r !! k =
    if decide (is_Some (b0 !! k)) then positive (default 0 (ks !! k) - 1) else ks !! k).
  apply (map_fold_weak_ind P); unfold P.
  { rewrite decide_False; [done|]. rewrite lookup_empty. by intros []. }
  intros k' c b' r Hk' IH. unfold dec_key. destruct (decide (k' = k)) as [->|Hne].
  - rewrite lookup_insert_eq, decide_True by done.
    rewrite decide_False in IH by (rewrite Hk'; by intros []). rewrite IH. unfold positive.
    case_match; [by rewrite lookup_delete_eq|by rewrite lookup_insert_eq].
  - rewrite lookup_insert_ne by done. rewrite <- IH.
    destruct (_ <=? 0); [by rewrite lookup_delete_ne|by rewrite lookup_insert_ne].
Qed.

Lemma release_dom b ks : dom (release b ks) ⊆ dom ks.
Proof.
  intros k. rewrite !elem_of_dom, release_lookup. unfold positive.
  repeat case_match; try done; intros [? ?]; simplify_eq.
  destruct (ks !! k); [done|]. simpl in *. bprop. lia.
Qed.

Lemma refs_delete bs s k :
  refs bs k = has (default ∅ (bs !! s)) k + refs (delete s bs) k.
Proof.
  unfold refs. rewrite (msum_delete _ _ s). destruct (bs !! s); simpl; [done|].
  unfold has. rewrite lookup_empty, decide_False by by intros []. done.
Qed.

Lemma refs_insert bs s b k : refs (<[s := b]> bs) k = has b k + refs (delete s bs) k.
Proof. apply (msum_insert (λ b, has b k)). Qed.

Lemma has_range b k : 0 ≤ has b k ≤ 1.
Proof. unfold has. case_match; lia. Qed.

Lemma refs_nonneg bs k : 0 ≤ refs bs k.
Proof. apply msum_nonneg. intros b. apply has_range. Qed.

Lemma keys_inv_weaken m ks bs fl sk rd :
  keys_inv m → (∀ k, ks !! k = positive (refs bs k)) → dom ks ⊆ dom (keys m) →
  keys_inv (mkMonitor (W := W) rd bs ks fl sk).
Proof.
  intros [_ Hc] Hk Hd. split; [done|]. simpl. etrans; [|exact Hc].
  rewrite <- !size_dom. by apply subseteq_size.
Qed.

Lemma prune_one_inv cur s b m :
  keys_inv m → buckets m !! s = Some b →
  keys_inv (prune_one cur s b m) ∧ dom (keys (prune_one cur s b m)) ⊆ dom (keys m).
Proof.
  intros Hinv Hb. unfold prune_one. case_match; [|done]. split; [|apply release_dom].
  apply (keys_inv_weaken m); [done| |apply release_dom].
  intros k. rewrite release_lookup. destruct Hinv as [Hr _]. rewrite Hr.
  pose proof (refs_nonneg (buckets m) k) as Hn. pose proof (refs_nonneg (delete s (buckets m)) k).
  rewrite positive_default by done.
  rewrite (refs_delete (buckets m) s) in Hn |- *. rewrite Hb in Hn |- *. simpl in *. unfold has in *.
  case_match; f_equal; lia.
Qed.

(** What pruning keeps, on one second. *)
Definition pruned_spec (cur : Z) m m' : Prop :=
  (∀ s, buckets m' !! s = if s <=? cur - trafficWindowSeconds then None else buckets m !! s) ∧
  (∀ s, s ∈ historyFlushed m' ↔
     s ∈ historyFlushed m ∧ ¬ (s ≤ cur - trafficWindowSeconds ∧ is_Some (buckets m !! s))) ∧
  (keys_inv m → keys_inv m') ∧ ready m' = ready m ∧ historySink m' = historySink m.

Lemma prune_spec cur m : pruned_spec cur m (prune cur m).
Proof.
  set (lim := cur - trafficWindowSeconds).
  set (P := λ (acc : TrafficMonitor W) (M : gmap Z (gmap trafficKey trafficCount)),
    M ⊆ buckets m →
    (∀ s, buckets acc !! s =
       if bool_decide (is_Some (M !! s)) && (s <=? lim) then None else buckets m !! s) ∧
    (∀ s, s ∈ historyFlushed acc ↔ s ∈ historyFlushed m ∧ ¬ (s ≤ lim ∧ is_Some (M !! s))) ∧
    (keys_inv m → keys_inv acc) ∧ ready acc = ready m ∧ historySink acc = historySink m).
  assert (P (prune cur m) (buckets m)) as HP.
  { apply (map_fold_weak_ind P); unfold P.
    - intros _. split_and!; try done. intros s. rewrite lookup_empty.
      split; [|by intros []]. intros; split; [done|]. by intros [_ []].
    - intros s b M acc HM IH Hsub.
      assert (buckets m !! s = Some b) as Hb
        by (eapply lookup_weaken; [|done]; apply lookup_insert_eq).
      destruct IH as (IHb & IHf & IHk & IHr & IHs).
      { etrans; [|done]. by apply insert_subseteq. }
      assert (buckets acc !! s = Some b) as Hacc
        by (rewrite IHb, HM; exact Hb).
      split; [|split; [|split; [|by unfold prune_one; case_match]]].
      + intros s'. unfold prune_one, lim in *. destruct (decide (s' = s)) as [->|Hne].
        * rewrite lookup_insert_eq, bool_decide_eq_true_2 by done. simpl.
          case_match; [apply lookup_delete_eq|by rewrite Hacc, Hb].
        * rewrite lookup_insert_ne, <- IHb by done.
          case_match; [by apply lookup_delete_ne|done].
      + intros s'. unfold prune_one, lim in *. destruct (decide (s' = s)) as [->|Hne].
        * rewrite lookup_insert_eq. case_match; bprop; simpl;
            [rewrite elem_of_difference, elem_of_singleton|]; rewrite IHf, HM.
          -- split; [by intros [_ []]|]. intros [_ Hn]. destruct Hn. by split.
          -- split; intros [? _]; (split; [done|]); [lia|]. by intros [_ []].
        * rewrite lookup_insert_ne, <- IHf by done. case_match; simpl; [|done].
          rewrite elem_of_difference, elem_of_singleton. by split; [intros []|].
      + intros Hk. exact (proj1 (prune_one_inv _ _ _ _ (IHk Hk) Hacc)). }
  destruct (HP ltac:(done)) as (Hb & Hf & Hrest). split; [|by split].
  intros s. rewrite Hb. fold lim. destruct (buckets m !! s) eqn:E; [done|].
  by destruct (s <=? lim).
Qed.

Lemma prune_inv cur m : keys_inv m → keys_inv (prune cur m).
Proof. apply (prune_spec cur m). Qed.

Lemma observe_inv t k n m : keys_inv m → keys_inv (observe t k n m).
Proof.
  intros Hinv. unfold observe. case_match; [done|].
  pose proof (prune_inv (Unix t) m Hinv) as Hp. set (m' := prune (Unix t) m) in *.
  set (b := default ∅ (buckets m' !! Unix t)) in *.
  assert (∀ k', refs (buckets m') k' = has b k' + refs (delete (Unix t) (buckets m')) k') as Hd
    by (intros; apply refs_delete).
  pose proof (inv_refs _ Hp) as Hr. destruct (b !! k) as [c|] eqn:Eb.
  - apply (keys_inv_weaken m'); [done| |done]. intros k'. rewrite Hr, refs_insert, Hd.
    do 2 f_equal. unfold has. destruct (decide (k = k')) as [->|].
    + rewrite lookup_insert_eq. by rewrite !decide_True by done.
    + by rewrite lookup_insert_ne.
  - destruct (_ && _) eqn:Ec.
    + apply (keys_inv_weaken m'); [done| |done]. intros k'. by rewrite Hr, refs_insert, Hd.
    + split; cbn [keys buckets].
      * intros k'. rewrite refs_insert. pose proof (refs_nonneg (buckets m') k).
        destruct (decide (k = k')) as [->|].
        -- rewrite lookup_insert_eq, Hr, positive_default, Hd by done. unfold has.
           rewrite Hd in *. unfold has in *. rewrite lookup_insert_eq.
           rewrite Eb in *. rewrite decide_False in * by by intros []. rewrite decide_True by done.
           unfold positive. rewrite (proj2 (Z.leb_gt _ _)) by lia. f_equal. lia.
        -- rewrite lookup_insert_ne, Hr, Hd by done. unfold has at 2.
           by rewrite lookup_insert_ne.
      * rewrite map_size_insert. destruct (keys m' !! k) as [r|] eqn:Ek; simpl.
        -- apply (inv_cap _ Hp).
        -- apply andb_false_iff in Ec as [Ec|Ec]; simpl in Ec; bprop; lia.
Qed.

(** *** What an observation changes *)

Lemma observe_frame t k n m :
  observe t k n m = m ∨
  (historyFlushed (observe t k n m) = historyFlushed (prune (Unix t) m) ∧
   ∀ s, s ≠ Unix t → buckets (observe t k n m) !! s = buckets (prune (Unix t) m) !! s).
Proof.
  unfold observe. case_match; [by left|]. right. split; [by repeat case_match|].
  intros s Hs. by repeat case_match; simpl; rewrite lookup_insert_ne by done.
Qed.

(** *** Runs *)

(** A second a sink accepted is remembered, or gone from the window for good. *)
Definition settled (t : Z) m (s : Z) : Prop :=
  s ∈ historyFlushed m ∨ (buckets m !! s = None ∧ s ≤ Unix t - trafficWindowSeconds).

Record mon_inv (st : mon_state W) : Prop := {
  mi_keys : keys_inv (ms_mon st);
  mi_nodup : NoDup (ms_delivered st);
  mi_settled : ∀ s, s ∈ ms_delivered st → settled (ms_now st) (ms_mon st) s;
  mi_pending : ∀ p, ms_pending st = Some p → NoDup p ∧ ∀ s, s ∈ p → s ∉ ms_delivered st
}.

Lemma settled_prune t m s : settled t m s → settled t (prune (Unix t) m) s.
Proof.
  pose proof (prune_spec (Unix t) m) as (Hb & Hf & _).
  unfold settled. rewrite Hb, Hf. intros [H|[H ?]].
  - destruct (decide (s ≤ Unix t - trafficWindowSeconds)).
    + right. by rewrite (proj2 (Z.leb_le _ _)).
    + left. split; [done|]. by intros [].
  - right. rewrite H. by case_match.
Qed.

Lemma settled_observe t k n m s : settled t m s → settled t (observe t k n m) s.
Proof.
  intros H. destruct (observe_frame t k n m) as [->|[E Eb]]; [done|].
  destruct (settled_prune t m s H) as [?|[? Hs]]; [left; by rewrite E|right].
  rewrite Eb; [done|]. unfold trafficWindowSeconds in Hs. lia.
Qed.

Lemma flush_collect_spec ic t m seconds records m' :
  flush_collect ic t m = (seconds, records, m') →
  m' = prune (Unix t) m ∧ NoDup seconds ∧
  (∀ s, s ∈ seconds ↔ is_Some (buckets m' !! s) ∧ flushable ic (Unix t) m' s = true) ∧
  Sorted Z.le seconds.
Proof.
  unfold flush_collect. intros [= <- _ <-]. split; [done|].
  set (m1 := prune (Unix t) m).
  assert (NoDup (map fst (map_to_list (buckets m1)))) as Hnd by apply NoDup_fst_map_to_list.
  split; [|split].
  - rewrite merge_sort_Permutation. by apply NoDup_ListNoDup, List.NoDup_filter, NoDup_ListNoDup.
  - intros s. rewrite merge_sort_Permutation. rewrite list_elem_of_In, filter_In, <- list_elem_of_In.
    f_equiv. rewrite list_elem_of_fmap. split.
    + intros ([s' b] & -> & H%elem_of_map_to_list). eauto.
    + intros [b Hb]. exists (s, b). by rewrite elem_of_map_to_list.
  - apply (Sorted_merge_sort _).
Qed.

Lemma settled_not_collected ic t m seconds records m' s :
  flush_collect ic t m = (seconds, records, m') →
  settled t m s → (s ∉ seconds) ∧ settled t m' s.
Proof.
  intros (-> & _ & Hin & _)%flush_collect_spec Hs%settled_prune. split; [|done].
  rewrite Hin. intros [[b Hb] Hf]. unfold flushable in Hf. bprop.
  destruct Hs as [?|[? _]]; congruence.
Qed.

Lemma mon_inv_init t : mon_inv (mon_init t).
Proof.
  split; simpl; [|constructor|intros s H; by apply elem_of_nil in H|done].
  split; simpl; [|unfold maxTrackedFlows; rewrite map_size_empty; lia].
  intros k. by rewrite lookup_empty.
Qed.

(** The operations under the monitor's mutex, which leave a flush alone. *)
Lemma mon_inv_op t m m' p d :
  (keys_inv m → keys_inv m') → (∀ s, settled t m s → settled t m' s) →
  mon_inv (mkMonState t m p d) → mon_inv (mkMonState t m' p d).
Proof. intros Hk Hs [Hik ? His ?]. split; simpl in *; auto. Qed.

Lemma Snapshot_monitor t m : snd (Snapshot t m) = prune (Unix t) m.
Proof. unfold Snapshot. by rewrite Unix_Truncate. Qed.

Lemma mon_inv_step st st' : mon_step st st' → mon_inv st → mon_inv st'.
Proof.
  destruct 1 as [t t' m p d Ht|t m p d src dst n|t m p d packet|t m p d|t m p d r
    |t m p d sink|t m d ic seconds records m' Hc|t m seconds d|t m seconds d].
  - intros [? ? Hs ?]. split; simpl in *; try done. intros s Hd.
    destruct (Hs s Hd) as [?|[? ?]]; [by left|right]. split; [done|].
    assert (Unix t ≤ Unix t') by (apply Z.div_le_mono; [done|lia]). lia.
  - apply mon_inv_op; unfold Observe; case_match; eauto using observe_inv, settled_observe.
  - apply mon_inv_op; unfold ObservePacket; case_match; eauto using observe_inv, settled_observe.
  - rewrite Snapshot_monitor. apply mon_inv_op; eauto using prune_inv, settled_prune.
  - apply mon_inv_op; [|done]. by intros [? ?].
  - apply mon_inv_op; [|done]. by intros [? ?].
  - intros [? ? Hs ?]. pose proof (flush_collect_spec _ _ _ _ _ _ Hc) as (Hm & Hnd & _).
    split; simpl in *; [subst; by apply prune_inv|done| |].
    + intros s Hd. exact (proj2 (settled_not_collected _ _ _ _ _ _ _ Hc (Hs s Hd))).
    + intros ? [= <-]. split; [done|]. intros s Hin Hd.
      exact (proj1 (settled_not_collected _ _ _ _ _ _ _ Hc (Hs s Hd)) Hin).
  - intros [? ? ? ?]. by split.
  - intros [[Hr Hcap] Hnd Hs Hp]. destruct (Hp seconds eq_refl) as [Hnds Hdis]. clear Hp. simpl in *.
    split; simpl; [by split| | |done].
    + apply NoDup_app. split_and!; [done| |done]. intros s H1 H2. by apply (Hdis s).
    + intros s [Hd|Hin]%elem_of_app; [|left; simpl; set_solver].
      destruct (Hs s Hd) as [?|?]; [left; simpl; set_solver|by right].
Qed.

Lemma mon_inv_reach t st : rtc mon_step (mon_init t) st → mon_inv st.
Proof.
  intros H. remember (mon_init t) as st0. assert (mon_inv st0) as Hi by (subst; apply mon_inv_init).
  clear Heqst0. induction H; eauto using mon_inv_step.
Qed.

(** *** Snapshots *)

(** What the window holds for a flow key, as plain sums. *)
Definition count_at m (s : Z) (k : trafficKey) : option trafficCount :=
  default ∅ (buckets m !! s) !! k.
Definition window_bytes m (secs : list Z) (k : trafficKey) : Z :=
  sumZ (map (λ s, from_option cBytes 0 (count_at m s k)) secs).
Definition window_packets m (secs : list Z) (k : trafficKey) : Z :=
  sumZ (map (λ s, from_option cPackets 0 (count_at m s k)) secs).
Definition rate_seconds (cur : Z) (secs : list Z) : list Z :=
  List.filter (λ s, cur - rateWindowSeconds <? s) secs.
Definition seen m (secs : list Z) (k : trafficKey) : bool :=
  existsb (λ s, bool_decide (is_Some (count_at m s k))) secs.

Lemma merge_flows_lookup f b k :
  merge_flows f b !! k = match b !! k with
                         | Some c => Some (sum_count (default zeroCount (f !! k)) c)
                         | None => f !! k
                         end.
Proof.
  set (P := λ (r b0 : gmap trafficKey trafficCount), r !! k =
    match b0 !! k with
    | Some c => Some (sum_count (default zeroCount (f !! k)) c) | None => f !! k end).
  apply (map_fold_weak_ind P); unfold P; [by rewrite lookup_empty|].
  intros k' c b' r Hk' IH. destruct (decide (k' = k)) as [->|].
  - rewrite !lookup_insert_eq. rewrite Hk' in IH. by rewrite IH.
  - by rewrite !lookup_insert_ne.
Qed.

Lemma merge_rate_lookup r b k :
  merge_rate r b !! k = match b !! k with
                        | Some c => Some (u64 (default 0 (r !! k) + cBytes c))
                        | None => r !! k
                        end.
Proof.
  set (P := λ (r0 : gmap trafficKey Z) (b0 : gmap trafficKey trafficCount), r0 !! k =
    match b0 !! k with
    | Some c => Some (u64 (default 0 (r !! k) + cBytes c)) | None => r !! k end).
  apply (map_fold_weak_ind P); unfold P; [by rewrite lookup_empty|].
  intros k' c b' r0 Hk' IH. destruct (decide (k' = k)) as [->|].
  - rewrite !lookup_insert_eq. rewrite Hk' in IH. by rewrite IH.
  - by rewrite !lookup_insert_ne.
Qed.

Lemma bucket_sum_spec b :
  bucket_sum b = mkCount (u64 (msum cBytes b)) (u64 (msum cPackets b)).
Proof.
  set (P := λ (acc : trafficCount) (b0 : gmap trafficKey trafficCount),
    acc = mkCount (u64 (msum cBytes b0)) (u64 (msum cPackets b0))).
  apply (map_fold_weak_ind P); unfold P; [done|].
  intros k c b' acc Hk ->. rewrite !msum_insert_new by done. unfold sum_count. simpl.
  rewrite !u64_add_l. by rewrite (Z.add_comm _ (cBytes c)), (Z.add_comm _ (cPackets c)).
Qed.

Lemma merge_flows_total (g : trafficCount → Z) f b :
  g zeroCount = 0 → (∀ x y, g (sum_count x y) = u64 (g x + g y)) →
  msum g (merge_flows f b) ≡64 msum g f + msum g b.
Proof.
  intros Hz Hg. symmetry in Hz. set (P := λ (r b0 : gmap trafficKey trafficCount),
    msum g r ≡64 msum g f + msum g b0).
  apply (map_fold_weak_ind P); unfold P.
  { change (msum g (∅ : gmap trafficKey trafficCount)) with 0. by rewrite Z.add_0_r. }
  intros k c b' r Hk IH. rewrite (msum_insert_new g b') by done. rewrite msum_insert, Hg, u64_eq64.
  rewrite (msum_delete g r k) in IH.
  replace (g (default zeroCount (r !! k))) with (from_option g 0 (r !! k))
    by (by destruct (r !! k)).
  match goal with |- ?a + ?c + ?d ≡64 _ => replace (a + c + d) with (c + (a + d)) by lia end.
  rewrite IH. match goal with |- ?a ≡64 ?b => by replace a with b by lia end.
Qed.

(** What the loop over the window has gathered after the seconds [secs]. *)
Record snap_inv (cur : Z) m (secs : list Z) (st : snap_state) : Prop := {
  si_flows k : sFlows st !! k =
    if seen m secs k
    then Some (mkCount (u64 (window_bytes m secs k)) (u64 (window_packets m secs k))) else None;
  si_rate k : default 0 (sRate st !! k) = u64 (window_bytes m (rate_seconds cur secs) k);
  si_times : map ptTimestamp (sSeries st) = map OfUnix secs;
  si_bytes : sBytes st = u64 (sumZ (map ptBytes (sSeries st)));
  si_packets : sPackets st = u64 (sumZ (map ptPackets (sSeries st)));
  si_total_bytes : msum cBytes (sFlows st) ≡64 sBytes st;
  si_total_packets : msum cPackets (sFlows st) ≡64 sPackets st
}.

Lemma seen_false m secs k :
  seen m secs k = false → window_bytes m secs k = 0 ∧ window_packets m secs k = 0.
Proof.
  unfold window_bytes, window_packets. induction secs as [|s secs IH]; simpl; [done|].
  intros [Hs H]%orb_false_iff. bprop. destruct (IH H) as [-> ->].
  destruct (count_at m s k); [|done]. by destruct Hs.
Qed.

Lemma snap_inv_step cur m secs st s :
  snap_inv cur m secs st → snap_inv cur m (secs ++ [s]) (snap_second cur m st s).
Proof.
  intros [Hf Hr Ht Hb Hp Htb Htp]. unfold snap_second. rewrite bucket_sum_spec.
  set (b := default ∅ (buckets m !! s)).
  assert (∀ k, count_at m s k = b !! k) as Hc by done.
  split; simpl.
  - intros k. rewrite merge_flows_lookup, Hf.
    unfold seen, window_bytes, window_packets. rewrite existsb_app, !map_app, !sumZ_app. simpl.
    rewrite Hc, orb_false_r. fold (seen m secs k) (window_bytes m secs k) (window_packets m secs k).
    destruct (b !! k) as [c|]; simpl.
    + rewrite orb_true_r. destruct (seen m secs k) eqn:E; simpl; unfold sum_count; simpl.
      * by rewrite !u64_add_l, !Z.add_0_r.
      * destruct (seen_false _ _ _ E) as [-> ->]. by rewrite !Z.add_0_r.
    + by rewrite orb_false_r, !Z.add_0_r.
  - intros k. unfold rate_seconds, window_bytes. rewrite List.filter_app. simpl.
    destruct (_ <? s); rewrite ?app_nil_r, ?map_app, ?sumZ_app; [|apply Hr].
    rewrite merge_rate_lookup. simpl. rewrite Hc. fold (rate_seconds cur secs).
    fold (window_bytes m (rate_seconds cur secs) k). rewrite Z.add_0_r.
    destruct (b !! k); simpl; [by rewrite Hr, u64_add_l|by rewrite Hr, Z.add_0_r].
  - by rewrite !map_app, Ht.
  - by rewrite map_app, sumZ_app, Hb, u64_add_l; simpl; rewrite Z.add_0_r.
  - by rewrite map_app, sumZ_app, Hp, u64_add_l; simpl; rewrite Z.add_0_r.
  - by rewrite merge_flows_total, Htb, u64_add_r, u64_eq64.
  - by rewrite merge_flows_total, Htp, u64_add_r, u64_eq64.
Qed.

Lemma snap_inv_foldl cur m secs :
  snap_inv cur m secs (foldl (snap_second cur m) (mkSnap ∅ ∅ [] 0 0) secs).
Proof.
  induction secs as [|s secs IH] using rev_ind; [by split|].
  rewrite foldl_app. by apply snap_inv_step.
Qed.

Lemma window_seconds_elem cur s :
  s ∈ window_seconds cur ↔ cur - trafficWindowSeconds < s ≤ cur.
Proof.
  unfold window_seconds. rewrite list_elem_of_fmap. split.
  - intros (o & -> & H%list_elem_of_In%in_rev%list_elem_of_In%elem_of_seqZ). unfold trafficWindowSeconds in *. lia.
  - intros H. exists (cur - s). split; [lia|].
    rewrite list_elem_of_In, <- in_rev, <- list_elem_of_In, elem_of_seqZ. unfold trafficWindowSeconds in *.
    lia.
Qed.

(** Pruning takes nothing out of the window. *)
Lemma count_at_prune cur m s k :
  s ∈ window_seconds cur → count_at (prune cur m) s k = count_at m s k.
Proof.
  intros [? _]%window_seconds_elem. pose proof (prune_spec cur m) as [Hb _].
  unfold count_at. rewrite Hb. by rewrite (proj2 (Z.leb_gt _ _)).
Qed.

Lemma window_prune cur m secs k :
  (∀ s, s ∈ secs → s ∈ window_seconds cur) →
  window_bytes (prune cur m) secs k = window_bytes m secs k ∧
  window_packets (prune cur m) secs k = window_packets m secs k ∧
  seen (prune cur m) secs k = seen m secs k.
Proof.
  unfold window_bytes, window_packets, seen. induction secs as [|s secs IH]; [done|].
  intros H. simpl. destruct IH as (-> & -> & ->); [intros; apply H; by right|].
  by rewrite !count_at_prune by (apply H; by left).
Qed.
End monitor_lemmas.

(** ** Lemmas: the order of flows *)

Global Instance flow_less_weak : WeakOrder flow_less.
Proof.
  assert (∀ x y, Bool.eqb x y = true ↔ x = y) as Hb by apply Bool.eqb_true_iff.
  unfold flow_less.
  apply (weak_lex Source), (weak_lex Destination), (weak_lex ProtocolNumber),
    (weak_lex (λ f, is_nil (SourcePort f)) Bool.eqb (λ a _, a)),
    (weak_lex (λ f, portValue (SourcePort f))),
    (weak_lex (λ f, is_nil (DestinationPort f)) Bool.eqb (λ a _, a)),
    (weak_lex (λ f, portValue (DestinationPort f))),
    (weak_lex (λ f, is_nil (ICMPType f)) Bool.eqb (λ a _, a)),
    (weak_lex (λ f, byteValue (ICMPType f))),
    (weak_lex (λ f, is_nil (ICMPCode f)) Bool.eqb (λ a _, a)),
    (WeakOrder_ltb (λ f, byteValue (ICMPCode f)));
    try apply _; try apply String.eqb_eq; try apply Z.eqb_eq; try apply Z.ltb_irrefl; done.
Qed.

Global Instance flow_le_total : Total flow_le.
Proof.
  intros a b. unfold flow_le. destruct (flow_less b a) eqn:E; [|by left].
  right. by apply wo_asym.
Qed.
Global Instance flow_le_trans : Transitive flow_le.
Proof. intros a b c H1 H2. by apply (wo_trans a b c). Qed.

Lemma sort_flows_sorted l : StronglySorted flow_le (sort_flows l).
Proof. apply Sorted_StronglySorted; [apply _|]. apply (Sorted_merge_sort _). Qed.
Lemma sort_flows_perm l : sort_flows l ≡ₚ l.
Proof. apply merge_sort_Permutation. Qed.

(** ** Lemmas: what a key depends on *)

Lemma slice_of_take {A} lo hi n (p : list A) : (hi ≤ n)%nat → slice lo hi p = slice lo hi (take n p).
Proof.
  intros. unfold slice. rewrite skipn_firstn_comm, take_take. f_equal. lia.
Qed.

Lemma byte_at_take i n p : (i < n)%nat → byte_at p i = byte_at (take n p) i.
Proof. intros. unfold byte_at. by rewrite lookup_take_lt. Qed.

Lemma key_of_prefix p q n :
  length p = length q → take n p = take n q → (0 < n)%nat →
  Z.land (byte_at p 0) 15 * 4 + 4 ≤ Z.of_nat n →
  trafficKeyFromIPv4 p = trafficKeyFromIPv4 q.
Proof.
  intros Hl Ht Hn Hh. unfold trafficKeyFromIPv4, len. rewrite Hl.
  assert (∀ i, (i < n)%nat → byte_at p i = byte_at q i) as Hb.
  { intros. rewrite (byte_at_take i n p), (byte_at_take i n q) by done. by rewrite Ht. }
  assert (∀ lo hi, (hi ≤ n)%nat → slice lo hi p = slice lo hi q) as Hs.
  { intros. rewrite (slice_of_take _ _ n p), (slice_of_take _ _ n q) by done. by rewrite Ht. }
  rewrite <- (Hb 0%nat) by lia.
  set (hl := Z.land (byte_at p 0) 15 * 4) in *.
  case_match; [done|]. case_match; [done|]. bprop.
  assert (24 ≤ n)%nat by lia.
  rewrite !(Hs 12%nat), !(Hs 16%nat), !(Hs 6%nat), !(Hb 9%nat) by lia.
  case_match; [done|]. case_match.
  - case_match; [|done]. by rewrite !Hs by lia.
  - case_match; [|done]. case_match; [|done]. by rewrite !Hb by lia.
Qed.

(** ** A flush is a run of steps *)

Lemma flushHistory_steps {W} ic t (m m' : TrafficMonitor W) (w w' : W) err d :
  flushHistory ic t m w = (err, m', w') →
  ∃ d', rtc mon_step (mkMonState t m None d) (mkMonState t m' None d') ∧
        (err ≠ None → d' = d).
Proof.
  unfold flushHistory. destruct (flush_collect ic t m) as [[secs recs] m1] eqn:E.
  pose proof (step_flush_begin t m d ic secs recs m1 E) as H1.
  pose proof (step_flush_failed t m1 secs d) as H2.
  destruct (historySink m1) as [sink|].
  2:{ intros [= <- <- <-]. exists d. split; [|done]. eauto using rtc_l, rtc_refl. }
  destruct recs as [|r recs].
  { intros [= <- <- <-]. exists d. split; [|done]. eauto using rtc_l, rtc_refl. }
  destruct (sink (r :: recs) w) as [[e|] w1]; intros [= <- <- <-].
  - exists d. split; [|done]. eauto using rtc_l, rtc_refl.
  - exists (d ++ secs). split; [|done].
    eauto using rtc_l, rtc_refl, step_flush_ok.
Qed.

(** ** Properties *)

(** C21: The monitor's memory is bounded and its reference counts are exact: in
    every state a monitor reaches by observations, snapshots, flushes and their
    interleavings, the count kept for a flow key is the number of seconds whose
    bucket holds it (absent when that is zero), and at most 4096 keys exist. *)
Theorem monitor_refcounts {W} t (st : mon_state W) :
  rtc mon_step (mon_init t) st →
  (∀ k, keys (ms_mon st) !! k = positive (refs (buckets (ms_mon st)) k)) ∧
  (size (keys (ms_mon st)) ≤ maxTrackedFlows)%nat.
Proof. intros [[? ?] _ _ _]%mon_inv_reach. done. Qed.

(** C22: No second's aggregates are written to the history twice: over any run
    of the monitor, with observations between the two lock regions of a flush,
    failing sinks, pruning, and flushes that include the current second, the
    seconds that a sink accepted are all different. *)
Theorem history_exactly_once {W} t (st : mon_state W) :
  rtc mon_step (mon_init t) st → NoDup (ms_delivered st).
Proof. by intros [_ ? _ _]%mon_inv_reach. Qed.

(** A snapshot is exact.  Its series is the last 60 seconds, one point
    each; its totals are the sums of the points and also the sums of the flows
    (modulo the width of the counters); its flows are sorted, and there is
    exactly one per key seen in the window, with the key's bytes and packets
    over the window and the rate of its bytes over the last five seconds. *)
Theorem snapshot_exact {W} t (m : TrafficMonitor W) :
  let sn := fst (Snapshot t m) in
  let secs := window_seconds (Unix t) in
  let recent := rate_seconds (Unix t) secs in
  map ptTimestamp (Series sn) = map OfUnix secs ∧
  snBytes sn = u64 (sumZ (map ptBytes (Series sn))) ∧
  snPackets sn = u64 (sumZ (map ptPackets (Series sn))) ∧
  snBytes sn ≡64 sumZ (map Bytes (Flows sn)) ∧
  snPackets sn ≡64 sumZ (map Packets (Flows sn)) ∧
  StronglySorted flow_le (Flows sn) ∧
  ∃ ks, NoDup ks ∧ (∀ k, k ∈ ks ↔ seen m secs k = true) ∧
    Flows sn ≡ₚ map (λ k, trafficFlow k
      (mkCount (u64 (window_bytes m secs k)) (u64 (window_packets m secs k)))
      (u64 (window_bytes m recent k))) ks.
Proof.
  intros sn secs recent. unfold sn, Snapshot. rewrite Unix_Truncate. cbn [fst Series snBytes
    snPackets Flows].
  set (pm := prune (Unix t) m). fold secs.
  pose proof (snap_inv_foldl (Unix t) pm secs) as [Hf Hr Ht Hb Hp Htb Htp].
  set (st := foldl _ _ _) in *.
  split; [exact Ht|]. split; [exact Hb|]. split; [exact Hp|]. split_and!.
  - rewrite <- Htb, sort_flows_perm, map_map, msum_list. apply reflexive_eq.
    f_equal. apply map_ext. by intros [].
  - rewrite <- Htp, sort_flows_perm, map_map, msum_list. apply reflexive_eq.
    f_equal. apply map_ext. by intros [].
  - apply sort_flows_sorted.
  - exists (map fst (map_to_list (sFlows st))). split_and!.
    + apply NoDup_fst_map_to_list.
    + intros k. rewrite list_elem_of_fmap.
      rewrite <- (proj2 (proj2 (window_prune (Unix t) m secs k (λ _ H, H)))). fold pm.
      specialize (Hf k). split.
      * intros ([k' c] & -> & Hc%elem_of_map_to_list). cbn [fst] in *.
        rewrite Hc in Hf. destruct (seen pm secs k'); [reflexivity|discriminate Hf].
      * intros Hs. rewrite Hs in Hf. eexists (_, _). by rewrite elem_of_map_to_list.
    + rewrite sort_flows_perm, map_map. apply reflexive_eq, map_ext_in.
      intros [k c] Hc%list_elem_of_In%elem_of_map_to_list. cbn [fst].
      rewrite Hr. rewrite Hf in Hc. destruct (seen pm secs k); [|discriminate Hc].
      destruct (window_prune (Unix t) m secs k (λ _ H, H)) as (E1 & E2 & _).
      destruct (window_prune (Unix t) m recent k) as (E3 & _ & _).
      { intros s. unfold recent, rate_seconds. rewrite list_elem_of_In, filter_In.
        rewrite list_elem_of_In. by intros []. }
      unfold pm in *. rewrite E1, E2 in Hc. fold recent. rewrite E3. by simplify_eq.
Qed.

(** The monitor is payload-blind: two packets of the same length that
    agree up to four bytes past the IP header leave it in the same state. *)
Theorem monitor_payload_blind {W} t p q (m : TrafficMonitor W) :
  let n := Z.to_nat (Z.land (byte_at p 0) 15 * 4 + 4) in
  length p = length q → take n p = take n q →
  ObservePacket t p m = ObservePacket t q m.
Proof.
  intros n Hl Ht.
  assert (0 ≤ Z.land (byte_at p 0) 15) by (apply Z.land_nonneg; right; lia).
  unfold ObservePacket, len. rewrite (key_of_prefix p q n) by (done || lia). by rewrite Hl.
Qed.

(** ** Witnesses *)

Definition udp_packet (payload : byte) : list byte :=
  [x45; x00; x00; x1d; x00; x00; x00; x00; x40; x11; x00; x00] ++ ip4 10 90 0 2 ++ ip4 10 90 0 3
  ++ [x00; x35; x00; x36] ++ [payload].

Definition busy_monitor : TrafficMonitor unit :=
  ObservePacket (OfUnix 7) (udp_packet x01) NewTrafficMonitor.

Lemma monitor_refcounts_witness :
  size (keys busy_monitor) = 1%nat ∧
  (∀ k, keys busy_monitor !! k = positive (refs (buckets busy_monitor) k)) ∧
  (size (keys busy_monitor) ≤ maxTrackedFlows)%nat.
Proof.
  split; [vm_compute; reflexivity|].
  apply (monitor_refcounts (OfUnix 7) (mkMonState (OfUnix 7) busy_monitor None [])).
  eapply rtc_l; [apply (step_observe_packet _ _ _ _ (udp_packet x01))|apply rtc_refl].
Defined.

Lemma history_exactly_once_witness :
  let '(seconds, _, m) := flush_collect true (OfUnix 7) busy_monitor in
  seconds = [7] ∧ NoDup seconds.
Proof.
  destruct (flush_collect true (OfUnix 7) busy_monitor) as [[seconds records] m] eqn:E.
  split.
  - change seconds with (fst (fst (seconds, records, m))). rewrite <- E.
    vm_compute. reflexivity.
  - refine (history_exactly_once (OfUnix 7)
      (mkMonState (OfUnix 7) (flush_mark seconds m) None seconds) _).
    eapply rtc_l; [apply (step_observe_packet _ _ _ _ (udp_packet x01))|].
    eapply rtc_l; [apply (step_flush_begin _ _ _ _ _ _ _ E)|].
    eapply rtc_l; [apply (step_flush_ok _ _ _ [])|apply rtc_refl].
Defined.

Lemma monitor_payload_blind_witness :
  size (keys busy_monitor) = 1%nat ∧
  busy_monitor = ObservePacket (OfUnix 7) (udp_packet xff) NewTrafficMonitor.
Proof.
  split; [vm_compute; reflexivity|].
  apply (monitor_payload_blind (OfUnix 7) (udp_packet x01) (udp_packet xff));
    vm_compute; reflexivity.
Defined.
