(* ===== verification/Duration.v ===== *)
(** * Duration: text of durations, as Go's [time] and [strconv] write and read them

    [DurationString] is [Duration.String], [ParseDuration] reads it back; the
    management server keeps its ping interval as such a text and reads the
    lifetime of an enrollment token from one.  The fraction of a number is
    computed in binary64, as Go does. *)
From S2P Require Import Prelude Text Clock Traffic.
From Stdlib Require Import Init.Byte Strings.Byte SpecFloat.

Definition Microsecond : Z := 1000.
Definition in_i64 (z : Z) : Prop := - 2 ^ 63 ≤ z < 2 ^ 63.
Definition i64 (z : Z) : Z := (z + 2 ^ 63) mod 2 ^ 64 - 2 ^ 63.

(** [strconv.FormatInt(n, 10)], [strconv.ParseInt(s, 10, 64)], [strconv.FormatBool]. *)
Definition FormatInt (n : Z) : string := if n <? 0 then "-" +:+ FormatUint (- n) else FormatUint n.
Definition ParseInt (s : string) : Z * option string := Atoi s.
Definition FormatBool (b : bool) : string := if b then "true" else "false".

(** ** Writing *)

(** [fmtFrac]: the digits after the point without trailing zeros, and the rest. *)
Fixpoint fmt_frac (prec : nat) (v : Z) (print : bool) (acc : list byte) : list byte * Z :=
  match prec with
  | O => (if print then x2e :: acc else acc, v)
  | S prec =>
    let d := v mod 10 in
    let print := print || negb (d =? 0) in
    fmt_frac prec (v / 10) print (if print then digit d :: acc else acc)
  end.
Definition frac_unit (prec : nat) (v : Z) (unit : list byte) : list byte :=
  let '(frac, v) := fmt_frac prec v false unit in fmt_dec v ++ frac.

Definition DurationString (d : Z) : string :=
  let u := Z.abs d in
  let l :=
    if u <? Second then
      if u =? 0 then s2b "0s"
      else if u <? Microsecond then frac_unit 0 u (s2b "ns")
      else if u <? Millisecond then frac_unit 3 u [xc2; xb5; x73]
      else frac_unit 6 u (s2b "ms")
    else
      let '(frac, u) := fmt_frac 9 u false (s2b "s") in
      let seconds := fmt_dec (u mod 60) ++ frac in
      let u := u / 60 in
      if 0 <? u then
        let minutes := fmt_dec (u mod 60) ++ s2b "m" ++ seconds in
        let u := u / 60 in
        if 0 <? u then fmt_dec u ++ s2b "h" ++ minutes else minutes
      else seconds in
  b2s (if d <? 0 then x2d :: l else l).

(** ** Reading *)

Definition unit_map (u : list byte) : option Z :=
  if bool_decide (u = s2b "ns") then Some 1
  else if bool_decide (u ∈ [s2b "us"; [xc2; xb5; x73]; [xce; xbc; x73]]) then Some Microsecond
  else if bool_decide (u = s2b "ms") then Some Millisecond
  else if bool_decide (u = s2b "s") then Some Second
  else if bool_decide (u = s2b "m") then Some Minute
  else if bool_decide (u = s2b "h") then Some Hour
  else None.

Fixpoint leadingInt (l : list byte) (x : Z) : option (Z * list byte) :=
  match l with
  | c :: l' =>
    if is_digit c then
      if 2 ^ 63 / 10 <? x then None
      else let x := x * 10 + digit_val c in if 2 ^ 63 <? x then None else leadingInt l' x
    else Some (x, l)
  | [] => Some (x, [])
  end.

Fixpoint leadingFraction (l : list byte) (x : Z) (scale : spec_float) (overflow : bool)
    : Z * spec_float * list byte :=
  match l with
  | c :: l' =>
    if is_digit c then
      if overflow || ((2 ^ 63 - 1) / 10 <? x) then leadingFraction l' x scale true
      else
        let y := x * 10 + digit_val c in
        if 2 ^ 63 <? y then leadingFraction l' x scale true
        else leadingFraction l' y (SFmul 53 1024 scale (f64 10)) false
    else (x, scale, l)
  | [] => (x, scale, [])
  end.

(** [uint64(f)] of a non-negative number in range. *)
Definition trunc (f : spec_float) : Z :=
  match f with
  | S754_finite false m e => if 0 <=? e then Z.pos m * 2 ^ e else Z.pos m / 2 ^ (- e)
  | _ => 0
  end.

(** The bytes up to the next digit or point. *)
Fixpoint take_unit (l : list byte) : list byte * list byte :=
  match l with
  | c :: l' =>
    if bool_decide (c = x2e) || is_digit c then ([], l)
    else let '(u, r) := take_unit l' in (c :: u, r)
  | [] => ([], [])
  end.

(** The optional fraction, and whether it has digits. *)
Definition fraction (l : list byte) : Z * spec_float * list byte * bool :=
  match l with
  | c :: l1 =>
    if bool_decide (c = x2e) then
      let '(f, scale, l2) := leadingFraction l1 0 (f64 1) false in
      (f, scale, l2, negb (bool_decide (length l2 = length l1)))
    else (0, f64 1, l, false)
  | [] => (0, f64 1, l, false)
  end.

(** One number with its unit: its value and the rest. *)
Definition parse_term (l : list byte) : option (Z * list byte) :=
  match l with
  | [] => None
  | c :: _ =>
    if negb (bool_decide (c = x2e) || is_digit c) then None
    else
      match leadingInt l 0 with
      | None => None
      | Some (v, l1) =>
        let pre := negb (bool_decide (length l1 = length l)) in
        let '(f, scale, l2, post) := fraction l1 in
        if negb pre && negb post then None
        else
          let '(u, rest) := take_unit l2 in
          match unit_map u with
          | None => None
          | Some unit =>
            if 2 ^ 63 / unit <? v then None
            else
              let v := v * unit in
              let v := if 0 <? f
                       then v + trunc (SFmul 53 1024 (f64 f) (SFdiv 53 1024 (f64 unit) scale))
                       else v in
              if 2 ^ 63 <? v then None else Some (v, rest)
          end
      end
  end.

(** The loop; every round consumes at least one byte. *)
Fixpoint parse_terms (fuel : nat) (l : list byte) (d : Z) : option Z :=
  match l, fuel with
  | [], _ => Some d
  | _, O => None
  | _, S fuel =>
    match parse_term l with
    | None => None
    | Some (v, rest) =>
      let d := u64 (d + v) in
      if 2 ^ 63 <? d then None else parse_terms fuel rest d
    end
  end.

Definition ParseDuration (s : string) : option Z :=
  let '(neg, l) := split_sign (s2b s) in
  if bool_decide (l = s2b "0") then Some 0
  else if bool_decide (l = []) then None
  else
    match parse_terms (length l) l 0 with
    | None => None
    | Some d => if neg then Some (- d) else if 2 ^ 63 - 1 <? d then None else Some d
    end.

(** ** Lemmas *)

Lemma leadingInt_length l x v r : leadingInt l x = Some (v, r) → (length r ≤ length l)%nat.
Proof.
  revert x. induction l as [|c l IH]; intros x; cbn [leadingInt]; [by intros [= <- <-]|].
  destruct (is_digit c); [|by intros [= <- <-]]. case_match; [done|]. case_match; [done|].
  intros Hl%IH. simpl. lia.
Qed.

Lemma leadingFraction_length l x s o : (length (snd (leadingFraction l x s o)) ≤ length l)%nat.
Proof.
  revert x s o. induction l as [|c l IH]; intros x s o; cbn [leadingFraction]; [done|].
  destruct (is_digit c); [|done]. case_match; [etrans; [apply IH|simpl; lia]|].
  case_match; (etrans; [apply IH|simpl; lia]).
Qed.

Lemma take_unit_length l u r : take_unit l = (u, r) → length l = (length u + length r)%nat.
Proof.
  revert u. induction l as [|c l IH]; intros u; cbn [take_unit]; [by intros [= <- <-]|].
  case_match; [by intros [= <- <-]|]. destruct (take_unit l) as [u' r'].
  intros [= <- <-]. simpl. by rewrite (IH u').
Qed.

Lemma unit_map_nonempty u n : unit_map u = Some n → u ≠ [] ∧ 0 < n.
Proof.
  unfold unit_map, Microsecond, Millisecond, Hour, Minute, Second. intros Hu.
  split; [by intros ->|]. repeat case_match; simplify_eq; lia.
Qed.

Lemma parse_term_shorter l v r : parse_term l = Some (v, r) → (length r < length l)%nat.
Proof.
  unfold parse_term. destruct l as [|c l']; [done|]. set (l := c :: l') in *.
  destruct (negb _); [done|]. destruct (leadingInt l 0) as [[w l1]|] eqn:E1; [|done].
  apply leadingInt_length in E1.
  set (k := fraction l1).
  assert (length (snd (fst k)) ≤ length l1)%nat as Hk.
  { unfold k, fraction. destruct l1 as [|b l1]; [done|]. case_bool_decide; [|done].
    pose proof (leadingFraction_length l1 0 (f64 1) false) as Hf.
    destruct (leadingFraction l1 0 (f64 1) false) as [[f s] l2]. simpl in *. lia. }
  destruct k as [[[f s] l2] post]. simpl in Hk. destruct (_ && _); [done|].
  destruct (take_unit l2) as [u rest] eqn:E2. apply take_unit_length in E2.
  destruct (unit_map u) as [n|] eqn:E3; [|done]. apply unit_map_nonempty in E3 as [Hne _].
  assert (0 < length u)%nat by (destruct u; [done|simpl; lia]).
  repeat case_match; try done; intros [= <- <-]; lia.
Qed.

(** The fuel of [ParseDuration] is enough: more does not change the result. *)
Lemma parse_terms_enough f1 f2 l d :
  (length l ≤ f1)%nat → (length l ≤ f2)%nat → parse_terms f1 l d = parse_terms f2 l d.
Proof.
  revert f2 l d. induction f1 as [|f1 IH]; intros f2 l d H1 H2.
  - destruct l; [|simpl in H1; lia]. by destruct f2.
  - destruct l as [|c l]; [by destruct f2|]. destruct f2 as [|f2]; [simpl in H2; lia|].
    cbn [parse_terms]. destruct (parse_term (c :: l)) as [[v r]|] eqn:E; [|done].
    apply parse_term_shorter in E. simpl in *. case_match; [done|]. apply IH; lia.
Qed.

(** Durations of whole seconds are read back. *)
Definition no_digit (l : list byte) : Prop :=
  match l with c :: _ => is_digit c = false | [] => True end.

Lemma parse_uint_go_ge l x v : parse_uint_go l x = (v, None) → 0 ≤ x → x ≤ v.
Proof.
  revert x. induction l as [|c l IH]; intros x; cbn [parse_uint_go]; [by intros [= <-]|].
  destruct (is_digit c) eqn:Hc; cbn [negb]; [|done]. unfold is_digit, digit_val in *. bprop.
  case_match; [done|]. intros Hp Hx. specialize (IH _ Hp). lia.
Qed.

Lemma leadingInt_app l r x v :
  parse_uint_go l x = (v, None) → 0 ≤ x → v ≤ 2 ^ 63 → no_digit r →
  leadingInt (l ++ r) x = Some (v, r).
Proof.
  revert x. induction l as [|c l IH]; intros x Hp Hx Hv Hr.
  - cbn in Hp. injection Hp as <-. destruct r as [|c r]; [done|]. cbn in *. by rewrite Hr.
  - cbn [parse_uint_go] in Hp. destruct (is_digit c) eqn:Hc; cbn [negb] in Hp; [|done].
    assert (0 ≤ digit_val c) by (unfold is_digit, digit_val in *; bprop; lia).
    destruct (2 ^ 64 <=? x * 10 + digit_val c) eqn:E; [done|].
    pose proof (parse_uint_go_ge _ _ _ Hp ltac:(lia)).
    cbn [app leadingInt]. rewrite Hc.
    rewrite (proj2 (Z.ltb_ge _ _)), (proj2 (Z.ltb_ge _ _)); [|lia|change (2 ^ 63 / 10) with 922337203685477580; lia].
    apply IH; [done|lia|done|done].
Qed.

Lemma take_unit_app u r :
  Forall (λ c, c ≠ x2e ∧ is_digit c = false) u → r = [] ∨ (∃ c k, r = c :: k ∧ is_digit c = true) →
  take_unit (u ++ r) = (u, r).
Proof.
  intros Hu Hr. induction Hu as [|c u [Hc Hd] _ IH].
  - destruct Hr as [->|(c & k & -> & Hc)]; [done|]. cbn. by rewrite Hc, orb_true_r.
  - cbn [app take_unit]. by rewrite bool_decide_eq_false_2, Hd, IH by done.
Qed.

(** One whole number with a unit. *)
Lemma parse_term_int n u c unit r :
  0 ≤ n → n * unit ≤ 2 ^ 63 → unit_map (c :: u) = Some unit → is_digit c = false → c ≠ x2e →
  Forall (λ c, c ≠ x2e ∧ is_digit c = false) u → r = [] ∨ (∃ d k, r = d :: k ∧ is_digit d = true) →
  parse_term (fmt_dec n ++ (c :: u) ++ r) = Some (n * unit, r).
Proof.
  intros Hn Hov Hunit Hc Hdot Hu Hr. destruct (unit_map_nonempty _ _ Hunit) as [_ Hpos].
  pose proof (fmt_dec_nonempty n Hn) as Hne. pose proof (fmt_dec_digits n Hn) as Hdig.
  assert (leadingInt (fmt_dec n ++ (c :: u) ++ r) 0 = Some (n, (c :: u) ++ r)) as Hl.
  { apply leadingInt_app; [apply parse_fmt_dec; nia|done|nia|done]. }
  unfold parse_term. destruct (fmt_dec n) as [|b l] eqn:Ef; [done|].
  cbn [app] in Hl |- *. inversion Hdig as [|? ? Hb _]; subst. rewrite Hb, orb_true_r. cbn [negb].
  rewrite Hl. assert (length (c :: u ++ r) ≠ length (b :: l ++ c :: u ++ r)) as Hlen
    by (repeat (cbn [length] || rewrite length_app); lia).
  rewrite (bool_decide_eq_false_2 (length _ = length _)) by done. cbn [negb andb].
  unfold fraction. rewrite bool_decide_eq_false_2 by done.
  change (c :: u ++ r) with ((c :: u) ++ r). rewrite take_unit_app by (done || by constructor).
  rewrite Hunit, (proj2 (Z.ltb_ge _ _)) by (apply Z.div_le_lower_bound; lia).
  change (0 <? 0) with false. cbn iota. by rewrite (proj2 (Z.ltb_ge _ _)) by done.
Qed.

Lemma fmt_frac_whole prec k acc : fmt_frac prec (k * 10 ^ Z.of_nat prec) false acc = (acc, k).
Proof.
  revert k. induction prec as [|prec IH]; intros k; cbn [fmt_frac]; [f_equal; lia|].
  replace (k * 10 ^ Z.of_nat (S prec)) with (k * 10 ^ Z.of_nat prec * 10)
    by (rewrite Nat2Z.inj_succ, Z.pow_succ_r by lia; lia).
  rewrite Z.mod_mul, Z.div_mul by done. apply IH.
Qed.

Lemma parse_terms_cons f l v r d :
  (length l ≤ S f)%nat → parse_term l = Some (v, r) → 0 ≤ d → 0 ≤ v → d + v ≤ 2 ^ 63 →
  parse_terms (S f) l d = parse_terms f r (d + v).
Proof.
  intros Hl Hp Hd Hv Hs. destruct l as [|c l]; [done|]. cbn [parse_terms]. rewrite Hp.
  rewrite u64_small by (unfold in_u64; lia). by rewrite (proj2 (Z.ltb_ge _ _)).
Qed.

Lemma parse_terms_step l v r d :
  parse_term l = Some (v, r) → 0 ≤ d → 0 ≤ v → d + v ≤ 2 ^ 63 →
  parse_terms (length l) l d = parse_terms (length r) r (d + v).
Proof.
  intros Hp Hd Hv Hs. pose proof (parse_term_shorter _ _ _ Hp) as Hlen.
  destruct (length l) as [|f] eqn:El; [lia|].
  rewrite (parse_terms_cons f l v r) by (done || lia). apply parse_terms_enough; lia.
Qed.

Lemma fmt_dec_head n : 0 ≤ n → ∃ c k, fmt_dec n = c :: k ∧ is_digit c = true.
Proof.
  intros Hn. pose proof (fmt_dec_digits n Hn) as Hd. pose proof (fmt_dec_nonempty n Hn).
  destruct (fmt_dec n) as [|c k]; [done|]. inversion Hd. by exists c, k.
Qed.

(** A text that begins with a digit has no sign and is not "0" alone. *)
Lemma ParseDuration_terms l v :
  (∃ c k, l = c :: k ∧ is_digit c = true) →
  parse_terms (length l) l 0 = Some v → v < 2 ^ 63 → ParseDuration (b2s l) = Some v.
Proof.
  intros (c & k & -> & Hc) Hp Hv. unfold ParseDuration. rewrite s2b_b2s.
  assert (bool_decide (c :: k = s2b "0") = false) as Hz.
  { apply bool_decide_eq_false_2. intros [= -> ->]. vm_compute in Hp. done. }
  assert (split_sign (c :: k) = (false, c :: k)) as Hmt.
  { unfold split_sign. rewrite !bool_decide_eq_false_2; [done|..]; by intros ->. }
  rewrite Hmt, Hz, bool_decide_eq_false_2 by done. rewrite Hp.
  by rewrite (proj2 (Z.ltb_ge _ _)) by lia.
Qed.

Definition seconds_text (s : Z) : list byte := fmt_dec s ++ s2b "s".
Definition minutes_text (m s : Z) : list byte := fmt_dec m ++ s2b "m" ++ seconds_text s.

Lemma text_head n k : 0 ≤ n → ∃ c k', fmt_dec n ++ k = c :: k' ∧ is_digit c = true.
Proof. intros Hn. destruct (fmt_dec_head n Hn) as (c & k' & -> & Hc). by eexists _, _. Qed.

Lemma parse_seconds s d :
  0 ≤ s → 0 ≤ d → d + s * Second ≤ 2 ^ 63 →
  parse_terms (length (seconds_text s)) (seconds_text s) d = Some (d + s * Second).
Proof.
  intros Hs Hd Ho. rewrite (parse_terms_step _ (s * Second) []); [done| |lia|unfold Second; lia|lia].
  apply (parse_term_int s [] x73 Second []); [lia|unfold Second in *; lia|done..|by left].
Qed.

Lemma parse_minutes m s d :
  0 ≤ m → 0 ≤ s → 0 ≤ d → d + m * Minute + s * Second ≤ 2 ^ 63 →
  parse_terms (length (minutes_text m s)) (minutes_text m s) d = Some (d + m * Minute + s * Second).
Proof.
  intros Hm Hs Hd Ho. rewrite (parse_terms_step _ (m * Minute) (seconds_text s));
    [apply parse_seconds; unfold Minute, Second in *; lia| |lia|unfold Minute, Second in *; lia|unfold Minute, Second in *; lia].
  apply (parse_term_int m [] x6d Minute); [lia|unfold Minute, Second in *; lia|done..|right].
  by apply text_head.
Qed.

Lemma ParseDuration_String secs :
  0 ≤ secs → secs * Second < 2 ^ 63 → ParseDuration (DurationString (secs * Second)) = Some (secs * Second).
Proof.
  intros Hs Hov. destruct (decide (secs = 0)) as [->|Hnz]; [by vm_compute|].
  unfold DurationString. rewrite Z.abs_eq by (unfold Second; lia).
  rewrite (proj2 (Z.ltb_ge (secs * Second) Second)), (proj2 (Z.ltb_ge (secs * Second) 0))
    by (unfold Second; lia).
  change (secs * Second) with (secs * 10 ^ Z.of_nat 9) at 1. rewrite fmt_frac_whole.
  pose proof (Z.mod_pos_bound secs 60 ltac:(lia)) as Hm.
  pose proof (Z.div_mod secs 60 ltac:(lia)) as Hdm.
  set (m := secs / 60) in *. set (s := secs mod 60) in *. change (fmt_dec s ++ s2b "s") with (seconds_text s).
  destruct (Z.ltb_spec 0 m) as [Hmp|Hm0]; cycle 1.
  { assert (s = secs) as Es by lia. rewrite <- Es.
    apply ParseDuration_terms; [apply text_head; lia|apply (parse_seconds s 0); lia|lia]. }
  pose proof (Z.mod_pos_bound m 60 ltac:(lia)) as Hm'. pose proof (Z.div_mod m 60 ltac:(lia)) as Hdm'.
  set (h := m / 60) in *. set (mm := m mod 60) in *.
  change (fmt_dec mm ++ s2b "m" ++ seconds_text s) with (minutes_text mm s).
  unfold Hour, Minute, Second in Hov.
  destruct (Z.ltb_spec 0 h) as [Hh|Hh0]; cycle 1.
  { replace (secs * Second) with (0 + mm * Minute + s * Second) by (unfold Minute, Second; lia).
    apply ParseDuration_terms;
      [apply text_head; lia|apply parse_minutes; unfold Minute, Second; lia|unfold Minute, Second; lia]. }
  replace (secs * Second) with (0 + h * Hour + mm * Minute + s * Second) by (unfold Hour, Minute, Second; lia).
  apply ParseDuration_terms; [apply text_head; lia| |unfold Hour, Minute, Second; lia].
  rewrite (parse_terms_step _ (h * Hour) (minutes_text mm s));
    [apply parse_minutes; unfold Hour, Minute, Second; lia| |lia|unfold Hour, Minute, Second; lia..].
  apply (parse_term_int h [] x68 Hour); [lia|unfold Hour, Minute, Second in *; lia|done..|right]. apply text_head; lia.
Qed.
