(* ===== verification/Flags.v ===== *)
(** * Flags: command lines, as Go's [flag] package reads them

    The programs under cmd/ define their options in a [flag.FlagSet] with
    [ContinueOnError].  A flag set is the map from the names to the values, which
    start as the defaults; [Parse] is the loop of [FlagSet.Parse] and [parseOne].
    Reading is by structural recursion on the arguments.

    The help texts and messages that the package prints to standard error are
    left out; its errors are [flag_error]. *)
From S2P Require Import Prelude Text Net Clock Duration.
From Stdlib Require Import Init.Byte Strings.Byte.

(** ** Values of options *)

Inductive flag_value :=
  | VString (s : string) | VBool (b : bool) | VInt (n : Z) | VDuration (d : Z).
Abbreviation FlagSet := (gmap string flag_value).

Inductive flag_error :=
  | ErrHelp
  | BadSyntax (arg : string)
  | NotDefined (name : string)
  | NeedsArgument (name : string)
  | InvalidValue (value name : string).

#[export] Instance flag_value_eq_dec : EqDecision flag_value.
Proof. solve_decision. Defined.
#[export] Instance flag_error_eq_dec : EqDecision flag_error.
Proof. solve_decision. Defined.

(** [strconv.ParseBool]. *)
Definition ParseBool (s : string) : option bool :=
  if bool_decide (s ∈ ["1"; "t"; "T"; "true"; "TRUE"; "True"])%string then Some true
  else if bool_decide (s ∈ ["0"; "f"; "F"; "false"; "FALSE"; "False"])%string then Some false
  else None.

(** [lower] of strconv: [c | ('x' - 'X')]. *)
Definition lower_bit (c : byte) : Z := Z.lor (bZ c) 32.

(** The value of a digit in a base up to 36. *)
Definition digit_in (c : byte) : option Z :=
  if is_digit c then Some (digit_val c)
  else if (97 <=? lower_bit c) && (lower_bit c <=? 122) then Some (lower_bit c - 87)
  else None.

(** The loop of [strconv.ParseUint] in base 0, which lets underscores pass. *)
Fixpoint parse_base (base : Z) (l : list byte) (n : Z) : option Z :=
  match l with
  | [] => Some n
  | c :: l =>
    if bool_decide (c = x5f) then parse_base base l n
    else
      match digit_in c with
      | None => None
      | Some d =>
        if base <=? d then None
        else
          let n1 := n * base + d in
          if 2 ^ 64 <=? n1 then None else parse_base base l n1
      end
  end.

(** The base and the digits after the prefix of [strconv.ParseUint(s, 0, 64)]. *)
Definition base_of (l : list byte) : Z * list byte :=
  match l with
  | z :: c :: r =>
    if bool_decide (z = x30) then
      if bool_decide (r = []) then (8, c :: r)
      else if lower_bit c =? 98 then (2, r)
      else if lower_bit c =? 111 then (8, r)
      else if lower_bit c =? 120 then (16, r)
      else (8, c :: r)
    else (10, l)
  | [z] => if bool_decide (z = x30) then (8, []) else (10, l)
  | [] => (10, [])
  end.

(** [underscoreOK] on a text without sign: underscores separate digits only.
    [saw]: the kind of the last byte. *)
Inductive saw := Start | ADigit | Underscore | Other.
Fixpoint underscores_go (hex : bool) (l : list byte) (i : saw) : bool :=
  match l with
  | [] => match i with Underscore => false | _ => true end
  | c :: l =>
    if is_digit c || (hex && (97 <=? lower_bit c) && (lower_bit c <=? 102))
    then underscores_go hex l ADigit
    else if bool_decide (c = x5f)
    then match i with ADigit => underscores_go hex l Underscore | _ => false end
    else match i with Underscore => false | _ => underscores_go hex l Other end
  end.
Definition underscoreOK (l : list byte) : bool :=
  match l with
  | z :: c :: r =>
    if bool_decide (z = x30) && bool_decide (lower_bit c ∈ [98; 111; 120])
    then underscores_go (lower_bit c =? 120) r ADigit
    else underscores_go false l Start
  | _ => underscores_go false l Start
  end.

(** [strconv.ParseInt(s, 0, 64)]: the number, [None] for an error. *)
Definition ParseInt0 (s : string) : option Z :=
  let '(neg, l) := split_sign (s2b s) in
  if bool_decide (l = []) then None
  else
    let '(base, digits) := base_of l in
    match parse_base base digits 0 with
    | None => None
    | Some un =>
      if has_byte x5f l && negb (underscoreOK l) then None
      else if negb neg && (2 ^ 63 <=? un) then None
      else if neg && (2 ^ 63 <? un) then None
      else Some (if neg then - un else un)
    end.

(** [flag.Value.Set]: the value for the text, of the kind of the old one. *)
Definition Set_ (old : flag_value) (text : string) : option flag_value :=
  match old with
  | VString _ => Some (VString text)
  | VBool _ => VBool <$> ParseBool text
  | VInt _ => VInt <$> ParseInt0 text
  | VDuration _ => VDuration <$> ParseDuration text
  end.

(** ** Arguments *)

(** What an argument is: the first operand, which [keep] leaves in place (the
    terminator goes), an ill-formed flag, or a flag, maybe with its value. *)
Inductive argument :=
  | Operand (keep : bool) | Malformed | Option_ (name : string) (value : option string).

Definition read_argument (s : string) : argument :=
  match s2b s with
  | c :: d :: r =>
    if bool_decide (c = x2d) then
      if bool_decide (d = x2d) && bool_decide (r = []) then Operand false
      else
        let name := if bool_decide (d = x2d) then r else d :: r in
        if bool_decide (head name = Some x2d) || bool_decide (head name = Some x3d) then Malformed
        else
          match cut x3d name with
          | Some (name, value) => Option_ (b2s name) (Some (b2s value))
          | None => Option_ (b2s name) None
          end
    else Operand true
  | _ => Operand true
  end.

(** [f.Parse(args)]: the options' values and [f.Args()]. *)
Fixpoint Parse (fs : FlagSet) (args : list string) : flag_error + (FlagSet * list string) :=
  match args with
  | [] => inr (fs, [])
  | s :: rest =>
    match read_argument s with
    | Operand keep => inr (fs, if keep then args else rest)
    | Malformed => inl (BadSyntax s)
    | Option_ name value =>
      match fs !! name with
      | None => inl (if (name =s "help") || (name =s "h") then ErrHelp else NotDefined name)
      | Some (VBool _ as old) =>
        let text := default "true" value in
        match Set_ old text with
        | Some v => Parse (<[name := v]> fs) rest
        | None => inl (InvalidValue text name)
        end
      | Some old =>
        match value, rest with
        | Some text, _ =>
          match Set_ old text with
          | Some v => Parse (<[name := v]> fs) rest
          | None => inl (InvalidValue text name)
          end
        | None, text :: rest =>
          match Set_ old text with
          | Some v => Parse (<[name := v]> fs) rest
          | None => inl (InvalidValue text name)
          end
        | None, [] => inl (NeedsArgument name)
        end
      end
    end
  end.

(** The values the pointers of [f.String], [f.Bool], [f.Int] and [f.Duration]
    point to. *)
Definition get_string (name : string) (fs : FlagSet) : string :=
  match fs !! name with Some (VString s) => s | _ => "" end.
Definition get_bool (name : string) (fs : FlagSet) : bool :=
  match fs !! name with Some (VBool b) => b | _ => false end.
Definition get_int (name : string) (fs : FlagSet) : Z :=
  match fs !! name with Some (VInt n) => n | _ => 0 end.
Definition get_duration (name : string) (fs : FlagSet) : Z :=
  match fs !! name with Some (VDuration d) => d | _ => 0 end.

(** ** The kinds of the options stay *)

Definition same_kind (v w : flag_value) : Prop :=
  match v, w with
  | VString _, VString _ | VBool _, VBool _ | VInt _, VInt _ | VDuration _, VDuration _ => True
  | _, _ => False
  end.

Lemma Set_kind old text v : Set_ old text = Some v → same_kind old v.
Proof.
  destruct old; cbn; [by intros [= <-]|..]; intros Hv; apply fmap_Some in Hv as (? & _ & ->); done.
Qed.

(** Same options of the same kinds. *)
Definition kinds (fs fs' : FlagSet) : Prop := map_relation (λ _, same_kind) (λ _ _, False) (λ _ _, False) fs fs'.
#[export] Instance same_kind_preorder : PreOrder same_kind.
Proof. split; [by intros []|by intros [] [] []]. Qed.
#[export] Instance kinds_preorder : PreOrder kinds.
Proof.
  split.
  - intros fs k. destruct (fs !! k); cbn; [reflexivity|done].
  - intros a b c H1 H2 k. specialize (H1 k). specialize (H2 k).
    destruct (a !! k), (b !! k), (c !! k); cbn in *; try done. by etrans.
Qed.
Lemma kinds_insert fs name old v : fs !! name = Some old → same_kind old v → kinds fs (<[name := v]> fs).
Proof.
  intros Hf Hk k. destruct (decide (k = name)) as [->|N].
  - by rewrite Hf, lookup_insert_eq.
  - rewrite lookup_insert_ne by done. destruct (fs !! k); cbn; [reflexivity|done].
Qed.

(** The three places where an option is set. *)
Lemma Parse_set (P : FlagSet → list string → Prop) fs name old text args k :
  fs !! name = Some old →
  match Set_ old text with
  | Some v => Parse (<[name := v]> fs) args
  | None => inl (InvalidValue text name)
  end = inr k →
  ∃ v, same_kind old v ∧ Parse (<[name := v]> fs) args = inr k.
Proof.
  intros Hf. destruct (Set_ old text) as [v|] eqn:E; [|done]. intros Hp. exists v.
  split; [by eapply Set_kind|done].
Qed.

(** Parsing keeps the options and their kinds, and leaves a suffix of the
    arguments. *)
Lemma Parse_kinds n fs args fs' rest : (length args ≤ n)%nat →
  Parse fs args = inr (fs', rest) → kinds fs fs' ∧ rest `suffix_of` args.
Proof.
  revert fs args. induction n as [|n IH]; intros fs args Hn.
  { destruct args; [|simpl in Hn; lia]. by intros [= <- <-]. }
  destruct args as [|s args]; [by intros [= <- <-]|]. simpl in Hn. cbn [Parse].
  assert (∀ name old text r, fs !! name = Some old → r `suffix_of` args →
    match Set_ old text with
    | Some v => Parse (<[name := v]> fs) r
    | None => inl (InvalidValue text name)
    end = inr (fs', rest) → kinds fs fs' ∧ rest `suffix_of` s :: args) as Hset.
  { intros name old text r Hf Hr. destruct (Set_ old text) as [v|] eqn:E; [|done]. intros Hp.
    apply IH in Hp as [Hk Hs]; [|pose proof (suffix_length _ _ Hr); lia]. split.
    - etrans; [|exact Hk]. eapply kinds_insert; [done|by eapply Set_kind].
    - etrans; [exact Hs|]. etrans; [exact Hr|]. by apply suffix_cons_r. }
  destruct (read_argument s) as [keep| |name value].
  - intros [= <- <-]. split; [reflexivity|]. destruct keep; [done|by apply suffix_cons_r].
  - done.
  - destruct (fs !! name) as [old|] eqn:Hf; [|done].
    destruct old, value; try (by apply (Hset _ _ _ _ Hf)); destruct args; try done;
      try (by apply (Hset _ _ _ _ Hf)); apply (Hset _ _ _ _ Hf); by apply suffix_cons_r.
Qed.

(** ** Written options are read back *)

(** The argument [--name]. *)
Definition dashed (name : string) : string := "--" +:+ name.

(** A name that [read_argument] takes as it is. *)
Definition plain_name (name : string) : bool :=
  match s2b name with
  | [] => false
  | c :: _ => negb (bool_decide (c = x2d)) && negb (has_byte x3d (s2b name))
  end.

Lemma cut_go_none sep l acc : has_byte sep l = false → cut_go sep l acc = None.
Proof.
  unfold has_byte. revert acc. induction l as [|c l IH]; intros acc; [done|]. intros Hl. bprop.
  cbn [cut_go]. rewrite bool_decide_eq_false_2; [apply IH; apply bool_decide_eq_false_2|];
    set_solver.
Qed.

Lemma read_dashed name : plain_name name = true → read_argument (dashed name) = Option_ name None.
Proof.
  unfold plain_name, read_argument, dashed. rewrite s2b_app. change (s2b "--") with [x2d; x2d].
  cbn [app]. destruct (s2b name) as [|c l] eqn:E; [done|]. intros Hn. bprop.
  rewrite !(bool_decide_eq_true_2 (x2d = x2d)) by done. cbn [andb head].
  rewrite (bool_decide_eq_false_2 (c :: l = [])) by done. cbn iota.
  assert (c ≠ x3d) as Hc.
  { intros ->. unfold has_byte in *. bprop. set_solver. }
  rewrite !bool_decide_eq_false_2 by congruence. cbn [orb].
  unfold cut. rewrite cut_go_none by done. by rewrite <- E, b2s_s2b.
Qed.

(** [--name text], whatever the text. *)
Lemma Parse_value fs name old text v args :
  plain_name name = true → fs !! name = Some old → (∀ b, old ≠ VBool b) → Set_ old text = Some v →
  Parse fs (dashed name :: text :: args) = Parse (<[name := v]> fs) args.
Proof.
  intros Hn Hf Hb Hs. cbn [Parse]. rewrite read_dashed, Hf by done.
  destruct old; rewrite ?Hs; try done. by destruct (Hb b).
Qed.
(** [--name] of a boolean option. *)
Lemma Parse_switch fs name b args :
  plain_name name = true → fs !! name = Some (VBool b) →
  Parse fs (dashed name :: args) = Parse (<[name := VBool true]> fs) args.
Proof. intros Hn Hf. cbn [Parse]. by rewrite read_dashed, Hf. Qed.

(** ** Programs *)

(** The error a program ends with. *)
Inductive failure := FlagFailure (e : flag_error) | Failure (msg : string).

Definition try_parse {A} (fs : FlagSet) (args : list string) (k : FlagSet → list string → failure + A)
    : failure + A :=
  match Parse fs args with
  | inl e => inl (FlagFailure e)
  | inr (fs, rest) => k fs rest
  end.
