(* ===== verification/Database.v ===== *)
(** * Database: the tables of the server's store ([internal/storage])

    The schema of [migrations/001_initial.sql] and [002_flow_history.sql] as a
    record of tables, each a list of rows in the order of their insertion; the
    SQL statements the store executes, with the constraints that SQLite checks
    (primary keys and UNIQUE columns, foreign keys, which [Open] turns on); and
    the monad of the store's methods: a statement that violates a constraint
    changes nothing, a transaction that does not commit changes nothing.

    Times are texts, as the columns are; [BLOB]s are byte lists; the flags
    [disabled] and [revoked] are booleans.  Errors of the disk and of the
    driver, which any statement can have, are not modelled.  The table [roles]
    is what the migration inserts and never changes; [permissions],
    [device_keys] and [traffic_counters] are never used by the code.

    The invariant [db_ok] is what the constraints guarantee; every statement
    keeps it, and with it everything built from statements ([keeps]). *)
From S2P Require Import Prelude Text Clock Calendar.
From Stdlib Require Import Init.Byte Strings.Byte.

(** ** Rows *)

Record user_row := mkUserRow {
  u_id : string; u_username : string; u_hash : string; u_disabled : bool; u_created : string
}.
Record device_row := mkDeviceRow {
  d_id : string; d_user : string; d_name : string; d_ip : string; d_key : list byte;
  d_os : string; d_arch : string; d_version : string; d_revoked : bool;
  d_seen : option string; d_created : string
}.
Record session_row := mkSessionRow {
  s_id : string; s_user : string; s_hash : list byte; s_expires : string; s_created : string
}.
Record token_row := mkTokenRow {
  t_id : string; t_user : string; t_hash : list byte; t_expires : string;
  t_max : Z; t_uses : Z; t_revoked : bool; t_created : string
}.
Record command_row := mkCommandRow {
  c_id : string; c_sender : string; c_device : string; c_type : string; c_status : string;
  c_result : string; c_error : string; c_created : string; c_expires : string
}.
Record result_row := mkResultRow {
  r_id : string; r_command : string; r_status : string; r_result : string; r_created : string
}.
Record audit_row := mkAuditRow {
  a_id : Z; a_actor : string; a_action : string; a_target : string; a_remote : string;
  a_detail : string; a_created : string
}.
Record setting_row := mkSettingRow { k_key : string; k_value : string; k_updated : string }.
Record flow_row := mkFlowRow {
  f_id : Z; f_recorded : string; f_source : string; f_destination : string;
  f_protocol : string; f_number : Z; f_sport : option Z; f_dport : option Z;
  f_itype : option Z; f_icode : option Z; f_bytes : Z; f_packets : Z; f_storage : Z
}.

(** [seq_audit] and [seq_flow] are the AUTOINCREMENT counters. *)
Record db := mkDB {
  users : list user_row; user_roles : list (string * string); devices : list device_row;
  sessions : list session_row; tokens : list token_row; commands : list command_row;
  results : list result_row; audit_logs : list audit_row; settings : list setting_row;
  flow_history : list flow_row; seq_audit : Z; seq_flow : Z
}.

Definition empty_db : db := mkDB [] [] [] [] [] [] [] [] [] [] 0 0.

(** The rows of [roles]: id and name. *)
Definition roles : list (string * string) :=
  [("role_admin", "admin"); ("role_operator", "operator"); ("role_member", "member");
   ("role_viewer", "viewer")].

Definition set_users (l : list user_row) (d : db) : db :=
  mkDB l (user_roles d) (devices d) (sessions d) (tokens d) (commands d) (results d)
    (audit_logs d) (settings d) (flow_history d) (seq_audit d) (seq_flow d).
Definition set_user_roles (l : list (string * string)) (d : db) : db :=
  mkDB (users d) l (devices d) (sessions d) (tokens d) (commands d) (results d)
    (audit_logs d) (settings d) (flow_history d) (seq_audit d) (seq_flow d).
Definition set_devices (l : list device_row) (d : db) : db :=
  mkDB (users d) (user_roles d) l (sessions d) (tokens d) (commands d) (results d)
    (audit_logs d) (settings d) (flow_history d) (seq_audit d) (seq_flow d).
Definition set_sessions (l : list session_row) (d : db) : db :=
  mkDB (users d) (user_roles d) (devices d) l (tokens d) (commands d) (results d)
    (audit_logs d) (settings d) (flow_history d) (seq_audit d) (seq_flow d).
Definition set_tokens (l : list token_row) (d : db) : db :=
  mkDB (users d) (user_roles d) (devices d) (sessions d) l (commands d) (results d)
    (audit_logs d) (settings d) (flow_history d) (seq_audit d) (seq_flow d).
Definition set_commands (l : list command_row) (d : db) : db :=
  mkDB (users d) (user_roles d) (devices d) (sessions d) (tokens d) l (results d)
    (audit_logs d) (settings d) (flow_history d) (seq_audit d) (seq_flow d).
Definition set_results (l : list result_row) (d : db) : db :=
  mkDB (users d) (user_roles d) (devices d) (sessions d) (tokens d) (commands d) l
    (audit_logs d) (settings d) (flow_history d) (seq_audit d) (seq_flow d).
Definition set_audit (l : list audit_row) (n : Z) (d : db) : db :=
  mkDB (users d) (user_roles d) (devices d) (sessions d) (tokens d) (commands d) (results d)
    l (settings d) (flow_history d) n (seq_flow d).
Definition set_settings (l : list setting_row) (d : db) : db :=
  mkDB (users d) (user_roles d) (devices d) (sessions d) (tokens d) (commands d) (results d)
    (audit_logs d) l (flow_history d) (seq_audit d) (seq_flow d).
Definition set_flows (l : list flow_row) (n : Z) (d : db) : db :=
  mkDB (users d) (user_roles d) (devices d) (sessions d) (tokens d) (commands d) (results d)
    (audit_logs d) (settings d) l (seq_audit d) n.

(** ** The monad of the store's methods *)

Definition M (A : Type) : Type := db → result A * db.

Definition ret {A} (a : A) : M A := λ d, (Ok a, d).
Definition fail {A} (e : string) : M A := λ d, (Err e, d).
Definition bind {A B} (m : M A) (k : A → M B) : M B := λ d,
  match m d with
  | (Ok a, d') => k a d'
  | (Err e, d') => (Err e, d')
  end.
(** A query: reads the tables. *)
Definition query {A} (f : db → A) : M A := λ d, (Ok (f d), d).

(** [BeginTx] to [Commit], with the deferred [Rollback]. *)
Definition transaction {A} (m : M A) : M A := λ d,
  match m d with
  | (Ok a, d') => (Ok a, d')
  | (Err e, _) => (Err e, d)
  end.

Notation "'let!' x := m 'in' k" := (bind m (λ x, k))
  (at level 10, x pattern, m at level 100, k at level 200) : tyx_scope.
Notation "'exec' m ; k" := (bind m (λ _, k))
  (at level 10, m at level 100, k at level 200) : tyx_scope.

(** [return ..., err] under a condition, before anything is changed. *)
Notation "'stop_if' c 'with' e ; k" := (if c then fail e else k)
  (at level 10, c at level 100, e at level 100, k at level 200) : tyx_scope.

Definition ErrNoRows : string := "sql: no rows in result set".

(** [QueryRow(...).Scan(...)]: the first row. *)
Definition query_row {A} (f : db → list A) : M A := λ d,
  match f d with [] => (Err ErrNoRows, d) | r :: _ => (Ok r, d) end.

(** Another message in the place of an error; [fmt.Errorf("prefix: %w", err)]. *)
Definition map_err {A} (f : string → string) (m : M A) : M A := λ d,
  match m d with (Err e, d') => (Err (f e), d') | r => r end.
Definition wrap {A} (prefix : string) : M A → M A := map_err (λ e, prefix +:+ ": " +:+ e).
Definition or_fail {A} (e : string) : M A → M A := map_err (λ _, e).
(** A computation outside of the database. *)
Definition lift {A} (r : result A) : M A := λ d, (r, d).

(** ** Constraints *)

Definition err_unique (column : string) : string :=
  "constraint failed: UNIQUE constraint failed: " +:+ column +:+ " (2067)".
Definition err_foreign : string := "constraint failed: FOREIGN KEY constraint failed (787)".

Section statements.
  Context {A K : Type} `{EqDecision K}.

(** Some row has this value in the column [f]. *)
Definition has_value (f : A → K) (v : K) (l : list A) : bool :=
  existsb (λ r, bool_decide (f r = v)) l.
(** [WHERE f = v]. *)
Definition where_is (f : A → K) (v : K) (l : list A) : list A :=
  List.filter (λ r, bool_decide (f r = v)) l.
(** [UPDATE ... SET g WHERE p] and the number of rows it affects. *)
Definition update_where (p : A → bool) (g : A → A) (l : list A) : list A :=
  map (λ r, if p r then g r else r) l.
Definition affected (p : A → bool) (l : list A) : Z := len (List.filter p l).
(** [DELETE ... WHERE p]. *)
Definition delete_where (p : A → bool) (l : list A) : list A := List.filter (λ r, negb (p r)) l.
(** [ORDER BY]. *)
Definition order_by (le : A → A → bool) (l : list A) : list A :=
  @merge_sort A (λ a b, le a b = true) (λ a b, bool_eq_dec (le a b) true) l.
End statements.

(** ** Statements that constraints can refuse *)

Definition insert_user (r : user_row) : M unit := λ d,
  if has_value u_id (u_id r) (users d) then (Err (err_unique "users.id"), d)
  else if has_value u_username (u_username r) (users d) then (Err (err_unique "users.username"), d)
  else (Ok tt, set_users (users d ++ [r]) d).

Definition insert_user_role (user role : string) : M unit := λ d,
  if bool_decide ((user, role) ∈ user_roles d)
  then (Err (err_unique "user_roles.user_id, user_roles.role_id"), d)
  else if has_value u_id user (users d) && has_value fst role roles
  then (Ok tt, set_user_roles (user_roles d ++ [(user, role)]) d)
  else (Err err_foreign, d).

Definition insert_session (r : session_row) : M unit := λ d,
  if has_value s_id (s_id r) (sessions d) then (Err (err_unique "sessions.id"), d)
  else if has_value s_hash (s_hash r) (sessions d)
  then (Err (err_unique "sessions.token_hash"), d)
  else if has_value u_id (s_user r) (users d)
  then (Ok tt, set_sessions (sessions d ++ [r]) d)
  else (Err err_foreign, d).

Definition insert_token (r : token_row) : M unit := λ d,
  if has_value t_id (t_id r) (tokens d) then (Err (err_unique "enrollment_tokens.id"), d)
  else if has_value t_hash (t_hash r) (tokens d)
  then (Err (err_unique "enrollment_tokens.token_hash"), d)
  else if has_value u_id (t_user r) (users d)
  then (Ok tt, set_tokens (tokens d ++ [r]) d)
  else (Err err_foreign, d).

Definition insert_device (r : device_row) : M unit := λ d,
  if has_value d_id (d_id r) (devices d) then (Err (err_unique "devices.id"), d)
  else if has_value d_ip (d_ip r) (devices d) then (Err (err_unique "devices.virtual_ip"), d)
  else if has_value u_id (d_user r) (users d)
  then (Ok tt, set_devices (devices d ++ [r]) d)
  else (Err err_foreign, d).

Definition insert_command (r : command_row) : M unit := λ d,
  if has_value c_id (c_id r) (commands d) then (Err (err_unique "commands.id"), d)
  else if has_value u_id (c_sender r) (users d) && has_value d_id (c_device r) (devices d)
  then (Ok tt, set_commands (commands d ++ [r]) d)
  else (Err err_foreign, d).

Definition insert_result (r : result_row) : M unit := λ d,
  if has_value r_id (r_id r) (results d) then (Err (err_unique "command_results.id"), d)
  else if has_value c_id (r_command r) (commands d)
  then (Ok tt, set_results (results d ++ [r]) d)
  else (Err err_foreign, d).

(** [UPDATE devices SET virtual_ip=? WHERE id=?], and the rows affected. *)
Definition update_device_ip (device ip : string) : M Z := λ d,
  let p r := bool_decide (d_id r = device) in
  if existsb p (devices d)
     && existsb (λ r, bool_decide (d_ip r = ip) && negb (p r)) (devices d)
  then (Err (err_unique "devices.virtual_ip"), d)
  else (Ok (affected p (devices d)),
        set_devices (update_where p (λ r, mkDeviceRow (d_id r) (d_user r) (d_name r) ip (d_key r)
          (d_os r) (d_arch r) (d_version r) (d_revoked r) (d_seen r) (d_created r)) (devices d)) d).

(** [DELETE FROM users WHERE id=?]: refused while other rows refer to the user. *)
Definition delete_user (user : string) : M unit := λ d,
  if has_value u_id user (users d) &&
     (has_value fst user (user_roles d) || has_value d_user user (devices d) ||
      has_value s_user user (sessions d) || has_value t_user user (tokens d) ||
      has_value c_sender user (commands d))
  then (Err err_foreign, d)
  else (Ok tt, set_users (delete_where (λ r, bool_decide (u_id r = user)) (users d)) d).

(** ** Statements without constraints *)

Definition delete_sessions (p : session_row → bool) : M unit := λ d,
  (Ok tt, set_sessions (delete_where p (sessions d)) d).
Definition delete_tokens (p : token_row → bool) : M unit := λ d,
  (Ok tt, set_tokens (delete_where p (tokens d)) d).
Definition delete_user_roles (user : string) : M unit := λ d,
  (Ok tt, set_user_roles (delete_where (λ r, bool_decide (fst r = user)) (user_roles d)) d).
Definition update_users (p : user_row → bool) (g : user_row → user_row) : M Z := λ d,
  (Ok (affected p (users d)), set_users (update_where p g (users d)) d).
Definition update_tokens (p : token_row → bool) (g : token_row → token_row) : M Z := λ d,
  (Ok (affected p (tokens d)), set_tokens (update_where p g (tokens d)) d).
Definition update_devices (p : device_row → bool) (g : device_row → device_row) : M Z := λ d,
  (Ok (affected p (devices d)), set_devices (update_where p g (devices d)) d).
Definition update_commands (p : command_row → bool) (g : command_row → command_row) : M Z := λ d,
  (Ok (affected p (commands d)), set_commands (update_where p g (commands d)) d).

(** [INSERT ... ON CONFLICT(key) DO UPDATE]. *)
Definition upsert_setting (r : setting_row) : M unit := λ d,
  let p x := bool_decide (k_key x = k_key r) in
  (Ok tt, set_settings
    (if existsb p (settings d) then update_where p (λ _, r) (settings d) else settings d ++ [r]) d).

Definition insert_audit (row : Z → audit_row) : M unit := λ d,
  (Ok tt, set_audit (audit_logs d ++ [row (seq_audit d + 1)]) (seq_audit d + 1) d).
Definition insert_flow (row : Z → flow_row) : M unit := λ d,
  (Ok tt, set_flows (flow_history d ++ [row (seq_flow d + 1)]) (seq_flow d + 1) d).
Definition delete_flows (p : flow_row → bool) : M Z := λ d,
  (Ok (affected p (flow_history d)),
   set_flows (delete_where p (flow_history d)) (seq_flow d) d).

(** ** What the constraints guarantee *)

Definition unique {A K} (f : A → K) (l : list A) : Prop := NoDup (map f l).
Definition refers {A B K} (f : A → K) (g : B → K) (l : list A) (l' : list B) : Prop :=
  ∀ r, r ∈ l → f r ∈ map g l'.

Record db_ok (d : db) : Prop := {
  ok_users : unique u_id (users d);
  ok_usernames : unique u_username (users d);
  ok_role_keys : unique id (user_roles d);
  ok_role_users : refers fst u_id (user_roles d) (users d);
  ok_role_roles : refers snd fst (user_roles d) roles;
  ok_devices : unique d_id (devices d);
  ok_ips : unique d_ip (devices d);
  ok_device_users : refers d_user u_id (devices d) (users d);
  ok_sessions : unique s_id (sessions d);
  ok_session_hashes : unique s_hash (sessions d);
  ok_session_users : refers s_user u_id (sessions d) (users d);
  ok_tokens : unique t_id (tokens d);
  ok_token_hashes : unique t_hash (tokens d);
  ok_token_users : refers t_user u_id (tokens d) (users d);
  ok_commands : unique c_id (commands d);
  ok_command_users : refers c_sender u_id (commands d) (users d);
  ok_command_devices : refers c_device d_id (commands d) (devices d);
  ok_results : unique r_id (results d);
  ok_result_commands : refers r_command c_id (results d) (commands d);
  ok_settings : unique k_key (settings d);
  ok_flows : unique f_id (flow_history d);
  ok_flow_seq : ∀ r, r ∈ flow_history d → f_id r ≤ seq_flow d;
  ok_audits : unique a_id (audit_logs d);
  ok_audit_seq : ∀ r, r ∈ audit_logs d → a_id r ≤ seq_audit d
}.

Lemma empty_db_ok : db_ok empty_db.
Proof. split; try apply NoDup_nil_2; intros r H; by apply elem_of_nil in H. Qed.

(** ** Lemmas: tables *)

Section tables.
  Context {A B K : Type} `{EqDecision K}.
  Implicit Types (f : A → K) (g : B → K) (l : list A) (k : list B).

Lemma has_value_true f v l : has_value f v l = true ↔ v ∈ map f l.
Proof.
  unfold has_value. rewrite existsb_exists, list_elem_of_fmap. split.
  - intros (r & Hr%list_elem_of_In & H). bprop. eauto.
  - intros (r & -> & Hr%list_elem_of_In). exists r. by rewrite bool_decide_eq_true_2.
Qed.

Lemma has_value_false f v l : has_value f v l = false ↔ v ∉ map f l.
Proof. rewrite <- (has_value_true f v l). by destruct (has_value f v l). Qed.

Lemma update_where_map f p h l : (∀ r, f (h r) = f r) → map f (update_where p h l) = map f l.
Proof.
  intros H. unfold update_where. rewrite map_map. apply map_ext. intros r. by case_match.
Qed.

Lemma unique_snoc f l r : unique f l → has_value f (f r) l = false → unique f (l ++ [r]).
Proof.
  intros Hl Hr%has_value_false. unfold unique. rewrite map_app. apply NoDup_app.
  split_and!; [done| |apply NoDup_singleton]. intros x Hx ->%list_elem_of_singleton. done.
Qed.

Lemma unique_update f p h l : (∀ r, f (h r) = f r) → unique f l → unique f (update_where p h l).
Proof. intros H Hl. unfold unique. by rewrite update_where_map. Qed.

Lemma unique_delete f p l : unique f l → unique f (delete_where p l).
Proof.
  unfold unique. induction l as [|r l IH]; simpl; [done|].
  intros [Hr Hl]%NoDup_cons. case_match; simpl; [|by apply IH].
  apply NoDup_cons. split; [|by apply IH]. intros Hin. apply Hr.
  apply list_elem_of_fmap in Hin as (x & -> & Hx).
  apply list_elem_of_fmap. exists x. split; [done|].
  apply list_elem_of_In, filter_In in Hx as [Hx _]. by apply list_elem_of_In.
Qed.

Lemma elem_of_delete_where p l r : r ∈ delete_where p l ↔ r ∈ l ∧ p r = false.
Proof.
  unfold delete_where. rewrite list_elem_of_In, filter_In, <- list_elem_of_In.
  by rewrite negb_true_iff.
Qed.

Lemma elem_of_update_where p h l r :
  r ∈ update_where p h l ↔ ∃ r0, r0 ∈ l ∧ r = if p r0 then h r0 else r0.
Proof. unfold update_where. rewrite list_elem_of_fmap. split; intros (? & ? & ?); eauto. Qed.

End tables.

Section tables2.
  Context {A B K : Type} `{EqDecision K}.
  Implicit Types (f : A → K) (g : B → K) (l : list A) (k : list B).

Lemma refers_snoc_l f g l k r :
  refers f g l k → has_value g (f r) k = true → refers f g (l ++ [r]) k.
Proof.
  intros H Hr%has_value_true x [Hx|Hx]%elem_of_app; [by apply H|].
  apply list_elem_of_singleton in Hx as ->. done.
Qed.

Lemma refers_snoc_r f g l k r : refers f g l k → refers f g l (k ++ [r]).
Proof. intros H x Hx. rewrite map_app, elem_of_app. left. by apply H. Qed.

Lemma refers_update_l f g p h l k :
  (∀ r, f (h r) = f r) → refers f g l k → refers f g (update_where p h l) k.
Proof.
  intros Hh H x (r & Hr & ->)%elem_of_update_where. case_match; [rewrite Hh|]; by apply H.
Qed.

Lemma refers_delete_l f g p l k : refers f g l k → refers f g (delete_where p l) k.
Proof. intros H x [Hx _]%elem_of_delete_where. by apply H. Qed.
Lemma refers_update_r f g p h l k :
  (∀ r, g (h r) = g r) → refers f g l k → refers f g l (update_where p h k).
Proof. intros Hh H x Hx. rewrite update_where_map by done. by apply H. Qed.

Lemma refers_delete_r f g v l k :
  (has_value g v k = true → has_value f v l = false) →
  refers f g l k → refers f g l (delete_where (λ r, bool_decide (g r = v)) k).
Proof.
  intros Hv H x Hx. specialize (H x Hx). apply list_elem_of_fmap in H as (r & E & Hr).
  rewrite E. apply list_elem_of_fmap. exists r. split; [done|].
  apply elem_of_delete_where. split; [done|]. apply bool_decide_eq_false. intros Hg.
  assert (has_value g v k = true) as Hk%Hv
    by (apply has_value_true, list_elem_of_fmap; eauto).
  apply has_value_false in Hk. apply Hk, list_elem_of_fmap. exists x. by rewrite E.
Qed.
End tables2.
Global Arguments update_where : simpl never.
Global Arguments delete_where : simpl never.
Global Arguments where_is : simpl never.
Global Arguments has_value : simpl never.
Global Arguments affected : simpl never.

Create HintDb store.
#[export] Hint Resolve unique_snoc unique_update unique_delete refers_snoc_l refers_snoc_r
  refers_update_l refers_update_r refers_delete_l refers_delete_r : store.

(** ** Effects

    [effect R m]: whatever [m] returns, the database before and after it are
    related by [R].  For a preorder [R] it is enough to look at statements. *)
Definition effect {A} (R : relation db) (m : M A) : Prop := ∀ d, R d (snd (m d)).

Section effect.
  Context (R : relation db) `{!PreOrder R} {A B : Type}.
Lemma effect_ret (a : A) : effect R (ret a).
Proof. intros d. reflexivity. Qed.
Lemma effect_fail e : effect R (fail (A := A) e).
Proof. intros d. reflexivity. Qed.
Lemma effect_lift (r : result A) : effect R (lift r).
Proof. intros d. reflexivity. Qed.
Lemma effect_query (f : db → A) : effect R (query f).
Proof. intros d. reflexivity. Qed.
Lemma effect_query_row (f : db → list A) : effect R (query_row f).
Proof. intros d. unfold query_row. case_match; reflexivity. Qed.
Lemma effect_bind (m : M A) (k : A → M B) :
  effect R m → (∀ a, effect R (k a)) → effect R (bind m k).
Proof.
  intros Hm Hk d. unfold bind. specialize (Hm d). destruct (m d) as [[a|e] d']; [|done].
  etrans; [exact Hm|apply Hk].
Qed.
Lemma effect_transaction (m : M A) : effect R m → effect R (transaction m).
Proof.
  intros Hm d. unfold transaction. specialize (Hm d). destruct (m d) as [[a|e] d']; [done|].
  reflexivity.
Qed.
Lemma effect_map_err f (m : M A) : effect R m → effect R (map_err f m).
Proof. intros Hm d. unfold map_err. specialize (Hm d). by destruct (m d) as [[a|e] d']. Qed.
End effect.

(** Decomposes an operation into its statements; [tac] is for those. *)
Ltac effect_tac tac :=
  repeat first
    [ apply effect_bind; [apply _| |intros ?]
    | apply effect_transaction; [apply _|]
    | apply effect_map_err
    | apply effect_lift; apply _
    | apply effect_ret; apply _
    | apply effect_fail; apply _
    | apply effect_query; apply _
    | apply effect_query_row; apply _
    | tac
    | case_match ].

(** ** Everything built from statements keeps the invariant *)

Definition preserved (d d' : db) : Prop := db_ok d → db_ok d'.
Global Instance preserved_preorder : PreOrder preserved.
Proof. split; [by intros ? ?|]. intros ? ? ? H1 H2 H. by apply H2, H1. Qed.

Definition keeps {A} (m : M A) : Prop := effect preserved m.

(** A statement: every branch changes one table. *)
Ltac stmt := intros d [];
  repeat match goal with |- context [snd (if ?c then _ else _)] => destruct c eqn:? end;
  bprop; split; simpl; eauto with store.

Lemma keeps_insert_user r : keeps (insert_user r).
Proof. unfold insert_user. stmt. Qed.
Lemma keeps_insert_session r : keeps (insert_session r).
Proof. unfold insert_session. stmt. Qed.
Lemma keeps_insert_token r : keeps (insert_token r).
Proof. unfold insert_token. stmt. Qed.
Lemma keeps_insert_device r : keeps (insert_device r).
Proof. unfold insert_device. stmt. Qed.
Lemma keeps_insert_command r : keeps (insert_command r).
Proof. unfold insert_command. stmt. Qed.
Lemma keeps_insert_result r : keeps (insert_result r).
Proof. unfold insert_result. stmt. Qed.

Lemma keeps_insert_user_role u r : keeps (insert_user_role u r).
Proof.
  unfold insert_user_role. stmt.
  - unfold unique in *. rewrite map_id in *. apply NoDup_app.
    split_and!; [done| |apply NoDup_singleton]. by intros x Hx ->%list_elem_of_singleton.
Qed.

Lemma keeps_delete_sessions p : keeps (delete_sessions p).
Proof. unfold delete_sessions. stmt. Qed.
Lemma keeps_delete_tokens p : keeps (delete_tokens p).
Proof. unfold delete_tokens. stmt. Qed.
Lemma keeps_delete_user_roles u : keeps (delete_user_roles u).
Proof. unfold delete_user_roles. stmt. Qed.

Lemma keeps_delete_user u : keeps (delete_user u).
Proof.
  unfold delete_user. stmt;
  match goal with H : _ && _ = false |- _ => apply andb_false_iff in H end;
  apply refers_delete_r; try done; intros Hu; destruct_or!; bprop; congruence.
Qed.

Lemma keeps_update_users p g :
  (∀ r, u_id (g r) = u_id r ∧ u_username (g r) = u_username r) → keeps (update_users p g).
Proof.
  intros Hg. assert (∀ r, u_id (g r) = u_id r) by apply Hg.
  assert (∀ r, u_username (g r) = u_username r) by apply Hg. unfold update_users. stmt.
Qed.
Lemma keeps_update_tokens p g :
  (∀ r, t_id (g r) = t_id r ∧ t_hash (g r) = t_hash r ∧ t_user (g r) = t_user r) →
  keeps (update_tokens p g).
Proof.
  intros Hg. assert (∀ r, t_id (g r) = t_id r) by apply Hg.
  assert (∀ r, t_hash (g r) = t_hash r) by apply Hg.
  assert (∀ r, t_user (g r) = t_user r) by apply Hg. unfold update_tokens. stmt.
Qed.
Lemma keeps_update_devices p g :
  (∀ r, d_id (g r) = d_id r ∧ d_ip (g r) = d_ip r ∧ d_user (g r) = d_user r) →
  keeps (update_devices p g).
Proof.
  intros Hg. assert (∀ r, d_id (g r) = d_id r) by apply Hg.
  assert (∀ r, d_ip (g r) = d_ip r) by apply Hg.
  assert (∀ r, d_user (g r) = d_user r) by apply Hg. unfold update_devices. stmt.
Qed.
Lemma keeps_update_commands p g :
  (∀ r, c_id (g r) = c_id r ∧ c_sender (g r) = c_sender r ∧ c_device (g r) = c_device r) →
  keeps (update_commands p g).
Proof.
  intros Hg. assert (∀ r, c_id (g r) = c_id r) by apply Hg.
  assert (∀ r, c_sender (g r) = c_sender r) by apply Hg.
  assert (∀ r, c_device (g r) = c_device r) by apply Hg. unfold update_commands. stmt.
Qed.

Lemma unique_map_nodup {A K} (f : A → K) l x y :
  unique f l → x ∈ l → y ∈ l → f x = f y → x = y.
Proof.
  unfold unique. induction l as [|r l IH]; simpl; [by intros _ ?%elem_of_nil|].
  intros [Hr Hl]%NoDup_cons [->|Hx]%elem_of_cons [->|Hy]%elem_of_cons E; [done|..|by apply IH];
    destruct Hr; apply list_elem_of_fmap; eauto.
Qed.

(** Setting a unique column of the one row with a given key. *)
Lemma unique_set {A K V} `{EqDecision K} (key : A → K) (f : A → V) (h : A → A) k v l :
  unique key l → unique f l → (∀ r, f (h r) = v) →
  (k ∈ map key l → ∀ x, x ∈ l → key x ≠ k → f x ≠ v) →
  unique f (update_where (λ r, bool_decide (key r = k)) h l).
Proof.
  unfold unique. intros Hkey Hf Hh. induction l as [|r l IH]; [done|]. cbn [map]. intros Hv.
  cbn [map] in Hkey, Hf.
  apply NoDup_cons in Hkey as [Hrk Hkey], Hf as [Hrf Hf].
  apply NoDup_cons. split.
  - intros (x & E & (y & Hy & ->)%elem_of_update_where)%list_elem_of_fmap.
    case_bool_decide as Er; case_bool_decide as Ey.
    + apply Hrk, list_elem_of_fmap. exists y. by rewrite Er.
    + rewrite Hh in E. apply (Hv ltac:(rewrite <- Er; by left) y); [by right|done|done].
    + rewrite Hh in E. assert (k ∈ map key l) by (apply list_elem_of_fmap; eauto).
      apply (Hv ltac:(by right) r); [by left|done|done].
    + apply Hrf, list_elem_of_fmap. eauto.
  - apply IH; [done..|]. intros Hin x Hx. refine (Hv _ x _); by right.
Qed.

Lemma keeps_update_device_ip dev ip : keeps (update_device_ip dev ip).
Proof.
  unfold update_device_ip. stmt.
  apply (unique_set d_id d_ip _ _ ip); [done..|]. intros Hin x Hx Hne E.
  match goal with H : _ && _ = false |- _ => apply andb_false_iff in H as [H|H] end.
  - apply list_elem_of_fmap in Hin as (y & -> & Hy%list_elem_of_In).
    assert (existsb (λ r, bool_decide (d_id r = d_id y)) (devices d) = true); [|congruence].
    apply existsb_exists. exists y. by rewrite bool_decide_eq_true_2.
  - apply list_elem_of_In in Hx.
    assert (existsb (λ r, bool_decide (d_ip r = ip) && negb (bool_decide (d_id r = dev)))
      (devices d) = true); [|congruence].
    apply existsb_exists. exists x. by rewrite bool_decide_eq_true_2, bool_decide_eq_false_2.
Qed.

Lemma keeps_upsert_setting r : keeps (upsert_setting r).
Proof.
  unfold upsert_setting. intros d []; split; simpl; eauto with store.
  destruct (existsb _ _) eqn:E.
  - by apply (unique_set k_key k_key _ _ (k_key r)).
  - apply unique_snoc; [done|]. exact E.
Qed.

Lemma unique_next {A} (f : A → Z) l n r :
  unique f l → (∀ x, x ∈ l → f x ≤ n) → f r = n + 1 → unique f (l ++ [r]).
Proof.
  intros Hl Hn Hr. apply unique_snoc; [done|]. apply has_value_false.
  intros (x & E & Hx)%list_elem_of_fmap. specialize (Hn x Hx). lia.
Qed.

Lemma keeps_insert_audit row : (∀ n, a_id (row n) = n) → keeps (insert_audit row).
Proof.
  intros Hn. unfold insert_audit. stmt; [by eapply unique_next|].
  intros r [Hr|Hr]%elem_of_app; [by etrans; [by auto|lia]|].
  apply list_elem_of_singleton in Hr as ->. rewrite Hn. lia.
Qed.
Lemma keeps_insert_flow row : (∀ n, f_id (row n) = n) → keeps (insert_flow row).
Proof.
  intros Hn. unfold insert_flow. stmt; [by eapply unique_next|].
  intros r [Hr|Hr]%elem_of_app; [by etrans; [by auto|lia]|].
  apply list_elem_of_singleton in Hr as ->. rewrite Hn. lia.
Qed.
Lemma keeps_delete_flows p : keeps (delete_flows p).
Proof.
  unfold delete_flows. stmt. intros r [Hr _]%elem_of_delete_where. auto.
Qed.

#[export] Hint Resolve keeps_insert_user keeps_insert_user_role keeps_insert_session
  keeps_insert_token keeps_insert_device keeps_insert_command keeps_insert_result
  keeps_delete_sessions keeps_delete_tokens keeps_delete_user_roles keeps_delete_user
  keeps_update_device_ip keeps_upsert_setting keeps_delete_flows : store.
#[export] Hint Extern 1 (keeps (update_users _ _)) => apply keeps_update_users; done : store.
#[export] Hint Extern 1 (keeps (update_tokens _ _)) => apply keeps_update_tokens; done : store.
#[export] Hint Extern 1 (keeps (update_devices _ _)) => apply keeps_update_devices; done : store.
#[export] Hint Extern 1 (keeps (update_commands _ _)) => apply keeps_update_commands; done : store.
#[export] Hint Extern 1 (keeps (insert_audit _)) => apply keeps_insert_audit; done : store.
#[export] Hint Extern 1 (keeps (insert_flow _)) => apply keeps_insert_flow; done : store.

(** An operation composed of statements. *)
Ltac keeps_tac :=
  unfold keeps;
  effect_tac ltac:(match goal with |- effect preserved ?m => change (keeps m) end;
                   solve [eauto with store]).

(** Opens the statements of an operation on a given database. *)
Ltac run_stmt := cbv beta delta [bind ret fail query query_row lift transaction map_err wrap or_fail
  insert_user insert_user_role insert_session insert_token insert_device insert_command
  insert_result update_device_ip delete_user delete_sessions delete_tokens delete_user_roles
  update_users update_tokens update_devices update_commands upsert_setting insert_audit
  insert_flow delete_flows].
(** A statement that does not touch what [R] looks at. *)
Ltac untouched := solve [intros ?; run_stmt; cbv zeta; repeat case_match; by (try split)].
