(* ===== verification/Accounts.v ===== *)
(** * Accounts: users, sessions, enrollment tokens, settings and the audit log
    ([internal/storage/store.go])

    The methods of the store that concern accounts, over the tables of
    [Database].  The random bytes and every reading of the clock are arguments,
    in the order in which the code draws them; a failing source of randomness
    is [None] where the code looks at its error. *)
From S2P Require Import Prelude Text Clock Calendar Crypto Database.
From Stdlib Require Import Init.Byte Strings.Byte.

(** ** Data *)

Record User := mkUser {
  ID : string; Username : string; Role : string; Disabled : bool; CreatedAt : Z
}.
Record Token := mkToken {
  tID : string; tUserID : string; tExpiresAt : Z; MaxUses : Z; Uses : Z; tRevoked : bool;
  tCreatedAt : Z
}.
Record AuditLog := mkAuditLog {
  aID : Z; ActorID : string; Action : string; TargetID : string; RemoteIP : string;
  Detail : string; aCreatedAt : Z
}.

(** [id(prefix)] on the ten random bytes it draws. *)
Definition new_id (prefix : string) (rnd : list byte) : string :=
  prefix +:+ "_" +:+ lower (b2s (b32_encode rnd)).
Definition TokenValue (rnd : option (list byte)) : result string :=
  match rnd with
  | None => Err "random source failed"
  | Some b =>
    let raw := b32_encode b in
    Ok ("TYX-" +:+ b2s (slice 0 4 raw) +:+ "-" +:+ b2s (slice 4 8 raw) +:+ "-" +:+ b2s (drop 8 raw))
  end.

(** The map [roles] of [CreateUser] and [UpdateUser]. *)
Definition role_id (role : string) : option string :=
  if role =s "admin" then Some "role_admin"
  else if role =s "operator" then Some "role_operator"
  else if role =s "member" then Some "role_member"
  else if role =s "viewer" then Some "role_viewer"
  else None.

(** [LEFT JOIN user_roles LEFT JOIN roles] on a user, with
    [COALESCE(r.name,'member')]. *)
Definition role_names (d : db) (user : string) : list string :=
  match where_is fst user (user_roles d) with
  | [] => ["member"]
  | l => map (λ r, default "member" (snd <$> head (where_is fst (snd r) roles))) l
  end.
Definition user_join (d : db) (l : list user_row) : list (user_row * string) :=
  concat (map (λ u, map (pair u) (role_names d (u_id u))) l).

Section accounts.
  Context `{Primitives}.

Definition hash (v : string) : list byte := sha256 (s2b v).

(** ** Users *)

Definition CreateAdmin (rnd : list byte) (now : Z) (username passwordHash : string) : M User :=
  let u := mkUser (new_id "usr" rnd) username "admin" false now in
  transaction (
    exec wrap "create user"
      (insert_user (mkUserRow (ID u) (Username u) passwordHash false (FormatRFC3339Nano now)));
    exec insert_user_role (ID u) "role_admin";
    ret u).

Definition CreateInitialAdmin (rnd : list byte) (now : Z) (username passwordHash : string)
    : M User :=
  transaction (
    let! count := query (λ d, len (users d)) in
    stop_if negb (count =? 0) with "initial setup is already complete";
    let u := mkUser (new_id "usr" rnd) username "admin" false now in
    exec wrap "create initial admin"
      (insert_user (mkUserRow (ID u) (Username u) passwordHash false (FormatRFC3339Nano now)));
    exec insert_user_role (ID u) "role_admin";
    ret u).

Definition UserCount : M Z := query (λ d, len (users d)).

Definition Authenticate (username : string) : M (User * string) :=
  let! (u, role) := query_row (λ d, user_join d (where_is u_username username (users d))) in
  ret (mkUser (u_id u) (u_username u) role (u_disabled u) (ParseTime (u_created u)), u_hash u).

Definition Users : M (list User) :=
  query (λ d, map (λ '(u, role),
      mkUser (u_id u) (u_username u) role (u_disabled u) (ParseTime (u_created u)))
    (order_by (λ a b, text_le (u_username (fst a)) (u_username (fst b)))
       (user_join d (users d)))).

Definition CreateUser (rnd : list byte) (now : Z) (username passwordHash role : string) : M User :=
  match role_id role with
  | None => fail "invalid role"
  | Some roleID =>
    let u := mkUser (new_id "usr" rnd) username role false now in
    transaction (
      exec insert_user (mkUserRow (ID u) (Username u) passwordHash false (FormatRFC3339Nano now));
      exec insert_user_role (ID u) roleID;
      ret u)
  end.

(** The transaction of [DeleteUser], after the count of the user's devices. *)
Definition DeleteUser_tx (userID : string) : M unit :=
  transaction (
    exec delete_sessions (λ r, bool_decide (s_user r = userID));
    exec delete_tokens (λ r, bool_decide (t_user r = userID));
    exec delete_user_roles userID;
    delete_user userID).
Definition DeleteUser (userID : string) : M unit :=
  let! n := query (λ d, len (where_is d_user userID (devices d))) in
  stop_if 0 <? n with "user still owns devices";
  DeleteUser_tx userID.

Definition UpdateUser (userID : string) (disabled : bool) (role : string) : M unit :=
  match role_id role with
  | None => fail "invalid role"
  | Some roleID =>
    transaction (
      let! n := update_users (λ r, bool_decide (u_id r = userID))
                  (λ r, mkUserRow (u_id r) (u_username r) (u_hash r) disabled (u_created r)) in
      stop_if negb (n =? 1) with ErrNoRows;
      exec delete_user_roles userID;
      insert_user_role userID roleID)
  end.

Definition UpdateUserPassword (userID passwordHash : string) : M unit :=
  transaction (
    let! n := update_users (λ r, bool_decide (u_id r = userID))
                (λ r, mkUserRow (u_id r) (u_username r) passwordHash (u_disabled r) (u_created r)) in
    stop_if negb (n =? 1) with ErrNoRows;
    delete_sessions (λ r, bool_decide (s_user r = userID))).

(** ** Sessions *)

Definition CreateSession (rndToken : option (list byte)) (rndID : list byte) (now1 now2 : Z)
    (userID : string) (ttl : Z) : M string :=
  let! v := lift (TokenValue rndToken) in
  exec insert_session (mkSessionRow (new_id "ses" rndID) userID (hash v)
    (FormatRFC3339Nano (now1 + ttl)) (FormatRFC3339Nano now2));
  ret v.

(** The rows of [sessions JOIN users LEFT JOIN user_roles LEFT JOIN roles]. *)
Definition session_join (d : db) (h : list byte) : list (session_row * (user_row * string)) :=
  concat (map (λ s, map (pair s) (user_join d (where_is u_id (s_user s) (users d))))
    (where_is s_hash h (sessions d))).

Definition SessionUser (now : Z) (v : string) : M User :=
  let! (s, (u, role)) := query_row (λ d, session_join d (hash v)) in
  let t := ParseTime (s_expires s) in
  stop_if u_disabled u || After now t with "session expired or disabled";
  ret (mkUser (u_id u) (u_username u) role false (ParseTime (u_created u))).

Definition DeleteSession (v : string) : M unit :=
  delete_sessions (λ r, bool_decide (s_hash r = hash v)).

(** ** Enrollment tokens *)

Definition CreateEnrollmentToken (rndToken : option (list byte)) (rndID : list byte)
    (now1 now2 : Z) (userID : string) (ttl maxUses : Z) : M (Token * string) :=
  stop_if (ttl <=? 0) || (maxUses <? 1) with "invalid token constraints";
  let! v := lift (TokenValue rndToken) in
  let t := mkToken (new_id "tok" rndID) userID (now1 + ttl) maxUses 0 false now2 in
  exec insert_token (mkTokenRow (tID t) (tUserID t) (hash v) (FormatRFC3339Nano (tExpiresAt t))
    (MaxUses t) 0 false (FormatRFC3339Nano (tCreatedAt t)));
  ret (t, v).

Definition ListTokens : M (list Token) :=
  query (λ d, map (λ r, mkToken (t_id r) (t_user r) (ParseTime (t_expires r)) (t_max r) (t_uses r)
      (t_revoked r) (ParseTime (t_created r)))
    (order_by (λ a b, text_le (t_created b) (t_created a)) (tokens d))).

Definition RevokeToken (tokenID : string) : M unit :=
  exec update_tokens (λ r, bool_decide (t_id r = tokenID))
    (λ r, mkTokenRow (t_id r) (t_user r) (t_hash r) (t_expires r) (t_max r) (t_uses r) true
            (t_created r));
  ret tt.

Definition use_token (r : token_row) : token_row :=
  mkTokenRow (t_id r) (t_user r) (t_hash r) (t_expires r) (t_max r) (t_uses r + 1) (t_revoked r)
    (t_created r).

Definition ConsumeToken (now : Z) (value : string) : M string :=
  transaction (
    let! t := or_fail "invalid enrollment token"
                (query_row (λ d, where_is t_hash (hash value) (tokens d))) in
    let expires := ParseTime (t_expires t) in
    stop_if t_revoked t || After now expires || (t_max t <=? t_uses t)
      with "enrollment token expired, revoked, or exhausted";
    let! n := update_tokens (λ r, bool_decide (t_id r = t_id t) && (t_uses r =? t_uses t))
                use_token in
    stop_if negb (n =? 1) with "token concurrently consumed";
    ret (t_user t)).
End accounts.

(** ** Settings *)

Definition Setting (key : string) : M string :=
  query_row (λ d, map k_value (where_is k_key key (settings d))).

Definition SetSetting (now : Z) (key value : string) : M unit :=
  upsert_setting (mkSettingRow key value (FormatRFC3339Nano now)).

(** The loop of [SetSettings] over its map. *)
Fixpoint set_all (now : Z) (values : list (string * string)) : M unit :=
  match values with
  | [] => ret tt
  | (key, value) :: values => exec SetSetting now key value; set_all now values
  end.
Definition SetSettings (now : Z) (values : gmap string string) : M unit :=
  transaction (set_all now (map_to_list values)).

(** ** The audit log *)

Definition Audit (now : Z) (actor action target remoteIP detail : string) : M unit :=
  insert_audit (λ n, mkAuditRow n actor action target remoteIP detail (FormatRFC3339Nano now)).

(** [if limit < 1 || limit > hi { limit = dflt }]. *)
Definition clamp (limit hi dflt : Z) : Z := if (limit <? 1) || (hi <? limit) then dflt else limit.

Definition ListAudit (limit : Z) : M (list AuditLog) :=
  query (λ d, map (λ r, mkAuditLog (a_id r) (a_actor r) (a_action r) (a_target r) (a_remote r)
      (a_detail r) (ParseTime (a_created r)))
    (take (Z.to_nat (clamp limit 500 100))
       (order_by (λ a b, a_id b <=? a_id a) (audit_logs d)))).
