(* ===== verification/Devices.v ===== *)
(** * Devices: the address allocation and the devices of the store
    ([internal/storage/store.go])

    [nextIP] walks the network from the second address after the one in the
    CIDR text; [JoinDevice] consumes a token, asks for an address and inserts
    the device, three separate accesses to the database between which other
    requests can run ([JoinDevice_insert] is the last one). *)
From S2P Require Import Prelude Text Net Clock Calendar Crypto Database.
From S2P Require Import Accounts.
From Stdlib Require Import Init.Byte Strings.Byte.

(** ** Data *)

Record Device := mkDevice {
  dID : string; dUserID : string; dName : string; VirtualIP : string;
  OS : string; Arch : string; dVersion : string; Revoked : bool; Online : bool;
  LastSeen : option Z; dCreatedAt : Z
}.

(** ** Addresses *)

(** [inc]: the bytes from the last one, as long as they wrap around. *)
Fixpoint inc_rev (l : list byte) : list byte :=
  match l with
  | [] => []
  | b :: l =>
    let b := Zb (u8 (bZ b + 1)) in
    if bZ b =? 0 then b :: inc_rev l else b :: l
  end.
Definition inc (ip : list byte) : list byte := rev (inc_rev (rev ip)).

Definition err_exhausted : string := "virtual network exhausted".

(** The loop of [nextIP]; [used] are the addresses of all devices. *)
Fixpoint next_go (fuel : nat) (n : IPNet) (used : list string) (ip : list byte) : result string :=
  match fuel with
  | O => Err err_exhausted
  | S fuel =>
    let ip := inc ip in
    if negb (Contains n ip) then Err err_exhausted
    else if default 0 (bZ <$> ip !! 3%nat) =? 255 then next_go fuel n used ip
    else if negb (bool_decide (ip_string ip ∈ used)) then Ok (ip_string ip)
    else next_go fuel n used ip
  end.

(** [1<<20] rounds. *)
Definition next_rounds : nat := Z.to_nat (2 ^ 20).

Definition nextIP (network : string) : M string :=
  match ParseCIDR network with
  | None => fail ("invalid CIDR address: " +:+ network)
  | Some (ipnetIP, n) =>
    let! used := query (λ d, map d_ip (devices d)) in
    lift (next_go next_rounds n used (inc (To4 ipnetIP)))
  end.

Section devices.
  Context `{Primitives}.

(** ** Joining *)

Definition JoinDevice_insert (rnd : list byte) (now : Z)
    (userID vip name osName arch version : string) (publicKey : list byte) : M Device :=
  let d := mkDevice (new_id "dev" rnd) userID name vip osName arch version false false None now in
  exec insert_device (mkDeviceRow (dID d) (dUserID d) (dName d) (VirtualIP d) publicKey (OS d)
    (Arch d) (dVersion d) false None (FormatRFC3339Nano (dCreatedAt d)));
  ret d.

Definition JoinDevice (rnd : list byte) (now1 now2 : Z)
    (token name osName arch version network : string) (publicKey : list byte) : M Device :=
  let! userID := ConsumeToken now1 token in
  let! vip := nextIP network in
  JoinDevice_insert rnd now2 userID vip name osName arch version publicKey.
End devices.

(** ** Reading *)

Definition device_of (r : device_row) : Device :=
  mkDevice (d_id r) (d_user r) (d_name r) (d_ip r) (d_os r) (d_arch r) (d_version r) (d_revoked r)
    false (ParseTime <$> d_seen r) (ParseTime (d_created r)).
Definition listDevices (p : device_row → bool) : M (list Device) :=
  query (λ d, map device_of
    (order_by (λ a b, text_le (d_created a) (d_created b)) (List.filter p (devices d)))).
Definition ListDevices : M (list Device) := listDevices (λ _, true).
Definition ListDevicesByUser (userID : string) : M (list Device) :=
  listDevices (λ r, bool_decide (d_user r = userID)).
Definition GetDevice (deviceID : string) : M Device :=
  let! l := listDevices (λ r, bool_decide (d_id r = deviceID)) in
  match l with [r] => ret r | _ => fail ErrNoRows end.

Definition DevicePublicKey (deviceID : string) : M (list byte) :=
  let! r := query_row (λ d, where_is d_id deviceID (devices d)) in
  stop_if d_revoked r with "device revoked";
  ret (d_key r).

(** ** Changing *)

Definition RevokeDevice (deviceID : string) : M unit :=
  exec update_devices (λ r, bool_decide (d_id r = deviceID))
    (λ r, mkDeviceRow (d_id r) (d_user r) (d_name r) (d_ip r) (d_key r) (d_os r) (d_arch r)
            (d_version r) true (d_seen r) (d_created r));
  ret tt.

Definition RenameDevice (deviceID name : string) : M unit :=
  stop_if (TrimSpace name =s "") || (128 <? slen name)
    with "device name must be between 1 and 128 characters";
  let! n := update_devices (λ r, bool_decide (d_id r = deviceID))
    (λ r, mkDeviceRow (d_id r) (d_user r) (TrimSpace name) (d_ip r) (d_key r) (d_os r) (d_arch r)
            (d_version r) (d_revoked r) (d_seen r) (d_created r)) in
  stop_if negb (n =? 1) with ErrNoRows;
  ret tt.

Definition TouchDevice (now : Z) (deviceID : string) : M unit :=
  exec update_devices (λ r, bool_decide (d_id r = deviceID) && negb (d_revoked r))
    (λ r, mkDeviceRow (d_id r) (d_user r) (d_name r) (d_ip r) (d_key r) (d_os r) (d_arch r)
            (d_version r) (d_revoked r) (Some (FormatRFC3339Nano now)) (d_created r));
  ret tt.

(** [broadcast[i] |= ^subnet.Mask[i]]. *)
Definition broadcast_of (networkIP mask : list byte) : list byte :=
  zip_with (λ b m, bor b (bnot m)) networkIP mask.

Definition err_outside : string := "virtual IP must be an IPv4 address inside the TyxNet network".
Definition err_reserved : string :=
  "virtual IP is reserved for the network, server, or broadcast address".
Definition err_assigned : string := "virtual IP is already assigned to another device".

(** The text that [strings.Contains(strings.ToLower(err.Error()), "unique")]
    replaces. *)
Definition already_assigned : M Z → M Z :=
  map_err (λ e, if contains (lower e) "unique" then err_assigned else e).

Definition SetDeviceVirtualIP (deviceID virtualIP network reservedServerIP : string) : M unit :=
  let ip := ParseIP (TrimSpace virtualIP) in
  match ParseCIDR network with
  | None => fail err_outside
  | Some (_, subnet) =>
    stop_if bool_decide (To4 ip = []) || negb (Contains subnet ip) with err_outside;
    let ip := To4 ip in
    let networkIP := To4 (nIP subnet) in
    let serverIP := To4 (ParseIP reservedServerIP) in
    let serverIP := if bool_decide (serverIP = []) then inc networkIP else serverIP in
    let broadcast := broadcast_of networkIP (nMask subnet) in
    stop_if ip_equal ip networkIP || ip_equal ip serverIP || ip_equal ip broadcast
      with err_reserved;
    let! n := already_assigned (update_device_ip deviceID (ip_string ip)) in
    stop_if negb (n =? 1) with ErrNoRows;
    ret tt
  end.

(** ** Lemmas: addresses *)

Lemma inc_length_rev l : length (inc_rev l) = length l.
Proof. induction l as [|b l IH]; simpl; [done|]. case_match; simpl; auto. Qed.
Lemma inc_length ip : length (inc ip) = length ip.
Proof. unfold inc. by rewrite length_rev, inc_length_rev, length_rev. Qed.

Lemma inc_rev_value l :
  be_get (rev (inc_rev l)) = (be_get (rev l) + 1) mod 256 ^ len l.
Proof.
  unfold len. induction l as [|b l IH]; [by rewrite Z.mod_1_r|]. simpl.
  pose proof (bZ_range b). pose proof (be_get_range (rev l)) as Hr.
  unfold len in Hr. rewrite length_rev in Hr.
  assert (256 ^ Z.of_nat (S (length l)) = 256 ^ Z.of_nat (length l) * 256) as Hp
    by (rewrite Nat2Z.inj_succ, Z.pow_succ_r by lia; lia).
  rewrite Hp, be_get_snoc. unfold u8. rewrite bZ_Zb. change (2 ^ 8) with 256. rewrite Zmod_mod.
  set (P := 256 ^ Z.of_nat (length l)) in *.
  destruct (decide (bZ b = 255)) as [E|E].
  - rewrite E. change ((255 + 1) mod 256) with 0. simpl. rewrite be_get_snoc, IH, bZ_Zb.
    change ((255 + 1) mod 256) with 0. change (0 mod 256) with 0.
    replace (be_get (rev l) * 256 + 255 + 1) with ((be_get (rev l) + 1) * 256) by lia.
    rewrite Zmult_mod_distr_r. lia.
  - rewrite (Z.mod_small (bZ b + 1)) by lia. destruct (Z.eqb_spec (bZ b + 1) 0); [lia|].
    simpl. rewrite be_get_snoc, bZ_Zb, (Z.mod_small (bZ b + 1)) by lia.
    rewrite Z.mod_small by nia. lia.
Qed.

Lemma inc_value ip : be_get (inc ip) = (be_get ip + 1) mod 256 ^ len ip.
Proof.
  unfold inc. rewrite inc_rev_value, rev_involutive. unfold len. by rewrite length_rev.
Qed.
