(* ===== verification/CommandStore.v ===== *)
(** * CommandStore: remote commands in the store ([internal/storage/store.go])

    A command is queued for a device, delivered, accepted by the device and
    then succeeds or fails; it expires at its deadline in any of the first
    three states.  The deadline is compared as a text in SQL and as a time in
    [UpdateCommandResult]. *)
From S2P Require Import Prelude Text Clock Calendar Crypto Database Accounts.
From Stdlib Require Import Init.Byte Strings.Byte.

Record Command := mkCommand {
  cmID : string; SenderUserID : string; DeviceID : string; cmType : string; Status : string;
  Result : string; cmError : string; cmCreatedAt : Z; ExpiresAt : Z
}.

(** The map [allowed] of [CreateCommand]. *)
Definition command_types : list string :=
  ["system.restart"; "system.shutdown"; "client.reconnect"; "client.status";
   "client.update-check"; "logs.collect"].

(** [status IN (...)]. *)
Definition in_status (l : list string) (r : command_row) : bool := bool_decide (c_status r ∈ l).
Definition set_status (s : string) (r : command_row) : command_row :=
  mkCommandRow (c_id r) (c_sender r) (c_device r) (c_type r) s (c_result r) (c_error r)
    (c_created r) (c_expires r).

(** The row that [CreateCommand] inserts. *)
Definition queued_row (rnd : list byte) (now1 now2 : Z) (sender device typ : string) (ttl : Z) :=
  mkCommandRow (new_id "cmd" rnd) sender device typ "queued" "" ""
    (FormatRFC3339Nano now1) (FormatRFC3339Nano (now2 + ttl)).

Definition command_allowed (typ : string) : bool := bool_decide (typ ∈ command_types).
Definition ttl_allowed (ttl : Z) : bool := negb ((ttl <=? 0) || (5 * Minute <? ttl)).

(** The end of [CreateCommand], after its checks. *)
Definition CreateCommand_insert (rnd : list byte) (now1 now2 : Z) (sender device typ : string)
    (ttl : Z) : M Command :=
  exec insert_command (queued_row rnd now1 now2 sender device typ ttl);
  ret (mkCommand (new_id "cmd" rnd) sender device typ "queued" "" "" now1 (now2 + ttl)).

Definition CreateCommand (rnd : list byte) (now1 now2 : Z) (sender device typ : string) (ttl : Z)
    : M Command :=
  stop_if negb (command_allowed typ) with "command type is not allowed";
  stop_if negb (ttl_allowed ttl) with "command TTL must be between 0 and 5m";
  let! r := query_row (λ d, where_is d_id device (devices d)) in
  stop_if d_revoked r with "device is revoked";
  CreateCommand_insert rnd now1 now2 sender device typ ttl.

Definition scanCommand (r : command_row) : Command :=
  mkCommand (c_id r) (c_sender r) (c_device r) (c_type r) (c_status r) (c_result r) (c_error r)
    (ParseTime (c_created r)) (ParseTime (c_expires r)).

(** The two statements of [PendingCommandsForDevice]. *)
Definition expire_pending (now : Z) (deviceID : string) : M Z :=
  update_commands (λ r, bool_decide (c_device r = deviceID) && in_status ["queued"; "delivered"] r
                        && text_le (c_expires r) (FormatRFC3339Nano now))
    (set_status "expired").
Definition select_pending (now : Z) (deviceID : string) (limit : Z) : M (list Command) :=
  query (λ d, map scanCommand (take (Z.to_nat limit)
    (order_by (λ a b, text_le (c_created a) (c_created b))
      (List.filter (λ r, bool_decide (c_device r = deviceID)
          && in_status ["queued"; "delivered"] r
          && text_lt (FormatRFC3339Nano now) (c_expires r)) (commands d))))).
Definition PendingCommandsForDevice (now : Z) (deviceID : string) (limit : Z) : M (list Command) :=
  let limit := clamp limit 50 20 in
  exec expire_pending now deviceID;
  select_pending now deviceID limit.

Definition MarkCommandDelivered (now : Z) (commandID deviceID : string) : M unit :=
  let! rows := update_commands (λ r, bool_decide (c_id r = commandID)
                   && bool_decide (c_device r = deviceID) && in_status ["queued"; "delivered"] r
                   && text_lt (FormatRFC3339Nano now) (c_expires r))
                 (set_status "delivered") in
  stop_if negb (rows =? 1) with ErrNoRows;
  ret tt.

Definition result_statuses : list string := ["accepted"; "succeeded"; "failed"].
Definition is_active (s : string) : bool := bool_decide (s ∈ ["queued"; "delivered"; "accepted"]).
Definition validTransition (current status : string) : bool :=
  ((status =s "accepted") && ((current =s "queued") || (current =s "delivered"))) ||
  (((status =s "succeeded") || (status =s "failed")) && (current =s "accepted")).
Definition set_result (status resultText errorText : string) (r : command_row) : command_row :=
  mkCommandRow (c_id r) (c_sender r) (c_device r) (c_type r) status resultText errorText
    (c_created r) (c_expires r).

(** The transaction's value is what is returned after its commit: the error of
    an expired command is returned although the transaction commits. *)
Definition UpdateCommandResult (rnd : list byte) (now1 now2 : Z)
    (commandID deviceID status resultText errorText : string) : M unit :=
  stop_if negb (bool_decide (status ∈ result_statuses)) with "invalid command result status";
  let p r := bool_decide (c_id r = commandID) && bool_decide (c_device r = deviceID) in
  let! outcome := transaction (
    let! c := query_row (λ d, List.filter p (commands d)) in
    let expiresAt := ParseRFC3339 (c_expires c) in
    let current := c_status c in
    if bool_decide (expiresAt = None)
       || (is_active current && After now1 (default zeroTime expiresAt)) then
      exec update_commands (λ r, bool_decide (c_id r = commandID)) (set_status "expired");
      ret (Err "command expired")
    else if current =s status then ret (Ok tt)
    else
      stop_if negb (validTransition current status)
        with ("invalid command status transition from " +:+ current +:+ " to " +:+ status);
      exec update_commands p (set_result status resultText errorText);
      exec insert_result (mkResultRow (new_id "res" rnd) commandID status resultText
        (FormatRFC3339Nano now2));
      ret (Ok tt)) in
  lift outcome.

Definition expire_all (now : Z) : M Z :=
  update_commands (λ r, is_active (c_status r) && text_le (c_expires r) (FormatRFC3339Nano now))
    (set_status "expired").
(** [scope] is the WHERE clause, which can read the devices. *)
Definition listCommands (now limit : Z) (scope : db → command_row → bool) : M (list Command) :=
  let limit := clamp limit 500 100 in
  exec expire_all now;
  query (λ d, map scanCommand (take (Z.to_nat limit)
    (order_by (λ a b, text_le (c_created b) (c_created a)) (List.filter (scope d) (commands d))))).
Definition ListCommands (now limit : Z) : M (list Command) := listCommands now limit (λ _ _, true).
Definition ListCommandsByUser (now : Z) (userID : string) (limit : Z) : M (list Command) :=
  listCommands now limit (λ d r,
    existsb (λ v, bool_decide (d_id v = c_device r) && bool_decide (d_user v = userID)) (devices d)).
