(* ===== verification/History.v ===== *)
(** * History: the flow history of the store ([internal/storage/store.go])

    Per-second flow aggregates, kept within a budget of bytes by deleting the
    oldest ones, and their queries. *)
From S2P Require Import Prelude Text Net Clock Calendar Database Accounts.
From Stdlib Require Import Init.Byte Strings.Byte.

Record FlowHistoryRecord := mkFlowRecord {
  frID : Z; frRecordedAt : Z; frSource : string; frDestination : string; frProtocol : string;
  frProtocolNumber : Z; frSourcePort : option Z; frDestinationPort : option Z;
  frICMPType : option Z; frICMPCode : option Z; frBytes : Z; frPackets : Z; StorageBytes : Z
}.

Record FlowHistoryQuery := mkFlowQuery {
  qSearch : string; EndpointIPs : list string; qProtocol : string;
  From : option Z; To : option Z; Sort : string; Limit : Z
}.

Record FlowHistoryPage := mkFlowPage {
  Records : list FlowHistoryRecord; Total : Z; StoredBytes : Z
}.

Definition MaxInt64 : Z := 2 ^ 63 - 1.

Definition flowHistoryStorageBytes (r : FlowHistoryRecord) : Z :=
  96 + slen (frSource r) + slen (frDestination r) + slen (frProtocol r).

Definition uint16Pointer (v : option Z) : option Z := u16 <$> v.
Definition uint8Pointer (v : option Z) : option Z := u8 <$> v.

Definition flow_row_of (r : FlowHistoryRecord) (id : Z) : flow_row :=
  mkFlowRow id (FormatRFC3339Nano (frRecordedAt r)) (frSource r) (frDestination r) (frProtocol r)
    (frProtocolNumber r) (frSourcePort r) (frDestinationPort r) (frICMPType r) (frICMPCode r)
    (frBytes r) (frPackets r) (flowHistoryStorageBytes r).

(** ** Trimming *)

(** [SELECT COALESCE(SUM(storage_bytes),0)]: SQLite refuses to overflow. *)
Definition sum_storage (d : db) : result Z :=
  let s := sumZ (map f_storage (flow_history d)) in
  if MaxInt64 <? s then Err "integer overflow" else Ok s.

(** [ORDER BY recorded_at,id]. *)
Definition older (a b : flow_row) : bool :=
  if f_recorded a =s f_recorded b then f_id a <=? f_id b
  else text_le (f_recorded a) (f_recorded b).

(** The loop over the rows while the rest is above the limit. *)
Fixpoint trim_ids (rows : list flow_row) (total removed maxBytes : Z) : list Z :=
  match rows with
  | [] => []
  | r :: rows =>
    if maxBytes <? total - removed
    then f_id r :: trim_ids rows total (removed + f_storage r) maxBytes
    else []
  end.

Fixpoint delete_ids (ids : list Z) : M unit :=
  match ids with
  | [] => ret tt
  | i :: ids => exec delete_flows (λ r, f_id r =? i); delete_ids ids
  end.

Definition trimFlowHistory (maxBytes : Z) : M unit :=
  let! sum := query sum_storage in
  let! total := lift sum in
  if total <=? maxBytes then ret tt
  else
    let! rows := query (λ d, order_by older (flow_history d)) in
    delete_ids (trim_ids rows total 0 maxBytes).

Definition TrimFlowHistory (maxBytes : Z) : M unit :=
  stop_if maxBytes <=? 0 with "flow history limit must be positive";
  transaction (trimFlowHistory maxBytes).

Fixpoint insert_records (records : list FlowHistoryRecord) : M unit :=
  match records with
  | [] => ret tt
  | r :: records =>
    stop_if (MaxInt64 <? frBytes r) || (MaxInt64 <? frPackets r)
      with "flow history counter exceeds storage range";
    exec insert_flow (flow_row_of r);
    insert_records records
  end.

Definition InsertFlowHistory (records : list FlowHistoryRecord) (maxBytes : Z) : M unit :=
  match records with
  | [] => ret tt
  | _ =>
    stop_if maxBytes <=? 0 with "flow history limit must be positive";
    transaction (
      exec insert_records records;
      trimFlowHistory maxBytes)
  end.

Definition DeleteFlowHistory : M Z := delete_flows (λ _, true).

(** ** Queries *)

(** The text SQLite searches in, [COALESCE(port,'')] included. *)
Definition port_text (p : option Z) : string := match p with Some n => FormatUint n | None => "" end.
Definition search_text (r : flow_row) : string :=
  f_source r +:+ " " +:+ f_destination r +:+ " " +:+ f_protocol r +:+ " " +:+
  port_text (f_sport r) +:+ " " +:+ port_text (f_dport r).

Definition search_matches (q : FlowHistoryQuery) (r : flow_row) : bool :=
  let search := TrimSpace (qSearch q) in
  if search =s "" then true
  else
    let ips := take 100 (EndpointIPs q) in
    contains (lower (search_text r)) (lower search)
    || bool_decide (f_source r ∈ ips) || bool_decide (f_destination r ∈ ips).

(** The WHERE clause. *)
Definition flow_matches (q : FlowHistoryQuery) (r : flow_row) : bool :=
  search_matches q r
  && ((qProtocol q =s "") || (qProtocol q =s "all") || (f_protocol r =s qProtocol q))
  && match From q with Some t => text_le (FormatRFC3339Nano t) (f_recorded r) | None => true end
  && match To q with Some t => text_le (f_recorded r) (FormatRFC3339Nano t) | None => true end.

(** The ORDER BY clauses. *)
Definition newer (a b : flow_row) : bool := older b a.
Definition flow_order (sort : string) (a b : flow_row) : bool :=
  if sort =s "oldest" then older a b
  else if sort =s "bytes" then
    if f_bytes a =? f_bytes b then newer a b else f_bytes b <? f_bytes a
  else if sort =s "packets" then
    if f_packets a =? f_packets b then newer a b else f_packets b <? f_packets a
  else newer a b.

Definition flow_record_of (r : flow_row) : FlowHistoryRecord :=
  mkFlowRecord (f_id r) (ParseTime (f_recorded r)) (f_source r) (f_destination r) (f_protocol r)
    (u8 (f_number r)) (uint16Pointer (f_sport r)) (uint16Pointer (f_dport r))
    (uint8Pointer (f_itype r)) (uint8Pointer (f_icode r)) (u64 (f_bytes r)) (u64 (f_packets r))
    (f_storage r).

Definition ListFlowHistory (q : FlowHistoryQuery) : M FlowHistoryPage :=
  let limit := if (Limit q <=? 0) || (500 <? Limit q) then 500 else Limit q in
  let! total := query (λ d, len (List.filter (flow_matches q) (flow_history d))) in
  let! sum := query sum_storage in
  let! stored := lift sum in
  let! rows := query (λ d, take (Z.to_nat limit)
                 (order_by (flow_order (Sort q)) (List.filter (flow_matches q) (flow_history d)))) in
  ret (mkFlowPage (map flow_record_of rows) total stored).
