(* ===== verification/Migrations.v ===== *)
(** * Migrations: opening the store ([internal/storage/store.go], [Open] and
    [Migrate])

    Every opening runs all the embedded migrations in the order of their names,
    each in a transaction with its row in schema_migrations.  What SQLite does
    with the text of a migration is [exec]; a schema is any type.  That they can
    run again is what [IF NOT EXISTS] and [OR IGNORE] promise ([repeatable]);
    [open_again] shows that opening a database for the second time changes
    nothing, and that the first opening has run each migration once. *)
From S2P Require Import Prelude Text Clock Calendar.
From Stdlib Require Import Init.Byte Strings.Byte.

(** [fmt.Sscanf(name, "%d_", &v)] for a name that begins with a digit: the number
    has at most 18 digits here. *)
Fixpoint scan_number (l : list byte) (v : Z) : Z * list byte :=
  match l with
  | c :: l' => if is_digit c then scan_number l' (v * 10 + digit_val c) else (v, l)
  | [] => (v, [])
  end.
Definition scan_version (name : string) : option Z :=
  match s2b name with
  | c :: _ =>
    if is_digit c then
      match scan_number (s2b name) 0 with (v, x5f :: _) => Some v | _ => None end
    else None
  | [] => None
  end.

Section store.
(** [has_versions]: the table schema_migrations exists. *)
Context {S : Type} (exec : string → S → result S) (has_versions : S → bool).

(** The schema with its rows, and schema_migrations by version. *)
Record Schema := mkSchema { tables : S; versions : gmap Z string }.
(** A file of the embedded directory: its name and text. *)
Record Entry := mkEntry { eName : string; eText : string }.

(** The order of [sort.Slice]. *)
Definition by_name (a b : Entry) : Prop := String.leb (eName a) (eName b) = true.
#[local] Instance by_name_dec a b : Decision (by_name a b).
Proof. unfold by_name. apply _. Defined.

(** One round of the loop: a transaction. *)
Definition migrate_one (now : Z) (e : Entry) (s : Schema) : result unit * Schema :=
  match exec (eText e) (tables s) with
  | Err msg => (Err ("migration " +:+ eName e +:+ ": " +:+ msg), s)
  | Ok t =>
    match scan_version (eName e) with
    | None => (Err ("parse migration version " +:+ eName e), s)
    | Some v =>
      if negb (has_versions t) then (Err "no such table: schema_migrations", s)
      else
      (Ok tt, mkSchema t (if decide (is_Some (versions s !! v)) then versions s
                          else <[v := FormatRFC3339Nano now]> (versions s)))
    end
  end.
Fixpoint migrate_all (nows : nat → Z) (i : nat) (entries : list Entry) (s : Schema) : result unit * Schema :=
  match entries with
  | [] => (Ok tt, s)
  | e :: entries =>
    match migrate_one (nows i) e s with
    | (Ok _, s) => migrate_all nows (1 + i)%nat entries s
    | (Err msg, s) => (Err msg, s)
    end
  end.
(** [Migrate] for the entries of the directory, in any order. *)
Definition Migrate (nows : nat → Z) (entries : list Entry) (s : Schema) : result unit * Schema :=
  migrate_all nows 0 (merge_sort by_name entries) s.
(** [Open] of a database file: an error of the two pragmas comes first. *)
Definition Open (pragmas : option string) (nows : nat → Z) (entries : list Entry) (s : Schema)
    : result unit * Schema :=
  match pragmas with Some e => (Err e, s) | None => Migrate nows entries s end.

(** ** Opening again *)

(** Migrations are written so that they can run again: [ran text t] when the
    schema has what the migration adds. *)
Record repeatable (ran : string → S → Prop) : Prop := {
  exec_ran text t t' : exec text t = Ok t' → ran text t';
  ran_again text t : ran text t → exec text t = Ok t;
  ran_kept text other t t' : ran text t → exec other t = Ok t' → ran text t'
}.

(** An entry is in the schema and in schema_migrations. *)
Definition applied (ran : string → S → Prop) (e : Entry) (s : Schema) : Prop :=
  ran (eText e) (tables s) ∧ has_versions (tables s) = true ∧
  ∃ v, scan_version (eName e) = Some v ∧ is_Some (versions s !! v).

Section again.
Context (ran : string → S → Prop) (Hrep : repeatable ran).

Lemma migrate_one_applied now e s s' : migrate_one now e s = (Ok tt, s') →
  applied ran e s' ∧ versions s ⊆ versions s'.
Proof.
  unfold migrate_one. destruct (exec _ _) as [t|] eqn:Ee; [|done].
  destruct (scan_version _) as [v|] eqn:Ev; [|done].
  destruct (has_versions t) eqn:Ht; cbn [negb]; [|done]. intros [= <-]. unfold applied. cbn [tables versions].
  split.
  - split; [by eapply exec_ran|]. split; [done|]. exists v. split; [done|].
    destruct (decide _); [done|]. by rewrite lookup_insert_eq.
  - destruct (decide _) as [|Hn]; [done|]. apply insert_subseteq. by apply eq_None_not_Some.
Qed.
Lemma migrate_one_kept now e s e' s' : migrate_one now e s = (Ok tt, s') → applied ran e' s →
  ran (eText e') (tables s') ∧ ∃ v, scan_version (eName e') = Some v ∧ is_Some (versions s' !! v).
Proof.
  intros Hm (H1 & _ & v & Hv & Hi). pose proof (migrate_one_applied _ _ _ _ Hm) as [_ Hsub].
  split; [|exists v; split; [done|]; destruct Hi as [x Hx]; exists x; by eapply lookup_weaken].
  revert Hm. unfold migrate_one. destruct (exec _ _) as [t|] eqn:Ee; [|done].
  destruct (scan_version (eName e)) as [v'|]; [|done].
  destruct (has_versions t); cbn [negb]; [|done]. intros [= <-]. by eapply ran_kept.
Qed.
Lemma applied_again now e s : applied ran e s → migrate_one now e s = (Ok tt, s).
Proof.
  intros (H1 & H2 & v & Hv & Hi). unfold migrate_one. erewrite ran_again by done.
  rewrite Hv, H2. cbn [negb]. rewrite decide_True by done. by destruct s.
Qed.

Lemma migrate_all_applied nows i entries s s' : migrate_all nows i entries s = (Ok tt, s') →
  (∀ e, e ∈ entries → applied ran e s') ∧ versions s ⊆ versions s' ∧
  (∀ e, applied ran e s → applied ran e s').
Proof.
  revert i s. induction entries as [|e entries IH]; intros i s; cbn [migrate_all].
  { intros [= <-]. split_and!; [|done|done]. intros e He. by apply not_elem_of_nil in He. }
  destruct (migrate_one (nows i) e s) as [[[]|] s1] eqn:E; [|done]. intros (H1 & H2 & H3)%IH.
  pose proof (migrate_one_applied _ _ _ _ E) as [Ha Hsub].
  split_and!; [|by etrans|].
  - intros e' [->|He]%elem_of_cons; [by apply H3|by apply H1].
  - intros e' He'. apply H3. destruct (migrate_one_kept _ _ _ _ _ E He') as [Hr Hv].
    destruct Ha as (_ & Ht & _). by split_and!.
Qed.
Lemma migrate_all_again nows i entries s :
  (∀ e, e ∈ entries → applied ran e s) → migrate_all nows i entries s = (Ok tt, s).
Proof.
  revert i. induction entries as [|e entries IH]; intros i Ha; [done|]. cbn [migrate_all].
  rewrite applied_again by (apply Ha; set_solver). apply IH. intros e' He. apply Ha. set_solver.
Qed.

(** Opening a database that was opened before changes nothing, at whatever time;
    the first opening has applied every migration, once, and keeps the dates of
    those that were there. *)
Theorem open_again nows entries s s' : Open None nows entries s = (Ok tt, s') →
  (∀ e, e ∈ entries → applied ran e s') ∧ versions s ⊆ versions s' ∧
  ∀ nows', Open None nows' entries s' = (Ok tt, s').
Proof.
  unfold Open, Migrate. intros (H1 & H2 & _)%migrate_all_applied.
  assert (∀ e, e ∈ entries → applied ran e s') as Ha
    by (intros e He; apply H1; by rewrite merge_sort_Permutation).
  split_and!; [done|done|]. intros nows'. by apply migrate_all_again.
Qed.
End again.

(** A migration that fails leaves the database as the ones before it made it. *)
Lemma open_fails nows entries s msg s' : Open None nows entries s = (Err msg, s') →
  ∃ before e after, merge_sort by_name entries = before ++ e :: after ∧
    migrate_all nows 0 before s = (Ok tt, s') ∧
    migrate_one (nows (length before)) e s' = (Err msg, s').
Proof.
  unfold Open, Migrate. generalize (merge_sort by_name entries) as l. intros l.
  assert (∀ l i s, migrate_all nows i l s = (Err msg, s') →
    ∃ before e after, l = before ++ e :: after ∧ migrate_all nows i before s = (Ok tt, s') ∧
      migrate_one (nows (i + length before)%nat) e s' = (Err msg, s')) as H; [|by intros ?%H].
  clear l s. induction l as [|e l IH]; intros i s; cbn [migrate_all]; [done|].
  destruct (migrate_one (nows i) e s) as [[[]|m] s1] eqn:E.
  - intros (before & e' & after & -> & Hb & He)%IH. exists (e :: before), e', after.
    split; [done|]. cbn [migrate_all length]. rewrite E. split; [done|].
    by rewrite Nat.add_succ_r.
  - intros [= -> ->]. exists [], e, l. cbn. rewrite Nat.add_0_r. split; [done|].
    assert (s = s') as ->; [|done]. revert E. unfold migrate_one. repeat case_match; congruence.
Qed.
End store.
Global Arguments mkSchema {S}.
Global Arguments tables {S}.
Global Arguments versions {S}.

(** The names of the repository's migrations. *)
Example versions_ex : scan_version "001_initial.sql" = Some 1 ∧ scan_version "002_flow_history.sql" = Some 2.
Proof. by vm_compute. Qed.
