(* ===== verification/StoreSteps.v ===== *)
(** * StoreSteps: the reachable states of the store

    [store_step] is one access to the database by one method of the store.  A
    method that makes several accesses ([JoinDevice], [CreateCommand],
    [DeleteUser], [PendingCommandsForDevice], [ListCommands]) is a sequence of
    steps, and the steps of concurrent requests can come in any order: what
    holds of every reachable state holds under every interleaving.

    [store_ok] collects the invariants: what the constraints guarantee, one
    role per user, token uses within their limit, and well-formed commands.
    [cmds_evolve] is the life of commands: rows are never lost, only statuses
    (and results) change, along [cmd_next]. *)
From S2P Require Import Prelude Text Net Clock Calendar Crypto Database.
From S2P Require Import Accounts Devices CommandStore History.
From Stdlib Require Import Init.Byte Strings.Byte.

Section steps.
Context `{Primitives}.

Inductive store_step : db → db → Prop :=
  | st_create_admin r n u p d : store_step d (snd (CreateAdmin r n u p d))
  | st_create_initial_admin r n u p d : store_step d (snd (CreateInitialAdmin r n u p d))
  | st_create_user r n u p role d : store_step d (snd (CreateUser r n u p role d))
  | st_delete_user u d : store_step d (snd (DeleteUser_tx u d))
  | st_update_user u b role d : store_step d (snd (UpdateUser u b role d))
  | st_update_password u p d : store_step d (snd (UpdateUserPassword u p d))
  | st_create_session r1 r2 n1 n2 u ttl d : store_step d (snd (CreateSession r1 r2 n1 n2 u ttl d))
  | st_delete_session v d : store_step d (snd (DeleteSession v d))
  | st_create_token r1 r2 n1 n2 u ttl mx d :
      store_step d (snd (CreateEnrollmentToken r1 r2 n1 n2 u ttl mx d))
  | st_revoke_token t d : store_step d (snd (RevokeToken t d))
  | st_consume_token n v d : store_step d (snd (ConsumeToken n v d))
  | st_set_setting n k v d : store_step d (snd (SetSetting n k v d))
  | st_set_settings n vs d : store_step d (snd (SetSettings n vs d))
  | st_audit n a b c e f d : store_step d (snd (Audit n a b c e f d))
  | st_join r n u ip a b c e k d : store_step d (snd (JoinDevice_insert r n u ip a b c e k d))
  | st_revoke_device i d : store_step d (snd (RevokeDevice i d))
  | st_rename_device i n d : store_step d (snd (RenameDevice i n d))
  | st_touch_device n i d : store_step d (snd (TouchDevice n i d))
  | st_set_ip i ip n s d : store_step d (snd (SetDeviceVirtualIP i ip n s d))
  | st_create_command r n1 n2 s v t ttl d :
      command_allowed t = true → rfc_range (n2 + ttl) →
      store_step d (snd (CreateCommand_insert r n1 n2 s v t ttl d))
  | st_expire_pending n v d : store_step d (snd (expire_pending n v d))
  | st_delivered n c v d : store_step d (snd (MarkCommandDelivered n c v d))
  | st_command_result r n1 n2 c v s t e d :
      store_step d (snd (UpdateCommandResult r n1 n2 c v s t e d))
  | st_expire_all n d : store_step d (snd (expire_all n d))
  | st_insert_flows rs mx d : store_step d (snd (InsertFlowHistory rs mx d))
  | st_trim_flows mx d : store_step d (snd (TrimFlowHistory mx d))
  | st_delete_flows d : store_step d (snd (DeleteFlowHistory d)).

(** Every method as its statements. *)
Ltac unfold_ops := unfold CreateAdmin, CreateInitialAdmin, CreateUser, DeleteUser_tx, UpdateUser,
    UpdateUserPassword, CreateSession, DeleteSession, CreateEnrollmentToken, RevokeToken,
    ConsumeToken, SetSetting, SetSettings, Audit, JoinDevice_insert, RevokeDevice, RenameDevice,
    TouchDevice, SetDeviceVirtualIP, CreateCommand_insert, expire_pending, MarkCommandDelivered,
    UpdateCommandResult, expire_all, InsertFlowHistory, TrimFlowHistory, DeleteFlowHistory,
    trimFlowHistory.

(** ** The constraints *)

Lemma keeps_set_all n l : keeps (set_all n l).
Proof.
  induction l as [|[k v] l IH]; simpl; [keeps_tac|]. unfold SetSetting. keeps_tac.
Qed.
Lemma keeps_insert_records l : keeps (insert_records l).
Proof.
  induction l as [|r l IH]; simpl; [keeps_tac|]. keeps_tac.
Qed.
Lemma keeps_delete_ids l : keeps (delete_ids l).
Proof. induction l as [|r l IH]; simpl; keeps_tac. Qed.
Hint Resolve keeps_set_all keeps_insert_records keeps_delete_ids : store.

Lemma keeps_trim mx : keeps (trimFlowHistory mx).
Proof. unfold trimFlowHistory. keeps_tac. Qed.
Hint Resolve keeps_trim : store.

Lemma step_preserved d d' : store_step d d' → preserved d d'.
Proof.
  destruct 1;
  match goal with
  | |- preserved ?d (snd (?m ?d)) => revert d; change (keeps m)
  end.
  all: unfold_ops.
  all: keeps_tac.
Qed.

(** The loops of the store do what their statements do. *)
Section loops.
  Context (R : relation db) `{!PreOrder R}.
Lemma set_all_effect n l : (∀ r, effect R (upsert_setting r)) → effect R (set_all n l).
Proof.
  intros Hs. induction l as [|[k v] l IH]; simpl; effect_tac ltac:(first [exact IH|apply Hs]).
Qed.
Lemma insert_records_effect l : (∀ r, effect R (insert_flow r)) → effect R (insert_records l).
Proof.
  intros Hs. induction l as [|r l IH]; simpl; effect_tac ltac:(first [exact IH|apply Hs]).
Qed.
Lemma delete_ids_effect l : (∀ p, effect R (delete_flows p)) → effect R (delete_ids l).
Proof.
  intros Hs. induction l as [|r l IH]; simpl; effect_tac ltac:(first [exact IH|apply Hs]).
Qed.
End loops.
Ltac loops := first
  [apply set_all_effect|apply insert_records_effect|apply delete_ids_effect];
  [apply _|intros ?; untouched].

(** ** One role per user *)

Definition roles_ok (d : db) : Prop := map fst (user_roles d) ≡ₚ map u_id (users d).
Definition same_users (d d' : db) : Prop :=
  map u_id (users d') = map u_id (users d) ∧ user_roles d' = user_roles d.
Global Instance same_users_preorder : PreOrder same_users.
Proof.
  split; [done|]. intros a b c [H1 H2] [H3 H4]. split; congruence.
Qed.

Lemma same_users_ok d d' : same_users d d' → roles_ok d → roles_ok d'.
Proof. unfold roles_ok. by intros [-> ->]. Qed.

Lemma same_update_users p g : (∀ r, u_id (g r) = u_id r) → effect same_users (update_users p g).
Proof. intros Hg d. split; [|done]. by apply update_where_map. Qed.

Lemma map_filter_fst {A} (f : A → string) u l :
  map f (List.filter (λ r, negb (bool_decide (f r = u))) l) =
  List.filter (λ x, negb (bool_decide (x = u))) (map f l).
Proof. induction l as [|r l IH]; simpl; [done|]. case_match; simpl; by rewrite IH. Qed.

Lemma filter_perm {A} (p : A → bool) l k : l ≡ₚ k → List.filter p l ≡ₚ List.filter p k.
Proof.
  induction 1; simpl; repeat case_match; try done; try by constructor.
  by etrans.
Qed.

Lemma filter_one (u : string) l :
  NoDup l → u ∈ l → List.filter (λ x, negb (bool_decide (x = u))) l ++ [u] ≡ₚ l.
Proof.
  induction l as [|x l IH]; intros Hnd Hu; [by apply elem_of_nil in Hu|].
  apply NoDup_cons in Hnd as [Hx Hnd]. simpl. case_bool_decide as E; simpl.
  - subst. rewrite Permutation_app_comm. simpl. constructor.
    apply reflexive_eq. clear IH Hu Hnd.
    induction l as [|y l IH]; simpl; [done|]. apply not_elem_of_cons in Hx as [? ?].
    rewrite bool_decide_eq_false_2 by done. simpl. by rewrite IH.
  - apply elem_of_cons in Hu as [->|Hu]; [done|]. constructor. by apply IH.
Qed.

Lemma filter_absent {A} (f : A → string) u l :
  u ∉ map f l → List.filter (λ r, negb (bool_decide (f r = u))) l = l.
Proof.
  induction l as [|r l IH]; simpl; [done|]. intros [? ?]%not_elem_of_cons.
  rewrite bool_decide_eq_false_2 by done. simpl. by rewrite IH.
Qed.

Lemma affected_in {A} (f : A → string) u l :
  affected (λ r, bool_decide (f r = u)) l = 1 → u ∈ map f l.
Proof.
  unfold affected, len. destruct (List.filter _ l) as [|r k] eqn:E; [done|]. intros _.
  assert (r ∈ List.filter (λ r, bool_decide (f r = u)) l) as Hr by (rewrite E; by left).
  apply list_elem_of_In, filter_In in Hr as [Hr ?]. bprop.
  apply list_elem_of_fmap. exists r. by rewrite list_elem_of_In.
Qed.

(** Runs an operation on a database, case by case. *)
Ltac run := run_stmt; cbv beta zeta iota; repeat (case_match; simplify_eq; try done).

Ltac roles_create := intros Hr; run; unfold roles_ok in *; cbn; rewrite !map_app; by f_equiv.
Lemma roles_create_admin r n u p d : roles_ok d → roles_ok (snd (CreateAdmin r n u p d)).
Proof. unfold CreateAdmin. roles_create. Qed.
Lemma roles_create_initial r n u p d :
  roles_ok d → roles_ok (snd (CreateInitialAdmin r n u p d)).
Proof. unfold CreateInitialAdmin. roles_create. Qed.
Lemma roles_create_user r n u p role d :
  roles_ok d → roles_ok (snd (CreateUser r n u p role d)).
Proof. unfold CreateUser. destruct (role_id role) as [rid|]; [|done]. roles_create. Qed.

Lemma roles_delete_user u d : roles_ok d → roles_ok (snd (DeleteUser_tx u d)).
Proof.
  intros Hr. unfold DeleteUser_tx. run. unfold roles_ok in *. cbn. unfold delete_where.
  rewrite !map_filter_fst. by apply filter_perm.
Qed.

Lemma roles_update_user u b role d :
  db_ok d → roles_ok d → roles_ok (snd (UpdateUser u b role d)).
Proof.
  intros Hok Hr. unfold UpdateUser. destruct (role_id role) as [rid|]; [|done]. run.
  unfold roles_ok in *. cbn. rewrite map_app. simpl. unfold delete_where.
  rewrite map_filter_fst, update_where_map by done. rewrite (filter_perm _ _ _ Hr).
  apply filter_one; [apply (ok_users _ Hok)|]. apply affected_in.
  match goal with H : negb _ = false |- _ => apply negb_false_iff, Z.eqb_eq in H; exact H end.
Qed.

(** The rest leaves the users and their roles alone. *)
Lemma step_roles d d' : store_step d d' → db_ok d → roles_ok d → roles_ok d'.
Proof.
  destruct 1; intros Hok Hr;
    try first [by apply roles_create_admin|by apply roles_create_initial
      |by apply roles_create_user|by apply roles_delete_user|by apply roles_update_user];
    (eapply same_users_ok; [|exact Hr]); clear Hok Hr;
    match goal with
    | |- same_users ?d (snd (?m ?d)) => revert d; change (effect same_users m)
    end; unfold_ops;
    effect_tac ltac:(first [loops|by apply same_update_users|untouched]).
Qed.

(** ** Token uses *)

Definition tokens_ok (d : db) : Prop := ∀ t, t ∈ tokens d → 0 ≤ t_uses t ≤ t_max t.
Definition same_tokens (d d' : db) : Prop := tokens d' = tokens d.
Global Instance same_tokens_preorder : PreOrder same_tokens.
Proof. split; [done|]. unfold same_tokens. intros a b c. congruence. Qed.

Lemma filter_unique {A K} `{EqDecision K} (f : A → K) v l r k :
  unique f l → where_is f v l = r :: k → k = [] ∧ f r = v ∧ r ∈ l.
Proof.
  intros Hu E.
  assert (∀ x, x ∈ r :: k → x ∈ l ∧ f x = v) as Hall.
  { intros x Hx. rewrite <- E in Hx. unfold where_is in Hx.
    apply list_elem_of_In, filter_In in Hx as [Hx ?]. bprop. by rewrite list_elem_of_In. }
  destruct (Hall r) as [Hr Hv]; [by left|]. split; [|done]. destruct k as [|x k]; [done|].
  destruct (Hall x) as [Hx Hvx]; [by right; left|].
  assert (unique f (where_is f v l)) as Hu'.
  { pose proof (unique_delete f (λ r, negb (bool_decide (f r = v))) l Hu) as H'.
    unfold delete_where in H'. unfold where_is.
    assert (List.filter (λ r, bool_decide (f r = v)) l =
      List.filter (λ r, negb (negb (bool_decide (f r = v)))) l) as ->; [|exact H'].
    apply filter_ext. intros y. by rewrite negb_involutive. }
  rewrite E in Hu'. unfold unique in Hu'. simpl in Hu'.
  apply NoDup_cons in Hu' as [Hn _]. destruct Hn. rewrite Hv, <- Hvx. left.
Qed.

Lemma where_is_nil {A K} `{EqDecision K} (f : A → K) v l :
  where_is f v l = [] ↔ v ∉ map f l.
Proof.
  unfold where_is. induction l as [|r l IH]; simpl.
  - split; [|done]. intros _ H'. by apply elem_of_nil in H'.
  - rewrite not_elem_of_cons. case_bool_decide; split; try done.
    + by intros [? _].
    + intros E. apply IH in E. split; [congruence|done].
    + intros [_ E]. by apply IH.
Qed.

(** What [ConsumeToken] does, in one formula. *)
Definition usable (now : Z) (t : token_row) : bool :=
  negb (t_revoked t || After now (ParseTime (t_expires t)) || (t_max t <=? t_uses t)).

Lemma ConsumeToken_eq now v d :
  db_ok d →
  ConsumeToken now v d =
  match where_is t_hash (hash v) (tokens d) with
  | [] => (Err "invalid enrollment token", d)
  | t :: _ =>
    if usable now t
    then (Ok (t_user t),
          set_tokens (update_where (λ r, bool_decide (t_id r = t_id t)) use_token (tokens d)) d)
    else (Err "enrollment token expired, revoked, or exhausted", d)
  end.
Proof.
  intros Hok. unfold ConsumeToken. run_stmt. cbv beta zeta iota.
  destruct (where_is t_hash (hash v) (tokens d)) as [|t k] eqn:E; [done|].
  destruct (filter_unique _ _ _ _ _ (ok_token_hashes _ Hok) E) as (-> & _ & Ht).
  unfold usable. destruct (t_revoked t || _ || _); [done|]. simpl.
  assert (∀ r, r ∈ tokens d →
    bool_decide (t_id r = t_id t) && (t_uses r =? t_uses t) = bool_decide (t_id r = t_id t)) as Hp.
  { intros r Hr. case_bool_decide as Er; [|done]. simpl. apply Z.eqb_eq.
    by rewrite (unique_map_nodup _ _ _ _ (ok_tokens _ Hok) Hr Ht Er). }
  assert (update_where (λ r, bool_decide (t_id r = t_id t) && (t_uses r =? t_uses t)) use_token
    (tokens d) = update_where (λ r, bool_decide (t_id r = t_id t)) use_token (tokens d)) as ->.
  { apply map_ext_in. intros r Hr%list_elem_of_In. by rewrite Hp. }
  assert (affected (λ r, bool_decide (t_id r = t_id t) && (t_uses r =? t_uses t)) (tokens d)
    = 1) as ->; [|done].
  unfold affected. rewrite (filter_ext_in _ (λ r, bool_decide (t_id r = t_id t)));
    [|intros r Hr; apply Hp; by apply list_elem_of_In].
  destruct (where_is t_id (t_id t) (tokens d)) as [|x l] eqn:Ex.
  - apply where_is_nil in Ex. destruct Ex. apply list_elem_of_fmap. eauto.
  - pose proof (filter_unique _ _ _ _ _ (ok_tokens _ Hok) Ex) as (-> & _).
    unfold where_is in Ex. by rewrite Ex.
Qed.

Lemma step_tokens d d' : store_step d d' → db_ok d → tokens_ok d → tokens_ok d'.
Proof.
  destruct 1; intros Hok Ht;
    try (assert (same_tokens d d) as Hs by done; clear Hs;
      match goal with
      | |- tokens_ok (snd (?m ?d)) =>
        cut (effect same_tokens m); [intros Hs; specialize (Hs d); unfold same_tokens in Hs;
          unfold tokens_ok; by rewrite Hs|]
      end; clear Hok Ht; unfold_ops; by (effect_tac ltac:(first [loops|untouched]))).
  - unfold DeleteUser_tx. run. intros t. cbn.
    rewrite elem_of_delete_where. intros [? _]. by apply Ht.
  - unfold CreateEnrollmentToken. case_match; [done|]. bprop. run. intros t. cbn.
    intros [?| ->%list_elem_of_singleton]%elem_of_app; [by apply Ht|]. simpl. lia.
  - unfold RevokeToken. run. intros t1. cbn. intros (t0 & Ht0 & ->)%elem_of_update_where.
    case_match; exact (Ht t0 Ht0).
  - rewrite ConsumeToken_eq by done. destruct (where_is _ _ _) as [|t l] eqn:E; [done|].
    destruct (usable n t) eqn:Eu; [|done].
    destruct (filter_unique _ _ _ _ _ (ok_token_hashes _ Hok) E) as (_ & _ & Htin).
    unfold usable in Eu. bprop. intros x. cbn. intros (t0 & Ht0 & ->)%elem_of_update_where.
    specialize (Ht t0 Ht0). case_bool_decide as Et; [|done].
    rewrite (unique_map_nodup _ _ _ _ (ok_tokens _ Hok) Ht0 Htin Et) in *. simpl. lia.
Qed.

(** ** The life of a command *)

Definition cmd_next (a b : string) : Prop :=
  (a = "queued" ∧ b = "delivered") ∨
  ((a = "queued" ∨ a = "delivered") ∧ b = "accepted") ∨
  (a = "accepted" ∧ (b = "succeeded" ∨ b = "failed")) ∨
  ((a = "queued" ∨ a = "delivered" ∨ a = "accepted") ∧ b = "expired").
Definition terminal (s : string) : Prop := s = "succeeded" ∨ s = "failed" ∨ s = "expired".

Record cmd_evolves (c c' : command_row) : Prop := {
  ev_same : c_id c' = c_id c ∧ c_sender c' = c_sender c ∧ c_device c' = c_device c ∧
            c_type c' = c_type c ∧ c_created c' = c_created c ∧ c_expires c' = c_expires c;
  ev_status : rtc cmd_next (c_status c) (c_status c');
  ev_final : terminal (c_status c) → c' = c
}.
Definition cmds_evolve (d d' : db) : Prop := ∀ i c, commands d !! i = Some c →
  ∃ c', commands d' !! i = Some c' ∧ cmd_evolves c c'.

Global Instance cmd_evolves_preorder : PreOrder cmd_evolves.
Proof.
  split.
  - intros c. split; [done|apply rtc_refl|done].
  - intros a b c [(?&?&?&?&?&?) S1 F1] [(?&?&?&?&?&?) S2 F2]. split.
    + split_and!; congruence.
    + by etrans.
    + intros Ht. specialize (F1 Ht). subst. by apply F2.
Qed.
Global Instance cmds_evolve_preorder : PreOrder cmds_evolve.
Proof.
  split.
  - intros d i c Hc. exists c; by split.
  - intros d1 d2 d3 H1 H2 i c Hc. destruct (H1 i c Hc) as (c' & Hc' & E1).
    destruct (H2 i c' Hc') as (c'' & Hc'' & E2). exists c''. split; [done|]. by etrans.
Qed.

Lemma evolve_same d d' : commands d' = commands d → cmds_evolve d d'.
Proof. intros E i c Hc. rewrite E. exists c. by split. Qed.

Lemma evolve_status p s d :
  (∀ r, r ∈ commands d → p r = true → cmd_evolves r (set_status s r)) →
  cmds_evolve d (snd (update_commands p (set_status s) d)).
Proof.
  intros Hev i c Hc. cbn. unfold update_where.
  exists (if p c then set_status s c else c). rewrite list_lookup_fmap, Hc. split; [done|].
  destruct (p c) eqn:E; [|done]. apply Hev; [|done]. by eapply list_elem_of_lookup_2.
Qed.

Lemma evolves_set_status s r :
  (c_status r = s ∨ cmd_next (c_status r) s) → ¬ terminal (c_status r) →
  cmd_evolves r (set_status s r).
Proof.
  intros Hs Hn. split; [done| |done]. simpl. destruct Hs as [<-|Hs]; [done|].
  by apply rtc_once.
Qed.

Lemma active_not_terminal s : is_active s = true → ¬ terminal s.
Proof.
  intros Ha [-> |[-> | ->]]; discriminate Ha.
Qed.

(** Deadlines are times the store can read back. *)
Definition commands_ok (d : db) : Prop := ∀ c, c ∈ commands d →
  command_allowed (c_type c) = true ∧ ∃ t, rfc_range t ∧ c_expires c = FormatRFC3339Nano t.

Lemma elem3 (x a b c : string) : x ∈ [a; b; c] ↔ x = a ∨ x = b ∨ x = c.
Proof. rewrite !elem_of_cons, elem_of_nil. tauto. Qed.
Lemma elem2 (x a b : string) : x ∈ [a; b] ↔ x = a ∨ x = b.
Proof. rewrite !elem_of_cons, elem_of_nil. tauto. Qed.

Lemma is_active_cases s : is_active s = true → s = "queued" ∨ s = "delivered" ∨ s = "accepted".
Proof. unfold is_active. intros Ha. bprop. by apply elem3. Qed.
Lemma in_pending_cases r :
  in_status ["queued"; "delivered"] r = true → c_status r = "queued" ∨ c_status r = "delivered".
Proof. unfold in_status. intros Ha. bprop. by apply elem2. Qed.

Lemma evolves_expired r : is_active (c_status r) = true → cmd_evolves r (set_status "expired" r).
Proof.
  intros Ha. apply evolves_set_status; [|by apply active_not_terminal].
  right. do 3 right. split; [by apply is_active_cases|done].
Qed.

Lemma pending_active r :
  in_status ["queued"; "delivered"] r = true → is_active (c_status r) = true.
Proof. intros [-> | ->]%in_pending_cases; done. Qed.

Lemma evolve_expire_pending n v d : cmds_evolve d (snd (expire_pending n v d)).
Proof.
  apply evolve_status. intros r _ Hp. bprop. by apply evolves_expired, pending_active.
Qed.
Lemma evolve_expire_all n d : cmds_evolve d (snd (expire_all n d)).
Proof. apply evolve_status. intros r _ Hp. bprop. by apply evolves_expired. Qed.

Lemma evolve_delivered n c v d : cmds_evolve d (snd (MarkCommandDelivered n c v d)).
Proof.
  assert (∀ p, (∀ r, p r = true → in_status ["queued"; "delivered"] r = true) →
    cmds_evolve d (snd (update_commands p (set_status "delivered") d))) as Hgen.
  { intros p Hp. apply evolve_status. intros r _ Hr%Hp.
    apply evolves_set_status; [|by apply active_not_terminal, pending_active].
    destruct (in_pending_cases _ Hr) as [-> | ->]; [right; by left|by left]. }
  unfold MarkCommandDelivered, bind, fail, ret.
  match goal with |- context [update_commands ?p] => specialize (Hgen p) end.
  destruct (update_commands _ _ d) as [[k|e] d'] eqn:E.
  - case_match; apply Hgen; intros r Hr; by bprop.
  - apply Hgen. intros r Hr. by bprop.
Qed.

(** The commit of [UpdateCommandResult] that changes a status. *)
Lemma evolve_result p s t e c d :
  (∀ r, r ∈ commands d → p r = true → r = c) →
  ¬ terminal (c_status c) → cmd_next (c_status c) s →
  cmds_evolve d (snd (update_commands p (set_result s t e) d)).
Proof.
  intros Hp Hn Hs i r Hr. cbn. unfold update_where.
  exists (if p r then set_result s t e r else r). rewrite list_lookup_fmap, Hr. split; [done|].
  destruct (p r) eqn:E; [|done].
  rewrite (Hp r (list_elem_of_lookup_2 _ _ _ Hr) E). split; [done| |done]. by apply rtc_once.
Qed.

Lemma valid_transition_next a b :
  validTransition a b = true → cmd_next a b ∧ is_active a = true.
Proof.
  unfold validTransition, cmd_next. intros Hv.
  apply orb_true_iff in Hv as [Hv|Hv]; bprop;
    match goal with H : _ || _ = true |- _ => apply orb_true_iff in H as [H|H] end;
    repeat match goal with H : _ || _ = true |- _ => apply orb_true_iff in H as [H|H] end;
    bprop; subst; (split; [|done]); tauto.
Qed.

Lemma the_command d i v c l :
  db_ok d → List.filter (λ r, bool_decide (c_id r = i) && bool_decide (c_device r = v))
    (commands d) = c :: l →
  c ∈ commands d ∧ c_id c = i ∧ ∀ r, r ∈ commands d → c_id r = i → r = c.
Proof.
  intros Hok E.
  assert (c ∈ List.filter (λ r, bool_decide (c_id r = i) && bool_decide (c_device r = v))
    (commands d)) as Hc by (rewrite E; left).
  apply list_elem_of_In, filter_In in Hc as [Hc%list_elem_of_In Hp]. bprop.
  split_and!; try done. intros r Hr Hi.
  by apply (unique_map_nodup _ _ _ _ (ok_commands _ Hok)); [| |congruence].
Qed.

Lemma evolve_command_result r n1 n2 c v s t e d :
  db_ok d → commands_ok d → cmds_evolve d (snd (UpdateCommandResult r n1 n2 c v s t e d)).
Proof.
  intros Hok Hc. unfold UpdateCommandResult.
  destruct (bool_decide (s ∈ result_statuses)); simpl; [|done].
  unfold bind, query_row, transaction, ret, fail, lift.
  destruct (List.filter _ (commands d)) as [|x l] eqn:E; [done|].
  destruct (the_command _ _ _ _ _ Hok E) as (Hx & Hxi & Hxu).
  destruct (Hc x Hx) as (_ & tx & Hrange & Htx).
  rewrite Htx, (parse_format tx) by done. rewrite bool_decide_eq_false_2 by done. simpl.
  destruct (is_active (c_status x) && After n1 tx) eqn:Ee.
  - apply andb_true_iff in Ee as [Ha _]. apply evolve_status. intros y Hy Hp. bprop.
    rewrite (Hxu y) by done. by apply evolves_expired.
  - destruct (c_status x =s s) eqn:Es; [done|].
    destruct (validTransition (c_status x) s) eqn:Ev; simpl; [|done].
    apply valid_transition_next in Ev as [Hn Ha].
    assert (cmds_evolve d (snd (update_commands (λ r0, bool_decide (c_id r0 = c)
      && bool_decide (c_device r0 = v)) (set_result s t e) d))) as Hev.
    { apply (evolve_result _ _ _ _ x); [|by apply active_not_terminal|done].
      intros y Hy Hp. bprop. by apply Hxu. }
    unfold insert_result. repeat (case_match; simplify_eq/=; try done).
    all: try (etrans; [exact Hev|]; apply evolve_same; done).
Qed.

(** Statements on other tables; and the new command of [CreateCommand]. *)
Definition same_commands (d d' : db) : Prop := commands d' = commands d.
Global Instance same_commands_preorder : PreOrder same_commands.
Proof. split; [done|]. unfold same_commands. intros a b c. congruence. Qed.

Lemma create_command_cases r n1 n2 s v t ttl d :
  same_commands d (snd (CreateCommand_insert r n1 n2 s v t ttl d)) ∨
  commands (snd (CreateCommand_insert r n1 n2 s v t ttl d)) =
    commands d ++ [queued_row r n1 n2 s v t ttl].
Proof. unfold CreateCommand_insert. run; (by left) || by right. Qed.

Lemma step_commands d d' :
  store_step d d' → db_ok d → commands_ok d →
  cmds_evolve d d' ∧
  (commands_ok d' ∧ ∀ i c', commands d' !! i = Some c' → commands d !! i = None →
                     c_status c' = "queued").
Proof.
  intros Hstep Hok Hc.
  assert (same_commands d d' ∨ cmds_evolve d d' ∧ length (commands d') = length (commands d)
    ∨ ∃ row, commands d' = commands d ++ [row] ∧ c_status row = "queued" ∧
        command_allowed (c_type row) = true ∧
        ∃ t, rfc_range t ∧ c_expires row = FormatRFC3339Nano t) as Hcases.
  { destruct Hstep;
    try (left; match goal with
      | |- same_commands ?d (snd (?m ?d)) =>
        cut (effect same_commands m); [intros Hs; exact (Hs d)|]
      end; clear Hok Hc; unfold_ops; by (effect_tac ltac:(first [loops|untouched]))).
    - destruct (create_command_cases r n1 n2 s v t ttl d) as [?|E]; [by left|].
      right. right. eexists. split; [exact E|]. split_and!; try done. by exists (n2 + ttl).
    - right. left. split; [apply evolve_expire_pending|]. cbn. apply length_map.
    - right. left. split; [apply evolve_delivered|].
      unfold MarkCommandDelivered. run; apply length_map.
    - right. left. split; [by apply evolve_command_result|].
      unfold UpdateCommandResult. destruct (negb _); [done|]. run; apply length_map.
    - right. left. split; [apply evolve_expire_all|]. cbn. apply length_map. }
  assert (cmds_evolve d d') as Hev.
  { destruct Hcases as [E|[[? _]|(row & E & _)]]; [by apply evolve_same|done|].
    intros i c Hi. exists c. split; [|done]. rewrite E. by apply lookup_app_l_Some. }
  split; [done|]. destruct Hcases as [E|[[_ El]|(row & E & Hq & Hrow)]].
  - unfold same_commands, commands_ok in *. rewrite E. split; [done|]. congruence.
  - split.
    + intros c' (i & Hi)%list_elem_of_lookup.
      destruct (commands d !! i) as [c|] eqn:Ei.
      * destruct (Hev i c Ei) as (c'' & Hc'' & [(_ & _ & _ & Et & _ & Ee) _ _]).
        simplify_eq. rewrite Et, Ee. apply Hc. by eapply list_elem_of_lookup_2.
      * apply lookup_ge_None in Ei. apply lookup_lt_Some in Hi. lia.
    + intros i c' Hi Hn. apply lookup_ge_None in Hn. apply lookup_lt_Some in Hi. lia.
  - unfold commands_ok. rewrite E. split.
    + intros c' [Hc'| ->%list_elem_of_singleton]%elem_of_app; [by apply Hc|done].
    + intros i c' Hi Hn. rewrite lookup_app, Hn in Hi. apply list_lookup_singleton_Some in Hi.
      by destruct Hi as [_ <-].
Qed.

(** ** The invariant of the store *)

Record store_ok (d : db) : Prop := {
  so_constraints : db_ok d; so_roles : roles_ok d; so_tokens : tokens_ok d;
  so_commands : commands_ok d
}.

Lemma empty_store_ok : store_ok empty_db.
Proof.
  split; [apply empty_db_ok|constructor|intros t Ht; by apply elem_of_nil in Ht
    |intros t Ht; by apply elem_of_nil in Ht].
Qed.

Lemma step_store_ok d d' : store_step d d' → store_ok d → store_ok d'.
Proof.
  intros Hs [Hd Hr Ht Hc]. split.
  - by apply (step_preserved d).
  - by apply (step_roles d).
  - by apply (step_tokens d).
  - by apply (step_commands d).
Qed.

Lemma steps_store_ok d d' : rtc store_step d d' → store_ok d → store_ok d'.
Proof. induction 1; eauto using step_store_ok. Qed.

Lemma steps_evolve d d' : rtc store_step d d' → store_ok d → cmds_evolve d d'.
Proof.
  induction 1 as [d|d d1 d2 Hs _ IH]; intros Hok; [reflexivity|].
  etrans; [by apply (step_commands d d1 Hs); apply Hok|]. apply IH. by eapply step_store_ok.
Qed.
End steps.
