(* ===== verification/StoreProperties.v ===== *)
(** * StoreProperties: what the methods of the store promise

    The functional behaviour of the store's methods on the states that
    [StoreSteps] shows to be reachable. *)
From S2P Require Import Prelude Text Net Clock Calendar Crypto Database.
From S2P Require Import Accounts Devices CommandStore History StoreSteps.
From Stdlib Require Import Init.Byte Strings.Byte.

(** ** Lemmas: the walk of [nextIP] *)

(** The [k]-th address after [base], modulo 2^32. *)
Definition nth_addr (base : list byte) (k : Z) : list byte := be_put 4 (be_get base + k).

Lemma inc_nth base k : inc (nth_addr base k) = nth_addr base (k + 1).
Proof.
  unfold nth_addr. apply be_get_inj; [by rewrite inc_length, !be_put_length|].
  rewrite inc_value, !be_get_put. unfold len. rewrite be_put_length.
  rewrite Zplus_mod_idemp_l. f_equal. lia.
Qed.

Lemma nth_addr_0 base : length base = 4%nat → nth_addr base 0 = base.
Proof. intros. unfold nth_addr. rewrite Z.add_0_r. by apply be_put_get. Qed.

(** An address the walk can hand out. *)
Definition last_byte (ip : list byte) : Z := default 0 (bZ <$> ip !! 3%nat).
Definition candidate (used : list string) (ip : list byte) : Prop :=
  last_byte ip ≠ 255 ∧ ip_string ip ∉ used.

(** The first candidate before the walk leaves the network. *)
Definition first_free (n : IPNet) (used : list string) (base : list byte) (lo hi j : Z) : Prop :=
  lo < j ≤ hi ∧ candidate used (nth_addr base j) ∧
  (∀ i, lo < i ≤ j → Contains n (nth_addr base i) = true) ∧
  (∀ i, lo < i < j → ¬ candidate used (nth_addr base i)).

Lemma next_go_spec fuel n used base k :
  match next_go fuel n used (nth_addr base k) with
  | Ok s => ∃ j, first_free n used base k (k + Z.of_nat fuel) j ∧ s = ip_string (nth_addr base j)
  | Err e => e = err_exhausted ∧ ∀ j, ¬ first_free n used base k (k + Z.of_nat fuel) j
  end.
Proof.
  revert k. induction fuel as [|fuel IH]; intros k; cbn [next_go].
  { split; [done|]. intros j [? _]. lia. }
  rewrite inc_nth. destruct (Contains n (nth_addr base (k + 1))) eqn:Ec; cbn [negb].
  2:{ split; [done|]. intros j (? & _ & Hc & _). rewrite Hc in Ec by lia. done. }
  fold (last_byte (nth_addr base (k + 1))).
  assert (¬ candidate used (nth_addr base (k + 1)) →
    match next_go fuel n used (nth_addr base (k + 1)) with
    | Ok s => ∃ j, first_free n used base k (k + Z.of_nat (S fuel)) j ∧
                   s = ip_string (nth_addr base j)
    | Err e => e = err_exhausted ∧ ∀ j, ¬ first_free n used base k (k + Z.of_nat (S fuel)) j
    end) as Hskip.
  { intros Hno. specialize (IH (k + 1)). destruct (next_go _ _ _ _) as [s|e].
    - destruct IH as (j & (Hj & Hcand & Hin & Hnot) & ->). exists j. split; [|done].
      split_and!; [lia|lia|done| |]; intros i Hi; destruct (decide (i = k + 1)) as [->|];
        try done; [apply Hin|apply Hnot]; lia.
    - destruct IH as (-> & Hnone). split; [done|]. intros j (Hj & Hcand & Hin & Hnot).
      destruct (decide (j = k + 1)) as [->|]; [done|]. apply (Hnone j).
      split_and!; [lia|lia|apply Hcand| |]; intros i Hi; [apply Hin|apply Hnot]; lia. }
  destruct (Z.eqb_spec (last_byte (nth_addr base (k + 1))) 255).
  { apply Hskip. by intros []. }
  case_bool_decide as Eu; cbn [negb]; [by apply Hskip; intros []|].
  exists (k + 1). split; [|done].
  split_and!; [lia|lia|by split| |]; intros i Hi; [by replace i with (k + 1) by lia|lia].
Qed.

(** ** Properties *)

Section properties.
Context `{Primitives}.

(** C14: everything the store can reach is consistent.  From an empty database,
    under any interleaving of the accesses its methods make, ids, user names,
    virtual addresses and token hashes stay unique and references stay valid;
    every user has exactly one role; no token is used more often than it
    allows; and commands have an allowed type and a readable deadline. *)
Theorem store_invariant d : rtc store_step empty_db d → store_ok d.
Proof. intros Hs. eapply steps_store_ok; [exact Hs|apply empty_store_ok]. Qed.

(** C24: A token is consumed exactly when it exists, is not revoked, has not
    expired and has uses left; then the caller gets its owner and only its use
    count changes, by one; otherwise nothing changes. *)
Theorem consume_token now v d :
  db_ok d →
  (∀ u, fst (ConsumeToken now v d) = Ok u ↔
     ∃ t, t ∈ tokens d ∧ t_hash t = hash v ∧ t_user t = u ∧ t_revoked t = false ∧
          now ≤ ParseTime (t_expires t) ∧ t_uses t < t_max t) ∧
  (∀ e, fst (ConsumeToken now v d) = Err e → snd (ConsumeToken now v d) = d) ∧
  (∀ u t, fst (ConsumeToken now v d) = Ok u → t ∈ tokens d → t_hash t = hash v →
     snd (ConsumeToken now v d) =
     set_tokens (update_where (λ r, bool_decide (t_id r = t_id t)) use_token (tokens d)) d).
Proof.
  intros Hok. rewrite ConsumeToken_eq by done.
  destruct (where_is t_hash (hash v) (tokens d)) as [|t l] eqn:E.
  - apply where_is_nil in E. split_and!; try done. intros u. split; [done|].
    intros (t & Ht & Hh & _). destruct E. rewrite <- Hh. by apply list_elem_of_fmap_2.
  - destruct (filter_unique _ _ _ _ _ (ok_token_hashes _ Hok) E) as (-> & Hh & Ht).
    assert (∀ t', t' ∈ tokens d → t_hash t' = hash v → t' = t) as Hu.
    { intros t' Ht' Hh'.
      apply (unique_map_nodup _ _ _ _ (ok_token_hashes _ Hok)); congruence. }
    assert (usable now t = true ↔ t_revoked t = false ∧ now ≤ ParseTime (t_expires t) ∧
      t_uses t < t_max t) as Hus.
    { unfold usable, After. rewrite negb_true_iff, !orb_false_iff, Z.ltb_ge, Z.leb_gt. tauto. }
    destruct (usable now t); split_and!; try done.
    + intros u. split.
      * intros [= <-]. exists t. by pose proof (proj1 Hus eq_refl).
      * intros (t' & Ht' & Hh' & <- & _). by rewrite (Hu t').
    + intros u t' _ Ht' Hh'. by rewrite (Hu t').
    + intros u. split; [done|]. intros (t' & Ht' & Hh' & _ & Hok'). rewrite (Hu t') in Hok' by done.
      by apply Hus in Hok'.
Qed.

(** C28: The address allocation is exact.  For a network given by an IPv4
    address, [nextIP] returns the first address after the server's (the
    address in the CIDR text plus one) that ends in another byte than 255 and
    that no device has, provided the walk is inside the network up to it; and
    it fails only when there is none among the 2^20 it tries.  (The broadcast
    address of a network that does not end at 255 is such an address.) *)
Theorem next_ip_spec network base16 n d :
  ParseCIDR network = Some (base16, n) → length (To4 base16) = 4%nat →
  snd (nextIP network d) = d ∧
  match fst (nextIP network d) with
  | Ok s => ∃ j, first_free n (map d_ip (devices d)) (To4 base16) 1 (1 + 2 ^ 20) j ∧
                 s = ip_string (nth_addr (To4 base16) j)
  | Err e => e = err_exhausted ∧
             ∀ j, ¬ first_free n (map d_ip (devices d)) (To4 base16) 1 (1 + 2 ^ 20) j
  end.
Proof.
  intros Hp Hl. unfold nextIP. rewrite Hp. split; [done|]. unfold bind, query, lift. cbn [fst].
  pose proof (next_go_spec next_rounds n (map d_ip (devices d)) (To4 base16) 1) as Hs.
  replace (Z.of_nat next_rounds) with (2 ^ 20) in Hs by (unfold next_rounds; by rewrite Z2Nat.id).
  pose proof (inc_nth (To4 base16) 0) as Hi. rewrite nth_addr_0 in Hi by done.
  rewrite Hi. exact Hs.
Qed.

(** The address that [SetDeviceVirtualIP] keeps for the server. *)
Definition server_ip (n : IPNet) (reserved : string) : list byte :=
  let ip := To4 (ParseIP reserved) in
  if bool_decide (ip = []) then inc (To4 (nIP n)) else ip.

(** An address can be given to a device. *)
Definition assignable (d : db) (dev : string) (n : IPNet) (vip : list byte) (reserved : string) :=
  To4 vip ≠ [] ∧ Contains n vip = true ∧
  ip_equal (To4 vip) (To4 (nIP n)) = false ∧
  ip_equal (To4 vip) (server_ip n reserved) = false ∧
  ip_equal (To4 vip) (broadcast_of (To4 (nIP n)) (nMask n)) = false ∧
  dev ∈ map d_id (devices d) ∧
  ∀ r, r ∈ devices d → d_id r ≠ dev → d_ip r ≠ ip_string (To4 vip).

Lemma update_where_none {A} p (g : A → A) l :
  (∀ r, r ∈ l → p r = false) → update_where p g l = l.
Proof.
  intros Hp. unfold update_where. rewrite <- (map_id l) at 2. apply map_ext_in.
  intros r Hr%list_elem_of_In. by rewrite Hp.
Qed.

Lemma affected_key {A} (f : A → string) v l :
  unique f l → affected (λ r, bool_decide (f r = v)) l = if has_value f v l then 1 else 0.
Proof.
  intros Hu. unfold affected. fold (where_is f v l).
  destruct (has_value f v l) eqn:E.
  - destruct (where_is f v l) as [|r k] eqn:Ew.
    + apply where_is_nil in Ew. by apply has_value_true in E.
    + by destruct (filter_unique _ _ _ _ _ Hu Ew) as (-> & _).
  - apply has_value_false, where_is_nil in E. by rewrite E.
Qed.

Lemma set_devices_same d : set_devices (devices d) d = d.
Proof. by destruct d. Qed.

(** A device gets the virtual address an administrator asks for exactly
    when it is an IPv4 address of the network, is not the network's, the
    server's or the broadcast address, the device exists and no other device
    has the address; then the device has it.  In every other case nothing
    changes. *)
Theorem set_virtual_ip dev vip network reserved d :
  db_ok d →
  let r := fst (SetDeviceVirtualIP dev vip network reserved d) in
  let d' := snd (SetDeviceVirtualIP dev vip network reserved d) in
  let ip := ParseIP (TrimSpace vip) in
  (r = Ok tt ↔ ∃ base n, ParseCIDR network = Some (base, n) ∧ assignable d dev n ip reserved) ∧
  (r = Ok tt → ∀ row, row ∈ devices d' → d_id row = dev → d_ip row = ip_string (To4 ip)) ∧
  (r ≠ Ok tt → d' = d).
Proof.
  intros Hok. unfold SetDeviceVirtualIP, assignable, server_ip.
  destruct (ParseCIDR network) as [[base n]|]; cbn [fst snd fail].
  2:{ split_and!; try done. split; [done|]. by intros (? & ? & ? & _). }
  set (ip := ParseIP (TrimSpace vip)).
  destruct (bool_decide (To4 ip = []) || negb (Contains n ip)) eqn:E1; cbn [fst snd fail].
  { split_and!; try done. split; [done|]. intros (? & ? & [= <- <-] & Hne & Hc & _).
    rewrite Hc, bool_decide_eq_false_2 in E1 by done. done. }
  apply orb_false_iff in E1 as [E1 Hc]. apply bool_decide_eq_false in E1.
  apply negb_false_iff in Hc. cbv zeta.
  set (srv := if bool_decide (To4 (ParseIP reserved) = []) then _ else _).
  destruct (ip_equal (To4 ip) (To4 (nIP n)) || _ || _) eqn:E2; cbn [fst snd fail].
  { split_and!; try done. split; [done|].
    intros (? & ? & [= <- <-] & _ & _ & A1 & A2 & A3 & _). fold srv in A2.
    by rewrite A1, A2, A3 in E2. }
  apply orb_false_iff in E2 as [E2 A3]. apply orb_false_iff in E2 as [A1 A2].
  unfold already_assigned, map_err, update_device_ip, bind.
  set (taken := existsb _ (devices d) && existsb _ (devices d)).
  assert (dev ∈ map d_id (devices d) → taken = true ↔
    ∃ r, r ∈ devices d ∧ d_id r ≠ dev ∧ d_ip r = ip_string (To4 ip)) as Htaken.
  { intros Hdev%has_value_true. unfold taken. unfold has_value in Hdev. rewrite Hdev. simpl.
    rewrite existsb_exists. split.
    - intros (r & Hr%list_elem_of_In & Hb). bprop. eauto.
    - intros (r & Hr & Hne & Hip). exists r. rewrite <- list_elem_of_In. split; [done|].
      by rewrite bool_decide_eq_true_2, bool_decide_eq_false_2. }
  destruct taken eqn:Et; cbn [fst snd fail].
  { split_and!; try done. split; [done|].
    intros (? & ? & [= <- <-] & _ & _ & _ & _ & _ & Hdev & Hno).
    destruct (proj1 (Htaken Hdev) eq_refl) as (r & Hr & Hne & Hip). by destruct (Hno r Hr Hne). }
  rewrite affected_key by apply (ok_devices _ Hok).
  destruct (has_value d_id dev (devices d)) eqn:Ed.
  - apply has_value_true in Ed. cbn. split_and!; [|intros _|done].
    + split; [intros _|done]. exists base, n. split_and!; try done. intros r Hr Hne Hip.
      assert (false = true); [|done]. apply (Htaken Ed). eauto.
    + intros row (r & Hr & ->)%elem_of_update_where Hid. case_bool_decide; done.
  - apply has_value_false in Ed. cbn. split_and!; [|done|intros _].
    + split; [done|]. intros (? & ? & [= <- <-] & _ & _ & _ & _ & _ & Hdev & _). done.
    + rewrite update_where_none; [apply set_devices_same|].
      intros r Hr. apply bool_decide_eq_false. intros E. apply Ed, list_elem_of_fmap. eauto.
Qed.

(** Joining.  On success the token was usable, the new device belongs to
    its owner and has an address no other device had, and the table of devices
    only gains it.  On failure the devices are unchanged.  In both cases a
    usable token has lost a use: a join that fails for want of an address
    still consumes it. *)
Theorem join_device rnd now1 now2 token name os arch version network key d :
  db_ok d →
  let r := fst (JoinDevice rnd now1 now2 token name os arch version network key d) in
  let d' := snd (JoinDevice rnd now1 now2 token name os arch version network key d) in
  (∀ dev, r = Ok dev →
     fst (ConsumeToken now1 token d) = Ok (dUserID dev) ∧
     (VirtualIP dev ∉ map d_ip (devices d)) ∧
     ∃ row, devices d' = devices d ++ [row] ∧ d_id row = dID dev ∧ d_ip row = VirtualIP dev ∧
            d_user row = dUserID dev ∧ d_key row = key ∧ d_revoked row = false) ∧
  (is_ok r = false → devices d' = devices d) ∧
  tokens d' = tokens (snd (ConsumeToken now1 token d)).
Proof.
  intros Hok r d'. unfold r, d', JoinDevice, bind.
  assert (devices (snd (ConsumeToken now1 token d)) = devices d) as Hd.
  { rewrite ConsumeToken_eq by done. by repeat case_match. }
  destruct (ConsumeToken now1 token d) as [[u|e] d1]; cbn [fst snd] in *; [|done].
  assert (snd (nextIP network d1) = d1) as Hn.
  { unfold nextIP. case_match; [|done]. by case_match. }
  destruct (nextIP network d1) as [[vip|e] d2]; cbn [fst snd] in *; subst d2; [|done].
  unfold JoinDevice_insert, bind, insert_device, ret.
  cbv beta zeta. cbn [dID dUserID dName VirtualIP d_id d_ip d_user].
  destruct (has_value d_id _ (devices d1)); [done|].
  destruct (has_value d_ip vip (devices d1)) eqn:Ei; [done|].
  destruct (has_value u_id u (users d1)); [|done].
  cbn [fst snd devices tokens set_devices]. split_and!; [|done|done].
  intros dev [= <-]. cbn [dUserID VirtualIP dID]. split_and!; [done| |].
  - apply has_value_false in Ei. by rewrite <- Hd.
  - eexists. rewrite Hd. split; [reflexivity|done].
Qed.

(** Setting up an empty store. *)
Lemma initial_admin_run rnd now name ph d :
  users d = [] → user_roles d = [] →
  let i := new_id "usr" rnd in
  CreateInitialAdmin rnd now name ph d =
  (Ok (mkUser i name "admin" false now),
   set_user_roles [(i, "role_admin")]
     (set_users [mkUserRow i name ph false (FormatRFC3339Nano now)] d)).
Proof.
  intros Hu Hr i. destruct d as [us ur]. cbn in Hu, Hr. subst us ur.
  assert (∀ i a b c e, has_value u_id i [mkUserRow i a b c e] = true) as Hv.
  { intros. unfold has_value. cbn. by rewrite bool_decide_eq_true_2. }
  unfold CreateInitialAdmin, transaction, bind, query, wrap, map_err, ret.
  cbn [users]. change (len (@nil user_row) =? 0) with true. cbn [negb].
  unfold insert_user, insert_user_role. cbn -[has_value roles new_id].
  change (has_value u_id (new_id "usr" rnd) []) with false.
  change (has_value u_username name []) with false. cbn -[has_value roles new_id].
  rewrite Hv. change (has_value fst "role_admin" roles) with true. done.
Qed.

(** The initial administrator is created once: the call succeeds only when
    there is no user, and then there is exactly one, an administrator; with
    any user present it changes nothing. *)
Theorem initial_admin rnd now name ph d :
  store_ok d →
  let r := fst (CreateInitialAdmin rnd now name ph d) in
  let d' := snd (CreateInitialAdmin rnd now name ph d) in
  (is_ok r = true ↔ users d = []) ∧
  (is_ok r = true → ∃ u, users d' = [u] ∧ u_username u = name ∧ u_hash u = ph ∧
     u_disabled u = false ∧ role_names d' (u_id u) = ["admin"]) ∧
  (is_ok r = false → d' = d).
Proof.
  intros [Hok Hr _ _] r d'. unfold r, d'. destruct (users d) as [|u l] eqn:Eu.
  - unfold roles_ok in Hr. rewrite Eu in Hr. apply Permutation_nil_r, map_eq_nil in Hr.
    rewrite initial_admin_run by done. cbn [fst snd is_ok].
    split_and!; [done| |done]. intros _. eexists. split; [reflexivity|].
    split_and!; try done. unfold role_names. cbn [u_id user_roles set_user_roles].
    assert (∀ i rid : string, where_is fst i [(i, rid)] = [(i, rid)]) as ->; [|done].
    intros. unfold where_is. cbn. by rewrite bool_decide_eq_true_2.
  - unfold CreateInitialAdmin, transaction, bind, query, fail. rewrite Eu.
    assert ((len (u :: l) =? 0) = false) as -> by (apply Z.eqb_neq; unfold len; simpl; lia).
    by split_and!.
Qed.

(** C7: The life of a command.  Whatever happens to the store after any
    reachable state, no command is lost, its identity and deadline never
    change, its status moves only along queued, delivered, accepted, and then
    succeeded or failed, or to expired from a state that is not final; and in a
    final state it never changes again. *)
Theorem command_lifecycle d d' :
  rtc store_step empty_db d → rtc store_step d d' →
  ∀ i c, commands d !! i = Some c → ∃ c', commands d' !! i = Some c' ∧
    (c_id c' = c_id c ∧ c_sender c' = c_sender c ∧ c_device c' = c_device c ∧
     c_type c' = c_type c ∧ c_created c' = c_created c ∧ c_expires c' = c_expires c) ∧
    rtc cmd_next (c_status c) (c_status c') ∧ (terminal (c_status c) → c' = c).
Proof.
  intros H1 H2 i c Hc.
  assert (store_ok d) as Hok by (eapply steps_store_ok; [exact H1|apply empty_store_ok]).
  destruct (steps_evolve d d' H2 Hok i c Hc) as (c' & Hc' & []). eauto.
Qed.

(** ** Deadlines *)

Lemma in_pending c : in_status ["queued"; "delivered"] c = true ↔
  c_status c = "queued" ∨ c_status c = "delivered".
Proof. unfold in_status. rewrite bool_decide_eq_true. apply elem2. Qed.

Lemma elem_of_order_by {A} (le : A → A → bool) l x : x ∈ order_by le l ↔ x ∈ l.
Proof. unfold order_by. by rewrite merge_sort_Permutation. Qed.

(** Deadlines in SQL are exact up to the second.  [PendingCommandsForDevice]
    hands out only commands of the device that are queued or delivered and
    whose deadline is at most one second in the past (never one of an earlier
    second), and it expires only commands whose deadline is at most one second
    in the future. *)
Theorem pending_deadline now dev limit d :
  commands_ok d → rfc_range now →
  let d' := snd (PendingCommandsForDevice now dev limit d) in
  (∃ l, fst (PendingCommandsForDevice now dev limit d) = Ok l ∧
     (length l ≤ 50)%nat ∧
     ∀ m, m ∈ l → DeviceID m = dev ∧ (Status m = "queued" ∨ Status m = "delivered") ∧
                  Unix now ≤ Unix (ExpiresAt m)) ∧
  (∀ i c c', commands d !! i = Some c → commands d' !! i = Some c' → c' ≠ c →
     c_device c = dev ∧ c' = set_status "expired" c ∧
     Unix (ParseTime (c_expires c)) ≤ Unix now).
Proof.
  intros Hc Hnow d'. unfold d', PendingCommandsForDevice.
  set (lim := clamp limit 50 20).
  assert (0 ≤ lim ≤ 50) as Hlim by (unfold lim, clamp; case_match; bprop; lia).
  unfold bind, expire_pending, update_commands, select_pending, query. cbn [fst snd].
  set (p := λ r, bool_decide (c_device r = dev) && in_status _ r && text_le _ _).
  assert (∀ c, c ∈ commands d →
    ∃ t, rfc_range t ∧ c_expires c = FormatRFC3339Nano t ∧ ParseTime (c_expires c) = t) as Ht.
  { intros c Hin. destruct (Hc c Hin) as (_ & t & Hr & E). exists t.
    rewrite E. by rewrite ParseTime_Format. }
  split.
  - eexists. split; [reflexivity|]. split.
    { rewrite length_map, length_take. lia. }
    intros m (r & -> & Hr)%list_elem_of_fmap. apply elem_of_take in Hr as (i & Hr & _).
    apply list_elem_of_lookup_2 in Hr. rewrite elem_of_order_by in Hr.
    apply list_elem_of_In, filter_In in Hr as [Hr%list_elem_of_In Hb]. bprop.
    cbn [commands set_commands] in Hr. apply elem_of_update_where in Hr as (r0 & Hr0 & E).
    destruct (p r0) eqn:Ep.
    { subst r. unfold in_status in *. cbn in *. bprop.
      match goal with H : "expired" ∈ _ |- _ => by apply elem2 in H as [?|?] end. }
    subst r0. cbn [DeviceID Status scanCommand ExpiresAt]. split_and!; [done|by apply in_pending|].
    destruct (Ht r Hr0) as (t & Hrt & Et & Etp). rewrite Etp.
    apply text_le_unix; [done..|]. rewrite <- Et. unfold text_le, text_lt, String.leb, String.ltb in *.
    by case_match.
  - intros i c c' Hi Hi' Hne. cbn [commands set_commands] in Hi'. unfold update_where in Hi'.
    rewrite list_lookup_fmap, Hi in Hi'. simpl in Hi'. destruct (p c) eqn:Ep; simplify_eq.
    unfold p in Ep. bprop. split_and!; [done..|].
    destruct (Ht c) as (t & Hrt & Et & Etp); [by eapply list_elem_of_lookup_2|].
    rewrite Etp. apply text_le_unix; [done..|]. by rewrite <- Et.
Qed.

(** ** The budget of the history *)

Definition storage (l : list flow_row) : Z := sumZ (map f_storage l).

Lemma text_le_total a b : text_le a b = true ∨ text_le b a = true.
Proof.
  unfold text_le, String.leb. rewrite (String.compare_antisym b a).
  destruct (String.compare a b); simpl; auto.
Qed.
Lemma text_le_trans a b c : text_le a b = true → text_le b c = true → text_le a c = true.
Proof.
  unfold text_le, String.leb. intros H1 H2.
  destruct (String.compare a b) eqn:E1; [|clear H1|done].
  - apply String.compare_eq_iff in E1 as ->. done.
  - destruct (String.compare b c) eqn:E2; [|clear H2|done].
    + apply String.compare_eq_iff in E2 as ->. by rewrite E1.
    + by rewrite (string_compare_lt_trans a b c).
Qed.
Lemma text_le_antisym a b : text_le a b = true → text_le b a = true → a = b.
Proof.
  unfold text_le, String.leb. rewrite (String.compare_antisym b a).
  destruct (String.compare a b) eqn:E; simpl; try done. intros _ _.
  by apply String.compare_eq_iff in E.
Qed.

Lemma older_cases a b : older a b = true ↔
  (f_recorded a = f_recorded b ∧ f_id a ≤ f_id b) ∨
  (f_recorded a ≠ f_recorded b ∧ text_le (f_recorded a) (f_recorded b) = true).
Proof.
  unfold older. destruct (String.eqb_spec (f_recorded a) (f_recorded b)).
  - rewrite Z.leb_le. tauto.
  - tauto.
Qed.

Lemma order_sorted {A} (le : A → A → bool) l :
  (∀ a b, le a b = true ∨ le b a = true) →
  (∀ a b c, le a b = true → le b c = true → le a c = true) →
  StronglySorted (λ a b, le a b = true) (order_by le l).
Proof.
  intros Ht Htr. apply Sorted_StronglySorted; [intros a b c; apply Htr|].
  apply (Sorted_merge_sort (Total0 := Ht) _).
Qed.

Lemma older_sorted l : StronglySorted (λ a b, older a b = true) (order_by older l).
Proof.
  apply order_sorted.
  - intros a b. rewrite !older_cases. destruct (decide (f_recorded a = f_recorded b)) as [E|E].
    + destruct (decide (f_id a ≤ f_id b)); [left|right]; left; split; congruence || lia.
    + destruct (text_le_total (f_recorded a) (f_recorded b)); [left|right]; right; split; congruence.
  - intros a b c. rewrite !older_cases.
    intros [[E1 H1]|[E1 H1]] [[E2 H2]|[E2 H2]].
    + left. split; [congruence|lia].
    + right. rewrite E1. done.
    + right. rewrite <- E2. done.
    + right. split; [|by eapply text_le_trans]. intros E. apply E1.
      apply text_le_antisym; [done|]. by rewrite E.
Qed.

Lemma delete_ids_run ids d :
  delete_ids ids d =
  (Ok tt, set_flows (List.filter (λ r, negb (bool_decide (f_id r ∈ ids))) (flow_history d))
            (seq_flow d) d).
Proof.
  revert d. induction ids as [|i ids IH]; intros d.
  - destruct d. simpl. unfold ret, set_flows. simpl. do 2 f_equal.
    rewrite forallb_filter_id; [done|]. by apply forallb_forall.
  - simpl. unfold bind, delete_flows. rewrite IH. cbn [flow_history seq_flow set_flows].
    unfold delete_where.
    assert (∀ l, List.filter (λ r, negb (bool_decide (f_id r ∈ ids)))
      (List.filter (λ r, negb (f_id r =? i)) l) =
      List.filter (λ r, negb (bool_decide (f_id r ∈ i :: ids))) l) as ->; [|done].
    intros l. induction l as [|r l IHl]; [done|].
    cbn [List.filter]. destruct (Z.eqb_spec (f_id r) i) as [E|E]; cbn [negb].
    + rewrite bool_decide_eq_true_2 by (rewrite E; left). cbn [negb]. done.
    + cbn [List.filter]. rewrite (bool_decide_ext (f_id r ∈ i :: ids) (f_id r ∈ ids))
        by (rewrite elem_of_cons; tauto).
      destruct (negb _); by rewrite IHl.
Qed.

Lemma trim_ids_spec rows total rem mx :
  ∃ removed kept, rows = removed ++ kept ∧ trim_ids rows total rem mx = map f_id removed ∧
    (kept ≠ [] → total - rem - storage removed ≤ mx) ∧
    (∀ l r, removed = l ++ [r] → mx < total - rem - storage l).
Proof.
  revert rem. induction rows as [|r rows IH]; intros rem; simpl.
  - exists [], []. split_and!; try done. intros l r E. by apply app_cons_not_nil in E.
  - destruct (Z.ltb_spec mx (total - rem)) as [Hlt|Hge].
    + destruct (IH (rem + f_storage r)) as (removed & kept & -> & -> & Hk & Hm).
      exists (r :: removed), kept. split_and!; try done.
      * unfold storage in *. simpl. intros Hn. specialize (Hk Hn). lia.
      * intros [|x l] y E; simpl in E; simplify_eq.
        -- unfold storage. simpl. lia.
        -- specialize (Hm l y eq_refl). unfold storage in *. simpl. lia.
    + exists [], (r :: rows). split_and!; try done.
      * unfold storage. simpl. lia.
      * intros l x E. by apply app_cons_not_nil in E.
Qed.

(** What trimming leaves, when the sum fits 64 bits. *)
Definition trimmed (mx : Z) (l l' : list flow_row) : Prop :=
  ∃ removed kept, removed ++ kept ≡ₚ l ∧ l' ≡ₚ kept ∧
    (∀ x y, x ∈ removed → y ∈ kept → older x y = true) ∧
    storage l' ≤ mx ∧
    (∀ k r, removed = k ++ [r] → mx < storage (r :: l')).

Lemma storage_perm l k : l ≡ₚ k → storage l = storage k.
Proof. unfold storage. by intros ->. Qed.

Lemma trim_run mx d :
  db_ok d → 0 < mx → storage (flow_history d) ≤ MaxInt64 →
  fst (trimFlowHistory mx d) = Ok tt ∧
  trimmed mx (flow_history d) (flow_history (snd (trimFlowHistory mx d))).
Proof.
  intros Hok Hmx Hfit. unfold trimFlowHistory, bind, query, lift, sum_storage.
  fold (storage (flow_history d)). rewrite (proj2 (Z.ltb_ge _ _)) by done.
  destruct (Z.leb_spec (storage (flow_history d)) mx) as [Hle|Hgt].
  { split; [done|]. exists [], (flow_history d). split_and!; try done.
    - intros x y H'. by apply elem_of_nil in H'.
    - intros k r E. by apply app_cons_not_nil in E. }
  destruct (trim_ids_spec (order_by older (flow_history d)) (storage (flow_history d)) 0 mx)
    as (removed & kept & E & -> & Hk & Hm).
  rewrite delete_ids_run. split; [done|]. cbn [fst snd flow_history set_flows].
  assert (removed ++ kept ≡ₚ flow_history d) as Hperm
    by (rewrite <- E; apply merge_sort_Permutation).
  assert (NoDup (map f_id (removed ++ kept))) as Hnd
    by (rewrite Hperm; apply (ok_flows _ Hok)).
  rewrite map_app in Hnd. apply NoDup_app in Hnd as (_ & Hdis & _).
  set (keep := λ r, negb (bool_decide (f_id r ∈ map f_id removed))).
  assert (List.filter keep (flow_history d) ≡ₚ kept) as Hkept.
  { rewrite <- (filter_perm keep _ _ Hperm), List.filter_app.
    rewrite (forallb_filter_id keep kept).
    - assert (List.filter keep removed = []) as ->; [|done].
      apply filter_none. intros r Hr. unfold keep.
      rewrite bool_decide_eq_true_2; [done|]. by apply list_elem_of_fmap_2.
    - apply forallb_forall. intros r Hr%list_elem_of_In. unfold keep.
      rewrite bool_decide_eq_false_2; [done|]. intros Hin. apply (Hdis _ Hin).
      by apply list_elem_of_fmap_2. }
  assert (storage (flow_history d) = storage removed + storage kept) as Hsum.
  { rewrite <- (storage_perm _ _ Hperm). unfold storage. by rewrite map_app, sumZ_app. }
  exists removed, kept. split_and!; [done|done| | |].
  - intros x y Hx Hy. pose proof (older_sorted (flow_history d)) as Hs. rewrite E in Hs.
    exact (StronglySorted_app_1_elem_of _ _ _ _ _ Hs Hx Hy).
  - rewrite (storage_perm _ _ Hkept). destruct kept as [|r kept]; [unfold storage; simpl; lia|].
    specialize (Hk ltac:(done)). lia.
  - intros k r Er. specialize (Hm k r Er). rewrite Er in Hsum.
    unfold storage in *. rewrite map_app, sumZ_app in Hsum. simpl in *.
    pose proof (storage_perm _ _ Hkept) as Hp. unfold storage in Hp. rewrite Hp. lia.
Qed.

Lemma insert_history_run records mx d :
  db_ok d → records ≠ [] → fst (InsertFlowHistory records mx d) = Ok tt →
  storage (flow_history (snd (InsertFlowHistory records mx d))) ≤ mx.
Proof.
  intros Hok Hne. unfold InsertFlowHistory. destruct records as [|r records]; [done|].
  destruct (Z.leb_spec mx 0) as [|Hmx]; [done|]. unfold transaction, bind.
  pose proof (keeps_insert_records (r :: records) d Hok) as Hok1.
  destruct (insert_records (r :: records) d) as [[[]|e] d1]; [|done]. cbn [snd] in Hok1.
  destruct (decide (storage (flow_history d1) ≤ MaxInt64)) as [Hfit|Hfit].
  - destruct (trim_run mx d1 Hok1 Hmx Hfit) as (Hr & removed & kept & _ & _ & _ & Hs & _).
    destruct (trimFlowHistory mx d1) as [[[]|e] d2]; done.
  - assert (trimFlowHistory mx d1 = (Err "integer overflow", d1)) as ->; [|done].
    unfold trimFlowHistory, bind, query, lift, sum_storage. fold (storage (flow_history d1)).
    by rewrite (proj2 (Z.ltb_lt _ _)) by lia.
Qed.

(** The history stays within its budget, and only its oldest part is given
    up.  Trimming splits the rows into removed ones and kept ones, each removed
    one older than each kept one; what is kept fits the budget, and would not
    with the newest removed row.  An insertion that succeeds leaves at most the
    budget; one that fails leaves the history as it was. *)
Theorem history_budget records mx d :
  db_ok d → 0 < mx → storage (flow_history d) ≤ MaxInt64 →
  fst (TrimFlowHistory mx d) = Ok tt ∧
  trimmed mx (flow_history d) (flow_history (snd (TrimFlowHistory mx d))) ∧
  (records ≠ [] → fst (InsertFlowHistory records mx d) = Ok tt →
     storage (flow_history (snd (InsertFlowHistory records mx d))) ≤ mx) ∧
  (fst (InsertFlowHistory records mx d) ≠ Ok tt → snd (InsertFlowHistory records mx d) = d).
Proof.
  intros Hok Hmx Hfit. split; [|split; [|split]].
  - unfold TrimFlowHistory. rewrite (proj2 (Z.leb_gt _ _)) by done. unfold transaction.
    destruct (trim_run mx d Hok Hmx Hfit) as (Hr & _).
    destruct (trimFlowHistory mx d) as [[[]|e] d2]; done.
  - unfold TrimFlowHistory. rewrite (proj2 (Z.leb_gt _ _)) by done. unfold transaction.
    destruct (trim_run mx d Hok Hmx Hfit) as (Hr & Ht).
    destruct (trimFlowHistory mx d) as [[[]|e] d2]; done.
  - by apply insert_history_run.
  - unfold InsertFlowHistory. destruct records; [done|]. case_match; [done|].
    unfold transaction. destruct (bind _ _ d) as [[[]|e] d2]; done.
Qed.

(** ** Sessions *)

Lemma elem_of_where_is {A K} `{EqDecision K} (f : A → K) v l x :
  x ∈ where_is f v l ↔ x ∈ l ∧ f x = v.
Proof.
  unfold where_is. rewrite list_elem_of_In, filter_In, <- list_elem_of_In.
  by rewrite bool_decide_eq_true.
Qed.

Lemma elem_of_concat {A} (x : A) l : x ∈ concat l ↔ ∃ k, k ∈ l ∧ x ∈ k.
Proof.
  rewrite list_elem_of_In, in_concat. setoid_rewrite list_elem_of_In. done.
Qed.

Lemma role_names_cons d u : ∃ r l, role_names d u = r :: l.
Proof. unfold role_names. destruct (where_is _ _ _); eauto. Qed.

Lemma SessionUser_inv now v d usr :
  fst (SessionUser now v d) = Ok usr →
  ∃ s u, s ∈ sessions d ∧ s_hash s = hash v ∧ u ∈ users d ∧ u_id u = s_user s ∧
    ID usr = u_id u ∧ Username usr = u_username u ∧ u_disabled u = false ∧
    now ≤ ParseTime (s_expires s) ∧ Role usr ∈ role_names d (u_id u).
Proof.
  unfold SessionUser, bind, query_row.
  destruct (session_join d (hash v)) as [|[s [u role]] l] eqn:E; [done|].
  assert ((s, (u, role)) ∈ session_join d (hash v)) as Hin by (rewrite E; left).
  unfold session_join, user_join in Hin.
  apply elem_of_concat in Hin as (k & (s' & -> & Hs)%list_elem_of_fmap & Hk).
  apply list_elem_of_fmap in Hk as (x & [= -> <-] & Hx).
  apply elem_of_concat in Hx as (k & (u' & -> & Hu)%list_elem_of_fmap & Hk).
  apply list_elem_of_fmap in Hk as (ro & [= -> <-] & Hro).
  apply elem_of_where_is in Hs as [Hs Hh], Hu as [Hu Hid].
  destruct (u_disabled u') eqn:Ed; [done|]. cbn [orb]. unfold After.
  destruct (Z.ltb_spec (ParseTime (s_expires s')) now); [done|]. intros [= <-].
  eexists _, _. by split_and!.
Qed.

Lemma where_is_unique {A K} `{EqDecision K} (f : A → K) v l x :
  unique f l → x ∈ l → f x = v → where_is f v l = [x].
Proof.
  intros Hu Hx Hv. destruct (where_is f v l) as [|y k] eqn:E.
  - apply where_is_nil in E. destruct E. rewrite <- Hv. by apply list_elem_of_fmap_2.
  - destruct (filter_unique _ _ _ _ _ Hu E) as (-> & Hy & Hin).
    f_equal. apply (unique_map_nodup _ _ _ _ Hu); congruence.
Qed.

(** A session admits its user until its deadline.  After [CreateSession]
    returned a value for an existing user, [SessionUser] accepts that value
    exactly until the deadline and only while the user is enabled, and returns
    that user; after [DeleteSession] it accepts it no more. *)
Theorem session_lifecycle r1 r2 n1 n2 u ttl d v d' now :
  db_ok d → u ∈ users d → rfc_range (n1 + ttl) →
  CreateSession r1 r2 n1 n2 (u_id u) ttl d = (Ok v, d') →
  (is_ok (fst (SessionUser now v d')) = negb (u_disabled u) && (now <=? n1 + ttl)) ∧
  (∀ usr, fst (SessionUser now v d') = Ok usr → ID usr = u_id u ∧ Username usr = u_username u) ∧
  is_ok (fst (SessionUser now v (snd (DeleteSession v d')))) = false.
Proof.
  intros Hok Hu Hr Hcs.
  assert (db_ok d') as Hok'.
  { pose proof (step_preserved d d' ltac:(replace d' with (snd (CreateSession r1 r2 n1 n2 (u_id u)
      ttl d)) by (by rewrite Hcs); constructor)) as Hp. by apply Hp. }
  assert (∃ row, row ∈ sessions d' ∧ s_hash row = hash v ∧ s_user row = u_id u ∧
    s_expires row = FormatRFC3339Nano (n1 + ttl) ∧ users d' = users d) as
    (row & Hrow & Hh & Hsu & He & Hus).
  { revert Hcs. unfold CreateSession, bind, lift, insert_session, ret.
    destruct (TokenValue r1) as [v0|]; [|done].
    repeat case_match; intros; simplify_eq. eexists. split; [apply elem_of_app; right; left|].
    by split_and!. }
  rewrite <- Hus in Hu.
  assert (where_is s_hash (hash v) (sessions d') = [row]) as Ews
    by (by apply where_is_unique; [apply Hok'| |]).
  assert (where_is u_id (u_id u) (users d') = [u]) as Ewu
    by (by apply where_is_unique; [apply Hok'| |]).
  destruct (role_names_cons d' (u_id u)) as (ro & l & Ero).
  split; [|split].
  - unfold SessionUser, bind, query_row, session_join, user_join. rewrite Ews. cbn [map concat].
    rewrite Hsu, Ewu. cbn [map concat]. rewrite Ero. cbn [map app].
    rewrite He, ParseTime_Format by done. unfold After.
    rewrite Z.ltb_antisym. destruct (u_disabled u); [done|].
    by destruct (now <=? n1 + ttl).
  - intros usr (s & u' & Hs & Hsh & Hu' & Hid & -> & -> & _)%SessionUser_inv.
    assert (s = row) as -> by (apply (unique_map_nodup _ _ _ _ (ok_session_hashes _ Hok'));
      congruence).
    assert (u' = u) as -> by (apply (unique_map_nodup _ _ _ _ (ok_users _ Hok')); congruence).
    done.
  - destruct (fst (SessionUser now v _)) eqn:E; [|done].
    apply SessionUser_inv in E as (s & u' & Hs & Hsh & _).
    cbn in Hs. apply elem_of_delete_where in Hs as [_ Hs]. by bprop.
Qed.

(** A new password ends every session of the user, and only those. *)
Theorem password_ends_sessions userID ph d d' :
  UpdateUserPassword userID ph d = (Ok tt, d') →
  (∀ now v usr, fst (SessionUser now v d') = Ok usr → ID usr ≠ userID) ∧
  (∀ s, s ∈ sessions d → s_user s ≠ userID → s ∈ sessions d') ∧
  (∀ u, u ∈ users d' → u_id u = userID → u_hash u = ph).
Proof.
  unfold UpdateUserPassword, transaction, bind, update_users, delete_sessions, fail.
  destruct (negb _); [done|]. intros [= <-]. split; [|split].
  - intros now v usr (s & u & Hs & _ & _ & Hid & -> & _)%SessionUser_inv E.
    cbn in Hs. apply elem_of_delete_where in Hs as [_ Hs]. bprop. congruence.
  - intros s Hs Hne. cbn. apply elem_of_delete_where. split; [done|].
    by apply bool_decide_eq_false.
  - intros u. cbn. intros (u0 & _ & ->)%elem_of_update_where. by case_bool_decide.
Qed.
End properties.

(** ** Witnesses *)

Section witnesses.
Definition rnd10 : list byte := replicate 10 x00.
Definition t0 : Z := 1700000000 * Second.
Definition admin_id : string := new_id "usr" rnd10.
Definition device_id : string := new_id "dev" rnd10.
Definition net30 : string := "10.90.0.0/30".
Definition token_value : string := "TYX-AEAQ-CAIB-AEAQC".

(** An administrator; a token with two uses; one of them used for a device; a
    command for it. *)
Definition db1 : db := snd (CreateInitialAdmin rnd10 t0 "root" "hash" empty_db).
Definition db2 : db := snd (CreateEnrollmentToken (Some (replicate 8 x01)) rnd10 t0 t0 admin_id
  Hour 2 db1).
Definition db3 : db := snd (ConsumeToken t0 token_value db2).
Definition db4 : db := snd (JoinDevice_insert rnd10 t0 admin_id "10.90.0.2" "laptop" "linux"
  "amd64" "1.0" [x01] db3).
Definition db5 : db := snd (CreateCommand_insert rnd10 t0 t0 admin_id device_id "client.status"
  Minute db4).

Lemma db1_steps : rtc store_step empty_db db1.
Proof. exact (rtc_once _ _ (st_create_initial_admin rnd10 t0 "root" "hash" empty_db)). Qed.
Lemma db2_steps : rtc store_step empty_db db2.
Proof.
  exact (rtc_r _ _ _ db1_steps
    (st_create_token (Some (replicate 8 x01)) rnd10 t0 t0 admin_id Hour 2 db1)).
Qed.
Lemma db4_steps : rtc store_step empty_db db4.
Proof.
  exact (rtc_r _ _ _ (rtc_r _ _ _ db2_steps (st_consume_token t0 token_value db2))
    (st_join rnd10 t0 admin_id "10.90.0.2" "laptop" "linux" "amd64" "1.0" [x01] db3)).
Qed.
Lemma db5_steps : rtc store_step empty_db db5.
Proof.
  refine (rtc_r _ _ _ db4_steps (st_create_command rnd10 t0 t0 admin_id device_id "client.status"
    Minute db4 _ _)); [done|]. split; by vm_compute.
Qed.
Lemma steps_ok d : rtc store_step empty_db d → store_ok d.
Proof. intros Hs. eapply steps_store_ok; [exact Hs|apply empty_store_ok]. Qed.

Lemma store_invariant_witness : length (commands db5) = 1%nat ∧ store_ok db5.
Proof. split; [by vm_compute|]. apply (store_invariant db5), db5_steps. Defined.

Lemma consume_token_witness :
  fst (ConsumeToken t0 token_value db2) = Ok admin_id ∧
  ∃ t, t ∈ tokens db2 ∧ t_hash t = hash token_value ∧ t_user t = admin_id ∧
       t_revoked t = false ∧ t0 ≤ ParseTime (t_expires t) ∧ t_uses t < t_max t.
Proof.
  assert (fst (ConsumeToken t0 token_value db2) = Ok admin_id) as E by by vm_compute.
  split; [exact E|].
  exact (proj1 (proj1 (consume_token t0 token_value db2
    (so_constraints _ (steps_ok _ db2_steps))) admin_id) E).
Defined.

(** The address handed out is the broadcast address of the network. *)
Lemma next_ip_spec_witness :
  fst (nextIP net30 db4) = Ok "10.90.0.3" ∧ snd (nextIP net30 db4) = db4.
Proof.
  split; [vm_compute; reflexivity|].
  assert (option_map (λ p, length (To4 (fst p))) (ParseCIDR net30) = Some 4%nat) as Hl
    by (vm_compute; reflexivity).
  destruct (ParseCIDR net30) as [[b n]|] eqn:E; [|discriminate Hl]. injection Hl as Hl.
  pose proof (next_ip_spec net30 b n db4) as Hs. specialize (Hs E Hl). destruct Hs as [Hs _].
  exact Hs.
Defined.

Lemma set_virtual_ip_witness :
  fst (SetDeviceVirtualIP device_id "10.90.0.77" "10.90.0.0/24" "" db4) = Ok tt ∧
  ∀ row, row ∈ devices (snd (SetDeviceVirtualIP device_id "10.90.0.77" "10.90.0.0/24" "" db4)) →
    d_id row = device_id → d_ip row = "10.90.0.77".
Proof.
  assert (fst (SetDeviceVirtualIP device_id "10.90.0.77" "10.90.0.0/24" "" db4) = Ok tt) as E
    by by vm_compute.
  split; [exact E|].
  exact (proj1 (proj2 (set_virtual_ip device_id "10.90.0.77" "10.90.0.0/24" "" db4
    (so_constraints _ (steps_ok _ db4_steps)))) E).
Defined.

(** The network is exhausted, the join fails, and the token has lost a use. *)
Lemma join_device_witness :
  let m := JoinDevice rnd10 t0 t0 token_value "n" "linux" "amd64" "1" "10.90.0.0/31" [x02] in
  is_ok (fst (m db2)) = false ∧ map t_uses (tokens (snd (m db2))) = [1] ∧
  devices (snd (m db2)) = devices db2.
Proof.
  assert (is_ok (fst (JoinDevice rnd10 t0 t0 token_value "n" "linux" "amd64" "1" "10.90.0.0/31"
    [x02] db2)) = false) as E by by vm_compute.
  split; [exact E|]. split; [by vm_compute|].
  exact (proj1 (proj2 (join_device rnd10 t0 t0 token_value "n" "linux" "amd64" "1" "10.90.0.0/31"
    [x02] db2 (so_constraints _ (steps_ok _ db2_steps)))) E).
Defined.

Lemma initial_admin_witness :
  is_ok (fst (CreateInitialAdmin rnd10 t0 "eve" "x" db1)) = false ∧
  snd (CreateInitialAdmin rnd10 t0 "eve" "x" db1) = db1.
Proof.
  assert (is_ok (fst (CreateInitialAdmin rnd10 t0 "eve" "x" db1)) = false) as E by by vm_compute.
  split; [exact E|].
  exact (proj2 (proj2 (initial_admin rnd10 t0 "eve" "x" db1 (steps_ok _ db1_steps))) E).
Defined.

Definition db6 : db := snd (UpdateCommandResult rnd10 t0 t0 (new_id "cmd" rnd10) device_id
  "accepted" "" "" db5).

Lemma command_lifecycle_witness :
  map c_status (commands db5) = ["queued"] ∧ map c_status (commands db6) = ["accepted"] ∧
  ∃ c c', commands db5 !! 0%nat = Some c ∧ commands db6 !! 0%nat = Some c' ∧
    rtc cmd_next (c_status c) (c_status c').
Proof.
  split; [by vm_compute|]. split; [by vm_compute|].
  destruct (commands db5 !! 0%nat) as [c|] eqn:E; [|by vm_compute in E].
  destruct (command_lifecycle db5 db6 db5_steps 
      (rtc_once _ _ (st_command_result rnd10 t0 t0 (new_id "cmd" rnd10) device_id "accepted" "" ""
        db5))
    0 c E) as (c' & E' & _ & Hs & _).
  exists c, c'. split; [reflexivity|]. split; [exact E'|exact Hs].
Defined.

Lemma pending_deadline_witness :
  ∃ l, fst (PendingCommandsForDevice t0 device_id 20 db5) = Ok l ∧ (length l ≤ 50)%nat ∧
    ∀ m, m ∈ l → DeviceID m = device_id ∧ (Status m = "queued" ∨ Status m = "delivered") ∧
                 Unix t0 ≤ Unix (ExpiresAt m).
Proof.
  assert (rfc_range t0) as Hr by (split; by vm_compute).
  exact (proj1 (pending_deadline t0 device_id 20 db5 (so_commands _ (steps_ok _ db5_steps)) Hr)).
Defined.

Definition flow (n : Z) : FlowHistoryRecord :=
  mkFlowRecord 0 (t0 + n * Second) "10.90.0.2" "10.90.0.3" "udp" 17 (Some 1) (Some 2) None None
    100 1 0.
Definition db7 : db := snd (InsertFlowHistory [flow 0; flow 1; flow 2] 1000 db1).
Lemma db7_steps : rtc store_step empty_db db7.
Proof.
  exact (rtc_r _ _ _ db1_steps (st_insert_flows [flow 0; flow 1; flow 2] 1000 db1)).
Qed.

Lemma history_budget_witness :
  map f_id (flow_history db7) = [1; 2; 3] ∧
  map f_id (flow_history (snd (TrimFlowHistory 300 db7))) = [2; 3] ∧
  trimmed 300 (flow_history db7) (flow_history (snd (TrimFlowHistory 300 db7))).
Proof.
  split; [by vm_compute|]. split; [by vm_compute|].
  assert (storage (flow_history db7) ≤ MaxInt64) as Hs by by vm_compute.
  exact (proj1 (proj2 (history_budget [] 300 db7 (so_constraints _ (steps_ok _ db7_steps))
    eq_refl Hs))).
Defined.

Definition ses_run := CreateSession (Some (replicate 8 x02)) rnd10 t0 t0 admin_id Hour db1.

Lemma session_lifecycle_witness :
  ∃ v, fst ses_run = Ok v ∧
    is_ok (fst (SessionUser (t0 + Minute) v (snd ses_run))) = true ∧
    is_ok (fst (SessionUser (t0 + Minute) v (snd (DeleteSession v (snd ses_run))))) = false.
Proof.
  destruct ses_run as [[v|e] d'] eqn:E; [|by vm_compute in E].
  exists v. split; [done|].
  destruct (users db1) as [|u l] eqn:Eu; [by vm_compute in Eu|].
  assert (u = mkUserRow admin_id "root" "hash" false (FormatRFC3339Nano t0)) as Hu
    by (vm_compute in Eu; by simplify_eq).
  destruct (session_lifecycle (Some (replicate 8 x02)) rnd10 t0 t0 u Hour db1 v d' (t0 + Minute))
    as (H1 & _ & H3).
  - apply (steps_ok _ db1_steps).
  - rewrite Eu. left.
  - split; by vm_compute.
  - by rewrite Hu.
  - split; [|exact H3]. cbn [snd]. rewrite H1, Hu. done.
Defined.

Lemma password_ends_sessions_witness :
  fst (UpdateUserPassword admin_id "new" db1) = Ok tt ∧
  ∀ now v usr, fst (SessionUser now v (snd (UpdateUserPassword admin_id "new" db1))) = Ok usr →
    ID usr ≠ admin_id.
Proof.
  assert (fst (UpdateUserPassword admin_id "new" db1) = Ok tt) as E by by vm_compute.
  split; [exact E|].
  destruct (UpdateUserPassword admin_id "new" db1) as [r d] eqn:Er. cbn [fst snd] in *. subst r.
  exact (proj1 (password_ends_sessions admin_id "new" db1 d Er)).
Defined.
End witnesses.
