(* ===== verification/Session.v ===== *)
(** * Session: data-plane bootstraps and sealed packets
    ([internal/dataplane/session.go])

    The bootstrap the server hands to a device over the management API, the
    directional keys both sides derive from it, and the sealing of a payload
    into a protocol packet whose header is authenticated. *)
From S2P Require Import Prelude Text Clock Protocol Crypto.
From Stdlib Require Import Init.Byte Strings.Byte.

(** The data plane's own protocol version (the packets' is [Protocol.Version]). *)
Definition ProtocolVersion : Z := 1.
Definition sessionLifetime : Z := 15 * Minute.
Definition keepalivePeriod : Z := 15 * Second.

Record Bootstrap := mkBootstrap {
  bVersion : Z; bSessionID : string; bSecret : string; bPort : Z; bExpiresAt : Z
}.
Record sessionKeys := mkKeys { clientToServer : list byte; serverToClient : list byte }.

(** [copy(b[off:], src)] on a slice. *)
Definition copy_into (off : nat) (src b : list byte) : list byte :=
  let n := Nat.min (length src) (length b - off) in
  take off b ++ take n src ++ drop (off + n) b.

(** [for sessionID == 0 { binary.Read(rand.Reader, ...) }] on the values that
    the source of randomness yields, which fails when there are no more. *)
Fixpoint draw_session (draws : list Z) : result Z :=
  match draws with
  | [] => Err "random source failed"
  | 0 :: draws => draw_session draws
  | sid :: _ => Ok sid
  end.

Section session.
Context `{Primitives}.

Definition deriveKeys (secret : list byte) (sessionID : Z) : result sessionKeys :=
  let? c2s := DeriveDirectionalKey secret sessionID "client-to-server" in
  let? s2c := DeriveDirectionalKey secret sessionID "server-to-client" in
  Ok (mkKeys c2s s2c).

Definition newBootstrap (secret : option (list byte)) (draws : list Z) (now port : Z)
    : result (Bootstrap * sessionKeys * Z) :=
  match secret with
  | None => Err "random source failed"
  | Some secret =>
    let? sessionID := draw_session draws in
    let? keys := deriveKeys secret sessionID in
    Ok (mkBootstrap ProtocolVersion (FormatUint sessionID) (EncodeToString secret) port
          (now + sessionLifetime), keys, sessionID)
  end.

Definition parseBootstrap (now : Z) (b : Bootstrap) : result (sessionKeys * Z) :=
  fail_if negb (bVersion b =? ProtocolVersion) || (bPort b <? 1) || (65535 <? bPort b)
          || After now (bExpiresAt b)
    with "invalid or expired data-plane bootstrap";
  let '(sessionID, err) := ParseUint (bSessionID b) in
  fail_if negb (bool_decide (err = None)) || (sessionID =? 0) with "invalid data-plane session ID";
  match DecodeString (bSecret b) with
  | None => Err "invalid data-plane secret encoding"
  | Some secret =>
    let? keys := deriveKeys secret sessionID in
    Ok (keys, sessionID)
  end.

Definition sealPacket (c : Cipher) (packet : Packet) (plaintext : list byte)
    : result (list byte) :=
  let packet := mkPacket (pType packet) (Flags packet) (NetworkID packet) (SessionID packet)
    (SourceID packet) (DestinationID packet) (Sequence packet)
    (replicate (length plaintext + 16) x00) in
  let? encoded := MarshalBinary packet in
  let ciphertext := Seal c (SessionID packet) (Sequence packet) plaintext (take HeaderSize encoded) in
  Ok (copy_into HeaderSize ciphertext encoded).

Definition openPacket (c : Cipher) (encoded : list byte) (packet : Packet)
    : result (list byte) * Cipher :=
  if negb (len encoded =? Z.of_nat HeaderSize + len (Payload packet))
  then (Err "invalid encrypted packet length", c)
  else Open c (SessionID packet) (Sequence packet) (Payload packet) (take HeaderSize encoded).

(** ** Lemmas *)

Lemma DeriveDirectionalKey_ok `{!PrimitiveLaws} secret sid dir k :
  DeriveDirectionalKey secret sid dir = Ok k → length k = 32%nat ∧ len secret = DataKeySize.
Proof.
  unfold DeriveDirectionalKey. intros Hd. guards. bprop. subst k. split; [apply hkdf_length|done].
Qed.

Lemma draw_session_ok draws sid : draw_session draws = Ok sid → sid ∈ draws ∧ sid ≠ 0.
Proof.
  induction draws as [|x draws IH]; [done|]. simpl.
  destruct x; [intros [? ?]%IH; split; [by right|done]|..];
    intros [= <-]; (split; [by left|done]).
Qed.

Definition sealed_packet (packet : Packet) (ct : list byte) : Packet :=
  mkPacket (pType packet) (Flags packet) (NetworkID packet) (SessionID packet)
    (SourceID packet) (DestinationID packet) (Sequence packet) ct.

Lemma header_payload p pl n : header (sealed_packet p pl) n = header p n.
Proof. done. Qed.

(** A sealed packet: the header, which says how long the ciphertext is, and the
    ciphertext, which authenticates the header. *)
Lemma sealPacket_eq `{!PrimitiveLaws} c p pt :
  let n := len pt + 16 in
  sealPacket c p pt =
  if MaxPayload <? n then Err "payload exceeds maximum"
  else Ok (header p n ++ Seal c (SessionID p) (Sequence p) pt (header p n)).
Proof.
  intros n. unfold sealPacket. rewrite MarshalBinary_eq. cbn [Payload SessionID Sequence].
  assert (len (replicate (length pt + 16) x00) = n) as ->
    by (unfold n, len; rewrite length_replicate; lia).
  destruct (MaxPayload <? n); [done|]. cbn [result_bind].
  fold (sealed_packet p (replicate (length pt + 16) x00)). rewrite header_payload.
  assert (take HeaderSize (header p n ++ replicate (length pt + 16) x00) = header p n) as Et
    by (rewrite <- (header_length p n); apply take_app_length).
  rewrite Et. f_equal. unfold copy_into. rewrite Et. f_equal.
  assert (length (Seal c (SessionID p) (Sequence p) pt (header p n)) = (length pt + 16)%nat) as El
    by apply seal_length.
  rewrite El, length_app, header_length, length_replicate.
  rewrite take_ge by lia. rewrite drop_ge; [by rewrite app_nil_r|].
  rewrite length_app, header_length, length_replicate. lia.
Qed.

(** What the other side makes of it. *)
Lemma parse_sealed `{!PrimitiveLaws} c p pt enc :
  packet_wf p → sealPacket c p pt = Ok enc →
  let ct := Seal c (SessionID p) (Sequence p) pt (header p (len pt + 16)) in
  ParsePacket enc = Ok (sealed_packet p ct) ∧ len enc = Z.of_nat HeaderSize + len pt + 16 ∧
  len ct = len pt + 16.
Proof.
  intros Hwf Hs ct. rewrite sealPacket_eq in Hs. cbv zeta in Hs.
  destruct (Z.ltb_spec MaxPayload (len pt + 16)); [done|]. apply Ok_inj in Hs as <-. fold ct.
  assert (len ct = len pt + 16) as Hl by (unfold ct, len, Seal; rewrite seal_length; lia).
  rewrite ParsePacket_header by (done || lia). split; [done|]. split; [|done].
  unfold len in *. rewrite length_app, header_length. lia.
Qed.

Lemma open_sealed `{!PrimitiveLaws} c c' p pt enc :
  packet_wf p → sealPacket c p pt = Ok enc → ckey c = ckey c' → length (ckey c) = 32%nat →
  fst (Accept (replay c') (Sequence p)) = true →
  ∃ q, ParsePacket enc = Ok q ∧ sealed_packet q [] = sealed_packet p [] ∧
    openPacket c' enc q = (Ok pt, mkCipher (ckey c') (snd (Accept (replay c') (Sequence p)))).
Proof.
  intros Hwf Hs Hk Hkl Ha. destruct (parse_sealed c p pt enc Hwf Hs) as (Hp & Hl & Hc).
  eexists. split; [exact Hp|]. split; [done|].
  unfold openPacket. cbn [Payload sealed_packet SessionID Sequence].
  rewrite Hc, Hl, Z.add_assoc, Z.eqb_refl. cbn [negb].
  rewrite sealPacket_eq in Hs. cbv zeta in Hs.
  destruct (MaxPayload <? len pt + 16); [done|]. apply Ok_inj in Hs as <-.
  assert (∀ k, take HeaderSize (header p (len pt + 16) ++ k) = header p (len pt + 16)) as ->
    by (intros k; rewrite <- (header_length p (len pt + 16)); apply take_app_length).
  by apply Open_Seal.
Qed.

(** Only what the key holder sealed is opened, for the header it was sealed with. *)
Lemma openPacket_sound `{!PrimitiveLaws} c enc p pt c' :
  length (ckey c) = 32%nat → ParsePacket enc = Ok p →
  openPacket c enc p = (Ok pt, c') →
  sealPacket c p pt = Ok enc ∧ ckey c' = ckey c.
Proof.
  intros Hk Hp. unfold openPacket.
  destruct (ParsePacket_inv enc p Hp) as (_ & Hmax & He).
  case_match; [done|]. unfold Open. destruct (Accept _ _) as [ok w].
  destruct (negb ok); [done|]. destruct (aead_open _ _ _ _) as [pt'|] eqn:Eo; [|done].
  intros [= -> <-]. split; [|done].
  apply open_sound in Eo; [|done|apply nonce_length].
  assert (len (Payload p) = len pt + 16) as Hl
    by (rewrite Eo; unfold len; rewrite seal_length; lia).
  rewrite sealPacket_eq. cbv zeta. rewrite <- Hl, (proj2 (Z.ltb_ge _ _)) by done.
  f_equal. etrans; [|symmetry; exact He]. f_equal. etrans; [|symmetry; exact Eo].
  unfold Seal. f_equal. rewrite He at 1.
  rewrite <- (header_length p (len (Payload p))). symmetry. apply take_app_length.
Qed.

(** What a device parses from a bootstrap. *)
Lemma parse_newBootstrap secret draws now port b keys sid later :
  newBootstrap (Some secret) draws now port = Ok (b, keys, sid) →
  1 ≤ port ≤ 65535 → Forall in_u64 draws →
  parseBootstrap later b =
    if now + sessionLifetime <? later then Err "invalid or expired data-plane bootstrap"
    else Ok (keys, sid).
Proof.
  intros Hn Hport Hd. unfold newBootstrap in Hn. guards.
  match goal with H : draw_session _ = Ok _ |- _ => apply draw_session_ok in H as [Hin Hnz] end.
  rewrite Forall_forall in Hd. specialize (Hd _ Hin).
  match goal with H : deriveKeys _ _ = Ok _ |- _ => rename H into Hk end.
  injection Hn as <- <- <-.
  unfold parseBootstrap. cbn [bVersion bSessionID bSecret bPort bExpiresAt].
  rewrite (proj2 (Z.ltb_ge port 1)), (proj2 (Z.ltb_ge 65535 port)) by lia.
  cbn [orb]. change (negb (ProtocolVersion =? ProtocolVersion)) with false. cbn [orb].
  unfold After. case_match; [done|]. rewrite ParseUint_FormatUint by done.
  rewrite bool_decide_eq_true_2, (proj2 (Z.eqb_neq _ 0)) by done. cbn [negb orb].
  rewrite DecodeString_EncodeToString, Hk. done.
Qed.

Lemma newBootstrap_ok secret draws now port b keys sid :
  newBootstrap (Some secret) draws now port = Ok (b, keys, sid) → Forall in_u64 draws →
  in_u64 sid ∧ sid ≠ 0 ∧ bSessionID b = FormatUint sid ∧ bExpiresAt b = now + sessionLifetime ∧
  deriveKeys secret sid = Ok keys.
Proof.
  unfold newBootstrap. intros Hn Hd. guards. injection Hn as <- <- <-.
  match goal with Hw : draw_session _ = Ok _ |- _ => apply draw_session_ok in Hw as [Hin Hnz] end.
  rewrite Forall_forall in Hd. split_and!; [by apply Hd|done..].
Qed.
End session.

(** ** Properties *)

(** Both ends agree.  What a device parses from the bootstrap that the
    server made for it are the server's keys and session number, for as long as
    the bootstrap lives and not longer; the two directions have 32-byte keys. *)
Theorem bootstrap_agreement `{PrimitiveLaws} secret draws now port b keys sid later :
  newBootstrap (Some secret) draws now port = Ok (b, keys, sid) →
  1 ≤ port ≤ 65535 → Forall in_u64 draws →
  parseBootstrap later b =
    (if now + sessionLifetime <? later then Err "invalid or expired data-plane bootstrap"
     else Ok (keys, sid)) ∧
  sid ≠ 0 ∧ length (clientToServer keys) = 32%nat ∧ length (serverToClient keys) = 32%nat.
Proof.
  intros Hn Hport Hd. split; [by eapply parse_newBootstrap|].
  destruct (newBootstrap_ok _ _ _ _ _ _ _ Hn Hd) as (_ & Hnz & _ & _ & Hk). split; [done|].
  unfold deriveKeys in Hk. guards. subst. split; by eapply DeriveDirectionalKey_ok.
Qed.

Lemma bootstrap_agreement_witness :
  ∃ b keys, newBootstrap (Some (replicate 32 x07)) [0; 77] 5 4242 = Ok (b, keys, 77) ∧
    parseBootstrap 6 b = Ok (keys, 77).
Proof.
  destruct (newBootstrap (Some (replicate 32 x07)) [0; 77] 5 4242) as [[[b keys] sid]|] eqn:E;
    [|by vm_compute in E].
  assert (sid = 77) as -> by (vm_compute in E; by injection E).
  exists b, keys. split; [done|].
  refine (proj1 (bootstrap_agreement (replicate 32 x07) [0; 77] 5 4242 b keys 77 6 E _ _)).
  - lia.
  - repeat constructor; unfold in_u64; lia.
Defined.
