(* ===== verification/Dataplane.v ===== *)
(** * Dataplane: the server's data plane ([internal/dataplane/server.go])

    A [serverSession] is shared: the tables [sessions] and [byDevice], the
    router and a goroutine in the middle of a packet can all hold the same
    pointer.  Sessions live in a heap, [net] is the state every goroutine can
    change, and a peer of the router is the adapter or a pointer.

    [udp_write] and [adapter_write] are the operating system's answers to the
    two writes; a write that succeeds is recorded in [out].  [out] names the
    session and the sequence number of a datagram beside its bytes, and
    [accepted] lists the sequence numbers [readUDP] authenticated: both are
    there for the theorems only, no operation reads them.

    [readUDP] is split where its locks are: [find_session] looks the session
    up, [open_datagram] goes on with the pointer, and other goroutines can run
    in between ([srv_step]). *)
From S2P Require Import Prelude Text Net Clock Protocol Crypto Router.
From S2P Require Import Traffic Session.
From Stdlib Require Import Init.Byte Strings.Byte.

(** ** Data *)

Record UDPAddr := mkAddr { aIP : list byte; aPort : Z }.

Record serverSession := mkSession {
  deviceID : string; deviceHash_ : Z; assignedIP : list byte; sessionID : Z; expiresAt : Z;
  send : Cipher; receive : Cipher; sequence : Z; address : option UDPAddr
}.

Record invalidSource := mkInvalid { window : Z; count : Z }.

Inductive peer := adapterPeer | sessionPeer (l : nat).
Global Instance peer_eq_dec : EqDecision peer.
Proof. solve_decision. Defined.

Inductive output :=
  | ToUDP (l : nat) (seq : Z) (to : UDPAddr) (bytes : list byte)
  | ToAdapter (bytes : list byte).

Definition maxInvalidSources : nat := 4096.
Definition invalidLimit : Z := 120.

Section dataplane.
Context `{Primitives} {W : Type}.
Context (udp_write : UDPAddr → list byte → option string)
  (adapter_write : list byte → option string).

Record net := mkNet {
  clock : Z; heap : gmap nat serverSession; monitor : TrafficMonitor W; world : W;
  out : list output; accepted : list (nat * Z)
}.

Record Server := mkServer {
  nw : net; serverIP : list byte; mtu : Z; port : Z;
  router : Router peer net; sessions : gmap Z nat; byDevice : gmap string nat;
  invalid : gmap string invalidSource; closed : bool
}.

Definition set_heap (h : gmap nat serverSession) (n : net) : net :=
  mkNet (clock n) h (monitor n) (world n) (out n) (accepted n).
Definition set_monitor (m : TrafficMonitor W) (n : net) : net :=
  mkNet (clock n) (heap n) m (world n) (out n) (accepted n).
Definition emit (o : output) (n : net) : net :=
  mkNet (clock n) (heap n) (monitor n) (world n) (out n ++ [o]) (accepted n).
Definition set_net (n : net) (s : Server) : Server :=
  mkServer n (serverIP s) (mtu s) (port s) (router s) (sessions s) (byDevice s) (invalid s)
    (closed s).
Definition set_invalid (i : gmap string invalidSource) (s : Server) : Server :=
  mkServer (nw s) (serverIP s) (mtu s) (port s) (router s) (sessions s) (byDevice s) i (closed s).

Definition set_sequence (q : Z) (x : serverSession) : serverSession :=
  mkSession (deviceID x) (deviceHash_ x) (assignedIP x) (sessionID x) (expiresAt x) (send x)
    (receive x) q (address x).
Definition set_receive (c : Cipher) (x : serverSession) : serverSession :=
  mkSession (deviceID x) (deviceHash_ x) (assignedIP x) (sessionID x) (expiresAt x) (send x)
    c (sequence x) (address x).
Definition set_address (a : UDPAddr) (x : serverSession) : serverSession :=
  mkSession (deviceID x) (deviceHash_ x) (assignedIP x) (sessionID x) (expiresAt x) (send x)
    (receive x) (sequence x) (Some a).

Definition deviceHash (device : string) : Z := be_get (take 8 (sha256 (s2b device))).
Definition parseSessionID (value : string) : Z := fst (ParseUint value).

(** ** The peers' [Send] *)

Definition data_packet (x : serverSession) (q : Z) : Packet :=
  mkPacket TypeData 0 0 (sessionID x) 0 (deviceHash_ x) q [].

Definition session_Send (l : nat) (plaintext : list byte) (n : net) : option string * net :=
  match heap n !! l with
  | None => (Some "invalid memory address", n)
  | Some x =>
    match address x with
    | None => (Some "data-plane peer endpoint is unknown", n)
    | Some to =>
      let q := u64 (sequence x + 1) in
      let n := set_heap (<[l := set_sequence q x]> (heap n)) n in
      match sealPacket (send x) (data_packet x q) plaintext with
      | Err e => (Some e, n)
      | Ok encoded =>
        match udp_write to encoded with
        | Some e => (Some e, n)
        | None => (None, emit (ToUDP l q to encoded) n)
        end
      end
    end
  end.

Definition adapter_Send (packet : list byte) (n : net) : option string * net :=
  match adapter_write packet with
  | Some e => (Some e, n)
  | None => (None, emit (ToAdapter packet) n)
  end.

Definition Send (p : peer) (packet : list byte) (n : net) : option string * net :=
  match p with adapterPeer => adapter_Send packet n | sessionPeer l => session_Send l packet n end.

(** The router's observer, [monitor.ObservePacket]. *)
Definition observe_net (packet : list byte) (n : net) : net :=
  set_monitor (ObservePacket (clock n) packet (monitor n)) n.

(** [s.router.Route(ip, packet)]. *)
Definition route (ip packet : list byte) (s : Server) : Server :=
  set_net (snd (Route (router s) Send ip packet (nw s))) s.

(** ** Construction *)

(** [socket] is the outcome of the resolution and of [net.ListenUDP]: the port. *)
Definition Listen (socket : result Z) (adapter : bool) (ip : list byte) (mtu : Z)
    (monitor : option (TrafficMonitor W)) (now : Z) (w : W) : result Server :=
  match monitor with
  | None => Err "invalid server data-plane configuration"
  | Some monitor =>
    fail_if negb adapter || bool_decide (To4 ip = []) || (mtu <? 576) || (9000 <? mtu)
      with "invalid server data-plane configuration";
    let? port := socket in
    let r := Add (NewObserved observe_net) (To4 ip) adapterPeer in
    Ok (mkServer (mkNet now ∅ (SetReady true monitor) w [] []) (To4 ip) mtu port r ∅ ∅ ∅ false)
  end.

(** ** Registration *)

Definition set_tables (r : Router peer net) (ss : gmap Z nat) (bd : gmap string nat) (s : Server)
    : Server :=
  mkServer (nw s) (serverIP s) (mtu s) (port s) r ss bd (invalid s) (closed s).

(** The locked part of [Register], for a session at the new pointer [l]. *)
Definition register_locked (l : nat) (x : serverSession) (s : Server) : Server :=
  let s := set_net (set_heap (<[l := x]> (heap (nw s))) (nw s)) s in
  let s :=
    match byDevice s !! deviceID x with
    | None => s
    | Some old =>
      match heap (nw s) !! old with
      | None => s
      | Some o =>
        set_tables (Remove (router s) (assignedIP o)) (delete (sessionID o) (sessions s))
          (byDevice s) s
      end
    end in
  set_tables (Add (router s) (assignedIP x) (sessionPeer l)) (<[sessionID x := l]> (sessions s))
    (<[deviceID x := l]> (byDevice s)) s.

Definition Register (secret : option (list byte)) (draws : list Z) (now : Z) (device : string)
    (assigned : list byte) (s : Server) : result Bootstrap * Server :=
  let ip := To4 assigned in
  if (device =s "") || bool_decide (ip = []) || ip_equal ip (serverIP s)
  then (Err "invalid data-plane peer", s)
  else
    match newBootstrap secret draws now (port s) with
    | Err e => (Err e, s)
    | Ok (b, keys, sid) =>
      match NewCipher (serverToClient keys), NewCipher (clientToServer keys) with
      | Ok send, Ok receive =>
        let x := mkSession device (deviceHash device) ip sid (bExpiresAt b) send receive 0 None in
        (Ok b, register_locked (fresh (dom (heap (nw s)))) x s)
      | Err e, _ | _, Err e => (Err e, s)
      end
    end.

(** [Server.Remove]. *)
Definition Remove_session (device session : string) (s : Server) : Server :=
  let parsed := parseSessionID session in
  match byDevice s !! device with
  | None => s
  | Some l =>
    match heap (nw s) !! l with
    | None => s
    | Some x =>
      if sessionID x =? parsed
      then set_tables (Remove (router s) (assignedIP x)) (delete (sessionID x) (sessions s))
             (delete device (byDevice s)) s
      else s
    end
  end.

(** ** Invalid sources *)

Definition invalidBlocked (now : Z) (ip : list byte) (s : Server) : bool * Server :=
  let key := ip_string ip in
  match invalid s !! key with
  | None => (false, set_invalid (delete key (invalid s)) s)
  | Some entry =>
    if Minute <=? Sub now (window entry) then (false, set_invalid (delete key (invalid s)) s)
    else (invalidLimit <=? count entry, s)
  end.

(** The two clean-up loops; which of the remaining sources go is Go's choice. *)
Definition shrink (now : Z) (m : gmap string invalidSource) : gmap string invalidSource :=
  if bool_decide (size m ≤ maxInvalidSources)%nat then m
  else
    let m := filter (λ p, negb (Minute <=? Sub now (window (snd p))) = true) m in
    list_to_map (drop (size m - maxInvalidSources) (map_to_list m)).

Definition recordInvalid (now : Z) (ip : list byte) (s : Server) : Server :=
  let key := ip_string ip in
  let entry := default (mkInvalid zeroTime 0) (invalid s !! key) in
  let entry := if IsZero (window entry) || (Minute <=? Sub now (window entry))
               then mkInvalid now 0 else entry in
  let entry := mkInvalid (window entry) (count entry + 1) in
  set_invalid (shrink now (<[key := entry]> (invalid s))) s.

(** ** Receiving *)

Definition find_session (now : Z) (packet : Packet) (s : Server) : option nat :=
  match sessions s !! SessionID packet with
  | None => None
  | Some l =>
    match heap (nw s) !! l with
    | None => None
    | Some x =>
      if After now (expiresAt x) || negb (SourceID packet =? deviceHash_ x) then None else Some l
    end
  end.

Definition set_session (l : nat) (x : serverSession) (s : Server) : Server :=
  set_net (set_heap (<[l := x]> (heap (nw s))) (nw s)) s.
Definition log_accepted (l : nat) (q : Z) (s : Server) : Server :=
  let n := nw s in
  set_net (mkNet (clock n) (heap n) (monitor n) (world n) (out n) (accepted n ++ [(l, q)])) s.

(** From the decryption on, with the pointer [l]. *)
Definition open_datagram (now : Z) (l : nat) (packet : Packet) (encoded : list byte)
    (from : UDPAddr) (s : Server) : Server :=
  match heap (nw s) !! l with
  | None => s
  | Some x =>
    let '(r, c) := openPacket (receive x) encoded packet in
    let x := set_receive c x in
    let s := set_session l x s in
    match r with
    | Err _ => recordInvalid now (aIP from) s
    | Ok plaintext =>
      let s := log_accepted l (Sequence packet) (set_session l (set_address from x) s) in
      if pType packet =? TypeKeepalive then
        if negb (len plaintext =? 0) then recordInvalid now (aIP from) s else s
      else if (len plaintext <? 20) || (mtu s <? len plaintext)
      then recordInvalid now (aIP from) s
      else route (assignedIP x) plaintext s
    end
  end.

(** [buffer[:n]]: a longer datagram is cut off. *)
Definition received (s : Server) (datagram : list byte) : list byte :=
  take (HeaderSize + Z.to_nat (mtu s) + 16) datagram.

(** One round of the loop of [readUDP]; the clock is read before the block
    check, before the expiry check and in [recordInvalid]. *)
Definition readUDP (now1 now2 now3 : Z) (datagram : list byte) (from : UDPAddr) (s : Server)
    : Server :=
  let '(blocked, s) := invalidBlocked now1 (aIP from) s in
  if blocked then s
  else
    let encoded := received s datagram in
    match ParsePacket encoded with
    | Err _ => recordInvalid now3 (aIP from) s
    | Ok packet =>
      if negb (pType packet =? TypeData) && negb (pType packet =? TypeKeepalive)
      then recordInvalid now3 (aIP from) s
      else
        match find_session now2 packet s with
        | None => recordInvalid now3 (aIP from) s
        | Some l => open_datagram now3 l packet encoded from s
        end
    end.

(** One round of [readAdapter], for a successful read. *)
Definition readAdapter (packet : list byte) (s : Server) : Server :=
  let packet := take (Z.to_nat (mtu s)) packet in
  if 0 <? len packet then route (serverIP s) packet s else s.

(** ** The monitor's history *)

Definition flush_net (includeCurrent : bool) (now : Z) (n : net) : net :=
  let '(_, m, w) := flushHistory includeCurrent now (monitor n) (world n) in
  mkNet (clock n) (heap n) m w (out n) (accepted n).

(** One tick of [flushTrafficHistory]. *)
Definition flushTrafficHistory (s : Server) : Server :=
  if closed s then s else set_net (flush_net false (clock (nw s)) (nw s)) s.

Definition Close (s : Server) : Server :=
  if closed s then s
  else
    let n := set_monitor (SetReady false (monitor (nw s))) (nw s) in
    mkServer (flush_net true (clock n) n) (serverIP s) (mtu s) (port s) (router s) (sessions s)
      (byDevice s) (invalid s) true.

(** ** Runs

    Any interleaving of the goroutines and the management calls.  [go_open]
    continues a [readUDP] whose lookup was made in an earlier state: what it
    found still says the same about the session, since those fields never
    change.  A new session gets a number no other has. *)
Definition tick (t : Z) (n : net) : net :=
  mkNet t (heap n) (monitor n) (world n) (out n) (accepted n).

Inductive srv_step : Server → Server → Prop :=
  | go_tick t s : clock (nw s) ≤ t → srv_step s (set_net (tick t (nw s)) s)
  | go_register l x s :
      heap (nw s) !! l = None → sessions s !! sessionID x = None → sessionID x ≠ 0 →
      sequence x = 0 → replay (receive x) = NewReplayWindow → address x = None →
      length (assignedIP x) = 4%nat → assignedIP x ≠ serverIP s → in_u64 (deviceHash_ x) →
      in_u64 (sessionID x) → length (ckey (send x)) = 32%nat → length (ckey (receive x)) = 32%nat →
      srv_step s (register_locked l x s)
  | go_remove device session s : srv_step s (Remove_session device session s)
  | go_blocked now ip s : srv_step s (snd (invalidBlocked now ip s))
  | go_invalid now ip s : srv_step s (recordInvalid now ip s)
  | go_open now l packet encoded from s :
      ParsePacket encoded = Ok packet →
      srv_step s (open_datagram now l packet encoded from s)
  | go_adapter packet s : srv_step s (readAdapter packet s)
  | go_flush s : srv_step s (flushTrafficHistory s)
  | go_close s : srv_step s (Close s).

(** ** Invariants

    What never changes in a session. *)
Definition static (x : serverSession) : string * Z * list byte * (Z * Z * list byte * list byte) :=
  (deviceID x, deviceHash_ x, assignedIP x,
   (sessionID x, expiresAt x, ckey (send x), ckey (receive x))).
Definition same_sessions (h h' : gmap nat serverSession) : Prop :=
  ∀ l, static <$> h !! l = static <$> h' !! l.

Definition session_ok (ip : list byte) (x : serverSession) : Prop :=
  length (assignedIP x) = 4%nat ∧ assignedIP x ≠ ip ∧ in_u64 (deviceHash_ x) ∧
  in_u64 (sessionID x) ∧ sessionID x ≠ 0 ∧
  length (ckey (send x)) = 32%nat ∧ length (ckey (receive x)) = 32%nat.

(** A session in the tables: one per device, under its own number, and the only
    sessions that the router can reach, each at its own address. *)
Record tables_ok (s : Server) : Prop := {
  ok_session id l : sessions s !! id = Some l →
    ∃ x, heap (nw s) !! l = Some x ∧ sessionID x = id ∧ byDevice s !! deviceID x = Some l;
  ok_device d l : byDevice s !! d = Some l →
    ∃ x, heap (nw s) !! l = Some x ∧ deviceID x = d ∧ sessions s !! sessionID x = Some l;
  ok_route k l : peers (router s) !! k = Some (sessionPeer l) →
    ∃ x, heap (nw s) !! l = Some x ∧ ip_string (assignedIP x) = k ∧
         sessions s !! sessionID x = Some l;
  ok_adapter k : peers (router s) !! k = Some adapterPeer ↔ k = ip_string (serverIP s);
  ok_observer : observer (router s) = Some observe_net;
  ok_self : length (serverIP s) = 4%nat;
  ok_heap l x : heap (nw s) !! l = Some x → session_ok (serverIP s) x
}.

(** The sequence numbers [readUDP] authenticated for a session are in its
    window. *)
Record window_ok (n : net) : Prop := {
  wo_nodup : NoDup (accepted n);
  wo_live l q : (l, q) ∈ accepted n → is_Some (heap n !! l);
  wo_rel l x : heap n !! l = Some x →
    ∃ a, window_rel (replay (receive x)) a ∧ ∀ q, (l, q) ∈ accepted n → q ∈ aseen a
}.

(** The datagrams that left, by session and sequence number. *)
Definition sent (n : net) : list (nat * Z) :=
  omap (λ o, match o with ToUDP l q _ _ => Some (l, q) | ToAdapter _ => None end) (out n).

Record sent_ok (k : Z) (n : net) : Prop := {
  so_nodup : NoDup (sent n);
  so_bound l q : (l, q) ∈ sent n → ∃ x, heap n !! l = Some x ∧ q ≤ sequence x;
  so_count l x : heap n !! l = Some x → 0 ≤ sequence x ≤ k
}.

Lemma same_sessions_refl h : same_sessions h h.
Proof. done. Qed.
Lemma same_sessions_trans h1 h2 h3 :
  same_sessions h1 h2 → same_sessions h2 h3 → same_sessions h1 h3.
Proof. intros H1 H2 l. by rewrite H1. Qed.
Lemma same_sessions_insert h l x x' :
  h !! l = Some x → static x' = static x → same_sessions h (<[l := x']> h).
Proof.
  intros Hl Hs l'. destruct (decide (l = l')) as [<-|].
  - rewrite lookup_insert_eq, Hl. simpl. by rewrite Hs.
  - by rewrite lookup_insert_ne.
Qed.
Lemma same_sessions_lookup h h' l x :
  same_sessions h h' → h !! l = Some x → ∃ x', h' !! l = Some x' ∧ static x' = static x.
Proof.
  intros Hs Hl. specialize (Hs l). rewrite Hl in Hs. cbn in Hs.
  destruct (h' !! l) as [x'|]; [|done]. apply (inj Some) in Hs. by exists x'.
Qed.
Lemma same_sessions_sym h h' : same_sessions h h' → same_sessions h' h.
Proof. by intros Hs l. Qed.
Lemma static_inv x x' : static x' = static x →
  deviceID x' = deviceID x ∧ deviceHash_ x' = deviceHash_ x ∧ assignedIP x' = assignedIP x ∧
  sessionID x' = sessionID x ∧ expiresAt x' = expiresAt x ∧ ckey (send x') = ckey (send x) ∧
  ckey (receive x') = ckey (receive x).
Proof. unfold static. by intros [=]. Qed.

Lemma session_ok_static ip x x' : static x' = static x → session_ok ip x → session_ok ip x'.
Proof.
  intros (_ & Eh & Ea & Es & _ & E1 & E2)%static_inv. unfold session_ok.
  by rewrite Eh, Ea, Es, E1, E2.
Qed.

(** The tables' invariant only reads what does not change. *)
Lemma tables_ok_frame s s' :
  tables_ok s → router s' = router s → sessions s' = sessions s → byDevice s' = byDevice s →
  serverIP s' = serverIP s → same_sessions (heap (nw s)) (heap (nw s')) → tables_ok s'.
Proof.
  intros [H1 H2 H3 H4 H5 H6 H7] Er Es Eb Ei Hs.
  split; rewrite ?Er, ?Es, ?Eb, ?Ei; try done.
  - intros id l Hl. destruct (H1 id l Hl) as (x & Hx & ? & ?).
    destruct (same_sessions_lookup _ _ _ _ Hs Hx) as (x' & ? & Hst%static_inv).
    exists x'. by destruct_and?; split_and!; congruence.
  - intros d l Hl. destruct (H2 d l Hl) as (x & Hx & ? & ?).
    destruct (same_sessions_lookup _ _ _ _ Hs Hx) as (x' & ? & Hst%static_inv).
    exists x'. by destruct_and?; split_and!; congruence.
  - intros k l Hl. destruct (H3 k l Hl) as (x & Hx & ? & ?).
    destruct (same_sessions_lookup _ _ _ _ Hs Hx) as (x' & ? & Hst%static_inv).
    exists x'. by destruct_and?; split_and!; congruence.
  - intros l x' Hl. apply same_sessions_sym in Hs.
    destruct (same_sessions_lookup _ _ _ _ Hs Hl) as (x & Hx & Hst).
    eapply session_ok_static; [by symmetry|]. by eapply H7.
Qed.

(** ** What the operations do to the shared state *)

Record quiet (n n' : net) : Prop := {
  q_heap : heap n' = heap n; q_sent : sent n' = sent n; q_accepted : accepted n' = accepted n
}.

(** A session's sequence number is taken, and used at most once. *)
Record taken (l : nat) (x : serverSession) (n n' : net) : Prop := {
  t_live : heap n !! l = Some x;
  t_heap : heap n' = <[l := set_sequence (u64 (sequence x + 1)) x]> (heap n);
  t_sent : sent n' = sent n ∨ sent n' = sent n ++ [(l, u64 (sequence x + 1))];
  t_accepted : accepted n' = accepted n
}.
Definition send_effect (n n' : net) : Prop := quiet n n' ∨ ∃ l x, taken l x n n'.

Lemma sent_emit o n :
  sent (emit o n) = sent n ++ match o with ToUDP l q _ _ => [(l, q)] | ToAdapter _ => [] end.
Proof. unfold sent. simpl. rewrite omap_app. simpl. by destruct o. Qed.

Lemma Send_effect p packet n : send_effect n (snd (Send p packet n)).
Proof.
  destruct p as [|l]; simpl.
  - left. unfold adapter_Send. case_match; (split; try done).
    cbn [snd]. by rewrite sent_emit, app_nil_r.
  - unfold session_Send. destruct (heap n !! l) as [x|] eqn:Hl; [|by left].
    destruct (address x) as [to|]; [|by left]. right. exists l, x.
    destruct (sealPacket _ _ _) as [enc|e]; [destruct (udp_write to enc) as [e|]|];
      split; try done; try by left.
    right. cbn [snd]. by rewrite sent_emit.
Qed.

Lemma send_effect_trans_quiet n n1 n2 : send_effect n n1 → quiet n1 n2 → send_effect n n2.
Proof.
  intros [[H1 H2 H3] |(l & x & [H1 H2 H3 H4])] [G1 G2 G3].
  - left. split; congruence.
  - right. exists l, x. split; [done|congruence| |congruence]. rewrite G2. done.
Qed.

Lemma route_effect ip packet s :
  observer (router s) = Some observe_net → send_effect (nw s) (nw (route ip packet s)).
Proof.
  intros Ho. unfold route. simpl. apply Route_frame.
  - by left.
  - intros. apply Send_effect.
  - intros obs n1. rewrite Ho. intros [= <-] He. by eapply send_effect_trans_quiet.
Qed.

Lemma quiet_tick t n : quiet n (tick t n).
Proof. done. Qed.
Lemma quiet_monitor m n : quiet n (set_monitor m n).
Proof. done. Qed.
Lemma flush_net_quiet ic t n : quiet n (flush_net ic t n).
Proof. unfold flush_net. by destruct (flushHistory _ _ _ _) as [[??]?]. Qed.

Lemma send_effect_same n n' : send_effect n n' → same_sessions (heap n) (heap n').
Proof.
  intros [[-> _ _]|(l & x & [Hl -> _ _])]; [apply same_sessions_refl|].
  by eapply same_sessions_insert.
Qed.

Lemma window_ok_quiet n n' : quiet n n' → window_ok n → window_ok n'.
Proof. intros [E1 E2 E3] [W1 W2 W3]. split; rewrite ?E1, ?E3; try done. Qed.
Lemma sent_ok_quiet k n n' : quiet n n' → sent_ok k n → sent_ok k n'.
Proof. intros [E1 E2 E3] [W1 W2 W3]. split; rewrite ?E1, ?E2; try done. Qed.

Lemma window_ok_send n n' : send_effect n n' → window_ok n → window_ok n'.
Proof.
  intros [Hq|(l & x & [Hl E1 _ E3])] Hw; [by eapply window_ok_quiet|].
  destruct Hw as [W1 W2 W3]. split; rewrite ?E1, ?E3; [done|..].
  - intros l' q Hin%W2. destruct (decide (l = l')) as [<-|];
      [by rewrite lookup_insert_eq|by rewrite lookup_insert_ne].
  - intros l' x'. destruct (decide (l = l')) as [<-|].
    + rewrite lookup_insert_eq. intros [= <-]. by apply (W3 l x).
    + rewrite lookup_insert_ne by done. apply W3.
Qed.

Lemma sent_ok_send k n n' :
  send_effect n n' → 0 ≤ k → k + 1 < 2 ^ 64 → sent_ok k n → sent_ok (k + 1) n'.
Proof.
  intros He Hk0 Hk Hs.
  assert (sent_ok (k + 1) n) as Hs1.
  { destruct Hs as [S1 S2 S3]. split; [done..|]. intros l x Hl%S3. lia. }
  destruct He as [Hq|(l & x & [Hl E1 Hsent _])]; [by eapply sent_ok_quiet|].
  destruct Hs as [S1 S2 S3]. pose proof (S3 l x Hl) as Hx.
  rewrite u64_small in E1, Hsent by (unfold in_u64; lia).
  assert (∀ l' q, (l', q) ∈ sent n → ∃ y, heap n' !! l' = Some y ∧ q ≤ sequence y) as Hold.
  { intros l' q (y & Hy & Hle)%S2. rewrite E1. destruct (decide (l = l')) as [<-|].
    - rewrite lookup_insert_eq. eexists. split; [done|]. simplify_eq. simpl. lia.
    - rewrite lookup_insert_ne by done. by exists y. }
  split.
  - destruct Hsent as [-> | ->]; [done|]. apply NoDup_app. split; [done|].
    split; [|apply NoDup_singleton]. intros [l' q] Hin [= -> ->]%list_elem_of_singleton.
    apply S2 in Hin as (y & Hy & Hle). simplify_eq. lia.
  - intros l' q. destruct Hsent as [-> | ->]; [apply Hold|].
    intros [Hin|Hin]%elem_of_app; [by apply Hold|]. apply list_elem_of_singleton in Hin.
    simplify_eq. rewrite E1, lookup_insert_eq. eexists. split; [done|]. simpl. lia.
  - intros l' y. rewrite E1. destruct (decide (l = l')) as [<-|].
    + rewrite lookup_insert_eq. intros [= <-]. simpl. lia.
    + rewrite lookup_insert_ne by done. intros Hy%S3. lia.
Qed.

(** A datagram is put to a session's cipher: authenticated or not, its window
    moves. *)
Record received_as (from : UDPAddr) (l : nat) (x x' : serverSession) (q : Z) (authentic : bool)
    (n n' : net) : Prop := {
  r_live : heap n !! l = Some x;
  r_static : static x' = static x;
  r_sequence : sequence x' = sequence x;
  r_heap : heap n' = <[l := x']> (heap n);
  r_address : address x' = if authentic then Some from else address x;
  r_out : out n' = out n;
  r_accepted : accepted n' = accepted n ++ (if authentic then [(l, q)] else []);
  r_window a : window_rel (replay (receive x)) a →
    ∃ a', window_rel (replay (receive x')) a' ∧
      if authentic then (q ∉ aseen a) ∧ aseen a' = {[q]} ∪ aseen a else aseen a' = aseen a
}.

Lemma openPacket_window c enc packet a :
  window_rel (replay c) a → in_u64 (Sequence packet) →
  let '(r, c') := openPacket c enc packet in
  ckey c' = ckey c ∧
  ∃ a', window_rel (replay c') a' ∧
    if is_ok r then (Sequence packet ∉ aseen a) ∧ aseen a' = {[Sequence packet]} ∪ aseen a
    else aseen a' = aseen a.
Proof.
  intros Ha Hq. unfold openPacket. destruct (negb _); [split; [done|by exists a]|].
  by apply Open_rel.
Qed.

Lemma openPacket_key c enc packet : ckey (snd (openPacket c enc packet)) = ckey c.
Proof. unfold openPacket, Open. by repeat case_match. Qed.

Lemma recordInvalid_nw now ip s : nw (recordInvalid now ip s) = nw s.
Proof. done. Qed.

(** [open_datagram]: what it finds, the cipher's verdict, and the rest. *)
Lemma open_datagram_cases now l packet enc from s :
  in_u64 (Sequence packet) →
  open_datagram now l packet enc from s = s ∨
  ∃ x x' r s1, heap (nw s) !! l = Some x ∧ fst (openPacket (receive x) enc packet) = r ∧
    received_as from l x x' (Sequence packet) (is_ok r) (nw s) (nw s1) ∧
    router s1 = router s ∧ sessions s1 = sessions s ∧ byDevice s1 = byDevice s ∧
    serverIP s1 = serverIP s ∧ mtu s1 = mtu s ∧ invalid s1 = invalid s ∧
    (open_datagram now l packet enc from s = recordInvalid now (aIP from) s1 ∨
     is_ok r = true ∧
     (open_datagram now l packet enc from s = s1 ∧ pType packet = TypeKeepalive ∨
      ∃ pt, r = Ok pt ∧ pType packet ≠ TypeKeepalive ∧ 20 ≤ len pt ≤ mtu s ∧
        open_datagram now l packet enc from s = route (assignedIP x) pt s1)).
Proof.
  intros Hq. unfold open_datagram. destruct (heap (nw s) !! l) as [x|] eqn:Hl; [|by left].
  right. pose proof (openPacket_key (receive x) enc packet) as Hk.
  pose proof (λ a Ha, openPacket_window (receive x) enc packet a Ha Hq) as Hw.
  destruct (openPacket (receive x) enc packet) as [r c] eqn:Eo. simpl in Hk.
  assert (∀ n', heap n' = <[l := set_receive c x]> (heap (nw s)) → out n' = out (nw s) →
    accepted n' = accepted (nw s) → is_ok r = false →
    received_as from l x (set_receive c x) (Sequence packet) false (nw s) n') as Hbad.
  { intros n' E1 E2 E3 Er. rewrite Er in Hw.
    split; [done|unfold static; cbn; by rewrite Hk|done..|by rewrite app_nil_r|].
    intros a Ha. by apply Hw. }
  destruct r as [pt|e]; cycle 1.
  { exists x, (set_receive c x), (Err e), (set_session l (set_receive c x) s).
    rewrite Eo. split_and!; try done; [by apply Hbad|by left]. }
  set (x' := set_address from (set_receive c x)).
  set (s1 := log_accepted l (Sequence packet) (set_session l x' (set_session l (set_receive c x) s))).
  exists x, x', (Ok pt), s1. rewrite Eo. split; [done|]. split; [done|]. split.
  { split; [done|unfold static; cbn; by rewrite Hk|done|..].
    - simpl. by rewrite insert_insert_eq.
    - done.
    - done.
    - done.
    - intros a Ha. by apply Hw. }
  split_and!; try done.
  destruct (Z.eqb_spec (pType packet) TypeKeepalive).
  { destruct (negb (len pt =? 0)); [by left|right; split; [done|by left]]. }
  destruct (_ || _) eqn:E; [by left|]. bprop. right. split; [done|]. right.
  exists pt. split_and!; try done.
Qed.

(** ** The tables *)

Lemma tables_ok_alloc l x s :
  tables_ok s → heap (nw s) !! l = None → session_ok (serverIP s) x →
  tables_ok (set_net (set_heap (<[l := x]> (heap (nw s))) (nw s)) s).
Proof.
  intros [H1 H2 H3 H4 H5 H6 H7] Hl Hx.
  assert (∀ l' y, heap (nw s) !! l' = Some y → <[l := x]> (heap (nw s)) !! l' = Some y) as Hold.
  { intros l' y Hy. by rewrite lookup_insert_ne by congruence. }
  split; simpl; [..|done|done|done|].
  - intros id l' (y & ? & ?)%H1. exists y. auto.
  - intros d l' (y & ? & ?)%H2. exists y. auto.
  - intros k l' (y & ? & ?)%H3. exists y. auto.
  - intros l' y. destruct (decide (l = l')) as [<-|].
    + rewrite lookup_insert_eq. by intros [= <-].
    + rewrite lookup_insert_ne by done. apply H7.
Qed.

Lemma tables_ok_unlink d l x s :
  tables_ok s → byDevice s !! d = Some l → heap (nw s) !! l = Some x →
  tables_ok (set_tables (Remove (router s) (assignedIP x)) (delete (sessionID x) (sessions s))
    (delete d (byDevice s)) s).
Proof.
  intros [H1 H2 H3 H4 H5 H6 H7] Hd Hl.
  assert (deviceID x = d ∧ sessions s !! sessionID x = Some l) as [Hdx Hsx].
  { destruct (H2 d l Hd) as (y & ? & ? & ?). by simplify_eq. }
  split; simpl; [..|done|done|done].
  - intros id l' [Hne Hs]%lookup_delete_Some. destruct (H1 id l' Hs) as (y & Hy & <- & Hdy).
    exists y. split_and!; [done..|]. apply lookup_delete_Some. split; [|done].
    intros Heq. rewrite <- Heq in Hdy. by simplify_eq.
  - intros d' l' [Hne Hs]%lookup_delete_Some. destruct (H2 d' l' Hs) as (y & Hy & <- & Hsy).
    exists y. split_and!; [done..|]. apply lookup_delete_Some. split; [|done].
    intros Heq. rewrite <- Heq in Hsy. by simplify_eq.
  - intros k l' [Hne Hs]%lookup_delete_Some. destruct (H3 k l' Hs) as (y & Hy & <- & Hsy).
    exists y. split_and!; [done..|]. apply lookup_delete_Some. split; [|done].
    intros Heq. rewrite <- Heq in Hsy. by simplify_eq.
  - intros k. rewrite lookup_delete_Some, H4. split; [by intros [_ ?]|]. intros ->.
    split; [|done]. destruct (H7 l x Hl) as (Hx4 & Hne & _).
    by intros Heq%ip_string_inj.
Qed.

Lemma tables_ok_link l x s :
  tables_ok s → heap (nw s) !! l = Some x → byDevice s !! deviceID x = None →
  sessions s !! sessionID x = None →
  tables_ok (set_tables (Add (router s) (assignedIP x) (sessionPeer l))
    (<[sessionID x := l]> (sessions s)) (<[deviceID x := l]> (byDevice s)) s).
Proof.
  intros [H1 H2 H3 H4 H5 H6 H7] Hl Hd Hs.
  split; simpl; [..|done|done|done].
  - intros id l' [[<- <-]|[Hne Hl']]%lookup_insert_Some.
    { exists x. by rewrite lookup_insert_eq. }
    destruct (H1 id l' Hl') as (y & Hy & <- & Hdy). exists y.
    rewrite lookup_insert_ne by congruence. done.
  - intros d l' [[<- <-]|[Hne Hl']]%lookup_insert_Some.
    { exists x. by rewrite lookup_insert_eq. }
    destruct (H2 d l' Hl') as (y & Hy & <- & Hsy). exists y.
    rewrite lookup_insert_ne by congruence. done.
  - intros k l' [[<- [= <-]]|[Hne Hl']]%lookup_insert_Some.
    { exists x. by rewrite lookup_insert_eq. }
    destruct (H3 k l' Hl') as (y & Hy & <- & Hsy). exists y.
    rewrite lookup_insert_ne by congruence. done.
  - intros k. destruct (H7 l x Hl) as (Hx4 & Hne & _).
    destruct (decide (ip_string (assignedIP x) = k)) as [<-|Hk].
    + rewrite lookup_insert_eq. split; [done|]. by intros Heq%ip_string_inj.
    + by rewrite lookup_insert_ne.
Qed.

(** The registration, one table change after the other. *)
Lemma register_locked_eq l x s :
  tables_ok s → heap (nw s) !! l = None →
  let s1 := set_net (set_heap (<[l := x]> (heap (nw s))) (nw s)) s in
  let s2 :=
    match byDevice s !! deviceID x with
    | None => s1
    | Some old =>
      match heap (nw s) !! old with
      | None => s1
      | Some o =>
        set_tables (Remove (router s) (assignedIP o)) (delete (sessionID o) (sessions s))
          (delete (deviceID x) (byDevice s)) s1
      end
    end in
  register_locked l x s =
  set_tables (Add (router s2) (assignedIP x) (sessionPeer l)) (<[sessionID x := l]> (sessions s2))
    (<[deviceID x := l]> (byDevice s2)) s2.
Proof.
  intros Hok Hl s1 s2. unfold register_locked, s2. fold s1.
  change (byDevice s1) with (byDevice s).
  destruct (byDevice s !! deviceID x) as [old|] eqn:Hd; [|done].
  destruct (ok_device _ Hok _ _ Hd) as (o & Ho & _).
  assert (heap (nw s1) !! old = Some o) as Ho1
    by (simpl; by rewrite lookup_insert_ne by congruence).
  rewrite Ho1, Ho. unfold set_tables. cbn. by rewrite insert_delete_eq.
Qed.

Lemma register_locked_ok l x s :
  tables_ok s → heap (nw s) !! l = None → sessions s !! sessionID x = None →
  session_ok (serverIP s) x → tables_ok (register_locked l x s).
Proof.
  intros Hok Hl Hs Hx. rewrite register_locked_eq by done. cbv zeta.
  pose proof (tables_ok_alloc l x s Hok Hl Hx) as Hok1.
  destruct (byDevice s !! deviceID x) as [old|] eqn:Hd.
  - destruct (ok_device _ Hok _ _ Hd) as (o & Ho & _). rewrite Ho.
    apply tables_ok_link.
    + apply (tables_ok_unlink _ old o (set_net (set_heap (<[l := x]> (heap (nw s))) (nw s)) s));
        [done|done|]. simpl. by rewrite lookup_insert_ne by congruence.
    + simpl. apply lookup_insert_eq.
    + simpl. apply lookup_delete_eq.
    + simpl. rewrite lookup_delete_None. by right.
  - apply tables_ok_link; [done|simpl; apply lookup_insert_eq|done|done].
Qed.

Lemma Remove_session_ok d i s : tables_ok s → tables_ok (Remove_session d i s).
Proof.
  intros Hok. unfold Remove_session. destruct (byDevice s !! d) as [l|] eqn:Hd; [|done].
  destruct (heap (nw s) !! l) as [x|] eqn:Hl; [|done].
  destruct (_ =? _); [|done]. by eapply tables_ok_unlink.
Qed.

Lemma tables_ok_net s n :
  tables_ok s → same_sessions (heap (nw s)) (heap n) → tables_ok (set_net n s).
Proof. intros Hok Hs. by eapply tables_ok_frame. Qed.

Lemma route_ok ip packet s : tables_ok s → tables_ok (route ip packet s).
Proof.
  intros Hok. apply tables_ok_net; [done|]. apply (send_effect_same (nw s)).
  apply route_effect, Hok.
Qed.

(** ** Every step *)

Lemma received_as_same from l x x' q b n n' :
  received_as from l x x' q b n n' → same_sessions (heap n) (heap n').
Proof. intros [Hl Hs _ -> _ _ _ _]. by eapply same_sessions_insert. Qed.

Lemma open_datagram_ok now l packet enc from s :
  in_u64 (Sequence packet) → tables_ok s → tables_ok (open_datagram now l packet enc from s).
Proof.
  intros Hq Hok.
  destruct (open_datagram_cases now l packet enc from s Hq) as
    [->|(x & x' & r & s1 & _ & _ & Hr & Er & Es & Eb & Ei & _ & _ & Hcase)]; [done|].
  assert (tables_ok s1) as Hok1
    by (apply (tables_ok_frame s); try done; by eapply received_as_same).
  destruct Hcase as [->|(_ & [[-> _]|(pt & _ & _ & _ & ->)])]; [|done|by apply route_ok].
  by apply (tables_ok_frame s1).
Qed.

Lemma in_u64_parsed enc packet : ParsePacket enc = Ok packet → in_u64 (Sequence packet).
Proof. intros (Hwf & _)%ParsePacket_inv. apply Hwf. Qed.

Lemma tables_ok_step s s' : srv_step s s' → tables_ok s → tables_ok s'.
Proof.
  intros Hstep Hok. destruct Hstep as [| | |now ip s|now ip s| | |s|s].
  - by apply tables_ok_net.
  - by apply register_locked_ok.
  - by apply Remove_session_ok.
  - unfold invalidBlocked. by repeat case_match; apply (tables_ok_frame s).
  - by apply (tables_ok_frame s).
  - apply open_datagram_ok; [by eapply in_u64_parsed|done].
  - unfold readAdapter. case_match; [by apply route_ok|done].
  - unfold flushTrafficHistory. case_match; [done|].
    apply tables_ok_net; [done|]. by rewrite (q_heap _ _ (flush_net_quiet _ _ _)).
  - unfold Close. case_match; [done|]. apply (tables_ok_frame s); try done. simpl.
    by rewrite (q_heap _ _ (flush_net_quiet _ _ _)).
Qed.

Lemma window_ok_received from l x x' q b n n' :
  received_as from l x x' q b n n' → window_ok n → window_ok n'.
Proof.
  intros [Hl _ _ Eh _ _ Ea Hw] [W1 W2 W3]. destruct (W3 l x Hl) as (a & Hrel & Hin).
  destruct (Hw a Hrel) as (a' & Hrel' & Ha'). split.
  - rewrite Ea. destruct b; [|by rewrite app_nil_r]. apply NoDup_app. split; [done|].
    split; [|apply NoDup_singleton].
    intros p Hp ->%list_elem_of_singleton. apply Hin in Hp. by destruct Ha'.
  - intros l' q' Hp. rewrite Eh. destruct (decide (l = l')) as [<-|].
    + by rewrite lookup_insert_eq.
    + rewrite lookup_insert_ne by done. apply (W2 l' q').
      rewrite Ea in Hp. destruct b; [|by rewrite app_nil_r in Hp].
      apply elem_of_app in Hp as [?|Hp%list_elem_of_singleton]; [done|by simplify_eq].
  - intros l' y. rewrite Eh. destruct (decide (l = l')) as [<-|].
    + rewrite lookup_insert_eq. intros [= <-]. exists a'. split; [done|]. intros q'.
      rewrite Ea. destruct b.
      * destruct Ha' as [_ ->]. rewrite elem_of_app, list_elem_of_singleton.
        intros [?%Hin|[= ->]]; set_solver.
      * rewrite app_nil_r, Ha'. apply Hin.
    + rewrite lookup_insert_ne by done. intros (b' & Hb & Hb')%W3. exists b'. split; [done|].
      intros q'. rewrite Ea. destruct b; [|rewrite app_nil_r; apply Hb'].
      intros [?|Hp%list_elem_of_singleton]%elem_of_app; [by apply Hb'|by simplify_eq].
Qed.

Lemma sent_ok_received k from l x x' q b n n' :
  received_as from l x x' q b n n' → sent_ok k n → sent_ok k n'.
Proof.
  intros [Hl _ Hq Eh _ Eo _ _] [S1 S2 S3].
  assert (sent n' = sent n) as Es by (unfold sent; by rewrite Eo). split; rewrite ?Es, ?Eh; [done|..].
  - intros l' q' (y & Hy & Hle)%S2. destruct (decide (l = l')) as [<-|].
    + rewrite lookup_insert_eq. eexists. split; [done|]. by simplify_eq; rewrite Hq.
    + rewrite lookup_insert_ne by done. by exists y.
  - intros l' y. destruct (decide (l = l')) as [<-|].
    + rewrite lookup_insert_eq. intros [= <-]. rewrite Hq. by apply (S3 l).
    + rewrite lookup_insert_ne by done. apply S3.
Qed.

Lemma open_datagram_window now l packet enc from s :
  in_u64 (Sequence packet) → observer (router s) = Some observe_net → window_ok (nw s) →
  window_ok (nw (open_datagram now l packet enc from s)).
Proof.
  intros Hq Ho Hok.
  destruct (open_datagram_cases now l packet enc from s Hq) as
    [->|(x & x' & r & s1 & _ & _ & Hr & Er & _ & _ & _ & _ & _ & Hcase)]; [done|].
  pose proof (window_ok_received _ _ _ _ _ _ _ _ Hr Hok) as Hok1.
  destruct Hcase as [->|(_ & [[-> _]|(pt & _ & _ & _ & ->)])]; [done|done|].
  eapply window_ok_send; [|done]. apply route_effect. by rewrite Er.
Qed.

Lemma sent_ok_mono k k' n : k ≤ k' → sent_ok k n → sent_ok k' n.
Proof. intros Hk [S1 S2 S3]. split; [done..|]. intros l x Hx%S3. lia. Qed.

Lemma open_datagram_sent k now l packet enc from s :
  in_u64 (Sequence packet) → observer (router s) = Some observe_net →
  0 ≤ k → k + 1 < 2 ^ 64 → sent_ok k (nw s) →
  sent_ok (k + 1) (nw (open_datagram now l packet enc from s)).
Proof.
  intros Hq Ho Hk0 Hk Hok.
  destruct (open_datagram_cases now l packet enc from s Hq) as
    [->|(x & x' & r & s1 & _ & _ & Hr & Er & _ & _ & _ & _ & _ & Hcase)];
    [by eapply sent_ok_mono; [|done]; lia|].
  pose proof (sent_ok_received k _ _ _ _ _ _ _ _ Hr Hok) as Hok1.
  destruct Hcase as [->|(_ & [[-> _]|(pt & _ & _ & _ & ->)])];
    [by eapply sent_ok_mono; [|done]; lia..|].
  eapply sent_ok_send; [|done..]. apply route_effect. by rewrite Er.
Qed.

Lemma window_ok_step s s' :
  srv_step s s' → tables_ok s → window_ok (nw s) → window_ok (nw s').
Proof.
  intros Hstep Hok Hw. pose proof (ok_observer _ Hok) as Ho.
  destruct Hstep as [|l x s Hl _ _ _ Hrep| |now ip s|now ip s| | |s|s].
  - eapply window_ok_quiet; [apply quiet_tick|done].
  - rewrite register_locked_eq by done. cbv zeta. simpl.
    assert (window_ok (set_heap (<[l:=x]> (heap (nw s))) (nw s))).
    { destruct Hw as [W1 W2 W3]. split; simpl; [done|..].
      - intros l' q [y Hy]%W2. rewrite lookup_insert_ne by congruence. by exists y.
      - intros l' y. destruct (decide (l = l')) as [<-|].
        + rewrite lookup_insert_eq. intros [= <-]. exists (mkAWindow 0 ∅).
          rewrite Hrep. split; [apply window_rel_init|]. intros q [y Hy]%W2. congruence.
        + rewrite lookup_insert_ne by done. apply W3. }
    by repeat case_match.
  - unfold Remove_session. by repeat case_match.
  - unfold invalidBlocked. by repeat case_match.
  - done.
  - apply open_datagram_window; [by eapply in_u64_parsed|done..].
  - unfold readAdapter. case_match; [|done]. eapply window_ok_send; [|done]. by apply route_effect.
  - unfold flushTrafficHistory. case_match; [done|].
    eapply window_ok_quiet; [|done]. apply flush_net_quiet.
  - unfold Close. case_match; [done|].
    eapply window_ok_quiet; [apply flush_net_quiet|]. eapply window_ok_quiet; [apply quiet_monitor|done].
Qed.

Lemma sent_ok_step k s s' :
  srv_step s s' → tables_ok s → 0 ≤ k → k + 1 < 2 ^ 64 → sent_ok k (nw s) →
  sent_ok (k + 1) (nw s').
Proof.
  intros Hstep Hok Hk0 Hk Hw. pose proof (ok_observer _ Hok) as Ho.
  assert (sent_ok (k + 1) (nw s)) as Hw1 by (by eapply sent_ok_mono; [|done]; lia).
  destruct Hstep as [|l x s Hl _ _ Hseq| |now ip s|now ip s| | |s|s].
  - eapply sent_ok_quiet; [apply quiet_tick|done].
  - rewrite register_locked_eq by done. cbv zeta. simpl.
    assert (sent_ok (k + 1) (set_heap (<[l:=x]> (heap (nw s))) (nw s))).
    { destruct Hw1 as [S1 S2 S3]. split; simpl; [done|..].
      - intros l' q (y & Hy & Hle)%S2. exists y. by rewrite lookup_insert_ne by congruence.
      - intros l' y. destruct (decide (l = l')) as [<-|].
        + rewrite lookup_insert_eq. intros [= <-]. lia.
        + rewrite lookup_insert_ne by done. apply S3. }
    by repeat case_match.
  - unfold Remove_session. by repeat case_match.
  - unfold invalidBlocked. by repeat case_match.
  - done.
  - apply open_datagram_sent; [by eapply in_u64_parsed|done..].
  - unfold readAdapter. case_match; [|done]. eapply sent_ok_send; [|done..]. by apply route_effect.
  - unfold flushTrafficHistory. case_match; [done|].
    eapply sent_ok_quiet; [|done]. apply flush_net_quiet.
  - unfold Close. case_match; [done|].
    eapply sent_ok_quiet; [apply flush_net_quiet|]. eapply sent_ok_quiet; [apply quiet_monitor|done].
Qed.
End dataplane.
Global Arguments net : clear implicits.
Global Arguments Server : clear implicits.
