(* ===== verification/DataplaneProperties.v ===== *)
(** * DataplaneProperties: what the server's data plane guarantees

    The properties of [Dataplane]: the tables, the registrations, what a
    datagram can cause, the uniqueness of sequence numbers in both directions,
    the limiter of invalid sources, and a route that is lost. *)
From S2P Require Import Prelude Text Net Clock Protocol Crypto Router.
From S2P Require Import Traffic Session Dataplane.
From Stdlib Require Import Init.Byte Strings.Byte.

Section properties.
Context `{Primitives} {W : Type}.
Context (udp_write : UDPAddr → list byte → option string)
  (adapter_write : list byte → option string).
Implicit Types s : Server W.
Local Abbreviation step := (srv_step udp_write adapter_write).

Lemma Listen_ok socket adapter ip mtu monitor now w s :
  Listen (W := W) socket adapter ip mtu monitor now w = Ok s →
  tables_ok s ∧ window_ok (nw s) ∧ sent_ok 0 (nw s).
Proof.
  unfold Listen. destruct monitor as [m|]; [|done]. intros Hl. guards. bprop. subst s.
  destruct (To4_length ip) as [|Hip]; [done|]. split; [|split]; split; simpl; try done.
  - intros k l [[_ ?]|[_ ?]]%lookup_insert_Some; done.
  - intros k. destruct (decide (ip_string (To4 ip) = k)) as [<-|Hne].
    + by rewrite lookup_insert_eq.
    + rewrite lookup_insert_ne, lookup_empty by done. split; [done|]. by intros ->.
  - constructor.
  - intros l q Hin. by apply elem_of_nil in Hin.
  - constructor.
  - intros l q Hin. by apply elem_of_nil in Hin.
Qed.

Lemma tables_ok_run s s' : rtc step s s' → tables_ok s → tables_ok s'.
Proof. induction 1 as [|s s1 s' Hs _ IH]; [done|]. intros Hok. by eapply IH, tables_ok_step. Qed.

Lemma window_ok_run s s' :
  rtc step s s' → tables_ok s → window_ok (nw s) → window_ok (nw s').
Proof.
  induction 1 as [|s s1 s' Hs _ IH]; [done|]. intros Hok Hw.
  by eapply IH; [eapply tables_ok_step|eapply window_ok_step].
Qed.

Lemma sent_ok_run n k s s' :
  nsteps step n s s' → tables_ok s → 0 ≤ k → k + Z.of_nat n < 2 ^ 64 → sent_ok k (nw s) →
  sent_ok (k + Z.of_nat n) (nw s').
Proof.
  intros Hn. revert k. induction Hn as [s|n s s1 s' Hs _ IH]; intros k Hok Hk0 Hk Hw.
  - by rewrite Z.add_0_r.
  - rewrite Nat2Z.inj_succ in *. replace (k + Z.succ (Z.of_nat n)) with (k + 1 + Z.of_nat n) by lia.
    apply IH; [by eapply tables_ok_step|lia|lia|]. eapply sent_ok_step; [done..|lia|done].
Qed.

(** A round of [readUDP] is a run of at most two steps. *)
Lemma readUDP_run now1 now2 now3 datagram from s :
  rtc step s (readUDP udp_write adapter_write now1 now2 now3 datagram from s).
Proof.
  unfold readUDP. pose proof (go_blocked udp_write adapter_write now1 (aIP from) s) as Hb.
  destruct (invalidBlocked now1 (aIP from) s) as [blocked s0]. simpl in Hb.
  eapply rtc_l; [exact Hb|]. destruct blocked; [done|].
  destruct (ParsePacket _) eqn:Ep; [|apply rtc_once, go_invalid].
  destruct (_ && _); [apply rtc_once, go_invalid|].
  destruct (find_session _ _ _); [|apply rtc_once, go_invalid].
  by apply rtc_once, go_open.
Qed.

(** C9: the tables agree in every run of the data plane, whatever the
    interleaving of its goroutines and of the management calls: a device has at
    most one session, which the table of sessions holds under its number; the
    router knows no other sessions, and each only under its own address; the
    server's address always leads to the adapter. *)
Theorem dataplane_tables socket adapter ip mtu monitor now w s s' :
  Listen (W := W) socket adapter ip mtu monitor now w = Ok s → rtc step s s' → tables_ok s'.
Proof. intros (Hok & _)%Listen_ok Hr. by eapply tables_ok_run. Qed.


(** ** Registration *)

Lemma deviceHash_range device : in_u64 (deviceHash device).
Proof.
  unfold deviceHash, in_u64. pose proof (be_get_range (take 8 (sha256 (s2b device)))) as Hr.
  assert (256 ^ len (take 8 (sha256 (s2b device))) ≤ 256 ^ 8).
  { apply Z.pow_le_mono_r; [lia|]. unfold len. rewrite length_take. lia. }
  change (256 ^ 8) with (2 ^ 64) in *. lia.
Qed.

Lemma NewCipher_ok key c :
  NewCipher key = Ok c → ckey c = key ∧ length key = 32%nat ∧ replay c = NewReplayWindow.
Proof.
  unfold NewCipher, len, DataKeySize. intros Hc. guards. bprop. subst c. split_and!; [done|lia|done].
Qed.

(** What [Register] does when it does not fail. *)
Lemma Register_inv secret draws now device assigned s b s' :
  tables_ok s → Forall in_u64 draws →
  Register (Some secret) draws now device assigned s = (Ok b, s') →
  ∃ x keys, let l := fresh (dom (heap (nw s))) in
    s' = register_locked l x s ∧ heap (nw s) !! l = None ∧
    newBootstrap (Some secret) draws now (port s) = Ok (b, keys, sessionID x) ∧
    deviceID x = device ∧ assignedIP x = To4 assigned ∧ session_ok (serverIP s) x ∧
    sequence x = 0 ∧ replay (receive x) = NewReplayWindow ∧ address x = None ∧
    ckey (send x) = serverToClient keys ∧ ckey (receive x) = clientToServer keys ∧
    expiresAt x = bExpiresAt b ∧ deviceHash_ x = deviceHash device.
Proof.
  intros Hok Hd. unfold Register. destruct (_ || _) eqn:Eg; [done|]. bprop.
  destruct (To4_length assigned) as [|Hip]; [done|].
  destruct (newBootstrap _ _ _ _) as [[[b' keys] sid]|e] eqn:En; [|done].
  destruct (NewCipher (serverToClient keys)) as [c1|] eqn:E1; [|done].
  destruct (NewCipher (clientToServer keys)) as [c2|] eqn:E2; [|done].
  intros [= -> <-]. destruct (newBootstrap_ok _ _ _ _ _ _ _ En Hd) as (Hsid & Hnz & _).
  apply NewCipher_ok in E1 as (K1 & L1 & _), E2 as (K2 & L2 & R2).
  eexists _, keys. split; [done|]. split; [apply not_elem_of_dom, is_fresh|].
  split; [done|]. split_and!; try done.
  split_and!; cbn; try congruence; try done; [|apply deviceHash_range|apply Hsid..].
  match goal with Hq : ip_equal _ _ = false |- _ =>
    rewrite ip_equal_4 in Hq by (done || apply (ok_self _ Hok)); by bprop end.
Qed.

Lemma register_locked_lookup l x s :
  tables_ok s → heap (nw s) !! l = None →
  let s' := register_locked l x s in
  byDevice s' !! deviceID x = Some l ∧ heap (nw s') !! l = Some x ∧
  sessions s' !! sessionID x = Some l ∧
  peers (router s') !! ip_string (assignedIP x) = Some (sessionPeer l).
Proof.
  intros Hok Hl s'. unfold s'. rewrite register_locked_eq by done. cbv zeta.
  cbn [set_tables router sessions byDevice nw]. unfold Add. cbn [peers]. rewrite !lookup_insert_eq.
  split_and!; try done. repeat case_match; simpl; by rewrite lookup_insert_eq.
Qed.

(** A registration replaces the device's session and nobody else's.  After
    it the device's only session is the new one, reachable by its number, by its
    device and by its address; it never received a datagram; its keys are the
    ones that the device derives from the bootstrap.  It is a step of a run when
    the number that was drawn is not taken. *)
Theorem register_installs secret draws now device assigned s b s' :
  tables_ok s → Forall in_u64 draws → 1 ≤ port s ≤ 65535 →
  sessions s !! parseSessionID (bSessionID b) = None →
  Register (Some secret) draws now device assigned s = (Ok b, s') →
  tables_ok s' ∧ step s s' ∧
  ∃ l x keys, byDevice s' !! device = Some l ∧ heap (nw s') !! l = Some x ∧
    sessions s' !! sessionID x = Some l ∧
    peers (router s') !! ip_string (To4 assigned) = Some (sessionPeer l) ∧
    address x = None ∧ expiresAt x = now + sessionLifetime ∧
    parseBootstrap now b = Ok (keys, sessionID x) ∧
    ckey (send x) = serverToClient keys ∧ ckey (receive x) = clientToServer keys ∧
    (∀ d, d ≠ device → byDevice s' !! d = byDevice s !! d) ∧
    (∀ id l', sessions s' !! id = Some l' → l' ≠ l → sessions s !! id = Some l').
Proof.
  intros Hok Hd Hport Hfree Hreg.
  destruct (Register_inv _ _ _ _ _ _ _ _ Hok Hd Hreg) as (x & keys & -> & Hl & Hn & Hdev & Hip
    & Hx & Hseq & Hrep & Hadr & K1 & K2 & Hexp & _).
  destruct (newBootstrap_ok _ _ _ _ _ _ _ Hn Hd) as (Hsid & Hnz & Hb & Hbe & _).
  assert (parseSessionID (bSessionID b) = sessionID x) as Hp
    by (unfold parseSessionID; by rewrite Hb, ParseUint_FormatUint).
  rewrite Hp in Hfree. split; [by apply register_locked_ok|].
  split; [destruct Hx as (? & ? & ? & ? & ? & ? & ?); by apply go_register|].
  set (l := fresh (dom (heap (nw s)))) in *. exists l, x, keys.
  destruct (register_locked_lookup l x s Hok Hl) as (L1 & L2 & L3 & L4).
  rewrite <- Hdev, <- Hip. split_and!; try done; try congruence.
  - rewrite (parse_newBootstrap _ _ _ _ _ _ _ now Hn) by done.
    rewrite (proj2 (Z.ltb_ge _ _)); [done|]. unfold sessionLifetime, Minute, Second. lia.
  - intros d Hne. rewrite register_locked_eq by done. simpl.
    rewrite lookup_insert_ne by done. repeat case_match; try done. simpl.
    by rewrite lookup_delete_ne.
  - intros id l'. rewrite register_locked_eq by done. simpl.
    intros [[<- <-]|[_ Hs]]%lookup_insert_Some; [done|]. intros _. revert Hs.
    repeat case_match; simpl; [|done..]. by intros [_ ?]%lookup_delete_Some.
Qed.

(** ** What a datagram can cause *)

(** The output [o] is the packet [pt], delivered unchanged to the peer [p]. *)
Definition delivered (p : peer) (pt : list byte) (o : output) (n : net W) : Prop :=
  match p, o with
  | adapterPeer, ToAdapter bytes => bytes = pt
  | sessionPeer l, ToUDP l' q to bytes =>
      l' = l ∧ ∃ y, heap n !! l = Some y ∧ address y = Some to ∧
        sealPacket (send y) (data_packet y q) pt = Ok bytes
  | _, _ => False
  end.

Lemma Send_output p pt (n : net W) :
  let n' := snd (Send udp_write adapter_write p pt n) in
  out n' = out n ∨ ∃ o, out n' = out n ++ [o] ∧ delivered p pt o n'.
Proof.
  destruct p as [|l]; simpl.
  - unfold adapter_Send. case_match; [by left|right]. by eexists.
  - unfold session_Send. destruct (heap n !! l) as [x|] eqn:Hl; [|by left].
    destruct (address x) as [to|] eqn:Ha; [|by left].
    destruct (sealPacket _ _ _) as [enc|] eqn:Es; [|by left].
    destruct (udp_write to enc); [by left|right]. eexists. split; [done|]. split; [done|].
    eexists. split; [apply lookup_insert_eq|done].
Qed.

Lemma Send_address p pt (n : net W) l :
  address <$> heap (snd (Send udp_write adapter_write p pt n)) !! l = address <$> heap n !! l.
Proof.
  destruct (Send_effect udp_write adapter_write p pt n) as [[-> _ _]|(l' & x & [Hl -> _ _])];
    [done|]. destruct (decide (l' = l)) as [<-|]; [|by rewrite lookup_insert_ne].
  by rewrite lookup_insert_eq, Hl.
Qed.

(** A routed packet: nothing leaves, or the packet itself, from the assigned
    address to the peer its destination names. *)
Lemma route_output ip pt s :
  tables_ok s → length ip = 4%nat →
  let s' := route udp_write adapter_write ip pt s in
  (∀ l, address <$> heap (nw s') !! l = address <$> heap (nw s) !! l) ∧
  accepted (nw s') = accepted (nw s) ∧
  (out (nw s') = out (nw s) ∨
   ∃ dst p o, ipv4_packet ip dst pt ∧ peers (router s) !! ip_string dst = Some p ∧
     out (nw s') = out (nw s) ++ [o] ∧ delivered p pt o (nw s')).
Proof.
  intros Hok Hip s'. pose proof (ok_observer _ Hok) as Ho. split; [|split].
  - intros l. unfold s', route. simpl.
    apply (Route_frame (λ n : net W, address <$> heap n !! l = address <$> heap (nw s) !! l)); [done|..].
    + intros p. apply Send_address.
    + intros obs n1. rewrite Ho. by intros [= <-].
  - unfold s'. destruct (route_effect udp_write adapter_write ip pt s Ho)
      as [[_ _ E]|(l & x & [_ _ _ E])]; done.
  - unfold s', route. simpl.
    destruct (Route (router s) _ ip pt (nw s)) as [e n'] eqn:ER. simpl.
    destruct (Route_inv _ _ _ _ _ _ _ Hip ER) as [[_ ->]|(dst & p & Hp & Hd & HR)]; [by left|].
    pose proof (Send_output p pt (nw s)) as Hout.
    destruct (Send _ _ p pt (nw s)) as [[e1|] n1]; simpl in Hout.
    + destruct HR as [_ ->]. destruct Hout as [->|(o & -> & Hdel)]; [by left|].
      right. by exists dst, p, o.
    + destruct HR as [_ ->]. rewrite Ho. cbn. destruct Hout as [->|(o & -> & Hdel)]; [by left|].
      right. by exists dst, p, o.
Qed.

Lemma invalidBlocked_nw now ip s : nw (snd (invalidBlocked now ip s)) = nw s.
Proof. unfold invalidBlocked. by repeat case_match. Qed.

(** [invalidBlocked] only changes the table of invalid sources. *)
Lemma invalidBlocked_state now ip s :
  ∃ i, snd (invalidBlocked now ip s) = set_invalid i s.
Proof.
  unfold invalidBlocked. repeat case_match; try by eexists. exists (invalid s). by destruct s.
Qed.

(** The end of [open_datagram], after the authentication. *)
Lemma open_tail now from packet pt ip s1 s' :
  tables_ok s1 → length ip = 4%nat →
  s' = recordInvalid now (aIP from) s1 ∨ s' = s1 ∨
    (20 ≤ len pt ≤ mtu s1 ∧ pType packet ≠ TypeKeepalive ∧
     s' = route udp_write adapter_write ip pt s1) →
  (∀ l, address <$> heap (nw s') !! l = address <$> heap (nw s1) !! l) ∧
  accepted (nw s') = accepted (nw s1) ∧
  (out (nw s') = out (nw s1) ∨
   ∃ dst p o, pType packet ≠ TypeKeepalive ∧ 20 ≤ len pt ≤ mtu s1 ∧ ipv4_packet ip dst pt ∧
     peers (router s1) !! ip_string dst = Some p ∧
     out (nw s') = out (nw s1) ++ [o] ∧ delivered p pt o (nw s')).
Proof.
  intros Hok Hip [->|[->|(Hl & Hk & ->)]]; [by split_and!; [..|left]|by split_and!; [..|left]|].
  destruct (route_output ip pt s1 Hok Hip) as (H1 & H2 & H3). split_and!; [done..|].
  destruct H3 as [H3|(dst & p & o & H3)]; [by left|right; exists dst, p, o].
  by destruct_and?; split_and!.
Qed.

Context `{!PrimitiveLaws}.

Lemma openPacket_accepts c enc packet pt :
  length (ckey c) = 32%nat → ParsePacket enc = Ok packet →
  fst (openPacket c enc packet) = Ok pt → sealPacket c packet pt = Ok enc.
Proof.
  intros Hk Hp Ho. destruct (openPacket c enc packet) as [r c'] eqn:E. simpl in Ho. subst r.
  by destruct (openPacket_sound c enc packet pt c').
Qed.

(** C15: nothing is forwarded for strangers.  A datagram changes no endpoint,
    authenticates nothing and causes no output unless it is a data or keepalive
    packet that the holder of the key of a live, unexpired session sealed for the
    device of that session; then the session's endpoint becomes the sender's
    address, no other endpoint changes, and at most one packet leaves: the
    datagram's own plaintext, whose source address is the session's, unchanged,
    to the peer that the router knows under its destination. *)
Theorem udp_authorized now1 now2 now3 datagram from s :
  tables_ok s →
  let s' := readUDP udp_write adapter_write now1 now2 now3 datagram from s in
  (out (nw s') = out (nw s) ∧ accepted (nw s') = accepted (nw s) ∧
   ∀ l, address <$> heap (nw s') !! l = address <$> heap (nw s) !! l) ∨
  ∃ l x packet pt,
    ParsePacket (received s datagram) = Ok packet ∧ sessions s !! SessionID packet = Some l ∧
    heap (nw s) !! l = Some x ∧ now2 ≤ expiresAt x ∧ SourceID packet = deviceHash_ x ∧
    sealPacket (receive x) packet pt = Ok (received s datagram) ∧
    accepted (nw s') = accepted (nw s) ++ [(l, Sequence packet)] ∧
    address <$> heap (nw s') !! l = Some (Some from) ∧
    (∀ l', l' ≠ l → address <$> heap (nw s') !! l' = address <$> heap (nw s) !! l') ∧
    (out (nw s') = out (nw s) ∨
     ∃ dst p o, pType packet = TypeData ∧ 20 ≤ len pt ≤ mtu s ∧
       ipv4_packet (assignedIP x) dst pt ∧ peers (router s) !! ip_string dst = Some p ∧
       out (nw s') = out (nw s) ++ [o] ∧ delivered p pt o (nw s')).
Proof.
  intros Hok. unfold readUDP. pose proof (invalidBlocked_state now1 (aIP from) s) as [i Hi].
  destruct (invalidBlocked now1 (aIP from) s) as [blocked s0]. simpl in Hi. subst s0.
  destruct blocked; [by left|].
  change (received (set_invalid i s) datagram) with (received s datagram).
  destruct (ParsePacket (received s datagram)) as [packet|] eqn:Ep; [|by left].
  destruct (_ && _) eqn:Et; [by left|].
  destruct (find_session now2 packet (set_invalid i s)) as [l|] eqn:Ef; [|by left].
  unfold find_session in Ef. cbn [set_invalid sessions nw] in Ef.
  destruct (sessions s !! SessionID packet) as [l0|] eqn:Hs; [|done].
  destruct (heap (nw s) !! l0) as [x|] eqn:Hl; [|done].
  destruct (_ || _) eqn:Eg; [done|]. injection Ef as ->. bprop. unfold After in *. bprop.
  assert (tables_ok (set_invalid i s)) as Hok' by (by apply (tables_ok_frame s)).
  destruct (open_datagram_cases udp_write adapter_write now3 l packet (received s datagram) from
      (set_invalid i s) (in_u64_parsed _ _ Ep)) as
    [->|(y & x' & r & s1 & Hy & Hr & Hrec & Er & Es & Eb & Ei & Em & _ & Hcase)]; [by left|].
  cbn [set_invalid nw] in Hy. rewrite Hl in Hy. injection Hy as <-.
  destruct Hrec as [_ Hst _ Eh Ea Eo Eacc _]. destruct r as [pt|e]; cycle 1.
  { left. destruct Hcase as [->|[? _]]; [|done]. rewrite recordInvalid_nw, Eo, Eacc, Eh.
    split; [done|]. split; [apply app_nil_r|]. intros l'. destruct (decide (l = l')) as [<-|].
    - by rewrite lookup_insert_eq, Hl; simpl; rewrite Ea.
    - by rewrite lookup_insert_ne. }
  right. exists l, x, packet, pt. apply openPacket_accepts in Hr; [|apply (ok_heap _ Hok _ _ Hl)|done].
  assert (tables_ok s1) as Hok1.
  { apply (tables_ok_frame (set_invalid i s)); [done..|]. rewrite Eh.
    by apply (same_sessions_insert _ _ x). }
  set (s' := open_datagram udp_write adapter_write now3 l packet _ from _) in *.
  destruct (open_tail now3 from packet pt (assignedIP x) s1 s' Hok1) as (Hadr & Hacc & Hout).
  { apply (ok_heap _ Hok _ _ Hl). }
  { destruct Hcase as [->|(_ & [[-> _]|(pt' & [= <-] & ? & ? & ->)])]; [by left|by right; left|].
    right; right. by rewrite Em. }
  rewrite Hacc, Eacc. split_and!; try done.
  - rewrite Hadr, Eh, lookup_insert_eq. simpl. by rewrite Ea.
  - intros l' Hne. by rewrite Hadr, Eh, lookup_insert_ne.
  - destruct Hout as [->|(dst & p & o & ? & ? & ? & ? & -> & ?)]; [by left|right].
    exists dst, p, o. rewrite Eo. rewrite Em in *. rewrite Er in *.
    split; [apply andb_false_iff in Et as [Et|Et]; by bprop|done].
Qed.

(** ** Invalid sources *)

Lemma size_list_to_map_le {A} (l : list (string * A)) :
  (size (list_to_map l : gmap string A) ≤ length l)%nat.
Proof.
  induction l as [|[k a] l IH]; simpl; [by rewrite map_size_empty|].
  rewrite map_size_insert. case_match; simpl; lia.
Qed.

Lemma shrink_size now m : (size (shrink now m) ≤ maxInvalidSources)%nat.
Proof.
  unfold shrink. case_bool_decide; [done|]. set (m' := filter _ m).
  etrans; [apply size_list_to_map_le|]. rewrite length_drop, length_map_to_list. lia.
Qed.

Lemma shrink_small now m : (size m ≤ maxInvalidSources)%nat → shrink now m = m.
Proof. intros. unfold shrink. by rewrite bool_decide_eq_true_2. Qed.

(** [recordInvalid] while the table has room. *)
Lemma recordInvalid_entry t ip s t0 n :
  invalid s !! ip_string ip = Some (mkInvalid t0 n) → t0 ≠ zeroTime → Sub t t0 < Minute →
  (size (invalid s) ≤ maxInvalidSources)%nat →
  recordInvalid t ip s =
  set_invalid (<[ip_string ip := mkInvalid t0 (n + 1)]> (invalid s)) s.
Proof.
  intros Hl Hz Ht Hsz. unfold recordInvalid. rewrite Hl. cbn [default from_option window count id].
  unfold IsZero. rewrite (proj2 (Z.eqb_neq _ _)), (proj2 (Z.leb_gt _ _)) by done. cbn [orb].
  rewrite shrink_small; [done|]. by rewrite map_size_insert_Some.
Qed.

Definition record_all (ip : list byte) (ts : list Z) s : Server W :=
  foldl (λ s t, recordInvalid t ip s) s ts.

Lemma record_all_entry ip t0 n ts s :
  invalid s !! ip_string ip = Some (mkInvalid t0 n) → t0 ≠ zeroTime →
  Forall (λ t, Sub t t0 < Minute) ts → (size (invalid s) ≤ maxInvalidSources)%nat →
  record_all ip ts s =
  set_invalid (<[ip_string ip := mkInvalid t0 (n + len ts)]> (invalid s)) s.
Proof.
  intros Hl Hz Hts Hsz. revert n s Hl Hsz. induction Hts as [|t ts Ht _ IH]; intros n s Hl Hsz.
  - unfold record_all, len. simpl. rewrite Z.add_0_r, insert_id by done. by destruct s.
  - unfold record_all. simpl. fold (record_all ip ts (recordInvalid t ip s)).
    rewrite (recordInvalid_entry t ip s t0 n) by done. rewrite (IH (n + 1)); simpl.
    + unfold set_invalid. simpl. rewrite insert_insert_eq. do 3 f_equal. unfold len. simpl. lia.
    + apply lookup_insert_eq.
    + by rewrite map_size_insert_Some.
Qed.


(** ** A route that is lost *)

(** Ending one device's session can cut off another device.  The table of
    routes is keyed by address, and [Remove] (like [Register]) deletes the entry
    of its session's address whoever holds it by now: when the address of a
    connected device was given to another device, and that device has connected
    too, the end of the first one's session leaves the second one's session live
    but without a route, and the packets to its address are refused. *)
Theorem lost_route dA lA xA dB lB xB packet src s :
  tables_ok s → byDevice s !! dA = Some lA → heap (nw s) !! lA = Some xA →
  byDevice s !! dB = Some lB → heap (nw s) !! lB = Some xB → dA ≠ dB →
  assignedIP xA = assignedIP xB → ipv4_packet src (assignedIP xB) packet →
  let s' := Remove_session dA (FormatUint (sessionID xA)) s in
  byDevice s' !! dB = Some lB ∧ sessions s' !! sessionID xB = Some lB ∧
  peers (router s') !! ip_string (assignedIP xB) = None ∧
  ∀ Send n, Route (router s') Send src packet n = (Some err_unknown_destination, n).
Proof.
  intros Hok HA HlA HB HlB Hne Hip Hp s'.
  destruct (ok_heap _ Hok _ _ HlA) as (_ & _ & _ & Hid & _).
  destruct (ok_device _ Hok _ _ HB) as (y & Hy & Hd & Hs).
  rewrite HlB in Hy. injection Hy as <-.
  assert (s' = set_tables (Remove (router s) (assignedIP xA)) (delete (sessionID xA) (sessions s))
                 (delete dA (byDevice s)) s) as ->.
  { unfold s', Remove_session, parseSessionID. rewrite HA, HlA, ParseUint_FormatUint by done.
    by rewrite Z.eqb_refl. }
  simpl. split; [by rewrite lookup_delete_ne|]. split.
  { rewrite lookup_delete_ne; [done|]. intros E. rewrite <- E in Hs.
    destruct (ok_device _ Hok _ _ HA) as (y & Hy & Hd' & Hs'). simplify_eq. }
  rewrite Hip, lookup_delete_eq. split; [done|]. intros Send n.
  destruct (ipv4_packet_lengths _ _ _ Hp) as [Hl _]. destruct Hp as (Hlen & Hv & Hsrc & Hdst).
  unfold Route. rewrite (proj2 (Z.ltb_ge _ _)), Hv by done. simpl.
  rewrite Hsrc, ip_equal_4, bool_decide_eq_true_2 by done. simpl.
  by rewrite Hdst, lookup_delete_eq.
Qed.
End properties.

(** ** Witnesses: two devices on the toy primitives *)

Definition udp_ok (_ : UDPAddr) (_ : list byte) : option string := None.
Definition adapter_ok (_ : list byte) : option string := None.

Definition toy_listen : result (Server unit) :=
  Listen (Ok 4242) true (ip4 10 90 0 1) 1420 (Some NewTrafficMonitor) 5 tt.
Definition toy_server : Server unit :=
  match toy_listen with
  | Ok s => s
  | Err _ => mkServer (mkNet 0 ∅ NewTrafficMonitor tt [] []) [] 0 0 New ∅ ∅ ∅ false
  end.
Definition toy_cipher_of (b : byte) : Cipher := mkCipher (replicate 32 b) NewReplayWindow.
Definition toy_session (device : string) (ip : list byte) (id : Z) : serverSession :=
  mkSession device (deviceHash device) ip id (10 * Minute) (toy_cipher_of x01)
    (toy_cipher_of x02) 0 None.
Definition xa : serverSession := toy_session "a" (ip4 10 90 0 2) 77.
Definition xb : serverSession := toy_session "b" (ip4 10 90 0 3) 78.
Definition toy_two : Server unit := register_locked 1 xb (register_locked 0 xa toy_server).

(** What a device sends. *)
Definition toy_datagram (t : Z) (x : serverSession) (q : Z) (pt : list byte) : list byte :=
  match sealPacket (receive x)
          (mkPacket t 0 0 (sessionID x) (deviceHash_ x) 0 q []) pt with
  | Ok b => b
  | Err _ => []
  end.
Definition addr_a : UDPAddr := mkAddr (ip4 192 0 2 1) 1000.
Definition addr_b : UDPAddr := mkAddr (ip4 192 0 2 2) 2000.
Definition toy_read := readUDP (W := unit) udp_ok adapter_ok 6 6 6.
(** Both endpoints are known. *)
Definition toy_live : Server unit :=
  toy_read (toy_datagram TypeKeepalive xb 1 []) addr_b
    (toy_read (toy_datagram TypeKeepalive xa 1 []) addr_a toy_two).

Lemma toy_listen_ok : toy_listen = Ok toy_server.
Proof.
  assert (is_ok toy_listen = true) as Hok by (vm_compute; reflexivity).
  unfold toy_server. by destruct toy_listen.
Qed.

Ltac toy_register :=
  apply go_register; first
    [vm_compute; reflexivity | vm_compute; discriminate | split; vm_compute; (reflexivity || discriminate)].

Lemma toy_register_a :
  srv_step udp_ok adapter_ok toy_server (register_locked 0 xa toy_server).
Proof. toy_register. Qed.
Lemma toy_register_b :
  srv_step udp_ok adapter_ok (register_locked 0 xa toy_server) toy_two.
Proof. toy_register. Qed.

Lemma toy_run : rtc (srv_step udp_ok adapter_ok) toy_server toy_two.
Proof. exact (rtc_l _ _ _ _ toy_register_a (rtc_once _ _ toy_register_b)). Qed.

Lemma toy_two_ok : tables_ok toy_two.
Proof.
  exact (tables_ok_run _ _ _ _ toy_run (proj1 (Listen_ok _ _ _ _ _ _ _ _ toy_listen_ok))).
Qed.

Lemma dataplane_tables_witness :
  byDevice toy_two !! "b" = Some 1%nat ∧ tables_ok toy_two.
Proof.
  split; [vm_compute; reflexivity|].
  exact (dataplane_tables udp_ok adapter_ok _ _ _ _ _ _ _ _ _ toy_listen_ok toy_run).
Defined.


Lemma register_installs_witness :
  ∃ b s', Register (Some (replicate 32 x07)) [0; 79] 6 "c" (ip4 10 90 0 4) toy_two = (Ok b, s') ∧
    tables_ok s' ∧ is_Some (byDevice s' !! "c").
Proof.
  destruct (Register (Some (replicate 32 x07)) [0; 79] 6 "c" (ip4 10 90 0 4) toy_two)
    as [[b|e] s'] eqn:E.
  - exists b, s'. split; [reflexivity|].
    assert (bSessionID b = "79") as Hb.
    { assert (match fst (Register (Some (replicate 32 x07)) [0; 79] 6 "c" (ip4 10 90 0 4) toy_two)
              with Ok b => bSessionID b | Err _ => "" end = "79") as Hb
        by (vm_compute; reflexivity). rewrite E in Hb. exact Hb. }
    destruct (register_installs udp_ok adapter_ok (replicate 32 x07) [0; 79] 6 "c"
      (ip4 10 90 0 4) toy_two b s' toy_two_ok
      ltac:(repeat constructor; vm_compute; congruence)
      ltac:(split; vm_compute; congruence)
      ltac:(rewrite Hb; vm_compute; reflexivity) E) as (Hok & _ & l & x & keys & Hd & _).
    split; [exact Hok|]. exists l. exact Hd.
  - exfalso.
    assert (is_ok (fst (Register (Some (replicate 32 x07)) [0; 79] 6 "c" (ip4 10 90 0 4) toy_two))
            = true) as Hb by (vm_compute; reflexivity).
    rewrite E in Hb. discriminate Hb.
Defined.

Lemma toy_live_run : rtc (srv_step udp_ok adapter_ok) toy_server toy_live.
Proof.
  refine (transitivity toy_run (transitivity _ _)); [|apply (readUDP_run udp_ok adapter_ok)].
  apply (readUDP_run udp_ok adapter_ok).
Qed.

Lemma toy_live_ok : tables_ok toy_live.
Proof.
  exact (tables_ok_run _ _ _ _ toy_live_run (proj1 (Listen_ok _ _ _ _ _ _ _ _ toy_listen_ok))).
Qed.

(** [a] sends to [b]: one datagram leaves for [b]'s endpoint. *)
Lemma udp_authorized_witness :
  let s' := toy_read (toy_datagram TypeData xa 2 sample_packet) addr_a toy_live in
  length (out (nw s')) = 1%nat ∧
  ∃ l, accepted (nw s') = accepted (nw toy_live) ++ [(l, 2)].
Proof.
  set (d := toy_datagram TypeData xa 2 sample_packet). cbv zeta.
  assert (length (out (nw (toy_read d addr_a toy_live))) = 1%nat) as Ho
    by (vm_compute; reflexivity).
  assert (length (out (nw toy_live)) = 0%nat) as Ho0 by (vm_compute; reflexivity).
  split; [exact Ho|].
  destruct (udp_authorized udp_ok adapter_ok 6 6 6 d addr_a toy_live toy_live_ok)
    as [[E _]|(l & x & p & pt & Hp & _ & _ & _ & _ & _ & Ha & _)].
  - exfalso. fold (toy_read d addr_a toy_live) in E. rewrite E, Ho0 in Ho. discriminate Ho.
  - exists l. fold (toy_read d addr_a toy_live) in Ha. rewrite Ha.
    assert (match ParsePacket (received toy_live d) with Ok p => Sequence p | Err _ => 0 end = 2)
      as Hq by (vm_compute; reflexivity).
    rewrite Hp in Hq. rewrite Hq. reflexivity.
Defined.


(** [a] is moved to another address while connected, and [c] gets its old one. *)
Definition xc : serverSession := toy_session "c" (ip4 10 90 0 2) 80.
Definition toy_moved : Server unit := register_locked 2 xc toy_two.

Lemma toy_register_c : srv_step udp_ok adapter_ok toy_two toy_moved.
Proof. toy_register. Qed.

Definition packet_to_c : list byte :=
  [x45] ++ replicate 11 x00 ++ ip4 10 90 0 3 ++ ip4 10 90 0 2 ++ [x2a].

Lemma lost_route_witness :
  rtc (srv_step udp_ok adapter_ok) toy_server (Remove_session "a" (FormatUint 77) toy_moved) ∧
  peers (router toy_moved) !! ip_string (ip4 10 90 0 2) = Some (sessionPeer 2) ∧
  byDevice (Remove_session "a" (FormatUint 77) toy_moved) !! "c" = Some 2%nat ∧
  peers (router (Remove_session "a" (FormatUint 77) toy_moved)) !! ip_string (ip4 10 90 0 2) = None.
Proof.
  assert (rtc (srv_step udp_ok adapter_ok) toy_server toy_moved) as Hr
    by exact (rtc_r _ _ _ toy_run toy_register_c).
  assert (tables_ok toy_moved) as Hok.
  { exact (tables_ok_run _ _ _ _ Hr (proj1 (Listen_ok _ _ _ _ _ _ _ _ toy_listen_ok))). }
  split; [exact (rtc_r _ _ _ Hr (go_remove _ _ _ _ _))|].
  split; [vm_compute; reflexivity|].
  assert (heap (nw toy_moved) !! 0%nat = Some xa) as H0 by (vm_compute; reflexivity).
  assert (heap (nw toy_moved) !! 2%nat = Some xc) as H2 by (vm_compute; reflexivity).
  destruct (lost_route "a" 0%nat xa "c" 2%nat xc packet_to_c (ip4 10 90 0 3) toy_moved Hok
    ltac:(vm_compute; reflexivity) H0 ltac:(vm_compute; reflexivity) H2
    ltac:(discriminate) ltac:(vm_compute; reflexivity)
    ltac:(split; [vm_compute; discriminate|split; [|split]; vm_compute; reflexivity]))
    as (Hd & _ & Hp & _).
  split; [exact Hd|exact Hp].
Defined.
