(* ===== verification/DataClient.v ===== *)
(** * DataClient: the client's data plane ([internal/dataplane/client.go]) and
    the in-memory tunnel ([internal/tunnel/memory.go])

    A session is shared by the goroutines that are using it when [Configure]
    replaces it, so sessions live in a heap and [session] is a pointer.
    [readUDP] is split where the lock is released: [find_current] takes the
    pointer, [open_data] goes on with it.  [conn_write] and [device_write] are
    the operating system's answers to the two writes; what was written is
    recorded in [wire] and [written].

    The end-to-end theorem is about both ends: what one client sends, the server
    forwards and the other client writes to its adapter, unchanged, and the three
    are ready for the next packet. *)
From S2P Require Import Prelude Text Net Clock Protocol Crypto Router.
From S2P Require Import Traffic Session Dataplane DataplaneProperties.
From Stdlib Require Import Init.Byte Strings.Byte.

(** ** The in-memory tunnel *)

Module Memory.
Record Memory := mkMemory { name : string; packets : list (list byte); closed : bool }.

Definition NewMemory (name : string) : Memory := mkMemory name [] false.
(** The number of bytes, and the queue after the call. *)
Definition Write (m : Memory) (b : list byte) : result Z * Memory :=
  if closed m then (Err "closed", m)
  else (Ok (len b), mkMemory (name m) (packets m ++ [b]) false).
(** [Read] into a buffer of [n] bytes: what it holds afterwards. *)
Definition Read (m : Memory) (n : nat) : result (list byte) * Memory :=
  match packets m with
  | [] => (Err "no packet", m)
  | p :: ps => (Ok (take n p), mkMemory (name m) ps (closed m))
  end.
Definition Close (m : Memory) : Memory := mkMemory (name m) (packets m) true.
End Memory.

(** ** The client *)

Record clientSession := mkClientSession {
  csID : Z; csExpires : Z; csEndpoint : UDPAddr; csSend : Cipher; csReceive : Cipher;
  csSequence : Z
}.

Record Client := mkClient {
  cAssigned : list byte; cHash : Z; cMtu : Z;
  cHeap : gmap nat clientSession; session : option nat; cClosed : bool;
  wire : list (nat * Z * UDPAddr * list byte); written : list (list byte)
}.

Definition with_heap (h : gmap nat clientSession) (c : Client) : Client :=
  mkClient (cAssigned c) (cHash c) (cMtu c) h (session c) (cClosed c) (wire c) (written c).
Definition with_session (l : nat) (cs : clientSession) (c : Client) : Client :=
  mkClient (cAssigned c) (cHash c) (cMtu c) (<[l := cs]> (cHeap c)) (Some l) (cClosed c) (wire c)
    (written c).
Definition sent_on_wire (l : nat) (q : Z) (to : UDPAddr) (b : list byte) (c : Client) : Client :=
  mkClient (cAssigned c) (cHash c) (cMtu c) (cHeap c) (session c) (cClosed c)
    (wire c ++ [(l, q, to, b)]) (written c).
Definition wrote (b : list byte) (c : Client) : Client :=
  mkClient (cAssigned c) (cHash c) (cMtu c) (cHeap c) (session c) (cClosed c) (wire c)
    (written c ++ [b]).

Definition cs_sequence (q : Z) (cs : clientSession) : clientSession :=
  mkClientSession (csID cs) (csExpires cs) (csEndpoint cs) (csSend cs) (csReceive cs) q.
Definition cs_receive (r : Cipher) (cs : clientSession) : clientSession :=
  mkClientSession (csID cs) (csExpires cs) (csEndpoint cs) (csSend cs) r (csSequence cs).

Section client.
Context `{Primitives}.
Context (conn_write : UDPAddr → list byte → option string) (device_write : list byte → option string).
(** [url.Parse(serverURL)] and [Hostname()] (the empty name when the URL is
    invalid), and [net.ResolveUDPAddr]. *)
Context (url_hostname : string → string) (resolve : string → result UDPAddr).

(** [socket]: whether [net.ListenUDP] succeeded. *)
Definition NewClient (adapter : bool) (assigned : list byte) (device : string) (mtu : Z)
    (socket : result unit) : result Client :=
  fail_if negb adapter || bool_decide (To4 assigned = []) || (device =s "") || (mtu <? 576)
          || (9000 <? mtu)
    with "invalid client data-plane configuration";
  let? _ := socket in
  Ok (mkClient (To4 assigned) (deviceHash device) mtu ∅ None false [] []).

Definition client_packet (t : Z) (c : Client) (cs : clientSession) (q : Z) : Packet :=
  mkPacket t 0 0 (csID cs) (cHash c) 0 q [].

Definition client_send (t now : Z) (plaintext : list byte) (c : Client) : option string * Client :=
  match session c with
  | None => (Some "data-plane session is unavailable", c)
  | Some l =>
    match cHeap c !! l with
    | None => (Some "invalid memory address", c)
    | Some cs =>
      if After now (csExpires cs) then (Some "data-plane session is unavailable", c)
      else
        let q := u64 (csSequence cs + 1) in
        let c := with_heap (<[l := cs_sequence q cs]> (cHeap c)) c in
        match sealPacket (csSend cs) (client_packet t c cs q) plaintext with
        | Err e => (Some e, c)
        | Ok encoded =>
          match conn_write (csEndpoint cs) encoded with
          | Some e => (Some e, c)
          | None => (None, sent_on_wire l q (csEndpoint cs) encoded c)
          end
        end
    end
  end.

Definition Configure (now now2 : Z) (serverURL endpointOverride : string) (b : Bootstrap) (c : Client)
    : option string * Client :=
  match parseBootstrap now b with
  | Err e => (Some e, c)
  | Ok (keys, sessionID) =>
    let host :=
      if negb (endpointOverride =s "") then Ok endpointOverride
      else
        let hostname := url_hostname serverURL in
        if hostname =s "" then Err "invalid data-plane server URL"
        else Ok (JoinHostPort hostname (FormatUint (bPort b))) in
    match result_bind resolve host, NewCipher (clientToServer keys), NewCipher (serverToClient keys) with
    | Ok endpoint, Ok send, Ok receive =>
      let cs := mkClientSession sessionID (bExpiresAt b) endpoint send receive 0 in
      client_send TypeKeepalive now2 [] (with_session (fresh (dom (cHeap c))) cs c)
    | Err e, _, _ | _, Err e, _ | _, _, Err e => (Some e, c)
    end
  end.

(** One round of [readAdapter], for a successful read, and of [keepalive]. *)
Definition client_readAdapter (now : Z) (packet : list byte) (c : Client) : Client :=
  let packet := take (Z.to_nat (cMtu c)) packet in
  if 0 <? len packet then snd (client_send TypeData now packet c) else c.
Definition keepalive (now : Z) (c : Client) : Client :=
  if cClosed c then c else snd (client_send TypeKeepalive now [] c).

(** [readUDP], up to the lookup of the session. *)
Definition find_current (packet : Packet) (source : UDPAddr) (c : Client) : option nat :=
  match session c with
  | None => None
  | Some l =>
    match cHeap c !! l with
    | None => None
    | Some cs =>
      if negb (SessionID packet =? csID cs) || negb (DestinationID packet =? cHash c)
         || negb (ip_equal (aIP source) (aIP (csEndpoint cs)))
         || negb (aPort source =? aPort (csEndpoint cs))
      then None else Some l
    end
  end.

(** From the decryption on, with the pointer [l]. *)
Definition open_data (l : nat) (packet : Packet) (encoded : list byte) (c : Client) : Client :=
  match cHeap c !! l with
  | None => c
  | Some cs =>
    let '(r, receive) := openPacket (csReceive cs) encoded packet in
    let c := with_heap (<[l := cs_receive receive cs]> (cHeap c)) c in
    match r with
    | Err _ => c
    | Ok plaintext =>
      if (len plaintext <? 20) || (cMtu c <? len plaintext)
         || negb (ip_equal (slice 16 20 plaintext) (cAssigned c))
      then c
      else match device_write plaintext with Some _ => c | None => wrote plaintext c end
    end
  end.

Definition client_readUDP (datagram : list byte) (source : UDPAddr) (c : Client) : Client :=
  let encoded := take (HeaderSize + Z.to_nat (cMtu c) + 16) datagram in
  match ParsePacket encoded with
  | Err _ => c
  | Ok packet =>
    if negb (pType packet =? TypeData) then c
    else
      match find_current packet source c with
      | None => c
      | Some l => open_data l packet encoded c
      end
  end.

Definition client_Close (c : Client) : Client :=
  mkClient (cAssigned c) (cHash c) (cMtu c) (cHeap c) (session c) true (wire c) (written c).
End client.

(** ** Both ends *)

Section both_ends.
Context `{PrimitiveLaws} {W : Type}.
Context (conn_write udp_write : UDPAddr → list byte → option string)
  (adapter_write device_write : list byte → option string).
Implicit Types s : Server W.

(** The client's current session is the server's session [x]. *)
Record linked (c : Client) (k : nat) (cs : clientSession) (s : Server W) (l : nat)
    (x : serverSession) : Prop := {
  lk_session : session c = Some k; lk_current : cHeap c !! k = Some cs;
  lk_id : csID cs = sessionID x; lk_hash : cHash c = deviceHash_ x;
  lk_ip : cAssigned c = assignedIP x;
  lk_up : ckey (csSend cs) = ckey (receive x); lk_down : ckey (csReceive cs) = ckey (send x);
  lk_live : sessions s !! sessionID x = Some l; lk_heap : heap (nw s) !! l = Some x;
  lk_route : peers (router s) !! ip_string (assignedIP x) = Some (sessionPeer l);
  lk_newer_up : 0 ≤ highest (replay (receive x)) ≤ csSequence cs;
  lk_newer_down : 0 ≤ highest (replay (csReceive cs)) ≤ sequence x
}.

Lemma client_send_ok t now pt c k cs :
  (∀ to b, conn_write to b = None) →
  session c = Some k → cHeap c !! k = Some cs → now ≤ csExpires cs →
  in_u64 (csSequence cs + 1) → len pt + 16 ≤ MaxPayload →
  let q := csSequence cs + 1 in
  ∃ enc, sealPacket (csSend cs) (client_packet t c cs q) pt = Ok enc ∧
    client_send conn_write t now pt c =
    (None, sent_on_wire k q (csEndpoint cs) enc
             (with_heap (<[k := cs_sequence q cs]> (cHeap c)) c)).
Proof.
  intros Hw Hs Hc Hnow Hq Hlen q.
  destruct (sealPacket (csSend cs) (client_packet t c cs q) pt) as [enc|] eqn:Es.
  - exists enc. split; [done|]. unfold client_send. rewrite Hs, Hc. unfold After.
    rewrite (proj2 (Z.ltb_ge _ _)) by done. rewrite u64_small by done. fold q.
    change (client_packet t (with_heap (<[k:=cs_sequence q cs]> (cHeap c)) c) cs q)
      with (client_packet t c cs q). by rewrite Es, Hw.
  - exfalso. rewrite sealPacket_eq in Es. cbv zeta in Es.
    by rewrite (proj2 (Z.ltb_ge _ _)) in Es.
Qed.

(** The receiver's window takes a newer number. *)
Lemma newer_accepted w q :
  in_u64 q → 0 ≤ highest w < q →
  fst (Accept w q) = true ∧ highest (snd (Accept w q)) = q.
Proof. intros Hq Hw. by rewrite Accept_newer. Qed.

Lemma data_packet_wf x q : in_u64 (sessionID x) → in_u64 (deviceHash_ x) → in_u64 q →
  packet_wf (data_packet x q).
Proof. intros. split; try done. Qed.
Lemma client_packet_wf t c cs q : in_u8 t → in_u64 (csID cs) → in_u64 (cHash c) → in_u64 q →
  packet_wf (client_packet t c cs q).
Proof. intros. split; try done. Qed.

Lemma sealed_length c p pt enc :
  sealPacket c p pt = Ok enc → len enc = Z.of_nat HeaderSize + len pt + 16.
Proof.
  intros Hs. rewrite sealPacket_eq in Hs. cbv zeta in Hs. case_match; [done|].
  apply Ok_inj in Hs as <-. unfold len, Seal. rewrite length_app, header_length, seal_length. lia.
Qed.

Lemma take_sealed c p pt enc mtu :
  sealPacket c p pt = Ok enc → len pt ≤ mtu →
  take (HeaderSize + Z.to_nat mtu + 16) enc = enc.
Proof. intros Hl%sealed_length ?. apply take_ge. unfold len in *. lia. Qed.

Lemma session_Send_ok l x to pt enc (n : net W) :
  (∀ to b, udp_write to b = None) → heap n !! l = Some x → address x = Some to →
  in_u64 (sequence x + 1) → sealPacket (send x) (data_packet x (sequence x + 1)) pt = Ok enc →
  session_Send udp_write l pt n =
  (None, emit (ToUDP l (sequence x + 1) to enc)
           (set_heap (<[l := set_sequence (sequence x + 1) x]> (heap n)) n)).
Proof.
  intros Hw Hl Ha Hq Hs. unfold session_Send. rewrite Hl, Ha, u64_small by done.
  by rewrite Hs, Hw.
Qed.

(** A packet of [xa]'s device, on its way through the server to [xb]'s. *)
Lemma server_forwards t1 t2 t3 s la xa lb xb q from to pt enc c :
  (∀ to b, udp_write to b = None) → tables_ok s → fst (invalidBlocked t1 (aIP from) s) = false →
  sessions s !! sessionID xa = Some la → heap (nw s) !! la = Some xa → t2 ≤ expiresAt xa →
  heap (nw s) !! lb = Some xb → la ≠ lb → address xb = Some to →
  peers (router s) !! ip_string (assignedIP xb) = Some (sessionPeer lb) →
  sealPacket c (mkPacket TypeData 0 0 (sessionID xa) (deviceHash_ xa) 0 q []) pt = Ok enc →
  ckey c = ckey (receive xa) → in_u64 q → 0 ≤ highest (replay (receive xa)) < q →
  ipv4_packet (assignedIP xa) (assignedIP xb) pt → len pt ≤ mtu s → mtu s ≤ 9000 →
  in_u64 (sequence xb + 1) →
  let s' := readUDP udp_write adapter_write t1 t2 t3 enc from s in
  ∃ enc2 r, sealPacket (send xb) (data_packet xb (sequence xb + 1)) pt = Ok enc2 ∧
    out (nw s') = out (nw s) ++ [ToUDP lb (sequence xb + 1) to enc2] ∧
    heap (nw s') = <[lb := set_sequence (sequence xb + 1) xb]>
                     (<[la := set_address from (set_receive r xa)]> (heap (nw s))) ∧
    ckey r = ckey (receive xa) ∧ highest (replay r) = q ∧
    router s' = router s ∧ sessions s' = sessions s.
Proof.
  intros Hw Hok Hnb Hsa Hla Ht Hlb Hne Hto Hr Hseal Hk Hq Hnew Hip Hmtu Hmax Hqb s'.
  destruct (ok_heap _ Hok _ _ Hla) as (Hia & _ & Hha & Hida & _ & _ & Hka).
  destruct (newer_accepted (replay (receive xa)) q Hq Hnew) as [Hacc Hhigh].
  assert (packet_wf (mkPacket TypeData 0 0 (sessionID xa) (deviceHash_ xa) 0 q [])) as Hwf
    by (split; done).
  destruct (open_sealed c (receive xa) _ pt enc Hwf Hseal Hk) as (p & Hp & Hpe & Hopen);
    [by rewrite Hk|done|].
  injection Hpe as Ept Ef En Eid Esrc Edst Eq. cbn in Ept, Eid, Esrc, Eq.
  destruct (sealPacket (send xb) (data_packet xb (sequence xb + 1)) pt) as [enc2|] eqn:Es2; cycle 1.
  { exfalso. rewrite sealPacket_eq in Es2. cbv zeta in Es2.
    rewrite (proj2 (Z.ltb_ge _ _)) in Es2; [done|]. unfold MaxPayload. lia. }
  exists enc2, (mkCipher (ckey (receive xa)) (snd (Accept (replay (receive xa)) q))).
  split; [done|].
  unfold s', readUDP. pose proof (invalidBlocked_state t1 (aIP from) s) as [i Hi].
  destruct (invalidBlocked t1 (aIP from) s) as [b s0]. simpl in Hnb, Hi. subst b s0.
  unfold received. cbn [set_invalid Dataplane.mtu]. rewrite (take_sealed _ _ _ _ _ Hseal), Hp by done.
  rewrite Ept. change (negb (TypeData =? TypeData) && negb (TypeData =? TypeKeepalive)) with false.
  unfold find_session. cbn [set_invalid sessions nw]. rewrite Eid, Hsa, Hla. unfold After.
  rewrite (proj2 (Z.ltb_ge _ _)), Esrc, Z.eqb_refl by done. cbn [orb negb].
  unfold open_datagram. cbn [set_invalid nw]. rewrite Hla, Hopen. cbv zeta.
  rewrite Ept. change (TypeData =? TypeKeepalive) with false.
  cbn [set_invalid Dataplane.mtu log_accepted set_session set_net].
  rewrite (proj2 (Z.ltb_ge (len pt) 20)), (proj2 (Z.ltb_ge (mtu s) (len pt))) by (done || apply Hip).
  cbn [orb]. unfold route. cbn [nw router set_net].
  rewrite (Route_deliver _ _ _ _ _ _ _ (sessionPeer lb) Hip Hia); [|done|done].
  cbn [Send]. erewrite (session_Send_ok lb xb to pt enc2); [|done| |done..].
  - cbn -[HeaderSize]. rewrite (ok_observer _ Hok). cbn. rewrite insert_insert_eq. done.
  - simpl. by rewrite insert_insert_eq, lookup_insert_ne.
Qed.

Lemma ip_equal_refl ip : ip_equal ip ip = true.
Proof. unfold ip_equal. by rewrite !bool_decide_eq_true_2. Qed.

(** The datagram at the other client. *)
Lemma client_delivers c k cs x src pt enc q :
  device_write pt = None → session c = Some k → cHeap c !! k = Some cs →
  csID cs = sessionID x → cHash c = deviceHash_ x → length (cAssigned c) = 4%nat →
  in_u64 (sessionID x) → in_u64 (deviceHash_ x) → length (ckey (send x)) = 32%nat →
  sealPacket (send x) (data_packet x q) pt = Ok enc → ckey (csReceive cs) = ckey (send x) →
  in_u64 q → 0 ≤ highest (replay (csReceive cs)) < q →
  ipv4_packet src (cAssigned c) pt → len pt ≤ cMtu c →
  ∃ r, client_readUDP device_write enc (csEndpoint cs) c =
         wrote pt (with_heap (<[k := cs_receive r cs]> (cHeap c)) c) ∧
       ckey r = ckey (csReceive cs) ∧ highest (replay r) = q.
Proof.
  intros Hw Hs Hc Hid Hh Hia Hidr Hhr Hkl Hseal Hk Hq Hnew Hip Hmtu.
  destruct (newer_accepted (replay (csReceive cs)) q Hq Hnew) as [Hacc Hhigh].
  destruct (open_sealed (send x) (csReceive cs) _ pt enc (data_packet_wf x q Hidr Hhr Hq) Hseal)
    as (p & Hp & Hpe & Hopen); [done..|].
  injection Hpe as Ept Ef En Eid Esrc Edst Eq. cbn in Ept, Eid, Edst, Eq.
  exists (mkCipher (ckey (csReceive cs)) (snd (Accept (replay (csReceive cs)) q))).
  split; [|split; [done|exact Hhigh]]. unfold client_readUDP. rewrite (take_sealed _ _ _ _ _ Hseal), Hp by done. rewrite Ept.
  change (negb (TypeData =? TypeData)) with false. unfold find_current. rewrite Hs, Hc.
  rewrite Eid, Hid, Edst, Hh, ip_equal_refl, !Z.eqb_refl. cbn [orb negb].
  unfold open_data. rewrite Hc, Hopen. cbn [with_heap cMtu cAssigned].
  destruct Hip as (Hl20 & _ & _ & ->).
  rewrite (proj2 (Z.ltb_ge (len pt) 20)), (proj2 (Z.ltb_ge (cMtu c) (len pt))), ip_equal_refl by done.
  cbn [orb negb]. by rewrite Hw.
Qed.

(** C2: the tunnel, end to end.  Two clients whose sessions are linked to the
    server's, and a packet that the first one's adapter hands out for the second
    one's address: the client seals it into one datagram, the server opens that
    datagram and seals the packet into one datagram for the second client's
    endpoint, and the second client writes exactly that packet to its adapter.
    Afterwards both sessions are still linked, so the next packet passes too. *)
Theorem tunnel_end_to_end ca ka csa la xa cb kb csb lb xb s from to pt t t1 t2 t3 :
  tables_ok s → linked ca ka csa s la xa → linked cb kb csb s lb xb → la ≠ lb →
  ipv4_packet (assignedIP xa) (assignedIP xb) pt → len pt ≤ mtu s → mtu s ≤ 9000 →
  cMtu ca = mtu s → cMtu cb = mtu s →
  t ≤ csExpires csa → t2 ≤ expiresAt xa → fst (invalidBlocked t1 (aIP from) s) = false →
  address xb = Some to → csSequence csa + 1 < 2 ^ 64 → sequence xb + 1 < 2 ^ 64 →
  (∀ to b, conn_write to b = None) → (∀ to b, udp_write to b = None) → device_write pt = None →
  ∃ d1 d2 csa' xa' csb' xb',
    let ca' := client_readAdapter conn_write t pt ca in
    let s' := readUDP udp_write adapter_write t1 t2 t3 d1 from s in
    let cb' := client_readUDP device_write d2 (csEndpoint csb) cb in
    wire ca' = wire ca ++ [(ka, csSequence csa + 1, csEndpoint csa, d1)] ∧
    out (nw s') = out (nw s) ++ [ToUDP lb (sequence xb + 1) to d2] ∧
    written cb' = written cb ++ [pt] ∧
    linked ca' ka csa' s' la xa' ∧ linked cb' kb csb' s' lb xb'.
Proof.
  intros Hok [A1 A2 A3 A4 A5 A6 A7 A8 A9 A10 A11 A12] [B1 B2 B3 B4 B5 B6 B7 B8 B9 B10 B11 B12].
  intros Hne Hip Hmtu Hmax Hma Hmb Ht Ht2 Hnb Hto Hqa Hqb Hw1 Hw2 Hw3.
  destruct (ok_heap _ Hok _ _ A9) as (_ & _ & Hha & Hida & _ & _ & Hka).
  destruct (ok_heap _ Hok _ _ B9) as (Hib & _ & Hhb & Hidb & _ & Hkb & _).
  pose proof (ipv4_packet_lengths _ _ _ Hip) as [Hla4 _].
  destruct (client_send_ok TypeData t pt ca ka csa) as (d1 & Hs1 & Hsend);
    [done..|split; lia|unfold MaxPayload; lia|].
  unfold client_packet in Hs1. rewrite A3, A4 in Hs1.
  destruct (server_forwards t1 t2 t3 s la xa lb xb (csSequence csa + 1) from to pt d1 (csSend csa))
    as (d2 & r & Hs2 & Hout & Hheap & Hkr & Hhr & Hrt & Hst); try done; [split; lia|lia|split; lia|].
  destruct (client_delivers cb kb csb xb (assignedIP xa) pt d2 (sequence xb + 1))
    as (rb & Hcb & Hkrb & Hhrb); try done; try congruence; [split; lia|lia|].
  assert (client_readAdapter conn_write t pt ca =
    sent_on_wire ka (csSequence csa + 1) (csEndpoint csa) d1
      (with_heap (<[ka := cs_sequence (csSequence csa + 1) csa]> (cHeap ca)) ca)) as Hca.
  { unfold client_readAdapter. rewrite take_ge by (unfold len in *; lia).
    rewrite (proj2 (Z.ltb_lt _ _)) by (destruct Hip; lia). by rewrite Hsend. }
  exists d1, d2, (cs_sequence (csSequence csa + 1) csa), (set_address from (set_receive r xa)),
    (cs_receive rb csb), (set_sequence (sequence xb + 1) xb).
  cbv zeta. rewrite Hca, Hcb. split; [done|]. split; [exact Hout|]. split; [done|].
  split; (split; rewrite ?Hrt, ?Hst, ?Hheap; try done).
  - apply lookup_insert_eq.
  - simpl. by rewrite Hkr.
  - by rewrite lookup_insert_ne, lookup_insert_eq.
  - simpl. lia.
  - apply lookup_insert_eq.
  - simpl. by rewrite Hkrb.
  - by rewrite lookup_insert_eq.
  - simpl. lia.
Qed.

(** ** The handshake *)

(** The keepalive that a client sends when it is configured. *)
Lemma server_keepalive t1 t2 t3 s l x q from enc c :
  tables_ok s → fst (invalidBlocked t1 (aIP from) s) = false →
  sessions s !! sessionID x = Some l → heap (nw s) !! l = Some x → t2 ≤ expiresAt x →
  sealPacket c (mkPacket TypeKeepalive 0 0 (sessionID x) (deviceHash_ x) 0 q []) [] = Ok enc →
  ckey c = ckey (receive x) → in_u64 q → 0 ≤ highest (replay (receive x)) < q → 0 ≤ mtu s →
  let s' := readUDP udp_write adapter_write t1 t2 t3 enc from s in
  ∃ r, heap (nw s') = <[l := set_address from (set_receive r x)]> (heap (nw s)) ∧
    ckey r = ckey (receive x) ∧ highest (replay r) = q ∧ out (nw s') = out (nw s) ∧
    router s' = router s ∧ sessions s' = sessions s.
Proof.
  intros Hok Hnb Hsa Hla Ht Hseal Hk Hq Hnew Hm s'.
  destruct (ok_heap _ Hok _ _ Hla) as (_ & _ & Hha & Hida & _ & _ & Hka).
  destruct (newer_accepted (replay (receive x)) q Hq Hnew) as [Hacc Hhigh].
  assert (packet_wf (mkPacket TypeKeepalive 0 0 (sessionID x) (deviceHash_ x) 0 q [])) as Hwf
    by (split; done).
  destruct (open_sealed c (receive x) _ [] enc Hwf Hseal Hk) as (p & Hp & Hpe & Hopen);
    [by rewrite Hk|done|].
  injection Hpe as Ept Ef En Eid Esrc Edst Eq. cbn in Ept, Eid, Esrc, Eq.
  exists (mkCipher (ckey (receive x)) (snd (Accept (replay (receive x)) q))).
  unfold s', readUDP. pose proof (invalidBlocked_state t1 (aIP from) s) as [i Hi].
  destruct (invalidBlocked t1 (aIP from) s) as [b s0]. simpl in Hnb, Hi. subst b s0.
  unfold received. cbn [set_invalid Dataplane.mtu]. rewrite (take_sealed _ _ _ _ _ Hseal), Hp by done.
  rewrite Ept. change (negb (TypeKeepalive =? TypeData) && negb (TypeKeepalive =? TypeKeepalive))
    with false.
  unfold find_session. cbn [set_invalid sessions nw]. rewrite Eid, Hsa, Hla. unfold After.
  rewrite (proj2 (Z.ltb_ge _ _)), Esrc, Z.eqb_refl by done. cbn [orb negb].
  unfold open_datagram. cbn [set_invalid nw]. rewrite Hla, Hopen. cbv zeta.
  rewrite Ept. change (TypeKeepalive =? TypeKeepalive) with true.
  change (len (@nil byte)) with 0. cbn. rewrite insert_insert_eq. by split_and!.
Qed.

Context (url_hostname : string → string) (resolve : string → result UDPAddr).

(** The handshake.  When the server registers a device and the device's
    client is configured with that bootstrap, the client's session is linked to
    the server's; the client sends one keepalive, and when the server gets it from
    a source that is not blocked, before the session expires, it records that
    source as the session's endpoint and sends nothing; the sessions stay linked. *)
Theorem connect_links secret draws now device assigned mtu_ s b s' c tc tc2 url override c'
    from t1 t2 t3 :
  tables_ok s → Forall in_u64 draws → 1 ≤ port s ≤ 65535 → 0 ≤ mtu s →
  sessions s !! parseSessionID (bSessionID b) = None →
  Register (Some secret) draws now device assigned s = (Ok b, s') →
  NewClient true assigned device mtu_ (Ok tt) = Ok c →
  (∀ to b, conn_write to b = None) → tc2 ≤ bExpiresAt b →
  Configure conn_write url_hostname resolve tc tc2 url override b c = (None, c') →
  t2 ≤ bExpiresAt b → fst (invalidBlocked t1 (aIP from) s') = false →
  ∃ k cs l x d x',
    linked c' k cs s' l x ∧ wire c' = [(k, 1, csEndpoint cs, d)] ∧
    let s'' := readUDP udp_write adapter_write t1 t2 t3 d from s' in
    linked c' k cs s'' l x' ∧ address x' = Some from ∧ out (nw s'') = out (nw s').
Proof.
  intros Hok Hd Hport Hm Hfree Hreg Hnew Hw Htc2 Hcfg Ht2 Hnb.
  destruct (Register_inv _ _ _ _ _ _ _ _ Hok Hd Hreg) as (x & keys & -> & Hl & Hn & Hdev & Hip
    & Hx & Hseq & Hrep & Hadr & K1 & K2 & Hexp & Hhash).
  set (l := fresh (dom (heap (nw s)))) in *. set (s' := register_locked l x s) in *.
  destruct (newBootstrap_ok _ _ _ _ _ _ _ Hn Hd) as (Hsid & Hnz & Hb & Hbe & _).
  assert (sessions s !! sessionID x = None) as Hfree'.
  { by rewrite Hb in Hfree; unfold parseSessionID in Hfree; rewrite ParseUint_FormatUint in Hfree. }
  destruct (register_locked_lookup l x s Hok Hl) as (L1 & L2 & L3 & L4).
  unfold NewClient in Hnew. guards. subst c.
  unfold Configure in Hcfg. rewrite (parse_newBootstrap _ _ _ _ _ _ _ tc Hn) in Hcfg by done.
  destruct (now + sessionLifetime <? tc); [done|].
  destruct (result_bind resolve _) as [endpoint|]; [|done].
  destruct (NewCipher (clientToServer keys)) as [cu|] eqn:Eu; [|done].
  destruct (NewCipher (serverToClient keys)) as [cd|] eqn:Ed; [|done].
  apply NewCipher_ok in Eu as (U1 & U2 & U3), Ed as (D1 & D2 & D3).
  set (k := fresh (dom (cHeap _))) in *. set (cs := mkClientSession _ _ _ _ _ _) in *.
  set (c1 := with_session k cs _) in *.
  destruct (client_send_ok TypeKeepalive tc2 [] c1 k cs) as (d & Hd1 & Hsend);
    [done|done|apply lookup_insert_eq|done..|].
  unfold client_packet in Hd1. rewrite Hsend in Hcfg. injection Hcfg as <-.
  assert (tables_ok s') as Hok' by by apply register_locked_ok.
  assert (mtu s' = mtu s) as Hmtu by (unfold s'; rewrite register_locked_eq by done; simpl;
    by repeat case_match).
  destruct (server_keepalive t1 t2 t3 s' l x 1 from d cu) as (r & Hheap & Hkr & Hhr & Hout & Hrt & Hst);
    try done; try congruence; [by rewrite Hhash|by rewrite Hrep|].
  exists k, (cs_sequence 1 cs), l, x, d, (set_address from (set_receive r x)).
  assert (linked (sent_on_wire k 1 endpoint d (with_heap (<[k:=cs_sequence 1 cs]> (cHeap c1)) c1))
    k (cs_sequence 1 cs) s' l x) as Hlink.
  { split; try done; simpl; rewrite ?Hrep, ?D3, ?Hseq; simpl; congruence || lia. }
  split; [exact Hlink|]. split; [done|]. cbv zeta. split; [|done].
  destruct Hlink as [A1 A2 A3 A4 A5 A6 A7 A8 A9 A10 A11 A12].
  split; rewrite ?Hrt, ?Hst, ?Hheap; try done; simpl.
  - by rewrite Hkr.
  - apply lookup_insert_eq.
  - simpl. lia.
Qed.

(** ** What a datagram can cause at the client *)

(** The client writes to its adapter only what its server sends it now.  A
    datagram has no effect at all unless it is a data packet from the endpoint of
    the current session, for that session and this device; it changes nothing but
    that session's window, and at most one packet is written: the plaintext that
    the holder of the session's key sealed in exactly this datagram, of 20 bytes
    to the MTU, addressed to the client, and never under a sequence number that
    the window has seen. *)
Theorem client_receives datagram source c k cs a :
  session c = Some k → cHeap c !! k = Some cs → length (ckey (csReceive cs)) = 32%nat →
  length (cAssigned c) = 4%nat → window_rel (replay (csReceive cs)) a →
  let c' := client_readUDP device_write datagram source c in
  let enc := take (HeaderSize + Z.to_nat (cMtu c) + 16) datagram in
  c' = c ∨
  ∃ packet r, ParsePacket enc = Ok packet ∧ pType packet = TypeData ∧
    SessionID packet = csID cs ∧ DestinationID packet = cHash c ∧
    ip_equal (aIP source) (aIP (csEndpoint cs)) = true ∧ aPort source = aPort (csEndpoint cs) ∧
    ckey r = ckey (csReceive cs) ∧
    (c' = with_heap (<[k := cs_receive r cs]> (cHeap c)) c ∨
     ∃ pt, c' = wrote pt (with_heap (<[k := cs_receive r cs]> (cHeap c)) c) ∧
       sealPacket (csReceive cs) packet pt = Ok enc ∧ (Sequence packet ∉ aseen a) ∧
       20 ≤ len pt ≤ cMtu c ∧ slice 16 20 pt = cAssigned c).
Proof.
  intros Hs Hc Hk Hia Hrel c' enc. unfold c', client_readUDP. fold enc.
  destruct (ParsePacket enc) as [packet|] eqn:Ep; [|by left].
  destruct (negb (pType packet =? TypeData)) eqn:Et; [by left|].
  destruct (find_current packet source c) as [l|] eqn:Ef; [|by left].
  unfold find_current in Ef. rewrite Hs, Hc in Ef. destruct (_ || _) eqn:Eg; [done|].
  injection Ef as <-. bprop. right.
  unfold open_data. rewrite Hc.
  pose proof (openPacket_window (csReceive cs) enc packet a Hrel (in_u64_parsed _ _ Ep)) as Hw.
  pose proof (openPacket_sound (csReceive cs) enc packet) as Hsound.
  destruct (openPacket (csReceive cs) enc packet) as [r rc]. destruct Hw as (Hkr & a' & _ & Hr).
  exists packet, rc. do 7 (split; [done|]). destruct r as [pt|e]; [|by left].
  destruct (_ || _) eqn:El; [by left|]. destruct (device_write pt); [by left|]. right. bprop.
  exists pt. split; [done|]. split; [by eapply Hsound|]. split; [apply Hr|].
  cbn [with_heap cMtu cAssigned] in *. split; [done|].
  match goal with Hq : ip_equal _ _ = true |- _ => rewrite ip_equal_4 in Hq; bprop; [done| |done] end.
  apply slice_length; [lia|]. unfold len in *. lia.
Qed.
End both_ends.

(** ** Witnesses *)

Definition srv_addr : UDPAddr := mkAddr (ip4 203 0 113 1) 4242.
Definition write_ok (_ : UDPAddr) (_ : list byte) : option string := None.
Definition toy_client (device : string) (ip : list byte) (cs : clientSession) : Client :=
  mkClient ip (deviceHash device) 1420 {[0%nat := cs]} (Some 0%nat) false [] [].
Definition toy_csession (id : Z) : clientSession :=
  mkClientSession id (10 * Minute) srv_addr (toy_cipher_of x02) (toy_cipher_of x01) 1.
Definition client_a : Client := toy_client "a" (ip4 10 90 0 2) (toy_csession 77).
Definition client_b : Client := toy_client "b" (ip4 10 90 0 3) (toy_csession 78).
(** The sessions of [toy_live]. *)
Definition after_keepalive (x : serverSession) (a : UDPAddr) : serverSession :=
  set_address a (set_receive (mkCipher (replicate 32 x02) (mkWindow 1 1)) x).

Ltac toy_linked :=
  split; first [vm_compute; reflexivity | split; vm_compute; discriminate].

Lemma linked_a : linked client_a 0 (toy_csession 77) toy_live 0 (after_keepalive xa addr_a).
Proof. toy_linked. Qed.
Lemma linked_b : linked client_b 0 (toy_csession 78) toy_live 1 (after_keepalive xb addr_b).
Proof. toy_linked. Qed.

Lemma tunnel_end_to_end_witness :
  ∃ d1 d2,
    out (nw (toy_read d1 addr_a toy_live)) = [ToUDP 1 1 addr_b d2] ∧
    written (client_readUDP adapter_ok d2 srv_addr client_b) = [sample_packet].
Proof.
  assert (out (nw toy_live) = []) as E0 by (vm_compute; reflexivity).
  destruct (tunnel_end_to_end write_ok udp_ok adapter_ok adapter_ok
    client_a 0%nat (toy_csession 77) 0%nat (after_keepalive xa addr_a)
    client_b 0%nat (toy_csession 78) 1%nat (after_keepalive xb addr_b) toy_live addr_a addr_b
    sample_packet 6 6 6 6 toy_live_ok linked_a linked_b ltac:(discriminate)
    ltac:(split; [vm_compute; discriminate|split; [|split]; vm_compute; reflexivity])
    ltac:(vm_compute; discriminate) ltac:(vm_compute; discriminate)
    ltac:(vm_compute; reflexivity) ltac:(vm_compute; reflexivity)
    ltac:(vm_compute; discriminate) ltac:(vm_compute; discriminate)
    ltac:(vm_compute; reflexivity) ltac:(vm_compute; reflexivity)
    ltac:(vm_compute; reflexivity) ltac:(vm_compute; reflexivity)
    ltac:(reflexivity) ltac:(reflexivity) ltac:(reflexivity))
    as (d1 & d2 & ? & ? & ? & ? & _ & H2 & H3 & _).
  exists d1, d2. unfold toy_read. rewrite H2, E0. split; [reflexivity|exact H3].
Defined.

Definition hostname (_ : string) : string := "vpn.example".
Definition resolve_ok (_ : string) : result UDPAddr := Ok srv_addr.
Definition toy_newclient : Client :=
  mkClient (ip4 10 90 0 4) (deviceHash "c") 1280 ∅ None false [] [].
Definition toy_registered : result Bootstrap * Server unit :=
  Register (Some (replicate 32 x07)) [0; 79] 6 "c" (ip4 10 90 0 4) toy_two.

Lemma connect_links_witness :
  ∃ b s' c' k cs l x, toy_registered = (Ok b, s') ∧ linked c' k cs s' l x ∧
    bSessionID b = "79".
Proof.
  destruct toy_registered as [[b|e] s'] eqn:E.
  - assert (bSessionID b = "79" ∧ bExpiresAt b = 6 + sessionLifetime ∧
            fst (Configure write_ok hostname resolve_ok 6 6 "https://vpn.example" "" b toy_newclient)
            = None ∧ fst (invalidBlocked 6 (ip4 192 0 2 1) s') = false) as (Hb & Hx & Hc & Hi).
    { assert (match toy_registered with
              | (Ok b, s') => (bSessionID b, bExpiresAt b,
                  fst (Configure write_ok hostname resolve_ok 6 6 "https://vpn.example" "" b
                         toy_newclient), fst (invalidBlocked 6 (ip4 192 0 2 1) s'))
              | (Err _, _) => ("", 0, None, true)
              end = ("79", 6 + sessionLifetime, None, false)) as Hv by (vm_compute; reflexivity).
      rewrite E in Hv. injection Hv as ? ? ? ?. split; [|split; [|split]]; assumption. }
    destruct (Configure write_ok hostname resolve_ok 6 6 "https://vpn.example" "" b toy_newclient)
      as [o c'] eqn:Ec. simpl in Hc. subst o.
    destruct (connect_links write_ok udp_ok adapter_ok hostname resolve_ok (replicate 32 x07) [0; 79]
      6 "c" (ip4 10 90 0 4) 1280 toy_two b s' toy_newclient 6 6 "https://vpn.example" "" c'
      (mkAddr (ip4 192 0 2 1) 9) 6 6 6 toy_two_ok
      ltac:(repeat constructor; vm_compute; congruence)
      ltac:(split; vm_compute; congruence) ltac:(vm_compute; congruence)
      ltac:(rewrite Hb; vm_compute; reflexivity) E ltac:(vm_compute; reflexivity)
      ltac:(reflexivity) ltac:(rewrite Hx; vm_compute; congruence) Ec
      ltac:(rewrite Hx; vm_compute; congruence) Hi) as (k & cs & l & x & d & x' & Hl & _).
    exists b, s', c', k, cs, l, x. split; [reflexivity|split; [exact Hl|exact Hb]].
  - exfalso. assert (is_ok (fst toy_registered) = true) as Hv by (vm_compute; reflexivity).
    rewrite E in Hv. discriminate Hv.
Defined.

Lemma client_receives_witness :
  ∃ d, len d = 83 ∧
    written (client_readUDP adapter_ok d srv_addr client_b) = [sample_packet] ∧
    (client_readUDP adapter_ok d srv_addr client_b = client_b ∨
     ∃ packet, ParsePacket d = Ok packet ∧ pType packet = TypeData ∧ SessionID packet = 78).
Proof.
  set (d := match sealPacket (send xb) (data_packet xb 1) sample_packet with
            | Ok d => d | Err _ => [] end).
  exists d. split; [vm_compute; reflexivity|]. split; [vm_compute; reflexivity|].
  assert (take (HeaderSize + Z.to_nat (cMtu client_b) + 16) d = d) as Ed
    by (vm_compute; reflexivity).
  destruct (client_receives adapter_ok d srv_addr client_b 0%nat (toy_csession 78)
    (mkAWindow 0 ∅) ltac:(reflexivity) ltac:(vm_compute; reflexivity)
    ltac:(vm_compute; reflexivity) ltac:(vm_compute; reflexivity) window_rel_init)
    as [Hn|(p & r & Hp & Ht & Hi & _)].
  - left. exact Hn.
  - right. exists p. rewrite Ed in Hp. split; [exact Hp|split; [exact Ht|exact Hi]].
Defined.
