(* ===== verification/Config.v ===== *)
(** * Config: validation, loading and saving of configurations
    ([internal/config/config.go])

    A file system is a map from paths to files, each with its permission bits.
    What the operating system answers to the calls of [SaveServer] and
    [SaveClient] is an argument, also how much of a failing write was done.  The
    YAML library's two functions and [url.Parse] (the scheme and the host, when
    the URL is valid) are parameters. *)
From S2P Require Import Prelude Text Net Clock.
From S2P Require Import Dataplane DataClient Traffic.
From Stdlib Require Import Init.Byte Strings.Byte.

(** ** Data *)

Record ServerConfig := mkServerConfig {
  ListenAddress : string; APIPort : Z; TunnelPort : Z; TunnelEnabled : bool; TunnelName : string;
  TunnelAddress : string; TunnelMTU : Z; Network : string; Database : string; TLSCert : string;
  TLSKey : string; AllowInsecureHTTP : bool; AllowRemoteSetup : bool; SessionTTL : Z;
  PingInterval : Z
}.

Record ClientConfig := mkClientConfig {
  cServerURL : string; cTunnelEndpoint : string; cName : string; cStateDir : string;
  cLocalAddress : string; cAllowRemoteUI : bool; cKeepalive : Z; cTunnelEnabled : bool;
  cTunnelName : string; cTunnelMTU : Z
}.

Definition DefaultServer : ServerConfig :=
  mkServerConfig "0.0.0.0" 8443 51830 true "TyxNet" "10.90.0.1" 1280 "10.90.0.0/24" "tyxnet.db" ""
    "" true true (15 * Minute) (25 * Second).
Definition DefaultClient : ClientConfig :=
  mkClientConfig "" "" "" "./client-state" "0.0.0.0:9070" true (25 * Second) true "" 1280.

(** ** Validation: the error, [None] for nil *)

Notation "'error_if' c 'with' e ; k" := (if c then Some e else k)
  (at level 10, c at level 100, e at level 100, k at level 200) : tyx_scope.

(** [v[i] != base[i]|^n.Mask[i]] for some [i]. *)
Definition isIPv4Broadcast (ip : list byte) (n : IPNet) : bool :=
  match To4 (nIP n), To4 ip with
  | [], _ | _, [] => false
  | base, v => bool_decide (v = zip_with bor base (map bnot (take 4 (nMask n))))
  end.

Definition bad_tunnel_server (c : ServerConfig) (n : IPNet) : option string :=
  error_if (TrimSpace (TunnelName c) =s "") || (15 <? slen (TunnelName c))
    with "tunnel_name must be between 1 and 15 characters";
  let address := ParseIP (TunnelAddress c) in
  error_if bool_decide (address = []) || bool_decide (To4 address = []) || negb (Contains n address)
    with "tunnel_address must be an IPv4 address inside network";
  error_if ip_equal address (nIP n) || isIPv4Broadcast address n
    with "tunnel_address cannot be the network or broadcast address";
  error_if (TunnelMTU c <? 576) || (9000 <? TunnelMTU c)
    with "tunnel_mtu must be between 576 and 9000";
  None.

Definition ValidateServer (c : ServerConfig) : option string :=
  error_if bool_decide (ParseIP (ListenAddress c) = []) with "listen_address must be an IP address";
  error_if (APIPort c <? 1) || (65535 <? APIPort c) || (TunnelPort c <? 1) || (65535 <? TunnelPort c)
    with "ports must be between 1 and 65535";
  error_if APIPort c =? TunnelPort c with "API and tunnel ports must differ";
  error_if (PingInterval c <? 5 * Second) || (Hour <? PingInterval c)
    with "ping_interval must be between 5s and 1h";
  match ParseCIDR (Network c) with
  | None => Some "network must be an IPv4 CIDR"
  | Some (ip, n) =>
    error_if bool_decide (To4 ip = []) with "network must be an IPv4 CIDR";
    let '(ones, bits) := mask_size (nMask n) in
    error_if negb (bits =? 32) || (30 <? ones) with "network must contain usable client addresses";
    error_if Database c =s "" with "database is required";
    match (if TunnelEnabled c then bad_tunnel_server c n else None) with
    | Some e => Some e
    | None =>
      error_if negb (Bool.eqb (TLSCert c =s "") (TLSKey c =s ""))
        with "tls_cert and tls_key must be configured together";
      error_if negb (ListenAddress c =s "127.0.0.1") && negb (ListenAddress c =s "::1")
               && (TLSCert c =s "") && negb (AllowInsecureHTTP c)
        with "non-loopback HTTP requires TLS or explicit allow_insecure_http";
      None
    end
  end.

Definition bad_endpoint (endpoint : string) : option string :=
  if endpoint =s "" then None
  else
    match SplitHostPort endpoint with
    | None => Some "tunnel_endpoint must use host:port format"
    | Some (host, port) =>
      error_if TrimSpace host =s "" with "tunnel_endpoint must use host:port format";
      let '(n, err) := Atoi port in
      error_if negb (bool_decide (err = None)) || (n <? 1) || (65535 <? n)
        with "tunnel_endpoint port must be between 1 and 65535";
      None
    end.

Definition bad_tunnel_client (c : ClientConfig) : option string :=
  match bad_endpoint (cTunnelEndpoint c) with
  | Some e => Some e
  | None =>
    error_if 15 <? slen (cTunnelName c) with "tunnel_name must be at most 15 characters";
    error_if (cTunnelMTU c <? 576) || (9000 <? cTunnelMTU c)
      with "tunnel_mtu must be between 576 and 9000";
    None
  end.

Section config.
Context (parse_url : string → option (string * string)).

Definition bad_server_url (url : string) : option string :=
  if url =s "" then None
  else
    match parse_url url with
    | None => Some "server must be an http or https URL"
    | Some (scheme, host) =>
      error_if (negb (scheme =s "http") && negb (scheme =s "https")) || (host =s "")
        with "server must be an http or https URL";
      None
    end.

Definition ValidateClient (c : ClientConfig) : option string :=
  let serverURL := TrimSpace (cServerURL c) in
  let name := TrimSpace (cName c) in
  error_if negb (Bool.eqb (serverURL =s "") (name =s ""))
    with "server and name must either both be set or both be empty";
  match bad_server_url serverURL with
  | Some e => Some e
  | None =>
    match SplitHostPort (cLocalAddress c) with
    | None => Some "local_address must contain an IP address and port"
    | Some (host, _) =>
      error_if bool_decide (ParseIP host = []) with "local_address must contain an IP address and port";
      error_if negb (host =s "127.0.0.1") && negb (host =s "::1") && negb (cAllowRemoteUI c)
        with "non-loopback local_address requires explicit allow_remote_ui";
      error_if cKeepalive c <? 5 * Second with "keepalive must be at least 5s";
      if cTunnelEnabled c then bad_tunnel_client c else None
    end
  end.

(** ** Files *)

Record file := mkFile { mode : Z; content : list byte }.
Abbreviation files := (gmap string file).

(** [filepath.Clean] and [filepath.Dir] on Unix. *)
Fixpoint clean_go (rooted : bool) (parts stack : list (list byte)) : list (list byte) :=
  match parts with
  | [] => rev stack
  | p :: parts =>
    if bool_decide (p = []) || bool_decide (p = [x2e]) then clean_go rooted parts stack
    else if bool_decide (p = [x2e; x2e]) then
      match stack with
      | top :: below =>
        if bool_decide (top = [x2e; x2e]) then clean_go rooted parts (p :: stack)
        else clean_go rooted parts below
      | [] => clean_go rooted parts (if rooted then [] else [p])
      end
    else clean_go rooted parts (p :: stack)
  end.
Definition Clean (path : list byte) : list byte :=
  let rooted := bool_decide (head path = Some x2f) in
  let l := join x2f (clean_go rooted (split_on x2f path) []) in
  if rooted then x2f :: l else if bool_decide (l = []) then [x2e] else l.
Definition Dir (path : string) : list byte :=
  let l := s2b path in
  Clean (match last_index_byte x2f l with Some i => take (S i) l | None => [] end).

(** The answers of the operating system; [write_fails]: the number of bytes
    written before the error. *)
Record save_env := mkSaveEnv {
  mkdir_ok : bool; temp_name : option string; chmod_ok : bool; write_fails : option nat;
  close_ok : bool; rename_ok : bool; remove_ok : bool
}.

Context (yaml_encode_server : ServerConfig → result (list byte))
  (yaml_encode_client : ClientConfig → result (list byte))
  (yaml_decode_server : list byte → ServerConfig → ServerConfig * option string)
  (yaml_decode_client : list byte → ClientConfig → ClientConfig * option string).

(** The deferred [os.Remove(temporaryPath)]. *)
Definition remove_temp (env : save_env) (t : string) (fs : files) : files :=
  if remove_ok env then delete t fs else fs.

Definition SaveServer (env : save_env) (path : string) (c : ServerConfig) (fs : files)
    : option string * files :=
  match ValidateServer c with
  | Some e => (Some e, fs)
  | None =>
    match yaml_encode_server c with
    | Err e => (Some ("encode server config: " +:+ e), fs)
    | Ok b =>
      if negb (mkdir_ok env) && negb (bool_decide (Dir path = [x2e]))
      then (Some "create config directory", fs)
      else
        match temp_name env with
        | None => (Some "create temporary server config", fs)
        | Some t =>
          let written := match write_fails env with None => b | Some n => take n b end in
          let fs := <[t := mkFile 384 (if chmod_ok env then written else [])]> fs in
          if negb (chmod_ok env && bool_decide (write_fails env = None) && close_ok env)
          then (Some "write server config", remove_temp env t fs)
          else if negb (rename_ok env) then (Some "replace server config", remove_temp env t fs)
          else (None, <[path := mkFile 384 b]> (delete t fs))
        end
    end
  end.

(** [os.WriteFile(path, b, 0o600)]: a file that exists keeps its mode; it is
    truncated first.  [mkdir_ok], [chmod_ok] (here: the file can be opened) and
    [write_fails], [close_ok] are used. *)
Definition SaveClient (env : save_env) (path : string) (c : ClientConfig) (fs : files)
    : option string * files :=
  match ValidateClient c with
  | Some e => (Some e, fs)
  | None =>
    match yaml_encode_client c with
    | Err e => (Some ("encode client config: " +:+ e), fs)
    | Ok b =>
      if negb (mkdir_ok env) && negb (bool_decide (Dir path = [x2e]))
      then (Some "create config directory", fs)
      else if negb (chmod_ok env) then (Some "write client config", fs)
      else
        let m := match fs !! path with Some f => mode f | None => 384 end in
        let written := match write_fails env with None => b | Some n => take n b end in
        let fs := <[path := mkFile m written]> fs in
        if bool_decide (write_fails env = None) && close_ok env then (None, fs)
        else (Some "write client config", fs)
    end
  end.

Definition load {A} (decode : list byte → A → A * option string) (path : string) (out : A) (fs : files)
    : A * option string :=
  match fs !! path with
  | None => (out, Some "read config")
  | Some f =>
    let '(out, err) := decode (content f) out in
    match err with Some e => (out, Some ("decode config: " +:+ e)) | None => (out, None) end
  end.

Definition LoadServer (path : string) (fs : files) : ServerConfig * option string :=
  let '(c, err) := load yaml_decode_server path DefaultServer fs in
  match err with Some e => (c, Some e) | None => (c, ValidateServer c) end.
Definition LoadClient (path : string) (fs : files) : ClientConfig * option string :=
  let '(c, err) := load yaml_decode_client path DefaultClient fs in
  match err with Some e => (c, Some e) | None => (c, ValidateClient c) end.
End config.

(** ** What a valid configuration is *)

(** The tunnel settings of a server in the network of [base] with [ones] leading
    bits: addresses are numbers here. *)
Record valid_tunnel (c : ServerConfig) (base : list byte) (ones : Z) : Prop := {
  vt_name : TrimSpace (TunnelName c) ≠ "" ∧ slen (TunnelName c) ≤ 15;
  vt_ipv4 : length (To4 (ParseIP (TunnelAddress c))) = 4%nat;
  vt_host : be_get base < be_get (To4 (ParseIP (TunnelAddress c)))
                        < be_get base + 2 ^ (32 - ones) - 1;
  vt_mtu : 576 ≤ TunnelMTU c ≤ 9000
}.

Record valid_server (c : ServerConfig) : Prop := {
  vs_listen : ParseIP (ListenAddress c) ≠ [];
  vs_ports : 1 ≤ APIPort c ≤ 65535 ∧ 1 ≤ TunnelPort c ≤ 65535 ∧ APIPort c ≠ TunnelPort c;
  vs_ping : 5 * Second ≤ PingInterval c ≤ Hour;
  vs_network : ∃ ip base ones, ParseCIDR (Network c) = Some (ip, mkIPNet base (CIDRMask ones 4)) ∧
    length base = 4%nat ∧ 0 ≤ ones ≤ 30 ∧
    (TunnelEnabled c = true → valid_tunnel c base ones);
  vs_database : Database c ≠ "";
  vs_tls : TLSCert c = "" ↔ TLSKey c = "";
  vs_secure : ListenAddress c = "127.0.0.1" ∨ ListenAddress c = "::1" ∨ TLSCert c ≠ "" ∨
    AllowInsecureHTTP c = true
}.

Lemma ParseIP_To4_nil s : ParseIP s = [] → To4 (ParseIP s) = [].
Proof. by intros ->. Qed.

(** Inside the network, neither its base nor its broadcast address: strictly
    between the two. *)
Lemma host_address a base ones :
  length a = 4%nat → length base = 4%nat → 0 ≤ ones ≤ 30 → be_get base mod 2 ^ (32 - ones) = 0 →
  (Contains (mkIPNet base (CIDRMask ones 4)) a = true ∧ a ≠ base ∧
   a ≠ zip_with bor base (map bnot (CIDRMask ones 4))) ↔
  be_get base < be_get a < be_get base + 2 ^ (32 - ones) - 1.
Proof.
  intros Ha Hb Hn Hm. rewrite Contains_4, Z.eqb_eq by (done || lia).
  set (k := 2 ^ (32 - ones)) in *. assert (0 < k) as Hk by (apply Z.pow_pos_nonneg; lia).
  assert (∀ x, length x = 4%nat → a = x ↔ be_get a = be_get x) as Heq.
  { intros x Hx. split; [by intros ->|]. intros. apply be_get_inj; congruence. }
  rewrite Heq by done. rewrite Heq by (rewrite length_zip_with, length_map, CIDRMask_length; lia).
  rewrite bor_broadcast by (done || lia). fold k.
  assert (be_get base = be_get base / k * k) as Hbase
    by (rewrite (Z.div_mod (be_get base) k) at 1 by lia; lia).
  pose proof (Z.div_mod (be_get a) k ltac:(lia)) as Hd.
  pose proof (Z.mod_pos_bound (be_get a) k Hk) as Hr.
  split.
  - intros (E & H1 & H2). rewrite <- E in Hd. lia.
  - intros [H1 H2]. assert (be_get a / k = be_get base / k) as E; [|split_and!; [done|lia..]].
    symmetry. apply (Z.div_unique_pos _ _ _ (be_get a - be_get base)); lia.
Qed.

Lemma bad_tunnel_server_spec c base ones :
  length base = 4%nat → 0 ≤ ones ≤ 30 → be_get base mod 2 ^ (32 - ones) = 0 →
  bad_tunnel_server c (mkIPNet base (CIDRMask ones 4)) = None ↔ valid_tunnel c base ones.
Proof.
  intros Hb Hn Hm. unfold bad_tunnel_server. set (addr := ParseIP (TunnelAddress c)).
  destruct (To4_length addr) as [Hnil|Ha].
  { split; [|intros [_ Hl]; fold addr in Hl; by rewrite Hnil in Hl].
    rewrite Hnil. case_match; [done|]. cbv zeta.
    rewrite (bool_decide_eq_true_2 ([] = [])) by done. by rewrite orb_true_r. }
  pose proof (host_address (To4 addr) base ones Ha Hb Hn Hm) as Hhost.
  assert (To4 addr ≠ []) as Hne by (by intros E; rewrite E in Ha).
  assert (addr ≠ []) as Hne' by (by intros E; rewrite E in Hne).
  assert (isIPv4Broadcast addr (mkIPNet base (CIDRMask ones 4)) =
    bool_decide (To4 addr = zip_with bor base (map bnot (CIDRMask ones 4)))) as Hbc.
  { unfold isIPv4Broadcast. cbn [nIP nMask]. rewrite To4_of_4 by done.
    rewrite take_ge by (rewrite CIDRMask_length; lia).
    destruct base; [done|]. by destruct (To4 addr). }
  cbv zeta. rewrite Hbc, (Contains_To4 _ addr), (ip_equal_To4 addr) by done.
  rewrite !(bool_decide_eq_false_2 (_ = [])) by done. cbn [orb nIP].
  split.
  - repeat (case_match; [done|]). intros _. bprop. cbn [nIP] in *.
    split; fold addr; [done|done|by apply Hhost|lia].
  - intros [[H1 H2] _ H3 H4]. fold addr in H3. apply Hhost in H3 as (C1 & C2 & C3).
    rewrite (proj2 (String.eqb_neq _ _)), (proj2 (Z.ltb_ge 15 _)) by done. cbn [orb].
    rewrite C1. cbn [negb]. rewrite !bool_decide_eq_false_2 by done. cbn [orb].
    by rewrite (proj2 (Z.ltb_ge _ 576)), (proj2 (Z.ltb_ge 9000 _)) by lia.
Qed.

Lemma Some_if_None {A} (b : bool) (e : A) (k : option A) :
  (if b then Some e else k) = None ↔ b = false ∧ k = None.
Proof. destruct b; split; try done. by intros [? _]. by intros [_ ?]. Qed.

Lemma tls_pair a b : negb (Bool.eqb (a =s "") (b =s "")) = false ↔ (a = "" ↔ b = "").
Proof.
  rewrite negb_false_iff, Bool.eqb_true_iff.
  destruct (String.eqb_spec a ""), (String.eqb_spec b ""); intuition congruence.
Qed.

Lemma secure_listener c :
  negb (ListenAddress c =s "127.0.0.1") && negb (ListenAddress c =s "::1")
    && (TLSCert c =s "") && negb (AllowInsecureHTTP c) = false ↔
  ListenAddress c = "127.0.0.1" ∨ ListenAddress c = "::1" ∨ TLSCert c ≠ "" ∨
  AllowInsecureHTTP c = true.
Proof.
  destruct (String.eqb_spec (ListenAddress c) "127.0.0.1"),
    (String.eqb_spec (ListenAddress c) "::1"), (String.eqb_spec (TLSCert c) ""),
    (AllowInsecureHTTP c); simpl; intuition congruence.
Qed.

Lemma network_valid c :
  (∃ ip base ones, ParseCIDR (Network c) = Some (ip, mkIPNet base (CIDRMask ones 4)) ∧
    length base = 4%nat ∧ 0 ≤ ones ≤ 30 ∧ (TunnelEnabled c = true → valid_tunnel c base ones)) ↔
  ∃ ip n ones, ParseCIDR (Network c) = Some (ip, n) ∧ To4 ip ≠ [] ∧
    mask_size (nMask n) = (ones, 32) ∧ ones ≤ 30 ∧
    (if TunnelEnabled c then bad_tunnel_server c n else None) = None.
Proof.
  split.
  - intros (ip & base & ones & Hp & Hb & Ho & Ht). exists ip, (mkIPNet base (CIDRMask ones 4)), ones.
    assert (mask_size (CIDRMask ones 4) = (ones, 32)) as Hms by (apply mask_size_4; lia).
    destruct (ParseCIDR_4 _ _ _ _ Hp Hms) as (base' & E & _ & _ & Hm & H4).
    injection E as <-. split_and!; try done; [by intros E; rewrite E in H4|lia|].
    destruct (TunnelEnabled c); [|done]. apply bad_tunnel_server_spec; [done..|by apply Ht].
  - intros (ip & n & ones & Hp & Hne & Hms & Ho & Ht).
    destruct (ParseCIDR_4 _ _ _ _ Hp Hms) as (base & -> & Hb & Ho' & Hm & H4).
    exists ip, base, ones. split_and!; try done; [lia..|]. intros Hen. rewrite Hen in Ht.
    apply bad_tunnel_server_spec in Ht; [done|done|lia|done].
Qed.

Lemma ValidateServer_spec c : ValidateServer c = None ↔ valid_server c.
Proof.
  unfold ValidateServer. rewrite !Some_if_None. split.
  - intros (H1 & H2 & H3 & H4 & Hk).
    destruct (ParseCIDR (Network c)) as [[ip n]|] eqn:Hp; [|done].
    destruct (mask_size (nMask n)) as [ones bits] eqn:Hms. rewrite !Some_if_None in Hk.
    destruct Hk as (H5 & H6 & H7 & Hk).
    destruct (if TunnelEnabled c then bad_tunnel_server c n else None) eqn:Ht; [done|].
    rewrite !Some_if_None in Hk. destruct Hk as (H8 & H9 & _).
    apply tls_pair in H8. apply secure_listener in H9. bprop. subst bits.
    split; [done|lia|lia| |done..].
    apply network_valid. exists ip, n, ones. by split_and!.
  - intros [V1 (V2 & V2' & V2'') V3 V4 V5 V6 V7]. apply network_valid in V4 as
      (ip & n & ones & -> & Hne & Hms & Ho & Ht). rewrite Hms, Ht, !Some_if_None.
    rewrite !bool_decide_eq_false_2 by done.
    rewrite !(proj2 (Z.ltb_ge _ _)) by (unfold Second, Hour, Minute in *; lia).
    rewrite (proj2 (Z.eqb_neq _ _)), (proj2 (String.eqb_neq _ _)) by done.
    split_and!; try done; [by apply tls_pair|by apply secure_listener].
Qed.

(** ** Properties *)

(** C29: a server configuration is accepted exactly when it is valid: a listening
    address, two different ports in range, a ping interval from 5 seconds to an
    hour, an IPv4 network of at most 30 leading bits, a database, TLS files
    together, plain HTTP only on loopback or when allowed, and - with the tunnel
    - a name of at most 15 bytes, an MTU from 576 to 9000 and an IPv4 address
    strictly between the network's base and its broadcast address.  With an
    accepted configuration that has the tunnel, the data plane's listener never
    refuses its arguments. *)
Theorem server_config_valid c :
  (ValidateServer c = None ↔ valid_server c) ∧
  (ValidateServer c = None → TunnelEnabled c = true →
   ∀ W (m : TrafficMonitor W) now w p, ∃ s,
     Listen (Ok p) true (ParseIP (TunnelAddress c)) (TunnelMTU c) (Some m) now w = Ok s ∧
     serverIP s = To4 (ParseIP (TunnelAddress c)) ∧ mtu s = TunnelMTU c).
Proof.
  split; [apply ValidateServer_spec|]. intros Hv Ht W m now w p.
  apply ValidateServer_spec in Hv as [_ _ _ (ip & base & ones & _ & _ & _ & Hvt) _ _ _].
  destruct (Hvt Ht) as [_ H4 _ Hm]. unfold Listen.
  rewrite bool_decide_eq_false_2 by (by intros E; rewrite E in H4).
  rewrite (proj2 (Z.ltb_ge _ 576)), (proj2 (Z.ltb_ge 9000 _)) by lia. by eexists.
Qed.

Lemma server_config_valid_witness :
  valid_server DefaultServer ∧
  ∃ s, Listen (Ok 1) true (ParseIP "10.90.0.1") 1280 (Some NewTrafficMonitor) 5 tt = Ok s ∧
       serverIP s = To4 (ParseIP "10.90.0.1") ∧ mtu s = 1280.
Proof.
  assert (ValidateServer DefaultServer = None) as Hv by (vm_compute; reflexivity).
  split; [exact (proj1 (proj1 (server_config_valid DefaultServer)) Hv)|].
  exact (proj2 (server_config_valid DefaultServer) Hv eq_refl unit NewTrafficMonitor 5 tt 1).
Defined.

(** Saving a server configuration is atomic.  Whatever the operating system
    answers, a failing [SaveServer] leaves the configuration file as it was, and
    if the temporary file can be removed it leaves all files as they were; a
    successful one changes the configuration file only, which then holds exactly
    the encoding of a valid configuration, readable by its owner alone; if the
    YAML library decodes what it encoded, [LoadServer] then returns the
    configuration that was saved. *)
Theorem save_server_atomic encode decode env path c fs err fs' :
  (∀ t, temp_name env = Some t → fs !! t = None ∧ t ≠ path) →
  SaveServer encode env path c fs = (err, fs') →
  (err ≠ None → fs' !! path = fs !! path ∧ (remove_ok env = true → fs' = fs)) ∧
  (err = None → ∃ b, encode c = Ok b ∧ valid_server c ∧ fs' = <[path := mkFile 384 b]> fs ∧
     (decode b DefaultServer = (c, None) → LoadServer decode path fs' = (c, None))).
Proof.
  intros Ht. unfold SaveServer. destruct (ValidateServer c) as [e|] eqn:Hv; [by intros [= <- <-]|].
  destruct (encode c) as [b|e]; [|by intros [= <- <-]].
  destruct (_ && negb (bool_decide _)); [by intros [= <- <-]|].
  destruct (temp_name env) as [t|]; [|by intros [= <- <-]]. destruct (Ht t eq_refl) as [Hn Hne].
  assert (∀ f, remove_temp env t (<[t := f]> fs) !! path = fs !! path ∧
    (remove_ok env = true → remove_temp env t (<[t := f]> fs) = fs)) as Hr.
  { intros f. unfold remove_temp. destruct (remove_ok env).
    - by rewrite delete_insert_id.
    - split; [by rewrite lookup_insert_ne|done]. }
  destruct (negb (_ && _)) eqn:Ew; [by intros [= <- <-]|].
  destruct (negb (rename_ok env)); [by intros [= <- <-]|]. intros [= <- <-].
  split; [done|]. intros _. exists b. split; [done|]. split; [by apply ValidateServer_spec|].
  rewrite delete_insert_id by done. split; [done|]. intros Hd.
  unfold LoadServer, load. rewrite lookup_insert_eq. cbn [content]. by rewrite Hd, Hv.
Qed.

(** A codec of one configuration. *)
Definition toy_encode (c : ServerConfig) : result (list byte) := Ok (s2b (Database c)).
Definition toy_decode (b : list byte) (c : ServerConfig) : ServerConfig * option string :=
  if bool_decide (b = s2b "tyxnet.db") then (DefaultServer, None) else (c, Some "yaml").
Definition good_env : save_env := mkSaveEnv true (Some "etc/.server.yaml-1") true None true true true.

Lemma save_server_atomic_witness :
  LoadServer toy_decode "etc/server.yaml"
    (snd (SaveServer toy_encode good_env "etc/server.yaml" DefaultServer ∅)) = (DefaultServer, None).
Proof.
  destruct (SaveServer toy_encode good_env "etc/server.yaml" DefaultServer ∅) as [err fs'] eqn:E.
  assert (fst (SaveServer toy_encode good_env "etc/server.yaml" DefaultServer ∅) = None) as He
    by (vm_compute; reflexivity).
  rewrite E in He. simpl in He. subst err.
  destruct (save_server_atomic toy_encode toy_decode good_env "etc/server.yaml" DefaultServer ∅
    None fs' ltac:(intros t [= <-]; split; [reflexivity|discriminate]) E) as [_ Hs].
  destruct (Hs eq_refl) as (b & Hb & _ & _ & Hl). apply Hl.
  injection Hb as <-. vm_compute. reflexivity.
Defined.
