(* ===== verification/System.v ===== *)
(** * System: what the operating system is to the programs

    The start-up entries, the service installer and the network adapters work
    by files and by processes of other programs.  A [Machine] holds the files
    and the calls made so far; a [Sh] computation changes it.  What the
    operating system answers to the n-th call is given by an [OS]: whether a
    file operation fails, and how a process ends. *)
From S2P Require Import Prelude Text Config Commands.
From Stdlib Require Import Init.Byte Strings.Byte.

(** ** Calls *)

Inductive call :=
  | CRun (argv : list string)
  | CWrite (path : string) (mode : Z) (content : list byte)
  | CRemove (path : string)
  | CMkdir (path : string) (mode : Z)
  | CChown (path : string) (uid gid : Z)
  | CRead (path : string).

Abbreviation files := (gmap string Config.file).
Record Machine := mkMachine { mFiles : files; mCalls : list call }.

(** How a process ends: without an error, with another exit status
    ([*exec.ExitError]), or not started; with its output. *)
Inductive exit :=
  | Exits (output : string) | Fails (error output : string) | NotStarted (error : string).

Record OS := mkOS {
  os_exit : nat → list string → exit;
  os_error : nat → call → option string;
  os_partial : nat → option nat;
  os_getenv : string → string;
  os_lookpath : string → bool;
  os_root : bool
}.

Definition ErrNotExist : string := "file does not exist".

Section sh.
Context (os : OS).

Definition Sh (A : Type) : Type := Machine → A * Machine.
Definition sret {A} (a : A) : Sh A := λ m, (a, m).
Definition sbind {A B} (m : Sh A) (k : A → Sh B) : Sh B := λ s, let '(a, s) := m s in k a s.

Definition called (c : call) (fs : files) (m : Machine) : Machine :=
  mkMachine fs (mCalls m ++ [c]).
(** The error of the next call. *)
Definition next_error (c : call) (m : Machine) : option string := os_error os (length (mCalls m)) c.

(** [exec.Command(argv...)] with [Run], [Output] or [CombinedOutput]. *)
Definition Run (argv : list string) : Sh exit := λ m,
  (os_exit os (length (mCalls m)) argv, called (CRun argv) (mFiles m) m).
Definition exit_error (e : exit) : option string :=
  match e with Exits _ => None | Fails e _ | NotStarted e => Some e end.
Definition output (e : exit) : string :=
  match e with Exits out | Fails _ out => out | NotStarted _ => "" end.
(** [fmt.Errorf(what + ": %w: %s", err, strings.TrimSpace(out))] for a process
    that fails. *)
Definition report (what : string) (e : exit) : option string :=
  (λ msg, what +:+ ": " +:+ msg +:+ ": " +:+ TrimSpace (output e)) <$> exit_error e.

(** [os.WriteFile]: it truncates a file that exists and keeps its mode; a write
    that fails has written some of the content, or has not opened the file. *)
Definition WriteFile (path : string) (content : list byte) (mode : Z) : Sh (option string) := λ m,
  let c := CWrite path mode content in
  let mode := match mFiles m !! path with Some f => Config.mode f | None => mode end in
  match next_error c m with
  | None => (None, called c (<[path := mkFile mode content]> (mFiles m)) m)
  | Some e =>
    match os_partial os (length (mCalls m)) with
    | None => (Some e, called c (mFiles m) m)
    | Some n => (Some e, called c (<[path := mkFile mode (take n content)]> (mFiles m)) m)
    end
  end.

(** [os.Remove]: a file that does not exist is an error. *)
Definition Remove (path : string) : Sh (option string) := λ m,
  let c := CRemove path in
  match mFiles m !! path with
  | None => (Some ErrNotExist, called c (mFiles m) m)
  | Some _ =>
    match next_error c m with
    | None => (None, called c (delete path (mFiles m)) m)
    | Some e => (Some e, called c (mFiles m) m)
    end
  end.

(** [os.ReadFile] and [os.Stat]. *)
Definition ReadFile (path : string) : Sh (result (list byte)) := λ m,
  let c := CRead path in
  (match mFiles m !! path with
   | None => Err ErrNotExist
   | Some f => match next_error c m with None => Ok (content f) | Some e => Err e end
   end, called c (mFiles m) m).
Definition Stat (path : string) : Sh (option string) := λ m,
  let c := CRead path in
  (match mFiles m !! path with None => Some ErrNotExist | Some _ => next_error c m end,
   called c (mFiles m) m).

(** [os.MkdirAll] and [os.Chown]; directories and owners are not modelled. *)
Definition MkdirAll (path : string) (mode : Z) : Sh (option string) := λ m,
  let c := CMkdir path mode in (next_error c m, called c (mFiles m) m).
Definition Chown (path : string) (uid gid : Z) : Sh (option string) := λ m,
  let c := CChown path uid gid in (next_error c m, called c (mFiles m) m).
End sh.

Notation "'let$' x := m 'in' k" := (sbind m (λ x, k))
  (at level 10, x pattern, m at level 100, k at level 200) : tyx_scope.
Notation "'do$' m ; k" := (sbind m (λ _, k))
  (at level 10, m at level 100, k at level 200) : tyx_scope.
(** [if err := m; err != nil { return f(err) }; k]. *)
Notation "'check$' m 'else' f ; k" :=
  (sbind m (λ err, match err with Some e => sret (Some (f e)) | None => k end))
  (at level 10, m at level 100, f at level 100, k at level 200) : tyx_scope.

(** ** What a computation touches *)

(** Only the files of these paths change. *)
Definition touches {A} (paths : list string) (m : Sh A) : Prop := ∀ s p,
  p ∉ paths → mFiles (snd (m s)) !! p = mFiles s !! p.

Section touches.
Context (os : OS) (paths : list string).

Lemma touches_ret {A} (a : A) : touches paths (sret a).
Proof. done. Qed.
Lemma touches_bind {A B} (m : Sh A) (k : A → Sh B) :
  touches paths m → (∀ a, touches paths (k a)) → touches paths (sbind m k).
Proof.
  intros Hm Hk s p Hp. unfold sbind. specialize (Hm s p Hp). destruct (m s) as [a s']. cbn in Hm.
  by rewrite Hk.
Qed.
Lemma touches_run argv : touches paths (Run os argv).
Proof. done. Qed.
Lemma touches_read path : touches paths (ReadFile os path).
Proof. done. Qed.
Lemma touches_stat path : touches paths (Stat os path).
Proof. done. Qed.
Lemma touches_mkdir path mode : touches paths (MkdirAll os path mode).
Proof. done. Qed.
Lemma touches_chown path u g : touches paths (Chown os path u g).
Proof. done. Qed.
Lemma touches_write path content mode : path ∈ paths → touches paths (WriteFile os path content mode).
Proof.
  intros Hp s p Hn. assert (path ≠ p) by (by intros <-). unfold WriteFile.
  repeat case_match; cbn; by rewrite ?lookup_insert_ne.
Qed.
Lemma touches_remove path : path ∈ paths → touches paths (Remove os path).
Proof.
  intros Hp s p Hn. assert (path ≠ p) by (by intros <-). unfold Remove.
  repeat case_match; cbn; by rewrite ?lookup_delete_ne.
Qed.
End touches.

Ltac touch_tac :=
  repeat first
    [ apply touches_ret | apply touches_run | apply touches_read | apply touches_stat
    | apply touches_mkdir | apply touches_chown
    | apply touches_write; set_solver | apply touches_remove; set_solver
    | apply touches_bind; [|intros ?]
    | match goal with |- touches _ (match ?x with _ => _ end) => destruct x end ].

(** ** Processes *)

Definition processes (m : Machine) : list (list string) :=
  omap (λ c, match c with CRun argv => Some argv | _ => None end) (mCalls m).
Lemma processes_called c fs m :
  processes (called c fs m) = processes m ++ match c with CRun argv => [argv] | _ => [] end.
Proof. unfold processes, called. cbn [mCalls]. rewrite omap_app. by destruct c. Qed.

(** An operating system on which nothing fails. *)
Record calm_os (os : OS) : Prop := {
  calm_files : ∀ n c, os_error os n c = None;
  calm_exit : ∀ n argv, ∃ out, os_exit os n argv = Exits out
}.

Section calm.
Context (os : OS) (Hos : calm_os os).

Lemma calm_write path content mode m : WriteFile os path content mode m =
  (None, called (CWrite path mode content)
     (<[path := mkFile match mFiles m !! path with Some f => Config.mode f | None => mode end content]>
        (mFiles m)) m).
Proof. unfold WriteFile, next_error. by rewrite calm_files. Qed.
Lemma calm_remove path m : Remove os path m =
  (match mFiles m !! path with Some _ => None | None => Some ErrNotExist end,
   called (CRemove path) (delete path (mFiles m)) m).
Proof.
  unfold Remove, next_error. rewrite calm_files by done.
  destruct (mFiles m !! path) eqn:E; [done|]. by rewrite delete_id.
Qed.
Lemma calm_read path m : ReadFile os path m =
  (match mFiles m !! path with Some f => Ok (content f) | None => Err ErrNotExist end,
   called (CRead path) (mFiles m) m).
Proof. unfold ReadFile, next_error. by rewrite calm_files. Qed.
Lemma calm_stat path m : Stat os path m =
  (match mFiles m !! path with Some _ => None | None => Some ErrNotExist end,
   called (CRead path) (mFiles m) m).
Proof. unfold Stat, next_error. by rewrite calm_files. Qed.
Lemma calm_mkdir path mode m : MkdirAll os path mode m = (None, called (CMkdir path mode) (mFiles m) m).
Proof. unfold MkdirAll, next_error. by rewrite calm_files. Qed.
Lemma calm_run argv m : ∃ out, Run os argv m = (Exits out, called (CRun argv) (mFiles m) m).
Proof. destruct (calm_exit os Hos (length (mCalls m)) argv) as [out E]. exists out. unfold Run. by rewrite E. Qed.
End calm.
