(* ===== verification/Startup.v ===== *)
(** * Startup: the start-up entries of the operating systems
    ([internal/application])

    [StartupSpec] says what is to be started.  Each platform has its
    [StartupAvailable], [StartupEnabled] and [SetStartup]: a systemd unit with a
    desktop entry for the companion, a launchd daemon and agent, a scheduled task
    with a PowerShell launcher.  They act on a [Machine]; who the desktop user is,
    and the directory of program data on Windows, are arguments.

    [startup_exact]: the texts written determine the arguments of the command
    line, which can put nothing else into them. *)
From S2P Require Import Prelude Text Net Http Config Commands System Quote.
From Stdlib Require Import Init.Byte Strings.Byte.

Record StartupSpec := mkSpec {
  spID : string; DisplayName : string; Executable : string; WorkingDirectory : string;
  Arguments : list string; Companion : string; CompanionArgs : list string; spToken : string
}.

(** [TrayToken], with the 24 random bytes. *)
Definition TrayToken (os : OS) (rnd : list byte) : string :=
  let value := os_getenv os "TYXNET_TRAY_TOKEN" in
  if negb (value =s "") then value else b2s (hex_all rnd).

(** A line break, and the concatenation of texts. *)
Definition nl : string := b2s [x0a].
Definition texts (l : list string) : string := foldr String.append "" l.
(** [strings.Join]. *)
Fixpoint Join (sep : string) (l : list string) : string :=
  match l with
  | [] => ""
  | [s] => s
  | s :: l => s +:+ sep +:+ Join sep l
  end.
(** [filepath.Join] on Unix. *)
Definition path_join (l : list string) : string :=
  match List.filter (λ s, negb (s =s "")) l with
  | [] => ""
  | l => b2s (Clean (s2b (Join "/" l)))
  end.

(** ** Linux *)

Section linux.
Context (os : OS) (printable : Z → bool).

(** [user.Lookup(name)] or [user.Current()]: home directory, user and group id. *)
Context (lookup_user : option string → result (string * string * string)).

Definition container_markers : list string := ["/.dockerenv"; "/run/.containerenv"].
Definition in_container : bool * string := (false, "startup is managed by the container runtime").

Definition StartupAvailable_linux : Sh (bool * string) :=
  if negb (os_getenv os "TYXNET_CONTAINER" =s "") then sret in_container
  else
    let$ docker := Stat os "/.dockerenv" in
    if is_none docker then sret in_container
    else
      let$ container := Stat os "/run/.containerenv" in
      if is_none container then sret in_container
      else if negb (os_lookpath os "systemctl")
      then sret (false, "systemd is not available on this host")
      else
        let$ initName := ReadFile os "/proc/1/comm" in
        match initName with
        | Ok l => if TrimSpace (b2s l) =s "systemd" then sret (true, "")
                  else sret (false, "systemd is not the active service manager")
        | Err _ => sret (false, "systemd is not the active service manager")
        end.

Definition StartupEnabled_linux (spec : StartupSpec) : Sh (result bool) :=
  let$ available := StartupAvailable_linux in
  if negb (fst available) then sret (Ok false)
  else
    let$ err := Run os ["systemctl"; "is-enabled"; "--quiet"; spID spec +:+ ".service"] in
    sret (match err with Exits _ => Ok true | Fails _ _ => Ok false | NotStarted e => Err e end).

Definition systemdLine (executable : string) (args : list string) : string :=
  Join " " (map (λ a, Quote printable (double_all x25 a)) (executable :: args)).

Definition desktopUser : result (string * string * string) :=
  let name := os_getenv os "SUDO_USER" in
  if negb (name =s "") && negb (name =s "root") then lookup_user (Some name) else lookup_user None.
Definition linuxCompanionPath (spec : StartupSpec)
    : result (string * (string * string * string)) :=
  let? u := desktopUser in
  let '(home, _, _) := u in
  Ok (path_join [home; ".config"; "autostart"; spID spec +:+ "-tray.desktop"], u).

Definition desktop_entry (spec : StartupSpec) : string :=
  texts ["[Desktop Entry]"; nl; "Type=Application"; nl; "Name="; DisplayName spec; " Tray"; nl;
         "Exec=";
         systemdLine "/usr/bin/env"
           (["TYXNET_TRAY_TOKEN=" +:+ spToken spec; Companion spec] ++ CompanionArgs spec);
         nl; "X-GNOME-Autostart-enabled=true"; nl].

Definition writeLinuxCompanion (spec : StartupSpec) : Sh (option string) :=
  if Companion spec =s "" then sret None
  else
    match linuxCompanionPath spec with
    | Err e => sret (Some e)
    | Ok (path, (_, uid, gid)) =>
      check$ MkdirAll os (b2s (Dir path)) 493 else id;
      check$ WriteFile os path (s2b (desktop_entry spec)) 420 else id;
      Chown os path (fst (Atoi uid)) (fst (Atoi gid))
    end.

Definition removeLinuxCompanion (spec : StartupSpec) : Sh (option string) :=
  match linuxCompanionPath spec with
  | Err e => sret (Some e)
  | Ok (path, _) =>
    let$ err := Remove os path in
    sret (if bool_decide (err = Some ErrNotExist) then None else err)
  end.

Definition unit_path (spec : StartupSpec) : string :=
  "/etc/systemd/system/" +:+ spID spec +:+ ".service".
Definition env_path (spec : StartupSpec) : string := "/etc/tyxnet/" +:+ spID spec +:+ "-startup.env".
Definition unit_text (spec : StartupSpec) : string :=
  texts ["[Unit]"; nl; "Description="; DisplayName spec; nl; "After=network-online.target"; nl;
         "Wants=network-online.target"; nl; nl; "[Service]"; nl; "EnvironmentFile="; env_path spec; nl;
         "WorkingDirectory="; Quote printable (WorkingDirectory spec); nl;
         "ExecStart="; systemdLine (Executable spec) (Arguments spec); nl;
         "Restart=on-failure"; nl; "RestartSec=5"; nl; "AmbientCapabilities=CAP_NET_ADMIN"; nl;
         "CapabilityBoundingSet=CAP_NET_ADMIN"; nl; "NoNewPrivileges=true"; nl; nl; "[Install]"; nl;
         "WantedBy=multi-user.target"; nl].

Definition SetStartup_linux (spec : StartupSpec) (enabled : bool) : Sh (option string) :=
  let$ available := StartupAvailable_linux in
  let service := spID spec +:+ ".service" in
  if negb (fst available) then sret (Some (snd available))
  else if negb enabled then
    do$ Run os ["systemctl"; "disable"; service];
    do$ Remove os (unit_path spec);
    do$ Remove os (env_path spec);
    do$ removeLinuxCompanion spec;
    let$ e := Run os ["systemctl"; "daemon-reload"] in
    sret (exit_error e)
  else
    check$ MkdirAll os "/etc/tyxnet" 488 else id;
    check$ WriteFile os (env_path spec) (s2b ("TYXNET_TRAY_TOKEN=" +:+ spToken spec +:+ nl)) 384 else id;
    check$ WriteFile os (unit_path spec) (s2b (unit_text spec)) 420
      else λ e, "write systemd unit (root required): " +:+ e;
    check$ writeLinuxCompanion spec else id;
    let$ reload := Run os ["systemctl"; "daemon-reload"] in
    match report "systemd reload" reload with
    | Some e => sret (Some e)
    | None =>
      let$ enable := Run os ["systemctl"; "enable"; service] in
      sret (report "enable systemd service" enable)
    end.
End linux.

(** ** macOS *)

Section darwin.
Context (os : OS).

Definition StartupAvailable_darwin : bool * string := (true, "").

Definition launchLabel (spec : StartupSpec) : string := "com.tyxnet." +:+ trim_prefix (spID spec) "tyxnet-".
Definition daemonPath (spec : StartupSpec) : string :=
  "/Library/LaunchDaemons/" +:+ launchLabel spec +:+ ".plist".
Definition agentPath (spec : StartupSpec) : string :=
  "/Library/LaunchAgents/" +:+ launchLabel spec +:+ ".tray.plist".

Definition StartupEnabled_darwin (spec : StartupSpec) : Sh (result bool) :=
  let$ err := Stat os (daemonPath spec) in
  sret (match err with
        | None => Ok true
        | Some e => if e =s ErrNotExist then Ok false else Err e
        end).

(** A double quote of the XML text. *)
Definition dq : string := b2s [x22].
Definition plist_argument (value : string) : string :=
  texts ["    <string>"; EscapeString value; "</string>"; nl].
Definition plist (label executable : string) (args : list string)
    (workingDirectory trayToken : string) (keepAlive : bool) : string :=
  texts ["<?xml version="; dq; "1.0"; dq; " encoding="; dq; "UTF-8"; dq; "?>"; nl;
         "<!DOCTYPE plist PUBLIC "; dq; "-//Apple//DTD PLIST 1.0//EN"; dq; " "; dq;
         "http://www.apple.com/DTDs/PropertyList-1.0.dtd"; dq; ">"; nl;
         "<plist version="; dq; "1.0"; dq; "><dict>"; nl;
         "  <key>Label</key><string>"; EscapeString label; "</string>"; nl;
         "  <key>ProgramArguments</key><array>"; nl;
         texts (map plist_argument (executable :: args));
         "  </array>"; nl;
         "  <key>WorkingDirectory</key><string>"; EscapeString workingDirectory; "</string>"; nl;
         "  <key>EnvironmentVariables</key><dict><key>TYXNET_TRAY_TOKEN</key><string>";
         EscapeString trayToken; "</string></dict>"; nl;
         "  <key>RunAtLoad</key><true/>"; nl;
         "  <key>KeepAlive</key>";
         (if keepAlive then "<dict><key>SuccessfulExit</key><false/></dict>" else "<false/>"); nl;
         "  <key>ProcessType</key><string>"; (if keepAlive then "Background" else "Interactive");
         "</string>"; nl; "</dict></plist>"; nl].

Definition SetStartup_darwin (spec : StartupSpec) (enabled : bool) : Sh (option string) :=
  let daemon := daemonPath spec in
  let agent := agentPath spec in
  let label := launchLabel spec in
  if negb enabled then
    do$ Run os ["launchctl"; "disable"; "system/" +:+ label];
    do$ Remove os daemon;
    do$ Remove os agent;
    sret None
  else if negb (os_root os)
  then sret (Some "root privileges are required to configure macOS startup")
  else
    check$ WriteFile os daemon
             (s2b (plist label (Executable spec) (Arguments spec) (WorkingDirectory spec)
                     (spToken spec) true)) 384 else id;
    let$ err := if Companion spec =s "" then sret None
                else WriteFile os agent
                       (s2b (plist (label +:+ ".tray") (Companion spec) (CompanionArgs spec)
                               (WorkingDirectory spec) (spToken spec) false)) 384 in
    match err with
    | Some e => sret (Some e)
    | None =>
      let$ out := Run os ["launchctl"; "enable"; "system/" +:+ label] in
      sret (report "enable LaunchDaemon" out)
    end.
End darwin.

(** ** Windows *)

Section windows.
(** [programData]: the clean directory of %ProgramData%. *)
Context (os : OS) (programData : string).

Definition StartupAvailable_windows : bool * string := (true, "").
Definition taskName (spec : StartupSpec) : string := DisplayName spec.
(** [filepath.Join] of two clean paths on Windows. *)
Definition windows_join (a b : string) : string := if a =s "" then b else a +:+ "\" +:+ b.
Definition launcher_dir : string := windows_join programData "TyxNet".
Definition launcher_path (spec : StartupSpec) : string :=
  windows_join launcher_dir (spID spec +:+ "-startup.ps1").

Definition StartupEnabled_windows (spec : StartupSpec) : Sh (result bool) :=
  let$ err := Run os ["schtasks.exe"; "/Query"; "/TN"; taskName spec] in
  sret (match err with Exits _ => Ok true | Fails _ _ => Ok false | NotStarted e => Err e end).

(** The bytes no value may contain: [strings.ContainsAny] of carriage return, line feed and double quote. *)
Definition unsafe_byte (b : byte) : bool := bool_decide (b ∈ [x0d; x0a; x22]).
Definition validateSpec (spec : StartupSpec) : option string :=
  if existsb (λ value, existsb unsafe_byte (s2b value))
       ([spID spec; DisplayName spec; Executable spec; WorkingDirectory spec; Companion spec; spToken spec]
        ++ Arguments spec ++ CompanionArgs spec)
  then Some "startup paths and arguments cannot contain quotes or newlines" else None.

Definition psArray (values : list string) : string := "@(" +:+ Join "," (map psLiteral values) +:+ ")".
Definition crlf : string := b2s [x0d; x0a].
Definition windowsLauncher (spec : StartupSpec) : string :=
  texts (["$ErrorActionPreference = 'Stop'"; crlf;
          "$env:TYXNET_TRAY_TOKEN = "; psLiteral (spToken spec); crlf;
          "Set-Location -LiteralPath "; psLiteral (WorkingDirectory spec); crlf]
         ++ (if Companion spec =s "" then []
             else ["Start-Process -FilePath "; psLiteral (Companion spec); " -ArgumentList ";
                   psArray (CompanionArgs spec); " -WindowStyle Hidden"; crlf])
         ++ ["$core = Start-Process -FilePath "; psLiteral (Executable spec); " -ArgumentList ";
             psArray (Arguments spec); " -WindowStyle Hidden -PassThru"; crlf;
             "$core.WaitForExit()"; crlf; "exit $core.ExitCode"; crlf]).

Definition SetStartup_windows (spec : StartupSpec) (enabled : bool) : Sh (option string) :=
  let launcher := launcher_path spec in
  if negb enabled then
    do$ Run os ["schtasks.exe"; "/Delete"; "/TN"; taskName spec; "/F"];
    let$ err := Remove os launcher in
    sret (if bool_decide (err = Some ErrNotExist) then None else err)
  else
    match validateSpec spec with
    | Some e => sret (Some e)
    | None =>
      check$ MkdirAll os launcher_dir 493 else id;
      let$ whoami := Run os ["whoami.exe"] in
      match exit_error whoami with
      | Some e => sret (Some ("resolve startup task owner: " +:+ e))
      | None =>
        let owner := TrimSpace (output whoami) in
        let$ acl := Run os ["icacls.exe"; launcher_dir; "/inheritance:r"; "/grant:r";
                            owner +:+ ":(OI)(CI)F"; "*S-1-5-18:(OI)(CI)F"; "*S-1-5-32-544:(OI)(CI)F"] in
        match report "protect startup launcher" acl with
        | Some e => sret (Some e)
        | None =>
          check$ WriteFile os launcher (s2b (windowsLauncher spec)) 384 else id;
          let task := texts ["powershell.exe -NoProfile -ExecutionPolicy Bypass -WindowStyle Hidden -File ";
                             dq; launcher; dq] in
          let$ out := Run os ["schtasks.exe"; "/Create"; "/TN"; taskName spec; "/TR"; task; "/SC";
                              "ONLOGON"; "/RL"; "HIGHEST"; "/IT"; "/F"] in
          sret (report "create elevated startup task" out)
        end
      end
    end.
End windows.

(** ** Other platforms *)

Definition unsupported : string := "startup integration is not supported on this platform".
Definition StartupAvailable_other : bool * string := (false, unsupported).
Definition StartupEnabled_other (spec : StartupSpec) : Sh (result bool) := sret (Err unsupported).
Definition SetStartup_other (spec : StartupSpec) (enabled : bool) : Sh (option string) :=
  sret (Some unsupported).

(** ** Lemmas *)

Lemma s2b_texts l : s2b (texts l) = flat_map s2b l.
Proof. induction l as [|t l IH]; [done|]. change (texts (t :: l)) with (t +:+ texts l).
  by rewrite s2b_app, IH. Qed.
Lemma s2b_Join sep l : s2b (Join (b2s [sep]) l) = join sep (map s2b l).
Proof.
  induction l as [|a l IH]; [done|]. destruct l as [|b l]; [done|].
  change (Join (b2s [sep]) (a :: b :: l)) with (a +:+ b2s [sep] +:+ Join (b2s [sep]) (b :: l)).
  by rewrite !s2b_app, IH, s2b_b2s.
Qed.

(** The command line of a unit determines what is executed. *)
Lemma systemdLine_inj printable e1 a1 e2 a2 :
  systemdLine printable e1 a1 = systemdLine printable e2 a2 → e1 = e2 ∧ a1 = a2.
Proof.
  set (q := λ a, quote_bytes printable (s2b (double_all x25 a))).
  assert (∀ e a, s2b (systemdLine printable e a) = join x20 (map q (e :: a)) ++ []) as Hl.
  { intros e a. unfold systemdLine. change " " with (b2s [x20]).
    rewrite s2b_Join, app_nil_r, map_map. f_equal. apply map_ext. intros x. unfold Quote. by rewrite s2b_b2s. }
  intros E%(f_equal s2b). rewrite !Hl in E.
  apply (join_inj q (λ _, True) (λ s, s = [])) in E as [E _]; [by simplify_eq|..]; try done;
    [|by intros s ->].
  intros a b t u _ _ Eq. apply quote_bytes_inj in Eq as [Eq ->]. split; [|done].
  apply (double_all_inj x25). by apply (inj s2b).
Qed.
Lemma systemdLine_visible printable e a : Forall visible (s2b (systemdLine printable e a)).
Proof.
  unfold systemdLine. change " " with (b2s [x20]). rewrite s2b_Join, map_map.
  generalize (e :: a) as l. intros l. destruct l as [|x l]; [done|].
  rewrite join_flat. unfold Quote. rewrite s2b_b2s. apply Forall_app. split; [apply quote_visible|].
  apply Forall_flat_map, Forall_forall. intros y _. rewrite s2b_b2s.
  constructor; [done|]. apply quote_visible.
Qed.

(** The arguments of PowerShell's [Start-Process]. *)
Lemma psArray_inj l1 l2 t1 t2 : s2b (psArray l1) ++ t1 = s2b (psArray l2) ++ t2 → l1 = l2 ∧ t1 = t2.
Proof.
  assert (∀ l t, s2b (psArray l) ++ t =
    s2b "@(" ++ join x2c (map (λ v, s2b (psLiteral v)) l) ++ x29 :: t) as Hl.
  { intros l t. unfold psArray. change "," with (b2s [x2c]).
    by rewrite !s2b_app, s2b_Join, map_map, <- !(assoc_L (++)). }
  rewrite !Hl. intros E%(inj (app _)).
  assert (∀ v t, head (s2b (psLiteral v) ++ t) = Some x27) as Hh.
  { intros v t. unfold psLiteral. by rewrite s2b_app. }
  destruct l1 as [|a1 l1], l2 as [|a2 l2].
  - by injection E.
  - apply (f_equal head) in E. by rewrite join_flat, <- (assoc_L (++)), Hh in E.
  - apply (f_equal head) in E. by rewrite join_flat, <- (assoc_L (++)), Hh in E.
  - apply (join_inj _ (λ t, head t ≠ Some x27) (λ t, head t = Some x29)) in E as [-> E]; try done.
    + by injection E.
    + intros a b t u Ht Hu Eq. by apply psLiteral_inj in Eq.
    + intros s ->. by split.
Qed.

(** The program's arguments in a property list. *)
Lemma plist_arguments_inj l1 l2 s1 s2 :
  flat_map (λ v, s2b (plist_argument v)) l1 ++ s2b "  </array>" ++ s1 =
  flat_map (λ v, s2b (plist_argument v)) l2 ++ s2b "  </array>" ++ s2 → l1 = l2.
Proof.
  assert (∀ v, s2b (plist_argument v) =
    s2b "    <string>" ++ s2b (EscapeString v) ++ x3c :: s2b "/string>" ++ [x0a]) as Hv.
  { intros v. unfold plist_argument. by rewrite s2b_texts. }
  intros E. apply (flat_map_inj _ (λ _, True) (λ s, head (drop 2 s) = Some x3c)) in E as [-> _];
    try done.
  - intros a b t u _ _. rewrite !Hv, <- !(assoc_L (++)). intros E'%(inj (app _)).
    cbn [app] in E'. rewrite <- ?(assoc_L (++)) in E'. cbn [app] in E'.
    apply EscapeString_inj in E' as [-> E']. split; [done|]. by simplify_list_eq.
  - by apply Forall_true.
  - by apply Forall_true.
Qed.

(** ** The lines of a unit *)

Definition unit_lines (printable : Z → bool) (spec : StartupSpec) : list string :=
  ["[Unit]"; "Description=" +:+ DisplayName spec; "After=network-online.target";
   "Wants=network-online.target"; ""; "[Service]"; "EnvironmentFile=" +:+ env_path spec;
   "WorkingDirectory=" +:+ Quote printable (WorkingDirectory spec);
   "ExecStart=" +:+ systemdLine printable (Executable spec) (Arguments spec);
   "Restart=on-failure"; "RestartSec=5"; "AmbientCapabilities=CAP_NET_ADMIN";
   "CapabilityBoundingSet=CAP_NET_ADMIN"; "NoNewPrivileges=true"; ""; "[Install]";
   "WantedBy=multi-user.target"].

(** A text without line breaks. *)
Definition one_line (s : string) : Prop := x0a ∉ s2b s.
Lemma one_line_app s t : one_line s → one_line t → one_line (s +:+ t).
Proof. unfold one_line. rewrite s2b_app, elem_of_app. tauto. Qed.
Lemma visible_line s : Forall visible (s2b s) → one_line s.
Proof. intros Hs Hin. rewrite Forall_forall in Hs. destruct (Hs _ Hin) as [H _]. by vm_compute in H. Qed.

Lemma split_lines ls : Forall one_line ls →
  split_on x0a (s2b (texts (map (λ l, l +:+ nl) ls))) = map s2b ls ++ [[]].
Proof.
  induction 1 as [|l ls Hl _ IH]; [done|]. cbn [map app].
  change (texts ((l +:+ nl) :: ?r)) with ((l +:+ nl) +:+ texts r). unfold nl at 1.
  rewrite !s2b_app, s2b_b2s, <- (assoc_L (++)). cbn [app]. rewrite split_on_app by done. by rewrite IH.
Qed.

Lemma unit_text_lines printable spec :
  unit_text printable spec = texts (map (λ l, l +:+ nl) (unit_lines printable spec)).
Proof.
  apply (inj s2b). unfold unit_text, unit_lines. rewrite !s2b_texts.
  cbn [map flat_map]. rewrite !s2b_app, <- !(assoc_L (++)). done.
Qed.

Lemma unit_one_line printable spec :
  one_line (spID spec) → one_line (DisplayName spec) → Forall one_line (unit_lines printable spec).
Proof.
  intros Hi Hd. assert (∀ s, bool_decide (x0a ∈ s2b s) = false → one_line s) as Hc
    by (intros s Hs; by apply bool_decide_eq_false in Hs).
  assert (∀ s, Forall visible (s2b s) → one_line s) as Hv by apply visible_line.
  unfold unit_lines, env_path. rewrite !Forall_cons, Forall_nil. split_and!; try exact I;
    repeat match goal with
    | |- one_line (DisplayName _) => exact Hd
    | |- one_line (spID _) => exact Hi
    | |- one_line (_ +:+ _) => apply one_line_app
    | |- one_line (Quote _ _) => apply Hv; unfold Quote; rewrite s2b_b2s; apply quote_visible
    | |- one_line (systemdLine _ _ _) => apply Hv, systemdLine_visible
    | |- one_line _ => apply Hc; vm_compute; reflexivity
    end.
Qed.


Definition sample_spec : StartupSpec :=
  mkSpec "tyxnet-server" "TyxNet Server" "/opt/Tyx Net/server" "/opt"
    ["run"; "--config"; "/etc/100%.yaml"] "" [] "secret".

(** ** Setting the entry on Linux *)

Section set_linux.
Context (os : OS) (printable : Z → bool).
Context (lookup_user : option string → result (string * string * string)).

(** A host that systemd runs. *)
Record systemd_host (m : Machine) : Prop := {
  sh_env : os_getenv os "TYXNET_CONTAINER" = "";
  sh_docker : mFiles m !! "/.dockerenv" = None;
  sh_podman : mFiles m !! "/run/.containerenv" = None;
  sh_path : os_lookpath os "systemctl" = true;
  sh_init : ∃ f, mFiles m !! "/proc/1/comm" = Some f ∧ TrimSpace (b2s (content f)) = "systemd"
}.

Lemma available_linux m : calm_os os → systemd_host m →
  ∃ m', StartupAvailable_linux os m = ((true, ""), m') ∧ mFiles m' = mFiles m ∧ processes m' = processes m.
Proof.
  intros Ho [H1 H2 H3 H4 (f & H5 & H6)]. unfold StartupAvailable_linux. rewrite H1. cbn [negb String.eqb].
  unfold sbind. rewrite calm_stat, H2 by done. cbn [is_none]. rewrite calm_stat by done.
  cbn [mFiles called]. rewrite H3. cbn [is_none]. rewrite H4. cbn [negb].
  rewrite calm_read by done. cbn [mFiles called]. rewrite H5, H6. cbn [String.eqb Ascii.eqb Bool.eqb].
  eexists. split; [done|]. split; [done|]. by rewrite !processes_called, !app_nil_r.
Qed.

(** The files of an entry are none of those that [StartupAvailable] looks at. *)
Lemma entry_paths spec p : p ∈ ["/.dockerenv"; "/run/.containerenv"; "/proc/1/comm"]%string →
  unit_path spec ≠ p ∧ env_path spec ≠ p.
Proof. rewrite !elem_of_cons. intros Hp. destruct_or! Hp; subst; try done. by apply not_elem_of_nil in Hp. Qed.

(** The files of the entry that is switched on. *)
Definition written (path : string) (mode : Z) (text : string) (fs : gmap string file) : gmap string file :=
  <[path := mkFile match fs !! path with Some f => Config.mode f | None => mode end (s2b text)]> fs.
Definition entry_files (spec : StartupSpec) (fs : gmap string file) : gmap string file :=
  written (unit_path spec) 420 (unit_text printable spec)
    (written (env_path spec) 384 ("TYXNET_TRAY_TOKEN=" +:+ spToken spec +:+ nl) fs).

Lemma written_ne path mode text (fs : gmap string file) p :
  path ≠ p → written path mode text fs !! p = fs !! p.
Proof. intros. by apply lookup_insert_ne. Qed.

Lemma entry_other spec fs p : unit_path spec ≠ p → env_path spec ≠ p → entry_files spec fs !! p = fs !! p.
Proof. intros. unfold entry_files. by rewrite !written_ne. Qed.

Lemma host_entry spec m m' : systemd_host m → mFiles m' = entry_files spec (mFiles m) → systemd_host m'.
Proof.
  assert (∀ p, p ∈ ["/.dockerenv"; "/run/.containerenv"; "/proc/1/comm"]%string →
    entry_files spec (mFiles m) !! p = mFiles m !! p) as Hp
    by (intros p Hp; apply entry_other; by apply (entry_paths spec) in Hp as []).
  intros [] E. split; try done; rewrite E, Hp; try done; by rewrite !elem_of_cons; auto.
Qed.

Definition service (spec : StartupSpec) : string := spID spec +:+ ".service".

Lemma enable_linux spec m : calm_os os → systemd_host m → Companion spec = "" →
  ∃ m', SetStartup_linux os printable lookup_user spec true m = (None, m') ∧
    mFiles m' = entry_files spec (mFiles m) ∧
    processes m' = processes m ++ [["systemctl"; "daemon-reload"]; ["systemctl"; "enable"; service spec]].
Proof.
  intros Ho Hh Hc. destruct (available_linux m Ho Hh) as (m1 & E1 & F1 & P1).
  unfold SetStartup_linux, writeLinuxCompanion. rewrite Hc. cbn [String.eqb negb].
  unfold sbind. rewrite E1. cbn [fst negb]. rewrite calm_mkdir by done. rewrite !calm_write by done.
  unfold sret. cbn [mFiles called]. rewrite F1.
  match goal with |- context [Run os ["systemctl"; "daemon-reload"] ?s] =>
    destruct (calm_run os Ho ["systemctl"; "daemon-reload"] s) as [o1 ->] end.
  cbn [report exit_error fmap option_fmap option_map].
  match goal with |- context [Run os ["systemctl"; "enable"; ?x] ?s] =>
    destruct (calm_run os Ho ["systemctl"; "enable"; x] s) as [o2 ->] end.
  eexists. split; [done|]. split; [done|].
  rewrite !processes_called, P1, !app_nil_r. by rewrite <- (assoc_L (++)).
Qed.

Lemma disable_linux spec m : calm_os os → systemd_host m →
  ∃ m', SetStartup_linux os printable lookup_user spec false m = (None, m') ∧
    mFiles m' = (match linuxCompanionPath os lookup_user spec with Ok (path, _) => delete path | Err _ => id end)
                  (delete (env_path spec) (delete (unit_path spec) (mFiles m))) ∧
    processes m' = processes m ++ [["systemctl"; "disable"; service spec]; ["systemctl"; "daemon-reload"]].
Proof.
  intros Ho Hh. destruct (available_linux m Ho Hh) as (m1 & E1 & F1 & P1).
  unfold SetStartup_linux, removeLinuxCompanion.
  unfold sbind. rewrite E1. cbn [fst negb].
  match goal with |- context [Run os ["systemctl"; "disable"; ?x] ?s] =>
    destruct (calm_run os Ho ["systemctl"; "disable"; x] s) as [o1 ->] end.
  rewrite !calm_remove by done. unfold sret. cbn [mFiles called].
  destruct (linuxCompanionPath os lookup_user spec) as [[path u]|e].
  - rewrite calm_remove by done. cbn [mFiles called]. rewrite F1.
    match goal with |- context [Run os ["systemctl"; "daemon-reload"] ?s] =>
      destruct (calm_run os Ho ["systemctl"; "daemon-reload"] s) as [o2 ->] end.
    eexists. split; [done|]. split; [done|].
    rewrite !processes_called, P1, !app_nil_r. by rewrite <- (assoc_L (++)).
  - match goal with |- context [Run os ["systemctl"; "daemon-reload"] ?s] =>
      destruct (calm_run os Ho ["systemctl"; "daemon-reload"] s) as [o2 ->] end.
    eexists. split; [done|]. cbn [mFiles called]. rewrite F1. split; [done|].
    rewrite !processes_called, P1, !app_nil_r. by rewrite <- (assoc_L (++)).
Qed.

Lemma touches_available paths : touches paths (StartupAvailable_linux os).
Proof. unfold StartupAvailable_linux. touch_tac. Qed.

(** The files of an entry. *)
Definition entry_own (spec : StartupSpec) : list string :=
  [unit_path spec; env_path spec] ++
  match linuxCompanionPath os lookup_user spec with Ok (path, _) => [path] | Err _ => [] end.
Lemma touches_entry spec enabled :
  touches (entry_own spec) (SetStartup_linux os printable lookup_user spec enabled).
Proof.
  unfold SetStartup_linux, writeLinuxCompanion, removeLinuxCompanion, entry_own.
  destruct (linuxCompanionPath _ _ _) as [[path [[? ?] ?]]|]; cbv zeta;
    (apply touches_bind; [apply touches_available|intros ?]); touch_tac.
Qed.

(** Switching the start-up entry on Linux.  Whatever the operating system
    answers, only the unit, the file with the tray's token and the companion's
    desktop entry are written or removed.  On a host of systemd where no call
    fails, switching it on writes unit and token and enables the service, and
    switching it off afterwards takes back exactly that: the files are as they
    were before if the entry did not exist. *)
Theorem startup_linux spec m enabled :
  (∀ p, p ∉ [unit_path spec; env_path spec] →
     (∀ path u, linuxCompanionPath os lookup_user spec = Ok (path, u) → p ≠ path) →
     mFiles (snd (SetStartup_linux os printable lookup_user spec enabled m)) !! p = mFiles m !! p) ∧
  (calm_os os → systemd_host m → Companion spec = "" →
   ∃ m1 m2, SetStartup_linux os printable lookup_user spec true m = (None, m1) ∧
     SetStartup_linux os printable lookup_user spec false m1 = (None, m2) ∧
     mFiles m1 = entry_files spec (mFiles m) ∧
     processes m2 = processes m ++
       [["systemctl"; "daemon-reload"]; ["systemctl"; "enable"; service spec];
        ["systemctl"; "disable"; service spec]; ["systemctl"; "daemon-reload"]] ∧
     (mFiles m !! unit_path spec = None → mFiles m !! env_path spec = None →
      (∀ path u, linuxCompanionPath os lookup_user spec = Ok (path, u) →
         path ∉ [unit_path spec; env_path spec] ∧ mFiles m !! path = None) →
      mFiles m2 = mFiles m)).
Proof.
  split.
  - intros p Hp Hc. apply (touches_entry spec enabled). unfold entry_own. rewrite elem_of_app.
    intros [Hin|Hin]; [done|].
    destruct (linuxCompanionPath _ _ _) as [[path u]|] eqn:E; [|by apply not_elem_of_nil in Hin].
    apply list_elem_of_singleton in Hin as ->. by apply (Hc path u).
  - intros Ho Hh Hcomp. destruct (enable_linux spec m Ho Hh Hcomp) as (m1 & E1 & F1 & P1).
    destruct (disable_linux spec m1 Ho (host_entry spec m m1 Hh F1)) as (m2 & E2 & F2 & P2).
    exists m1, m2. split_and!; [done|done|done|by rewrite P2, P1, <- (assoc_L (++))|].
    intros Hu He Hc. rewrite F2, F1. unfold entry_files, written.
    rewrite (delete_insert_id _ (unit_path spec)) by (rewrite lookup_insert_ne; done).
    rewrite (delete_insert_id _ (env_path spec)) by done.
    destruct (linuxCompanionPath _ _ _) as [[path u]|]; [|done].
    apply delete_id. by apply (Hc path u).
Qed.
End set_linux.

Definition sample_os : OS :=
  mkOS (λ _ _, Exits "") (λ _ _, None) (λ _, None) (λ _, "") (λ _, true) true.
Definition sample_host : Machine := mkMachine {[ "/proc/1/comm" := mkFile 292 (s2b "systemd" ++ [x0a]) ]} [].
Definition sample_user (name : option string) : result (string * string * string) :=
  Ok ("/home/ann", "1000", "1000").

Lemma startup_linux_witness :
  let m1 := snd (SetStartup_linux sample_os (λ _, true) sample_user sample_spec true sample_host) in
  mFiles (snd (SetStartup_linux sample_os (λ _, true) sample_user sample_spec false m1)) =
    mFiles sample_host.
Proof.
  destruct (proj2 (startup_linux sample_os (λ _, true) sample_user sample_spec sample_host true))
    as (m1 & m2 & E1 & E2 & _ & _ & Hf).
  - split; [done|]. by eexists.
  - split; try reflexivity. eexists. split; [reflexivity|]. vm_compute. reflexivity.
  - reflexivity.
  - cbv zeta. rewrite E1. cbn [snd]. rewrite E2. cbn [snd]. apply Hf; [reflexivity..|].
    intros path u [= <- <-]. split; [|reflexivity].
    apply (bool_decide_unpack _). vm_compute. exact I.
Defined.
