(* ===== verification/Installer.v ===== *)
(** * Installer: the native service of a program ([internal/installer/service.go])

    [Install], [Uninstall] and [ServiceAction] on a [Machine]; the program's own
    path ([os.Args[0]]) and the platform are arguments. *)
From S2P Require Import Prelude Text Net Config Commands System Startup.
From Stdlib Require Import Init.Byte Strings.Byte.

Record Spec := mkServiceSpec {
  Name : string; Binary : string; ConfigPath : string; ConfigData : list byte
}.

Section installer.
Context (os : OS) (goos : platform) (argv0 : string).

Definition copyFile (src dst : string) (mode : Z) : Sh (option string) :=
  let$ b := ReadFile os (b2s (Clean (s2b src))) in
  match b with
  | Err e => sret (Some e)
  | Ok b => WriteFile os dst b mode
  end.

(** [fixed(first...).then(second...)]. *)
Definition fixed_then (first second : list string) : Sh (option string) :=
  let$ r := Run os first in
  match exit_error r with
  | Some e => sret (Some e)
  | None => let$ r := Run os second in sret (exit_error r)
  end.

Definition service_unit (spec : Spec) : string :=
  texts ["[Unit]"; nl; "Description=TyxNet "; Name spec; nl; "After=network-online.target"; nl;
         "Wants=network-online.target"; nl; nl; "[Service]"; nl; "ExecStart=";
         "/usr/local/bin/" +:+ Binary spec; " run --config "; ConfigPath spec; nl;
         "Restart=on-failure"; nl; "RestartSec=5"; nl; "NoNewPrivileges=true"; nl; "PrivateTmp=true"; nl;
         "ProtectSystem=strict"; nl;
         "ReadWritePaths=/var/lib/tyxnet /var/log/tyxnet /etc/tyxnet /etc/systemd/system"; nl; nl;
         "[Install]"; nl; "WantedBy=multi-user.target"; nl].
Definition service_path (name : string) : string := "/etc/systemd/system/" +:+ name +:+ ".service".

Definition Install (spec : Spec) : Sh (option string) :=
  if negb (bool_decide (goos = Linux))
  then sret (Some "native service install is not implemented on this platform")
  else
    check$ copyFile argv0 ("/usr/local/bin/" +:+ Binary spec) 493
      else λ e, "copy binary (Linux/root required): " +:+ e;
    check$ MkdirAll os "/etc/tyxnet" 488 else id;
    check$ MkdirAll os "/var/lib/tyxnet" 488 else id;
    check$ MkdirAll os "/var/log/tyxnet" 488 else id;
    check$ WriteFile os (ConfigPath spec) (ConfigData spec) 384 else id;
    check$ WriteFile os (service_path (Name spec)) (s2b (service_unit spec)) 420 else id;
    fixed_then ["systemctl"; "daemon-reload"] ["systemctl"; "enable"; "--now"; Name spec +:+ ".service"].

Definition Uninstall (name binary config : string) : Sh (option string) :=
  if negb (bool_decide (goos = Linux))
  then sret (Some "native service uninstall is not implemented on this platform")
  else
    do$ Run os ["systemctl"; "disable"; "--now"; name +:+ ".service"];
    do$ Remove os (service_path name);
    do$ Remove os ("/usr/local/bin/" +:+ binary);
    do$ Remove os config;
    let$ r := Run os ["systemctl"; "daemon-reload"] in
    sret (exit_error r).

Definition actions (name : string) : gmap string (list string) :=
  {[ "start" := ["start"]; "stop" := ["stop"]; "restart" := ["restart"];
     "status" := ["status"; "--no-pager"]; "logs" := ["-u"; name +:+ ".service"; "-f"] ]}%string.
Definition ServiceAction (name action : string) : Sh (option string) :=
  if negb (bool_decide (goos = Linux))
  then sret (Some "native service management is not implemented on this platform")
  else
    match actions name !! action with
    | None => sret (Some "unsupported service action")
    | Some args =>
      let argv := if action =s "logs" then "journalctl" :: args
                  else "systemctl" :: args ++ [name +:+ ".service"] in
      let$ r := Run os argv in
      sret (exit_error r)
    end.

(** ** What an installation leaves *)

(** The binary, the configuration and the unit of a program. *)
Definition service_files (name binary config : string) : list string :=
  [service_path name; "/usr/local/bin/" +:+ binary; config].

Lemma touches_install spec :
  touches (service_files (Name spec) (Binary spec) (ConfigPath spec)) (Install spec).
Proof. unfold Install, copyFile, fixed_then, service_files. touch_tac. Qed.
Lemma touches_uninstall name binary config :
  touches (service_files name binary config) (Uninstall name binary config).
Proof. unfold Uninstall, service_files. touch_tac. Qed.
End installer.
