(* ===== verification/NativeTunnel.v ===== *)
(** * NativeTunnel: the adapters of the operating systems
    ([internal/tunnel/tun.go], [native.go]; [internal/platform])

    [Device] is the interface of tun.go: reading fills the caller's buffer.  Its
    implementations are [Memory] of [DataClient] and [Native], which passes
    packets through a buffer of its own with room for the header of the platform;
    the library below it (wireguard-go's [tun]) is the class [NativeTun].
    [Ensure_linux], [Ensure_darwin] and [Ensure_windows] open an adapter and
    configure it by the platform's programs.

    [native_packets]: through the reused buffers every packet passes unchanged.
    [adapter_opened]: what [Ensure] has run and left open, whatever happens.
    [adapter_network]: the adapter gets the address and the network of the
    configuration. *)
From S2P Require Import Prelude Text Net Quote Clock Crypto Duration Config Http DataClient.
From S2P Require Import Commands System Startup.
From Stdlib Require Import Init.Byte Strings.Byte.

(** ** Devices *)

(** [Read(p)]: the number of bytes and the buffer afterwards. *)
Class Device (T : Type) := {
  dev_read : list byte → T → result Z * list byte * T;
  dev_write : list byte → T → result Z * T;
  dev_name : T → string
}.

(** [copy(dst, src)]. *)
Definition copy (dst src : list byte) : list byte :=
  take (length dst) src ++ drop (length src) dst.

(** What a reader relies on: an error leaves the buffer; otherwise a prefix of it
    is overwritten.  A writer has written all or nothing. *)
Class DeviceLaws (T : Type) `{Device T} : Prop := {
  read_prefix p t : match dev_read p t with
    | (Ok n, p', _) => 0 ≤ n ≤ len p ∧ len p' = len p ∧ drop (Z.to_nat n) p' = drop (Z.to_nat n) p
    | (Err _, p', _) => p' = p
    end;
  write_all b t : match dev_write b t with (Ok n, _) => n = len b | (Err _, _) => True end
}.

#[export] Instance memory_device : Device Memory.Memory := {
  dev_read p m :=
    match Memory.Read m (length p) with
    | (Ok b, m) => (Ok (len b), copy p b, m)
    | (Err e, m) => (Err e, p, m)
    end;
  dev_write b m := Memory.Write m b;
  dev_name := Memory.name
}.

(** ** The native device *)

(** wireguard-go's [tun]: [CreateTUN] with the number of earlier calls and, on
    Windows, the requested GUID; [Read] and [Write] with one buffer: the count of
    packets, the size of the first one, and the buffer. *)
Record GUID := mkGUID { Data1 : Z; Data2 : Z; Data3 : Z; Data4 : list byte }.
Class NativeTun (D : Type) := {
  create_tun : nat → option GUID → string → Z → result D;
  tun_name : D → result string;
  tun_read : list byte → Z → D → result (Z * Z) * list byte * D;
  tun_write : list byte → Z → D → result Z * list byte * D
}.

Definition nativePacketOffset : Z := 4.

(** The device and its two buffers; a buffer is made anew when it is too short. *)
Record Native (D : Type) := mkNative {
  device : D; nName : string; readBuffer : list byte; writeBuffer : list byte
}.
Global Arguments mkNative {D}.
Global Arguments device {D}.
Global Arguments nName {D}.
Global Arguments readBuffer {D}.
Global Arguments writeBuffer {D}.

Definition grow (buffer : list byte) (size : nat) : list byte :=
  if (length buffer <? size)%nat then replicate size x00 else buffer.
Definition offset : nat := Z.to_nat nativePacketOffset.
Lemma offset_Z : Z.of_nat offset = nativePacketOffset.
Proof. done. Qed.

Section native.
Context {D : Type} `{NativeTun D}.

Definition Read (p : list byte) (n : Native D) : result Z * list byte * Native D :=
  let size := (offset + length p)%nat in
  let whole := grow (readBuffer n) size in
  let '(r, buffer, d) := tun_read (take size whole) nativePacketOffset (device n) in
  let n := mkNative d (nName n) (buffer ++ drop size whole) (writeBuffer n) in
  match r with
  | Err e => (Err e, p, n)
  | Ok (count, got) =>
    if count =? 0 then (Ok 0, p, n)
    else if (got <? 0) || (len p <? got)
    then (Err "native TUN returned invalid packet size", p, n)
    else (Ok got, copy p (take (Z.to_nat got) (drop offset buffer)), n)
  end.

Definition Write (p : list byte) (n : Native D) : result Z * Native D :=
  let size := (offset + length p)%nat in
  let whole := grow (writeBuffer n) size in
  let '(r, buffer, d) := tun_write (take offset whole ++ p) nativePacketOffset (device n) in
  let n := mkNative d (nName n) (readBuffer n) (buffer ++ drop size whole) in
  match r with
  | Err e => (Err e, n)
  | Ok count => if negb (count =? 1) then (Err "native TUN did not write packet", n) else (Ok (len p), n)
  end.

#[export] Instance native_device : Device (Native D) :=
  { dev_read := Read; dev_write := Write; dev_name := nName }.
End native.

(** *** What the devices keep *)

Lemma copy_short dst src : (length src ≤ length dst)%nat → copy dst src = src ++ drop (length src) dst.
Proof. intros Hl. unfold copy. by rewrite take_ge. Qed.

#[export] Instance memory_laws : DeviceLaws Memory.Memory.
Proof.
  split.
  - intros p m. cbn [dev_read memory_device]. unfold Memory.Read. destruct (Memory.packets m) as [|q qs]; [done|].
    assert (length (take (length p) q) ≤ length p)%nat as Hl by (rewrite length_take; lia).
    unfold len. split; [lia|]. rewrite copy_short by done.
    rewrite length_app, length_drop. split; [lia|].
    by rewrite Nat2Z.id, drop_app_length.
  - intros b m. cbn. unfold Memory.Write. by destruct (Memory.closed m).
Qed.

(** The library never changes the length of a buffer. *)
Class KeepsBuffers (D : Type) `{NativeTun D} : Prop := {
  read_keeps b o d : let '(_, b', _) := tun_read b o d in length b' = length b;
  write_keeps b o d : let '(_, b', _) := tun_write b o d in length b' = length b
}.

Lemma grow_length buffer size : (size ≤ length (grow buffer size))%nat.
Proof. unfold grow. destruct (Nat.ltb_spec (length buffer) size); rewrite ?length_replicate; lia. Qed.

#[export] Instance native_laws {D} `{KeepsBuffers D} : DeviceLaws (Native D).
Proof.
  split.
  - intros p n. cbn [dev_read native_device]. unfold Read. set (whole := grow _ _).
    pose proof (read_keeps (take (offset + length p) whole) nativePacketOffset (device n)) as Hk.
    destruct (tun_read _ _ _) as [[[[count got]|e] buffer] d]; [|done].
    rewrite length_take, Nat.min_l in Hk by apply grow_length.
    destruct (count =? 0); [unfold len; split_and!; [lia|lia|done|done]|].
    destruct (Z.ltb_spec got 0); [done|]. destruct (Z.ltb_spec (len p) got); [done|]. cbn [orb].
    unfold len in *. rewrite copy_short; rewrite !length_take, length_drop, Hk; [|lia].
    rewrite length_app, length_take, !length_drop, Hk, Nat.min_l by lia.
    split_and!; [lia|lia|lia|]. apply drop_app_length'.
    rewrite length_take, length_drop, Hk. lia.
  - intros b n. cbn [dev_write native_device]. unfold Write.
    destruct (tun_write _ _ _) as [[[count|e] buffer] d]; [|done]. by destruct (negb _).
Qed.

(** *** A working adapter *)

(** The packets that wait to be read and those that were written. *)
Inductive io := IRead (p : list byte) | IWrite (p : list byte).
(** What a call returned: the number of bytes and, for a read, the buffer. *)
Definition answer : Type := result Z * list byte.

Section packets.
Context {D : Type} `{NativeTun D} (incoming outgoing : D → list (list byte)).

(** wireguard-go's promises: a read puts the next packet at the offset, a write
    takes the packet from there. *)
Record working : Prop := {
  reads b o d q qs : incoming d = q :: qs → 0 ≤ o → o + len q ≤ len b →
    ∃ b' d', tun_read b o d = (Ok (1, len q), b', d') ∧ length b' = length b ∧
      take (length q) (drop (Z.to_nat o) b') = q ∧ incoming d' = qs ∧ outgoing d' = outgoing d;
  writes b o d : 0 ≤ o ≤ len b →
    ∃ b' d', tun_write b o d = (Ok 1, b', d') ∧ length b' = length b ∧
      incoming d' = incoming d ∧ outgoing d' = outgoing d ++ [drop (Z.to_nat o) b]
}.

Definition native_step (op : io) (n : Native D) : answer * Native D :=
  match op with
  | IRead p => let '(r, p', n) := Read p n in ((r, p'), n)
  | IWrite p => let '(r, n) := Write p n in ((r, p), n)
  end.
Fixpoint native_run (ops : list io) (n : Native D) : list answer * Native D :=
  match ops with
  | [] => ([], n)
  | op :: ops => let '(a, n) := native_step op n in let '(l, n) := native_run ops n in (a :: l, n)
  end.
End packets.

(** The specification: two queues of packets. *)
Definition pipe_step (op : io) (q : list (list byte) * list (list byte))
    : answer * (list (list byte) * list (list byte)) :=
  match op with
  | IRead p =>
    match fst q with
    | packet :: rest => ((Ok (len packet), copy p packet), (rest, snd q))
    | [] => ((Ok 0, p), q)
    end
  | IWrite p => ((Ok (len p), p), (fst q, snd q ++ [p]))
  end.
Fixpoint pipe_run (ops : list io) q : list answer * (list (list byte) * list (list byte)) :=
  match ops with
  | [] => ([], q)
  | op :: ops => let '(a, q) := pipe_step op q in let '(l, q) := pipe_run ops q in (a :: l, q)
  end.
(** A read only when a packet waits (it blocks otherwise), into a buffer that can
    hold it. *)
Fixpoint readable (ops : list io) (incoming : list (list byte)) : Prop :=
  match ops with
  | [] => True
  | IRead p :: ops =>
    match incoming with q :: qs => len q ≤ len p ∧ readable ops qs | [] => False end
  | IWrite _ :: ops => readable ops incoming
  end.

Section refines.
Context {D : Type} `{NativeTun D} (incoming outgoing : D → list (list byte)).
Context (Hw : working incoming outgoing).
Abbreviation queues n := (incoming (device n), outgoing (device n)).

Lemma read_refines p q qs (n : Native D) : incoming (device n) = q :: qs → len q ≤ len p →
  ∃ n', Read p n = (Ok (len q), copy p q, n') ∧ queues n' = (qs, outgoing (device n)) ∧ nName n' = nName n.
Proof.
  intros Hq Hl. unfold Read. pose proof (grow_length (readBuffer n) (offset + length p)) as Hg.
  set (whole := grow _ _) in *. unfold len in Hl.
  assert (length (take (offset + length p) whole) = offset + length p)%nat as Ht
    by (rewrite length_take; lia).
  destruct (reads _ _ Hw (take (offset + length p) whole) nativePacketOffset (device n) q qs Hq)
    as (b' & d' & E & Hb & Hp & Hi & Ho); [done|unfold len; rewrite Ht; pose proof offset_Z; lia|].
  rewrite E. cbn [Z.eqb]. destruct (Z.ltb_spec (len q) 0); [unfold len in *; lia|].
  destruct (Z.ltb_spec (len p) (len q)); [unfold len in *; lia|]. cbn [orb].
  eexists. split; [|split].
  - change (drop offset b') with (drop (Z.to_nat nativePacketOffset) b').
    unfold len. rewrite Nat2Z.id, Hp. reflexivity.
  - cbn [device]. by rewrite Hi, Ho.
  - done.
Qed.

Lemma write_refines p (n : Native D) :
  ∃ n', Write p n = (Ok (len p), n') ∧
    queues n' = (incoming (device n), outgoing (device n) ++ [p]) ∧ nName n' = nName n.
Proof.
  unfold Write. pose proof (grow_length (writeBuffer n) (offset + length p)) as Hg.
  set (whole := grow _ _) in *.
  assert (length (take offset whole) = offset) as Ht by (rewrite length_take; lia).
  destruct (writes _ _ Hw (take offset whole ++ p) nativePacketOffset (device n))
    as (b' & d' & E & Hb & Hi & Ho).
  { unfold len. rewrite length_app, Ht. pose proof offset_Z. unfold nativePacketOffset in *. lia. }
  rewrite E. eexists. split; [done|]. cbn [device nName].
  rewrite Hi, Ho. change (Z.to_nat nativePacketOffset) with offset. by rewrite drop_app_length'.
Qed.

End refines.

(** A library that works: its adapter keeps the two queues. *)
Record toy_tun := mkToy { tIn : list (list byte); tOut : list (list byte) }.
#[export] Instance toy_native : NativeTun toy_tun := {
  create_tun _ _ _ _ := Ok (mkToy [] []);
  tun_name _ := Ok "tun0"%string;
  tun_read b o d :=
    match tIn d with
    | q :: qs => (Ok (1, len q), take (length b) (take (Z.to_nat o) b ++ q ++ drop (Z.to_nat o + length q) b),
                  mkToy qs (tOut d))
    | [] => (Err "again", b, d)
    end;
  tun_write b o d := (Ok 1, b, mkToy (tIn d) (tOut d ++ [drop (Z.to_nat o) b]))
}.
Lemma toy_works : working tIn tOut.
Proof.
  split.
  - intros b o d q qs Hq Ho Hl. cbn. rewrite Hq. unfold len in Hl. eexists _, _. split; [done|].
    assert (length (take (Z.to_nat o) b ++ q ++ drop (Z.to_nat o + length q) b) = length b) as E
      by (rewrite !length_app, length_take, length_drop; lia).
    rewrite take_ge by lia. split; [done|]. split; [|done].
    rewrite drop_app_length' by (rewrite length_take; lia). by rewrite take_app_length.
  - intros b o d Ho. by eexists _, _.
Qed.

Definition toy_native_start : Native toy_tun :=
  mkNative (mkToy [[x45; x00]; [x46; x01; x02]] []) "tun0" [] [].
Definition toy_ops : list io :=
  [IWrite [x45; xaa; xbb]; IRead [x00; x00; x00]; IWrite [x47]; IRead [xff; xff; xff; xff]].
