(* ===== verification/PlatformTunnel.v ===== *)
(** * PlatformTunnel: opening and configuring an adapter ([internal/platform])

    [OpenNative] and the [Ensure] of each operating system, as steps on the
    machine and on the devices that are open ([Tunnels]); [adapterGUID] of
    tun_windows.go.

    [adapter_opened]: no failure leaves a device open, and only the platform's
    own programs run.  [adapter_network]: the address and the network of the
    server's configuration reach those programs. *)
From S2P Require Import Prelude Text Net Quote Clock Crypto Duration Config Http.
From S2P Require Import Commands System Startup NativeTunnel.
From Stdlib Require Import Init.Byte Strings.Byte.

Record Tunnels (D : Type) := mkTunnels {
  tMachine : Machine; tDevices : gmap nat D; tNext : nat
}.
Global Arguments mkTunnels {D}.
Global Arguments tMachine {D}.
Global Arguments tDevices {D}.
Global Arguments tNext {D}.

(** ** The adapter's identity on Windows *)

Definition tyxNetAdapterGUID : GUID :=
  mkGUID 0x7f236a91 0x99e4 0x54bd [xa8; x15; x65; xf4; xf5; xab; x28; x30].

Section guid.
(** [strings.ToLower]. *)
Context `{Primitives} (ToLower : string → string).

(** A byte of the hash with some bits kept and others set. *)
Definition set_bits (i : nat) (keep bits : Z) (sum : list byte) : list byte :=
  match sum !! i with
  | Some b => <[i := Zb (Z.lor (Z.land (bZ b) keep) bits)]> sum
  | None => sum
  end.
Definition adapterGUID (name : string) : GUID :=
  if EqualFold name "TyxNet" then tyxNetAdapterGUID
  else
    let sum := sha256 (s2b ("github.com/fbeser/tyxnet/wintun/" +:+ ToLower name)) in
    let sum := set_bits 6 0x0f 0x50 sum in
    let sum := set_bits 8 0x3f 0x80 sum in
    mkGUID (be_get (take 4 sum)) (be_get (slice 4 6 sum)) (be_get (slice 6 8 sum)) (slice 8 16 sum).
End guid.

(** ** Opening *)

Section ensure.
Context `{Primitives} {D : Type} `{NativeTun D}.
Context (os : OS) (printable : Z → bool) (ToLower : string → string).
Abbreviation Tunnels := (Tunnels D).
Implicit Types (t : Tunnels).

Definition close (h : nat) (t : Tunnels) : Tunnels :=
  mkTunnels (tMachine t) (delete h (tDevices t)) (tNext t).

(** The handle of the device and the device. *)
Definition OpenNative (guid : option GUID) (name : string) (mtu : Z) (t : Tunnels)
    : result (nat * Native D) * Tunnels :=
  let h := tNext t in
  match create_tun h guid name mtu with
  | Err e => (Err (texts ["create native TUN "; Quote printable name; ": "; e]),
              mkTunnels (tMachine t) (tDevices t) (S h))
  | Ok d =>
    let t := mkTunnels (tMachine t) (<[h := d]> (tDevices t)) (S h) in
    match tun_name d with
    | Err e => (Err ("get TUN name: " +:+ e), close h t)
    | Ok actual => (Ok (h, mkNative d actual [] []), t)
    end
  end.

(** The programs are run one after the other; the first that fails closes the
    device. *)
Fixpoint configure (fail : list string → string) (argvs : list (list string)) (h : nat) (t : Tunnels)
    : option string * Tunnels :=
  match argvs with
  | [] => (None, t)
  | argv :: argvs =>
    let '(e, m) := Run os argv (tMachine t) in
    let t := mkTunnels m (tDevices t) (tNext t) in
    match exit_error e with
    | Some msg => (Some (texts [fail argv; ": "; msg; ": "; output e]), close h t)
    | None => configure fail argvs h t
    end
  end.

Definition configured (fail : list string → string) (commands : string → list (list string))
    (opened : result (nat * Native D) * Tunnels) : result (nat * Native D) * Tunnels :=
  match opened with
  | (Err e, t) => (Err e, t)
  | (Ok (h, n), t) =>
    match configure fail (commands (nName n)) h t with
    | (Some e, t) => (Err e, t)
    | (None, t) => (Ok (h, n), t)
    end
  end.

(** ** Linux *)

Definition linux_commands (addressCIDR : string) (mtu : Z) (actual : string) : list (list string) :=
  [["ip"; "link"; "set"; "dev"; actual; "mtu"; FormatInt mtu; "up"];
   ["ip"; "address"; "replace"; addressCIDR; "dev"; actual]].
Definition linux_failure (argv : list string) : string :=
  texts ["configure Linux TUN with ip ["; Join " " (drop 1 argv); "]"].
Definition Ensure_linux (name addressCIDR : string) (mtu : Z) (t : Tunnels)
    : result (nat * Native D) * Tunnels :=
  configured linux_failure
    (linux_commands addressCIDR mtu) (OpenNative None name mtu t).

(** ** macOS *)

(** [n.String()] of a network. *)
Definition network_string (n : IPNet) : string :=
  match networkNumberAndMask n with
  | None => "<nil>"
  | Some (nn, m) =>
    ip_string nn +:+ "/" +:+
    match simpleMaskLength m with Some l => FormatInt l | None => b2s (hex_all m) end
  end.
Definition mask_text (mask : list byte) : string := Join "." (map (λ b, FormatInt (bZ b)) mask).

Definition darwinTunnelCommands (name : string) (ip : list byte) (network : IPNet) (mask : string)
    (mtu : Z) : list (list string) :=
  [["/sbin/ifconfig"; name; "inet"; ip_string ip; ip_string ip; "netmask"; mask; "mtu";
    FormatInt mtu; "up"];
   ["/sbin/route"; "-n"; "add"; "-net"; network_string network; "-interface"; name]].

Definition cidr_error (s : string) : string := "invalid CIDR address: " +:+ s.
Definition open_error (what : string) (opened : result (nat * Native D) * Tunnels) :=
  match opened with
  | (Err e, t) => (Err (texts [what; ": "; e]), t)
  | ok => ok
  end.

Definition darwin_failure (argv : list string) : string :=
  texts ["configure macOS utun with "; default "" (head argv)].
Definition Ensure_darwin (name addressCIDR : string) (mtu : Z) (t : Tunnels)
    : result (nat * Native D) * Tunnels :=
  match ParseCIDR addressCIDR with
  | None => (Err (cidr_error addressCIDR), t)
  | Some (ip, network) =>
    configured darwin_failure
      (λ actual, darwinTunnelCommands actual ip network (mask_text (nMask network)) mtu)
      (open_error "open macOS utun (run as root)" (OpenNative None "utun" mtu t))
  end.

(** ** Windows *)

Definition windows_commands (ip : list byte) (mask : string) (mtu : Z) (actual : string)
    : list (list string) :=
  [["netsh"; "interface"; "ipv4"; "set"; "address"; "name=" +:+ actual; "source=static";
    "address=" +:+ ip_string ip; "mask=" +:+ mask; "gateway=none"; "store=active"];
   ["netsh"; "interface"; "ipv4"; "set"; "subinterface"; actual; "mtu=" +:+ FormatInt mtu;
    "store=active"]].
Definition windows_mask (m : list byte) : string :=
  if ip_string m =s "<nil>" then mask_text m else ip_string m.
Definition windows_failure (argv : list string) : string :=
  texts ["configure Wintun with netsh ["; Join " " (drop 1 argv); "]"].
Definition Ensure_windows (name addressCIDR : string) (mtu : Z) (t : Tunnels)
    : result (nat * Native D) * Tunnels :=
  match ParseCIDR addressCIDR with
  | None => (Err (cidr_error addressCIDR), t)
  | Some (ip, n) =>
    configured windows_failure
      (windows_commands ip (windows_mask (nMask n)) mtu)
      (open_error "open Wintun adapter (run elevated and install wintun.dll)"
        (OpenNative (Some (adapterGUID ToLower name)) name mtu t))
  end.

(** [platform.EnsureTunnel]: the package is only built for these three. *)
Definition EnsureTunnel (goos : platform) (name addressCIDR : string) (mtu : Z) (t : Tunnels)
    : option (result (nat * Native D) * Tunnels) :=
  match goos with
  | Linux => Some (Ensure_linux name addressCIDR mtu t)
  | Darwin => Some (Ensure_darwin name addressCIDR mtu t)
  | Windows => Some (Ensure_windows name addressCIDR mtu t)
  | Unsupported => None
  end.
End ensure.

(** ** What has run and what is open *)

Section opened.
Context `{Primitives} {D : Type} `{NativeTun D}.
Context (os : OS) (printable : Z → bool) (ToLower : string → string).
Implicit Types (t : Tunnels D).

(** From the [n]-th call of the operating system on, these programs ended well. *)
Definition all_succeed (n : nat) (ran : list (list string)) : Prop := ∀ i argv,
  ran !! i = Some argv → ∃ out, os_exit os (n + i) argv = Exits out.
(** All but the last did. *)
Definition last_fails (n : nat) (ran : list (list string)) : Prop :=
  ∃ l argv msg, ran = l ++ [argv] ∧ all_succeed n l ∧ exit_error (os_exit os (n + length l) argv) = Some msg.

(** The programs that were run, and nothing else about the machine. *)
Definition only_ran (ran : list (list string)) t t' : Prop :=
  mCalls (tMachine t') = mCalls (tMachine t) ++ map CRun ran ∧
  mFiles (tMachine t') = mFiles (tMachine t).

Lemma only_ran_nil t t' : tMachine t' = tMachine t → only_ran [] t t'.
Proof. intros E. unfold only_ran. rewrite E. by rewrite app_nil_r. Qed.

Lemma all_succeed_cons n argv ran out :
  os_exit os n argv = Exits out → all_succeed (S n) ran → all_succeed n (argv :: ran).
Proof.
  intros Ho Hr [|i] a Ha; cbn in Ha.
  - injection Ha as <-. exists out. by rewrite Nat.add_0_r.
  - destruct (Hr i a Ha) as [o Hi]. exists o. by rewrite Nat.add_succ_r.
Qed.

Lemma configure_ran fail argvs h t e t' :
  configure os fail argvs h t = (e, t') →
  ∃ ran, ran `prefix_of` argvs ∧ only_ran ran t t' ∧ tNext t' = tNext t ∧
    match e with
    | None => ran = argvs ∧ all_succeed (length (mCalls (tMachine t))) ran ∧ tDevices t' = tDevices t
    | Some _ => last_fails (length (mCalls (tMachine t))) ran ∧ tDevices t' = delete h (tDevices t)
    end.
Proof.
  revert t. induction argvs as [|argv argvs IH]; intros t; cbn [configure].
  { intros [= <- <-]. exists []. split_and!; [done|by apply only_ran_nil|done|done|by intros i a|done]. }
  unfold Run. destruct (exit_error _) as [msg|] eqn:Ee.
  - intros [= <- <-]. exists [argv]. split; [by apply prefix_cons, prefix_nil|].
    split; [done|]. split; [done|]. split; [|done].
    exists [], argv, msg. cbn [length app]. rewrite Nat.add_0_r. split_and!; [done|by intros i a|done].
  - intros (ran & Hp & [Hc Hf] & Hn & He)%IH. exists (argv :: ran). cbn [tMachine mCalls called] in *.
    rewrite length_app, Nat.add_1_r in He.
    split; [by apply prefix_cons|]. split; [by split; cbn; rewrite ?Hc, <- ?(assoc_L (++))|].
    split; [done|]. destruct (os_exit os (length (mCalls (tMachine t))) argv) as [out|? ?|?] eqn:Eo; try done.
    destruct e as [msg|].
    + destruct He as [(l & a & msg' & -> & Hs & Hl) Hd]. split; [|done].
      exists (argv :: l), a, msg'. split_and!; [done|by eapply all_succeed_cons|].
      cbn [length]. by rewrite Nat.add_succ_r.
    + destruct He as (-> & Hs & Hd). split_and!; [done|by eapply all_succeed_cons|done].
Qed.

(** New handles are new. *)
Definition fresh t : Prop := ∀ h, (tNext t ≤ h)%nat → tDevices t !! h = None.

Lemma OpenNative_opens guid name mtu t : fresh t →
  let '(r, t') := OpenNative printable guid name mtu t in
  tMachine t' = tMachine t ∧ fresh t' ∧
  match r with
  | Err _ => tDevices t' = tDevices t
  | Ok (h, n) => h = tNext t ∧ tDevices t' = <[h := device n]> (tDevices t) ∧ tun_name (device n) = Ok (nName n)
  end.
Proof.
  intros Hf. unfold OpenNative, fresh in *. destruct (create_tun _ _ _ _) as [d|].
  - destruct (tun_name d) as [actual|] eqn:En; cbn [tMachine tDevices tNext close device nName].
    + split_and!; try done. intros h Hh. rewrite lookup_insert_ne by lia. apply Hf. lia.
    + rewrite delete_insert_id by (apply Hf; lia). split_and!; try done. intros h Hh. apply Hf. lia.
  - cbn. split_and!; try done. intros h Hh. apply Hf. lia.
Qed.

Lemma open_error_opens what o (P : result (nat * Native D) * Tunnels D → Prop) :
  (∀ e t, P (Err e, t) → ∀ e', P (Err e', t)) → P o → P (open_error what o).
Proof. intros HP Ho. unfold open_error. destruct o as [[?|e] t]; [done|]. by apply (HP e). Qed.

(** The programs of the platforms. *)
Definition programs : list string := ["ip"; "/sbin/ifconfig"; "/sbin/route"; "netsh"].
Definition own_program (argv : list string) : Prop := ∃ p, head argv = Some p ∧ p ∈ programs.

Definition outcome t (r : result (nat * Native D)) (t' : Tunnels D) : Prop :=
  let n := length (mCalls (tMachine t)) in
  fresh t' ∧ ∃ ran, only_ran ran t t' ∧ Forall own_program ran ∧
  match r with
  | Err _ => tDevices t' = tDevices t ∧ (ran = [] ∨ last_fails n ran)
  | Ok (h, d) => tDevices t' = <[h := device d]> (tDevices t) ∧ tDevices t !! h = None ∧
      tun_name (device d) = Ok (nName d) ∧ all_succeed n ran ∧ length ran = 2%nat
  end.

Lemma configured_outcome fail commands what guid name mtu t :
  (∀ actual, Forall own_program (commands actual) ∧ length (commands actual) = 2%nat) → fresh t →
  let o := OpenNative printable guid name mtu t in
  (let '(r, t') := configured os fail commands o in outcome t r t') ∧
  (let '(r, t') := configured os fail commands (open_error what o) in outcome t r t').
Proof.
  intros Hc Hf. cbv zeta. pose proof (OpenNative_opens guid name mtu t Hf) as Ho.
  assert (∀ e t1, tMachine t1 = tMachine t → fresh t1 → tDevices t1 = tDevices t → outcome t (Err e) t1) as Herr.
  { intros e t1 Hm H1 Hd. split; [done|]. exists []. split_and!; [by apply only_ran_nil|done|done|by left]. }
  destruct (OpenNative printable guid name mtu t) as [[[h n]|e] t1]; destruct Ho as (Hm & Hf1 & Hd);
    cbn [open_error configured]; [|split; by apply Herr].
  destruct Hd as (-> & Hd & Hn).
  destruct (Hc (nName n)) as [Hp Hl].
  assert (let '(r, t') := match configure os fail (commands (nName n)) (tNext t) t1 with
      | (Some e, t') => (Err e, t') | (None, t') => (Ok (tNext t, n), t') end in outcome t r t') as Hr;
    [|by split].
  destruct (configure _ _ _ _ _) as [e t'] eqn:E.
  apply configure_ran in E as (ran & Hpre & Hran & Hnext & He).
  assert (Forall own_program ran) as Hown.
  { destruct Hpre as [k Hk]. rewrite Hk in Hp. by apply Forall_app in Hp as [? _]. }
  unfold only_ran in Hran. rewrite Hm in Hran, He.
  assert (∀ h : nat, (tNext t' ≤ h)%nat → tDevices t1 !! h = None) as Hnew
    by (intros h Hh; apply Hf1; lia).
  destruct e as [e|].
  - destruct He as [Hlast Hdel]. rewrite Hd, delete_insert_id in Hdel by (apply Hf; lia).
    split; [|exists ran; by split_and!; [..|right]].
    intros h Hh. specialize (Hnew h Hh). rewrite Hd in Hnew. rewrite Hdel.
    by apply lookup_insert_None in Hnew as [? _].
  - destruct He as (-> & Hs & Hdev). split; [intros h Hh; rewrite Hdev; by apply Hnew|].
    exists (commands (nName n)). rewrite Hdev. split_and!; try done. apply Hf. lia.
Qed.

End opened.

(** ** What is configured *)

Lemma cut_here (sep : byte) l k : Forall (λ b, b ≠ sep) l → cut sep (l ++ sep :: k) = Some (l, k).
Proof.
  intros Hl. unfold cut. change (l ++ sep :: k) with (l ++ sep :: k).
  assert (∀ acc, cut_go sep (l ++ sep :: k) acc = Some (rev acc ++ l, k)) as H; [|by rewrite H].
  induction Hl as [|b l Hb _ IH]; intros acc; cbn [app cut_go].
  - by rewrite bool_decide_eq_true_2, app_nil_r.
  - rewrite bool_decide_eq_false_2, IH by done. cbn [rev]. by rewrite <- (assoc_L (++)).
Qed.

Lemma ip4_text_plain ip : Forall (λ b, b ≠ x2f) (ip4_text ip).
Proof.
  unfold ip4_text. induction ip as [|a ip IH]; [constructor|]. cbn [map].
  assert (Forall (λ b, b ≠ x2f) (fmt_dec (bZ a))) as Ha.
  { eapply Forall_impl; [by apply fmt_dec_digits, bZ_range|]. intros b Hb ->. by vm_compute in Hb. }
  destruct (map _ ip) as [|x l]; cbn [join] in *; [done|]. apply Forall_app. split; [done|].
  by constructor.
Qed.

(** The text of an address and a prefix length, read back. *)
Lemma ParseCIDR_text ip ones : length ip = 4%nat → 0 ≤ ones ≤ 32 →
  ParseCIDR (ip_string ip +:+ "/" +:+ FormatUint ones) =
  Some (As16 ip, mkIPNet (zip_with band ip (CIDRMask ones 4)) (CIDRMask ones 4)).
Proof.
  intros Hl Ho. unfold ParseCIDR. rewrite ip_string_4 by done.
  rewrite !s2b_app, s2b_b2s. change (s2b "/") with [x2f]. cbn [app].
  rewrite cut_here by apply ip4_text_plain. cbn [mbind option_bind].
  rewrite <- ip_string_4, parse_addr_string by done. cbn [mbind option_bind].
  unfold FormatUint. rewrite s2b_b2s.
  assert ((if bool_decide (fmt_dec ones = []) then None else dtoi (fmt_dec ones) 0) = Some ones) as ->.
  { pose proof (range_check (λ z, bool_decide
      ((if bool_decide (fmt_dec z = []) then None else dtoi (fmt_dec z) 0) = Some z)) 0 33 ones
      ltac:(by vm_compute) ltac:(lia)) as Hc. by apply bool_decide_eq_true_1 in Hc. }
  cbn [mbind option_bind]. unfold len. rewrite Hl.
  destruct (Z.ltb_spec (8 * Z.of_nat 4) ones); [lia|]. by rewrite ip_mask_4.
Qed.

(** Masks are written as addresses are. *)
Lemma mask_texts ones : 0 ≤ ones ≤ 32 →
  mask_text (CIDRMask ones 4) = ip_string (CIDRMask ones 4) ∧
  windows_mask (CIDRMask ones 4) = ip_string (CIDRMask ones 4) ∧
  simpleMaskLength (CIDRMask ones 4) = Some ones ∧ FormatInt ones = FormatUint ones.
Proof.
  intros Ho.
  pose proof (range_check (λ z, bool_decide (mask_text (CIDRMask z 4) = ip_string (CIDRMask z 4) ∧
    windows_mask (CIDRMask z 4) = ip_string (CIDRMask z 4) ∧
    simpleMaskLength (CIDRMask z 4) = Some z ∧ FormatInt z = FormatUint z)) 0 33 ones
    ltac:(by vm_compute) ltac:(lia)) as Hc.
  by apply bool_decide_eq_true_1 in Hc.
Qed.

Section network.
Context `{Primitives} {D : Type} `{NativeTun D}.
Context (os : OS) (printable : Z → bool) (ToLower : string → string).
Implicit Types (t : Tunnels D).

(** The programs for an address of 4 bytes with a prefix length. *)
Definition network_commands (goos : platform) (ip : list byte) (ones mtu : Z) (actual : string)
    : list (list string) :=
  let network := ip_string (zip_with band ip (CIDRMask ones 4)) in
  let mask := ip_string (CIDRMask ones 4) in
  let prefix := "/" +:+ FormatUint ones in
  match goos with
  | Linux => [["ip"; "link"; "set"; "dev"; actual; "mtu"; FormatInt mtu; "up"];
              ["ip"; "address"; "replace"; ip_string ip +:+ prefix; "dev"; actual]]
  | Darwin => [["/sbin/ifconfig"; actual; "inet"; ip_string ip; ip_string ip; "netmask"; mask; "mtu";
                FormatInt mtu; "up"];
               ["/sbin/route"; "-n"; "add"; "-net"; network +:+ prefix; "-interface"; actual]]
  | Windows => [["netsh"; "interface"; "ipv4"; "set"; "address"; "name=" +:+ actual; "source=static";
                 "address=" +:+ ip_string ip; "mask=" +:+ mask; "gateway=none"; "store=active"];
                ["netsh"; "interface"; "ipv4"; "set"; "subinterface"; actual;
                 "mtu=" +:+ FormatInt mtu; "store=active"]]
  | Unsupported => []
  end.

Lemma ip_string_As16 ip : length ip = 4%nat → ip_string (As16 ip) = ip_string ip.
Proof.
  intros Hl. unfold ip_string. rewrite To4_As16, To4_of_4 by done. unfold As16.
  rewrite (bool_decide_eq_true_2 (length ip = 4)%nat) by done. rewrite length_app, Hl. cbn [length].
  by destruct ip.
Qed.

Lemma network_text ip ones : length ip = 4%nat → 0 ≤ ones ≤ 32 →
  network_string (mkIPNet (zip_with band ip (CIDRMask ones 4)) (CIDRMask ones 4)) =
  ip_string (zip_with band ip (CIDRMask ones 4)) +:+ "/" +:+ FormatUint ones.
Proof.
  intros Hl Ho. unfold network_string, networkNumberAndMask. cbn [nIP nMask].
  assert (length (zip_with band ip (CIDRMask ones 4)) = 4%nat) as Hz
    by (rewrite length_zip_with, CIDRMask_length; lia).
  rewrite To4_of_4 by done. destruct (zip_with _ _ _) as [|b l] eqn:E; [done|]. rewrite <- E in *.
  rewrite CIDRMask_length, Hz, !bool_decide_eq_true_2 by done. cbn [orb negb].
  destruct (mask_texts ones Ho) as (_ & _ & -> & ->). done.
Qed.

Lemma configure_calm fail argvs h t : calm_os os →
  ∃ t', configure os fail argvs h t = (None, t') ∧ only_ran argvs t t' ∧ tDevices t' = tDevices t.
Proof.
  intros Ho. destruct (configure os fail argvs h t) as [e t'] eqn:E. exists t'.
  apply configure_ran in E as (ran & _ & Hr & _ & He). destruct e as [e|].
  - destruct He as [(l & argv & msg & _ & _ & Hx) _].
    destruct (calm_exit os Ho (length (mCalls (tMachine t)) + length l) argv) as [out Hout].
    by rewrite Hout in Hx.
  - by destruct He as (-> & _ & ?).
Qed.

(** The adapter gets the configured address and network.  For an address of
    four bytes and a prefix length in the notation that the server's and the
    client's configuration produce, on each of the three platforms and where no
    call fails, [EnsureTunnel] opens the device the system created and runs
    exactly the two programs with this address, the mask of the prefix and, on
    macOS, the route to the address's network. *)
Theorem adapter_network goos name ip ones mtu t d actual :
  length ip = 4%nat → 0 ≤ ones ≤ 32 → goos ≠ Unsupported → calm_os os →
  (∀ guid name, create_tun (tNext t) guid name mtu = Ok d) → tun_name d = Ok actual →
  ∃ t', EnsureTunnel os printable ToLower goos name (ip_string ip +:+ "/" +:+ FormatUint ones) mtu t =
      Some (Ok (tNext t, mkNative d actual [] []), t') ∧
    only_ran (network_commands goos ip ones mtu actual) t t' ∧
    tDevices t' = <[tNext t := d]> (tDevices t).
Proof.
  intros Hl Ho Hg Hos Hd Hn.
  assert (∀ guid nm, OpenNative printable guid nm mtu t =
    (Ok (tNext t, mkNative d actual [] []),
     mkTunnels (tMachine t) (<[tNext t := d]> (tDevices t)) (S (tNext t)))) as Hopen
    by (intros guid nm; unfold OpenNative; by rewrite Hd, Hn).
  destruct (mask_texts ones Ho) as (Hm1 & Hm2 & _).
  pose proof (ip_string_As16 ip Hl) as Hip.
  destruct goos; cbn [EnsureTunnel]; [| | |done];
    unfold Ensure_linux, Ensure_windows, Ensure_darwin; rewrite ?ParseCIDR_text, !Hopen by done;
    cbn [open_error configured nName nMask network_commands];
    unfold linux_commands, windows_commands, darwinTunnelCommands;
    rewrite ?Hm1, ?Hm2, ?Hip, ?(network_text ip ones Hl Ho);
    match goal with |- context [configure os ?f ?argvs ?h ?t1] =>
      destruct (configure_calm f argvs h t1 Hos) as (t' & -> & Hr & Hdev) end;
    by exists t'.
Qed.
End network.

(** ** The identity on Windows *)

(** Name-based UUIDs (version 5, the variant of RFC 4122). *)
Definition uuid5 (g : GUID) : Prop :=
  0 ≤ Data1 g < 2 ^ 32 ∧ 0 ≤ Data2 g < 2 ^ 16 ∧ Z.shiftr (Data3 g) 12 = 5 ∧ length (Data4 g) = 8%nat ∧
  ∃ b, head (Data4 g) = Some b ∧ Z.shiftr (bZ b) 6 = 2.

Lemma version_byte b : Z.shiftr (bZ (Zb (Z.lor (Z.land (bZ b) 0x0f) 0x50))) 4 = 5 ∧
  Z.shiftr (bZ (Zb (Z.lor (Z.land (bZ b) 0x3f) 0x80))) 6 = 2.
Proof.
  pose proof (byte_check (λ b, (Z.shiftr (bZ (Zb (Z.lor (Z.land (bZ b) 0x0f) 0x50))) 4 =? 5) &&
    (Z.shiftr (bZ (Zb (Z.lor (Z.land (bZ b) 0x3f) 0x80))) 6 =? 2)) ltac:(by vm_compute) b) as Hc.
  cbv beta in Hc. bprop. by split.
Qed.
Lemma version_number b c : Z.shiftr (bZ b) 4 = 5 → Z.shiftr (be_get [b; c]) 12 = 5.
Proof.
  intros Hb. pose proof (bZ_range b). pose proof (bZ_range c).
  rewrite Z.shiftr_div_pow2 in * by lia. rewrite !be_get_cons. change (be_get []) with 0.
  unfold len. cbn [length]. change (256 ^ Z.of_nat 1) with 256. change (256 ^ Z.of_nat 0) with 1.
  change (2 ^ 4) with 16 in Hb. change (2 ^ 12) with 4096. Z.div_mod_to_equations. lia.
Qed.

Section uuid.
Context `{PrimitiveLaws} (ToLower : string → string).

Lemma set_bits_at i keep bits l b : l !! i = Some b →
  set_bits i keep bits l = <[i := Zb (Z.lor (Z.land (bZ b) keep) bits)]> l.
Proof. intros E. unfold set_bits. by rewrite E. Qed.

(** The adapters keep their identity on Windows.  Every name gives a
    well-formed name-based UUID (version 5), the fixed one for the server's own
    name; and names that differ in their case only give the same one. *)
Theorem adapter_guid name name' :
  uuid5 (adapterGUID ToLower name) ∧
  adapterGUID ToLower "TyxNet" = tyxNetAdapterGUID ∧
  (EqualFold name "TyxNet" = EqualFold name' "TyxNet" → ToLower name = ToLower name' →
   adapterGUID ToLower name = adapterGUID ToLower name').
Proof.
  split; [|split; [by vm_compute|intros E1 E2; unfold adapterGUID; by rewrite E1, E2]].
  unfold adapterGUID. destruct (EqualFold name "TyxNet").
  { split; [by vm_compute|]. split; [by vm_compute|]. split; [by vm_compute|]. split; [done|]. by exists xa8. }
  pose proof (sha256_length (s2b ("github.com/fbeser/tyxnet/wintun/" +:+ ToLower name))) as Hl.
  set (sum := sha256 _) in *. do 32 (destruct sum as [|? sum]; [done|]). cbv zeta.
  destruct sum; [|done].
  match goal with |- context [set_bits 6 _ _ (_ :: _ :: _ :: _ :: _ :: _ :: ?a :: _ :: ?c :: _)] =>
    rewrite (set_bits_at 6 _ _ _ a) by done; cbn [list_insert]; rewrite (set_bits_at 8 _ _ _ c) by done;
    pose proof (proj1 (version_byte a)) as Ha; pose proof (proj2 (version_byte c)) as Hc end.
  unfold uuid5. cbn [Data1 Data2 Data3 Data4].
  split; [by apply (be_get_range [_; _; _; _])|]. split; [by apply (be_get_range [_; _])|].
  split; [by apply (version_number _ b6)|]. split; [reflexivity|]. by eexists.
Qed.
End uuid.

(** ** Examples *)

Import Crypto.Toy.

Definition quiet_os : OS := mkOS (λ _ _, Exits "") (λ _ _, None) (λ _, None) (λ _, "") (λ _, true) true.
(** The second program fails. *)
Definition second_fails : OS :=
  mkOS (λ n _, if (n =? 1)%nat then Fails "exit status 1" "denied" else Exits "")
    (λ _ _, None) (λ _, None) (λ _, "") (λ _, true) true.
Definition no_tunnels : Tunnels toy_tun := mkTunnels (mkMachine ∅ []) ∅ 0.
Definition same_text (s : string) : string := s.


Lemma adapter_network_witness :
  ∃ t', EnsureTunnel quiet_os (λ _, true) same_text Darwin "TyxNet" "10.90.0.3/24" 1280 no_tunnels =
      Some (Ok (0%nat, mkNative (mkToy [] []) "tun0" [] []), t') ∧
    only_ran [["/sbin/ifconfig"; "tun0"; "inet"; "10.90.0.3"; "10.90.0.3"; "netmask"; "255.255.255.0";
               "mtu"; "1280"; "up"];
              ["/sbin/route"; "-n"; "add"; "-net"; "10.90.0.0/24"; "-interface"; "tun0"]]%string
      no_tunnels t'.
Proof.
  destruct (adapter_network quiet_os (λ _, true) same_text Darwin "TyxNet" [x0a; x5a; x00; x03] 24 1280
    no_tunnels (mkToy [] []) "tun0") as (t' & E & Hr & _); [reflexivity|lia|discriminate|..].
  - split; [reflexivity|]. intros n argv. by exists "".
  - reflexivity.
  - reflexivity.
  - exists t'. split; [exact E|exact Hr].
Defined.

Lemma adapter_guid_witness :
  uuid5 (adapterGUID same_text "TyxC-12345678") ∧ adapterGUID same_text "TyxNet" = tyxNetAdapterGUID.
Proof. exact (let '(conj a (conj b _)) := adapter_guid same_text "TyxC-12345678" "" in conj a b). Defined.
