(* ===== verification/Control.v ===== *)
(** * Control: the management server's state ([internal/control/server.go])

    The server's fields, its construction from the stored settings, the ports,
    the presence counts, the command signals, the rate limiter, the challenges,
    and the responses of its handlers.

    The traffic monitor's sink ([persistFlowHistory]) acts on [World]: the
    store and the two switches of the recording.  The data plane is an
    interface ([DataPlane], with what it promises in [DataPlaneLaws]); [F] is
    what the operating system and the configuration file hold, which only the
    callbacks [setStartup], [startupEnabled] and [savePorts] touch.

    A handler is a computation in [H]: it reads and changes the server and may
    stop with its outcome; a whole handler has the type [H Empty_set], which
    leaves it no other end.  It draws its clock readings and random values
    from an [Env], in the order of the code. *)
From S2P Require Import Prelude Text Net Clock Calendar Http Traffic Duration Protocol.
From S2P Require Import Crypto Session Database Accounts Devices CommandStore History Auth.
From Stdlib Require Import Init.Byte Strings.Byte SpecFloat.

(** ** Responses *)

Record Cookie := mkCookie {
  ckName : string; ckValue : string; ckPath : string; ckMaxAge : Z; ckExpires : option Z;
  ckHttpOnly : bool; ckSecure : bool; ckSameSiteStrict : bool
}.

Record networkNode := mkNode {
  nID : string; nName : string; nIPText : string; nKind : string; nOnline : bool; nPlatform : string
}.

Record ServerSettings := mkSettings {
  ping_interval_seconds : Z; flow_history_enabled : bool; flow_history_limit_mb : Z;
  api_port : Z; tunnel_port : Z; restart_required : bool
}.

Record ServerStatus := mkStatus {
  uptime_seconds : Z; st_devices : Z; st_users : Z; online_devices : Z; offline_devices : Z;
  active_commands : Z; adapter_name : string; adapter_address : string; adapter_ready : bool;
  st_ping_seconds : Z
}.

(** The JSON values the handlers write; [TrayState] says that the server is
    running, and [StatusPage] leaves out the version of the build. *)
Inductive Payload :=
  | Problem (code message : string)
  | Status_ (status : string)
  | SetupStatus (required enabled : bool)
  | NewSession (access_token : string) (expires_in : Z) (user : User)
  | OneUser (u : User) | AllUsers (l : list User)
  | OneDevice (d : Device) | AllDevices (l : list Device)
  | Challenge (challenge : string)
  | NewToken (token : string) (metadata : Token) | AllTokens (l : list Token)
  | OneCommand (c : Command) | AllCommands (l : list Command)
  | AuditTrail (l : list AuditLog)
  | Settings (v : ServerSettings)
  | Startup (available enabled : bool) (reason : string)
  | TrayState (available enabled : bool) (reason : string)
  | Enabled (enabled : bool)
  | NetworkFlows (snapshot : TrafficSnapshot) (nodes : list networkNode)
  | NetworkHistory (page : FlowHistoryPage) (recording : bool) (limit_mb : Z)
  | StatusPage (v : ServerStatus)
  | Page (html : list byte).

Record Response := mkResponse {
  rStatus : Z; rHeaders : list (string * string); rCookies : list Cookie; rPayload : option Payload
}.

Definition write (status : Z) (v : Payload) : Response :=
  mkResponse status [("Content-Type", "application/json")] [] (Some v).
Definition problem (status : Z) (code msg : string) : Response := write status (Problem code msg).
(** [w.WriteHeader(status)] alone. *)
Definition write_header (status : Z) : Response := mkResponse status [] [] None.
Definition set_cookie (c : Cookie) (r : Response) : Response :=
  mkResponse (rStatus r) (rHeaders r) (rCookies r ++ [c]) (rPayload r).
(** [w.Header().Set("Cache-Control", "no-store")] before the response. *)
Definition no_store (r : Response) : Response :=
  mkResponse (rStatus r) (("Cache-Control", "no-store") :: rHeaders r) (rCookies r) (rPayload r).
Definition respond {A} (f : A → Payload) (v : result A) : Response :=
  match v with Err e => problem 500 "internal" e | Ok v => write 200 (f v) end.

Definition security_headers : list (string * string) :=
  [("X-Content-Type-Options", "nosniff"); ("X-Frame-Options", "DENY");
   ("Content-Security-Policy", "default-src 'self'; style-src 'self'; object-src 'none'; base-uri 'none'; frame-ancestors 'none'");
   ("Referrer-Policy", "no-referrer")].
Definition securityHeaders (r : Response) : Response :=
  mkResponse (rStatus r) (security_headers ++ rHeaders r) (rCookies r) (rPayload r).

(** ** The state *)

Definition sessionCookieName : string := "tyxnet_session".
Definition rememberSessionTTL : Z := 30 * 24 * Hour.
Definition defaultFlowHistoryMB : Z := 100.
Definition minFlowHistoryMB : Z := 1.
Definition maxFlowHistoryMB : Z := 10240.

Record challenge := mkChallenge { chNonce : list byte; chExpires : Z }.

Record World := mkWorld { store : db; flowHistoryOn : bool; flowHistoryMB : Z }.
Definition set_store (d : db) (w : World) : World := mkWorld d (flowHistoryOn w) (flowHistoryMB w).

Record Ports := mkPorts {
  apiPort : Z; tunnelPort : Z; runningAPIPort : Z; runningTunnelPort : Z
}.

(** The fields that are set before the server starts. *)
Record Static := mkStatic {
  network : string; ttl : Z; started : Z; localBootstrap : bool; remoteBootstrap : bool;
  adapterName : string; adapterAddress : string; trayToken : string; canShutdown : bool
}.

(** What the data plane offers to the management server. *)
Class DataPlane (P : Type) := {
  dp_register : option (list byte) → list Z → Z → string → list byte → P → result Bootstrap * P;
  dp_remove : string → string → P → P
}.
(** What it promises: [dp_sessions] is the session of each device, [dp_id] holds
    of the numbers it hands out. *)
Class DataPlaneLaws (P : Type) `{DataPlane P} := {
  dp_ok : P → Prop;
  dp_id : string → Prop;
  dp_sessions : P → gmap string string;
  dp_register_law secret draws now dev ip p : dp_ok p → Forall in_u64 draws →
    match dp_register secret draws now dev ip p with
    | (Ok b, p') =>
      dp_ok p' ∧ dp_id (bSessionID b) ∧ dp_sessions p' = <[dev := bSessionID b]> (dp_sessions p)
    | (Err _, p') => p' = p
    end;
  dp_remove_law dev sid p : dp_ok p → dp_id sid →
    dp_ok (dp_remove dev sid p) ∧
    dp_sessions (dp_remove dev sid p) =
      if bool_decide (dp_sessions p !! dev = Some sid) then delete dev (dp_sessions p)
      else dp_sessions p
}.

Record Env := mkEnv {
  limit_now : Z; auth_now : Z; now : nat → Z; rnd : nat → list byte;
  token_rnd : option (list byte); nonce_rnd : option (list byte); salt : option (list byte);
  dp_secret : option (list byte); dp_draws : list Z; flusher : bool; wrote : nat → bool
}.

(** [int(d.Seconds())]. *)
Definition Seconds (d : Z) : Z :=
  trunc (SFadd 53 1024 (f64 (Z.quot d Second))
                (SFdiv 53 1024 (f64 (Z.rem d Second)) (f64 1000000000))).

Definition validPingInterval (interval : Z) : bool :=
  (5 * Second <=? interval) && (interval <=? Hour).
Definition validFlowHistoryLimit (limitMB : Z) : bool :=
  (minFlowHistoryMB <=? limitMB) && (limitMB <=? maxFlowHistoryMB).

(** ** The recording of the history *)

Definition stored_record (r : TrafficHistoryRecord) : FlowHistoryRecord :=
  let flow := hFlow r in
  mkFlowRecord 0 (RecordedAt r) (Source flow) (Destination flow) (Traffic.Protocol flow)
    (ProtocolNumber flow) (SourcePort flow) (DestinationPort flow) (ICMPType flow) (ICMPCode flow)
    (Bytes flow) (Packets flow) 0.

Definition persistFlowHistory (records : list TrafficHistoryRecord) (w : World)
    : option string * World :=
  if negb (flowHistoryOn w) then (None, w)
  else
    let '(r, d) := InsertFlowHistory (map stored_record records)
                     (i64 (flowHistoryMB w * 1000000)) (store w) in
    (match r with Ok _ => None | Err e => Some e end, set_store d w).

Section control.
Context {F P : Type}.

Record Control := mkControl {
  static : Static; world : World; traffic : TrafficMonitor World; dataPlane : option P;
  hits : gmap string (list Z); challenges : gmap string challenge;
  connections : gmap string Z; commandSignals : gmap string bool;
  pingIntervalNS : Z; ports : Ports; savePorts : option (Z → Z → F → option string * F);
  host : F; shutdownAsked : bool
}.

Definition set_world (w : World) (s : Control) : Control :=
  mkControl (static s) w (traffic s) (dataPlane s) (hits s) (challenges s) (connections s)
    (commandSignals s) (pingIntervalNS s) (ports s) (savePorts s) (host s) (shutdownAsked s).
Definition set_traffic (m : TrafficMonitor World) (s : Control) : Control :=
  mkControl (static s) (world s) m (dataPlane s) (hits s) (challenges s) (connections s)
    (commandSignals s) (pingIntervalNS s) (ports s) (savePorts s) (host s) (shutdownAsked s).
Definition set_dataPlane (p : option P) (s : Control) : Control :=
  mkControl (static s) (world s) (traffic s) p (hits s) (challenges s) (connections s)
    (commandSignals s) (pingIntervalNS s) (ports s) (savePorts s) (host s) (shutdownAsked s).
Definition set_hits (h : gmap string (list Z)) (s : Control) : Control :=
  mkControl (static s) (world s) (traffic s) (dataPlane s) h (challenges s) (connections s)
    (commandSignals s) (pingIntervalNS s) (ports s) (savePorts s) (host s) (shutdownAsked s).
Definition set_challenges (c : gmap string challenge) (s : Control) : Control :=
  mkControl (static s) (world s) (traffic s) (dataPlane s) (hits s) c (connections s)
    (commandSignals s) (pingIntervalNS s) (ports s) (savePorts s) (host s) (shutdownAsked s).
Definition set_connections (c : gmap string Z) (s : Control) : Control :=
  mkControl (static s) (world s) (traffic s) (dataPlane s) (hits s) (challenges s) c
    (commandSignals s) (pingIntervalNS s) (ports s) (savePorts s) (host s) (shutdownAsked s).
Definition set_signals (c : gmap string bool) (s : Control) : Control :=
  mkControl (static s) (world s) (traffic s) (dataPlane s) (hits s) (challenges s) (connections s)
    c (pingIntervalNS s) (ports s) (savePorts s) (host s) (shutdownAsked s).
Definition set_ping (i : Z) (s : Control) : Control :=
  mkControl (static s) (world s) (traffic s) (dataPlane s) (hits s) (challenges s) (connections s)
    (commandSignals s) i (ports s) (savePorts s) (host s) (shutdownAsked s).
Definition set_ports (p : Ports) (s : Control) : Control :=
  mkControl (static s) (world s) (traffic s) (dataPlane s) (hits s) (challenges s) (connections s)
    (commandSignals s) (pingIntervalNS s) p (savePorts s) (host s) (shutdownAsked s).
Definition set_host (f : F) (s : Control) : Control :=
  mkControl (static s) (world s) (traffic s) (dataPlane s) (hits s) (challenges s) (connections s)
    (commandSignals s) (pingIntervalNS s) (ports s) (savePorts s) f (shutdownAsked s).
Definition ask_shutdown (s : Control) : Control :=
  mkControl (static s) (world s) (traffic s) (dataPlane s) (hits s) (challenges s) (connections s)
    (commandSignals s) (pingIntervalNS s) (ports s) (savePorts s) (host s) (canShutdown (static s)).
Definition set_static (c : Static) (s : Control) : Control :=
  mkControl c (world s) (traffic s) (dataPlane s) (hits s) (challenges s) (connections s)
    (commandSignals s) (pingIntervalNS s) (ports s) (savePorts s) (host s) (shutdownAsked s).

(** ** Construction *)

(** The three settings [New] reads. *)
Definition stored_ping (d : db) : option Z :=
  match fst (Setting "ping_interval" d) with
  | Err _ => None
  | Ok value =>
    match ParseDuration value with
    | Some interval => if validPingInterval interval then Some interval else None
    | None => None
    end
  end.
Definition stored_enabled (d : db) : bool :=
  match fst (Setting "flow_history_enabled" d) with Err _ => false | Ok v => v =s "true" end.
Definition stored_limit (d : db) : option Z :=
  match fst (Setting "flow_history_limit_mb" d) with
  | Err _ => None
  | Ok value =>
    match ParseInt value with
    | (limit, None) => if validFlowHistoryLimit limit then Some limit else None
    | _ => None
    end
  end.

Definition New (d : db) (network : string) (ttl now : Z) (localBootstrap : bool) (f : F) : Control :=
  mkControl (mkStatic network ttl now localBootstrap false "" "" "" false)
    (mkWorld d (stored_enabled d) (default defaultFlowHistoryMB (stored_limit d)))
    (SetHistorySink (Some persistFlowHistory) NewTrafficMonitor)
    None ∅ ∅ ∅ ∅ (default (25 * Second) (stored_ping d)) (mkPorts 0 0 0 0) None f false.

Definition SetAdapter (name address : string) (s : Control) : Control :=
  let c := static s in
  set_static (mkStatic (network c) (ttl c) (started c) (localBootstrap c) (remoteBootstrap c)
                name address (trayToken c) (canShutdown c)) s.
Definition SetDataPlane (p : P) : Control → Control := set_dataPlane (Some p).
Definition ConfigureApplication (token : string) (shutdown : bool) (s : Control) : Control :=
  let c := static s in
  set_static (mkStatic (network c) (ttl c) (started c) (localBootstrap c) (remoteBootstrap c)
                (adapterName c) (adapterAddress c) token shutdown) s.
Definition AllowRemoteBootstrap (s : Control) : Control :=
  let c := static s in
  set_static (mkStatic (network c) (ttl c) (started c) (localBootstrap c) true
                (adapterName c) (adapterAddress c) (trayToken c) (canShutdown c)) s.
Definition ConfigurePorts (api tunnel : Z) (save : Z → Z → F → option string * F) (s : Control)
    : Control :=
  mkControl (static s) (world s) (traffic s) (dataPlane s) (hits s) (challenges s) (connections s)
    (commandSignals s) (pingIntervalNS s) (mkPorts api tunnel api tunnel) (Some save) (host s)
    (shutdownAsked s).
Definition SetDefaultPingInterval (interval : Z) (s : Control) : Control :=
  match fst (Setting "ping_interval" (store (world s))) with
  | Ok _ => s
  | Err _ => if validPingInterval interval then set_ping interval s else s
  end.

(** ** Settings and ports *)

Definition serverSettings (s : Control) : ServerSettings :=
  let p := ports s in
  mkSettings (Seconds (pingIntervalNS s)) (flowHistoryOn (world s)) (flowHistoryMB (world s))
    (apiPort p) (tunnelPort p)
    (negb (apiPort p =? runningAPIPort p) || negb (tunnelPort p =? runningTunnelPort p)).

Definition validatePorts (api tunnel : Z) : option string :=
  if (api <? 1) || (65535 <? api) || (tunnel <? 1) || (65535 <? tunnel)
  then Some "ports must be between 1 and 65535"
  else if api =? tunnel then Some "management and tunnel ports must differ"
  else None.

Definition updatePorts (api tunnel : Z) (s : Control) : option string * Control :=
  match savePorts s with
  | None => (Some "port configuration is unavailable in this runtime", s)
  | Some save =>
    let '(err, f) := save api tunnel (host s) in
    let s := set_host f s in
    match err with
    | Some e => (Some e, s)
    | None =>
      (None, set_ports (mkPorts api tunnel (runningAPIPort (ports s)) (runningTunnelPort (ports s))) s)
    end
  end.

(** ** Signals and presence *)

(** A channel of capacity one: [true] when it holds a value. *)
Definition commandSignal (deviceID : string) (s : Control) : Control :=
  match commandSignals s !! deviceID with
  | Some _ => s
  | None => set_signals (<[deviceID := false]> (commandSignals s)) s
  end.
Definition notifyCommand (deviceID : string) (s : Control) : Control :=
  let s := commandSignal deviceID s in
  set_signals (<[deviceID := true]> (commandSignals s)) s.

Definition deviceConnected (deviceID : string) (s : Control) : Control :=
  set_connections (<[deviceID := default 0 (connections s !! deviceID) + 1]> (connections s)) s.
Definition deviceDisconnected (deviceID : string) (s : Control) : Control :=
  let n := default 0 (connections s !! deviceID) in
  if n <=? 1 then set_connections (delete deviceID (connections s)) s
  else set_connections (<[deviceID := n - 1]> (connections s)) s.
Definition deviceOnline (s : Control) (deviceID : string) : bool :=
  0 <? default 0 (connections s !! deviceID).

Definition set_online (b : bool) (d : Device) : Device :=
  mkDevice (dID d) (dUserID d) (dName d) (VirtualIP d) (OS d) (Arch d) (dVersion d) (Revoked d) b
    (LastSeen d) (dCreatedAt d).
Definition setDevicePresence (s : Control) (devices : list Device) : list Device :=
  map (λ d, set_online (negb (Revoked d) && deviceOnline s (dID d)) d) devices.

(** ** The rate limiter *)

Definition request_limit : nat := 120.

(** The calls of the last minute. *)
Definition recent (now : Z) (xs : list Z) : list Z := List.filter (λ x, Sub now x <? Minute) xs.

(** [rateLimit]'s own part: whether the request goes on. *)
Definition rateLimit (now : Z) (remote : string) (s : Control) : bool * Control :=
  let h := default "" (fst <$> SplitHostPort remote) in
  let xs := recent now (default [] (hits s !! h)) in
  if bool_decide (request_limit ≤ length xs)%nat
  then (false, set_hits (<[h := xs]> (hits s)) s)
  else (true, set_hits (<[h := xs ++ [now]]> (hits s)) s).

(** ** Challenges *)

(** The locked look-up and deletion. *)
Definition take_challenge (device : string) (s : Control) : option challenge * Control :=
  (challenges s !! device, set_challenges (delete device (challenges s)) s).

(** ** Handlers *)

(** An open event stream of a device, or the response. *)
Record stream := mkStream { stDevice : string; stIP : string; stData : option Bootstrap }.
Inductive Event :=
  | EvConnected (ip network : string) (ping_seconds : Z) (data : option Bootstrap)
  | EvPing (ip network : string) (ping_seconds : Z)
  | EvCommand (id type : string) (created expires : Z).
Inductive Outcome :=
  | Reply (r : Response)
  | Stream (st : option stream) (events : list Event).

Definition H (A : Type) : Type := Control → (Outcome + A) * Control.
Definition hret {A} (a : A) : H A := λ s, (inr a, s).
Definition hstop {A} (o : Outcome) : H A := λ s, (inl o, s).
Definition hreply {A} (r : Response) : H A := hstop (Reply r).
Definition hbind {A B} (m : H A) (k : A → H B) : H B := λ s,
  match m s with
  | (inr a, s') => k a s'
  | (inl o, s') => (inl o, s')
  end.
Definition hget {A} (f : Control → A) : H A := λ s, (inr (f s), s).
Definition hupd (f : Control → Control) : H unit := λ s, (inr tt, f s).
Definition hrun {A} (f : Control → A * Control) : H A := λ s, let '(a, s) := f s in (inr a, s).
(** A call of the store. *)
Definition hstore {A} (m : M A) : H (result A) :=
  hrun (λ s, let '(r, d) := m (store (world s)) in (r, set_world (set_store d (world s)) s)).
(** A call of the store whose error is answered by [f]. *)
Definition htry {A B} (m : M A) (f : string → Response) (k : A → H B) : H B :=
  hbind (hstore m) (λ r, match r with Err e => hreply (f e) | Ok a => k a end).
(** [s.store.Audit(...)], whose error is not looked at. *)
Definition audit (now : Z) (actor action target remote detail : string) : H unit :=
  hbind (hstore (Audit now actor action target remote detail)) (λ _, hret tt).
(** [if decode(r, &in) != nil { problem(...); return }]. *)
Definition hdecode {A B} (v : option A) (r : Response) (k : A → H B) : H B :=
  match v with None => hreply r | Some a => k a end.
(** The outcome of a handler, which has no other end than writing one. *)
Definition outcome (m : H Empty_set) (s : Control) : Outcome * Control :=
  match m s with (inl o, s') => (o, s') | (inr a, _) => match a with end end.
End control.
Global Arguments Control : clear implicits.
Global Arguments H : clear implicits.

Notation "'let#' x := m 'in' k" := (hbind m (λ x, k))
  (at level 10, x pattern, m at level 100, k at level 200) : tyx_scope.
Notation "'do#' m ; k" := (hbind m (λ _, k))
  (at level 10, m at level 100, k at level 200) : tyx_scope.
Notation "'reply_if' c 'with' r ; k" := (if c then hreply r else k)
  (at level 10, c at level 100, r at level 100, k at level 200) : tyx_scope.
Notation "'try#' x := m 'else' f ; k" := (htry m f (λ x, k))
  (at level 10, x pattern, m at level 100, f at level 100, k at level 200) : tyx_scope.
Notation "'input#' x := v 'else' r ; k" := (hdecode v r (λ x, k))
  (at level 10, x pattern, v at level 100, r at level 100, k at level 200) : tyx_scope.
