(* ===== verification/ControlAPI.v ===== *)
(** * ControlAPI: the management API ([internal/control/server.go])

    One definition per handler, in [H]: the log-in and the first set-up, the
    enrollment of devices, the tray, and the cases of the dispatcher [api],
    which runs after [authorized] has found the session's user.  The clock
    readings and random draws of a handler are numbered in the order of its
    text.  [time.Sleep] and the log are left out: they change nothing. *)
From S2P Require Import Prelude Text Net Clock Calendar Http Traffic Duration Protocol.
From S2P Require Import Crypto Session Database Accounts Devices CommandStore History Auth Control.
From Stdlib Require Import Init.Byte Strings.Byte.

(** ** Inputs *)

Record LoginInput := mkLogin { lgUsername : string; lgPassword : string; lgRemember : bool }.
Record SetupInput := mkSetup { suUsername : string; suPassword : string; suRemember : bool }.
Record EnrollInput := mkEnroll {
  enToken : string; enName : string; enOS : string; enArch : string; enVersion : string;
  enPublicKey : list byte
}.
Record ChallengeInput := mkChallengeInput { chDeviceID : string }.
Record ConnectInput := mkConnect { coDeviceID : string; coSignature : string }.
Record DevicePatch := mkDevicePatch { dpName : option string; dpVirtualIP : option string }.
Record SettingsPatch := mkSettingsPatch {
  spPing : option Z; spEnabled : option bool; spLimit : option Z; spAPI : option Z;
  spTunnel : option Z
}.
Record StartupInput := mkStartup { siEnabled : bool }.
Record UserInput := mkUserInput { uiUsername : string; uiPassword : string; uiRole : string }.
Record UserPatch := mkUserPatch { upDisabled : bool; upRole : string }.
Record PasswordInput := mkPassword { piPassword : string }.
Record TokenInput := mkTokenInput { tiUserID : string; tiExpires : string; tiMaxUses : Z }.

Class Inputs := {
  in_login :: Unmarshal LoginInput; in_setup :: Unmarshal SetupInput;
  in_enroll :: Unmarshal EnrollInput; in_challenge :: Unmarshal ChallengeInput;
  in_connect :: Unmarshal ConnectInput; in_result :: Unmarshal CommandResult;
  in_device :: Unmarshal DevicePatch; in_settings :: Unmarshal SettingsPatch;
  in_startup :: Unmarshal StartupInput; in_user :: Unmarshal UserInput;
  in_user_patch :: Unmarshal UserPatch; in_password :: Unmarshal PasswordInput;
  in_token :: Unmarshal TokenInput
}.

(** What other packages and the platform answer: Argon2id, Ed25519, Unicode's
    lower case, the embedded page and files ([http.FileServer]'s answer for a
    path), and [application]'s start-up entry. *)
Class Externals (F : Type) := {
  argon2id : list byte → list byte → list byte;
  ed25519_verify : list byte → list byte → list byte → bool;
  ToLower : string → string;
  web_index : option (list byte);
  web_asset : string → Response;
  startupAvailable : bool * string;
  startupEnabled : F → result bool;
  setStartup : bool → F → option string * F
}.

Definition PublicKeySize : Z := 32.

Section api.
Context `{Primitives} {F P : Type} `{Inputs} `{Externals F}.
Implicit Types (e : Env) (r : Request) (u : User).
Abbreviation H := (H F P).

Definition permit {A} u (p : string) (k : H A) : H A :=
  reply_if negb (Allowed (Role u) p) with problem 403 "forbidden" "permission denied";
  k.

(** ** The tray *)

Definition trayAllowed (s : Control F P) r : bool :=
  remoteIsLoopback (RemoteAddr r) && negb (trayToken (static s) =s "")
  && (TrayToken r =s trayToken (static s)).
Definition tray_guard {A} r (k : H A) : H A :=
  let# ok := hget (λ s, trayAllowed s r) in
  reply_if negb ok with problem 403 "forbidden" "local tray authentication required";
  k.

Definition startup_status (answer : bool → bool → string → Payload) : H Empty_set :=
  let '(available, reason) := startupAvailable in
  if available then
    let# enabled := hget (λ s, startupEnabled (host s)) in
    match enabled with
    | Err msg => hreply (problem 500 "startup_status_failed" msg)
    | Ok enabled => hreply (write 200 (answer true enabled reason))
    end
  else hreply (write 200 (answer false false reason)).

Definition updateStartup e r (actor : User) : H Empty_set :=
  input# input := decode (A := StartupInput) r
    else problem 400 "invalid_request" "enabled is required";
  let '(available, reason) := startupAvailable in
  reply_if negb available with problem 409 "startup_unavailable" reason;
  let# err := hrun (λ s, let '(err, f) := setStartup (siEnabled input) (host s) in
                         (err, set_host f s)) in
  match err with
  | Some msg => hreply (problem 500 "startup_update_failed" msg)
  | None =>
    do# audit (now e 0) (ID actor) "server.startup.update" "server" (RemoteAddr r)
          (FormatBool (siEnabled input));
    hreply (write 200 (Enabled (siEnabled input)))
  end.

Definition trayStatus r : H Empty_set := tray_guard r (startup_status TrayState).
Definition trayStartup e r : H Empty_set :=
  tray_guard r (updateStartup e r (mkUser "local-tray" "" "admin" false zeroTime)).
Definition trayQuit r : H Empty_set :=
  tray_guard r (do# hupd ask_shutdown; hreply (write_header 202)).

(** ** First set-up *)

Definition bootstrapAllowed (s : Control F P) r : bool :=
  localBootstrap (static s) && (remoteBootstrap (static s) || remoteIsLoopback (RemoteAddr r)).

Definition setupStatus r : H Empty_set :=
  try# n := UserCount else λ _, problem 500 "internal" "setup status failed";
  let# enabled := hget (λ s, bootstrapAllowed s r) in
  hreply (write 200 (SetupStatus (n =? 0) enabled)).

Definition setup e r : H Empty_set :=
  let# allowed := hget (λ s, bootstrapAllowed s r) in
  reply_if negb allowed
    with problem 403 "setup_disabled" "initial web setup is not enabled for this request";
  input# input := decodeLenient (A := SetupInput) r
    else problem 400 "invalid_request" "invalid setup request payload";
  reply_if TrimSpace (suUsername input) =s ""
    with problem 400 "invalid_request" "username and password are required";
  match HashPassword argon2id (salt e) (suPassword input) with
  | Err msg => hreply (problem 400 "invalid_password" msg)
  | Ok ph =>
    try# u := CreateInitialAdmin (rnd e 0) (now e 0) (TrimSpace (suUsername input)) ph
      else problem 409 "setup_complete";
    let# ttl := hget (λ s, ttl (static s)) in
    try# token := CreateSession (token_rnd e) (rnd e 1) (now e 1) (now e 2) (ID u) ttl
      else λ _, problem 500 "internal" "session creation failed";
    do# audit (now e 3) (ID u) "setup.complete" (ID u) (RemoteAddr r) "";
    hreply (write 201 (NewSession token (Seconds ttl) u))
  end.

(** ** Log-in *)

Definition session_cookie (token : string) (ttl now : Z) : Cookie :=
  mkCookie sessionCookieName token "/" (Seconds ttl) (Some (now + ttl)) true true true.

Definition login e r : H Empty_set :=
  input# input := decode (A := LoginInput) r else problem 400 "invalid_request" "invalid JSON";
  let# found := hstore (Authenticate (lgUsername input)) in
  let refuse :=
    do# audit (now e 0) "" "login.failed" (lgUsername input) (RemoteAddr r) "";
    hreply (problem 401 "invalid_credentials" "invalid credentials") in
  match found with
  | Err _ => refuse
  | Ok (u, ph) =>
    if negb (VerifyPassword argon2id ph (lgPassword input)) || Disabled u then refuse
    else
      reply_if lgRemember input && negb (secureRequest r)
        with problem 400 "https_required" "remember me requires HTTPS";
      let# short := hget (λ s, ttl (static s)) in
      let ttl := if lgRemember input then rememberSessionTTL else short in
      try# token := CreateSession (token_rnd e) (rnd e 0) (now e 1) (now e 2) (ID u) ttl
        else λ _, problem 500 "internal" "session creation failed";
      do# audit (now e 4) (ID u) "login" "" (RemoteAddr r) "";
      let answer := write 200 (NewSession token (Seconds ttl) u) in
      hreply (if lgRemember input then set_cookie (session_cookie token ttl (now e 3)) answer
              else answer)
  end.

(** ** Enrollment *)

Definition enroll e r : H Empty_set :=
  let refused := problem 400 "invalid_enrollment" "name and Ed25519 public_key are required" in
  input# input := decode (A := EnrollInput) r else refused;
  reply_if (enName input =s "") || negb (len (enPublicKey input) =? PublicKeySize) with refused;
  let# network := hget (λ s, network (static s)) in
  try# d := JoinDevice (rnd e 0) (now e 0) (now e 1) (enToken input) (enName input) (enOS input)
              (enArch input) (enVersion input) network (enPublicKey input)
    else problem 403 "enrollment_rejected";
  do# audit (now e 2) (dUserID d) "device.join" (dID d) (RemoteAddr r) "";
  hreply (write 201 (OneDevice d)).

(** ** Sessions *)

Definition logout e r : H Empty_set :=
  do# hstore (DeleteSession (authToken r));
  hreply (set_cookie (mkCookie sessionCookieName "" "/" (-1) None true (secureRequest r) true)
            (write_header 204)).

(** ** Devices *)

Definition list_devices u : H Empty_set :=
  permit u "device.view" (
    let# v := hstore (if Role u =s Member then ListDevicesByUser (ID u) else ListDevices) in
    let# s := hget (λ s, s) in
    hreply (respond AllDevices (match v with Ok l => Ok (setDevicePresence s l) | Err msg => Err msg end))).

Definition rename_part e r u (id : string) (name : option string) : H unit :=
  match name with
  | None => hret tt
  | Some name =>
    try# _ := RenameDevice id name else problem 400 "rename_failed";
    audit (now e 0) (ID u) "device.rename" id (RemoteAddr r) ""
  end.
Definition address_part e r u (id : string) (ip : option string) : H unit :=
  match ip with
  | None => hret tt
  | Some ip =>
    let# c := hget static in
    try# _ := SetDeviceVirtualIP id ip (network c) (first_part x2f (adapterAddress c))
      else problem 400 "ip_assignment_failed";
    audit (now e 1) (ID u) "device.ip.assign" id (RemoteAddr r) ip
  end.
Definition patch_device e r u (path : string) : H Empty_set :=
  permit u "device.rename" (
    let id := trim_prefix path "devices/" in
    input# input := decode (A := DevicePatch) r
      else problem 400 "invalid_request" "invalid JSON";
    reply_if is_none (dpName input) && is_none (dpVirtualIP input)
      with problem 400 "invalid_request" "name or virtual IP is required";
    reply_if negb (is_none (dpVirtualIP input)) && negb (Allowed (Role u) "server.configure")
      with problem 403 "forbidden" "role does not allow static IP assignment";
    do# rename_part e r u id (dpName input);
    do# address_part e r u id (dpVirtualIP input);
    hreply (write 200 (Status_ "updated"))).

Definition revoke_device e r u (path : string) : H Empty_set :=
  permit u "device.revoke" (
    let id := trim_prefix path "devices/" in
    try# _ := RevokeDevice id else problem 500 "internal";
    do# audit (now e 0) (ID u) "device.revoke" id (RemoteAddr r) "";
    hreply (write_header 204)).

(** ** Settings *)

Definition get_settings u : H Empty_set :=
  permit u "server.configure" (let# v := hget serverSettings in hreply (write 200 (Settings v))).

(** The port part, which runs when one of the two is given. *)
Definition ports_part (input : SettingsPatch) : H unit :=
  if is_none (spAPI input) && is_none (spTunnel input) then hret tt
  else
    let# p := hget ports in
    let api := default (apiPort p) (spAPI input) in
    let tunnel := default (tunnelPort p) (spTunnel input) in
    match validatePorts api tunnel with
    | Some msg => hreply (problem 400 "invalid_port_configuration" msg)
    | None =>
      let# err := hrun (updatePorts api tunnel) in
      match err with
      | Some _ =>
        hreply (problem 500 "port_configuration_save_failed" "port configuration could not be saved")
      | None => hret tt
      end
    end.

Definition set_recording (b : bool) (s : Control F P) : Control F P :=
  set_world (mkWorld (store (world s)) b (flowHistoryMB (world s))) s.
Definition set_limit (mb : Z) (s : Control F P) : Control F P :=
  set_world (mkWorld (store (world s)) (flowHistoryOn (world s)) mb) s.

(** [s.traffic.FlushHistory()], before the recording is switched on. *)
Definition flush_part e (input : SettingsPatch) : H unit :=
  let# on := hget (λ s, flowHistoryOn (world s)) in
  if bool_decide (spEnabled input = Some true) && negb on then
    let# err := hrun (λ s, let '(err, m, w) := FlushHistory (now e 0) (traffic s) (world s) in
                           (err, set_world w (set_traffic m s))) in
    match err with
    | Some _ =>
      hreply (problem 500 "flow_history_flush_failed" "pending flow metadata could not be finalized")
    | None => hret tt
    end
  else hret tt.

Definition setting_values (ping : option Z) (input : SettingsPatch) : gmap string string :=
  let put k (o : option string) (m : gmap string string) :=
    match o with Some v => <[k := v]> m | None => m end in
  put "flow_history_limit_mb" (FormatInt <$> spLimit input)
    (put "flow_history_enabled" (FormatBool <$> spEnabled input)
      (put "ping_interval" (DurationString <$> ping) ∅)).

(** The end of the request, once the values are stored. *)
Definition trim_part (mb : Z) : H unit :=
  do# hupd (set_limit mb);
  try# _ := TrimFlowHistory (i64 (mb * 1000000))
    else λ _, problem 500 "flow_history_trim_failed"
                "flow history could not be trimmed to the new limit";
  hret tt.
Definition apply_part (values : gmap string string) (input : SettingsPatch) : H unit :=
  do# hupd (λ s, match values !! "ping_interval" with
                 | Some v => set_ping (default 0 (ParseDuration v)) s
                 | None => s
                 end);
  do# hupd (λ s, match spEnabled input with Some b => set_recording b s | None => s end);
  match spLimit input with None => hret tt | Some mb => trim_part mb end.

(** From the transaction that stores the values on. *)
Definition store_part e (ping : option Z) (input : SettingsPatch) : H unit :=
  let values := setting_values ping input in
  let# was := hget (λ s, flowHistoryOn (world s)) in
  do# hupd (λ s, if bool_decide (spEnabled input = Some false) then set_recording false s else s);
  let# saved := hstore (SetSettings (now e 1) values) in
  match saved with
  | Err _ =>
    do# hupd (set_recording was);
    hreply (problem 500 "internal" "settings could not be saved")
  | Ok _ => apply_part values input
  end.

Definition settings_detail (s : Control F P) : string :=
  "flow_history_enabled=" +:+ FormatBool (flowHistoryOn (world s)) +:+
  " flow_history_limit_mb=" +:+ FormatInt (flowHistoryMB (world s)).

Definition patch_settings e r u : H Empty_set :=
  permit u "server.configure" (
    input# input := decode (A := SettingsPatch) r
      else problem 400 "invalid_request" "invalid JSON";
    reply_if is_none (spPing input) && is_none (spEnabled input) && is_none (spLimit input)
             && is_none (spAPI input) && is_none (spTunnel input)
      with problem 400 "invalid_request" "at least one setting is required";
    (** [time.Duration(n) * time.Second] wraps around. *)
    let ping := (λ n, i64 (n * Second)) <$> spPing input in
    reply_if negb (default true (validPingInterval <$> ping))
      with problem 400 "invalid_ping_interval" "ping interval must be between 5 and 3600 seconds";
    reply_if negb (default true (validFlowHistoryLimit <$> spLimit input))
      with problem 400 "invalid_flow_history_limit"
             "flow history limit must be between 1 and 10240 MB";
    do# ports_part input;
    do# flush_part e input;
    do# store_part e ping input;
    let# detail := hget settings_detail in
    do# audit (now e 2) (ID u) "server.settings.update" "server" (RemoteAddr r) detail;
    let# v := hget serverSettings in
    hreply (write 200 (Settings v))).

(** ** Users *)

Definition list_users u : H Empty_set :=
  permit u "user.view" (let# v := hstore Users in hreply (respond AllUsers v)).

Definition createUser e r (actor : User) : H Empty_set :=
  input# input := decode (A := UserInput) r else problem 400 "invalid_request" "invalid JSON";
  match HashPassword argon2id (salt e) (uiPassword input) with
  | Err msg => hreply (problem 400 "invalid_password" msg)
  | Ok ph =>
    try# u := CreateUser (rnd e 0) (now e 0) (uiUsername input) ph (uiRole input)
      else problem 400 "user_failed";
    do# audit (now e 1) (ID actor) "user.create" (ID u) (RemoteAddr r) "";
    hreply (write 201 (OneUser u))
  end.

Definition updateUserPassword e r (actor : User) (userID : string) : H Empty_set :=
  input# input := decode (A := PasswordInput) r else problem 400 "invalid_request" "invalid JSON";
  match HashPassword argon2id (salt e) (piPassword input) with
  | Err msg => hreply (problem 400 "invalid_password" msg)
  | Ok ph =>
    try# _ := UpdateUserPassword userID ph
      else λ msg, if msg =s ErrNoRows then problem 404 "user_not_found" "user not found"
                  else problem 500 "password_update_failed" "password could not be updated";
    do# audit (now e 0) (ID actor) "user.password.update" userID (RemoteAddr r) "sessions revoked";
    hreply (write 200 (Status_ "updated"))
  end.

Definition not_found : Response := problem 404 "not_found" "endpoint not found".

Definition put_password e r u (path : string) : H Empty_set :=
  permit u "user.password.update" (
    match split x2f path with
    | [_; id; last] =>
      reply_if (id =s "") || negb (last =s "password") with not_found;
      updateUserPassword e r u id
    | _ => hreply not_found
    end).

Definition delete_user_request e r u (path : string) : H Empty_set :=
  permit u "user.delete" (
    let id := trim_prefix path "users/" in
    reply_if id =s ID u with problem 400 "self_delete" "you cannot delete your active account";
    try# _ := DeleteUser id else problem 409 "delete_failed";
    do# audit (now e 0) (ID u) "user.delete" id (RemoteAddr r) "";
    hreply (write_header 204)).

Definition patch_user e r u (path : string) : H Empty_set :=
  permit u "user.create" (
    let id := trim_prefix path "users/" in
    reply_if id =s ID u
      with problem 400 "self_update" "use another administrator to change your active account";
    input# input := decode (A := UserPatch) r else problem 400 "invalid_request" "invalid JSON";
    try# _ := UpdateUser id (upDisabled input) (upRole input) else problem 400 "user_update_failed";
    do# audit (now e 0) (ID u) "user.update" id (RemoteAddr r) (upRole input);
    hreply (write 200 (Status_ "updated"))).

(** ** Tokens *)

Definition list_tokens u : H Empty_set :=
  permit u "token.view" (let# v := hstore ListTokens in hreply (respond AllTokens v)).

Definition createToken e r u : H Empty_set :=
  input# input := decode (A := TokenInput) r else problem 400 "invalid_request" "invalid JSON";
  match ParseDuration (tiExpires input) with
  | None => hreply (problem 400 "invalid_duration" "expires must be a duration")
  | Some ttl =>
    try# (t, v) := CreateEnrollmentToken (token_rnd e) (rnd e 0) (now e 0) (now e 1)
                     (tiUserID input) ttl (tiMaxUses input)
      else problem 400 "token_failed";
    do# audit (now e 2) (ID u) "token.create" (tID t) (RemoteAddr r) "";
    hreply (write 201 (NewToken v t))
  end.

Definition revoke_token e r u (path : string) : H Empty_set :=
  permit u "token.revoke" (
    let id := trim_prefix path "tokens/" in
    try# _ := RevokeToken id else problem 500 "internal";
    do# audit (now e 0) (ID u) "token.revoke" id (RemoteAddr r) "";
    hreply (write_header 204)).

(** ** Status, audit log, commands *)

Definition or_empty {A} (r : result (list A)) : list A :=
  match r with Ok l => l | Err _ => [] end.

Definition server_status e : H Empty_set :=
  let# ds := hstore ListDevices in
  let# us := hstore Users in
  let# cs := hstore (ListCommands (now e 0) 500) in
  let# s := hget (λ s, s) in
  let ds := or_empty ds in
  let online := len (List.filter (λ d, negb (Revoked d) && deviceOnline s (dID d)) ds) in
  let active := len (List.filter (λ c, is_active (Status c)) (or_empty cs)) in
  let c := static s in
  hreply (write 200 (StatusPage (mkStatus (Seconds (Sub (now e 1) (started c))) (len ds)
    (len (or_empty us)) online (len ds - online) active (adapterName c) (adapterAddress c)
    (negb (adapterName c =s "")) (Seconds (pingIntervalNS s))))).

Definition list_commands e u : H Empty_set :=
  permit u "device.view" (
    let# v := hstore (if Role u =s Member then ListCommandsByUser (now e 0) (ID u) 200
                      else ListCommands (now e 0) 200) in
    hreply (respond AllCommands v)).

Definition list_audit u : H Empty_set :=
  permit u "audit.view" (let# v := hstore (ListAudit 200) in hreply (respond AuditTrail v)).

Definition command_type (action : string) : string :=
  if action =s "disconnect" then "client.reconnect"
  else if (action =s "restart") || (action =s "shutdown") then "system." +:+ action
  else "client." +:+ action.

Definition command e r u (path : string) : H Empty_set :=
  match split x2f path with
  | [_; device; action] =>
    permit u ("device." +:+ action) (
      let typ := command_type action in
      try# c := CreateCommand (rnd e 0) (now e 0) (now e 1) (ID u) device typ (2 * Minute)
        else problem 400 "command_failed";
      do# audit (now e 2) (ID u) typ device (RemoteAddr r) "";
      do# hupd (notifyCommand device);
      hreply (write 202 (OneCommand c)))
  | _ => hreply not_found
  end.

(** ** The network's flows *)

Definition network_node (s : Control F P) (d : Device) : networkNode :=
  mkNode (dID d) (dName d) (VirtualIP d) "device" (deviceOnline s (dID d)) (OS d +:+ " / " +:+ Arch d).

Definition networkFlows e : H Empty_set :=
  try# devices := ListDevices
    else λ _, problem 500 "network_flows_failed" "network flow data could not be loaded";
  let# s := hget (λ s, s) in
  let server := mkNode "server" "TyxNet Server" (first_part x2f (adapterAddress (static s)))
                  "server" true "" in
  let nodes := server :: map (network_node s) (List.filter (λ d, negb (Revoked d)) devices) in
  let# snapshot := hrun (λ s, let '(sn, m) := Snapshot (now e 0) (traffic s) in
                              (sn, set_traffic m s)) in
  hreply (write 200 (NetworkFlows snapshot nodes)).

(** The time of a query parameter: absent, wrong or present. *)
Definition query_time (raw : string) : result (option Z) :=
  if raw =s "" then Ok None
  else match ParseRFC3339 raw with Some t => Ok (Some t) | None => Err "not an RFC3339 timestamp" end.

Definition endpoint_ips (search : string) (devices : list Device) : list string :=
  map VirtualIP (List.filter (λ d, contains (ToLower (dName d)) search) devices).

Definition networkFlowHistory r : H Empty_set :=
  let q := Query r in
  reply_if 128 <? slen (q "q")
    with problem 400 "invalid_flow_history_search" "flow history search must not exceed 128 characters";
  let protocol := if q "protocol" =s "" then "all" else q "protocol" in
  reply_if negb (bool_decide (protocol ∈ ["all"; "tcp"; "udp"; "icmp"; "other"]))
    with problem 400 "invalid_flow_history_protocol" "protocol must be all, tcp, udp, icmp, or other";
  let sort := if q "sort" =s "" then "newest" else q "sort" in
  reply_if negb (bool_decide (sort ∈ ["newest"; "oldest"; "bytes"; "packets"]))
    with problem 400 "invalid_flow_history_sort" "sort must be newest, oldest, bytes, or packets";
  match query_time (q "from"), query_time (q "to") with
  | Err _, _ => hreply (problem 400 "invalid_flow_history_from" "from must be an RFC3339 timestamp")
  | _, Err _ => hreply (problem 400 "invalid_flow_history_to" "to must be an RFC3339 timestamp")
  | Ok from, Ok to =>
    reply_if match from, to with Some a, Some b => After a b | _, _ => false end
      with problem 400 "invalid_flow_history_range" "from must not be later than to";
    let search := ToLower (TrimSpace (q "q")) in
    let# devices := (if search =s "" then hret (Ok []) else hstore ListDevices) in
    match devices with
    | Err _ =>
      hreply (problem 500 "flow_history_failed" "flow history device names could not be loaded")
    | Ok devices =>
      try# page := ListFlowHistory (mkFlowQuery (q "q") (endpoint_ips search devices) protocol from to
                                      sort 500)
        else λ _, problem 500 "flow_history_failed" "flow history could not be loaded";
      let# w := hget world in
      hreply (write 200 (NetworkHistory page (flowHistoryOn w) (flowHistoryMB w)))
    end
  end.

Definition delete_history e r u : H Empty_set :=
  permit u "server.configure" (
    try# count := DeleteFlowHistory
      else λ _, problem 500 "flow_history_delete_failed" "flow history could not be deleted";
    do# audit (now e 0) (ID u) "network.flow_history.delete" "flow_history" (RemoteAddr r)
          ("records=" +:+ FormatInt count);
    hreply (write_header 204)).

(** ** The dispatcher *)

Definition api_path (r : Request) : string := trim_prefix (Path r) "/api/v1/".

Definition api e r u : H Empty_set :=
  let m := Method r in
  let path := api_path r in
  if (m =s "POST") && (path =s "auth/logout") then logout e r
  else if (m =s "GET") && (path =s "auth/me") then hreply (write 200 (OneUser u))
  else if (m =s "GET") && (path =s "devices") then list_devices u
  else if (m =s "PATCH") && has_prefix path "devices/" then patch_device e r u path
  else if (m =s "GET") && (path =s "server/settings") then get_settings u
  else if (m =s "PATCH") && (path =s "server/settings") then patch_settings e r u
  else if (m =s "GET") && (path =s "network/flows/history")
  then permit u "network.flow.view" (networkFlowHistory r)
  else if (m =s "DELETE") && (path =s "network/flows/history") then delete_history e r u
  else if (m =s "GET") && (path =s "network/flows")
  then permit u "network.flow.view" (networkFlows e)
  else if (m =s "GET") && (path =s "server/startup") then permit u "server.configure" (startup_status Startup)
  else if (m =s "PATCH") && (path =s "server/startup")
  then permit u "server.configure" (updateStartup e r u)
  else if (m =s "GET") && (path =s "users") then list_users u
  else if (m =s "POST") && (path =s "users") then permit u "user.create" (createUser e r u)
  else if (m =s "PUT") && has_prefix path "users/" && has_suffix path "/password"
  then put_password e r u path
  else if (m =s "DELETE") && has_prefix path "users/" then delete_user_request e r u path
  else if (m =s "PATCH") && has_prefix path "users/" then patch_user e r u path
  else if (m =s "GET") && (path =s "tokens") then list_tokens u
  else if (m =s "POST") && (path =s "tokens") then permit u "token.create" (createToken e r u)
  else if (m =s "DELETE") && has_prefix path "tokens/" then revoke_token e r u path
  else if (m =s "DELETE") && has_prefix path "devices/" then revoke_device e r u path
  else if (m =s "GET") && (path =s "server/status") then server_status e
  else if (m =s "GET") && (path =s "commands") then list_commands e u
  else if (m =s "GET") && (path =s "audit") then list_audit u
  else if (m =s "POST") && (has_suffix path "/restart" || has_suffix path "/shutdown"
                            || has_suffix path "/disconnect")
  then command e r u path
  else hreply not_found.

Definition authorized e r (next : User → H Empty_set) : H Empty_set :=
  try# u := SessionUser (auth_now e) (authToken r)
    else λ _, problem 401 "unauthorized" "valid session required";
  next u.

Definition dashboard : H Empty_set :=
  match web_index with
  | None => hreply (mkResponse 500 [("Content-Type", "text/plain; charset=utf-8")] []
                      (Some (Page (s2b "web UI unavailable"))))
  | Some b => hreply (mkResponse 200 [("Content-Type", "text/html; charset=utf-8");
                                      ("Cache-Control", "no-store")] [] (Some (Page b)))
  end.
End api.
