(* ===== verification/ControlStream.v ===== *)
(** * ControlStream: devices and the whole handler ([internal/control/server.go])

    The device's side of the server: the challenge, the proof that opens an
    event stream, the stream's loop and the results of commands; and
    [Handler], the patterns of the multiplexer behind the rate limiter.

    [deviceConnect] returns when its stream ends: its part up to the loop is
    one definition, whose outcome is the open stream, and each pass of the loop
    is [stream_wake] on the channel that woke it.  [close_stream] is its
    deferred calls.  [ctl_step] is the server at work: requests, passes of the
    open streams, the data plane's use of the monitor, and the two commands of
    [cmd/tyxnet-server] that write to the store, in any order. *)
From S2P Require Import Prelude Text Net Clock Calendar Http Traffic Duration Protocol Crypto.
From S2P Require Import Session Database Accounts Devices CommandStore History.
From S2P Require Import Auth Control ControlAPI.
From Stdlib Require Import Init.Byte Strings.Byte.

Section streams.
Context `{Primitives} {F P : Type} `{Inputs} `{Externals F} `{DataPlane P}.
Implicit Types (e : Env) (r : Request) (u : User) (st : stream).
Abbreviation H := (H F P).
Abbreviation Control := (Control F P).

(** ** Challenges *)

Definition deviceChallenge e r : H Empty_set :=
  input# input := decode (A := ChallengeInput) r
    else problem 400 "invalid_request" "device_id required";
  let device := chDeviceID input in
  try# _ := DevicePublicKey device
    else λ _, problem 403 "unknown_device" "device is unknown or revoked";
  match nonce_rnd e with
  | None => hreply (problem 500 "internal" "random generation failed")
  | Some nonce =>
    do# hupd (λ s, set_challenges
                (<[device := mkChallenge nonce (now e 0 + 30 * Second)]> (challenges s)) s);
    hreply (write 200 (Challenge (EncodeToString nonce)))
  end.

Definition bad_proof : Response := problem 403 "authentication_failed" "invalid device proof".

(** [time.Now().After(c.expires)], for an absent challenge too. *)
Definition challenge_fresh (now : Z) (c : option challenge) : option (list byte) :=
  match c with
  | Some c => if After now (chExpires c) then None else Some (chNonce c)
  | None => None
  end.

(** ** Commands on a stream *)

Definition command_event (c : Command) : Event :=
  EvCommand (cmID c) (cmType c) (cmCreatedAt c) (ExpiresAt c).

(** The loop of [writePendingCommands]: the events written, and whether it
    returns without an error. *)
Fixpoint write_commands e (i : nat) (device : string) (l : list Command) : H (list Event * bool) :=
  match l with
  | [] => hret ([], true)
  | c :: l =>
    let# marked := hstore (MarkCommandDelivered (now e i) (cmID c) device) in
    match marked with
    | Err _ => write_commands e (S i) device l
    | Ok _ =>
      if wrote e i then
        let# (events, ok) := write_commands e (S i) device l in
        hret (command_event c :: events, ok)
      else hret ([], false)
    end
  end.
Definition writePendingCommands e (i : nat) (device : string) : H (list Event * bool) :=
  let# pending := hstore (PendingCommandsForDevice (now e i) device 20) in
  match pending with
  | Err _ => hret ([], false)
  | Ok l => write_commands e (S i) device l
  end.

(** ** Streams *)

(** The deferred calls, the last one first. *)
Definition close_stream st (s : Control) : Control :=
  let s := deviceDisconnected (stDevice st) s in
  match stData st, dataPlane s with
  | Some b, Some p => set_dataPlane (Some (dp_remove (stDevice st) (bSessionID b) p)) s
  | _, _ => s
  end.
Definition end_stream st (events : list Event) : H Empty_set :=
  do# hupd (close_stream st); hstop (Stream None events).

(** [if s.dataPlane != nil && secureRequest(r)]: the session for the tunnel. *)
Definition data_session e r (d : Device) (s : Control) : option (result Bootstrap) * Control :=
  match dataPlane s with
  | None => (None, s)
  | Some p =>
    if secureRequest r then
      let '(b, p) := dp_register (dp_secret e) (dp_draws e) (now e 3) (dID d)
                       (ParseIP (VirtualIP d)) p in
      (Some b, set_dataPlane (Some p) s)
    else (None, s)
  end.

(** From the first lines of the stream to the loop. *)
Definition open_stream e st : H Empty_set :=
  do# hupd (deviceConnected (stDevice st));
  let# s := hget (λ s, s) in
  let hello := EvConnected (stIP st) (network (static s)) (Seconds (pingIntervalNS s)) (stData st) in
  if negb (wrote e 0) then end_stream st []
  else
    let# (events, ok) := writePendingCommands e 4 (stDevice st) in
    if negb ok then end_stream st (hello :: events)
    else
      do# hupd (commandSignal (stDevice st));
      hstop (Stream (Some st) (hello :: events)).

(** From the good proof on: the headers of the stream are set. *)
Definition connect_open e r (device : string) : H Empty_set :=
  reply_if negb (flusher e)
    with no_store (problem 500 "stream_unsupported" "streaming unsupported");
  try# d := GetDevice device
    else λ _, no_store (problem 500 "internal" "device state unavailable");
  let# data := hrun (data_session e r d) in
  match data with
  | Some (Err _) =>
    hreply (no_store (problem 500 "data_plane_failed" "data-plane session unavailable"))
  | Some (Ok b) => open_stream e (mkStream device (VirtualIP d) (Some b))
  | None => open_stream e (mkStream device (VirtualIP d) None)
  end.

Definition deviceConnect e r : H Empty_set :=
  input# input := decode (A := ConnectInput) r
    else problem 400 "invalid_request" "invalid proof";
  let device := coDeviceID input in
  let# c := hrun (take_challenge device) in
  let# key := hstore (DevicePublicKey device) in
  match challenge_fresh (now e 0) c, key, DecodeString (coSignature input) with
  | Some nonce, Ok key, Some sig =>
    reply_if negb (ed25519_verify key nonce sig) with bad_proof;
    do# hstore (TouchDevice (now e 1) device);
    do# audit (now e 2) device "device.connect" device (RemoteAddr r) "";
    connect_open e r device
  | _, _, _ => hreply bad_proof
  end.

(** The channels of the loop's [select]. *)
Inductive wake := WakeDone | WakeExpiry | WakePing | WakeTick | WakeSignal.

Definition stream_commands e st : H Empty_set :=
  let# (events, ok) := writePendingCommands e 0 (stDevice st) in
  if ok then hstop (Stream (Some st) events) else end_stream st events.

Definition stream_ping e st : H Empty_set :=
  let# current := hstore (GetDevice (stDevice st)) in
  match current with
  | Err _ => end_stream st []
  | Ok current =>
    if negb (VirtualIP current =s stIP st) || negb (wrote e 0) then end_stream st []
    else
      let# s := hget (λ s, s) in
      do# hstore (TouchDevice (now e 1) (stDevice st));
      hstop (Stream (Some st)
               [EvPing (VirtualIP current) (network (static s)) (Seconds (pingIntervalNS s))])
  end.

Definition stream_wake e st (k : wake) : H Empty_set :=
  match k with
  | WakeDone | WakeExpiry => end_stream st []
  | WakePing => stream_ping e st
  | WakeTick => stream_commands e st
  | WakeSignal =>
    do# hupd (λ s, set_signals (<[stDevice st := false]> (commandSignals s)) s);
    stream_commands e st
  end.

(** When the channel can deliver: the timers whenever the clock says so. *)
Definition can_wake st (k : wake) (s : Control) : Prop :=
  match k with
  | WakeDone | WakePing | WakeTick => True
  | WakeExpiry => stData st ≠ None
  | WakeSignal => commandSignals s !! stDevice st = Some true
  end.

(** ** Results of commands *)

Definition deviceCommandResult e r (commandID : string) : H Empty_set :=
  let refused := problem 400 "invalid_command_result" "invalid command result" in
  input# input := decode (A := CommandResult) r else refused;
  reply_if (commandID =s "") || (4096 <? slen (crResult input)) || (4096 <? slen (crError input))
    with refused;
  let device := crDeviceID input in
  let# c := hrun (take_challenge device) in
  let# key := hstore (DevicePublicKey device) in
  let payload nonce := CommandResultSigningPayload nonce device commandID (crStatus input)
                         (crResult input) (crError input) in
  match challenge_fresh (now e 0) c, key, DecodeString (crSignature input) with
  | Some nonce, Ok key, Some sig =>
    match payload nonce with
    | Err _ => hreply bad_proof
    | Ok text =>
      reply_if negb (ed25519_verify key text sig) with bad_proof;
      try# _ := UpdateCommandResult (rnd e 0) (now e 1) (now e 2) commandID device (crStatus input)
                  (crResult input) (crError input)
        else problem 409 "command_result_rejected";
      do# audit (now e 3) device ("command." +:+ crStatus input) commandID (RemoteAddr r) "";
      hreply (write 200 (Status_ (crStatus input)))
    end
  | _, _, _ => hreply bad_proof
  end.

(** ** The multiplexer *)

Inductive target :=
  | THealth | TLogin | TSetupStatus | TSetup | TEnroll | TChallenge | TConnect
  | TResult (id : string) | TTray | TTrayStartup | TTrayQuit | TDashboard | TAssets | TApi
  | TRedirect (path : string) | TNotAllowed | TNotFound.

#[export] Instance target_eq_dec : EqDecision target.
Proof. solve_decision. Defined.

(** The patterns without wildcards. *)
Definition patterns : list (string * string * target) :=
  [("GET", "/healthz", THealth); ("POST", "/api/v1/auth/login", TLogin);
   ("GET", "/api/v1/setup/status", TSetupStatus); ("POST", "/api/v1/setup", TSetup);
   ("POST", "/api/v1/enroll", TEnroll); ("POST", "/control/v1/challenge", TChallenge);
   ("POST", "/control/v1/connect", TConnect); ("GET", "/api/tray", TTray);
   ("POST", "/api/tray/startup", TTrayStartup); ("POST", "/api/tray/quit", TTrayQuit);
   ("GET", "/", TDashboard)].

(** A pattern for GET matches HEAD as well. *)
Definition method_matches (pattern method : string) : bool :=
  (pattern =s method) || ((pattern =s "GET") && (method =s "HEAD")).

(** The [{id}] of "/control/v1/commands/{id}/result". *)
Definition result_id (path : string) : option string :=
  match split x2f path with
  | [""; "control"; "v1"; "commands"; id; "result"] => if id =s "" then None else Some id
  | _ => None
  end%string.

(** The most specific pattern, for a clean path. *)
Definition find_target (method path : string) : option target :=
  match find (λ '(m, p, _), method_matches m method && (p =s path)) patterns with
  | Some (_, _, t) => Some t
  | None =>
    match result_id path with
    | Some id => if method =s "POST" then Some (TResult id) else None
    | None =>
      if has_prefix path "/ui/" && method_matches "GET" method then Some TAssets
      else if has_prefix path "/api/v1/" then Some TApi
      else None
    end
  end.

(** Does the path match for another method? *)
Definition known_path (path : string) : bool :=
  existsb (λ '(_, p, _), p =s path) patterns || negb (is_none (result_id path))
  || has_prefix path "/ui/".

Definition mux (method path : string) : target :=
  let clean := if method =s "CONNECT" then path else cleanPath path in
  match find_target method clean with
  | Some t => if clean =s path then t else TRedirect clean
  | None =>
    let slash := clean +:+ "/" in
    if bool_decide (slash ∈ ["/api/v1/"; "/ui/"]) && negb (is_none (find_target method slash))
    then TRedirect slash
    else if negb (clean =s path) then TRedirect clean
    else if known_path clean || known_path slash then TNotAllowed else TNotFound
  end.

(** The multiplexer's own answers, without their texts. *)
Definition moved (path : string) : Response := mkResponse 301 [("Location", path)] [] None.

Definition dispatch e r : H Empty_set :=
  match mux (Method r) (Path r) with
  | THealth => hreply (write 200 (Status_ "ok"))
  | TLogin => login e r
  | TSetupStatus => setupStatus r
  | TSetup => setup e r
  | TEnroll => enroll e r
  | TChallenge => deviceChallenge e r
  | TConnect => deviceConnect e r
  | TResult id => deviceCommandResult e r id
  | TTray => trayStatus r
  | TTrayStartup => trayStartup e r
  | TTrayQuit => trayQuit r
  | TDashboard => dashboard
  | TAssets =>
    hreply (no_store (web_asset (trim_prefix (Path r) "/ui/")))
  | TApi => authorized e r (api e r)
  | TRedirect path => hreply (moved path)
  | TNotAllowed => hreply (write_header 405)
  | TNotFound => hreply (write_header 404)
  end.

Definition limited_reply : Response := problem 429 "rate_limited" "too many requests".

(** [securityHeaders(s.rateLimit(m))]. *)
Definition secured (o : Outcome) : Outcome :=
  match o with Reply a => Reply (securityHeaders a) | Stream st events => Stream st events end.
Definition serve e r (s : Control) : Outcome * Control :=
  let '(ok, s) := rateLimit (limit_now e) (RemoteAddr r) s in
  let '(o, s) := if ok then outcome (dispatch e r) s else (Reply limited_reply, s) in
  (secured o, s).

(** ** The server at work *)

Record run := mkRun { server : Control; streams : list stream }.

Definition opened (o : Outcome) : list stream :=
  match o with Stream (Some st) _ => [st] | _ => [] end.

(** The clock prints as times of four-digit years, and the random numbers drawn
    for sessions are unsigned 64-bit ones. *)
Definition sane_env e : Prop :=
  (∀ i, rfc_range (now e i + 2 * Minute)) ∧ Forall in_u64 (dp_draws e).

Inductive ctl_step `{!DataPlaneLaws P} : run → run → Prop :=
  | on_request e r s l o s' :
      sane_env e → serve e r s = (o, s') → ctl_step (mkRun s l) (mkRun s' (opened o ++ l))
  | on_wake e k st s l1 l2 o s' :
      sane_env e → can_wake st k s → outcome (stream_wake e st k) s = (o, s') →
      ctl_step (mkRun s (l1 ++ st :: l2)) (mkRun s' (l1 ++ opened o ++ l2))
  | on_packet t packet s l :
      ctl_step (mkRun s l) (mkRun (set_traffic (ObservePacket t packet (traffic s)) s) l)
  | on_flush b t err m w s l :
      flushHistory b t (traffic s) (world s) = (err, m, w) →
      ctl_step (mkRun s l) (mkRun (set_world w (set_traffic m s)) l)
  | on_plane p p' s l :
      dataPlane s = Some p → dp_ok p' → dp_sessions p' = dp_sessions p →
      ctl_step (mkRun s l) (mkRun (set_dataPlane (Some p') s) l)
  | on_admin rnd now name ph s l :
      ctl_step (mkRun s l)
        (mkRun (snd (hstore (CreateAdmin rnd now name ph) s)) l)
  | on_token tok rnd now1 now2 user ttl uses s l :
      ctl_step (mkRun s l)
        (mkRun (snd (hstore (CreateEnrollmentToken tok rnd now1 now2 user ttl uses) s)) l).
End streams.
