(* ===== verification/ControlEffects.v ===== *)
(** * ControlEffects: what the handlers do to the server, whatever they answer

    [heffect R m]: the states before and after [m] are related by the preorder
    [R].  The rules follow the structure of a handler; [handler_tac] applies
    them and leaves the calls of the store and the updates of fields to the
    relation at hand.  Three relations are followed through every handler: the
    store moves by the steps of [StoreSteps] ([moved]), the stored settings and
    the switches that mirror them stay ([same_switches]), and the presence
    counts and the data plane stay ([same_presence]). *)
From S2P Require Import Prelude Text Net Clock Calendar Http Traffic Duration Protocol Crypto.
From S2P Require Import Session Database Accounts Devices CommandStore History StoreSteps.
From S2P Require Import Auth Control ControlAPI ControlStream.
From Stdlib Require Import Init.Byte Strings.Byte.

(** ** Rules *)

Section rules.
Context {F P : Type}.
Implicit Types (s : Control F P).

Definition heffect {A} (R : relation (Control F P)) (m : H F P A) : Prop := ∀ s, R s (snd (m s)).

Lemma set_store_same s : set_world (set_store (store (world s)) (world s)) s = s.
Proof. by destruct s as [? [] ?]. Qed.

(** A step of a run: the part stops the handler, or the rest goes on. *)
Lemma hbind_cases {A} (m : H F P A) (k : A → H F P Empty_set) s o s' :
  outcome (hbind m k) s = (o, s') →
  m s = (inl o, s') ∨ ∃ a s1, m s = (inr a, s1) ∧ outcome (k a) s1 = (o, s').
Proof.
  unfold outcome, hbind. destruct (m s) as [[o1|a] s1] eqn:E; intros Ho; [simplify_eq; by left|].
  right. by exists a, s1.
Qed.

Section preorder.
Context (R : relation (Control F P)) `{!PreOrder R} {A B : Type}.

Lemma heffect_ret (a : A) : heffect R (hret a).
Proof. intros s. cbn. reflexivity. Qed.
Lemma heffect_stop (o : Outcome) : heffect R (hstop (A := A) o).
Proof. intros s. cbn. reflexivity. Qed.
Lemma heffect_reply (o : Response) : heffect R (hreply (A := A) o).
Proof. intros s. cbn. reflexivity. Qed.
Lemma heffect_get (f : Control F P → A) : heffect R (hget f).
Proof. intros s. cbn. reflexivity. Qed.
Lemma heffect_bind (m : H F P A) (k : A → H F P B) :
  heffect R m → (∀ a, heffect R (k a)) → heffect R (hbind m k).
Proof.
  intros Hm Hk s. unfold hbind. specialize (Hm s). destruct (m s) as [[o|a] s']; [done|].
  etrans; [exact Hm|apply Hk].
Qed.
Lemma heffect_try (m : M A) f (k : A → H F P B) :
  heffect R (hstore m) → (∀ a, heffect R (k a)) → heffect R (htry m f k).
Proof.
  intros Hm Hk s. unfold htry, hbind. specialize (Hm s). destruct (hstore m s) as [[o|[a|e]] s'];
    [done| |done]. etrans; [exact Hm|apply Hk].
Qed.
Lemma heffect_decode (v : option A) r (k : A → H F P B) :
  (∀ a, heffect R (k a)) → heffect R (hdecode v r k).
Proof. intros Hk. destruct v as [a|]; [apply Hk|]. intros s. cbn. reflexivity. Qed.
Lemma heffect_permit u p (k : H F P A) : heffect R k → heffect R (permit u p k).
Proof. intros Hk. unfold permit. case_match; [|done]. intros s. cbn. reflexivity. Qed.
Lemma heffect_tray r (k : H F P A) : heffect R k → heffect R (tray_guard r k).
Proof.
  intros Hk. unfold tray_guard. intros s. unfold hbind, hget. simpl.
  case_match; [|apply Hk]. cbn. reflexivity.
Qed.

Lemma outcome_effect (m : H F P Empty_set) : heffect R m → ∀ s, R s (snd (outcome m s)).
Proof. intros Hm s. specialize (Hm s). unfold outcome. by destruct (m s) as [[o|[]] s']. Qed.
End preorder.
End rules.

Ltac handler_tac tac :=
  repeat first
    [ progress cbv zeta
    | apply heffect_tray; [apply _|]
    | apply heffect_permit; [apply _|]
    | apply heffect_decode; [apply _|intros ?]
    | apply heffect_try; [apply _| |intros ?]
    | apply heffect_bind; [apply _| |intros ?]
    | apply heffect_reply; apply _
    | apply heffect_stop; apply _
    | apply heffect_ret; apply _
    | apply heffect_get; apply _
    | tac
    | match goal with |- heffect _ (match ?x with _ => _ end) => destruct x end ].

(** ** Calls of the store

    [calm]: the store moves by its own steps and the settings stay. *)

Definition same_settings (d d' : db) : Prop := settings d' = settings d.
#[export] Instance same_settings_preorder : PreOrder same_settings.
Proof. split; [done|]. intros a b c H1 H2. unfold same_settings in *. congruence. Qed.

Section calm.
Context `{Primitives}.

Definition calm (d d' : db) : Prop := rtc store_step d d' ∧ same_settings d d'.
#[export] Instance calm_preorder : PreOrder calm.
Proof.
  split; [intros d; by split|]. intros a b c [M1 S1] [M2 S2]. split; by etrans.
Qed.

(** A method that is one step of the store and whose statements leave the settings. *)
Lemma calm_step {A} (m : M A) :
  (∀ d, store_step d (snd (m d))) → effect same_settings m → effect calm m.
Proof. intros Hs Hm d. split; [apply rtc_once, Hs|apply Hm]. Qed.

Ltac loops := first
  [apply set_all_effect|apply insert_records_effect|apply delete_ids_effect];
  [apply _|intros ?; untouched].
Ltac settings_tac :=
  unfold CreateAdmin, CreateInitialAdmin, CreateUser, DeleteUser_tx, UpdateUser,
    UpdateUserPassword, CreateSession, DeleteSession, CreateEnrollmentToken, RevokeToken,
    ConsumeToken, Audit, JoinDevice_insert, RevokeDevice, RenameDevice, TouchDevice,
    SetDeviceVirtualIP, CreateCommand_insert, expire_pending, MarkCommandDelivered,
    UpdateCommandResult, expire_all, InsertFlowHistory, TrimFlowHistory, DeleteFlowHistory,
    trimFlowHistory;
  effect_tac ltac:(first [untouched | loops]).
Ltac calm_tac := apply calm_step; [intros ?; constructor|settings_tac].

Lemma calm_create_initial r n u p : effect calm (CreateInitialAdmin r n u p).
Proof. calm_tac. Qed.
Lemma calm_create_admin r n u p : effect calm (CreateAdmin r n u p).
Proof. calm_tac. Qed.
Lemma calm_create_user r n u p role : effect calm (CreateUser r n u p role).
Proof. calm_tac. Qed.
Lemma calm_update_user u b role : effect calm (UpdateUser u b role).
Proof. calm_tac. Qed.
Lemma calm_update_password u p : effect calm (UpdateUserPassword u p).
Proof. calm_tac. Qed.
Lemma calm_create_session r1 r2 n1 n2 u ttl : effect calm (CreateSession r1 r2 n1 n2 u ttl).
Proof. calm_tac. Qed.
Lemma calm_delete_session v : effect calm (DeleteSession v).
Proof. calm_tac. Qed.
Lemma calm_create_token r1 r2 n1 n2 u ttl mx : effect calm (CreateEnrollmentToken r1 r2 n1 n2 u ttl mx).
Proof. calm_tac. Qed.
Lemma calm_revoke_token t : effect calm (RevokeToken t).
Proof. calm_tac. Qed.
Lemma calm_consume_token n v : effect calm (ConsumeToken n v).
Proof. calm_tac. Qed.
Lemma calm_audit n a b c x y : effect calm (Audit n a b c x y).
Proof. calm_tac. Qed.
Lemma calm_join_insert r n u ip a b c x k : effect calm (JoinDevice_insert r n u ip a b c x k).
Proof. calm_tac. Qed.
Lemma calm_revoke_device i : effect calm (RevokeDevice i).
Proof. calm_tac. Qed.
Lemma calm_rename_device i n : effect calm (RenameDevice i n).
Proof. calm_tac. Qed.
Lemma calm_touch n i : effect calm (TouchDevice n i).
Proof. calm_tac. Qed.
Lemma calm_set_ip i ip n sv : effect calm (SetDeviceVirtualIP i ip n sv).
Proof. calm_tac. Qed.
Lemma calm_delivered n c v : effect calm (MarkCommandDelivered n c v).
Proof. calm_tac. Qed.
Lemma calm_result r n1 n2 c v st t x : effect calm (UpdateCommandResult r n1 n2 c v st t x).
Proof. calm_tac. Qed.
Lemma calm_trim mx : effect calm (TrimFlowHistory mx).
Proof. calm_tac. Qed.
Lemma calm_insert_flows rs mx : effect calm (InsertFlowHistory rs mx).
Proof. calm_tac. Qed.
Lemma calm_delete_flows : effect calm (DeleteFlowHistory).
Proof. calm_tac. Qed.
Lemma calm_delete_tx u : effect calm (DeleteUser_tx u).
Proof. calm_tac. Qed.
Lemma calm_expire_all n : effect calm (expire_all n).
Proof. calm_tac. Qed.
Lemma calm_expire_pending n v : effect calm (expire_pending n v).
Proof. calm_tac. Qed.
Lemma calm_create_insert r n1 n2 u d t ttl :
  command_allowed t = true → rfc_range (n2 + ttl) → effect calm (CreateCommand_insert r n1 n2 u d t ttl).
Proof. intros Ht Hr. apply calm_step; [intros ?; by apply st_create_command|settings_tac]. Qed.

#[local] Opaque ConsumeToken JoinDevice_insert DeleteUser_tx expire_all expire_pending
  CreateCommand_insert.

Ltac several_tac := effect_tac ltac:(first [apply calm_consume_token | apply calm_join_insert
  | apply calm_delete_tx | apply calm_expire_all | apply calm_expire_pending]).

Lemma calm_delete_user u : effect calm (DeleteUser u).
Proof. unfold DeleteUser. several_tac. Qed.
Lemma calm_join r n1 n2 t a b c x nw k : effect calm (JoinDevice r n1 n2 t a b c x nw k).
Proof. unfold JoinDevice, nextIP. several_tac. Qed.
Lemma calm_pending n v l : effect calm (PendingCommandsForDevice n v l).
Proof. unfold PendingCommandsForDevice, select_pending. cbv zeta. several_tac. Qed.
Lemma calm_list_commands n l : effect calm (ListCommands n l).
Proof. unfold ListCommands, listCommands. cbv zeta. several_tac. Qed.
Lemma calm_list_by_user n u l : effect calm (ListCommandsByUser n u l).
Proof. unfold ListCommandsByUser, listCommands. cbv zeta. several_tac. Qed.
Lemma calm_create_command r n1 n2 u d t ttl :
  rfc_range (n2 + ttl) → effect calm (CreateCommand r n1 n2 u d t ttl).
Proof.
  intros Hr. unfold CreateCommand. destruct (command_allowed t) eqn:Ht; cbn [negb]; [|several_tac].
  several_tac. by apply calm_create_insert.
Qed.
End calm.

Create HintDb calm.
#[export] Hint Resolve calm_create_initial calm_create_admin calm_create_user calm_update_user calm_update_password calm_create_session calm_delete_session calm_create_token calm_revoke_token calm_consume_token calm_audit calm_join_insert calm_revoke_device calm_rename_device calm_touch calm_set_ip calm_delivered calm_result calm_trim calm_insert_flows calm_delete_flows calm_delete_tx calm_expire_all calm_expire_pending calm_delete_user calm_join calm_pending
  calm_list_commands calm_list_by_user : calm.

(** ** The monitor keeps its sink *)

Definition sink_ok (m : TrafficMonitor World) : Prop := historySink m = Some persistFlowHistory.

Lemma sink_prune t m : sink_ok m → sink_ok (prune t m).
Proof. unfold sink_ok. by rewrite (proj2 (proj2 (proj2 (proj2 (prune_spec t m))))). Qed.
Lemma sink_snapshot t m : sink_ok m → sink_ok (snd (Snapshot t m)).
Proof. rewrite Snapshot_monitor. apply sink_prune. Qed.
Lemma sink_packet t packet m : sink_ok m → sink_ok (ObservePacket t packet m).
Proof.
  intros Hm. unfold ObservePacket, observe. cbv zeta. repeat case_match; try done;
    apply (sink_prune (Unix t)) in Hm; exact Hm.
Qed.

Lemma persist_calm `{Primitives} records (w : World) :
  calm (store w) (store (snd (persistFlowHistory records w))).
Proof.
  unfold persistFlowHistory. case_match; [done|].
  pose proof (calm_insert_flows (map stored_record records)
    (i64 (flowHistoryMB w * 1000000)) (store w)) as Hm.
  by destruct (InsertFlowHistory _ _ _).
Qed.

Lemma persist_switches records (w : World) :
  flowHistoryOn (snd (persistFlowHistory records w)) = flowHistoryOn w ∧
  flowHistoryMB (snd (persistFlowHistory records w)) = flowHistoryMB w.
Proof. unfold persistFlowHistory. repeat case_match; by simplify_eq. Qed.

(** A flush prunes the monitor, marks seconds and hands records to the sink. *)
Lemma flush_cases b t m (w : World) err m' w' :
  flushHistory b t m w = (err, m', w') → sink_ok m →
  sink_ok m' ∧ (w' = w ∨ ∃ records, w' = snd (persistFlowHistory records w)).
Proof.
  unfold flushHistory. destruct (flush_collect b t m) as [[secs recs] m1] eqn:E.
  apply flush_collect_spec in E as (-> & _). intros Hf Hs.
  apply (sink_prune (Unix t)) in Hs. pose proof Hs as Hk. unfold sink_ok in Hk. rewrite Hk in Hf.
  destruct recs as [|r recs]; [by simplify_eq; auto|].
  destruct (persistFlowHistory (r :: recs) w) as [er w1] eqn:Ep.
  destruct er; simplify_eq; (split; [done|right; exists (r :: recs); by rewrite Ep]).
Qed.

(** ** What a handler respects

    [follows sw pr]: the monitor keeps its sink and the store moves by its own
    steps; with [sw] the stored settings and the three switches that mirror
    them stay as they are; with [pr] the presence counts and the data plane. *)

Section follows.
Context `{Primitives} {F P : Type} `{Inputs} `{Externals F} `{DataPlane P}.
Implicit Types (e : Env) (r : Request) (s : Control F P).

Definition same_switches s s' : Prop :=
  same_settings (store (world s)) (store (world s')) ∧
  flowHistoryOn (world s') = flowHistoryOn (world s) ∧
  flowHistoryMB (world s') = flowHistoryMB (world s) ∧ pingIntervalNS s' = pingIntervalNS s.
Definition same_presence s s' : Prop :=
  connections s' = connections s ∧ dataPlane s' = dataPlane s.
Record follows (sw pr : bool) s s' : Prop := {
  f_sink : sink_ok (traffic s');
  f_steps : rtc store_step (store (world s)) (store (world s'));
  f_switches : sw = true → same_switches s s';
  f_presence : pr = true → same_presence s s'
}.
Definition respects (sw pr : bool) s s' : Prop := sink_ok (traffic s) → follows sw pr s s'.

#[export] Instance same_switches_preorder : PreOrder same_switches.
Proof.
  split; [done|]. intros a b c (? & ? & ? & ?) (? & ? & ? & ?). split_and!; [by etrans|congruence..].
Qed.
#[export] Instance respects_preorder sw pr : PreOrder (respects sw pr).
Proof.
  split; [by intros s|]. intros a b c F1 F2 Ha. destruct (F1 Ha) as [Hb R1 S1 P1].
  destruct (F2 Hb) as [Hc R2 S2 P2]. split; [done|by etrans|intros E..].
  - etrans; [by apply S1|by apply S2].
  - destruct (P1 E), (P2 E). split; congruence.
Qed.

Lemma respects_weaken {A} sw pr (m : H F P A) :
  heffect (respects true true) m → heffect (respects sw pr) m.
Proof. intros Hm s Hs. destruct (Hm s Hs) as [? ? ? ?]. split; auto. Qed.

Lemma respects_store {A} sw pr (m : M A) : effect calm m → heffect (respects sw pr) (hstore (F := F) (P := P) m).
Proof.
  intros Hm. apply respects_weaken. intros s Hs. destruct (Hm (store (world s))) as [M1 S1].
  unfold hstore, hrun. destruct (m (store (world s))) as [a d]. split; [done|done|by split|by split].
Qed.
(** An update of fields that none of the four parts looks at. *)
Lemma respects_upd sw pr (f : Control F P → Control F P) :
  (∀ s, world (f s) = world s ∧ traffic (f s) = traffic s ∧
        (sw = true → pingIntervalNS (f s) = pingIntervalNS s) ∧
        (pr = true → same_presence s (f s))) →
  heffect (respects sw pr) (hupd f).
Proof.
  intros Hf s Hs. destruct (Hf s) as (E1 & E2 & E3 & E4). unfold hupd. cbn.
  split; rewrite ?E1, ?E2; [done|done| |done]. intros E. unfold same_switches. rewrite E1. split_and!; [done..|by apply E3].
Qed.
Lemma respects_run {A} sw pr (f : Control F P → A * Control F P) :
  (∀ s, respects sw pr s (snd (f s))) → heffect (respects sw pr) (hrun f).
Proof. intros Hf s. specialize (Hf s). unfold hrun. by destruct (f s). Qed.

Ltac fields := intros ?; repeat case_match; simplify_eq; split; cbn; done.
Ltac follows_tac :=
  handler_tac ltac:(first
    [ apply respects_store;
      solve [auto with calm | case_match; auto with calm | effect_tac ltac:(fail)]
    | apply respects_upd; intros ?; repeat case_match; split_and!; by intros
    | apply respects_run; solve [fields] ]).
Abbreviation calmly := (heffect (respects true true)).

Lemma calmly_audit n a b c x y : calmly (audit (F := F) (P := P) n a b c x y).
Proof. unfold audit. follows_tac. Qed.
Lemma calmly_ports input : calmly (ports_part (F := F) (P := P) input).
Proof. unfold ports_part. follows_tac. apply respects_run. intros s. unfold updatePorts. fields. Qed.
Lemma calmly_flush e input : calmly (flush_part (F := F) (P := P) e input).
Proof.
  unfold flush_part. follows_tac. apply respects_run. intros s. unfold FlushHistory.
  destruct (flushHistory _ _ _ _) as [[er m] w] eqn:E. intros Hs.
  apply flush_cases in E as [Hm Hw]; [|done].
  assert (calm (store (world s)) (store w) ∧ flowHistoryOn w = flowHistoryOn (world s) ∧
    flowHistoryMB w = flowHistoryMB (world s)) as ([? ?] & ? & ?).
  { destruct Hw as [->|[recs ->]]; [done|]. split; [apply persist_calm|apply persist_switches]. }
  by split.
Qed.
Lemma calmly_flows e : calmly (networkFlows (F := F) (P := P) e).
Proof.
  unfold networkFlows, ListDevices, listDevices. follows_tac. apply respects_run. intros s Hs.
  pose proof (sink_snapshot (now e 0) _ Hs). destruct (Snapshot _ _) as [sn m]. by split.
Qed.
Lemma calmly_history r : calmly (networkFlowHistory (F := F) (P := P) r).
Proof. unfold networkFlowHistory, ListFlowHistory, ListDevices, listDevices. follows_tac. Qed.
Lemma calmly_command e r u path : sane_env e → calmly (command (F := F) (P := P) e r u path).
Proof.
  intros He. unfold command, notifyCommand, commandSignal. follows_tac.
  apply respects_store, calm_create_command, He.
Qed.

#[local] Opaque audit ports_part flush_part networkFlows networkFlowHistory command.
#[local] Hint Resolve calmly_audit calmly_ports calmly_flush calmly_flows calmly_history
  calmly_command : calm.
Ltac follows_all := follows_tac; try solve [auto with calm | apply respects_weaken; auto with calm].

(** The settings' handler moves the store and leaves the presence. *)
Lemma follows_set_settings n vs :
  heffect (respects false true) (hstore (F := F) (P := P) (SetSettings n vs)).
Proof.
  intros s Hs. assert (rtc store_step (store (world s)) (snd (SetSettings n vs (store (world s)))))
    as Hm by (apply rtc_once; constructor).
  unfold hstore, hrun. destruct (SetSettings _ _ _) as [a d]. by split.
Qed.
Lemma follows_upd (f : Control F P → Control F P) :
  (∀ s, store (world (f s)) = store (world s) ∧ traffic (f s) = traffic s ∧ same_presence s (f s)) →
  heffect (respects false true) (hupd f).
Proof.
  intros Hf s Hs. destruct (Hf s) as (E1 & E2 & E3). unfold hupd. cbn.
  by split; rewrite ?E1, ?E2.
Qed.
Lemma follows_store_part e ping input :
  heffect (respects false true) (store_part (F := F) (P := P) e ping input).
Proof.
  unfold store_part, apply_part, trim_part, set_recording, set_limit. follows_all;
    first [apply follows_set_settings | apply follows_upd; intros s; repeat case_match; by split].
Qed.
#[local] Opaque store_part.
#[local] Hint Resolve follows_store_part : calm.
Lemma follows_patch_settings e r u :
  heffect (respects false true) (patch_settings (F := F) (P := P) e r u).
Proof. unfold patch_settings. follows_all. Qed.

Definition is_settings_patch r : bool :=
  (Method r =s "PATCH") && (api_path r =s "server/settings").

Lemma calmly_api e r u : sane_env e → is_settings_patch r = false → calmly (api (F := F) (P := P) e r u).
Proof.
  unfold is_settings_patch. intros He Hp. unfold api.
  repeat match goal with |- heffect _ (if ?c then _ else _) => destruct c eqn:? end.
  6: congruence.
  all: unfold logout, list_devices, patch_device, rename_part, address_part, get_settings,
    delete_history, startup_status, updateStartup, list_users, createUser,
    put_password, updateUserPassword, delete_user_request, patch_user, list_tokens, createToken,
    revoke_token, revoke_device, server_status, list_commands, list_audit, ListDevices,
    ListDevicesByUser, listDevices, Users, ListTokens, ListAudit.
  all: follows_all.
Qed.

(** ** The device's handlers keep the settings *)

Abbreviation streams_ok := (heffect (respects true false)).

Lemma calmly_write_commands e i dev l : calmly (write_commands (F := F) (P := P) e i dev l).
Proof.
  revert i. induction l as [|c l IH]; intros i; cbn [write_commands]; follows_tac; apply IH.
Qed.
Lemma calmly_pending e i dev : calmly (writePendingCommands (F := F) (P := P) e i dev).
Proof. unfold writePendingCommands. follows_tac. apply calmly_write_commands. Qed.
Lemma close_stream_frame st s :
  world (close_stream st s) = world s ∧ traffic (close_stream st s) = traffic s ∧
  pingIntervalNS (close_stream st s) = pingIntervalNS s.
Proof. unfold close_stream, deviceDisconnected. repeat case_match; by simplify_eq. Qed.
Lemma follows_end st evs : streams_ok (end_stream (F := F) (P := P) st evs).
Proof.
  unfold end_stream. follows_tac. apply respects_upd. intros s.
  destruct (close_stream_frame st s) as (-> & -> & ->). done.
Qed.
#[local] Opaque writePendingCommands end_stream.
#[local] Hint Resolve calmly_pending follows_end : calm.

Lemma follows_open e st : streams_ok (open_stream (F := F) (P := P) e st).
Proof. unfold open_stream, deviceConnected, commandSignal. follows_all. Qed.
#[local] Opaque open_stream.
#[local] Hint Resolve follows_open : calm.
Lemma follows_connect e r : streams_ok (deviceConnect (F := F) (P := P) e r).
Proof.
  unfold deviceConnect, connect_open, DevicePublicKey, GetDevice, listDevices, take_challenge. follows_all.
  apply respects_run. intros s. unfold data_session. fields.
Qed.
Lemma follows_wake e st k : streams_ok (stream_wake (F := F) (P := P) e st k).
Proof. unfold stream_wake, stream_ping, stream_commands, GetDevice, listDevices. follows_all. Qed.
#[local] Opaque deviceConnect api.

(** ** All requests *)

(** Every request but the two: the settings' and the opening of a stream. *)
Lemma calmly_dispatch e r :
  sane_env e → (mux (Method r) (Path r) = TApi → is_settings_patch r = false) →
  mux (Method r) (Path r) ≠ TConnect → calmly (dispatch (F := F) (P := P) e r).
Proof.
  intros He Hp Hc. unfold dispatch. destruct (mux _ _); try done.
  all: unfold login, setupStatus, setup, enroll, deviceChallenge, deviceCommandResult, trayStatus,
    trayStartup, trayQuit, startup_status, updateStartup, dashboard, authorized, UserCount,
    Authenticate, DevicePublicKey, take_challenge, SessionUser.
  all: follows_all. by apply calmly_api; auto.
Qed.

(** The check of the session. *)
Lemma authorized_cases e r k s o s' :
  outcome (authorized (F := F) (P := P) e r k) s = (o, s') →
  (∃ a, o = Reply a ∧ rStatus a = 401) ∨
  ∃ u s1, hstore (SessionUser (auth_now e) (authToken r)) s = (inr (Ok u), s1) ∧
    outcome (k u) s1 = (o, s').
Proof.
  unfold authorized, htry. intros Ho. apply hbind_cases in Ho as [Ho|([u|msg] & s1 & E & Ho)].
  - unfold hstore, hrun in Ho. by repeat case_match.
  - right. by exists u, s1.
  - left. injection Ho as <- <-. by eexists.
Qed.
End follows.
