(* ===== verification/ControlProperties.v ===== *)
(** * ControlProperties: what the management server guarantees

    The rate limiter's sliding window; the authentication and the permissions
    of every request; the proofs of devices; the presence counts and the
    data-plane sessions against the open streams; the settings across a
    restart; and the refinement of the store's steps by the whole server, which
    carries the theorems of [StoreProperties] over to it. *)
From S2P Require Import Prelude Text Net Clock Calendar Http Traffic Duration Protocol Crypto.
From S2P Require Import Session Database Accounts Devices CommandStore History StoreSteps.
From S2P Require Import Auth Control ControlAPI ControlStream ControlEffects.
From Stdlib Require Import Init.Byte Strings.Byte.

Section properties.
Context `{Primitives} {F P : Type} `{Inputs} `{Externals F} `{DataPlane P} `{!DataPlaneLaws P}.
Implicit Types (e : Env) (r : Request) (s : Control F P).

(** ** Requests as a whole *)

Lemma respects_le sw pr s s' : respects sw pr s s' → respects false false s s'.
Proof. intros Hr Hs. destruct (Hr Hs) as [? ? _ _]. by split. Qed.

Lemma limit_frame now remote s :
  world (snd (rateLimit now remote s)) = world s ∧
  traffic (snd (rateLimit now remote s)) = traffic s ∧
  pingIntervalNS (snd (rateLimit now remote s)) = pingIntervalNS s ∧
  same_presence s (snd (rateLimit now remote s)).
Proof. unfold rateLimit. by case_match. Qed.

Lemma limit_respects sw pr now remote s : respects sw pr s (snd (rateLimit now remote s)).
Proof.
  destruct (limit_frame now remote s) as (E1 & E2 & E3 & E4). intros Hs.
  split; rewrite ?E1, ?E2; [done|done| |done]. intros _. unfold same_switches. by rewrite E1, E3.
Qed.

Lemma serve_respects sw pr e r s :
  heffect (respects sw pr) (dispatch (F := F) (P := P) e r) → respects sw pr s (snd (serve e r s)).
Proof.
  intros Hd. unfold serve. pose proof (limit_respects sw pr (limit_now e) (RemoteAddr r) s) as Hl.
  destruct (rateLimit _ _ s) as [ok s1]. cbn [snd] in Hl. destruct ok; [|exact Hl].
  pose proof (outcome_effect _ _ Hd s1) as Ho. destruct (outcome _ s1) as [o s2]. cbn [snd] in *.
  by etrans.
Qed.

Lemma api_settings e r u : is_settings_patch r = true → api (F := F) (P := P) e r u = patch_settings e r u.
Proof.
  unfold is_settings_patch, api. intros [Hm Hp]%andb_true_iff. rewrite Hm, Hp.
  apply String.eqb_eq in Hm, Hp. by rewrite Hm, Hp.
Qed.

Lemma follows_authorized sw pr e r k :
  (∀ u, heffect (respects sw pr) (k u)) → heffect (respects sw pr) (authorized (F := F) (P := P) e r k).
Proof.
  intros Hk. unfold authorized. apply heffect_try; [apply _| |done].
  apply respects_store. unfold SessionUser. effect_tac ltac:(fail).
Qed.

Lemma dispatch_respects e r :
  sane_env e → heffect (respects false false) (dispatch (F := F) (P := P) e r).
Proof.
  intros He. destruct (decide (mux (Method r) (Path r) = TConnect)) as [Hc|Hc].
  { intros s. unfold dispatch. rewrite Hc. eapply respects_le, follows_connect. }
  destruct (is_settings_patch r) eqn:Hp.
  - destruct (mux (Method r) (Path r)) eqn:Hm;
      try (intros s; eapply respects_le, calmly_dispatch; [done|by rewrite Hm|by rewrite Hm]).
    intros s. unfold dispatch. rewrite Hm. apply follows_authorized. intros u.
    rewrite api_settings by done. intros s1. eapply respects_le, follows_patch_settings.
  - intros s. eapply respects_le, calmly_dispatch; auto.
Qed.

(** ** Refinement of the store *)

Lemma ctl_step_respects x y : ctl_step x y → respects false false (server x) (server y).
Proof.
  destruct 1 as [e r s l o s' He Hs|e k st s l1 l2 o s' He _ Hs|t packet s l|b t err m w s l Hf| |
    rnd now name ph s l|tok rnd now1 now2 usr ttl uses s l]; cbn [server].
  - pose proof (serve_respects false false e r s (dispatch_respects e r He)) as Hr. by rewrite Hs in Hr.
  - pose proof (outcome_effect _ _ (follows_wake e st k) s) as Hr. rewrite Hs in Hr.
    by eapply respects_le.
  - intros Hs. split; try done. by apply sink_packet.
  - intros Hs. apply flush_cases in Hf as [Hm Hw]; [|done]. split; try done. cbn.
    destruct Hw as [->|[recs ->]]; [done|apply persist_calm].
  - intros Hs. by split.
  - eapply respects_le, (respects_store true true). apply calm_create_admin.
  - eapply respects_le, (respects_store true true). apply calm_create_token.
Qed.

Lemma run_respects x y : rtc ctl_step x y → respects false false (server x) (server y).
Proof.
  induction 1 as [x|x y z Hxy _ IH]; [done|]. etrans; [by apply ctl_step_respects|exact IH].
Qed.

(** The server before its first request: [New], then the setters of the start-up. *)
Record booted (d : db) (s : Control F P) : Prop := {
  b_store : store (world s) = d;
  b_sink : sink_ok (traffic s);
  b_connections : connections s = ∅;
  b_plane p : dataPlane s = Some p → dp_ok p ∧ dp_sessions p = ∅
}.

(** C3: whatever requests, streams, packets and command-line calls are
    interleaved, the server changes the database only by the steps of the
    store: its invariants hold in every reachable state, and every command of
    the start is still there and has only moved along its life cycle. *)
Theorem control_refines_store d s x :
  rtc store_step empty_db d → booted d s → rtc ctl_step (mkRun s []) x →
  rtc store_step d (store (world (server x))) ∧ store_ok (store (world (server x))) ∧
  cmds_evolve d (store (world (server x))).
Proof.
  intros Hd [Hb Hs _ _] Hx. destruct (run_respects _ _ Hx Hs) as [_ Hm _ _].
  cbn [server] in Hm. rewrite Hb in Hm. split; [done|].
  pose proof (steps_store_ok _ _ Hd empty_store_ok) as Hok. split.
  - by eapply steps_store_ok.
  - by eapply steps_evolve.
Qed.
End properties.
