(* ===== verification/ControlSettings.v ===== *)
(** * ControlSettings: the settings and a restart ([internal/control/server.go])

    The server keeps its ping interval and the two settings of the flow history
    in memory and in the store.  [mirrors] says that a restart would read back
    what it holds; every request keeps it so, and a settings request that
    succeeds has put there what it asked for. *)
From S2P Require Import Prelude Text Net Clock Calendar Http Traffic Duration Protocol Crypto.
From S2P Require Import Session Database Accounts Devices CommandStore History StoreSteps.
From S2P Require Import Auth Control ControlAPI ControlStream ControlEffects ControlProperties.
From Stdlib Require Import Init.Byte Strings.Byte.

(** ** The stored settings *)

Lemma head_filter_map (k : string) (p : setting_row → bool) r l :
  p = (λ x, bool_decide (k_key x = k_key r)) →
  head (map k_value (where_is k_key k (update_where p (λ _, r) l))) =
  if bool_decide (k = k_key r)
  then if existsb p l then Some (k_value r) else None
  else head (map k_value (where_is k_key k l)).
Proof.
  intros ->. unfold where_is, update_where. induction l as [|x l IH]; cbn [map List.filter existsb head].
  { by case_match. }
  destruct (decide (k_key x = k_key r)) as [E|E].
  - rewrite (bool_decide_eq_true_2 (k_key x = k_key r)) by done. cbn [orb].
    destruct (decide (k = k_key r)) as [->|N].
    + rewrite !(bool_decide_eq_true_2 (k_key r = k_key r)) by done. done.
    + rewrite (bool_decide_eq_false_2 (k = k_key r)) in IH |- * by done.
      rewrite (bool_decide_eq_false_2 (k_key r = k)), (bool_decide_eq_false_2 (k_key x = k))
        by congruence. exact IH.
  - rewrite (bool_decide_eq_false_2 (k_key x = k_key r)) by done. cbn [orb].
    destruct (decide (k_key x = k)) as [Ek|Ek].
    + rewrite !(bool_decide_eq_true_2 (k_key x = k)) by done.
      rewrite (bool_decide_eq_false_2 (k = k_key r)) by congruence. done.
    + rewrite !(bool_decide_eq_false_2 (k_key x = k)) by done. exact IH.
Qed.

Lemma Setting_head k d : fst (Setting k d) =
  match head (map k_value (where_is k_key k (settings d))) with Some v => Ok v | None => Err ErrNoRows end.
Proof. unfold Setting, query_row. by destruct (map _ _). Qed.

Lemma where_is_app {A} (f : A → string) v l k : where_is f v (l ++ k) = where_is f v l ++ where_is f v k.
Proof. apply List.filter_app. Qed.

Lemma Setting_upsert k r d :
  fst (Setting k (snd (upsert_setting r d))) =
  if bool_decide (k = k_key r) then Ok (k_value r) else fst (Setting k d).
Proof.
  rewrite !Setting_head. unfold upsert_setting. cbn [snd settings set_settings].
  set (p := λ x, bool_decide (k_key x = k_key r)). destruct (existsb p (settings d)) eqn:E.
  - rewrite (head_filter_map k p) by done. rewrite E. by destruct (bool_decide (k = k_key r)).
  - rewrite where_is_app, map_app. unfold where_is at 2. cbn [List.filter].
    destruct (decide (k = k_key r)) as [->|N].
    + rewrite !bool_decide_eq_true_2 by done.
      assert (where_is k_key (k_key r) (settings d) = []) as ->; [|done].
      apply filter_none. intros x Hx. destruct (p x) eqn:Ep; [|exact Ep].
      rewrite <- not_true_iff_false, existsb_exists in E. destruct E.
      exists x. by split; [apply list_elem_of_In|].
    + rewrite !bool_decide_eq_false_2 by congruence. cbn [map]. by rewrite app_nil_r.
Qed.

Lemma set_all_spec now l d :
  NoDup (map fst l) →
  ∃ d', set_all now l d = (Ok tt, d') ∧
  ∀ k, fst (Setting k d') = match (list_to_map l : gmap string string) !! k with
                            | Some v => Ok v | None => fst (Setting k d) end.
Proof.
  revert d. induction l as [|[key v] l IH]; intros d Hl; cbn [set_all].
  { exists d. split; [done|]. intros k. by rewrite list_to_map_nil, lookup_empty. }
  apply NoDup_cons in Hl as [Hk Hl]. unfold bind, SetSetting.
  set (d1 := snd (upsert_setting (mkSettingRow key v (FormatRFC3339Nano now)) d)).
  assert (upsert_setting (mkSettingRow key v (FormatRFC3339Nano now)) d = (Ok tt, d1)) as -> by done.
  destruct (IH d1 Hl) as (d' & Hd' & Hs). exists d'. split; [done|]. intros k. rewrite Hs.
  cbn [list_to_map foldr fst snd]. destruct (decide (k = key)) as [->|N].
  - rewrite lookup_insert_eq. rewrite (not_elem_of_list_to_map_1 l key) by exact Hk.
    unfold d1. rewrite Setting_upsert. by rewrite bool_decide_eq_true_2.
  - rewrite lookup_insert_ne by done. case_match; [done|]. unfold d1. rewrite Setting_upsert.
    by rewrite bool_decide_eq_false_2.
Qed.

(** Storing values never fails, and they are read back. *)
Lemma SetSettings_spec now (values : gmap string string) d :
  ∃ d', SetSettings now values d = (Ok tt, d') ∧
  ∀ k, fst (Setting k d') = match values !! k with Some v => Ok v | None => fst (Setting k d) end.
Proof.
  destruct (set_all_spec now (map_to_list values) d (NoDup_fst_map_to_list _)) as (d' & Hd & Hs).
  exists d'. unfold SetSettings, transaction. rewrite Hd. split; [done|]. intros k.
  by rewrite Hs, list_to_map_to_list.
Qed.

(** ** The texts of the settings *)

Lemma FormatBool_true b : (FormatBool b =s "true") = b.
Proof. by destruct b. Qed.

Lemma ParseInt_FormatInt n : 0 ≤ n < 2 ^ 63 → ParseInt (FormatInt n) = (n, None).
Proof.
  intros Hn. unfold ParseInt, FormatInt, Atoi. rewrite (proj2 (Z.ltb_ge n 0)) by lia.
  unfold FormatUint. rewrite s2b_b2s. pose proof (ParseUint_FormatUint n) as Hp.
  unfold in_u64, FormatUint in Hp.
  destruct (fmt_dec_head n ltac:(lia)) as (c & k & E & Hd). rewrite E in *.
  assert (split_sign (c :: k) = (false, c :: k)) as ->.
  { unfold split_sign. rewrite !bool_decide_eq_false_2; [done|..]; by intros ->. }
  rewrite Hp by lia. rewrite bool_decide_eq_false_2 by done. cbn [negb andb].
  by rewrite (proj2 (Z.leb_gt (2 ^ 63) n)) by lia.
Qed.

Lemma limit_roundtrip mb : validFlowHistoryLimit mb = true → ParseInt (FormatInt mb) = (mb, None).
Proof.
  unfold validFlowHistoryLimit, minFlowHistoryMB, maxFlowHistoryMB. intros Hv. bprop.
  apply ParseInt_FormatInt. lia.
Qed.

(** Seconds that do not overflow 64 bits as nanoseconds. *)
Definition small (n : Z) : Prop := - 2 ^ 33 ≤ n ≤ 2 ^ 33.

(** A larger number of seconds wraps around, and some are then accepted. *)
Lemma ping_wraps :
  i64 (18446744079 * Second) = 5290448384 ∧ validPingInterval (i64 (18446744079 * Second)) = true.
Proof. by split. Qed.

Lemma ping_roundtrip n :
  small n → validPingInterval (i64 (n * Second)) = true →
  i64 (n * Second) = n * Second ∧ ParseDuration (DurationString (n * Second)) = Some (n * Second).
Proof.
  unfold small, validPingInterval, i64. intros Hn Hv.
  rewrite Z.mod_small in * by (unfold Second; lia).
  replace (n * Second + 2 ^ 63 - 2 ^ 63) with (n * Second) in * by lia. split; [done|]. bprop.
  apply ParseDuration_String; unfold Hour, Minute, Second in *; lia.
Qed.

Section settings.
Context `{Primitives} {F P : Type} `{Inputs} `{Externals F} `{DataPlane P} `{!DataPlaneLaws P}.
Implicit Types (e : Env) (r : Request) (s : Control F P).

(** The server after a restart on this database, with the default ping interval
    [dflt] of its configuration. *)
Definition restarted (dflt : Z) (d : db) (f : F) : Control F P :=
  SetDefaultPingInterval dflt (New d "" 0 0 false f).

Definition same_values s s' : Prop :=
  pingIntervalNS s = pingIntervalNS s' ∧ flowHistoryOn (world s) = flowHistoryOn (world s') ∧
  flowHistoryMB (world s) = flowHistoryMB (world s').
Definition mirrors (dflt : Z) s : Prop :=
  same_values (restarted dflt (store (world s)) (host s)) s.

(** The three values of a restart, from the stored texts. *)
Definition ping_of (dflt : Z) (r : result string) : Z :=
  match r with
  | Ok v =>
    match ParseDuration v with
    | Some i => if validPingInterval i then i else 25 * Second
    | None => 25 * Second
    end
  | Err _ => if validPingInterval dflt then dflt else 25 * Second
  end.
Definition on_of (r : result string) : bool := match r with Ok v => v =s "true" | Err _ => false end.
Definition limit_of (r : result string) : Z :=
  match r with
  | Ok v => match ParseInt v with
            | (n, None) => if validFlowHistoryLimit n then n else defaultFlowHistoryMB
            | _ => defaultFlowHistoryMB
            end
  | Err _ => defaultFlowHistoryMB
  end.

Lemma restarted_values dflt d f :
  pingIntervalNS (restarted dflt d f) = ping_of dflt (fst (Setting "ping_interval" d)) ∧
  flowHistoryOn (world (restarted dflt d f)) = on_of (fst (Setting "flow_history_enabled" d)) ∧
  flowHistoryMB (world (restarted dflt d f)) = limit_of (fst (Setting "flow_history_limit_mb" d)).
Proof.
  unfold restarted, SetDefaultPingInterval, ping_of, on_of, limit_of, New, stored_ping,
    stored_enabled, stored_limit. cbn [world store pingIntervalNS].
  destruct (fst (Setting "ping_interval" d)) eqn:E1; rewrite ?E1;
    repeat case_match; simplify_eq; cbn; split_and!; try done; congruence.
Qed.

Lemma mirrors_values dflt s : mirrors dflt s ↔
  pingIntervalNS s = ping_of dflt (fst (Setting "ping_interval" (store (world s)))) ∧
  flowHistoryOn (world s) = on_of (fst (Setting "flow_history_enabled" (store (world s)))) ∧
  flowHistoryMB (world s) = limit_of (fst (Setting "flow_history_limit_mb" (store (world s)))).
Proof.
  unfold mirrors, same_values. destruct (restarted_values dflt (store (world s)) (host s))
    as (-> & -> & ->). by naive_solver.
Qed.

Lemma Setting_same k d d' : same_settings d d' → fst (Setting k d') = fst (Setting k d).
Proof. rewrite !Setting_head. unfold same_settings. by intros ->. Qed.

Lemma mirrors_switches dflt s s' : same_switches s s' → mirrors dflt s → mirrors dflt s'.
Proof.
  intros (Hs & E1 & E2 & E3). rewrite !mirrors_values, E1, E2, E3.
  by rewrite !(Setting_same _ _ _ Hs).
Qed.

(** ** The settings request *)

Lemma setting_values_lookup ping input :
  setting_values ping input !! "ping_interval" = DurationString <$> ping ∧
  setting_values ping input !! "flow_history_enabled" = FormatBool <$> spEnabled input ∧
  setting_values ping input !! "flow_history_limit_mb" = FormatInt <$> spLimit input.
Proof.
  unfold setting_values. destruct ping, (spEnabled input), (spLimit input);
    cbn [fmap option_fmap option_map]; by repeat (rewrite lookup_insert_eq || rewrite lookup_insert_ne by done
      || rewrite lookup_empty).
Qed.

(** What the guards of the request leave: absent or valid, and read back as
    what they are. *)
Definition ping_ok (ping : option Z) : Prop := ∀ p, ping = Some p →
  validPingInterval p = true ∧ ParseDuration (DurationString p) = Some p.
Definition limit_ok (limit : option Z) : Prop := ∀ mb, limit = Some mb → validFlowHistoryLimit mb = true.

(** The values after the request. *)
Definition asked (ping : option Z) (input : SettingsPatch) s s' : Prop :=
  pingIntervalNS s' = default (pingIntervalNS s) ping ∧
  flowHistoryOn (world s') = default (flowHistoryOn (world s)) (spEnabled input) ∧
  flowHistoryMB (world s') = default (flowHistoryMB (world s)) (spLimit input).

Lemma trim_part_spec mb s :
  ∃ d, same_settings (store (world s)) d ∧
    snd (trim_part mb s) = set_world (mkWorld d (flowHistoryOn (world s)) mb) s.
Proof.
  exists (snd (TrimFlowHistory (i64 (mb * 1000000)) (store (world s)))). split; [apply calm_trim|].
  unfold trim_part, htry, hbind, hupd, hstore, hrun, set_limit. cbn [world store set_world].
  by destruct (TrimFlowHistory _ _) as [[|] d].
Qed.

Lemma apply_part_spec ping input s :
  ping_ok ping →
  let s' := snd (apply_part (setting_values ping input) input s) in
  asked ping input s s' ∧ same_settings (store (world s)) (store (world s')).
Proof.
  intros Hp. cbv zeta. unfold apply_part, hbind, hupd, asked.
  rewrite (proj1 (setting_values_lookup ping input)).
  set (s1 := match DurationString <$> ping with Some v => _ | None => s end).
  assert (world s1 = world s ∧ pingIntervalNS s1 = default (pingIntervalNS s) ping) as (E1 & E2).
  { unfold s1. destruct ping as [p|]; [|done]. cbn [fmap option_fmap option_map].
    by rewrite (proj2 (Hp p eq_refl)). }
  set (s2 := match spEnabled input with Some b => set_recording b s1 | None => s1 end).
  assert (store (world s2) = store (world s) ∧ pingIntervalNS s2 = pingIntervalNS s1 ∧
    flowHistoryOn (world s2) = default (flowHistoryOn (world s)) (spEnabled input) ∧
    flowHistoryMB (world s2) = flowHistoryMB (world s)) as (A1 & A2 & A3 & A4).
  { unfold s2, set_recording. destruct (spEnabled input); cbn; by rewrite ?E1. }
  destruct (spLimit input) as [mb|]; cbn [default hret snd].
  - destruct (trim_part_spec mb s2) as (d & Hd & ->). cbn [world pingIntervalNS set_world flowHistoryOn
      flowHistoryMB store]. rewrite <- A1, A2, A3. by split.
  - unfold same_settings. rewrite A1, A2, A3, A4. by split.
Qed.

(** Storing the values: they take effect, and a restart reads them back, even
    when the history cannot be trimmed to its new limit. *)
Lemma store_part_spec dflt e ping input s :
  ping_ok ping →
  let s' := snd (store_part e ping input s) in
  asked ping input s s' ∧ (limit_ok (spLimit input) → mirrors dflt s → mirrors dflt s').
Proof.
  intros Hp. cbv zeta. destruct (setting_values_lookup ping input) as (V1 & V2 & V3).
  set (s0 := if bool_decide (spEnabled input = Some false) then set_recording false s else s).
  assert (store (world s0) = store (world s)) as Z1 by (unfold s0; by case_match).
  assert (pingIntervalNS s0 = pingIntervalNS s ∧ flowHistoryMB (world s0) = flowHistoryMB (world s) ∧
    default (flowHistoryOn (world s0)) (spEnabled input) =
    default (flowHistoryOn (world s)) (spEnabled input)) as (Z2 & Z3 & Z4).
  { unfold s0. case_bool_decide as E; [rewrite E|]; done. }
  destruct (SetSettings_spec (now e 1) (setting_values ping input) (store (world s0))) as (d & Er & Hd).
  assert (store_part e ping input s = apply_part (setting_values ping input) input
    (set_world (set_store d (world s0)) s0)) as ->.
  { unfold store_part, hbind, hget, hupd, hstore, hrun. cbv beta iota zeta. fold s0.
    by rewrite Er. }
  pose proof (apply_part_spec ping input (set_world (set_store d (world s0)) s0) Hp) as Ha.
  cbv zeta in Ha. set (s' := snd (apply_part _ _ _)) in *. destruct Ha as (Ha & Hs).
  unfold asked in Ha. cbn [world set_world store set_store pingIntervalNS flowHistoryOn
    flowHistoryMB] in Ha, Hs. rewrite Z2, Z3, Z4 in Ha. split; [exact Ha|]. intros Hl Hm.
  destruct Ha as (A1 & A2 & A3). rewrite mirrors_values in Hm |- *. destruct Hm as (M1 & M2 & M3).
  rewrite !(Setting_same _ _ _ Hs), !Hd, V1, V2, V3, A1, A2, A3, Z1. split_and!.
  - destruct ping as [p|]; [|exact M1]. cbn [fmap option_fmap option_map default ping_of].
    destruct (Hp p eq_refl) as [Hv ->]. by rewrite Hv.
  - destruct (spEnabled input) as [b|]; [|exact M2]. symmetry. apply FormatBool_true.
  - destruct (spLimit input) as [mb|]; [|exact M3].
    cbn [fmap option_fmap option_map default limit_of]. pose proof (Hl mb eq_refl) as Hv.
    rewrite (limit_roundtrip mb Hv). by rewrite Hv.
Qed.

(** ** Running a request *)

(** The early answers of a part of a handler are not a success. *)
Definition refuses {A} (m : H F P A) : Prop :=
  ∀ s o s', m s = (inl o, s') → ∃ a, o = Reply a ∧ rStatus a ≠ 200.

Ltac refuses_tac :=
  intros s o s' Ho; unfold htry, hstore, hbind, hget, hrun, hupd, hreply, hstop, hret in Ho;
  repeat (case_match; simplify_eq); by eexists.
Lemma refuses_ports input : refuses (ports_part (F := F) (P := P) input).
Proof. unfold ports_part. refuses_tac. Qed.
Lemma refuses_flush e input : refuses (flush_part (F := F) (P := P) e input).
Proof. unfold flush_part. refuses_tac. Qed.
Lemma refuses_store e ping input : refuses (store_part (F := F) (P := P) e ping input).
Proof. unfold store_part, apply_part, trim_part. refuses_tac. Qed.

Lemma after_part {A} (m : H F P A) (k : A → H F P Empty_set) s a s' :
  refuses m → outcome (hbind m k) s = (Reply a, s') → rStatus a = 200 →
  ∃ x s1, m s = (inr x, s1) ∧ outcome (k x) s1 = (Reply a, s').
Proof.
  intros Hm Ho Ha. apply hbind_cases in Ho as [Ho|Ho]; [|done].
  by destruct (Hm _ _ _ Ho) as (? & [= <-] & ?).
Qed.

Lemma calm_part {A} (m : H F P A) s : heffect (respects true true) m → sink_ok (traffic s) →
  sink_ok (traffic (snd (m s))) ∧ same_switches s (snd (m s)).
Proof. intros Hm Hs. destruct (Hm s Hs) as [? _ Hw _]. split; [done|by apply Hw]. Qed.

Definition small_request r : Prop := ∀ input n,
  decode (A := SettingsPatch) r = Some input → spPing input = Some n → small n.

Definition wanted_ping (input : SettingsPatch) : option Z := (λ n, n * Second) <$> spPing input.

(** The part of the request after its guards. *)
Definition patch_body e r u (ping : option Z) (input : SettingsPatch) : H F P Empty_set :=
  do# ports_part input;
  do# flush_part e input;
  do# store_part e ping input;
  let# detail := hget settings_detail in
  do# audit (now e 2) (ID u) "server.settings.update" "server" (RemoteAddr r) detail;
  let# v := hget serverSettings in
  hreply (write 200 (Settings v)).

Lemma patch_settings_cases e r u :
  small_request r →
  (∃ a, rStatus a ≠ 200 ∧ ∀ s, patch_settings (F := F) (P := P) e r u s = (inl (Reply a), s)) ∨
  (∃ input, decode r = Some input ∧ ping_ok (wanted_ping input) ∧ limit_ok (spLimit input) ∧
     patch_settings e r u = patch_body e r u (wanted_ping input) input).
Proof.
  intros Hr. unfold patch_settings, permit.
  destruct (negb _); [left; eexists; split; [|by intros s]; done|].
  unfold small_request in Hr. destruct (decode r) as [input|] eqn:Ed;
    [|left; eexists; split; [|by intros s]; done]. cbn [hdecode].
  destruct (is_none _ && _ && _ && _ && _); [left; eexists; split; [|by intros s]; done|].
  destruct (default true (validPingInterval <$> _)) eqn:Ep; cbn [negb];
    [|left; eexists; split; [|by intros s]; done].
  destruct (default true (validFlowHistoryLimit <$> _)) eqn:El; cbn [negb];
    [|left; eexists; split; [|by intros s]; done].
  right. exists input. split; [done|].
  assert (((λ n, i64 (n * Second)) <$> spPing input) = wanted_ping input ∧ ping_ok (wanted_ping input))
    as [-> Hp].
  { unfold wanted_ping, ping_ok. destruct (spPing input) as [n|] eqn:En; [|by split].
    cbn in Ep |- *. destruct (ping_roundtrip n (Hr input n eq_refl En) Ep) as [-> Hp].
    split; [done|]. intros p [= <-]. split; [|done].
    by destruct (ping_roundtrip n (Hr input n eq_refl En) Ep) as [<- _]. }
  split_and!; [done| |done]. intros mb Emb. rewrite Emb in El. exact El.
Qed.

(** Good states: the sink is the server's own and the store mirrors the values. *)
Definition stays (dflt : Z) s s' : Prop :=
  sink_ok (traffic s) ∧ mirrors dflt s → sink_ok (traffic s') ∧ mirrors dflt s'.
#[local] Instance stays_preorder dflt : PreOrder (stays dflt).
Proof. split; [by intros s Hs|]. intros a b c H1' H2' Ha. by apply H2', H1'. Qed.

Lemma calm_stays {A} dflt (m : H F P A) : heffect (respects true true) m → heffect (stays dflt) m.
Proof.
  intros Hm s [Hs Hd]. destruct (calm_part m s Hm Hs) as [Hs' Hw]. split; [done|].
  by eapply mirrors_switches.
Qed.
Lemma stream_stays {A} dflt (m : H F P A) : heffect (respects true false) m → heffect (stays dflt) m.
Proof.
  intros Hm s [Hs Hd]. destruct (Hm s Hs) as [Hs' _ Hw _]. split; [done|].
  by eapply mirrors_switches; [apply Hw|].
Qed.

Lemma patch_body_stays dflt e r u ping input :
  ping_ok ping → limit_ok (spLimit input) → heffect (stays dflt) (patch_body e r u ping input).
Proof.
  intros Hp Hl. unfold patch_body.
  apply heffect_bind; [apply _|apply calm_stays, calmly_ports|intros _].
  apply heffect_bind; [apply _|apply calm_stays, calmly_flush|intros _].
  apply heffect_bind; [apply _| |intros _].
  { intros s [Hs Hm]. split; [by apply (follows_store_part e ping input s Hs)|].
    by apply (store_part_spec dflt e ping input s Hp). }
  apply heffect_bind; [apply _|apply heffect_get; apply _|intros d].
  apply heffect_bind; [apply _|apply calm_stays, calmly_audit|intros _].
  apply heffect_bind; [apply _|apply heffect_get; apply _|intros v]. apply heffect_reply; apply _.
Qed.

Lemma serve_stays dflt e r s :
  sane_env e → small_request r → stays dflt s (snd (serve e r s)).
Proof.
  intros He Hr. assert (heffect (stays dflt) (dispatch (F := F) (P := P) e r)) as Hd.
  { destruct (decide (mux (Method r) (Path r) = TConnect)) as [Hc|Hc].
    { intros s1. unfold dispatch. rewrite Hc. apply stream_stays, follows_connect. }
    destruct (mux (Method r) (Path r)) eqn:Hm; try (apply calm_stays, calmly_dispatch; by rewrite ?Hm).
    destruct (is_settings_patch r) eqn:Hp; [|by apply calm_stays, calmly_dispatch; rewrite ?Hm].
    unfold dispatch. rewrite Hm. unfold authorized. apply heffect_try; [apply _| |intros u].
    - apply calm_stays, respects_store. unfold SessionUser. effect_tac ltac:(fail).
    - rewrite api_settings by done.
      destruct (patch_settings_cases e r u Hr) as [(a & _ & Ha)|(input & _ & ? & ? & ->)].
      + intros s1. rewrite Ha. cbn. reflexivity.
      + by apply patch_body_stays. }
  unfold serve. pose proof (limit_frame (limit_now e) (RemoteAddr r) s) as (E1 & E2 & E3 & _).
  destruct (rateLimit _ _ s) as [ok s1]. cbn [snd] in *.
  assert (stays dflt s s1) as Hl.
  { intros [Hs Hm]. rewrite E2. split; [done|]. eapply mirrors_switches; [|done].
    unfold same_switches. by rewrite E1, E3. }
  destruct ok; [|exact Hl]. pose proof (outcome_effect _ _ Hd s1) as Ho.
  destruct (outcome _ s1) as [o s2]. cbn [snd] in *. by etrans.
Qed.

(** A settings request that succeeds has put in place what it asked for. *)
Lemma patch_body_ok e r u ping input s a s' :
  sink_ok (traffic s) → ping_ok ping → limit_ok (spLimit input) →
  outcome (patch_body e r u ping input) s = (Reply a, s') → rStatus a = 200 →
  asked ping input s s' ∧ a = write 200 (Settings (serverSettings s')).
Proof.
  intros Hs Hp Hl Ho Ha. unfold patch_body in Ho.
  apply after_part in Ho as ([] & s1 & E1 & Ho); [|apply refuses_ports|done].
  apply after_part in Ho as ([] & s2 & E2 & Ho); [|apply refuses_flush|done].
  apply after_part in Ho as ([] & s3 & E3 & Ho); [|apply refuses_store|done].
  destruct (calm_part _ s (calmly_ports input) Hs) as [Hs1 W1]. rewrite E1 in Hs1, W1.
  destruct (calm_part _ s1 (calmly_flush e input) Hs1) as [Hs2 W2]. rewrite E2 in Hs2, W2.
  apply hbind_cases in Ho as [Ho|(detail & s4 & E4 & Ho)]; [done|].
  injection E4 as <- <-.
  apply hbind_cases in Ho as [Ho|([] & s5 & E5 & Ho)]; [done|].
  destruct (store_part_spec 0 e ping input s2 Hp) as [Hask _]. rewrite E3 in Hask.
  pose proof (follows_store_part e ping input s2 Hs2) as [Hs3 _ _ _]. rewrite E3 in Hs3.
  destruct (calm_part _ s3 (calmly_audit (now e 2) (ID u) "server.settings.update" "server"
    (RemoteAddr r) (settings_detail s3)) Hs3) as [_ W5]. rewrite E5 in W5.
  cbn in Ho, Hask, W1, W2, W5. injection Ho as <- <-. split; [|done].
  assert (same_switches s s2) as (_ & B1 & B2 & B3) by (by etrans).
  destruct W5 as (_ & C1 & C2 & C3), Hask as (A1 & A2 & A3). unfold asked.
  by rewrite C1, C2, C3, A1, A2, A3, B1, B2, B3.
Qed.

Lemma serve_settings e r s o s' :
  is_settings_patch r = true → mux (Method r) (Path r) = TApi → small_request r →
  sink_ok (traffic s) → serve e r s = (Reply o, s') → rStatus o = 200 →
  ∃ input, decode r = Some input ∧ asked (wanted_ping input) input s s' ∧
    rPayload o = Some (Settings (serverSettings s')).
Proof.
  intros Hp Hm Hr Hs Ho H200. unfold serve in Ho.
  pose proof (limit_respects true true (limit_now e) (RemoteAddr r) s Hs) as [Hs1 _ W1 _].
  specialize (W1 eq_refl). destruct (rateLimit _ _ s) as [ok s1]. cbn [snd] in *.
  destruct ok; [|by injection Ho as <- <-].
  destruct (outcome (dispatch e r) s1) as [o1 s2] eqn:Eo. injection Ho as Ho <-.
  destruct o1 as [a|]; [|done]. injection Ho as <-. cbn in H200 |- *.
  unfold dispatch in Eo. rewrite Hm in Eo.
  apply authorized_cases in Eo as [(b & [= <-] & Hb)|(u & s3 & E3 & Eo)]; [congruence|].
  rewrite api_settings in Eo by done.
  destruct (patch_settings_cases e r u Hr) as [(b & Hb & Eb)|(input & Ed & Hpk & Hl & Eb)].
  { unfold outcome in Eo. rewrite Eb in Eo. by injection Eo as <- <-. }
  rewrite Eb in Eo. exists input. split; [done|].
  destruct (calm_part (hstore (SessionUser (auth_now e) (authToken r))) s1) as [Hs3 W3]; [|done|].
  { apply respects_store. unfold SessionUser. effect_tac ltac:(fail). }
  rewrite E3 in Hs3, W3. cbn [snd] in *.
  destruct (patch_body_ok e r u _ input s3 a s2 Hs3 Hpk Hl Eo H200) as ((A1 & A2 & A3) & ->).
  split; [|done]. assert (same_switches s s3) as (_ & B1 & B2 & B3) by (by etrans).
  unfold asked. by rewrite A1, A2, A3, B1, B2, B3.
Qed.

End settings.
