(* ===== verification/ControlPresence.v ===== *)
(** * ControlPresence: the open streams ([internal/control/server.go])

    Only the opening of a stream counts a device as connected and registers a
    data-plane session, and every end of a stream undoes both.  [tracks] ties
    the presence counts and the data plane's sessions to the list of open
    streams; it holds in every state the server reaches. *)
From S2P Require Import Prelude Text Net Clock Calendar Http Traffic Duration Protocol Crypto.
From S2P Require Import Session Database Accounts Devices CommandStore History StoreSteps.
From S2P Require Import Auth Control ControlAPI ControlStream ControlEffects ControlProperties.
From Stdlib Require Import Init.Byte Strings.Byte.

(** ** Handlers that answer with a response *)

Section replies.
Context {F P : Type}.

Definition replies {A} (m : H F P A) : Prop :=
  ∀ s o s', m s = (inl o, s') → ∃ a, o = Reply a.

Context {A B : Type}.
Lemma replies_ret (a : A) : replies (hret a).
Proof. by intros s o s'. Qed.
Lemma replies_reply r : replies (hreply (A := A) r).
Proof. intros s o s' [= <- <-]. by exists r. Qed.
Lemma replies_get (f : Control F P → A) : replies (hget f).
Proof. by intros s o s'. Qed.
Lemma replies_upd (f : Control F P → Control F P) : replies (hupd f).
Proof. by intros s o s'. Qed.
Lemma replies_run (f : Control F P → A * Control F P) : replies (hrun f).
Proof. intros s o s'. unfold hrun. by destruct (f s). Qed.
Lemma replies_bind (m : H F P A) (k : A → H F P B) :
  replies m → (∀ a, replies (k a)) → replies (hbind m k).
Proof.
  intros Hm Hk s o s'. unfold hbind. destruct (m s) as [[o1|a] s1] eqn:E; [|apply Hk].
  intros [= <- <-]. by eapply Hm.
Qed.
End replies.

Section replies_rules.
Context {F P A B : Type}.
Lemma replies_store (m : M A) : replies (hstore (F := F) (P := P) m).
Proof. apply replies_run. Qed.
Lemma replies_try (m : M A) f (k : A → H F P B) : (∀ a, replies (k a)) → replies (htry m f k).
Proof.
  intros Hk. unfold htry. apply replies_bind; [apply replies_store|].
  intros [a|e]; [apply Hk|apply replies_reply].
Qed.
Lemma replies_decode (v : option A) r (k : A → H F P B) :
  (∀ a, replies (k a)) → replies (hdecode v r k).
Proof. intros Hk. destruct v as [a|]; [apply Hk|apply replies_reply]. Qed.
Lemma replies_permit u p (k : H F P A) : replies k → replies (permit u p k).
Proof. intros Hk. unfold permit. case_match; [apply replies_reply|done]. Qed.
Lemma replies_tray r (k : H F P A) : replies k → replies (tray_guard r k).
Proof.
  intros Hk. unfold tray_guard. apply replies_bind; [apply replies_get|].
  intros b. case_match; [apply replies_reply|done].
Qed.
End replies_rules.

Ltac replies_tac :=
  repeat first
    [ progress cbv zeta
    | apply replies_tray | apply replies_permit
    | apply replies_decode; intros ? | apply replies_try; intros ?
    | apply replies_bind; [|intros ?]
    | apply replies_reply | apply replies_ret | apply replies_get | apply replies_upd
    | apply replies_store | apply replies_run
    | match goal with |- replies (match ?x with _ => _ end) => destruct x end ].

Section presence.
Context `{Primitives} {F P : Type} `{Inputs} `{Externals F} `{DataPlane P} `{!DataPlaneLaws P}.
Implicit Types (e : Env) (r : Request) (s : Control F P) (st : stream) (l : list stream).

Lemma replies_api e r u : replies (api (F := F) (P := P) e r u).
Proof.
  unfold api. repeat match goal with |- replies (if ?c then _ else _) => destruct c end.
  all: unfold logout, list_devices, patch_device, rename_part, address_part, get_settings,
    delete_history, startup_status, updateStartup, list_users, createUser, put_password,
    updateUserPassword, delete_user_request, patch_user, list_tokens, createToken, revoke_token,
    revoke_device, server_status, list_commands, list_audit, audit, patch_settings, ports_part,
    flush_part, store_part, apply_part, trim_part, networkFlows, networkFlowHistory, command.
  all: replies_tac.
Qed.

Lemma replies_dispatch e r :
  mux (Method r) (Path r) ≠ TConnect → replies (dispatch (F := F) (P := P) e r).
Proof.
  intros Hc. unfold dispatch. destruct (mux _ _); try done.
  all: unfold login, setupStatus, setup, enroll, deviceChallenge, deviceCommandResult, trayStatus,
    trayStartup, trayQuit, startup_status, updateStartup, dashboard, authorized, audit.
  all: replies_tac. apply replies_api.
Qed.

(** ** Presence counts *)

Definition count (dev : string) l : Z := len (List.filter (λ st, bool_decide (stDevice st = dev)) l).
Definition one (b : bool) : Z := if b then 1 else 0.

Lemma count_cons dev st l : count dev (st :: l) = one (bool_decide (stDevice st = dev)) + count dev l.
Proof. unfold count, one, len. cbn [List.filter]. case_bool_decide; cbn [length]; lia. Qed.
Lemma count_nonneg dev l : 0 ≤ count dev l.
Proof. unfold count, len. lia. Qed.
Lemma count_perm dev l k : l ≡ₚ k → count dev l = count dev k.
Proof. unfold count, len. intros Hp. by rewrite (filter_perm _ l k Hp). Qed.
Lemma count_pos dev l : 0 < count dev l ↔ ∃ st, st ∈ l ∧ stDevice st = dev.
Proof.
  induction l as [|st l IH]; [split; [done|intros (? & []%elem_of_nil & _)]|].
  rewrite count_cons. unfold one. pose proof (count_nonneg dev l). case_bool_decide as E.
  - split; [|lia]. intros _. exists st. by split; [left|].
  - rewrite Z.add_0_l, IH. split; intros (x & Hx & Ex).
    + exists x. by split; [right|].
    + apply elem_of_cons in Hx as [->|Hx]; [done|]. by exists x.
Qed.

Lemma positive_S n : 0 ≤ n → default 0 (positive n) = n.
Proof. intros Hn. by apply positive_default. Qed.

(** *** The invariant *)

Definition belongs (p : P) l : Prop :=
  ∀ dev sid, dp_sessions p !! dev = Some sid →
  ∃ st b, st ∈ l ∧ stDevice st = dev ∧ stData st = Some b ∧ bSessionID b = sid.

Record tracks s l : Prop := {
  t_count dev : connections s !! dev = positive (count dev l);
  t_plane p : dataPlane s = Some p → dp_ok p ∧ belongs p l;
  t_ids st b : st ∈ l → stData st = Some b → dp_id (bSessionID b)
}.

Lemma tracks_same s s' l : same_presence s s' → tracks s l → tracks s' l.
Proof.
  intros [E1 E2] [T1 T2 T3]. split; [by rewrite E1| |done]. intros p. rewrite E2. apply T2.
Qed.
Lemma tracks_perm s l k : l ≡ₚ k → tracks s l → tracks s k.
Proof.
  intros Hp [T1 T2 T3]. split; [intros dev; by rewrite <- (count_perm dev l k Hp)| |];
    [|intros st b; rewrite <- Hp; apply T3].
  intros p Ep. destruct (T2 p Ep) as [Hok Hb]. split; [done|]. intros dev sid Hd.
  destruct (Hb dev sid Hd) as (st & b & Hst & Hr). exists st, b. by rewrite <- Hp.
Qed.

(** A device connects: one more stream, and its session if it has one. *)
Lemma tracks_connected s l st :
  (∀ dev, connections s !! dev = positive (count dev l)) →
  (∀ p, dataPlane s = Some p → dp_ok p ∧ belongs p (st :: l)) →
  (∀ x b, x ∈ st :: l → stData x = Some b → dp_id (bSessionID b)) →
  tracks (deviceConnected (stDevice st) s) (st :: l).
Proof.
  intros T1 T2 T3. split; [|done|done]. intros dev. rewrite count_cons.
  unfold deviceConnected. cbn [connections set_connections].
  pose proof (count_nonneg dev l). pose proof (count_nonneg (stDevice st) l).
  rewrite T1, positive_S by done. unfold one. case_bool_decide as E.
  - rewrite <- E, lookup_insert_eq. unfold positive. rewrite (proj2 (Z.leb_gt _ _)) by lia. f_equal. lia.
  - rewrite lookup_insert_ne by done. by rewrite T1.
Qed.

Lemma disconnected_count s l st :
  (∀ dev, connections s !! dev = positive (count dev (st :: l))) →
  ∀ dev, connections (deviceDisconnected (stDevice st) s) !! dev = positive (count dev l).
Proof.
  intros T1 dev. pose proof (count_nonneg dev l). pose proof (count_nonneg (stDevice st) l).
  unfold deviceDisconnected. rewrite T1, positive_S by apply count_nonneg.
  pose proof (count_cons (stDevice st) st l) as Ec. unfold one in Ec.
  rewrite bool_decide_eq_true_2 in Ec by done. rewrite Ec.
  assert (∀ n, connections (if n <=? 1 then set_connections (delete (stDevice st) (connections s)) s
    else set_connections (<[stDevice st := n - 1]> (connections s)) s) !! dev =
    if bool_decide (stDevice st = dev) then positive (n - 1) else connections s !! dev) as ->.
  { intros n. unfold positive. case_bool_decide as E.
    - rewrite <- E. destruct (Z.leb_spec n 1), (Z.leb_spec (n - 1) 0); try lia; cbn;
        [by rewrite lookup_delete_eq|by rewrite lookup_insert_eq].
    - case_match; cbn; [by rewrite lookup_delete_ne|by rewrite lookup_insert_ne]. }
  rewrite T1, count_cons. unfold one. case_bool_decide as E; [rewrite <- E|]; f_equal; lia.
Qed.

(** A stream ends. *)
Lemma tracks_close s l st : tracks s (st :: l) → tracks (close_stream st s) l.
Proof.
  intros [T1 T2 T3]. pose proof (disconnected_count s l st T1) as Hc.
  assert (∀ x b, x ∈ l → stData x = Some b → dp_id (bSessionID b)) as Hids
    by (intros x b Hx; apply T3; by right).
  assert (dataPlane (deviceDisconnected (stDevice st) s) = dataPlane s) as Ep
    by (unfold deviceDisconnected; by case_match).
  unfold close_stream. rewrite Ep.
  assert (∀ p dev sid, dp_ok p ∧ belongs p (st :: l) → dp_sessions p !! dev = Some sid →
    ¬ (dev = stDevice st ∧ ∃ b, stData st = Some b ∧ bSessionID b = sid) →
    ∃ st' b, st' ∈ l ∧ stDevice st' = dev ∧ stData st' = Some b ∧ bSessionID b = sid) as Hother.
  { intros p dev sid [_ Hb] Hd Hn. destruct (Hb dev sid Hd) as (st' & b & Hst & E1 & E2 & E3).
    exists st', b. apply elem_of_cons in Hst as [->|Hst]; [|done]. destruct Hn. split; eauto. }
  destruct (dataPlane s) as [p|] eqn:Edp; [|destruct (stData st); (split; [done| |done]);
    rewrite Ep; by intros ? [=]].
  destruct (stData st) as [b|] eqn:Eb; (split; [exact Hc| |exact Hids]); cbn [dataPlane set_dataPlane].
  - intros p' [= <-]. destruct (dp_remove_law (stDevice st) (bSessionID b) p) as [Hok Hd];
      [by apply T2|by apply (T3 st b); [left|]|]. split; [done|]. intros dev sid. rewrite Hd. intros Hs.
    case_bool_decide as Ecur.
    + apply lookup_delete_Some in Hs as [Hne Hs]. apply (Hother p); [by apply T2|done|].
      intros [-> _]. done.
    + apply (Hother p); [by apply T2|done|]. intros [-> (b' & [= <-] & <-)]. done.
  - rewrite Ep. intros p' [= <-]. split; [by apply T2|]. intros dev sid Hs.
    apply (Hother p); [by apply T2|done|]. by intros [_ (b' & [=] & _)].
Qed.

(** ** Following a connection *)

Definition good s l : Prop := sink_ok (traffic s) ∧ tracks s l.

Lemma part_good {A} (m : H F P A) s x s1 l :
  heffect (respects true true) m → m s = (x, s1) → good s l → good s1 l.
Proof.
  intros Hm E [Hs Ht]. destruct (Hm s Hs) as [Hs' _ _ Hp]. rewrite E in *. cbn in *.
  split; [done|]. by apply (tracks_same s); [apply Hp|].
Qed.
Lemma stream_sink {A} (m : H F P A) s x s1 l :
  heffect (respects true false) m → m s = (x, s1) → good s l → sink_ok (traffic s1).
Proof. intros Hm E [Hs _]. destruct (Hm s Hs) as [Hs' _ _ _]. by rewrite E in Hs'. Qed.

Lemma opened_reply a : opened (Reply a) = [].
Proof. done. Qed.

(** The end of a stream leaves the others. *)
Lemma end_good st evs s l o s' :
  good s (st :: l) → outcome (end_stream st evs) s = (o, s') → good s' (opened o ++ l).
Proof.
  intros Hg Ho. assert (o = Stream None evs ∧ s' = close_stream st s) as [-> ->].
  { unfold end_stream, outcome, hbind, hupd, hstop in Ho. by simplify_eq. }
  destruct (close_stream_frame st s) as (_ & Et & _). unfold good. rewrite Et. split; [apply Hg|].
  by apply tracks_close, Hg.
Qed.

(** Writing the pending commands never answers by itself. *)
Definition runs {A} (m : H F P A) : Prop := ∀ s o s', m s ≠ (inl o, s').
Lemma runs_bind {A B} (m : H F P A) (k : A → H F P B) : runs m → (∀ a, runs (k a)) → runs (hbind m k).
Proof.
  intros Hm Hk s o s'. unfold hbind. destruct (m s) as [[o1|a] s1] eqn:E; [by apply Hm in E|apply Hk].
Qed.
Lemma runs_store {A} (m : M A) : runs (hstore (F := F) (P := P) m).
Proof. intros s o s'. unfold hstore, hrun. by repeat case_match. Qed.
Lemma runs_pending e i dev : runs (writePendingCommands (F := F) (P := P) e i dev).
Proof.
  unfold writePendingCommands. apply runs_bind; [apply runs_store|]. intros [l|msg]; [|by intros s].
  generalize (S i) as j. induction l as [|c l IH]; intros j; cbn [write_commands]; [by intros s|].
  apply runs_bind; [apply runs_store|]. intros [u|msg]; [|apply IH].
  case_match; [|by intros s]. apply runs_bind; [apply IH|]. by intros [evs ok] s.
Qed.

Lemma pending_good e i dev (k : list Event * bool → H F P Empty_set) s l o s' :
  good s l → outcome (hbind (writePendingCommands e i dev) k) s = (o, s') →
  ∃ events ok s1, good s1 l ∧ outcome (k (events, ok)) s1 = (o, s').
Proof.
  intros Hg Ho. apply hbind_cases in Ho as [Ho|([evs ok] & s1 & E & Ho)];
    [by apply runs_pending in Ho|].
  exists evs, ok, s1. split; [|done]. by eapply part_good; [apply calmly_pending|..].
Qed.

(** A field that [good] does not look at. *)
Lemma good_same s s' l : traffic s' = traffic s → same_presence s s' → good s l → good s' l.
Proof. intros E Hp [Hs Ht]. split; [by rewrite E|by eapply tracks_same]. Qed.

Lemma open_good e st s l o s' :
  good (deviceConnected (stDevice st) s) (st :: l) →
  outcome (open_stream e st) s = (o, s') → good s' (opened o ++ l).
Proof.
  intros Hg Ho. unfold open_stream in Ho.
  apply hbind_cases in Ho as [Ho|([] & s1 & E1 & Ho)]; [done|]. injection E1 as <-.
  apply hbind_cases in Ho as [Ho|(s2 & s1 & E2 & Ho)]; [done|]. injection E2 as <- <-.
  case_match; [by eapply end_good|].
  apply (pending_good _ _ _ _ _ _ _ _ Hg) in Ho as (evs & ok & s3 & Hg3 & Ho).
  destruct ok; cbn [negb] in Ho; [|by eapply end_good].
  injection Ho as <- <-. cbn [opened app]. unfold commandSignal. case_match; [done|].
  by apply (good_same s3).
Qed.

Lemma wake_commands_good e st s l o s' :
  good s (st :: l) → outcome (stream_commands e st) s = (o, s') → good s' (opened o ++ l).
Proof.
  intros Hg Ho. unfold stream_commands in Ho.
  apply (pending_good _ _ _ _ _ _ _ _ Hg) in Ho as (evs & ok & s3 & Hg3 & Ho).
  destruct ok; [|by eapply end_good]. by injection Ho as <- <-.
Qed.

Lemma ping_good e st s l o s' :
  good s (st :: l) → outcome (stream_ping e st) s = (o, s') → good s' (opened o ++ l).
Proof.
  intros Hg Ho. unfold stream_ping in Ho.
  apply hbind_cases in Ho as [Ho|(cur & s1 & E & Ho)]; [by apply runs_store in Ho|].
  assert (good s1 (st :: l)) as Hg1.
  { eapply part_good; [|exact E|done]. apply respects_store. unfold GetDevice, listDevices.
    effect_tac ltac:(fail). }
  destruct cur as [cur|msg]; [|by eapply end_good]. case_match; [by eapply end_good|].
  apply hbind_cases in Ho as [Ho|(s2 & s3 & E2 & Ho)]; [done|]. injection E2 as <- <-.
  apply hbind_cases in Ho as [Ho|(u & s4 & E4 & Ho)]; [by apply runs_store in Ho|].
  injection Ho as <- <-. cbn [opened app].
  eapply part_good; [|exact E4|done]. apply respects_store. auto with calm.
Qed.

Lemma wake_good e st k s l o s' :
  good s (st :: l) → outcome (stream_wake e st k) s = (o, s') → good s' (opened o ++ l).
Proof.
  destruct k; cbn [stream_wake]; intros Hg Ho;
    [by eapply end_good|by eapply end_good|by eapply ping_good|by eapply wake_commands_good|].
  apply hbind_cases in Ho as [Ho|([] & s1 & E1 & Ho)]; [done|]. injection E1 as <-.
  eapply wake_commands_good; [|exact Ho]. by apply (good_same s).
Qed.

(** The device that [GetDevice] finds is the one asked for. *)
Lemma GetDevice_id dev d d0 : fst (GetDevice dev d0) = Ok d → dID d = dev.
Proof.
  unfold GetDevice, listDevices, bind, query. intros Hd.
  destruct (map device_of _) as [|x [|y k]] eqn:E; try done. injection Hd as <-.
  assert (x ∈ map device_of (order_by (λ a b, text_le (d_created a) (d_created b))
    (List.filter (λ row, bool_decide (d_id row = dev)) (devices d0)))) as Hx
    by (rewrite E; by left).
  apply list_elem_of_fmap in Hx as (row & -> & Hr). unfold order_by in Hr.
  rewrite (merge_sort_Permutation _ _) in Hr. apply list_elem_of_In, filter_In in Hr as [_ Hr].
  by apply bool_decide_eq_true in Hr.
Qed.

(** ** Connecting *)

(** The data plane's part of a connection, and the count. *)
Lemma data_good e r d s s1 data l st :
  sane_env e → data_session e r d s = (data, s1) → good s l → dID d = stDevice st →
  match data with
  | Some (Err _) => good s1 l
  | Some (Ok b) => stData st = Some b → good (deviceConnected (stDevice st) s1) (st :: l)
  | None => stData st = None → good (deviceConnected (stDevice st) s1) (st :: l)
  end.
Proof.
  intros [_ Hdraws] Hd [Hs Ht] Hdev. unfold data_session in Hd.
  assert (∀ p, belongs p l → belongs p (st :: l)) as Hmono.
  { intros p Hb dev sid Hp. destruct (Hb dev sid Hp) as (x & b & Hx & Hr). exists x, b.
    split; [by right|done]. }
  assert ((∀ b, stData st = Some b → dp_id (bSessionID b)) →
    ∀ x b, x ∈ st :: l → stData x = Some b → dp_id (bSessionID b)) as Hids.
  { intros Hst x b [->|Hx]%elem_of_cons; [apply Hst|by apply (t_ids _ _ Ht)]. }
  assert (stData st = None → good (deviceConnected (stDevice st) s) (st :: l)) as Hplain.
  { intros En. split; [done|]. apply tracks_connected; [apply Ht| |].
    - intros p Ep. destruct (t_plane _ _ Ht p Ep). auto.
    - apply Hids. by rewrite En. }
  destruct (dataPlane s) as [p|] eqn:Ep; [|by injection Hd as <- <-].
  destruct (secureRequest r); [|by injection Hd as <- <-].
  pose proof (dp_register_law (dp_secret e) (dp_draws e) (now e 3) (dID d) (ParseIP (VirtualIP d)) p
    (proj1 (t_plane _ _ Ht p Ep)) Hdraws) as Hl.
  destruct (dp_register _ _ _ _ _ p) as [[b|msg] p'] eqn:Er; injection Hd as <- <-.
  - destruct Hl as (Hok & Hid & Hsess). intros Eb. split; [done|].
    apply (tracks_connected (set_dataPlane (Some p') s)); [apply Ht| |
      apply Hids; rewrite Eb; by intros ? [= <-]].
    cbn [dataPlane set_dataPlane]. intros p2 [= <-]. split; [done|].
    intros dev sid. rewrite Hsess, Hdev. intros [[<- <-]|[Hne Hx]]%lookup_insert_Some.
    + exists st, b. split; [by left|done].
    + by apply (Hmono p (proj2 (t_plane _ _ Ht p Ep))).
  - subst p'. by apply (good_same s); [|split; [|rewrite Ep]|].
Qed.

Lemma connect_open_good e r dev s4 l o s' :
  sane_env e → good s4 l → outcome (connect_open e r dev) s4 = (o, s') → good s' (opened o ++ l).
Proof.
  intros He Hg4 Ho. unfold connect_open in Ho.
  destruct (negb (flusher e)); [by injection Ho as <- <-|].
  unfold htry in Ho. apply hbind_cases in Ho as [Ho|(d & s5 & E5 & Ho)]; [by apply runs_store in Ho|].
  assert (good s5 l) as Hg5.
  { eapply part_good; [|exact E5|done]. apply respects_store. unfold GetDevice, listDevices.
    effect_tac ltac:(fail). }
  destruct d as [d|msg]; [|by injection Ho as <- <-].
  assert (dID d = dev) as Hid.
  { unfold hstore, hrun in E5. destruct (GetDevice dev (store (world s4))) as [x d1] eqn:Ex.
    injection E5 as -> _. apply (GetDevice_id dev d (store (world s4))). by rewrite Ex. }
  apply hbind_cases in Ho as [Ho|(data & s6 & E6 & Ho)]; [unfold hrun in Ho; by case_match|].
  assert (data_session e r d s5 = (data, s6)) as Ed
    by (unfold hrun in E6; destruct (data_session _ _ _ _); by injection E6 as -> ->).
  destruct data as [[b|msg]|].
  - pose proof (data_good e r d s5 s6 _ l (mkStream dev (VirtualIP d) (Some b)) He Ed Hg5 Hid eq_refl) as Hx.
    exact (open_good _ _ _ _ _ _ Hx Ho).
  - pose proof (data_good e r d s5 s6 _ l (mkStream dev (VirtualIP d) None) He Ed Hg5 Hid) as Hx.
    by injection Ho as <- <-.
  - pose proof (data_good e r d s5 s6 _ l (mkStream dev (VirtualIP d) None) He Ed Hg5 Hid eq_refl) as Hx.
    exact (open_good _ _ _ _ _ _ Hx Ho).
Qed.

Lemma connect_good e r s l o s' :
  sane_env e → good s l → outcome (deviceConnect e r) s = (o, s') → good s' (opened o ++ l).
Proof.
  intros He Hg Ho. unfold deviceConnect in Ho. destruct (decode r) as [input|]; [|by injection Ho as <- <-].
  cbn [hdecode] in Ho. set (dev := coDeviceID input) in *.
  apply hbind_cases in Ho as [Ho|(c & s1 & E1 & Ho)]; [done|]. injection E1 as <- <-.
  assert (good (set_challenges (delete dev (challenges s)) s) l) as Hg1 by by apply (good_same s).
  apply hbind_cases in Ho as [Ho|(key & s2 & E2 & Ho)]; [by apply runs_store in Ho|].
  assert (good s2 l) as Hg2.
  { eapply part_good; [|exact E2|done]. apply respects_store. unfold DevicePublicKey.
    effect_tac ltac:(fail). }
  destruct (challenge_fresh _ _) as [nonce|]; [|by injection Ho as <- <-].
  destruct key as [key|msg]; [|by injection Ho as <- <-].
  destruct (DecodeString _) as [sig|]; [|by injection Ho as <- <-].
  destruct (negb (ed25519_verify _ _ _)); [by injection Ho as <- <-|].
  apply hbind_cases in Ho as [Ho|(u & s3 & E3 & Ho)]; [by apply runs_store in Ho|].
  apply (part_good _ _ _ _ l) in E3; [|apply respects_store; auto with calm|done].
  apply hbind_cases in Ho as [Ho|([] & s4 & E4 & Ho)].
  { unfold audit in Ho. by apply runs_bind in Ho; [|apply runs_store|]. }
  apply (part_good _ _ _ _ l) in E4; [|apply calmly_audit|done].
  by apply (connect_open_good e r dev s4 l).
Qed.

(** ** Every step *)

Lemma serve_good e r s l o s' :
  sane_env e → good s l → serve e r s = (o, s') → good s' (opened o ++ l).
Proof.
  intros He Hg Ho. unfold serve in Ho.
  pose proof (limit_frame (limit_now e) (RemoteAddr r) s) as (_ & E2 & _ & E4).
  destruct (rateLimit _ _ s) as [ok s1]. cbn [snd] in *.
  assert (good s1 l) as Hg1 by by apply (good_same s).
  destruct ok; [|by injection Ho as <- <-].
  destruct (outcome (dispatch e r) s1) as [o1 s2] eqn:Eo. injection Ho as <- <-.
  assert (opened (secured o1) = opened o1) as -> by by destruct o1.
  destruct (decide (mux (Method r) (Path r) = TConnect)) as [Hc|Hc].
  { unfold dispatch in Eo. rewrite Hc in Eo. by eapply connect_good. }
  assert (∃ a, o1 = Reply a) as [a ->].
  { unfold outcome in Eo. destruct (dispatch e r s1) as [[o2|[]] s3] eqn:Ed. injection Eo as -> ->.
    by eapply replies_dispatch. }
  cbn [opened app]. assert (heffect (respects false true) (dispatch (F := F) (P := P) e r)) as Hd.
  { destruct (is_settings_patch r) eqn:Hp; [|by apply respects_weaken, calmly_dispatch].
    destruct (mux (Method r) (Path r)) eqn:Hm;
      try (by apply respects_weaken, calmly_dispatch; rewrite ?Hm).
    unfold dispatch. rewrite Hm. apply follows_authorized. intros u. rewrite api_settings by done.
    apply follows_patch_settings. }
  pose proof (outcome_effect _ _ Hd s1 (proj1 Hg1)) as [Hs2 _ _ Hp2]. rewrite Eo in *.
  split; [done|]. by eapply tracks_same; [apply Hp2|apply Hg1].
Qed.

Lemma step_good x y : ctl_step x y → good (server x) (streams x) → good (server y) (streams y).
Proof.
  intros Hst. pose proof (ctl_step_respects x y Hst) as Hr. revert Hr.
  destruct Hst as [e r s l o s' He Hs|e k st s l1 l2 o s' He _ Hs|t packet s l|b t err m w s l Hf|
    p p' s l Ep Hok Hsess|rnd now name ph s l|tok rnd now1 now2 usr ttl uses s l];
    cbn [server streams]; intros Hr Hg; pose proof (Hr (proj1 Hg)) as [Hsink _ _ _].
  - by eapply serve_good.
  - assert (good s (st :: l1 ++ l2)) as Hg' by
      (split; [apply Hg|]; eapply tracks_perm; [|apply Hg]; by rewrite Permutation_middle).
    pose proof (wake_good e st k s (l1 ++ l2) o s' Hg' Hs) as [_ Ht]. split; [done|].
    eapply tracks_perm; [|exact Ht].
    rewrite !(assoc_L (++)). by rewrite (comm (++) (opened o)).
  - split; [done|]. by apply (tracks_same s); [|apply Hg].
  - split; [done|]. by apply (tracks_same s); [|apply Hg].
  - split; [done|]. split; [apply Hg| |apply Hg]. cbn [dataPlane set_dataPlane]. intros p2 [= <-].
    split; [done|]. unfold belongs. rewrite Hsess.
    by apply (t_plane s l (proj2 Hg) p Ep).
  - apply (part_good (hstore (CreateAdmin rnd now name ph)) s
      _ _ l (respects_store true true _ (calm_create_admin _ _ _ _)) (surjective_pairing _) Hg).
  - apply (part_good (hstore (CreateEnrollmentToken tok rnd now1 now2 usr ttl uses)) s
      _ _ l (respects_store true true _ (calm_create_token _ _ _ _ _ _ _)) (surjective_pairing _) Hg).
Qed.

Lemma run_good x y : rtc ctl_step x y → good (server x) (streams x) → good (server y) (streams y).
Proof. induction 1 as [|x y z Hxy _ IH]; [done|]. intros Hg. by apply IH, (step_good x). Qed.

(** C8: presence. In every state the server reaches, a device counts as online
    exactly while it has an open event stream, and every session of the data
    plane belongs to an open stream of its device: however streams end, nothing
    is left behind. When a stream ends, its own session ends if it is still the
    device's, and no other: not the one of a newer stream. *)
Theorem presence d s x :
  booted d s → rtc ctl_step (mkRun s []) x →
  (∀ dev, deviceOnline (server x) dev = true ↔ ∃ st, st ∈ streams x ∧ stDevice st = dev) ∧
  (∀ p, dataPlane (server x) = Some p → belongs p (streams x) ∧
   ∀ st b, st ∈ streams x → stData st = Some b →
   ∃ p', dataPlane (close_stream st (server x)) = Some p' ∧
     dp_sessions p' = if bool_decide (dp_sessions p !! stDevice st = Some (bSessionID b))
                      then delete (stDevice st) (dp_sessions p) else dp_sessions p).
Proof.
  intros [_ Hs Hc Hp] Hx. assert (good s []) as Hg.
  { split; [done|]. split; [intros dev; by rewrite Hc| |by intros st b ?%elem_of_nil].
    intros p Ep. destruct (Hp p Ep) as [Hok He]. split; [done|]. intros dev sid. by rewrite He. }
  apply (run_good _ _ Hx) in Hg as [_ Ht]. split.
  - intros dev. rewrite <- count_pos. unfold deviceOnline. rewrite (t_count _ _ Ht).
    rewrite positive_S by apply count_nonneg. apply Z.ltb_lt.
  - intros p Ep. split; [by apply (t_plane _ _ Ht)|]. intros st b Hst Eb.
    assert (dataPlane (deviceDisconnected (stDevice st) (server x)) = Some p) as Ed
      by (unfold deviceDisconnected; by case_match).
    exists (dp_remove (stDevice st) (bSessionID b) p). unfold close_stream. rewrite Eb, Ed.
    split; [done|]. apply dp_remove_law; [by apply (t_plane _ _ Ht)|by apply (t_ids _ _ Ht st)].
Qed.
End presence.
