(* ===== verification/ControlAccess.v ===== *)
(** * ControlAccess: who may do what ([internal/control/server.go])

    The rate limiter against a reference that remembers every accepted request;
    the permissions of the management API as a table, against the dispatcher;
    and the proofs with which devices open streams and report results. *)
From S2P Require Import Prelude Text Net Clock Calendar Http Traffic Duration Protocol Crypto.
From S2P Require Import Session Database Accounts Devices CommandStore History StoreSteps.
From S2P Require Import Auth Control ControlAPI ControlStream ControlEffects.
From Stdlib Require Import Init.Byte Strings.Byte.

(** ** The rate limiter *)

(** The reference: every accepted request is remembered with its host. *)
Definition host_of (remote : string) : string := default "" (fst <$> SplitHostPort remote).
Definition in_minute (t : Z) (h : string) (p : Z * string) : bool :=
  bool_decide (snd p = h) && (t - fst p <? Minute).
Definition admits (t : Z) (h : string) (accepted : list (Z * string)) : bool :=
  bool_decide (length (List.filter (in_minute t h) accepted) < request_limit)%nat.
Fixpoint admitted (requests : list (Z * string)) (accepted : list (Z * string)) : list bool :=
  match requests with
  | [] => []
  | (t, remote) :: requests =>
    let h := host_of remote in
    let b := admits t h accepted in
    b :: admitted requests (if b then accepted ++ [(t, h)] else accepted)
  end.

Section limiter.
Context {F P : Type}.
Implicit Types (s : Control F P).

(** The limiter on a sequence of requests: their times and remote addresses. *)
Fixpoint limit_all (requests : list (Z * string)) s : list bool :=
  match requests with
  | [] => []
  | (t, remote) :: requests =>
    let '(ok, s) := rateLimit t remote s in ok :: limit_all requests s
  end.

Definition times_of (h : string) (accepted : list (Z * string)) : list Z :=
  map fst (List.filter (λ p, bool_decide (snd p = h)) accepted).

Lemma Sub_minute t x : (Sub t x <? Minute) = (t - x <? Minute).
Proof. unfold Sub, Minute, Second. apply eq_true_iff_eq. rewrite !Z.ltb_lt. lia. Qed.

Lemma recent_recent t t' xs : t ≤ t' → recent t' (recent t xs) = recent t' xs.
Proof.
  intros Ht. unfold recent. induction xs as [|x xs IH]; [done|]. cbn [List.filter].
  rewrite (Sub_minute t x). destruct (Z.ltb_spec (t - x) Minute); cbn [List.filter].
  - case_match; [by f_equal|done].
  - rewrite (Sub_minute t' x), (proj2 (Z.ltb_ge _ _)) by lia. exact IH.
Qed.
Lemma recent_app t xs ys : recent t (xs ++ ys) = recent t xs ++ recent t ys.
Proof. apply List.filter_app. Qed.

Lemma in_minute_times t h accepted :
  length (List.filter (in_minute t h) accepted) = length (recent t (times_of h accepted)).
Proof.
  unfold times_of, recent. induction accepted as [|[x k] l IH]; [done|].
  cbn [List.filter in_minute fst snd]. unfold in_minute at 1. cbn [fst snd].
  case_bool_decide; cbn [andb map List.filter fst]; [|done].
  rewrite Sub_minute. case_match; cbn [length]; by rewrite ?IH.
Qed.

Lemma times_of_snoc h accepted t k :
  times_of h (accepted ++ [(t, k)]) =
  times_of h accepted ++ if bool_decide (k = h) then [t] else [].
Proof. unfold times_of. rewrite List.filter_app, map_app. cbn. by case_bool_decide. Qed.

(** The limiter remembers what still matters of the accepted requests. *)
Definition remembers (T : Z) (accepted : list (Z * string)) s : Prop := ∀ h t, T ≤ t →
  recent t (default [] (hits s !! h)) = recent t (times_of h accepted).

Lemma limit_step T accepted s t remote :
  remembers T accepted s → T ≤ t →
  let h := host_of remote in
  fst (rateLimit t remote s) = admits t h accepted ∧
  remembers t (if admits t h accepted then accepted ++ [(t, h)] else accepted)
    (snd (rateLimit t remote s)).
Proof.
  intros Hr Ht h. pose proof (Hr h t Ht) as Hh.
  assert (admits t h accepted = negb (bool_decide (request_limit ≤
    length (recent t (default [] (hits s !! h))))%nat)) as Hv.
  { unfold admits. rewrite in_minute_times, <- Hh.
    apply eq_true_iff_eq. rewrite negb_true_iff, bool_decide_eq_true, bool_decide_eq_false. lia. }
  rewrite Hv. unfold rateLimit. fold h. change (default "" (fst <$> SplitHostPort remote)) with h.
  destruct (bool_decide (request_limit ≤ _)%nat); cbn [negb fst snd]; (split; [done|]);
    intros k t' Ht'; cbn [hits set_hits]; destruct (decide (k = h)) as [->|Hne].
  - rewrite lookup_insert_eq. cbn [default from_option id]. rewrite recent_recent by done. apply Hr. lia.
  - rewrite lookup_insert_ne by done. apply Hr. lia.
  - rewrite lookup_insert_eq, times_of_snoc, bool_decide_eq_true_2 by done. cbn [default from_option id].
    rewrite !recent_app, recent_recent by done. f_equal. apply Hr. lia.
  - rewrite lookup_insert_ne by done. rewrite times_of_snoc, bool_decide_eq_false_2 by done.
    rewrite app_nil_r. apply Hr. lia.
Qed.

Lemma limit_all_spec requests T accepted s :
  remembers T accepted s → Sorted Z.le (T :: map fst requests) →
  limit_all requests s = admitted requests accepted.
Proof.
  revert T accepted s. induction requests as [|[t remote] l IH]; intros T accepted s Hr Hs; [done|].
  cbn [limit_all admitted]. apply Sorted_inv in Hs as [Hs Ht]. apply HdRel_inv in Ht.
  cbn [fst] in Ht. destruct (limit_step T accepted s t remote Hr Ht) as [Hv Hr'].
  destruct (rateLimit t remote s) as [ok s1]. cbn [fst snd] in *. subst ok. f_equal.
  by eapply IH.
Qed.

(** C18: the rate limiter is the reference limiter: on any sequence of requests
    with a clock that does not go back, a request passes exactly when fewer
    than 120 requests of its host passed in the minute before it, although the
    limiter forgets every time that is out of the window. *)
Theorem rate_limit_exact requests s :
  hits s = ∅ → Sorted Z.le (map fst requests) → limit_all requests s = admitted requests [].
Proof.
  intros Hs Hsort. destruct requests as [|[t remote] l]; [done|].
  apply (limit_all_spec _ t); [|constructor; [exact Hsort|constructor; cbn; lia]].
  intros h t' _. by rewrite Hs, lookup_empty.
Qed.
End limiter.

(** ** Permissions *)

Section access.
Context `{Primitives} {F P : Type} `{Inputs} `{Externals F} `{DataPlane P}.
Implicit Types (e : Env) (r : Request) (u : User) (s : Control F P).

(** The permission each endpoint asks for: method, path, permission. *)
Definition at_path (p : string) : string → bool := λ path, path =s p.
Definition under (p : string) : string → bool := λ path, has_prefix path p.
Definition rules : list (string * (string → bool) * string) :=
  [("GET", at_path "devices", "device.view"); ("PATCH", under "devices/", "device.rename");
   ("GET", at_path "server/settings", "server.configure"); ("PATCH", at_path "server/settings", "server.configure");
   ("GET", at_path "network/flows/history", "network.flow.view");
   ("DELETE", at_path "network/flows/history", "server.configure");
   ("GET", at_path "network/flows", "network.flow.view");
   ("GET", at_path "server/startup", "server.configure"); ("PATCH", at_path "server/startup", "server.configure");
   ("GET", at_path "users", "user.view"); ("POST", at_path "users", "user.create");
   ("PUT", λ p, has_prefix p "users/" && has_suffix p "/password", "user.password.update");
   ("DELETE", under "users/", "user.delete"); ("PATCH", under "users/", "user.create");
   ("GET", at_path "tokens", "token.view"); ("POST", at_path "tokens", "token.create");
   ("DELETE", under "tokens/", "token.revoke"); ("DELETE", under "devices/", "device.revoke");
   ("GET", at_path "commands", "device.view"); ("GET", at_path "audit", "audit.view")].
(** Acting on a device asks for the permission of the action's name. *)
Definition action_of (path : string) : option string :=
  if has_suffix path "/restart" || has_suffix path "/shutdown" || has_suffix path "/disconnect"
  then match split x2f path with [_; _; action] => Some action | _ => None end
  else None.
Definition required (method path : string) : option string :=
  match find (λ '(m, p, _), (method =s m) && p path) rules with
  | Some (_, _, permission) => Some permission
  | None =>
    if (method =s "POST") && negb (path =s "auth/logout")
    then (λ a, "device." +:+ a) <$> action_of path else None
  end.

Definition forbidden : Response := problem 403 "forbidden" "permission denied".
Definition unauthorized : Response := problem 401 "unauthorized" "valid session required".

Lemma permit_denied {A} u p (k : H F P A) s :
  Allowed (Role u) p = false → permit u p k s = (inl (Reply forbidden), s).
Proof. intros Ha. unfold permit. by rewrite Ha. Qed.

(** A method and a path that no rule names. *)
Lemma no_rule m path x y p :
  (m =s x) && (path =s y) = true → required m path = Some p → required x y = Some p.
Proof. intros [Em Ep]%andb_true_iff. apply String.eqb_eq in Em, Ep. by subst. Qed.

(** Without the permission an endpoint asks for, nothing happens. *)
Lemma api_denied e r u s p :
  required (Method r) (api_path r) = Some p → Allowed (Role u) p = false →
  api e r u s = (inl (Reply forbidden), s).
Proof.
  intros Hr Ha. pose proof Hr as Hreq. unfold required, rules, at_path, under in Hreq.
  cbn [find] in Hreq. rewrite andb_assoc in Hreq. unfold api. cbv zeta.
  repeat match goal with |- (if ?c then _ else _) _ = _ =>
    let E := fresh "E" in
    destruct c eqn:E; rewrite ?E in Hreq; cbn [orb] in Hreq;
      [first [by (injection Hreq as <-; apply permit_denied)
             |exfalso; apply (no_rule _ _ _ _ _ E) in Hr; by vm_compute in Hr
             |idtac]|] end.
  - destruct ((Method r =s "POST") && negb _); [|done]. unfold action_of in Hreq.
    case_match; [|done]. unfold command. destruct (split _ _) as [|x1 [|x2 [|x3 [|x4 l]]]]; try done.
    injection Hreq as <-. by apply permit_denied.
  - exfalso. destruct (Method r =s "POST"); [|done]. unfold action_of in Hreq.
    cbn [andb] in E22. rewrite E22 in Hreq. by destruct (negb _).
Qed.

(** *** What a reading role can change *)

(** Every table but the sessions and the commands is as it was. *)
Definition kept (d d' : db) : Prop :=
  users d' = users d ∧ user_roles d' = user_roles d ∧ devices d' = devices d ∧
  tokens d' = tokens d ∧ results d' = results d ∧ audit_logs d' = audit_logs d ∧
  settings d' = settings d ∧ flow_history d' = flow_history d.
#[local] Instance kept_preorder : PreOrder kept.
Proof.
  split; [done|]. intros a b c (? & ? & ? & ? & ? & ? & ? & ?) (? & ? & ? & ? & ? & ? & ? & ?).
  unfold kept. split_and!; congruence.
Qed.
(** The rest of the server too, except for the monitor, which a snapshot prunes. *)
Record untouched_by s s' : Prop := {
  u_kept : kept (store (world s)) (store (world s'));
  u_on : flowHistoryOn (world s') = flowHistoryOn (world s);
  u_mb : flowHistoryMB (world s') = flowHistoryMB (world s);
  u_static : static s' = static s; u_plane : dataPlane s' = dataPlane s;
  u_challenges : challenges s' = challenges s; u_connections : connections s' = connections s;
  u_signals : commandSignals s' = commandSignals s; u_ping : pingIntervalNS s' = pingIntervalNS s;
  u_ports : ports s' = ports s; u_host : host s' = host s;
  u_shutdown : shutdownAsked s' = shutdownAsked s
}.
#[local] Instance untouched_preorder : PreOrder untouched_by.
Proof.
  split; [by split|]. intros a b c [] []. split; try congruence. by etrans.
Qed.

Lemma untouched_store {A} (m : M A) : effect kept m → heffect untouched_by (hstore (F := F) (P := P) m).
Proof.
  intros Hm s. specialize (Hm (store (world s))). unfold hstore, hrun.
  by destruct (m (store (world s))) as [a d].
Qed.
Lemma untouched_snapshot t : heffect untouched_by (hrun (λ s : Control F P,
  let '(sn, m) := Snapshot t (traffic s) in (sn, set_traffic m s))).
Proof. intros s. unfold hrun. by destruct (Snapshot _ _). Qed.

Ltac kept_tac := effect_tac ltac:(untouched).
Ltac reading_tac := handler_tac ltac:(first
  [apply untouched_snapshot | apply untouched_store; solve [kept_tac | case_match; kept_tac]]).

Definition reads_only u : Prop := Role u = Member ∨ Role u = Viewer.

Lemma reader_allowed u p : reads_only u → Allowed (Role u) p = true →
  p ∈ ["device.view"; "user.view"; "token.view"; "audit.view"; "network.flow.view"].
Proof.
  intros [E|E] Ha; rewrite E in Ha; (eapply Allowed_row in Ha;
    [|reflexivity|by apply (bool_decide_unpack _); vm_compute]); [|done].
  apply list_elem_of_singleton in Ha as ->. by apply (bool_decide_unpack _); vm_compute.
Qed.
Lemma reader_denied {A} u p (k : H F P A) :
  reads_only u → p ∉ ["device.view"; "user.view"; "token.view"; "audit.view"; "network.flow.view"] →
  heffect untouched_by (permit u p k).
Proof.
  intros Hu Hp s. destruct (Allowed (Role u) p) eqn:Ea; [by destruct Hp; eapply reader_allowed|].
  by rewrite permit_denied.
Qed.

Lemma reader_command e r u path : reads_only u → heffect untouched_by (command (F := F) (P := P) e r u path).
Proof.
  intros Hu. unfold command. destruct (split _ _) as [|x1 [|x2 [|action [|x4 l]]]];
    try (apply heffect_reply; apply _).
  destruct (decide (action = "view")) as [->|Hne].
  - intros s. unfold permit. case_match; [by split|]. cbv zeta. unfold htry, hbind, hstore, hrun.
    by destruct s as [? [] ?].
  - apply reader_denied; [done|]. rewrite !elem_of_cons, elem_of_nil.
    intros [E|[E|[E|[E|[E|[]]]]]]; try done. by injection E.
Qed.

Lemma reader_api e r u : reads_only u → heffect untouched_by (api (F := F) (P := P) e r u).
Proof.
  intros Hu. unfold api.
  repeat match goal with |- heffect _ (if ?c then _ else _) => destruct c end;
    try (by apply reader_command);
    try (apply reader_denied; [done|by apply (bool_decide_unpack _); vm_compute]).
  all: unfold logout, list_devices, list_users, list_tokens, list_audit, list_commands,
    networkFlowHistory, networkFlows, server_status, DeleteSession, ListDevices, ListDevicesByUser,
    listDevices, Users, ListTokens, ListAudit, ListFlowHistory, ListCommands, ListCommandsByUser,
    listCommands, expire_all.
  all: reading_tac.
Qed.

(** *** The check of the session *)

Lemma SessionUser_pure now v d : snd (SessionUser now v d) = d.
Proof.
  unfold SessionUser, bind, query_row, fail, ret. destruct (session_join d (hash v)) as [|[x [y z]] l];
    [done|]. by case_match.
Qed.

Lemma authorized_run e r k s :
  authorized (F := F) (P := P) e r k s =
  match fst (SessionUser (auth_now e) (authToken r) (store (world s))) with
  | Ok u => k u s
  | Err _ => (inl (Reply unauthorized), s)
  end.
Proof.
  unfold authorized, htry, hbind, hstore, hrun.
  pose proof (SessionUser_pure (auth_now e) (authToken r) (store (world s))) as Hp.
  destruct (SessionUser _ _ _) as [[u|msg] d]; cbn [fst snd] in *; subst d;
    by rewrite set_store_same.
Qed.

(** A request for another address of a device. *)
Definition assigns_address r : Prop :=
  Method r = "PATCH" ∧ has_prefix (api_path r) "devices/" = true ∧
  ∃ input, decode (A := DevicePatch) r = Some input ∧ dpVirtualIP input ≠ None.

Lemma address_denied e r u s :
  assigns_address r → Allowed (Role u) "server.configure" = false →
  ∃ msg, api e r u s = (inl (Reply (problem 403 "forbidden" msg)), s).
Proof.
  intros (Em & Ep & input & Ed & Hip) Ha.
  assert (api (F := F) (P := P) e r u = patch_device e r u (api_path r)) as ->.
  { unfold api. rewrite Em, Ep. reflexivity. }
  unfold patch_device, permit. destruct (negb (Allowed (Role u) "device.rename")); [by eexists|].
  unfold decode in Ed. unfold decode. rewrite Ed. cbn [hdecode].
  destruct (dpVirtualIP input) as [ip|]; [|done]. cbn [is_none negb andb]. rewrite andb_false_r, Ha.
  by eexists.
Qed.

End access.
