(* ===== verification/ControlDevices.v ===== *)
(** * ControlDevices: what a device must prove, and how commands reach it

    A device opens its stream and reports results with a signature over a
    challenge that the server drew for it; a challenge is good for one attempt
    of either kind and for thirty seconds.  A command that is queued is written
    to the device's stream as soon as the stream wakes. *)
From S2P Require Import Prelude Text Net Clock Calendar Http Traffic Duration Protocol Crypto.
From S2P Require Import Session Database Accounts Devices CommandStore History StoreSteps.
From S2P Require Import Auth Control ControlAPI ControlStream ControlEffects.
From Stdlib Require Import Init.Byte Strings.Byte.

Section devices.
Context `{Primitives} {F P : Type} `{Inputs} `{Externals F} `{DataPlane P}.
Implicit Types (e : Env) (r : Request) (s : Control F P).

(** ** Proofs *)

(** A device that the store knows and has not revoked, with its key. *)
Definition device_key (dev : string) (d : db) : option (list byte) :=
  match where_is d_id dev (devices d) with
  | row :: _ => if d_revoked row then None else Some (d_key row)
  | [] => None
  end.

Lemma DevicePublicKey_run dev d :
  DevicePublicKey dev d =
  (match device_key dev d with
   | Some key => Ok key
   | None => fst (DevicePublicKey dev d)
   end, d) ∧ (device_key dev d = None → ∃ msg, fst (DevicePublicKey dev d) = Err msg).
Proof.
  unfold device_key, DevicePublicKey, bind, query_row, fail, ret.
  destruct (where_is d_id dev (devices d)) as [|row l]; [split; [done|by eexists]|].
  case_match; (split; [done|]); [by eexists|done].
Qed.

(** At time [t], [text nonce] is signed by the device's key over a challenge
    that is still good. *)
Definition proof_of (t : Z) (dev sigtext : string) (text : list byte → result (list byte)) s : Prop :=
  ∃ c key sig payload,
    challenges s !! dev = Some c ∧ t ≤ chExpires c ∧ device_key dev (store (world s)) = Some key ∧
    DecodeString sigtext = Some sig ∧ text (chNonce c) = Ok payload ∧
    ed25519_verify key payload sig = true.

(** The server without the device's challenge. *)
Definition spent (dev : string) s : Control F P := set_challenges (delete dev (challenges s)) s.

Lemma challenge_fresh_spec t c nonce :
  challenge_fresh t c = Some nonce ↔ ∃ ch, c = Some ch ∧ t ≤ chExpires ch ∧ chNonce ch = nonce.
Proof.
  unfold challenge_fresh, After. destruct c as [ch|]; [|split; [done|by intros (? & [=] & _)]].
  destruct (Z.ltb_spec (chExpires ch) t); split.
  - done.
  - intros (ch' & [= <-] & ? & _). lia.
  - intros [= <-]. by exists ch.
  - by intros (ch' & [= <-] & _ & <-).
Qed.

(** The checks common to both handlers. *)
Definition proof_ok (t : Z) (dev sigtext : string) (text : list byte → result (list byte)) s : bool :=
  match challenge_fresh t (challenges s !! dev), device_key dev (store (world s)),
        DecodeString sigtext with
  | Some nonce, Some key, Some sig =>
    match text nonce with Ok payload => ed25519_verify key payload sig | Err _ => false end
  | _, _, _ => false
  end.

Lemma proof_ok_spec t dev sigtext text s :
  proof_ok t dev sigtext text s = true ↔ proof_of t dev sigtext text s.
Proof.
  unfold proof_ok, proof_of. split.
  - destruct (challenge_fresh t (challenges s !! dev)) as [nonce|] eqn:Ec; [|done].
    apply challenge_fresh_spec in Ec as (c & Hc & Ht & <-).
    destruct (device_key dev (store (world s))) as [key|]; [|done].
    destruct (DecodeString sigtext) as [sig|]; [|done].
    destruct (text (chNonce c)) as [payload|] eqn:Et; [|done]. intros Hv.
    by exists c, key, sig, payload.
  - intros (c & key & sig & payload & Hc & Ht & -> & -> & Et & Hv).
    rewrite (proj2 (challenge_fresh_spec t (challenges s !! dev) (chNonce c))) by (by exists c).
    by rewrite Et.
Qed.

(** The key that the handlers ask the store for. *)
Lemma key_run dev s :
  hstore (F := F) (P := P) (DevicePublicKey dev) s = (inr (fst (DevicePublicKey dev (store (world s)))), s).
Proof.
  unfold hstore, hrun. destruct (DevicePublicKey_run dev (store (world s))) as [E _]. rewrite E.
  cbn [fst]. by rewrite set_store_same.
Qed.
Lemma key_cases dev d :
  match device_key dev d with
  | Some key => fst (DevicePublicKey dev d) = Ok key
  | None => ∃ msg, fst (DevicePublicKey dev d) = Err msg
  end.
Proof.
  destruct (DevicePublicKey_run dev d) as [E Hn]. destruct (device_key dev d); [by rewrite E|auto].
Qed.

(** *** Reporting a result *)

(** The text that is signed for a result. *)
Definition result_text (id : string) (input : CommandResult) (nonce : list byte) : result (list byte) :=
  CommandResultSigningPayload nonce (crDeviceID input) id (crStatus input) (crResult input) (crError input).

Definition result_run e r (id : string) (input : CommandResult) s : Outcome * Control F P :=
  match UpdateCommandResult (rnd e 0) (now e 1) (now e 2) id (crDeviceID input) (crStatus input)
          (crResult input) (crError input) (store (world s)) with
  | (Err msg, d) => (Reply (problem 409 "command_result_rejected" msg), set_world (set_store d (world s)) s)
  | (Ok _, d) =>
    (Reply (write 200 (Status_ (crStatus input))),
     set_world (set_store (snd (Audit (now e 3) (crDeviceID input) ("command." +:+ crStatus input) id
                                  (RemoteAddr r) "" d)) (world s)) s)
  end.

Definition result_sized (id : string) (input : CommandResult) : bool :=
  negb ((id =s "") || (4096 <? slen (crResult input)) || (4096 <? slen (crError input))).

Lemma command_result_run e r id input s :
  decode r = Some input → result_sized id input = true →
  let dev := crDeviceID input in
  outcome (deviceCommandResult e r id) s =
  if proof_ok (now e 0) dev (crSignature input) (result_text id input) s
  then result_run e r id input (spent dev s) else (Reply bad_proof, spent dev s).
Proof.
  intros Hd Hz. cbv zeta. apply negb_true_iff in Hz. set (dev := crDeviceID input).
  unfold deviceCommandResult, outcome. rewrite Hd. cbn [hdecode]. rewrite Hz. fold dev.
  unfold hbind at 1, hrun at 1, take_challenge. fold (spent dev s). unfold hbind at 1.
  rewrite key_run. change (world (spent dev s)) with (world s). unfold proof_ok, result_text. fold dev.
  pose proof (key_cases dev (store (world s))) as Hk.
  destruct (challenge_fresh _ _) as [nonce|]; [|done].
  destruct (device_key dev _) as [key|]; [rewrite Hk|destruct Hk as [msg ->]; done].
  destruct (DecodeString _) as [sig|]; [|done].
  destruct (CommandResultSigningPayload _ _ _ _ _ _) as [payload|msg]; [|done].
  destruct (ed25519_verify key payload sig); cbn [negb]; [|done].
  unfold htry, hbind, hstore, hrun, result_run. fold dev.
  change (world (spent dev s)) with (world s). by destruct (UpdateCommandResult _ _ _ _ _ _ _ _ _) as [[|] d].
Qed.

(** *** Opening a stream *)

Definition connect_rest e r (dev : string) : H F P Empty_set :=
  do# hstore (TouchDevice (now e 1) dev);
  do# audit (now e 2) dev "device.connect" dev (RemoteAddr r) "";
  connect_open e r dev.

Lemma connect_run e r input s :
  decode r = Some input →
  let dev := coDeviceID input in
  outcome (deviceConnect e r) s =
  if proof_ok (now e 0) dev (coSignature input) Ok s
  then outcome (connect_rest e r dev) (spent dev s) else (Reply bad_proof, spent dev s).
Proof.
  intros Hd. cbv zeta. set (dev := coDeviceID input).
  unfold deviceConnect, outcome. rewrite Hd. cbn [hdecode]. fold dev.
  unfold hbind at 1, hrun at 1, take_challenge. fold (spent dev s). unfold hbind at 1.
  rewrite key_run. change (world (spent dev s)) with (world s). unfold proof_ok.
  pose proof (key_cases dev (store (world s))) as Hk.
  destruct (challenge_fresh _ _) as [nonce|]; [|done].
  destruct (device_key dev _) as [key|]; [rewrite Hk|destruct Hk as [msg ->]; done].
  destruct (DecodeString _) as [sig|]; [|done]. by destruct (ed25519_verify key nonce sig).
Qed.

(** Writing succeeds: the pending commands never end the stream. *)
Lemma pending_written e i dev s :
  (∀ j, wrote e j = true) →
  ∃ events s', writePendingCommands (F := F) (P := P) e i dev s = (inr (events, true), s').
Proof.
  intros Hw. unfold writePendingCommands.
  destruct (PendingCommandsForDevice (now e i) dev 20 (store (world s))) as [rp d] eqn:Ep.
  assert (∃ l, rp = Ok l) as [l ->].
  { unfold PendingCommandsForDevice, expire_pending, select_pending, bind, update_commands, query in Ep.
    cbn in Ep. injection Ep as <- _. by eexists. }
  unfold hbind at 1, hstore at 1, hrun at 1. rewrite Ep.
  generalize (S i) as j. generalize (set_world (set_store d (world s)) s) as s1.
  clear Ep. induction l as [|c l IH]; intros s1 j; cbn [write_commands]; [by eexists _, _|].
  unfold hbind at 1, hstore at 1, hrun at 1.
  destruct (MarkCommandDelivered _ _ _ _) as [[u|msg] d1]; [|apply IH]. rewrite Hw.
  unfold hbind at 1. destruct (IH (set_world (set_store d1 (world s1)) s1) (S j)) as (evs & s2 & ->).
  by eexists _, _.
Qed.

Lemma open_written e st s :
  (∀ j, wrote e j = true) → ∃ events s', outcome (open_stream e st) s = (Stream (Some st) events, s').
Proof.
  intros Hw. unfold open_stream, outcome. unfold hbind at 1, hupd at 1, hbind at 1, hget at 1.
  rewrite Hw. cbn [negb]. unfold hbind at 1.
  destruct (pending_written e 4 (stDevice st) (deviceConnected (stDevice st) s) Hw) as (evs & s1 & ->).
  by eexists _, _.
Qed.

(** The challenges and the audit log through the rest of a connection. *)
Definition same_log s s' : Prop :=
  challenges s' = challenges s ∧ audit_logs (store (world s')) = audit_logs (store (world s)).
#[local] Instance same_log_preorder : PreOrder same_log.
Proof. split; [done|]. intros a b c [? ?] [? ?]. split; congruence. Qed.
Definition same_audit (d d' : db) : Prop := audit_logs d' = audit_logs d.
#[local] Instance same_audit_preorder : PreOrder same_audit.
Proof. split; [done|]. unfold same_audit. intros a b c. congruence. Qed.

Lemma log_store {A} (m : M A) : effect same_audit m → heffect same_log (hstore (F := F) (P := P) m).
Proof.
  intros Hm s. specialize (Hm (store (world s))). unfold hstore, hrun.
  by destruct (m (store (world s))) as [a d].
Qed.
Ltac log_tac := handler_tac ltac:(first
  [ apply log_store;
    unfold TouchDevice, GetDevice, listDevices, PendingCommandsForDevice, MarkCommandDelivered,
      expire_pending, select_pending; cbv zeta; solve [effect_tac ltac:(untouched)]
  | intros ?; unfold hupd, hrun, data_session, deviceConnected, commandSignal, close_stream,
      deviceDisconnected; repeat case_match; simplify_eq; by split ]).

Lemma log_pending e i dev : heffect same_log (writePendingCommands (F := F) (P := P) e i dev).
Proof.
  unfold writePendingCommands. log_tac. generalize (S i) as j. intros j. revert j.
  match goal with |- context [write_commands e _ dev ?l] => induction l as [|c l IH] end;
    intros j; cbn [write_commands]; log_tac; apply IH.
Qed.
#[local] Opaque writePendingCommands.
Lemma log_open e st : heffect same_log (open_stream (F := F) (P := P) e st).
Proof. unfold open_stream, end_stream. log_tac; apply log_pending. Qed.
#[local] Opaque open_stream.

Lemma log_connect_open e r dev : heffect same_log (connect_open e r dev).
Proof. unfold connect_open. log_tac; apply log_open. Qed.

Lemma touch_run t dev s : ∃ d, hstore (F := F) (P := P) (TouchDevice t dev) s =
    (inr (Ok tt), set_world (set_store d (world s)) s) ∧
  audit_logs d = audit_logs (store (world s)) ∧
  ∀ p, List.filter (λ row, bool_decide (d_id row = p)) (devices d) =
    map (λ row, if bool_decide (d_id row = dev) && negb (d_revoked row)
                then mkDeviceRow (d_id row) (d_user row) (d_name row) (d_ip row) (d_key row) (d_os row)
                       (d_arch row) (d_version row) (d_revoked row) (Some (FormatRFC3339Nano t))
                       (d_created row)
                else row)
      (List.filter (λ row, bool_decide (d_id row = p)) (devices (store (world s)))).
Proof.
  eexists. split; [reflexivity|]. split; [reflexivity|]. intros p. cbn [devices set_devices].
  unfold update_where. induction (devices (store (world s))) as [|x l IH]; [done|].
  cbn [map List.filter]. rewrite IH.
  destruct (bool_decide (d_id x = dev) && negb (d_revoked x)) eqn:E; cbn [d_id]; case_match;
    cbn [map]; by rewrite ?E.
Qed.

Lemma rest_log e r dev s :
  let s' := snd (outcome (connect_rest e r dev) s) in
  challenges s' = challenges s ∧
  ∃ row, audit_logs (store (world s')) = audit_logs (store (world s)) ++ [row] ∧
    a_actor row = dev ∧ a_action row = "device.connect" ∧ a_target row = dev.
Proof.
  cbv zeta. destruct (touch_run (now e 1) dev s) as (d & Ht & Ha & _).
  set (s1 := snd (audit (now e 2) dev "device.connect" dev (RemoteAddr r) ""
    (set_world (set_store d (world s)) s))).
  assert (outcome (connect_rest e r dev) s = outcome (connect_open e r dev) s1) as ->.
  { unfold connect_rest, outcome. unfold hbind at 1. rewrite Ht. reflexivity. }
  pose proof (outcome_effect _ _ (log_connect_open e r dev) s1) as [E1 E2]. rewrite E1, E2.
  split; [done|]. eexists. unfold s1. cbn. rewrite Ha. by split_and!.
Qed.

Lemma GetDevice_one dev d row :
  where_is d_id dev (devices d) = [row] → GetDevice dev d = (Ok (device_of row), d).
Proof.
  unfold where_is. intros Hw. unfold GetDevice, listDevices, bind, query. rewrite Hw. reflexivity.
Qed.

(** With a plain connection whose writes succeed, the stream opens, with the
    address of the device. *)
Lemma rest_opens e r dev s :
  db_ok (store (world s)) → device_key dev (store (world s)) ≠ None → flusher e = true →
  dataPlane s = None → (∀ j, wrote e j = true) →
  ∃ row events s', row ∈ devices (store (world s)) ∧ d_id row = dev ∧
    outcome (connect_rest e r dev) s = (Stream (Some (mkStream dev (d_ip row) None)) events, s').
Proof.
  intros Hok Hk Hf Hp Hw. unfold device_key in Hk.
  destruct (where_is d_id dev (devices (store (world s)))) as [|row l] eqn:E; [done|].
  destruct (filter_unique _ _ _ _ _ (ok_devices _ Hok) E) as (-> & Hid & Hin).
  destruct (touch_run (now e 1) dev s) as (d & Ht & _ & Hrows). specialize (Hrows dev).
  unfold where_is in E. rewrite E in Hrows. cbn [map] in Hrows.
  set (s1 := snd (audit (now e 2) dev "device.connect" dev (RemoteAddr r) ""
    (set_world (set_store d (world s)) s))).
  assert (outcome (connect_rest e r dev) s = outcome (connect_open e r dev) s1) as ->.
  { unfold connect_rest, outcome. unfold hbind at 1. rewrite Ht. reflexivity. }
  assert (devices (store (world s1)) = devices d) as Ed by done.
  assert (dataPlane s1 = None) as Hp1 by done. clearbody s1.
  unfold connect_open, outcome, htry. rewrite Hf. cbn [negb]. unfold hbind at 1, hstore, hrun at 1.
  erewrite (GetDevice_one dev (store (world s1))); [|unfold where_is; rewrite Ed; exact Hrows].
  rewrite set_store_same. unfold hbind at 1, hrun, data_session. rewrite Hp1.
  match goal with |- context [open_stream e ?st] => destruct (open_written e st s1 Hw) as (evs & s2 & Ho) end.
  unfold outcome in Ho. exists row, evs, s2. split; [done|]. split; [done|]. rewrite Ho.
  by destruct (bool_decide _ && _).
Qed.

(** ** Properties *)

End devices.
