(* ===== verification/ControlDelivery.v ===== *)
(** * ControlDelivery: how a command reaches its device ([internal/control/server.go])

    [command] queues a command and signals the device's stream; a stream that
    wakes, by the signal or by its ticker, writes the pending commands.  The
    theorem: a queued command is on the wire after one wake, as long as its
    deadline has not passed, the device has no more than twenty commands
    pending, and the connection takes the writes. *)
From S2P Require Import Prelude Text Net Clock Calendar Http Traffic Duration Protocol Crypto.
From S2P Require Import Session Database Accounts Devices CommandStore History StoreSteps.
From S2P Require Import Auth Control ControlAPI ControlStream ControlEffects StoreProperties.
From Stdlib Require Import Init.Byte Strings.Byte.

(** ** In the store *)

(** A command of the device, queued or delivered, and not past its deadline. *)
Definition waiting (dev : string) (c : command_row) : bool :=
  bool_decide (c_device c = dev) && in_status ["queued"; "delivered"] c.
Definition before (now : Z) (c : command_row) : bool := text_lt (FormatRFC3339Nano now) (c_expires c).

(** The same command, in a state in which it is still handed out. *)
Definition same_command (dev : string) (c c' : command_row) : Prop :=
  waiting dev c' = true ∧ c_id c' = c_id c ∧ c_type c' = c_type c ∧ c_created c' = c_created c ∧
  c_expires c' = c_expires c.

Lemma text_lt_le a b : text_lt a b = true → text_le b a = false.
Proof.
  unfold text_lt, text_le, String.ltb, String.leb. rewrite (String.compare_antisym a b).
  by destruct (String.compare b a).
Qed.

Lemma unique_elem (l : list command_row) c c' :
  unique c_id l → c ∈ l → c' ∈ l → c_id c = c_id c' → c = c'.
Proof. intros Hu Hc Hc' E. by apply (unique_map_nodup c_id l c c' Hu). Qed.

(** Marking a waiting command: exactly that row becomes "delivered". *)
Lemma mark_run now dev d c :
  unique c_id (commands d) → c ∈ commands d → waiting dev c = true → before now c = true →
  ∃ d', MarkCommandDelivered now (c_id c) dev d = (Ok tt, d') ∧
    commands d' = update_where (λ r, bool_decide (c_id r = c_id c)) (set_status "delivered") (commands d).
Proof.
  intros Hu Hc Hw Hb. unfold MarkCommandDelivered, bind, update_commands.
  set (p := λ r, bool_decide (c_id r = c_id c) && bool_decide (c_device r = dev)
                 && in_status ["queued"; "delivered"] r && text_lt (FormatRFC3339Nano now) (c_expires r)).
  assert (∀ r, r ∈ commands d → p r = bool_decide (c_id r = c_id c)) as Hp.
  { intros r Hr. unfold p. case_bool_decide as E; [|done]. rewrite (unique_elem _ r c Hu Hr Hc E).
    unfold waiting, before in *. cbn [andb]. by rewrite Hw, Hb. }
  assert (affected p (commands d) = 1) as ->.
  { transitivity (affected (λ r, bool_decide (c_id r = c_id c)) (commands d)).
    - unfold affected. f_equal. revert Hp. generalize (commands d) as l.
      induction l as [|x l IH]; intros Hp; [done|]. cbn [List.filter].
      rewrite Hp by by left. rewrite IH by (intros r Hr; apply Hp; by right). done.
    - rewrite affected_key by done. rewrite (proj2 (has_value_true c_id (c_id c) (commands d))); [done|].
      by apply list_elem_of_fmap_2. }
  cbn [Z.eqb negb]. eexists. split; [reflexivity|]. cbn [commands set_commands]. unfold update_where.
  apply map_ext_in. intros r Hr%list_elem_of_In. by rewrite Hp.
Qed.

(** Marking keeps the command's other facts, and the keys. *)
Lemma marked_same dev l i c c' :
  c' ∈ l → same_command dev c c' →
  ∃ c2, c2 ∈ update_where (λ r, bool_decide (c_id r = i)) (set_status "delivered") l ∧
    same_command dev c c2 ∧ (c_id c = i ∨ c_status c' = "delivered" → c_status c2 = "delivered").
Proof.
  intros Hc (Hw & E1 & E2 & E3 & E4).
  exists (if bool_decide (c_id c' = i) then set_status "delivered" c' else c').
  split; [apply elem_of_update_where; by exists c'|]. case_bool_decide as E.
  - split; [|done]. split_and!; try done. unfold waiting in *. cbn. bprop.
    rewrite bool_decide_eq_true_2 by done. by apply in_pending; right.
  - split; [by split_and!|]. intros [?|?]; [congruence|done].
Qed.

Lemma mark_cases now id dev d :
  commands (snd (MarkCommandDelivered now id dev d)) =
    update_where (λ r, bool_decide (c_id r = id) && bool_decide (c_device r = dev)
      && in_status ["queued"; "delivered"] r && text_lt (FormatRFC3339Nano now) (c_expires r))
      (set_status "delivered") (commands d).
Proof. unfold MarkCommandDelivered, bind, update_commands. by case_match. Qed.

(** What marking some command does to ours. *)
Lemma mark_keeps now id dev d c c' :
  c' ∈ commands d → same_command dev c c' →
  ∃ c2, c2 ∈ commands (snd (MarkCommandDelivered now id dev d)) ∧ same_command dev c c2 ∧
    (c_status c' = "delivered" → c_status c2 = "delivered").
Proof.
  intros Hc (Hw & E1 & E2 & E3 & E4). rewrite mark_cases.
  match goal with |- context [update_where ?p _ _] =>
    exists (if p c' then set_status "delivered" c' else c') end.
  split; [apply elem_of_update_where; by exists c'|].
  case_match; [|by split_and!]. split; [|done]. split_and!; try done.
  unfold waiting in *. cbn. bprop. rewrite bool_decide_eq_true_2 by done. by apply in_pending; right.
Qed.

Lemma mark_unique now id dev d :
  unique c_id (commands d) → unique c_id (commands (snd (MarkCommandDelivered now id dev d))).
Proof. intros Hu. rewrite mark_cases. by apply unique_update. Qed.

(** The commands handed out: ours is one of them when there are at most twenty. *)
Lemma pending_has now dev d c :
  c ∈ commands d → waiting dev c = true → before now c = true →
  (length (List.filter (waiting dev) (commands d)) ≤ 20)%nat →
  ∃ l, fst (PendingCommandsForDevice now dev 20 d) = Ok l ∧ scanCommand c ∈ l ∧
    c ∈ commands (snd (PendingCommandsForDevice now dev 20 d)).
Proof.
  intros Hc Hw Hb Hlen. unfold PendingCommandsForDevice, bind, expire_pending, update_commands,
    select_pending, query. cbn [fst snd commands set_commands].
  set (p := λ r, bool_decide (c_device r = dev) && in_status _ r && text_le _ _).
  assert (c ∈ update_where p (set_status "expired") (commands d)) as Hin.
  { apply elem_of_update_where. exists c. split; [done|]. unfold p.
    rewrite (text_lt_le _ _ Hb), andb_false_r. done. }
  eexists. split; [reflexivity|]. split; [|exact Hin]. apply list_elem_of_fmap_2.
  set (q := λ r, bool_decide (c_device r = dev) && in_status _ r && text_lt _ _).
  change (clamp 20 50 20) with 20. rewrite take_ge.
  - rewrite elem_of_order_by. apply list_elem_of_In, filter_In. split; [by apply list_elem_of_In|].
    unfold q, waiting, before in *. by rewrite Hw, Hb.
  - unfold order_by. rewrite (Permutation_length (merge_sort_Permutation _ _)).
    etrans; [|exact Hlen]. generalize (commands d) as l. clear.
    induction l as [|x l IH]; [done|].
    change (update_where p (set_status "expired") (x :: l))
      with ((if p x then set_status "expired" x else x) :: update_where p (set_status "expired") l).
    cbn [List.filter].
    assert (q (if p x then set_status "expired" x else x) = true → waiting dev x = true) as Hq.
    { unfold q, waiting. destruct (p x) eqn:Ep; intros Hx; bprop; [|by rewrite bool_decide_eq_true_2].
      unfold p in Ep. bprop. rewrite bool_decide_eq_true_2 by done. done. }
    destruct (q _).
    { rewrite Hq by done. cbn [length]. lia. }
    case_match; cbn [length]; lia.
Qed.

(** ** On the stream *)

Section delivery.
Context `{Primitives} {F P : Type} `{Inputs} `{Externals F} `{DataPlane P}.
Implicit Types (e : Env) (r : Request) (s : Control F P).

(** The command is on its way: same facts, still waiting, keys unique. *)
Definition carries (dev : string) (c : command_row) s : Prop :=
  unique c_id (commands (store (world s))) ∧
  ∃ c', c' ∈ commands (store (world s)) ∧ same_command dev c c'.
Definition delivered (dev : string) (c : command_row) s : Prop :=
  ∃ c', c' ∈ commands (store (world s)) ∧ same_command dev c c' ∧ c_status c' = "delivered".

(** The loop writes every command of its list that is still waiting. *)
Lemma write_commands_run e dev c l : ∀ j s,
  (∀ i, wrote e i = true) → (∀ i, before (now e i) c = true) → carries dev c s →
  ∃ events s', write_commands e j dev l s = (inr (events, true), s') ∧ carries dev c s' ∧
    (delivered dev c s ∨ scanCommand c ∈ l → delivered dev c s') ∧
    (scanCommand c ∈ l → command_event (scanCommand c) ∈ events).
Proof.
  induction l as [|m l IH]; intros j s Hw Hb (Hu & c' & Hc' & Hs).
  { exists [], s. split_and!; [done|by split; [|exists c']| |by intros ?%elem_of_nil].
    by intros [?|?%elem_of_nil]. }
  cbn [write_commands].
  set (d := store (world s)) in *.
  destruct (MarkCommandDelivered (now e j) (cmID m) dev d) as [res d1] eqn:Em.
  set (s1 := set_world (set_store d1 (world s)) s).
  assert (hstore (F := F) (P := P) (MarkCommandDelivered (now e j) (cmID m) dev) s = (inr res, s1)) as Hst
    by (unfold hstore, hrun; by fold d; rewrite Em).
  assert (d1 = snd (MarkCommandDelivered (now e j) (cmID m) dev d)) as Ed1 by by rewrite Em.
  assert (unique c_id (commands d1)) as Hu1 by (rewrite Ed1; by apply mark_unique).
  assert (carries dev c s1) as Hc1.
  { split; [exact Hu1|]. destruct (mark_keeps (now e j) (cmID m) dev d c c' Hc' Hs) as (c2 & ? & ? & _).
    exists c2. cbn. by rewrite Ed1. }
  assert (delivered dev c s → delivered dev c s1) as Hd1.
  { intros (c3 & Hc3 & Hs3 & E3). destruct (mark_keeps (now e j) (cmID m) dev d c c3 Hc3 Hs3)
      as (c2 & ? & ? & Hd). exists c2. cbn. rewrite Ed1. by auto. }
  assert (m = scanCommand c → res = Ok tt ∧ delivered dev c s1) as Hm.
  { intros ->. destruct Hs as (Hwait & E1 & E2 & E3 & E4).
    destruct (mark_run (now e j) dev d c' Hu Hc' Hwait) as (d2 & Er & Ec).
    { unfold before in *. rewrite E4. apply Hb. }
    cbn [cmID scanCommand] in Em. rewrite <- E1, Er in Em. injection Em as <- <-. split; [done|].
    destruct (marked_same dev (commands d) (c_id c') c c' Hc') as (c2 & Hc2 & Hs2 & Hd2); [by split_and!|].
    exists c2. cbn. rewrite Ec. split_and!; [done|done|]. apply Hd2. by left. }
  destruct (IH (S j) s1 Hw Hb Hc1) as (events & s' & Hrun & Hcar & Hdel & Hev).
  unfold hbind at 1. rewrite Hst. destruct res as [u|msg].
  - rewrite Hw. unfold hbind at 1. rewrite Hrun. exists (command_event m :: events), s'.
    split_and!; [done|done| |].
    + rewrite elem_of_cons. intros [Hd|[<-|Hin]]; apply Hdel; [by left; auto| |by right].
      left. by apply Hm.
    + rewrite elem_of_cons. intros [<-|Hin]; [by left|]. right. by apply Hev.
  - exists events, s'. split_and!; [done|done| |].
    + rewrite elem_of_cons. intros [Hd|[E|Hin]]; [by apply Hdel; left; auto| |by apply Hdel; right].
      symmetry in E. by destruct (Hm E).
    + rewrite elem_of_cons. intros [E|Hin]; [|by apply Hev]. symmetry in E. by destruct (Hm E).
Qed.

(** A wake writes the commands that wait. *)
Lemma stream_commands_run e st c s :
  db_ok (store (world s)) → c ∈ commands (store (world s)) → waiting (stDevice st) c = true →
  (∀ i, before (now e i) c = true) → (∀ i, wrote e i = true) →
  (length (List.filter (waiting (stDevice st)) (commands (store (world s)))) ≤ 20)%nat →
  ∃ events s', outcome (stream_commands e st) s = (Stream (Some st) events, s') ∧
    command_event (scanCommand c) ∈ events ∧ delivered (stDevice st) c s'.
Proof.
  intros Hok Hc Hwait Hb Hw Hlen. set (dev := stDevice st) in *. set (d := store (world s)) in *.
  destruct (pending_has (now e 0) dev d c Hc Hwait (Hb 0%nat) Hlen) as (l & Hl & Hin & Hc1).
  destruct (PendingCommandsForDevice (now e 0) dev 20 d) as [res d1] eqn:Ep. cbn [fst snd] in Hl, Hc1.
  subst res. set (s1 := set_world (set_store d1 (world s)) s).
  assert (carries dev c s1) as Hcar.
  { split; [|exists c; by split_and!].
    assert (d1 = snd (PendingCommandsForDevice (now e 0) dev 20 d)) as -> by by rewrite Ep.
    destruct (calm_pending (now e 0) dev 20 d) as [Hsteps _]. cbn.
    assert (∀ x y, rtc store_step x y → db_ok x → db_ok y) as Hpres.
    { induction 1 as [|x y z Hxy _ IH]; [done|]. intros Hx. by apply IH, (step_preserved x). }
    exact (ok_commands _ (Hpres _ _ Hsteps Hok)). }
  destruct (write_commands_run e dev c l 1%nat s1 Hw Hb Hcar) as (events & s' & Hrun & _ & Hd & Hev).
  exists events, s'. split_and!; [|by apply Hev|apply Hd; by right].
  unfold stream_commands, writePendingCommands, outcome. fold dev.
  unfold hbind at 1 2, hstore at 1, hrun at 1. fold d. rewrite Ep. fold s1. by rewrite Hrun.
Qed.

End delivery.
