(* ===== verification/ControlPlane.v ===== *)
(** * ControlPlane: the data plane behind the management server

    The UDP server of [Dataplane] keeps what [DataPlaneLaws] promises to the
    management server: [Register] makes the returned session the device's only
    one, or changes nothing, and [Remove] ends exactly the session it names. *)
From S2P Require Import Prelude Text Net Clock Protocol Crypto Router Traffic Session.
From S2P Require Import Dataplane Control.
From Stdlib Require Import Init.Byte Strings.Byte.

Section plane.
Context `{Primitives} {W : Type}.
Abbreviation Plane := (Dataplane.Server W).

#[export] Instance plane_ops : DataPlane Plane := {
  dp_register := Dataplane.Register;
  dp_remove := Dataplane.Remove_session
}.

(** The table of the devices leads to sessions with a 64-bit number. *)
Definition plane_ok (p : Plane) : Prop := ∀ dev l, Dataplane.byDevice p !! dev = Some l →
  ∃ x, Dataplane.heap (Dataplane.nw p) !! l = Some x ∧ in_u64 (Dataplane.sessionID x).
Definition session_text (p : Plane) (l : nat) : option string :=
  (λ x, FormatUint (Dataplane.sessionID x)) <$> Dataplane.heap (Dataplane.nw p) !! l.
Definition plane_sessions (p : Plane) : gmap string string :=
  omap (session_text p) (Dataplane.byDevice p).
Definition session_number (s : string) : Prop := ∃ n, in_u64 n ∧ s = FormatUint n.

Lemma fresh_heap (p : Plane) l :
  l = fresh (dom (Dataplane.heap (Dataplane.nw p))) → Dataplane.heap (Dataplane.nw p) !! l = None.
Proof. intros ->. apply not_elem_of_dom, is_fresh. Qed.

Lemma register_locked_tables l x (p : Plane) :
  Dataplane.byDevice (register_locked l x p) = <[Dataplane.deviceID x := l]> (Dataplane.byDevice p) ∧
  Dataplane.heap (Dataplane.nw (register_locked l x p)) = <[l := x]> (Dataplane.heap (Dataplane.nw p)).
Proof. unfold register_locked. repeat case_match; done. Qed.

Lemma plane_register_law secret draws now dev ip (p : Plane) : plane_ok p → Forall in_u64 draws →
  match Dataplane.Register secret draws now dev ip p with
  | (Ok b, p') => plane_ok p' ∧ session_number (bSessionID b) ∧
      plane_sessions p' = <[dev := bSessionID b]> (plane_sessions p)
  | (Err _, p') => p' = p
  end.
Proof.
  intros Hok Hd. unfold Dataplane.Register. destruct (_ || _ || _); [done|].
  destruct (newBootstrap secret draws now (Dataplane.port p)) as [[[b keys] sid]|msg] eqn:Eb; [|done].
  destruct (NewCipher (serverToClient keys)) as [send|]; [|by destruct (NewCipher (clientToServer keys))].
  destruct (NewCipher (clientToServer keys)) as [receive|]; [|done].
  set (l := fresh _). set (x := mkSession _ _ _ _ _ _ _ _ _).
  destruct secret as [sec|]; [|done].
  apply newBootstrap_ok in Eb as (Hsid & _ & Eid & _); [|done]. split_and!.
  - intros d k. destruct (register_locked_tables l x p) as [-> ->].
    intros [[<- <-]|[_ Hk]]%lookup_insert_Some; [exists x; by rewrite lookup_insert_eq|].
    destruct (Hok d k Hk) as (y & Hy & ?). exists y. rewrite lookup_insert_ne; [done|].
    intros <-. by rewrite (fresh_heap p l) in Hy.
  - by exists sid.
  - rewrite Eid. unfold plane_sessions. destruct (register_locked_tables l x p) as [-> Eh].
    apply map_eq. intros d. rewrite lookup_omap. destruct (decide (d = dev)) as [->|Hne].
    + rewrite !lookup_insert_eq. cbn. unfold session_text. by rewrite Eh, lookup_insert_eq.
    + rewrite !lookup_insert_ne by done. rewrite lookup_omap.
      destruct (Dataplane.byDevice p !! d) as [k|] eqn:Ek; [|done]. cbn. unfold session_text.
      rewrite Eh, lookup_insert_ne; [done|]. destruct (Hok d k Ek) as (y & Hy & _). intros <-.
      by rewrite (fresh_heap p l) in Hy.
Qed.

Lemma parse_session n : in_u64 n → parseSessionID (FormatUint n) = n.
Proof. intros Hn. unfold parseSessionID. by rewrite ParseUint_FormatUint. Qed.

Lemma plane_remove_law dev sid (p : Plane) : plane_ok p → session_number sid →
  plane_ok (Remove_session dev sid p) ∧
  plane_sessions (Remove_session dev sid p) =
    if bool_decide (plane_sessions p !! dev = Some sid) then delete dev (plane_sessions p)
    else plane_sessions p.
Proof.
  intros Hok (n & Hn & ->). unfold Remove_session. rewrite parse_session by done.
  assert (plane_sessions p !! dev = Dataplane.byDevice p !! dev ≫= session_text p) as Ed
    by apply lookup_omap.
  case_bool_decide as Hs; rewrite Ed in Hs; clear Ed;
    (destruct (Dataplane.byDevice p !! dev) as [l|] eqn:El; cbn [mbind option_bind] in Hs; [|done]);
    destruct (Hok dev l El) as (x & Hx & Hu); unfold session_text in Hs; rewrite Hx in *; cbn [fmap option_fmap option_map] in Hs.
  - apply (inj Some), (f_equal parseSessionID) in Hs. rewrite !parse_session in Hs by done.
    rewrite (proj2 (Z.eqb_eq _ _) Hs). split.
    + intros d k Hk. cbn in Hk. apply lookup_delete_Some in Hk as [_ Hk]. apply (Hok d k Hk).
    + unfold plane_sessions. cbn. by rewrite omap_delete.
  - rewrite (proj2 (Z.eqb_neq _ _)); [done|]. intros E; by rewrite E in Hs.
Qed.

#[export] Instance plane_laws : DataPlaneLaws Plane := {
  dp_ok := plane_ok; dp_id := session_number; dp_sessions := plane_sessions;
  dp_register_law := plane_register_law; dp_remove_law := plane_remove_law
}.
End plane.
