(* ===== verification/ControlScenario.v ===== *)
(** * ControlScenario: a server at work

    One run of the management server on the toy primitives, with the data
    plane of [Dataplane] behind it: the first set-up in the browser, a token,
    the enrollment of a laptop, its challenge and its event stream, a restart
    command and the pass of the stream that writes it.  The theorems on the
    management server are applied to this run. *)
From S2P Require Import Prelude Text Net Clock Calendar Http Traffic Duration Protocol Crypto.
From S2P Require Import Session Dataplane DataplaneProperties.
From S2P Require Import Database Accounts Devices CommandStore History StoreSteps StoreProperties.
From S2P Require Import Auth Control ControlAPI ControlStream ControlEffects ControlProperties.
From S2P Require Import ControlSettings ControlPresence ControlAccess ControlDevices.
From S2P Require Import ControlDelivery ControlPlane.
From Stdlib Require Import Init.Byte Strings.Byte.

Import Crypto.Toy.

Definition T0 : Z := 1767225600 * Second.
Definition local : string := "127.0.0.1:50000".

(** ** Inputs and externals *)

(** A body is one byte, which stands for the JSON text of the value. *)
Definition one_value {A} (a : A) : Unmarshal A := λ _ body,
  match body with x01 :: rest => Some (a, rest) | _ => None end.

Definition env_of (k : byte) : Env :=
  mkEnv T0 T0 (λ _, T0) (λ i, k :: replicate 8 x00 ++ [Zb (Z.of_nat i)]) (Some (replicate 15 k))
    (Some (replicate 32 k)) (Some [x01]) (Some (replicate 32 k)) [0; 77] true (λ _, true).

Definition admin_id : string := new_id "usr" (rnd (env_of x01) 0).
Definition session_token : string := match TokenValue (Some (replicate 15 x01)) with Ok v => v | Err _ => "" end.
Definition enrollment_token : string := match TokenValue (Some (replicate 15 x02)) with Ok v => v | Err _ => "" end.
Definition laptop : string := new_id "dev" (rnd (env_of x03) 0).
Definition laptop_key : list byte := replicate 32 x21.
Definition proof : string := EncodeToString (laptop_key ++ replicate 32 x04).

#[export] Instance toy_inputs : Inputs := {
  in_login := one_value (mkLogin "ann" "correct horse" false);
  in_setup := one_value (mkSetup " root " "correct horse" false);
  in_enroll := one_value (mkEnroll enrollment_token "laptop" "linux" "amd64" "1.0" laptop_key);
  in_challenge := one_value (mkChallengeInput laptop);
  in_connect := one_value (mkConnect laptop proof);
  in_result := one_value (mkCommandResult laptop "succeeded" "" "" "");
  in_device := one_value (mkDevicePatch (Some "desk") None);
  in_settings := one_value (mkSettingsPatch (Some 30) (Some true) None None None);
  in_startup := one_value (mkStartup true);
  in_user := one_value (mkUserInput "ann" "correct horse" "viewer");
  in_user_patch := one_value (mkUserPatch false "viewer");
  in_password := one_value (mkPassword "correct house");
  in_token := one_value (mkTokenInput admin_id "1h" 1)
}.
#[export] Instance toy_externals : Externals unit := {
  argon2id := Auth.toy_argon2id;
  ed25519_verify key text sig := bool_decide (sig = key ++ text);
  ToLower := λ s, s;
  web_index := None;
  web_asset := λ _, write_header 404;
  startupAvailable := (false, "not supported");
  startupEnabled := λ _, Ok false;
  setStartup := λ _ f, (None, f)
}.

Abbreviation Plane := (Dataplane.Server unit).
Abbreviation Server := (Control unit Plane).

(** ** The run *)

Definition server0 : Server :=
  SetDataPlane toy_server (SetAdapter "tyx0" "10.90.0.1/24"
    (Control.New empty_db "10.90.0.0/24" Hour T0 true tt)).

Definition request (method path : string) : Request :=
  mkRequest method path (λ _, "") local ("Bearer " +:+ session_token) None "" "" true [x01].

Definition served (k : byte) (method path : string) (s : Server) : Outcome * Server :=
  serve (env_of k) (request method path) s.

Definition server1 : Server := snd (served x01 "POST" "/api/v1/setup" server0).
Definition server2 : Server := snd (served x02 "POST" "/api/v1/tokens" server1).
Definition server3 : Server := snd (served x03 "POST" "/api/v1/enroll" server2).
Definition server4 : Server := snd (served x04 "POST" "/control/v1/challenge" server3).
Definition connect : Outcome * Server := served x05 "POST" "/control/v1/connect" server4.
Definition server5 : Server := snd connect.
Definition the_stream : list stream := opened (fst connect).
Definition restart : Outcome * Server :=
  served x06 "POST" ("/api/v1/devices/" +:+ laptop +:+ "/restart") server5.
Definition server6 : Server := snd restart.

Definition reply_status (o : Outcome) : Z := match o with Reply a => rStatus a | Stream _ _ => 0 end.

Example served_ex :
  reply_status (fst (served x01 "POST" "/api/v1/setup" server0)) = 201 ∧
  reply_status (fst (served x02 "POST" "/api/v1/tokens" server1)) = 201 ∧
  reply_status (fst (served x03 "POST" "/api/v1/enroll" server2)) = 201 ∧
  reply_status (fst (served x04 "POST" "/control/v1/challenge" server3)) = 200 ∧
  map stDevice the_stream = [laptop] ∧ reply_status (fst restart) = 202.
Proof. split_and!; vm_compute; reflexivity. Qed.

Lemma sane_env_of k : sane_env (env_of k).
Proof.
  split; [intros i; split; vm_compute; congruence|].
  repeat constructor; vm_compute; congruence.
Qed.

Lemma served_step k method path (s : Server) l :
  ctl_step (mkRun s l) (mkRun (snd (served k method path s)) (opened (fst (served k method path s)) ++ l)).
Proof. eapply on_request; [apply (sane_env_of k)|apply surjective_pairing]. Qed.

(** A request that opens no stream. *)
Lemma replied_step k method path (s : Server) l :
  opened (fst (served k method path s)) = [] →
  ctl_step (mkRun s l) (mkRun (snd (served k method path s)) l).
Proof. intros E. pose proof (served_step k method path s l) as Hs. by rewrite E in Hs. Qed.

Lemma connect_step : ctl_step (mkRun server4 []) (mkRun server5 the_stream).
Proof.
  unfold server5, the_stream, connect. rewrite <- (app_nil_r (opened _)). apply served_step.
Qed.
Lemma restart_step : ctl_step (mkRun server5 the_stream) (mkRun server6 the_stream).
Proof. unfold server6, restart. apply replied_step. vm_compute. reflexivity. Qed.

Definition final : run := mkRun server6 the_stream.
Lemma scenario : rtc ctl_step (mkRun server0 []) final.
Proof.
  unfold final.
  assert (ctl_step (mkRun server0 []) (mkRun server1 [])) as H1
    by (unfold server1; apply replied_step; vm_compute; reflexivity).
  assert (ctl_step (mkRun server1 []) (mkRun server2 [])) as H2
    by (unfold server2; apply replied_step; vm_compute; reflexivity).
  assert (ctl_step (mkRun server2 []) (mkRun server3 [])) as H3
    by (unfold server3; apply replied_step; vm_compute; reflexivity).
  assert (ctl_step (mkRun server3 []) (mkRun server4 [])) as H4
    by (unfold server4; apply replied_step; vm_compute; reflexivity).
  exact (rtc_l _ _ _ _ H1 (rtc_l _ _ _ _ H2 (rtc_l _ _ _ _ H3 (rtc_l _ _ _ _ H4
    (rtc_l _ _ _ _ connect_step (rtc_once _ _ restart_step)))))).
Qed.

Lemma server0_booted : booted empty_db server0.
Proof.
  split; [reflexivity..|]. intros p [= <-]. split; [|apply map_eq; intros d; vm_compute; reflexivity].
  intros dev l Hl. exfalso. assert (Dataplane.byDevice toy_server = ∅) as E by (vm_compute; reflexivity).
  by rewrite E, lookup_empty in Hl.
Qed.

(** ** The theorems applied *)

Lemma control_refines_store_witness :
  length (commands (store (world (server final)))) = 1%nat ∧
  store_ok (store (world (server final))) ∧ cmds_evolve empty_db (store (world (server final))).
Proof.
  split; [vm_compute; reflexivity|].
  exact (proj2 (control_refines_store empty_db server0 _ (rtc_refl _ _) server0_booted scenario)).
Defined.

Lemma presence_witness :
  deviceOnline (server final) laptop = true ∧ deviceOnline (server final) "other" = false ∧
  ∃ st, st ∈ streams final ∧ stDevice st = laptop.
Proof.
  assert (deviceOnline (server final) laptop = true) as Ho by (vm_compute; reflexivity).
  split; [exact Ho|]. split; [vm_compute; reflexivity|].
  exact (proj1 (proj1 (presence empty_db server0 _ server0_booted scenario) laptop) Ho).
Defined.

Definition settings_request : Request := request "PATCH" "/api/v1/server/settings".


(** 130 requests of one host within a second: ten are refused. *)
Definition burst : list (Z * string) := replicate 130 (T0, local).
Lemma rate_limit_exact_witness :
  limit_all burst server0 = admitted burst [] ∧
  length (List.filter negb (limit_all burst server0)) = 10%nat.
Proof.
  split; [|vm_compute; reflexivity].
  apply (rate_limit_exact burst server0); [reflexivity|].
  unfold burst. generalize 130%nat. intros n.
  induction n as [|[|n] IH]; [repeat constructor..|constructor; [exact IH|constructor; reflexivity]].
Defined.

(** The administrator adds a viewer, who logs in and asks for the settings. *)
Definition server7 : Server := snd (served x09 "POST" "/api/v1/users" server6).
Definition server8 : Server := snd (served x0a "POST" "/api/v1/auth/login" server7).
Definition viewer_token : string := match TokenValue (Some (replicate 15 x0a)) with Ok v => v | Err _ => "" end.
Definition request_of (token method path : string) : Request :=
  mkRequest method path (λ _, "") local ("Bearer " +:+ token) None "" "" true [x01].


(** The connection of the laptop, and the same proof once more. *)
Definition connect_request : Request := request "POST" "/control/v1/connect".
Lemma toy_proof : proof_of T0 laptop proof Ok server4.
Proof.
  exists (mkChallenge (replicate 32 x04) (T0 + 30 * Second)), laptop_key,
    (laptop_key ++ replicate 32 x04), (replicate 32 x04).
  split_and!; try (vm_compute; reflexivity). vm_compute. discriminate.
Qed.


(** The restart command reaches the laptop. *)
Definition laptop_stream : stream := default (mkStream "" "" None) (head the_stream).
Definition restart_row : command_row :=
  default (mkCommandRow "" "" "" "" "" "" "" "" "") (head (commands (store (world (server final))))).
