(* ===== verification/ServerMain.v ===== *)
(** * ServerMain: the server's program ([cmd/tyxnet-server/main.go])

    [dispatch] chooses the command; [runFlags], [runServer], [adminCreate],
    [tokenCreate] and [install] are the commands.  [runServer] is modelled up to
    the listening: it loads the configuration, opens the store and puts the
    management server of [Control] and the data plane of [Dataplane] together
    ([Running]); the requests are the steps of [ControlStream].

    The callback that saves the ports closes over the loaded configuration: both
    are in [Host], which is what the management server keeps of the outside
    world.  The monitor that data plane and management server share is the one of
    [Control]; the data plane gets a monitor of its own here, since what it
    observes is a step of the management server ([on_packet]). *)
From S2P Require Import Prelude Text Net Clock Calendar Crypto Traffic Flags Session Database.
From S2P Require Import Accounts Devices Auth Dataplane Config Protocol Http.
From S2P Require Import Control ControlAPI ControlPlane.
From S2P Require Import Commands System Startup Installer.
From Stdlib Require Import Init.Byte Strings.Byte.

(** ** The commands *)

Inductive action :=
  | ARun (args : list string) | AAdminCreate (args : list string) | ATokenCreate (args : list string)
  | AInstall (args : list string) | AUninstall | AService (name : string) | AVersion | AUsage.

Definition dispatch (args : list string) : action :=
  match args with
  | [] => AUsage
  | cmd :: rest =>
    if cmd =s "run" then ARun rest
    else if cmd =s "admin" then
      match rest with
      | sub :: rest => if sub =s "create" then AAdminCreate rest else AUsage
      | [] => AUsage
      end
    else if cmd =s "token" then
      match rest with
      | sub :: rest => if sub =s "create" then ATokenCreate rest else AUsage
      | [] => AUsage
      end
    else if cmd =s "install" then AInstall rest
    else if cmd =s "uninstall" then AUninstall
    else if bool_decide (cmd ∈ ["start"; "stop"; "restart"; "status"; "logs"])%string then AService cmd
    else if cmd =s "version" then AVersion
    else AUsage
  end.

Definition run_options : FlagSet :=
  {[ "config" := VString "configs/server.yaml"; "local-web" := VBool false;
     "lan-web" := VBool false ]}%string.

(** The path of the configuration and the web mode. *)
Definition runFlags (args : list string) : failure + (string * string) :=
  try_parse run_options args (λ f _,
    if get_bool "local-web" f && get_bool "lan-web" f
    then inl (Failure "--local-web and --lan-web cannot be used together")
    else
      inr (get_string "config" f,
           (if get_bool "local-web" f then "local"
            else if get_bool "lan-web" f then "lan" else "config")%string)).

(** ** Putting the server together *)

Definition set_listen (address : string) (insecure remote : bool) (c : ServerConfig) : ServerConfig :=
  mkServerConfig address (APIPort c) (TunnelPort c) (TunnelEnabled c) (TunnelName c)
    (TunnelAddress c) (TunnelMTU c) (Network c) (Config.Database c) (TLSCert c) (TLSKey c)
    insecure remote (SessionTTL c) (PingInterval c).
Definition set_config_ports (api tunnel : Z) (c : ServerConfig) : ServerConfig :=
  mkServerConfig (ListenAddress c) api tunnel (TunnelEnabled c) (TunnelName c)
    (TunnelAddress c) (TunnelMTU c) (Network c) (Config.Database c) (TLSCert c) (TLSKey c)
    (AllowInsecureHTTP c) (AllowRemoteSetup c) (SessionTTL c) (PingInterval c).

(** The web mode's changes of the configuration. *)
Definition override (webMode : string) (c : ServerConfig) : ServerConfig :=
  if webMode =s "local" then set_listen "127.0.0.1" (AllowInsecureHTTP c) false c
  else if webMode =s "lan" then set_listen "0.0.0.0" true true c
  else c.

(** [fmt.Sprintf("%s:%d", address, port)]. *)
Definition address_port (address : string) (port : Z) : string := address +:+ ":" +:+ FormatUint port.

Definition is_loopback (c : ServerConfig) : bool := IsLoopback (ParseIP (ListenAddress c)).

(** The address of the adapter with the prefix length of the network. *)
Definition tunnel_cidr (c : ServerConfig) : option string :=
  match ParseCIDR (Network c) with
  | None => None
  | Some (_, n) => Some (TunnelAddress c +:+ "/" +:+ FormatUint (fst (mask_size (nMask n))))
  end.

(** What the management server keeps of the outside world: the machine with its
    files, the configuration that the callback has captured, and how often it
    has saved. *)
Record Host := mkHost { hMachine : Machine; hPersisted : ServerConfig; hSaves : nat }.

(** The databases, by the path in the configuration. *)
Record Disk := mkDisk { dMachine : Machine; dStore : gmap string db }.

(** What the operating system answers during the boot: the error of
    [storage.Open], the adapter's name, the data plane's port for an address, the
    clock, and what describes the process. *)
Record BootEnv := mkBoot {
  b_open : option string; b_tunnel : string → string → Z → result string;
  b_socket : string → result Z; b_now : Z; b_goos : platform; b_executable : string;
  b_directory : string; b_abs : string → string; b_token : string
}.

Section server.
Context `{Primitives}.
Context (yaml_encode : ServerConfig → result (list byte))
  (yaml_decode : list byte → ServerConfig → ServerConfig * option string)
  (os : OS) (os_save : nat → save_env).
Abbreviation Plane := (Dataplane.Server unit).
Abbreviation Server := (Control Host Plane).

(** The callback of [ConfigurePorts]. *)
Definition save_ports (path : string) (api tunnel : Z) (h : Host) : option string * Host :=
  let updated := set_config_ports api tunnel (hPersisted h) in
  let '(err, fs) := SaveServer yaml_encode (os_save (hSaves h)) path updated (mFiles (hMachine h)) in
  let m := mkMachine fs (mCalls (hMachine h)) in
  (err, mkHost m (if is_none err then updated else hPersisted h) (S (hSaves h))).

Definition open (env : BootEnv) (path : string) (d : Disk) : result (ServerConfig * db) :=
  match LoadServer yaml_decode path (mFiles (dMachine d)) with
  | (_, Some e) => Err e
  | (c, None) =>
    match b_open env with
    | Some e => Err e
    | None => Ok (c, default empty_db (dStore d !! Config.Database c))
    end
  end.

(** The tunnel part: the adapter and the data plane. *)
Definition add_tunnel (env : BootEnv) (c : ServerConfig) (s : Server) : result Server :=
  if TunnelEnabled c then
    match tunnel_cidr c with
    | None => Err "parse tunnel network"
    | Some addressCIDR =>
      match b_tunnel env (TunnelName c) addressCIDR (TunnelMTU c) with
      | Err e => Err ("ensure server virtual adapter (set tunnel_enabled: false for control-plane-only mode): " +:+ e)
      | Ok name =>
        let s := SetAdapter name addressCIDR s in
        match Listen (b_socket env (address_port (ListenAddress c) (TunnelPort c))) true
                (ParseIP (TunnelAddress c)) (TunnelMTU c) (Some NewTrafficMonitor) (b_now env) tt with
        | Err e => Err ("start UDP data plane: " +:+ e)
        | Ok p => Ok (SetDataPlane p (set_traffic (SetReady true (traffic s)) s))
        end
      end
    end
  else Ok s.

Definition startupArgs (configPath webMode : string) : list string :=
  ["run"; "--config"; configPath] ++
  (if webMode =s "local" then ["--local-web"] else if webMode =s "lan" then ["--lan-web"] else []).

(** [filepath.Dir(executable)] joined with the tray's name. *)
Definition companion (env : BootEnv) (name : string) : string :=
  let path := path_join [b2s (Dir (b_executable env)); name] in
  if bool_decide (b_goos env = Windows) then path +:+ ".exe"
  else if bool_decide (b_goos env = Darwin) then path else "".

Definition startup_spec (env : BootEnv) (path webMode : string) (c : ServerConfig) : StartupSpec :=
  mkSpec "tyxnet-server" "TyxNet Server" (b_executable env) (b_directory env)
    (startupArgs (b_abs env path) webMode) (companion env "tyxnet-server-tray")
    ["--server-url"; (if TLSCert c =s "" then "http" else "https") +:+ "://127.0.0.1:" +:+
                     FormatUint (APIPort c)]
    (b_token env).

(** The server before it listens: the address of its listener, its certificate
    and key, and its start-up entry. *)
Record Running := mkRunning {
  rServer : Server; rAddress : string; rTLS : option (string * string); rSpec : StartupSpec
}.

Definition boot (env : BootEnv) (path webMode : string) (persisted : ServerConfig) (d : db)
    (machine : Machine) : result Running :=
  let c := override webMode persisted in
  match ValidateServer c with
  | Some e => Err e
  | None =>
    let loopback := is_loopback c in
    let s := Control.New d (Network c) (SessionTTL c) (b_now env) (loopback || AllowRemoteSetup c)
               (mkHost machine persisted 0) in
    let s := SetDefaultPingInterval (PingInterval c) s in
    let s := ConfigurePorts (APIPort c) (TunnelPort c) (save_ports path) s in
    let s := if AllowRemoteSetup c && negb loopback then AllowRemoteBootstrap s else s in
    let? s := add_tunnel env c s in
    Ok (mkRunning (ConfigureApplication (b_token env) true s) (address_port (ListenAddress c) (APIPort c))
          (if negb (TLSCert c =s "") && negb (TLSKey c =s "") then Some (TLSCert c, TLSKey c) else None)
          (startup_spec env path webMode c))
  end.

Definition runServer (env : BootEnv) (args : list string) (d : Disk) : failure + Running :=
  match runFlags args with
  | inl e => inl e
  | inr (path, webMode) =>
    match open env path d with
    | Err e => inl (Failure e)
    | Ok (c, store) =>
      match boot env path webMode c store (dMachine d) with
      | Err e => inl (Failure e)
      | Ok r => inr r
      end
    end
  end.

(** [http.ErrServerClosed], with which serving ends after [srv.Shutdown]. *)
Definition ErrServerClosed : string := "http: Server closed".
Definition serve_end (err : string) : option string := if err =s ErrServerClosed then None else Some err.

(** ** Administration *)

(** [bufio.Reader.ReadString('\n')] at the beginning of the input: the text and
    whether it ends with the delimiter. *)
Definition read_line (input : list byte) : list byte * bool :=
  match index_byte x0a input with
  | Some i => (take (S i) input, true)
  | None => (input, false)
  end.

Definition admin_options : FlagSet :=
  {[ "config" := VString "configs/server.yaml"; "username" := VString "admin";
     "password-stdin" := VBool false ]}%string.

Section admin.
Context (argon2id : list byte → list byte → list byte).

Definition store_of (env : BootEnv) (path : string) (d : Disk) : result (string * db) :=
  let? cd := open env path d in
  let '(c, store) := cd in Ok (Config.Database c, store).

(** The user that was created, and the disk. *)
Definition adminCreate (env : BootEnv) (args : list string) (stdin : list byte)
    (salt : option (list byte)) (rnd : list byte) (now : Z) (d : Disk) : (failure + User) * Disk :=
  match Parse admin_options args with
  | inl e => (inl (FlagFailure e), d)
  | inr (f, _) =>
    if negb (get_bool "password-stdin" f)
    then (inl (Failure "use --password-stdin to avoid exposing passwords in process arguments"), d)
    else
      let '(password, complete) := read_line stdin in
      if negb complete && bool_decide (password = []) then (inl (Failure "EOF"), d)
      else
        match HashPassword argon2id salt (TrimSpace (b2s password)) with
        | Err e => (inl (Failure e), d)
        | Ok ph =>
          match store_of env (get_string "config" f) d with
          | Err e => (inl (Failure e), d)
          | Ok (name, store) =>
            let '(r, store) := CreateAdmin rnd now (get_string "username" f) ph store in
            (match r with Ok u => inr u | Err e => inl (Failure e) end,
             mkDisk (dMachine d) (<[name := store]> (dStore d)))
          end
        end
  end.
End admin.

Definition token_options : FlagSet :=
  {[ "config" := VString "configs/server.yaml"; "user" := VString "";
     "expires" := VDuration (24 * Hour); "max-uses" := VInt 1 ]}%string.

(** The token and its text, which are printed. *)
Definition tokenCreate (env : BootEnv) (args : list string) (rndToken : option (list byte))
    (rnd : list byte) (now1 now2 : Z) (d : Disk) : (failure + (Token * string)) * Disk :=
  match Parse token_options args with
  | inl e => (inl (FlagFailure e), d)
  | inr (f, _) =>
    match store_of env (get_string "config" f) d with
    | Err e => (inl (Failure e), d)
    | Ok (name, store) =>
      match Authenticate (get_string "user" f) store with
      | (Err e, store) => (inl (Failure ("find user: " +:+ e)), mkDisk (dMachine d) (<[name := store]> (dStore d)))
      | (Ok (u, _), store) =>
        let '(r, store) := CreateEnrollmentToken rndToken rnd now1 now2 (ID u)
                             (get_duration "expires" f) (get_int "max-uses" f) store in
        (match r with Ok t => inr t | Err e => inl (Failure e) end,
         mkDisk (dMachine d) (<[name := store]> (dStore d)))
      end
    end
  end.

(** ** Installation *)

Definition install_options : FlagSet :=
  {[ "listen-address" := VString "0.0.0.0"; "api-port" := VInt 8443; "tunnel-port" := VInt 51830;
     "network" := VString "10.90.0.0/24"; "tls-cert" := VString ""; "tls-key" := VString "" ]}%string.

(** The configuration that is installed. *)
Definition install_config (f : FlagSet) : result ServerConfig :=
  let network := get_string "network" f in
  match ParseCIDR network with
  | None => Err ("parse network: invalid CIDR address: " +:+ network)
  | Some (_, n) =>
    let c := mkServerConfig (get_string "listen-address" f) (get_int "api-port" f) (get_int "tunnel-port" f)
      (TunnelEnabled DefaultServer) (TunnelName DefaultServer) (ip_string (inc (To4 (nIP n))))
      (TunnelMTU DefaultServer) network "/var/lib/tyxnet/tyxnet.db" (get_string "tls-cert" f)
      (get_string "tls-key" f) (AllowInsecureHTTP DefaultServer) (AllowRemoteSetup DefaultServer)
      (SessionTTL DefaultServer) (PingInterval DefaultServer) in
    match ValidateServer c with Some e => Err e | None => Ok c end
  end.

Definition config_path : string := "/etc/tyxnet/server.yaml".
Definition install (goos : platform) (argv0 : string) (args : list string) (m : Machine)
    : option failure * Machine :=
  match Parse install_options args with
  | inl e => (Some (FlagFailure e), m)
  | inr (f, _) =>
    match install_config f with
    | Err e => (Some (Failure e), m)
    | Ok c =>
      let b := match yaml_encode c with Ok b => b | Err _ => [] end in
      let '(err, m) := Install os goos argv0 (mkServiceSpec "tyxnet-server" "tyxnet-server" config_path b) m in
      (Failure <$> err, m)
    end
  end.
Definition uninstall (goos : platform) : Sh (option string) :=
  Uninstall os goos "tyxnet-server" "tyxnet-server" config_path.
Definition service_action (goos : platform) (name : string) : Sh (option string) :=
  ServiceAction os goos "tyxnet-server" name.
End server.

(** [setStartup] and [startupEnabled] of the management server, on the machine. *)
Definition host_set_startup (set : bool → Sh (option string)) (enabled : bool) (h : Host)
    : option string * Host :=
  let '(err, m) := set enabled (hMachine h) in (err, mkHost m (hPersisted h) (hSaves h)).
Definition host_startup_enabled (get : Sh (result bool)) (h : Host) : result bool := fst (get (hMachine h)).
