(* ===== verification/ServerRestart.v ===== *)
(** * ServerRestart: the ports in the configuration file and a restart
    ([cmd/tyxnet-server/main.go] with [internal/control/server.go])

    An administrator changes the ports through the settings API; the callback of
    [runServer] writes them to the configuration file, and the start-up entry
    starts the server again.  [good]: the file holds the configuration that was
    loaded with the saved ports.  Every step of the management server keeps it,
    and what the server was put together from. *)
From S2P Require Import Prelude Text Net Clock Calendar Crypto Traffic Flags Session Database.
From S2P Require Import Accounts Devices CommandStore History Auth Dataplane Config Protocol Http.
From S2P Require Import Control ControlAPI ControlStream ControlEffects ControlPlane.
From S2P Require Import Commands System Startup Installer ServerMain.
From Stdlib Require Import Init.Byte Strings.Byte.

(** The start-up entry of the machine leaves the configuration file, if that is
    not one of its own files. *)
Lemma host_startup_keeps set path paths b h :
  touches paths (set b) → path ∉ paths →
  hPersisted (snd (host_set_startup set b h)) = hPersisted h ∧
  mFiles (hMachine (snd (host_set_startup set b h))) !! path = mFiles (hMachine h) !! path.
Proof.
  intros Ht Hp. unfold host_set_startup. specialize (Ht (hMachine h) path Hp).
  by destruct (set b (hMachine h)) as [err m].
Qed.

Section restart.
Context `{Primitives} `{Inputs} `{Externals Host}.
Context (yaml_encode : ServerConfig → result (list byte))
  (yaml_decode : list byte → ServerConfig → ServerConfig * option string)
  (os_save : nat → save_env).
Abbreviation Plane := (Dataplane.Server unit).
Abbreviation Server := (Control Host Plane).
Abbreviation save_ports := (save_ports yaml_encode os_save).
Abbreviation LoadServer := (LoadServer yaml_decode).

(** The loaded configuration and its path. *)
Context (c0 : ServerConfig) (path : string).
Implicit Types (e : Env) (r : Request) (s : Server).

(** ** What is relied on *)

(** The YAML library reads back a valid configuration with other ports. *)
Definition yaml_law : Prop := ∀ api tunnel b,
  ValidateServer (set_config_ports api tunnel c0) = None →
  yaml_encode (set_config_ports api tunnel c0) = Ok b →
  yaml_decode b DefaultServer = (set_config_ports api tunnel c0, None).
(** A temporary file is a new one. *)
Definition temp_law : Prop := ∀ n t, temp_name (os_save n) = Some t → t ≠ path.
(** Setting the start-up entry leaves the configuration. *)
Definition startup_law : Prop := ∀ b h,
  let h' := snd (setStartup b h) in
  hPersisted h' = hPersisted h ∧ mFiles (hMachine h') !! path = mFiles (hMachine h) !! path.

(** ** The invariant *)

Definition good s : Prop :=
  savePorts s = Some (save_ports path) ∧
  hPersisted (host s) = set_config_ports (apiPort (ports s)) (tunnelPort (ports s)) c0 ∧
  LoadServer path (mFiles (hMachine (host s))) = (hPersisted (host s), None).

Definition same_running s s' : Prop :=
  static s' = static s ∧ runningAPIPort (ports s') = runningAPIPort (ports s) ∧
  runningTunnelPort (ports s') = runningTunnelPort (ports s).
Definition keeps s s' : Prop := same_running s s' ∧ (good s → good s').

#[export] Instance keeps_preorder : PreOrder keeps.
Proof.
  split; [by intros s; split|]. intros a b c [(A1 & A2 & A3) G1] [(B1 & B2 & B3) G2].
  split; [|by auto]. unfold same_running. by rewrite B1, B2, B3.
Qed.

(** The fields that the invariant looks at. *)
Definition frame s s' : Prop :=
  static s' = static s ∧ savePorts s' = savePorts s ∧ ports s' = ports s ∧ host s' = host s.
Lemma keeps_frame s s' : frame s s' → keeps s s'.
Proof. intros (E1 & E2 & E3 & E4). unfold keeps, same_running, good. by rewrite E1, E2, E3, E4. Qed.

Lemma keeps_store {A} (m : M A) : heffect keeps (hstore (F := Host) (P := Plane) m).
Proof. intros s. apply keeps_frame. unfold hstore, hrun. by destruct (m _). Qed.
Lemma keeps_upd (f : Server → Server) : (∀ s, frame s (f s)) → heffect keeps (hupd f).
Proof. intros Hf s. by apply keeps_frame. Qed.
Lemma keeps_run {A} (f : Server → A * Server) :
  (∀ s, keeps s (snd (f s))) → heffect keeps (hrun f).
Proof. intros Hf s. specialize (Hf s). unfold hrun. by destruct (f s). Qed.

Ltac framed := intros ?; apply keeps_frame; repeat case_match; simplify_eq; cbn; done.
Ltac keeps_tac := handler_tac ltac:(first
  [ apply keeps_store
  | apply keeps_upd; intros ?; repeat case_match; by split_and!
  | apply keeps_run; solve [framed] ]).

(** ** The two that write *)

Lemma LoadServer_lookup fs fs' : fs' !! path = fs !! path → LoadServer path fs' = LoadServer path fs.
Proof. intros E. unfold Config.LoadServer, load. by rewrite E. Qed.

(** The outcome of saving a configuration, for the file alone. *)
Lemma SaveServer_file env c (fs : gmap string file) err fs' :
  (∀ t, temp_name env = Some t → t ≠ path) →
  SaveServer yaml_encode env path c fs = (err, fs') →
  (err ≠ None ∧ fs' !! path = fs !! path) ∨
  (err = None ∧ ValidateServer c = None ∧
   ∃ b, yaml_encode c = Ok b ∧ fs' !! path = Some (mkFile 384 b)).
Proof.
  intros Ht. unfold SaveServer. destruct (ValidateServer c); [intros [= <- <-]; by left|].
  destruct (yaml_encode c) as [b|]; [|intros [= <- <-]; by left].
  destruct (negb (mkdir_ok env) && _); [intros [= <- <-]; by left|].
  destruct (temp_name env) as [t|]; [|intros [= <- <-]; by left]. specialize (Ht t eq_refl).
  assert (∀ f, remove_temp env t (<[t := f]> fs) !! path = fs !! path) as Hr.
  { intros f. unfold remove_temp. case_match; rewrite ?lookup_delete_ne, lookup_insert_ne by done; done. }
  destruct (negb (_ && _)); [intros [= <- <-]; by left|].
  destruct (negb (rename_ok env)); [intros [= <- <-]; by left|]. intros [= <- <-]. right.
  split_and!; [done..|]. exists b. split; [done|]. by rewrite lookup_insert_eq.
Qed.

Lemma keeps_ports (Hy : yaml_law) (Ht : temp_law) api tunnel :
  heffect keeps (hrun (updatePorts (F := Host) (P := Plane) api tunnel)).
Proof.
  apply keeps_run. intros s. unfold updatePorts. destruct (savePorts s) as [save|] eqn:Es; [|done].
  destruct (save api tunnel (host s)) as [err h] eqn:Ec. split.
  { destruct err; done. }
  intros (G1 & G2 & G3). rewrite Es in G1. injection G1 as ->.
  unfold ServerMain.save_ports in Ec. set (updated := set_config_ports api tunnel (hPersisted (host s))) in *.
  assert (updated = set_config_ports api tunnel c0) as Eu by (unfold updated; by rewrite G2).
  destruct (SaveServer _ _ _ _ _) as [err' fs] eqn:E. injection Ec as -> <-.
  apply SaveServer_file in E as [[He Hf]|(-> & Hv & b & Hb & Hf)]; [|..|apply Ht].
  - destruct err as [msg|]; [|done]. cbn. split_and!; cbn; [done|done|].
    by rewrite (LoadServer_lookup (mFiles (hMachine (host s)))).
  - cbn. split_and!; cbn; [done|by rewrite Eu|]. rewrite Eu in *.
    unfold Config.LoadServer, load. rewrite Hf. cbn [content]. rewrite (Hy api tunnel b Hv Hb). by rewrite Hv.
Qed.

Lemma keeps_startup (Hs : startup_law) b :
  heffect keeps (hrun (λ s : Server, let '(err, f) := setStartup b (host s) in (err, set_host f s))).
Proof.
  apply keeps_run. intros s. pose proof (Hs b (host s)) as [E1 E2].
  destruct (setStartup b (host s)) as [err h]. cbn [snd] in *. split; [done|].
  intros (G1 & G2 & G3). unfold good. cbn. rewrite E1. split_and!; [done..|].
  by rewrite (LoadServer_lookup (mFiles (hMachine (host s)))).
Qed.

(** ** Every handler *)

Create HintDb keeps.
Section handlers.
Context (Hy : yaml_law) (Ht : temp_law) (Hs : startup_law).
Abbreviation safe := (heffect keeps).

Lemma safe_audit n a b c x y : safe (audit (F := Host) (P := Plane) n a b c x y).
Proof. unfold audit. keeps_tac. Qed.
Lemma safe_ports input : safe (ports_part (F := Host) (P := Plane) input).
Proof. unfold ports_part. keeps_tac. by apply keeps_ports. Qed.
Lemma safe_flush e input : safe (flush_part (F := Host) (P := Plane) e input).
Proof. unfold flush_part. keeps_tac. Qed.
Lemma safe_flows e : safe (networkFlows (F := Host) (P := Plane) e).
Proof. unfold networkFlows. keeps_tac. Qed.
Lemma safe_history r : safe (networkFlowHistory (F := Host) (P := Plane) r).
Proof. unfold networkFlowHistory. keeps_tac. Qed.
Lemma safe_command e r u p : safe (command (F := Host) (P := Plane) e r u p).
Proof. unfold command, notifyCommand, commandSignal. keeps_tac. Qed.
Lemma safe_store_part e ping input : safe (store_part (F := Host) (P := Plane) e ping input).
Proof. unfold store_part, apply_part, trim_part, set_recording, set_limit. keeps_tac. Qed.
Lemma safe_update_startup e r u : safe (updateStartup (F := Host) (P := Plane) e r u).
Proof. unfold updateStartup. keeps_tac; try (by apply keeps_startup); apply safe_audit. Qed.
#[local] Opaque audit ports_part flush_part networkFlows networkFlowHistory command store_part
  updateStartup.
#[local] Hint Resolve safe_audit safe_ports safe_flush safe_flows safe_history safe_command
  safe_store_part safe_update_startup : keeps.
Ltac safe_tac := keeps_tac; auto with keeps.

Lemma safe_api e r u : safe (api (F := Host) (P := Plane) e r u).
Proof.
  unfold api. repeat match goal with |- heffect _ (if ?c then _ else _) => destruct c end.
  all: unfold logout, list_devices, patch_device, rename_part, address_part, get_settings,
    patch_settings, delete_history, startup_status, list_users, createUser,
    put_password, updateUserPassword, delete_user_request, patch_user, list_tokens, createToken,
    revoke_token, revoke_device, server_status, list_commands, list_audit.
  all: safe_tac.
Qed.

Lemma frame_close st s : frame s (close_stream st s).
Proof. unfold close_stream, deviceDisconnected. repeat case_match; by split_and!. Qed.
Lemma safe_end st evs : safe (end_stream (F := Host) (P := Plane) st evs).
Proof. unfold end_stream. keeps_tac. apply keeps_upd, frame_close. Qed.
Lemma safe_write_commands e i dev l : safe (write_commands (F := Host) (P := Plane) e i dev l).
Proof. revert i. induction l as [|c l IH]; intros i; cbn [write_commands]; keeps_tac; apply IH. Qed.
Lemma safe_pending e i dev : safe (writePendingCommands (F := Host) (P := Plane) e i dev).
Proof. unfold writePendingCommands. keeps_tac. apply safe_write_commands. Qed.
#[local] Opaque writePendingCommands end_stream.
#[local] Hint Resolve safe_end safe_pending : keeps.

Lemma safe_connect e r : safe (deviceConnect (F := Host) (P := Plane) e r).
Proof.
  unfold deviceConnect, connect_open, open_stream, deviceConnected, commandSignal, take_challenge,
    data_session.
  safe_tac.
Qed.
Lemma safe_wake e st k : safe (stream_wake (F := Host) (P := Plane) e st k).
Proof. unfold stream_wake, stream_ping, stream_commands. safe_tac. Qed.
#[local] Opaque deviceConnect api.
#[local] Hint Resolve safe_api safe_connect : keeps.

Lemma safe_dispatch e r : safe (ControlStream.dispatch (F := Host) (P := Plane) e r).
Proof.
  unfold ControlStream.dispatch. destruct (mux _ _).
  all: unfold login, setupStatus, setup, enroll, deviceChallenge, deviceCommandResult, trayStatus,
    trayStartup, trayQuit, startup_status, dashboard, authorized, take_challenge.
  all: safe_tac.
Qed.

Lemma keeps_serve e r s : keeps s (snd (serve e r s)).
Proof.
  unfold serve. assert (keeps s (snd (rateLimit (limit_now e) (RemoteAddr r) s))) as Hl.
  { apply keeps_frame. unfold rateLimit. by case_match. }
  destruct (rateLimit _ _ s) as [ok s1]. cbn [snd] in Hl. destruct ok; [|done].
  pose proof (outcome_effect _ _ (safe_dispatch e r) s1) as Ho.
  destruct (outcome _ s1) as [o s2]. cbn [snd] in *. by etrans.
Qed.

Lemma keeps_step a b : ctl_step a b → keeps (server a) (server b).
Proof.
  destruct 1 as [e r s l o s' _ Ho|e k st s l1 l2 o s' _ _ Ho| | | | |]; cbn [server];
    try (by apply keeps_frame); try apply (keeps_store (A := _)).
  - pose proof (keeps_serve e r s) as Hk. by rewrite Ho in Hk.
  - pose proof (outcome_effect _ _ (safe_wake e st k) s) as Hk. by rewrite Ho in Hk.
Qed.
Lemma keeps_run_rtc a b : rtc ctl_step a b → keeps (server a) (server b).
Proof. induction 1 as [|a b c Hab _ IH]; [done|]. etrans; [by apply keeps_step|done]. Qed.
End handlers.

(** ** The boot *)

(** The adapter and the socket work. *)
Definition tunnel_works (env : BootEnv) : Prop :=
  (∀ name address mtu, ∃ actual, b_tunnel env name address mtu = Ok actual) ∧
  (∀ address, ∃ port, b_socket env address = Ok port).

Record boot_facts (env : BootEnv) (webMode : string) (c : ServerConfig) (d : db) (m : Machine)
    (x : Running) : Prop := {
  bt_save : savePorts (rServer x) = Some (save_ports path);
  bt_ports : ports (rServer x) = mkPorts (APIPort c) (TunnelPort c) (APIPort c) (TunnelPort c);
  bt_host : host (rServer x) = mkHost m c 0;
  bt_store : store (world (rServer x)) = d;
  bt_network : network (static (rServer x)) = Network c;
  bt_ttl : ttl (static (rServer x)) = SessionTTL c;
  bt_local : localBootstrap (static (rServer x)) =
    is_loopback (override webMode c) || AllowRemoteSetup (override webMode c);
  bt_remote : remoteBootstrap (static (rServer x)) =
    AllowRemoteSetup (override webMode c) && negb (is_loopback (override webMode c));
  bt_adapter : adapterAddress (static (rServer x)) =
    if TunnelEnabled c then default "" (tunnel_cidr c) else "";
  bt_plane : is_none (dataPlane (rServer x)) = negb (TunnelEnabled c);
  bt_address : rAddress x = address_port (ListenAddress (override webMode c)) (APIPort c);
  bt_tls : rTLS x = if negb (TLSCert c =s "") && negb (TLSKey c =s "") then Some (TLSCert c, TLSKey c) else None;
  bt_spec : rSpec x = startup_spec env path webMode (override webMode c)
}.

Lemma override_fields webMode c :
  let c' := override webMode c in
  APIPort c' = APIPort c ∧ TunnelPort c' = TunnelPort c ∧ TunnelEnabled c' = TunnelEnabled c ∧
  TunnelName c' = TunnelName c ∧ TunnelAddress c' = TunnelAddress c ∧ TunnelMTU c' = TunnelMTU c ∧
  Network c' = Network c ∧ Config.Database c' = Config.Database c ∧ TLSCert c' = TLSCert c ∧
  TLSKey c' = TLSKey c ∧ SessionTTL c' = SessionTTL c ∧ PingInterval c' = PingInterval c.
Proof. unfold override, set_listen. repeat case_match; done. Qed.

Lemma ping_static i s :
  static (SetDefaultPingInterval i s) = static s ∧ host (SetDefaultPingInterval i s) = host s ∧
  world (SetDefaultPingInterval i s) = world s ∧ dataPlane (SetDefaultPingInterval i s) = dataPlane s.
Proof. unfold SetDefaultPingInterval. by repeat case_match. Qed.

Lemma boot_spec env webMode c d m x :
  boot yaml_encode os_save env path webMode c d m = Ok x → boot_facts env webMode c d m x.
Proof.
  unfold boot. destruct (override_fields webMode c) as (F1 & F2 & F3 & F4 & F5 & F6 & F7 & F8 & F9 & F10 & F11 & F12).
  set (c' := override webMode c) in *. destruct (ValidateServer c'); [done|]. cbv zeta.
  set (s0 := Control.New _ _ _ _ _ _). destruct (ping_static (PingInterval c') s0) as (P1 & P2 & P3 & P4).
  set (s1 := SetDefaultPingInterval _ _) in *. set (s2 := ConfigurePorts _ _ _ _).
  set (s3 := if AllowRemoteSetup c' && negb (is_loopback c') then AllowRemoteBootstrap s2 else s2).
  assert (static s3 = mkStatic (Network c') (SessionTTL c') (b_now env)
    (is_loopback c' || AllowRemoteSetup c') (AllowRemoteSetup c' && negb (is_loopback c')) "" "" "" false)
    as Es by (unfold s3; destruct (_ && _); cbn; by rewrite P1).
  assert (savePorts s3 = Some (save_ports path) ∧ ports s3 = ports s2 ∧ host s3 = mkHost m c 0 ∧
    world s3 = world s0 ∧ dataPlane s3 = None) as (E1 & E2 & E3 & E4 & E5).
  { unfold s3. destruct (_ && _); cbn; rewrite P2, P3, P4; by split_and!. }
  assert (ports s2 = mkPorts (APIPort c) (TunnelPort c) (APIPort c) (TunnelPort c)) as E6
    by (cbn; by rewrite F1, F2).
  assert (tunnel_cidr c' = tunnel_cidr c) as E7 by (unfold tunnel_cidr; by rewrite F7, F5).
  assert (store (world s3) = d) as E8 by by rewrite E4. rewrite E6 in E2.
  unfold add_tunnel. rewrite F3, E7, F9, F10, F1. clearbody s3. clear E4 E6 P1 P2 P3 P4. intros Hx.
  destruct (TunnelEnabled c) eqn:Et; cycle 1.
  { injection Hx as <-. split; cbn; rewrite ?Es, ?E5, ?Et, ?F7, ?F11, ?F9; done. }
  destruct (tunnel_cidr c) as [cidr|] eqn:Ec; [|done].
  destruct (b_tunnel _ _ _ _) as [name|]; [|done]. destruct (Listen _ _ _ _ _ _ _); [|done].
  injection Hx as <-. split; cbn; rewrite ?Es, ?E5, ?Et, ?Ec, ?F7, ?F11; done.
Qed.

(** The overrides keep a configuration valid. *)
Lemma override_valid webMode c : ValidateServer c = None → ValidateServer (override webMode c) = None.
Proof.
  rewrite !ValidateServer_spec. intros [V1 V2 V3 V4 V5 V6 V7].
  assert (∀ a i b, ParseIP a ≠ [] → a = "127.0.0.1" ∨ i = true → valid_server (set_listen a i b c)) as Hs.
  { intros a i b Ha Hi. split; cbn; try done; [|tauto].
    destruct V4 as (ip & base & ones & Hp & Hb & Ho & Ht). exists ip, base, ones.
    split; [done|]. split; [done|]. split; [done|]. cbn. intros He. by destruct (Ht He). }
  unfold override. repeat case_match; [apply Hs|apply Hs|done]; auto; by vm_compute.
Qed.

Lemma valid_listen c port now :
  ValidateServer c = None → TunnelEnabled c = true →
  ∃ p, Listen (Ok port) true (ParseIP (TunnelAddress c)) (TunnelMTU c) (Some NewTrafficMonitor) now tt = Ok p.
Proof.
  intros [_ _ _ (ip & base & ones & _ & _ & _ & Hvt) _ _ _]%ValidateServer_spec Ht.
  destruct (Hvt Ht) as [_ H4 _ Hm]. unfold Listen.
  rewrite bool_decide_eq_false_2 by (by intros E; rewrite E in H4).
  rewrite (proj2 (Z.ltb_ge _ 576)), (proj2 (Z.ltb_ge 9000 _)) by lia. by eexists.
Qed.

Lemma boot_runs env webMode c d m :
  ValidateServer c = None → tunnel_works env →
  ∃ x, boot yaml_encode os_save env path webMode c d m = Ok x.
Proof.
  intros Hv [Hn Hp]. unfold boot. pose proof (override_valid webMode c Hv) as Hv'.
  set (c' := override webMode c) in *. rewrite Hv'. cbv zeta.
  unfold add_tunnel.
  destruct (TunnelEnabled c') eqn:Et; [|by eexists].
  pose proof Hv' as [_ _ _ (ip & base & ones & Hc & _) _ _ _]%ValidateServer_spec.
  unfold tunnel_cidr. rewrite Hc. cbn [nMask]. edestruct Hn as [name ->]. edestruct Hp as [port ->].
  destruct (valid_listen c' port (b_now env) Hv' Et) as [p ->]. by eexists.
Qed.

(** ** The arguments of the start-up entry *)

Definition web_mode (webMode : string) : Prop := webMode ∈ ["config"; "local"; "lan"]%string.

Lemma runFlags_mode args p webMode : runFlags args = inr (p, webMode) → web_mode webMode.
Proof.
  unfold runFlags, try_parse, web_mode. destruct (Parse _ _) as [|[f rest]]; [done|].
  repeat case_match; intros [= <- <-]; set_solver.
Qed.

Lemma startup_args_parse p webMode : web_mode webMode →
  ∃ args, startupArgs p webMode = "run" :: args ∧ dispatch (startupArgs p webMode) = ARun args ∧
    runFlags args = inr (p, webMode).
Proof.
  intros Hm. eexists. split; [done|]. split; [done|]. unfold runFlags, try_parse.
  change "--config" with (dashed "config"). cbn [app].
  rewrite (Parse_value _ "config" (VString "configs/server.yaml") _ (VString p)) by done.
  unfold web_mode in Hm. rewrite !elem_of_cons, elem_of_nil in Hm.
  by destruct_or! Hm; subst.
Qed.

(** ** A restart *)

Lemma boot_good env webMode d m x :
  boot_facts env webMode c0 d m x → LoadServer path (mFiles m) = (c0, None) → good (rServer x).
Proof.
  intros [B1 B2 B3 _ _ _ _ _ _ _ _ _ _] Hl. unfold good. rewrite B1, B2, B3. cbn.
  split_and!; [done|by destruct c0|done].
Qed.

(** What a server that has been started again shares with the one before. *)
Definition same_identity (x x' : Server) : Prop :=
  network (static x') = network (static x) ∧ ttl (static x') = ttl (static x) ∧
  localBootstrap (static x') = localBootstrap (static x) ∧
  remoteBootstrap (static x') = remoteBootstrap (static x) ∧
  adapterAddress (static x') = adapterAddress (static x).

(** A disk after the server: its configuration file and its database. *)
Definition left_by (s : Server) (d' : Disk) : Prop :=
  mFiles (dMachine d') !! path = mFiles (hMachine (host s)) !! path ∧
  dStore d' !! Config.Database c0 = Some (store (world s)).

Lemma ports_config api tunnel c :
  Config.Database (set_config_ports api tunnel c) = Config.Database c ∧
  Network (set_config_ports api tunnel c) = Network c ∧
  SessionTTL (set_config_ports api tunnel c) = SessionTTL c ∧
  tunnel_cidr (set_config_ports api tunnel c) = tunnel_cidr c ∧
  TLSCert (set_config_ports api tunnel c) = TLSCert c ∧
  TLSKey (set_config_ports api tunnel c) = TLSKey c ∧
  TunnelEnabled (set_config_ports api tunnel c) = TunnelEnabled c ∧
  (∀ webMode, ListenAddress (override webMode (set_config_ports api tunnel c)) =
              ListenAddress (override webMode c) ∧
     AllowRemoteSetup (override webMode (set_config_ports api tunnel c)) =
     AllowRemoteSetup (override webMode c)).
Proof.
  split_and!; try done. intros webMode. unfold override, set_listen. by repeat case_match.
Qed.

Lemma restart_runs env webMode args s d' :
  runFlags args = inr (path, webMode) → good s → left_by s d' → b_open env = None → tunnel_works env →
  let c := set_config_ports (apiPort (ports s)) (tunnelPort (ports s)) c0 in
  ∃ x, runServer yaml_encode yaml_decode os_save env args d' = inr x ∧
       boot_facts env webMode c (store (world s)) (dMachine d') x.
Proof.
  intros Hf (_ & G2 & G3) [Hfile Hdb] Ho Ht c. rewrite G2 in G3. fold c in G3.
  assert (ValidateServer c = None) as Hv.
  { revert G3. unfold Config.LoadServer. destruct (load _ _ _ _) as [? []]; [done|]. by intros [= -> ->]. }
  destruct (boot_runs env webMode c (store (world s)) (dMachine d') Hv Ht) as [x Hx].
  exists x. split; [|by apply boot_spec]. unfold runServer. rewrite Hf. unfold open.
  rewrite (LoadServer_lookup (mFiles (hMachine (host s)))), G3, Ho by done.
  change (Config.Database c) with (Config.Database c0). rewrite Hdb.
  change (default empty_db (Some ?x)) with x. by rewrite Hx.
Qed.

End restart.
