(* ===== verification/ServerAdmin.v ===== *)
(** * ServerAdmin: installation and administration
    ([cmd/tyxnet-server/main.go] with [internal/installer])

    What [install] leaves can be started ([install_starts]); who is created with
    [admin create] can log in ([admin_logs_in]); and two configurations that
    [Validate] accepts do not work ([broken_configurations]). *)
From S2P Require Import Prelude Text Net Clock Calendar Crypto Traffic Flags Session Database.
From S2P Require Import Accounts Devices CommandStore History StoreSteps StoreProperties Auth.
From S2P Require Import Dataplane Config Protocol Http.
From S2P Require Import Control ControlAPI ControlPlane.
From S2P Require Import Commands System Startup Installer ServerMain ServerRestart.
From Stdlib Require Import Init.Byte Strings.Byte.

(** ** Installation *)

Section install.
Context (os : OS) (argv0 : string).

(** The files of a service, in the order in which they are written. *)
Definition installed (spec : Spec) (binary : list byte) (fs : gmap string file) : gmap string file :=
  written (service_path (Name spec)) 420 (service_unit spec)
    (<[ConfigPath spec := mkFile match written ("/usr/local/bin/" +:+ Binary spec) 493 (b2s binary) fs !!
           ConfigPath spec with Some f => Config.mode f | None => 384 end (ConfigData spec)]>
       (written ("/usr/local/bin/" +:+ Binary spec) 493 (b2s binary) fs)).

Lemma install_calm spec m f : calm_os os → mFiles m !! b2s (Clean (s2b argv0)) = Some f →
  ∃ m', Install os Linux argv0 spec m = (None, m') ∧ mFiles m' = installed spec (content f) (mFiles m) ∧
    processes m' = processes m ++
      [["systemctl"; "daemon-reload"]; ["systemctl"; "enable"; "--now"; Name spec +:+ ".service"]].
Proof.
  intros Ho Hf. unfold Install, copyFile, fixed_then. rewrite bool_decide_eq_true_2 by done. cbn [negb].
  unfold sbind. rewrite calm_read, Hf by done. rewrite calm_write by done. rewrite !calm_mkdir by done.
  rewrite !calm_write by done.
  match goal with |- context [Run os ["systemctl"; "daemon-reload"] ?s] =>
    destruct (calm_run os Ho ["systemctl"; "daemon-reload"] s) as [o1 ->] end.
  cbn [exit_error].
  match goal with |- context [Run os ["systemctl"; "enable"; "--now"; ?x] ?s] =>
    destruct (calm_run os Ho ["systemctl"; "enable"; "--now"; x] s) as [o2 ->] end.
  eexists. split; [done|]. split; [|by rewrite !processes_called, !app_nil_r, <- (assoc_L (++))].
  unfold installed, written. cbn [mFiles called]. by rewrite s2b_b2s.
Qed.

Lemma uninstall_calm name binary config m : calm_os os →
  ∃ m', Uninstall os Linux name binary config m = (None, m') ∧
    mFiles m' = delete config (delete ("/usr/local/bin/" +:+ binary) (delete (service_path name) (mFiles m))).
Proof.
  intros Ho. unfold Uninstall. rewrite bool_decide_eq_true_2 by done. cbn [negb]. unfold sbind.
  match goal with |- context [Run os ["systemctl"; "disable"; "--now"; ?x] ?s] =>
    destruct (calm_run os Ho ["systemctl"; "disable"; "--now"; x] s) as [o1 ->] end.
  rewrite !calm_remove by done.
  match goal with |- context [Run os ["systemctl"; "daemon-reload"] ?s] =>
    destruct (calm_run os Ho ["systemctl"; "daemon-reload"] s) as [o2 ->] end.
  by eexists.
Qed.
End install.

(** The start-up entry of a server and its installed unit are the same file:
    switching the entry off removes the unit. *)
Lemma startup_removes_service os printable lookup_user env path webMode c m :
  let spec := startup_spec env path webMode c in
  calm_os os → systemd_host os m →
  ∃ m', SetStartup_linux os printable lookup_user spec false m = (None, m') ∧
    mFiles m' !! service_path "tyxnet-server" = None.
Proof.
  intros spec Ho Hh. destruct (disable_linux os printable lookup_user spec m Ho Hh) as (m' & E & F & _).
  exists m'. split; [done|]. rewrite F.
  change (unit_path spec) with (service_path "tyxnet-server").
  assert (∀ fs : gmap string file, delete (env_path spec) (delete (service_path "tyxnet-server") fs)
    !! service_path "tyxnet-server" = None) as Hn.
  { intros fs. by rewrite lookup_delete_ne, lookup_delete_eq. }
  destruct (linuxCompanionPath _ _ _) as [[p u]|]; [|apply Hn].
  destruct (decide (p = service_path "tyxnet-server")) as [->|]; [by rewrite lookup_delete_eq|].
  rewrite lookup_delete_ne by done. apply Hn.
Qed.

(** The first address after the network's base. *)
Lemma install_config_spec f c : install_config f = Ok c →
  ValidateServer c = None ∧
  ∃ ip base ones, ParseCIDR (Network c) = Some (ip, mkIPNet base (CIDRMask ones 4)) ∧
    length base = 4%nat ∧ 0 ≤ ones ≤ 30 ∧ be_get (To4 (ParseIP (TunnelAddress c))) = be_get base + 1.
Proof.
  unfold install_config. destruct (ParseCIDR (get_string "network" f)) as [[ip n]|] eqn:Hp; [|done].
  set (c1 := mkServerConfig _ _ _ _ _ _ _ _ _ _ _ _ _ _ _).
  destruct (ValidateServer c1) as [e|] eqn:Hv; [done|]. intros [= <-]. split; [done|].
  pose proof Hv as [_ _ _ (ip' & base & ones & Hc & Hb & Ho & Ht) _ _ _]%ValidateServer_spec.
  exists ip', base, ones. split_and!; [done|done|lia|lia|].
  change (Network c1) with (get_string "network" f) in Hc. rewrite Hp in Hc. injection Hc as -> ->.
  change (TunnelAddress c1) with (ip_string (inc (To4 base))). rewrite (To4_of_4 base) by done.
  rewrite ParseIP_string by by rewrite inc_length.
  rewrite inc_value. unfold len. rewrite Hb. apply Z.mod_small.
  destruct (Ht eq_refl) as [_ _ Hh _]. change (TunnelAddress c1) with (ip_string (inc (To4 base))) in Hh.
  rewrite (To4_of_4 base), ParseIP_string, inc_value in Hh by (done || by rewrite inc_length).
  unfold len in Hh. rewrite Hb in Hh. pose proof (be_get_range base) as Hr. unfold len in Hr.
  rewrite Hb in Hr.
  destruct (Z.eq_dec (be_get base + 1) (256 ^ Z.of_nat 4)) as [E|]; [|lia].
  rewrite E, Z.mod_same in Hh by done. lia.
Qed.

Section admin.
Context `{Primitives}.
Context (yaml_encode : ServerConfig → result (list byte))
  (yaml_decode : list byte → ServerConfig → ServerConfig * option string) (os_save : nat → save_env).

(** The arguments in the unit's command line. *)
Definition unit_arguments : list string := ["run"; "--config"; config_path].

Lemma unit_command spec : ConfigPath spec = config_path → Binary spec = "tyxnet-server" →
  service_unit spec = texts (["[Unit]"; nl; "Description=TyxNet "; Name spec; nl; "After=network-online.target";
    nl; "Wants=network-online.target"; nl; nl; "[Service]"; nl; "ExecStart=";
    Join " " ("/usr/local/bin/tyxnet-server" :: unit_arguments)] ++
    [nl; "Restart=on-failure"; nl; "RestartSec=5"; nl; "NoNewPrivileges=true"; nl; "PrivateTmp=true"; nl;
     "ProtectSystem=strict"; nl;
     "ReadWritePaths=/var/lib/tyxnet /var/log/tyxnet /etc/tyxnet /etc/systemd/system"; nl; nl;
     "[Install]"; nl; "WantedBy=multi-user.target"; nl]).
Proof. intros Ec Eb. unfold service_unit. by rewrite Ec, Eb. Qed.


(** ** Creating an administrator *)

Lemma CreateAdmin_run rnd now name ph d u d' :
  store_ok d → CreateAdmin rnd now name ph d = (Ok u, d') →
  u = mkUser (new_id "usr" rnd) name "admin" false now ∧ devices d' = devices d ∧
  Authenticate name d' = (Ok (mkUser (ID u) name "admin" false (ParseTime (FormatRFC3339Nano now)), ph), d').
Proof.
  intros [_ Hr _ _]. unfold CreateAdmin, transaction, bind, wrap, map_err, insert_user, insert_user_role, ret.
  cbn [ID Username u_id u_username]. set (i := new_id "usr" rnd).
  destruct (has_value u_id i (users d)) eqn:Ei; [done|].
  destruct (has_value u_username name (users d)) eqn:En; [done|].
  set (row := mkUserRow i name ph false (FormatRFC3339Nano now)). cbn [users user_roles set_users].
  case_bool_decide; [done|]. destruct (_ && _); [|done]. intros [= <- <-]. split_and!; [done|done|].
  apply has_value_false in Ei, En. unfold Authenticate, bind, query_row. cbn [users set_user_roles set_users].
  assert (where_is u_username name (users d ++ [row]) = [row]) as ->.
  { unfold where_is. rewrite List.filter_app, filter_none.
    - cbn. by rewrite bool_decide_eq_true_2.
    - intros r Hin. apply bool_decide_eq_false_2. intros E. apply En. rewrite <- E.
      by apply list_elem_of_fmap_2. }
  unfold user_join. cbn [map concat]. unfold role_names. cbn [user_roles set_user_roles].
  assert (where_is fst i (user_roles d ++ [(i, "role_admin")]) = [(i, "role_admin")]) as Hi.
  { unfold where_is. rewrite List.filter_app, filter_none.
    - cbn. by rewrite bool_decide_eq_true_2.
    - intros r Hin. apply bool_decide_eq_false_2. intros E. apply Ei. rewrite <- E.
      unfold roles_ok in Hr. rewrite <- Hr. by apply list_elem_of_fmap_2. }
  change (u_id row) with i. by rewrite Hi.
Qed.

(** C32: an administrator created on the command line can log in.  [admin create]
    that succeeds was asked to read the password from the standard input, has
    read its first line, without the white space around it, of at least twelve
    bytes, and has changed nothing but the database of the configuration; in it
    the user name belongs to an enabled administrator, and the stored hash
    verifies the password. *)
Theorem admin_logs_in argon2id env args stdin salt rnd now d u d' :
  (∀ name, store_ok (default empty_db (dStore d !! name))) →
  adminCreate yaml_decode argon2id env args stdin salt rnd now d = (inr u, d') →
  ∃ f rest c ph store,
    Parse admin_options args = inr (f, rest) ∧ get_bool "password-stdin" f = true ∧
    LoadServer yaml_decode (get_string "config" f) (mFiles (dMachine d)) = (c, None) ∧
    let password := TrimSpace (b2s (fst (read_line stdin))) in
    12 ≤ slen password ∧
    d' = mkDisk (dMachine d) (<[Config.Database c := store]> (dStore d)) ∧
    fst (Authenticate (get_string "username" f) store) =
      Ok (mkUser (ID u) (get_string "username" f) "admin" false (ParseTime (FormatRFC3339Nano now)), ph) ∧
    VerifyPassword argon2id ph password = true.
Proof.
  intros Hok. unfold adminCreate. destruct (Parse admin_options args) as [|[f rest]]; [done|].
  destruct (get_bool "password-stdin" f) eqn:Es; cbn [negb]; [|done].
  destruct (read_line stdin) as [password complete] eqn:El. destruct (negb complete && _); [done|].
  destruct (HashPassword argon2id salt (TrimSpace (b2s password))) as [ph|] eqn:Eh; [|done].
  unfold store_of, open. destruct (LoadServer _ _ _) as [c [|]] eqn:Ec; [done|].
  destruct (b_open env); [done|]. cbn [result_bind].
  destruct (CreateAdmin _ _ _ _ _) as [[u1|] store] eqn:Ea; [|done]. intros [= -> <-].
  destruct (hash_verifies argon2id (default [] salt) (TrimSpace (b2s password))) as [Hlong Hshort].
  assert (12 ≤ slen (TrimSpace (b2s password))) as Hlen.
  { destruct (Z.lt_ge_cases (slen (TrimSpace (b2s password))) 12) as [Hlt|]; [|done].
    by rewrite (Hshort Hlt) in Eh. }
  apply CreateAdmin_run in Ea as (_ & _ & Ha); [|apply Hok].
  exists f, rest, c, ph, store. cbv zeta. cbn [fst]. split_and!; try done; [by rewrite Ha|].
  destruct (Hlong Hlen) as (enc & Henc & Hv & _). destruct salt as [salt|].
  - change (default [] (Some salt)) with salt in *. rewrite Henc in Eh. by injection Eh as <-.
  - unfold HashPassword in Eh. by case_match.
Qed.
End admin.

(** ** Configurations that do not work *)

Lemma index_byte_here (c : byte) p l : Forall (λ b, b ≠ c) p → index_byte c (p ++ c :: l) = Some (length p).
Proof.
  induction 1 as [|b p Hb _ IH]; cbn [app index_byte length].
  - by rewrite bool_decide_eq_true_2.
  - by rewrite bool_decide_eq_false_2, IH.
Qed.
Lemma last_index_here (c : byte) l t : Forall (λ b, b ≠ c) t →
  last_index_byte c (l ++ c :: t) = Some (length l).
Proof.
  intros Ht. unfold last_index_byte. rewrite rev_app_distr. cbn [rev]. rewrite <- (assoc_L (++)).
  cbn [app]. rewrite index_byte_here by by apply Forall_rev. cbn. f_equal.
  rewrite length_app, length_rev. simpl. lia.
Qed.

(** No IP address begins with a bracket. *)
Lemma bracket_no_ip l : ParseIP (b2s (x5b :: l)) = [].
Proof.
  unfold ParseIP, parse_addr. rewrite s2b_b2s.
  assert (∀ k, parse_addr_go (x5b :: l) k = None) as ->; [|done].
  induction k as [|c k IH]; cbn [parse_addr_go]; [done|]. by repeat case_bool_decide.
Qed.

(** C33: three kinds of configurations that are accepted cannot work.  A listening
    address in IPv6 makes an address of the listener that [net.SplitHostPort]
    refuses, so that the server cannot listen; a tunnel address other than the
    first one of the network is handed out to a device, here to the first one;
    and a tunnel address in the IPv4-mapped notation of IPv6 makes an address of
    the adapter whose prefix length counts the bits of an IPv6 address. *)
Theorem broken_configurations :
  (∀ c port, ValidateServer c = None → has_byte colon (s2b (ListenAddress c)) = true →
     0 ≤ port → SplitHostPort (address_port (ListenAddress c) port) = None) ∧
  (∃ c, ValidateServer c = None ∧ TunnelEnabled c = true ∧
     fst (nextIP (Network c) empty_db) = Ok (TunnelAddress c)) ∧
  (∃ c cidr, ValidateServer c = None ∧ TunnelEnabled c = true ∧ tunnel_cidr c = Some cidr ∧
     (λ x, mask_size (nMask (snd x))) <$> ParseCIDR cidr = Some (24, 128)).
Proof.
  split; [|split].
  - intros c port [Hip _ _ _ _ _ _]%ValidateServer_spec Hcolon Hport.
    unfold address_port, SplitHostPort, FormatUint.
    rewrite !s2b_app, s2b_b2s. change (s2b ":") with [colon]. cbn [app].
    assert (Forall (λ b, b ≠ colon) (fmt_dec port)) as Hd.
    { eapply Forall_impl; [by apply fmt_dec_digits|]. intros b Hb ->. by vm_compute in Hb. }
    rewrite last_index_here by done. rewrite take_app_length.
    rewrite bool_decide_eq_false_2; [by rewrite Hcolon|]. intros Hh. apply Hip.
    rewrite <- (b2s_s2b (ListenAddress c)). destruct (s2b (ListenAddress c)) as [|b l]; [done|].
    injection Hh as ->. apply bracket_no_ip.
  - exists (mkServerConfig "0.0.0.0" 8443 51830 true "TyxNet" "10.90.0.2" 1280 "10.90.0.0/24" "tyxnet.db" ""
      "" true true (15 * Minute) (25 * Second)).
    split_and!; vm_compute; reflexivity.
  - exists (mkServerConfig "0.0.0.0" 8443 51830 true "TyxNet" "::ffff:10.90.0.1" 1280 "10.90.0.0/24" "tyxnet.db" ""
      "" true true (15 * Minute) (25 * Second)).
    exists "::ffff:10.90.0.1/24"%string. split_and!; vm_compute; reflexivity.
Qed.

(** A server that listens on IPv6 loopback. *)
Definition ipv6_config : ServerConfig :=
  mkServerConfig "::1" 8443 51830 true "TyxNet" "10.90.0.1" 1280 "10.90.0.0/24" "tyxnet.db" ""
    "" false false (15 * Minute) (25 * Second).
Lemma broken_configurations_witness :
  ValidateServer ipv6_config = None ∧ address_port "::1" 8443 = "::1:8443"%string ∧
  SplitHostPort (address_port (ListenAddress ipv6_config) 8443) = None.
Proof.
  assert (ValidateServer ipv6_config = None) as Hv by (vm_compute; reflexivity).
  split; [exact Hv|]. split; [vm_compute; reflexivity|].
  apply (proj1 broken_configurations ipv6_config 8443 Hv); [vm_compute; reflexivity|lia].
Defined.
