(* ===== verification/ServerScenario.v ===== *)
(** * ServerScenario: a server that is started, set up, reconfigured and started
    again

    The program of [ServerMain] on a machine with systemd, with the toy
    primitives and data plane of [ControlScenario] and a codec that writes the
    ports of the default configuration. *)
From S2P Require Import Prelude Text Net Clock Calendar Http Traffic Duration Protocol Crypto.
From S2P Require Import Session Dataplane Flags Database Accounts Devices CommandStore History StoreSteps.
From S2P Require Import Auth Control ControlAPI ControlStream ControlEffects ControlPlane.
From S2P Require Import ControlScenario Config Commands System Startup Installer ServerMain ServerRestart.
From S2P Require Import StoreProperties ServerAdmin.
From Stdlib Require Import Init.Byte Strings.Byte.

Import Crypto.Toy.

(** ** The machine *)

(** A configuration file of the default settings with its ports. *)
Definition ports_encode (c : ServerConfig) : result (list byte) :=
  Ok (be_put 2 (APIPort c) ++ be_put 2 (TunnelPort c)).
Definition ports_decode (b : list byte) (c : ServerConfig) : ServerConfig * option string :=
  (set_config_ports (be_get (take 2 b)) (be_get (drop 2 b)) DefaultServer, None).

Definition config_file : string := "/etc/tyxnet/server.yaml".
Definition first_content : list byte := be_put 2 8443 ++ be_put 2 51830.
Definition first_disk : Disk :=
  mkDisk (mkMachine (<[config_file := mkFile 384 first_content]> (mFiles sample_host)) []) ∅.
Definition saving (n : nat) : save_env :=
  mkSaveEnv true (Some "/etc/tyxnet/.server.yaml-1") true None true true true.

Definition boot_env : BootEnv :=
  mkBoot None (λ name address mtu, Ok name) (λ address, Ok 51830) T0 Linux "/opt/tyxnet/tyxnet-server"
    "/opt/tyxnet" (λ p, p) "tray-secret".
Definition started_with : list string := ["--config"; config_file; "--local-web"].

Definition the_spec : StartupSpec :=
  startup_spec boot_env config_file "local" (override "local" DefaultServer).
Definition the_startup : bool → Sh (option string) :=
  SetStartup_linux sample_os (λ _, true) sample_user the_spec.

#[export] Instance host_inputs : Inputs := {
  in_login := in_login; in_setup := in_setup; in_enroll := in_enroll; in_challenge := in_challenge;
  in_connect := in_connect; in_result := in_result; in_device := in_device;
  in_settings := one_value (mkSettingsPatch None None None (Some 9443) (Some 51999));
  in_startup := in_startup; in_user := in_user; in_user_patch := in_user_patch;
  in_password := in_password; in_token := in_token
}.
#[export] Instance host_externals : Externals Host := {
  argon2id := Auth.toy_argon2id;
  ed25519_verify key text sig := bool_decide (sig = key ++ text);
  ToLower := λ s, s; web_index := None; web_asset := λ _, write_header 404;
  startupAvailable := (true, "");
  startupEnabled := host_startup_enabled (StartupEnabled_linux sample_os the_spec);
  setStartup := host_set_startup the_startup
}.

Lemma startup_keeps_config : startup_law config_file.
Proof.
  intros b h. cbv zeta. apply (host_startup_keeps the_startup config_file
    (entry_own sample_os sample_user the_spec)); [apply touches_entry|].
  apply (bool_decide_unpack _). vm_compute. exact I.
Qed.

Lemma ports_law : yaml_law ports_encode ports_decode DefaultServer.
Proof.
  intros api tunnel b [_ (H1 & H2 & _) _ _ _ _ _]%ValidateServer_spec Hb.
  unfold ports_encode in Hb. apply Ok_inj in Hb as <-.
  cbn [set_config_ports APIPort TunnelPort] in *. unfold ports_decode.
  rewrite take_app_length', drop_app_length' by by rewrite be_put_length.
  by rewrite !be_get_put_small by lia.
Qed.

Lemma saving_fresh : temp_law saving config_file.
Proof. by intros n t [= <-]. Qed.

(** ** The run *)

Abbreviation HostServer := (Control Host (Dataplane.Server unit)).

Definition booting : failure + Running :=
  runServer ports_encode ports_decode saving boot_env started_with first_disk.
Definition running : Running :=
  match booting with
  | inr x => x
  | inl _ => mkRunning (Control.New empty_db "" 0 0 false (mkHost sample_host DefaultServer 0)) "" None sample_spec
  end.

Lemma booting_runs : booting = inr running.
Proof.
  assert (match booting with inr _ => true | inl _ => false end = true) as Hb by (vm_compute; reflexivity).
  unfold running. destruct booting; [discriminate Hb|reflexivity].
Qed.

Definition host_served (k : byte) (method path : string) (s : HostServer) : Outcome * HostServer :=
  serve (env_of k) (request method path) s.
Definition host1 : HostServer := snd (host_served x01 "POST" "/api/v1/setup" (rServer running)).
Definition host2 : HostServer := snd (host_served x07 "PATCH" "/api/v1/server/settings" host1).

Lemma host_step k method path (s : HostServer) :
  opened (fst (host_served k method path s)) = [] →
  ctl_step (mkRun s []) (mkRun (snd (host_served k method path s)) []).
Proof.
  intros E. pose proof (on_request (env_of k) (request method path) s [] _ _ (sane_env_of k)
    (surjective_pairing _)) as Hs. unfold host_served in E |- *. by rewrite E in Hs.
Qed.
Lemma host_run : rtc ctl_step (mkRun (rServer running) []) (mkRun host2 []).
Proof.
  assert (ctl_step (mkRun (rServer running) []) (mkRun host1 [])) as H1
    by (unfold host1; apply host_step; vm_compute; reflexivity).
  assert (ctl_step (mkRun host1 []) (mkRun host2 [])) as H2
    by (unfold host2; apply host_step; vm_compute; reflexivity).
  exact (rtc_l _ _ _ _ H1 (rtc_once _ _ H2)).
Qed.

Lemma host2_ports : ports host2 = mkPorts 9443 51999 8443 51830.
Proof. vm_compute. reflexivity. Qed.

Definition last_disk : Disk :=
  mkDisk (hMachine (host host2)) {[ Config.Database DefaultServer := store (world host2) ]}.

Lemma open_first : open ports_decode boot_env config_file first_disk = Ok (DefaultServer, empty_db).
Proof. vm_compute. reflexivity. Qed.


(** ** Installation and administration *)

Definition install_args : list string := ["--api-port"; "9443"; "--network=10.20.0.0/16"]%string.
Definition installing_config : ServerConfig :=
  match Parse install_options install_args with
  | inr (f, _) => match install_config f with Ok c => c | Err _ => DefaultServer end
  | inl _ => DefaultServer
  end.
(** A codec of that configuration alone. *)
Definition one_encode (c : ServerConfig) : result (list byte) := Ok [x01].
Definition one_decode (b : list byte) (c : ServerConfig) : ServerConfig * option string :=
  (installing_config, None).
Definition downloaded : Machine :=
  mkMachine (<["/home/ann/tyxnet-server" := mkFile 493 [x7f; x45]]> (mFiles sample_host)) [].

Lemma sample_os_calm : calm_os sample_os.
Proof. split; [done|]. by eexists. Qed.


Definition admin_args : list string :=
  ["--config"; config_file; "--username"; "root"; "--password-stdin"]%string.
Definition admin_stdin : list byte := s2b "correct horse battery" ++ [x0a].

Lemma admin_logs_in_witness :
  ∃ u d' ph store,
    adminCreate ports_decode Auth.toy_argon2id boot_env admin_args admin_stdin (Some [x01]) [x02; x03] T0
      first_disk = (inr u, d') ∧
    dStore d' !! "tyxnet.db"%string = Some store ∧
    VerifyPassword Auth.toy_argon2id ph "correct horse battery" = true.
Proof.
  assert (∃ u d', adminCreate ports_decode Auth.toy_argon2id boot_env admin_args admin_stdin (Some [x01])
    [x02; x03] T0 first_disk = (inr u, d')) as (u & d' & E).
  { eexists _, _. vm_compute. reflexivity. }
  destruct (admin_logs_in ports_decode Auth.toy_argon2id boot_env admin_args admin_stdin (Some [x01])
    [x02; x03] T0 first_disk u d' (λ name, empty_store_ok) E)
    as (f & rest & c & ph & store & Hp & _ & Hl & _ & Hd & _ & Hv).
  exists u, d', ph, store. split; [exact E|].
  assert (f = <["password-stdin" := VBool true]> (<["username" := VString "root"]>
    (<["config" := VString config_file]> admin_options)))%string as Hf.
  { assert (Parse admin_options admin_args = inr (<["password-stdin" := VBool true]>
      (<["username" := VString "root"]> (<["config" := VString config_file]> admin_options)), []))%string
      as E2 by (vm_compute; reflexivity).
    rewrite E2 in Hp. injection Hp as <- _. reflexivity. }
  split; [|exact Hv]. rewrite Hd. cbn [dStore].
  assert (Config.Database c = "tyxnet.db"%string) as ->; [|apply lookup_insert_eq].
  rewrite Hf in Hl. vm_compute in Hl. injection Hl as <-. reflexivity.
Defined.
