(* ===== verification/ClientAgent.v ===== *)
(** * ClientAgent: the client's agent ([internal/client/client.go])

    The client's state, its requests to the server, the enrollment ([Join]), the
    identity file, the virtual adapter and the data plane, the execution of
    commands and the connection up to its stream.

    The server behind [http.Client] is an interface, [Remote]: it answers a
    request in its own state [R].  [Marshal] is [json.Marshal]; answers are read
    by [Unmarshal].  What the operating system answers to the other calls and
    the clock readings are in a [Sys], numbered in the order of the code.  An
    error of a library is named by the call that made it. *)
From S2P Require Import Prelude Text Net Clock Protocol Crypto Session Traffic Dataplane DataClient.
From S2P Require Import Commands Config Http Accounts Devices CommandStore.
From Stdlib Require Import Init.Byte Strings.Byte.

(** ** Errors *)

(** [errReconnectRequested], or any other error with its text. *)
Inductive error := ErrReconnect | ErrText (msg : string).
Definition error_text (e : error) : string :=
  match e with ErrReconnect => "server requested reconnect" | ErrText msg => msg end.

(** ** What goes over the network *)

Record HttpRequest := mkHttpRequest {
  hMethod : string; hURL : string; hToken : string; hBody : list byte
}.
Record HttpResponse := mkHttpResponse { hCode : Z; hStatus : string; hText : list byte }.

Record DeviceRef := mkDeviceRef { refDevice : string }.
Record ChallengeReply := mkChallengeReply { replyChallenge : string }.
Record ConnectProof := mkConnectProof { proofDevice : string; proofSignature : string }.
Record JoinRequest := mkJoinRequest {
  jnToken : string; jnName : string; jnOS : string; jnArch : string; jnVersion : string;
  jnPublicKey : list byte
}.
Record Credentials := mkCredentials { crUsername : string; crPassword : string; crRemember : bool }.
Record managementLoginResponse := mkLoginResponse {
  AccessToken : string; ExpiresIn : Z; LoginUser : User
}.
Record Update := mkUpdate {
  uVirtualIP : string; uNetwork : string; uPing : Z; uDataPlane : option Bootstrap
}.
Record persisted := mkPersisted {
  pDeviceID : string; pVirtualIP : string; pNetwork : string; pPrivateKey : list byte
}.

Class Marshal (A : Type) := marshal : A → list byte.
Class AgentJSON := {
  js_ref :: Marshal DeviceRef; js_proof :: Marshal ConnectProof; js_join :: Marshal JoinRequest;
  js_result :: Marshal CommandResult; js_identity :: Marshal persisted;
  js_credentials :: Marshal Credentials;
  js_read_challenge :: Unmarshal ChallengeReply; js_read_device :: Unmarshal Device;
  js_read_devices :: Unmarshal (list Device); js_read_user :: Unmarshal User;
  js_read_login :: Unmarshal managementLoginResponse; js_read_command :: Unmarshal Command;
  js_read_identity :: Unmarshal persisted; js_read_update :: Unmarshal Update;
  js_read_control :: Unmarshal ControlCommand;
  (** [json.Marshal] of a nil. *)
  js_null : list byte
}.

(** [json.Unmarshal] of a whole text, and [json.NewDecoder(...).Decode]. *)
Definition unmarshal_all {A} `{Unmarshal A} (b : list byte) : option A :=
  match unmarshal false b with
  | Some (a, rest) => if at_eof rest then Some a else None
  | None => None
  end.
Definition decode_first {A} `{Unmarshal A} (b : list byte) : option A := fst <$> unmarshal false b.

(** The server, [http.NewRequest]'s error for a method and a URL, and the
    functions of other packages: [ed25519.Sign], [strings.ToLower]. *)
Class Remote (R : Type) := {
  new_request : string → string → option string;
  http_do : HttpRequest → R → result HttpResponse * R;
  ed25519_sign : list byte → list byte → list byte;
  lower_text : string → string;
  url_hostname : string → string;
  resolve : string → result UDPAddr;
  conn_write : UDPAddr → list byte → option string;
  client_os : platform; GOOS : string; GOARCH : string; build_version : string
}.

Definition PrivateKeySize : Z := 64.

(** ** State *)

Record State := mkState {
  Connected : bool; sDeviceID : string; sVirtualIP : string; sNetwork : string; sPing : Z;
  AdapterName : string; AdapterAddress : string; AdapterReady : bool; DataPlaneReady : bool;
  LastConnected : option Z; LastError : string; Started : Z; Configured : bool
}.

(** The answers of the operating system. *)
Record write_answer := mkWrite { open_ok : bool; fails_after : option nat; closes : bool }.
Record Sys := mkSys {
  time : nat → Z;
  (** The clock when the entry of a command is looked at. *)
  sweep_time : string → Z;
  stat_error : option string; read_error : option string; mkdir_error : option string;
  remove_error : option string; write_file : write_answer; save_config : save_env;
  (** The public and the private key. *)
  new_key : option (list byte * list byte);
  (** [platform.EnsureTunnel]: the name of the adapter for a name, an address and
      an MTU. *)
  tunnel : string → string → Z → result string; socket : result unit;
  (** The outcome of a process. *)
  process : option string;
  (** The clock of the data plane. *)
  send_time : Z
}.

Section agent.
Context {R F : Type}.

Record Agent := mkAgent {
  config : ClientConfig; state : State; key : list byte; configurationCh : bool;
  (** The connection's context: has it been cancelled? *)
  connectionStop : option bool;
  managementToken : string; managementUser : User; managementNodes : list Device;
  adapter : option string; adapterAddress : string; dataPlane : option DataClient.Client;
  trayToken : string; canShutdown : bool; handledCommands : gmap string Z;
  disk : gmap string file; remote : R; host : F;
  (** The processes that were started, with the command. *)
  executed : list (string * (string * list string)); shutdownAsked : bool
}.

Definition set_config (c : ClientConfig) (a : Agent) : Agent :=
  mkAgent c (state a) (key a) (configurationCh a) (connectionStop a) (managementToken a)
    (managementUser a) (managementNodes a) (adapter a) (adapterAddress a) (dataPlane a)
    (trayToken a) (canShutdown a) (handledCommands a) (disk a) (remote a) (host a) (executed a)
    (shutdownAsked a).
Definition set_state (s : State) (a : Agent) : Agent :=
  mkAgent (config a) s (key a) (configurationCh a) (connectionStop a) (managementToken a)
    (managementUser a) (managementNodes a) (adapter a) (adapterAddress a) (dataPlane a)
    (trayToken a) (canShutdown a) (handledCommands a) (disk a) (remote a) (host a) (executed a)
    (shutdownAsked a).
Definition set_key (k : list byte) (a : Agent) : Agent :=
  mkAgent (config a) (state a) k (configurationCh a) (connectionStop a) (managementToken a)
    (managementUser a) (managementNodes a) (adapter a) (adapterAddress a) (dataPlane a)
    (trayToken a) (canShutdown a) (handledCommands a) (disk a) (remote a) (host a) (executed a)
    (shutdownAsked a).
Definition set_channel (b : bool) (a : Agent) : Agent :=
  mkAgent (config a) (state a) (key a) b (connectionStop a) (managementToken a)
    (managementUser a) (managementNodes a) (adapter a) (adapterAddress a) (dataPlane a)
    (trayToken a) (canShutdown a) (handledCommands a) (disk a) (remote a) (host a) (executed a)
    (shutdownAsked a).
Definition set_stop (o : option bool) (a : Agent) : Agent :=
  mkAgent (config a) (state a) (key a) (configurationCh a) o (managementToken a)
    (managementUser a) (managementNodes a) (adapter a) (adapterAddress a) (dataPlane a)
    (trayToken a) (canShutdown a) (handledCommands a) (disk a) (remote a) (host a) (executed a)
    (shutdownAsked a).
Definition set_management (t : string) (u : User) (l : list Device) (a : Agent) : Agent :=
  mkAgent (config a) (state a) (key a) (configurationCh a) (connectionStop a) t u l (adapter a)
    (adapterAddress a) (dataPlane a) (trayToken a) (canShutdown a) (handledCommands a) (disk a)
    (remote a) (host a) (executed a) (shutdownAsked a).
Definition set_adapter (d : option string) (address : string) (a : Agent) : Agent :=
  mkAgent (config a) (state a) (key a) (configurationCh a) (connectionStop a) (managementToken a)
    (managementUser a) (managementNodes a) d address (dataPlane a) (trayToken a) (canShutdown a)
    (handledCommands a) (disk a) (remote a) (host a) (executed a) (shutdownAsked a).
Definition set_dataPlane (d : option DataClient.Client) (a : Agent) : Agent :=
  mkAgent (config a) (state a) (key a) (configurationCh a) (connectionStop a) (managementToken a)
    (managementUser a) (managementNodes a) (adapter a) (adapterAddress a) d (trayToken a)
    (canShutdown a) (handledCommands a) (disk a) (remote a) (host a) (executed a) (shutdownAsked a).
Definition set_application (token : string) (shutdown : bool) (a : Agent) : Agent :=
  mkAgent (config a) (state a) (key a) (configurationCh a) (connectionStop a) (managementToken a)
    (managementUser a) (managementNodes a) (adapter a) (adapterAddress a) (dataPlane a) token
    shutdown (handledCommands a) (disk a) (remote a) (host a) (executed a) (shutdownAsked a).
Definition set_handled (h : gmap string Z) (a : Agent) : Agent :=
  mkAgent (config a) (state a) (key a) (configurationCh a) (connectionStop a) (managementToken a)
    (managementUser a) (managementNodes a) (adapter a) (adapterAddress a) (dataPlane a)
    (trayToken a) (canShutdown a) h (disk a) (remote a) (host a) (executed a) (shutdownAsked a).
Definition set_disk (d : gmap string file) (a : Agent) : Agent :=
  mkAgent (config a) (state a) (key a) (configurationCh a) (connectionStop a) (managementToken a)
    (managementUser a) (managementNodes a) (adapter a) (adapterAddress a) (dataPlane a)
    (trayToken a) (canShutdown a) (handledCommands a) d (remote a) (host a) (executed a)
    (shutdownAsked a).
Definition set_remote (r : R) (a : Agent) : Agent :=
  mkAgent (config a) (state a) (key a) (configurationCh a) (connectionStop a) (managementToken a)
    (managementUser a) (managementNodes a) (adapter a) (adapterAddress a) (dataPlane a)
    (trayToken a) (canShutdown a) (handledCommands a) (disk a) r (host a) (executed a)
    (shutdownAsked a).
Definition set_host (f : F) (a : Agent) : Agent :=
  mkAgent (config a) (state a) (key a) (configurationCh a) (connectionStop a) (managementToken a)
    (managementUser a) (managementNodes a) (adapter a) (adapterAddress a) (dataPlane a)
    (trayToken a) (canShutdown a) (handledCommands a) (disk a) (remote a) f (executed a)
    (shutdownAsked a).
Definition set_executed (l : list (string * (string * list string))) (a : Agent) : Agent :=
  mkAgent (config a) (state a) (key a) (configurationCh a) (connectionStop a) (managementToken a)
    (managementUser a) (managementNodes a) (adapter a) (adapterAddress a) (dataPlane a)
    (trayToken a) (canShutdown a) (handledCommands a) (disk a) (remote a) (host a) l
    (shutdownAsked a).
Definition ask_shutdown (a : Agent) : Agent :=
  mkAgent (config a) (state a) (key a) (configurationCh a) (connectionStop a) (managementToken a)
    (managementUser a) (managementNodes a) (adapter a) (adapterAddress a) (dataPlane a)
    (trayToken a) (canShutdown a) (handledCommands a) (disk a) (remote a) (host a) (executed a)
    (canShutdown a).

(** ** Computations: they end with an [X] or with an [E], an error or an answer *)

Definition C (E X : Type) : Type := Agent → (E + X) * Agent.
Definition cret {E X} (x : X) : C E X := λ a, (inr x, a).
Definition cstop {E X} (e : E) : C E X := λ a, (inl e, a).
Definition cbind {E X Y} (m : C E X) (k : X → C E Y) : C E Y := λ a,
  match m a with
  | (inr x, a') => k x a'
  | (inl e, a') => (inl e, a')
  end.
Definition cget {E X} (f : Agent → X) : C E X := λ a, (inr (f a), a).
Definition cupd {E} (f : Agent → Agent) : C E unit := λ a, (inr tt, f a).
Definition crun {E X} (f : Agent → X * Agent) : C E X := λ a, let '(x, a) := f a in (inr x, a).
(** A computation whose end is looked at. *)
Definition ctry {E E' X} (m : C E X) : C E' (E + X) := λ a, let '(r, a) := m a in (inr r, a).
End agent.
Global Arguments Agent : clear implicits.
Global Arguments C : clear implicits.

Notation "'let@' x := m 'in' k" := (cbind m (λ x, k))
  (at level 10, x pattern, m at level 100, k at level 200) : tyx_scope.
Notation "'do@' m ; k" := (cbind m (λ _, k))
  (at level 10, m at level 100, k at level 200) : tyx_scope.
Notation "'stop_when' c 'with' e ; k" := (if c then cstop e else k)
  (at level 10, c at level 100, e at level 100, k at level 200) : tyx_scope.

(** ** The fields of [State] *)

Definition s_identity (id ip net : string) (configured : bool) (s : State) : State :=
  mkState (Connected s) id ip net (sPing s) (AdapterName s) (AdapterAddress s) (AdapterReady s)
    (DataPlaneReady s) (LastConnected s) (LastError s) (Started s) configured.
Definition s_assigned (ip net : string) (ping : Z) (s : State) : State :=
  mkState (Connected s) (sDeviceID s) ip net ping (AdapterName s) (AdapterAddress s)
    (AdapterReady s) (DataPlaneReady s) (LastConnected s) (LastError s) (Started s) (Configured s).
Definition s_contact (now : Z) (s : State) : State :=
  mkState true (sDeviceID s) (sVirtualIP s) (sNetwork s) (sPing s) (AdapterName s)
    (AdapterAddress s) (AdapterReady s) (DataPlaneReady s) (Some now) "" (Started s) (Configured s).
Definition s_failed (msg : string) (s : State) : State :=
  mkState false (sDeviceID s) (sVirtualIP s) (sNetwork s) (sPing s) (AdapterName s)
    (AdapterAddress s) (AdapterReady s) (DataPlaneReady s) (LastConnected s) msg (Started s)
    (Configured s).
Definition s_adapter (name address : string) (ready : bool) (s : State) : State :=
  mkState (Connected s) (sDeviceID s) (sVirtualIP s) (sNetwork s) (sPing s) name address ready
    (DataPlaneReady s) (LastConnected s) (LastError s) (Started s) (Configured s).
Definition s_plane (ready : bool) (s : State) : State :=
  mkState (Connected s) (sDeviceID s) (sVirtualIP s) (sNetwork s) (sPing s) (AdapterName s)
    (AdapterAddress s) (AdapterReady s) ready (LastConnected s) (LastError s) (Started s)
    (Configured s).

Section operations.
Context `{Primitives} {R F : Type} `{AgentJSON} `{Remote R}.
Implicit Types (e : Sys) (a : Agent R F).
Abbreviation C := (C R F error).
Abbreviation Agent := (Agent R F).

Definition upd_state (f : State → State) : C unit := cupd (λ a, set_state (f (state a)) a).
Definition cfail {X} (msg : string) : C X := cstop (ErrText msg).
(** [fmt.Errorf(prefix + "%w", err)]. *)
Definition wrap {X} (prefix : string) (m : C X) : C X := λ a,
  match m a with
  | (inl err, a) => (inl (ErrText (prefix +:+ error_text err)), a)
  | r => r
  end.

(** ** The constructor and the small setters *)

Definition New (c : ClientConfig) (now : Z) (files : gmap string file) (r : R) (f : F) : Agent :=
  mkAgent c (mkState false "" "" "" 0 "" "" false false None "" now false) [] false None ""
    (mkUser "" "" "" false zeroTime) [] None "" None "" false ∅ files r f [] false.
Definition notifyConfigurationChanged : C unit := cupd (set_channel true).
Definition cancelConnection : C unit :=
  cupd (λ a, set_stop ((λ _, true) <$> connectionStop a) a).
Definition ConfigureApplication (token : string) (shutdown : bool) (a : Agent) : Agent :=
  set_application token shutdown a.

(** ** Requests *)

(** [strings.TrimRight(s, "/")]. *)
Fixpoint drop_slashes (l : list byte) : list byte :=
  match l with b :: l' => if bool_decide (b = x2f) then drop_slashes l' else l | [] => [] end.
Definition TrimRightSlash (s : string) : string := b2s (rev (drop_slashes (rev (s2b s)))).

Definition server_url (c : ClientConfig) (path : string) : string :=
  TrimRightSlash (cServerURL c) +:+ path.

(** The request and the check of its status: the body of the answer, or nothing
    for 204. *)
Definition request_raw (method path token : string) (body : list byte) : C (option (list byte)) :=
  let@ c := cget config in
  let url := server_url c path in
  match new_request method url with
  | Some msg => cfail msg
  | None =>
    let@ answer := crun (λ a, let '(r, w) := http_do (mkHttpRequest method url token body) (remote a) in
                              (r, set_remote w a)) in
    match answer with
    | Err msg => cfail msg
    | Ok p =>
      stop_when (hCode p <? 200) || (300 <=? hCode p)
        with ErrText ("server: " +:+ hStatus p +:+ ": " +:+ b2s (take 4096 (hText p)));
      cret (if hCode p =? 204 then None else Some (hText p))
    end
  end.

(** With [out]: what it holds afterwards, [zero] when there was no body. *)
Definition requestWithToken {O} `{Unmarshal O} (method path token : string) (body : list byte)
    (zero : O) : C O :=
  let@ text := request_raw method path token body in
  match text with
  | None => cret zero
  | Some b => match decode_first b with Some v => cret v | None => cfail "decode response" end
  end.
Definition request {I O} `{Marshal I} `{Unmarshal O} (method path : string) (v : I) (zero : O) : C O :=
  requestWithToken method path "" (marshal v) zero.
(** [out == nil]. *)
Definition request_done {I} `{Marshal I} (method path : string) (v : I) : C unit :=
  do@ request_raw method path "" (marshal v); cret tt.

(** ** Files *)

(** [filepath.Join(dir, "identity.json")]. *)
Definition identity_path (c : ClientConfig) : string :=
  b2s (Clean (s2b (if cStateDir c =s "" then "identity.json" else cStateDir c +:+ "/identity.json"))).

(** [os.WriteFile(path, b, 0600)]: the file is truncated first. *)
Definition WriteFile (w : write_answer) (path : string) (b : list byte) : C unit :=
  if negb (open_ok w) then cfail "open file"
  else
    do@ cupd (λ a,
      let m := match disk a !! path with Some f => mode f | None => 384 end in
      let text := match fails_after w with None => b | Some n => take n b end in
      set_disk (<[path := mkFile m text]> (disk a)) a);
    if bool_decide (fails_after w = None) && closes w then cret tt else cfail "write file".

(** ** Enrollment and identity *)

Definition no_device : Device := mkDevice "" "" "" "" "" "" "" false false None zeroTime.

Definition Join e (token : string) : C unit :=
  let@ c := cget config in
  stop_when TrimSpace token =s "" with ErrText "enrollment token is required";
  match stat_error e with
  | Some msg => cfail ("check identity: " +:+ msg)
  | None =>
    let@ found := cget (λ a, negb (is_none (disk a !! identity_path c))) in
    stop_when found with ErrText "client is already configured";
    match new_key e with
    | None => cfail "random source failed"
    | Some (pub, priv) =>
      let@ d := request "POST" "/api/v1/enroll"
                  (mkJoinRequest token (cName c) GOOS GOARCH build_version pub) no_device in
      match mkdir_error e with
      | Some msg => cfail msg
      | None =>
        do@ WriteFile (write_file e) (identity_path c)
              (marshal (mkPersisted (dID d) (VirtualIP d) "" priv));
        do@ cupd (set_key priv);
        do@ upd_state (λ s, s_identity (dID d) (VirtualIP d) (sNetwork s) true s);
        notifyConfigurationChanged
      end
    end
  end.

(** [load]; the error tells whether it is [os.ErrNotExist]. *)
Inductive load_error := NotExist | LoadError (msg : string).
Definition load e (a : Agent) : option load_error * Agent :=
  match read_error e with
  | Some msg => (Some (LoadError ("load identity: " +:+ msg)), a)
  | None =>
    match disk a !! identity_path (config a) with
    | None => (Some NotExist, a)
    | Some f =>
      match unmarshal_all (content f) with
      | None => (Some (LoadError "decode identity"), a)
      | Some p =>
        if negb (len (pPrivateKey p) =? PrivateKeySize)
        then (Some (LoadError "invalid private key"), a)
        else (None, set_state (s_identity (pDeviceID p) (pVirtualIP p) (pNetwork p) true (state a))
                      (set_key (pPrivateKey p) a))
      end
    end
  end.

(** ** The adapter and the data plane *)

Definition closeDataPlane : C unit :=
  do@ cupd (λ a, set_dataPlane None a);
  upd_state (s_plane false).
Definition closeAdapter : C unit :=
  do@ closeDataPlane;
  do@ cupd (λ a, set_adapter None (adapterAddress a) a);
  upd_state (λ s, s_adapter (AdapterName s) (AdapterAddress s) false s).

(** [hex.EncodeToString]. *)
Definition hex_digit (d : Z) : byte := if d <? 10 then digit d else Zb (87 + d).
Definition hex (l : list byte) : list byte :=
  concat (map (λ b, [hex_digit (bZ b / 16); hex_digit (bZ b mod 16)]) l).
Definition clientAdapterName (serverURL : string) : string :=
  "TyxC-" +:+ b2s (hex (take 4 (sha256 (s2b (lower_text (TrimRightSlash serverURL)))))).

(** The address of the adapter for an assignment. *)
Definition client_address (ip : string) (network : string) : result string :=
  match ParseCIDR network with
  | None => Err "server returned an invalid client virtual network assignment"
  | Some (_, n) =>
    let v := ParseIP ip in
    fail_if bool_decide (v = []) || bool_decide (To4 v = []) || negb (Contains n v)
      with "server returned an invalid client virtual network assignment";
    let '(prefix, bits) := mask_size (nMask n) in
    fail_if negb (bits =? 32) with "client virtual network must be IPv4";
    Ok (ip_string v +:+ "/" +:+ FormatUint prefix)
  end.

Definition ensureClientAdapter e (ip network : string) : C unit :=
  let@ c := cget config in
  if negb (cTunnelEnabled c) then cret tt
  else if (ip =s "") || (network =s "") then cret tt
  else
    match client_address ip network with
    | Err msg => cfail msg
    | Ok address =>
      let@ a := cget (λ a, a) in
      if negb (is_none (adapter a)) && (adapterAddress a =s address) then cret tt
      else
        do@ (if negb (is_none (adapter a)) then closeDataPlane else cret tt);
        do@ cupd (λ a, if is_none (adapter a) then a else set_adapter None "" a);
        let name := if cTunnelName c =s "" then clientAdapterName (cServerURL c) else cTunnelName c in
        match tunnel e name address (cTunnelMTU c) with
        | Err msg => cfail ("ensure client virtual adapter: " +:+ msg)
        | Ok device =>
          do@ cupd (set_adapter (Some device) address);
          upd_state (s_adapter device address true)
        end
    end.

Definition configureDataPlane e (b : Bootstrap) : C unit :=
  let@ c := cget config in
  let@ a := cget (λ a, a) in
  stop_when is_none (adapter a) with ErrText "client adapter is unavailable";
  let assigned := ParseIP (sVirtualIP (state a)) in
  let@ d := (match dataPlane a with
             | Some d => cret d
             | None =>
               match NewClient true assigned (sDeviceID (state a)) (cTunnelMTU c) (socket e) with
               | Err msg => cfail msg
               | Ok d => do@ cupd (set_dataPlane (Some d)); cret d
               end
             end) in
  let '(err, d) := Configure conn_write url_hostname resolve (send_time e) (send_time e)
                     (cServerURL c) (cTunnelEndpoint c) b d in
  do@ cupd (set_dataPlane (Some d));
  match err with
  | Some msg => cfail msg
  | None => upd_state (s_plane true)
  end.

(** ** The state the server sends *)

Definition assign (new old : string) : string := if new =s "" then old else new.

Definition applyServerState e (u : Update) : C unit :=
  let@ s := cget state in
  let ip := assign (uVirtualIP u) (sVirtualIP s) in
  let network := assign (uNetwork u) (sNetwork s) in
  let changed := negb (ip =s sVirtualIP s) || negb (network =s sNetwork s) in
  do@ upd_state (s_assigned ip network (if 0 <? uPing u then uPing u else sPing s));
  do@ (if changed then
         let@ a := cget (λ a, a) in
         wrap "save assigned virtual IP: "
           (WriteFile (write_file e) (identity_path (config a))
              (marshal (mkPersisted (sDeviceID s) ip network (key a))))
       else cret tt);
  ensureClientAdapter e ip network.

(** ** Commands *)

(** One attempt of [reportCommandResult]: [Ok false] for the next one. *)
Definition report_attempt (id status result_text error_text : string) : C bool :=
  let@ s := cget state in
  let@ reply := ctry (request "POST" "/control/v1/challenge" (mkDeviceRef (sDeviceID s))
                        (mkChallengeReply "")) in
  match reply with
  | inl _ => cret false
  | inr reply =>
    match DecodeString (replyChallenge reply) with
    | None => cret false
    | Some nonce =>
      match CommandResultSigningPayload nonce (sDeviceID s) id status result_text error_text with
      | Err msg => cfail msg
      | Ok payload =>
        let@ key := cget key in
        let@ done := ctry (request_done "POST" ("/control/v1/commands/" +:+ id +:+ "/result")
          (mkCommandResult (sDeviceID s) status result_text error_text
             (EncodeToString (ed25519_sign key payload)))) in
        cret (match done with inr _ => true | inl _ => false end)
      end
    end
  end.
Fixpoint report_attempts (n : nat) (id status result_text error_text : string) : C unit :=
  match n with
  | O => cfail "command result could not be authenticated with the server"
  | S n =>
    let@ ok := report_attempt id status result_text error_text in
    if ok then cret tt else report_attempts n id status result_text error_text
  end.
Definition reportCommandResult := report_attempts 3.

Definition executable : list string := ["system.restart"; "system.shutdown"; "client.reconnect"].

(** [c.executeCommand], which is [commands.ExecuteSystem]. *)
Definition executeCommand e (id typ : string) : C (option string) :=
  match ExecuteSystem client_os typ with
  | Err msg => cret (Some msg)
  | Ok p => do@ cupd (λ a, set_executed (executed a ++ [(id, p)]) a); cret (process e)
  end.

(** The removal of expired entries; each reads the clock. *)
Definition sweep e (h : gmap string Z) : gmap string Z :=
  map_imap (λ id expires, if After (sweep_time e id) expires then None else Some expires) h.

(** From the report of the acceptance on. *)
Definition run_command e (cmd : ControlCommand) : C unit :=
  do@ wrap "accept command: " (reportCommandResult (ccID cmd) "accepted" "" "");
  do@ cupd (λ a, set_handled (<[ccID cmd := ccExpiresAt cmd]> (handledCommands a)) a);
  if ccType cmd =s "client.reconnect" then
    do@ wrap "report reconnect: "
          (reportCommandResult (ccID cmd) "succeeded" "control connection reconnecting" "");
    cstop ErrReconnect
  else
    let@ err := executeCommand e (ccID cmd) (ccType cmd) in
    match err with
    | Some msg =>
      wrap ("execute command: " +:+ msg +:+ "; report failure: ")
        (reportCommandResult (ccID cmd) "failed" "" "system action failed")
    | None =>
      wrap "report command success: "
        (reportCommandResult (ccID cmd) "succeeded" "system action scheduled" "")
    end.

Definition handleControlCommand e (cmd : ControlCommand) : C unit :=
  stop_when negb (ccVersion cmd =? Version) || (ccID cmd =s "")
            || After (time e 0) (ccExpiresAt cmd)
    with ErrText "server sent an invalid or expired command";
  stop_when negb (bool_decide (ccType cmd ∈ executable))
    with ErrText "server sent a command outside the executable allowlist";
  do@ cupd (λ a, set_handled (sweep e (handledCommands a)) a);
  let@ seen := cget (λ a, negb (is_none (handledCommands a !! ccID cmd))) in
  if seen then cret tt else run_command e cmd.

(** ** The connection, up to its stream *)

Definition connect e : C unit :=
  let@ c := cget config in
  let@ s := cget state in
  let@ reply := request "POST" "/control/v1/challenge" (mkDeviceRef (sDeviceID s))
                  (mkChallengeReply "") in
  match DecodeString (replyChallenge reply) with
  | None => cfail "decode challenge"
  | Some nonce =>
    let@ key := cget key in
    let sig := EncodeToString (ed25519_sign key nonce) in
    let@ s := cget state in
    let url := server_url c "/control/v1/connect" in
    match new_request "POST" url with
    | Some msg => cfail msg
    | None =>
      let@ answer := crun (λ a,
        let '(r, w) := http_do (mkHttpRequest "POST" url "" (marshal (mkConnectProof (sDeviceID s) sig)))
                         (remote a) in (r, set_remote w a)) in
      match answer with
      | Err msg => cfail msg
      | Ok p =>
        stop_when negb (hCode p =? 200)
          with ErrText ("control connect: " +:+ hStatus p +:+ ": " +:+ b2s (take 4096 (hText p)));
        upd_state (s_contact (time e 0))
      end
    end
  end.

(** One line of the stream: the event's type afterwards. *)
Definition data_line e (event : string) (data : list byte) : C unit :=
  if event =s "command" then
    match unmarshal_all data with
    | None => cfail "decode control command"
    | Some cmd => handleControlCommand e cmd
    end
  else
    match unmarshal_all (A := Update) data with
    | None => cret tt
    | Some u =>
      do@ applyServerState e u;
      match uDataPlane u with
      | None => cret tt
      | Some b => wrap "configure data plane: " (configureDataPlane e b)
      end
    end.
Definition stream_line e (event line : string) : C string :=
  if has_prefix line "event: " then cret (trim_prefix line "event: ")
  else if has_prefix line "data: " then
    do@ data_line e event (s2b (trim_prefix line "data: ")); cret event
  else cret event.
End operations.
