(* ===== verification/ClientLocal.v ===== *)
(** * ClientLocal: the client's local interface ([internal/client/client.go])

    The handlers of [LocalHandler] behind its multiplexer and [securityHeaders]:
    the set-up and the reset of the client, the relay of management requests to
    the server with the caller's session, and the tray.  A handler ends with its
    answer.  [local_serve] is a whole request.

    [forgetServer] and [SaveClient] take what the operating system answers from
    a [Sys]; YAML and [url.Parse] are the parameters of [Config]. *)
From S2P Require Import Prelude Text Net Clock Protocol Crypto Session Traffic Dataplane DataClient.
From S2P Require Import Commands Config Http Accounts Devices CommandStore ClientAgent.
From Stdlib Require Import Init.Byte Strings.Byte.

(** ** Requests and answers *)

Record LocalRequest := mkLocal {
  req : Request; Origin : string; Host : string
}.

Inductive LocalBody :=
  (** [http.Error]'s text. *)
  | Refused (msg : string)
  | Empty
  | LocalStatus (s : State)
  | SetUp (device_id virtual_ip : string)
  | LoggedIn (v : managementLoginResponse)
  | Me (u : User) | DeviceList (l : list Device) | Commanded (c : Command)
  | StartupEnabled (enabled : bool)
  | TrayState (configured connected : bool) (virtual_ip last_error : string) (user : User)
      (devices : list Device) (startup_enabled : bool)
  | Html (b : list byte) | Asset (b : list byte).
Record Answer := mkAnswer { aCode : Z; aHeaders : list (string * string); aBody : LocalBody }.

Definition json (code : Z) (b : LocalBody) : Answer :=
  mkAnswer code [("Content-Type", "application/json")] b.
Definition http_error (msg : string) (code : Z) : Answer :=
  mkAnswer code [("Content-Type", "text/plain; charset=utf-8"); ("X-Content-Type-Options", "nosniff")]
    (Refused msg).
Definition code_only (code : Z) : Answer := mkAnswer code [] Empty.

Record SetupRequest := mkSetupRequest { suServer : string; suToken : string; suName : string }.
Record StartupChange := mkStartupChange { scEnabled : bool }.

Class LocalInputs := {
  in_setup :: Unmarshal SetupRequest; in_credentials :: Unmarshal Credentials;
  in_startup :: Unmarshal StartupChange
}.
(** The functions of [application] and the embedded page and files. *)
Class LocalHost (F : Type) := {
  startupEnabled : F → result bool;
  setStartup : bool → F → option string * F;
  index_page : option (list byte);
  asset_file : string → Answer
}.

(** [http.MaxBytesReader] and one [Decode]. *)
Definition read_body {A} `{Unmarshal A} (limit : Z) (r : LocalRequest) : option A :=
  decode_first (take (Z.to_nat limit) (rBody (req r))).

Definition clientSameOrigin (r : LocalRequest) : bool :=
  (Origin r =s "") || (Origin r =s ("http://" +:+ Host r)) || (Origin r =s ("https://" +:+ Host r)).
Definition clientRemoteIsLoopback (remote : string) : bool := remoteIsLoopback remote.
Definition incomingBearer (r : LocalRequest) : string := bearer (req r).

Section local.
Context `{Primitives} {R F : Type} `{AgentJSON} `{Remote R} `{LocalInputs} `{LocalHost F}.
Context (parse_url : string → option (string * string))
  (yaml_encode_client : ClientConfig → result (list byte)).
Implicit Types (e : Sys) (a : Agent R F) (r : LocalRequest).
Abbreviation L := (C R F Answer).

Definition lreply {X} (v : Answer) : L X := cstop v.
(** A part that ends with an error, which the handler looks at. *)
Definition attempt {X} (m : C R F error X) (refuse : error → Answer) : L X := λ a,
  match m a with
  | (inr x, a) => (inr x, a)
  | (inl err, a) => (inl (refuse err), a)
  end.
Definition succeeds {X} (m : C R F error X) : L (option X) := λ a,
  match m a with
  | (inr x, a) => (inr (Some x), a)
  | (inl _, a) => (inr None, a)
  end.

(** [config.SaveClient(configPath, cfg)] *)
Definition save_client e (path : string) (c : ClientConfig) : C R F error unit :=
  let@ err := crun (λ a, let '(err, fs) := SaveClient parse_url yaml_encode_client (save_config e)
                                             path c (disk a) in (err, set_disk fs a)) in
  match err with Some msg => cfail msg | None => cret tt end.

(** ** The reset *)

Definition forgotten (c : ClientConfig) : ClientConfig :=
  mkClientConfig "" "" "" (cStateDir c) (cLocalAddress c) (cAllowRemoteUI c) (cKeepalive c)
    (cTunnelEnabled c) (cTunnelName c) (cTunnelMTU c).
Definition no_user : User := mkUser "" "" "" false zeroTime.
Definition clear_management : Agent R F → Agent R F := set_management "" no_user [].

Definition forgetServer e (configPath : string) : C R F error unit :=
  let@ c := cget config in
  do@ (match remove_error e with
       | Some msg => cfail ("remove client identity: " +:+ msg)
       | None => cupd (λ a, set_disk (delete (identity_path c) (disk a)) a)
       end);
  let c := forgotten c in
  do@ cupd (set_config c);
  do@ cancelConnection;
  do@ closeAdapter;
  do@ cupd clear_management;
  do@ upd_state (λ s, mkState false "" "" "" 0 "" "" false false None "" (Started s) false);
  wrap "save unconfigured client: " (save_client e configPath c).

(** ** Set-up, status, reset *)

Definition get_status : L Empty_set :=
  let@ s := cget state in lreply (json 200 (LocalStatus s)).

Definition setup e (configPath : string) r : L Empty_set :=
  stop_when negb (clientSameOrigin r) with http_error "Cross-origin setup is not allowed" 403;
  let@ c := cget config in
  match stat_error e with
  | Some _ => lreply (http_error "Unable to inspect client identity" 500)
  | None =>
    let@ found := cget (λ a, negb (is_none (disk a !! identity_path c))) in
    stop_when found with http_error "Client is already configured" 409;
    match read_body (A := SetupRequest) (2 ^ 14) r with
    | None => lreply (http_error "Invalid setup request" 400)
    | Some input =>
      let c := mkClientConfig (TrimSpace (suServer input)) (cTunnelEndpoint c)
                 (TrimSpace (suName input)) (cStateDir c) (cLocalAddress c) (cAllowRemoteUI c)
                 (cKeepalive c) (cTunnelEnabled c) (cTunnelName c) (cTunnelMTU c) in
      match ValidateClient parse_url c with
      | Some msg => lreply (http_error msg 400)
      | None =>
        do@ cupd (set_config c);
        do@ attempt (save_client e configPath c) (λ err, http_error (error_text err) 500);
        do@ attempt (Join e (suToken input)) (λ err, http_error (error_text err) 502);
        let@ s := cget state in
        lreply (json 201 (SetUp (sDeviceID s) (sVirtualIP s)))
      end
    end
  end.

Definition reset e (configPath : string) r : L Empty_set :=
  stop_when negb (clientRemoteIsLoopback (RemoteAddr (req r)))
    with http_error "Client reset is restricted to this device" 403;
  stop_when negb (clientSameOrigin r) with http_error "Cross-origin reset is not allowed" 403;
  let@ s := cget state in
  stop_when negb (Configured s) with http_error "Client is not configured" 409;
  do@ attempt (forgetServer e configPath) (λ err, http_error (error_text err) 500);
  lreply (code_only 204).

(** ** Management requests, with the caller's session *)

Definition no_login : managementLoginResponse := mkLoginResponse "" 0 no_user.
Definition no_command : Command := mkCommand "" "" "" "" "" "" "" zeroTime zeroTime.

Definition managementLogin r : L Empty_set :=
  match read_body (A := Credentials) (2 ^ 14) r with
  | None => lreply (http_error "Invalid login request" 400)
  | Some input =>
    let@ v := attempt (request "POST" "/api/v1/auth/login" input no_login)
                (λ err, http_error (error_text err) 401) in
    do@ cupd (set_management (AccessToken v) (LoginUser v) []);
    lreply (json 200 (LoggedIn v))
  end.

Definition managementLogout r : L Empty_set :=
  let token := incomingBearer r in
  do@ (if token =s "" then cret None
       else succeeds (request_raw "POST" "/api/v1/auth/logout" token js_null));
  do@ cupd clear_management;
  lreply (code_only 204).

(** [token == "" || c.requestWithToken(...) != nil]. *)
Definition with_session {O} `{Unmarshal O} (method path token : string) (zero : O) (refuse : Answer)
    : L O :=
  stop_when token =s "" with refuse;
  attempt (requestWithToken method path token js_null zero) (λ _, refuse).

Definition login_required : Answer := http_error "Valid server login required" 401.

Definition managementMe r : L Empty_set :=
  let token := incomingBearer r in
  let@ u := with_session "GET" "/api/v1/auth/me" token no_user login_required in
  do@ cupd (λ a, set_management token u (managementNodes a) a);
  lreply (json 200 (Me u)).

Definition managementDevices r : L Empty_set :=
  let token := incomingBearer r in
  let@ l := with_session "GET" "/api/v1/devices" token ([] : list Device)
              (http_error "Device list is not permitted for this session" 401) in
  do@ cupd (λ a, set_management token (managementUser a) l a);
  lreply (json 200 (DeviceList l)).

Definition actions : list string := ["disconnect"; "restart"; "shutdown"].
Definition device_path (id action : string) : string :=
  "/api/v1/devices/" +:+ id +:+ "/" +:+ action.

Definition managementCommand r (id action : string) : L Empty_set :=
  stop_when negb (bool_decide (action ∈ actions)) with http_error "Unsupported device action" 400;
  let@ c := with_session "POST" (device_path id action) (incomingBearer r) no_command
              (http_error "Device action is not permitted for this session" 403) in
  lreply (json 202 (Commanded c)).

Definition updateStartup r : L Empty_set :=
  match read_body (A := StartupChange) 4096 r with
  | None => lreply (http_error "Invalid startup request" 400)
  | Some input =>
    let@ err := crun (λ a, let '(err, f) := setStartup (scEnabled input) (host a) in
                           (err, set_host f a)) in
    match err with
    | Some msg => lreply (http_error msg 500)
    | None => lreply (json 200 (StartupEnabled (scEnabled input)))
    end
  end.

Definition managementStartup r : L Empty_set :=
  let@ u := with_session "GET" "/api/v1/auth/me" (incomingBearer r) no_user login_required in
  stop_when negb (Role u =s "admin") with http_error "Administrator role required" 403;
  if Method (req r) =s "GET" then
    let@ enabled := cget (λ a, startupEnabled (host a)) in
    match enabled with
    | Err msg => lreply (http_error msg 500)
    | Ok b => lreply (json 200 (StartupEnabled b))
    end
  else updateStartup r.

(** ** The tray *)

Definition trayAllowed (a : Agent R F) r : bool :=
  clientRemoteIsLoopback (RemoteAddr (req r)) && negb (trayToken a =s "")
  && (TrayToken (req r) =s trayToken a).
Definition tray_only {X} r (k : L X) : L X :=
  let@ ok := cget (λ a, trayAllowed a r) in
  stop_when negb ok with http_error "Local tray authentication required" 403;
  k.

Definition traySnapshot r : L Empty_set :=
  tray_only r (
    let@ a := cget (λ a, a) in
    let@ v := (if managementToken a =s "" then cret (managementUser a, [])
               else
                 let@ l := succeeds (requestWithToken "GET" "/api/v1/devices" (managementToken a)
                                       js_null ([] : list Device)) in
                 match l with
                 | None => do@ cupd clear_management; cret (no_user, [])
                 | Some l =>
                   do@ cupd (λ b, set_management (managementToken b) (managementUser b) l b);
                   cret (managementUser a, l)
                 end) in
    let '(u, l) := v in
    let@ s := cget state in
    let@ enabled := cget (λ a, startupEnabled (host a)) in
    lreply (json 200 (TrayState (Configured s) (Connected s) (sVirtualIP s) (LastError s) u l
                        (match enabled with Ok b => b | Err _ => false end)))).

Definition trayCommand r (id action : string) : L Empty_set :=
  tray_only r (
    stop_when negb (bool_decide (action ∈ actions)) with http_error "Unsupported device action" 400;
    let@ token := cget managementToken in
    let@ c := with_session "POST" (device_path id action) token no_command
                (http_error "Sign in through the web console with a permitted role" 403) in
    lreply (json 202 (Commanded c))).

Definition trayStartup r : L Empty_set := tray_only r (updateStartup r).
Definition trayQuit r : L Empty_set := tray_only r (do@ cupd ask_shutdown; lreply (code_only 202)).

(** ** The multiplexer *)

Inductive target :=
  | TStatus | TSetup | TReset | TLogin | TLogout | TMe | TDevices | TCommand (id action : string)
  | TStartup | TTray | TTrayCommand (id action : string) | TTrayStartup | TTrayQuit
  | TPage | TFiles | TRedirect (path : string) | TNotAllowed.

Definition local_patterns : list (string * string * target) :=
  [("GET", "/api/status", TStatus); ("POST", "/api/setup", TSetup);
   ("DELETE", "/api/configuration", TReset); ("POST", "/api/management/login", TLogin);
   ("POST", "/api/management/logout", TLogout); ("GET", "/api/management/me", TMe);
   ("GET", "/api/management/devices", TDevices); ("GET", "/api/management/startup", TStartup);
   ("PATCH", "/api/management/startup", TStartup); ("GET", "/api/tray", TTray);
   ("POST", "/api/tray/startup", TTrayStartup); ("POST", "/api/tray/quit", TTrayQuit)].

(** A pattern for GET matches HEAD as well. *)
Definition matches (pattern method : string) : bool :=
  (pattern =s method) || ((pattern =s "GET") && (method =s "HEAD")).

(** The two patterns "POST .../devices/{id}/{action}". *)
Definition device_target (path : string) : option target :=
  match split x2f path with
  | [""; "api"; kind; "devices"; id; action] =>
    if (id =s "") || (action =s "") then None
    else if kind =s "management" then Some (TCommand id action)
    else if kind =s "tray" then Some (TTrayCommand id action) else None
  | _ => None
  end%string.

(** "GET /" matches every path. *)
Definition local_target (method path : string) : target :=
  match find (λ '(m, p, _), matches m method && (p =s path)) local_patterns with
  | Some (_, _, t) => t
  | None =>
    match (if method =s "POST" then device_target path else None) with
    | Some t => t
    | None =>
      if matches "GET" method then
        if has_prefix path "/ui/" then TFiles
        else if path =s "/ui" then TRedirect "/ui/" else TPage
      else TNotAllowed
    end
  end.
Definition local_mux (method path : string) : target :=
  let clean := if method =s "CONNECT" then path else cleanPath path in
  match local_target method clean with
  | TRedirect p => TRedirect p
  | t => if clean =s path then t else TRedirect clean
  end.

Definition index_answer : Answer :=
  match index_page with
  | None => http_error "UI unavailable" 500
  | Some b => mkAnswer 200 [("Content-Type", "text/html; charset=utf-8"); ("Cache-Control", "no-store")]
                (Html b)
  end.

Definition local_dispatch e (configPath : string) r : L Empty_set :=
  match local_mux (Method (req r)) (Path (req r)) with
  | TStatus => get_status
  | TSetup => setup e configPath r
  | TReset => reset e configPath r
  | TLogin => managementLogin r
  | TLogout => managementLogout r
  | TMe => managementMe r
  | TDevices => managementDevices r
  | TCommand id action => managementCommand r id action
  | TStartup => managementStartup r
  | TTray => traySnapshot r
  | TTrayCommand id action => trayCommand r id action
  | TTrayStartup => trayStartup r
  | TTrayQuit => trayQuit r
  | TPage => lreply index_answer
  | TFiles => lreply (asset_file (trim_prefix (Path (req r)) "/ui/"))
  | TRedirect path => lreply (mkAnswer 301 [("Location", path)] Empty)
  | TNotAllowed => lreply (code_only 405)
  end.

Definition client_headers : list (string * string) :=
  [("X-Content-Type-Options", "nosniff"); ("X-Frame-Options", "DENY"); ("Referrer-Policy", "no-referrer");
   ("Content-Security-Policy", "default-src 'self'; style-src 'self'; script-src 'self'")].
Definition client_securityHeaders (v : Answer) : Answer :=
  mkAnswer (aCode v) (client_headers ++ aHeaders v) (aBody v).
Definition cross_origin r : bool :=
  negb (Method (req r) =s "GET") && negb (Method (req r) =s "HEAD") && negb (clientSameOrigin r).

(** The answer of a handler, which has no other end. *)
Definition answered (m : L Empty_set) (a : Agent R F) : Answer * Agent R F :=
  match m a with
  | (inl v, a) => (v, a)
  | (inr x, _) => match x with end
  end.
(** A whole request: the answer, and the client after it. *)
Definition local_serve e (configPath : string) r (a : Agent R F) : Answer * Agent R F :=
  if cross_origin r then (http_error "Cross-origin request is not allowed" 403, a)
  else
    let '(v, a) := answered (local_dispatch e configPath r) a in (client_securityHeaders v, a).
End local.
