(* ===== verification/ClientRun.v ===== *)
(** * ClientRun: the client's loop ([internal/client/client.go], [Run])

    [Run] as a step relation: each step is what one goroutine does between two
    points at which it waits, and the requests of the local interface run
    between them.  [i] is the loop's counter, which selects the pause before
    the next connection; [finish] is the part of the loop after [connect] has
    returned.  The context of the program and the one of the connection can be
    cancelled at any time; [connect] sees that at its requests and at every
    line of the stream. *)
From S2P Require Import Prelude Text Net Clock Protocol Crypto Session Traffic Dataplane DataClient.
From S2P Require Import Commands Config Http Accounts Devices CommandStore ClientAgent ClientLocal.

(** [backoff]. *)
Definition backoff : list Z :=
  [Second; 2 * Second; 5 * Second; 10 * Second; 30 * Second; Minute].
Definition pause (i : nat) : Z := default 0 (backoff !! Nat.min i (length backoff - 1)).

Inductive phase :=
  | Top (i : nat)
  (** The [select] of a client without a configuration. *)
  | Idle
  | Dialing (i : nat)
  | Reading (i : nat) (event : string)
  | Pausing (i : nat) (d : Z)
  | Returned (err : option string).

Section loop.
Context `{Primitives} {R F : Type} `{AgentJSON} `{Remote R} `{LocalInputs} `{LocalHost F}.
Context (parse_url : string → option (string * string))
  (yaml_encode_client : ClientConfig → result (list byte)) (configPath : string).
(** The answers of the operating system that are considered. *)
Context (ok : Sys → Prop).
Implicit Types (e : Sys) (a : Agent R F).
Abbreviation Agent := (Agent R F).

Record run := mkRun { agent : Agent; at_ : phase; cancelled : bool }.

(** A deferred or a last call: only its effect counts. *)
Definition effect {X} (m : C R F error X) (a : Agent) : Agent := snd (m a).

Definition return_ (err : option string) (a : Agent) : phase * Agent :=
  (Returned err, effect closeAdapter a).

(** The context of the connection is cancelled with either of the two. *)
Definition stopped (ctx : bool) (a : Agent) : bool := ctx || default false (connectionStop a).

(** [Run], up to the loop. *)
Definition start e (a : Agent) : phase * Agent :=
  let '(err, a) := load e a in
  match err with
  | Some (LoadError msg) => return_ (Some msg) a
  | Some NotExist | None => (Top 0, a)
  end.

(** After [connect]. *)
Definition finish (ctx : bool) (i : nat) (err : option error) (a : Agent) : phase * Agent :=
  let a := set_stop None a in
  if negb (Configured (state a)) then (Top (S i), a)
  else
    let '(i, a) :=
      match err with
      | None => (i, a)
      | Some ErrReconnect => (0%nat, set_state (s_failed "" (state a)) a)
      | Some (ErrText msg) => (i, set_state (s_failed msg (state a)) a)
      end in
    if ctx then return_ None a else (Pausing i (pause i), a).

(** The next phase after a part of [connect]. *)
Definition after_part {X} (ctx : bool) (i : nat) (m : C R F error X) (next : X → phase) (a : Agent)
    : phase * Agent :=
  match m a with
  | (inr x, a) => (next x, a)
  | (inl err, a) => finish ctx i (Some err) a
  end.

Definition err_cancelled : error := ErrText "context canceled".

Inductive own_step : run → run → Prop :=
  | at_top_idle a i ctx :
      Configured (state a) = false →
      own_step (mkRun a (Top i) ctx) (mkRun (effect closeAdapter a) Idle ctx)
  | at_top_dial a i ctx :
      Configured (state a) = true →
      own_step (mkRun a (Top i) ctx) (mkRun (set_stop (Some false) a) (Dialing i) ctx)
  | at_idle_done a p a' :
      return_ None a = (p, a') → own_step (mkRun a Idle true) (mkRun a' p true)
  | at_idle_wake a ctx :
      configurationCh a = true →
      own_step (mkRun a Idle ctx) (mkRun (set_channel false a) (Top 1) ctx)
  | at_dial e a i ctx p a' :
      ok e → after_part ctx i (connect e) (λ _, Reading i "") a = (p, a') →
      own_step (mkRun a (Dialing i) ctx) (mkRun a' p ctx)
  | at_dial_stopped a i ctx p a' :
      stopped ctx a = true → finish ctx i (Some err_cancelled) a = (p, a') →
      own_step (mkRun a (Dialing i) ctx) (mkRun a' p ctx)
  | at_line e a i event line ctx p a' :
      ok e → stopped ctx a = false →
      after_part ctx i (stream_line e event line) (Reading i) a = (p, a') →
      own_step (mkRun a (Reading i event) ctx) (mkRun a' p ctx)
  | at_line_stopped a i event ctx p a' :
      stopped ctx a = true → finish ctx i None a = (p, a') →
      own_step (mkRun a (Reading i event) ctx) (mkRun a' p ctx)
  (** The stream ends, with [scanner.Err()]. *)
  | at_end a i event err ctx p a' :
      finish ctx i (ErrText <$> err) a = (p, a') →
      own_step (mkRun a (Reading i event) ctx) (mkRun a' p ctx)
  | at_pause_done a i d p a' :
      return_ None a = (p, a') → own_step (mkRun a (Pausing i d) true) (mkRun a' p true)
  | at_pause_timer a i d ctx : own_step (mkRun a (Pausing i d) ctx) (mkRun a (Top (S i)) ctx).

(** The program at work: the loop, the local interface, and the request to stop. *)
Inductive agent_step : run → run → Prop :=
  | by_itself x y : own_step x y → agent_step x y
  | by_request e r v a a' p ctx :
      ok e → local_serve parse_url yaml_encode_client e configPath r a = (v, a') →
      agent_step (mkRun a p ctx) (mkRun a' p ctx)
  | by_cancel a p ctx : agent_step (mkRun a p ctx) (mkRun a p true).

(** ** Shutdown *)

(** How many steps are left at most, once the program is asked to stop. *)
Definition steps_left (x : run) : nat :=
  let c := Configured (state (agent x)) in
  let w := if configurationCh (agent x) then 1%nat else 0%nat in
  match at_ x with
  | Returned _ => 0
  | Idle => if c then 1 + 3 * w else 1 + 2 * w
  | Top _ => if c then 3 else 2 + 2 * w
  | Dialing _ => if c then 2 else 4 + 2 * w
  | Reading _ _ => if c then 1 else 3 + 2 * w
  | Pausing _ _ => if c then 4 else 3 + 2 * w
  end.
End loop.
