(* ===== verification/ClientEffects.v ===== *)
(** * ClientEffects: what the parts of the client change

    [ceffect T m]: every run of [m] relates the client before and after it by
    [T], with one rule per construct of the computations and a tactic that
    applies them; and the frames the theorems share: most parts keep the
    identity and the disk, and only [handleControlCommand] touches the processes
    and the handled commands. *)
From S2P Require Import Prelude Text Net Clock Protocol Crypto Session Traffic Dataplane DataClient.
From S2P Require Import Commands Config Http Accounts Devices CommandStore.
From S2P Require Import ClientAgent ClientLocal.

Section rules.
Context {R F : Type}.
Implicit Types (a : Agent R F).

Definition ceffect {E X} (T : Agent R F → Agent R F → Prop) (m : C R F E X) : Prop :=
  ∀ a, T a (snd (m a)).

Lemma cbind_cases {E X Y} (m : C R F E X) (k : X → C R F E Y) a r a' :
  cbind m k a = (r, a') →
  (∃ err, m a = (inl err, a') ∧ r = inl err) ∨ (∃ x a1, m a = (inr x, a1) ∧ k x a1 = (r, a')).
Proof.
  unfold cbind. destruct (m a) as [[err|x] a1]; [intros [= <- <-]; left; by exists err|].
  intros Hk. right. by exists x, a1.
Qed.

Lemma cbind_get {E X Y} (f : Agent R F → X) (k : X → C R F E Y) a : cbind (cget f) k a = k (f a) a.
Proof. done. Qed.
Lemma attempt_value {X} (m : C R F error X) refuse a x a1 :
  attempt m refuse a = (inr x, a1) → m a = (inr x, a1).
Proof. unfold attempt. destruct (m a) as [[] ?]; intros E; [discriminate E|by injection E as -> ->]. Qed.

Section preorder.
Context (T : Agent R F → Agent R F → Prop) `{!PreOrder T}.

Lemma ceffect_ret {E X} (x : X) : ceffect T (cret (E := E) x).
Proof. intros a. cbn. reflexivity. Qed.
Lemma ceffect_stop {E X} (err : E) : ceffect T (cstop (X := X) err).
Proof. intros a. cbn. reflexivity. Qed.
Lemma ceffect_get {E X} (f : Agent R F → X) : ceffect T (cget (E := E) f).
Proof. intros a. cbn. reflexivity. Qed.
Lemma ceffect_upd {E} f : (∀ a, T a (f a)) → ceffect T (cupd (E := E) f).
Proof. intros Hf a. apply Hf. Qed.
Lemma ceffect_run {E X} (f : Agent R F → X * Agent R F) :
  (∀ a, T a (snd (f a))) → ceffect T (crun (E := E) f).
Proof. intros Hf a. unfold crun. specialize (Hf a). by destruct (f a). Qed.
Lemma ceffect_bind {E X Y} (m : C R F E X) (k : X → C R F E Y) :
  ceffect T m → (∀ x, ceffect T (k x)) → ceffect T (cbind m k).
Proof.
  intros Hm Hk a. unfold cbind. specialize (Hm a). destruct (m a) as [[err|x] a1]; [done|].
  etrans; [exact Hm|apply Hk].
Qed.
(** At one state, with the value the first part ended with. *)
Lemma ceffect_bind_at {E X Y} (m : C R F E X) (k : X → C R F E Y) a :
  T a (snd (m a)) → (∀ x a1, m a = (inr x, a1) → T a1 (snd (k x a1))) → T a (snd (cbind m k a)).
Proof.
  intros Hm Hk. unfold cbind. destruct (m a) as [[err|x] a1]; [done|].
  etrans; [exact Hm|by apply Hk].
Qed.
Lemma ceffect_try {E E' X} (m : C R F E X) : ceffect T m → ceffect T (ctry (E' := E') m).
Proof. intros Hm a. unfold ctry. specialize (Hm a). by destruct (m a). Qed.
Lemma ceffect_wrap {X} prefix (m : C R F error X) : ceffect T m → ceffect T (wrap prefix m).
Proof. intros Hm a. unfold wrap. specialize (Hm a). by destruct (m a) as [[]]. Qed.
Lemma ceffect_attempt {X} (m : C R F error X) refuse : ceffect T m → ceffect T (attempt m refuse).
Proof. intros Hm a. unfold attempt. specialize (Hm a). by destruct (m a) as [[]]. Qed.
Lemma ceffect_succeeds {X} (m : C R F error X) : ceffect T m → ceffect T (succeeds m).
Proof. intros Hm a. unfold succeeds. specialize (Hm a). by destruct (m a) as [[]]. Qed.
Lemma ceffect_local (m : C R F Answer Empty_set) a : ceffect T m → T a (snd (answered m a)).
Proof. intros Hm. unfold answered. specialize (Hm a). by destruct (m a) as [[|[]]]. Qed.
End preorder.
End rules.

(** Down to the changes of fields, which [base] proves. *)
Ltac agent_tac base := repeat match goal with
  | |- ceffect _ (cbind _ _) => apply ceffect_bind; [apply _| |intros ?]
  | |- ceffect _ (cret _) => apply ceffect_ret; apply _
  | |- ceffect _ (cstop _) => apply ceffect_stop; apply _
  | |- ceffect _ (cfail _) => apply ceffect_stop; apply _
  | |- ceffect _ (lreply _) => apply ceffect_stop; apply _
  | |- ceffect _ (cget _) => apply ceffect_get; apply _
  | |- ceffect _ (ctry _) => apply ceffect_try
  | |- ceffect _ (wrap _ _) => apply ceffect_wrap
  | |- ceffect _ (attempt _ _) => apply ceffect_attempt
  | |- ceffect _ (succeeds _) => apply ceffect_succeeds
  | |- ceffect _ (if ?b then _ else _) => destruct b eqn:?
  | |- ceffect _ (match ?x with _ => _ end) => destruct x eqn:?
  | |- ceffect _ (let '(_, _) := ?x in _) => destruct x
  | |- ceffect _ (let x := _ in _) => cbv zeta
  | _ => base
  end.

Section frames.
Context `{Primitives} {R F : Type} `{AgentJSON} `{Remote R} `{LocalInputs} `{LocalHost F}.
Implicit Types (e : Sys) (a : Agent R F) (r : LocalRequest).

(** ** Requests change the server only *)

Definition same_but_remote a a' : Prop := ∃ w, a' = set_remote w a.
#[export] Instance same_but_remote_preorder : PreOrder same_but_remote.
Proof.
  split; [intros a; exists (remote a); by destruct a|].
  intros a b c [w ->] [w' ->]. by exists w'.
Qed.

Lemma remote_request_raw method path token body :
  ceffect same_but_remote (request_raw (R := R) (F := F) method path token body).
Proof.
  unfold request_raw. agent_tac idtac. apply ceffect_run. intros a.
  destruct (http_do _ _) as [r w]. by exists w.
Qed.
Lemma remote_request_token {O} `{Unmarshal O} method path token body (zero : O) :
  ceffect same_but_remote (requestWithToken (R := R) (F := F) method path token body zero).
Proof. unfold requestWithToken. agent_tac ltac:(apply remote_request_raw). Qed.
Lemma remote_request {I O} `{Marshal I} `{Unmarshal O} method path (v : I) (zero : O) :
  ceffect same_but_remote (request (R := R) (F := F) method path v zero).
Proof. apply remote_request_token. Qed.
Lemma remote_request_done {I} `{Marshal I} method path (v : I) :
  ceffect same_but_remote (request_done (R := R) (F := F) method path v).
Proof. unfold request_done. agent_tac ltac:(apply remote_request_raw). Qed.

Lemma remote_report id status text err :
  ceffect same_but_remote (reportCommandResult (R := R) (F := F) id status text err).
Proof.
  unfold reportCommandResult. generalize 3%nat. intros n.
  induction n as [|n IH]; cbn [report_attempts]; [apply ceffect_stop, _|].
  apply ceffect_bind; [apply _| |by intros []; [apply ceffect_ret, _|]].
  unfold report_attempt.
  agent_tac ltac:(first [apply remote_request|apply remote_request_done]).
Qed.

(** A relation that does not look at the server. *)
Lemma ceffect_remote {E X} (T : Agent R F → Agent R F → Prop) (m : C R F E X) :
  (∀ a w, T a (set_remote w a)) → ceffect same_but_remote m → ceffect T m.
Proof. intros HT Hm a. destruct (Hm a) as [w ->]. apply HT. Qed.

(** ** What most parts keep *)

Definition keeps {X} (f : Agent R F → X) a a' : Prop := f a' = f a.
#[export] Instance keeps_preorder {X} (f : Agent R F → X) : PreOrder (keeps f).
Proof. split; [done|]. intros a b c Hb Hc. unfold keeps in *. congruence. Qed.

(** Who the client is, in memory and on the disk, and its connection's context. *)
Definition ident a : persisted :=
  mkPersisted (sDeviceID (state a)) (sVirtualIP (state a)) (sNetwork (state a)) (key a).
Definition identity a : bool * option bool * persisted * string * option (list byte) :=
  (Configured (state a), connectionStop a, ident a, identity_path (config a),
   content <$> disk a !! identity_path (config a)).
Definition commands_of a : gmap string Z * list (string * (string * list string)) :=
  (handledCommands a, executed a).
End frames.

(** Leaves of [keeps f]: a setter, or a request. *)
Ltac keeps_leaf := first
  [ apply ceffect_upd; intros ?; repeat case_match; reflexivity
  | apply ceffect_run; intros ?; repeat case_match; reflexivity
  | apply ceffect_remote; [intros ? ?; reflexivity|];
    first [apply remote_request_raw|apply remote_request_token|apply remote_request
          |apply remote_request_done|apply remote_report]
  | solve [eauto with keeps] ].
Ltac keeps_tac := agent_tac ltac:(keeps_leaf).
Create HintDb keeps.

Section keeping.
Context `{Primitives} {R F : Type} `{AgentJSON} `{Remote R} `{LocalInputs} `{LocalHost F}.
Implicit Types (e : Sys) (a : Agent R F) (r : LocalRequest).

Lemma identity_close : ceffect (keeps identity) (closeAdapter (R := R) (F := F)).
Proof. unfold closeAdapter, closeDataPlane, upd_state. keeps_tac. Qed.
Lemma identity_ensure e ip network :
  ceffect (keeps identity) (ensureClientAdapter (R := R) (F := F) e ip network).
Proof. unfold ensureClientAdapter, closeDataPlane, upd_state. keeps_tac. Qed.
Lemma identity_configure e b : ceffect (keeps identity) (configureDataPlane (R := R) (F := F) e b).
Proof. unfold configureDataPlane, upd_state. keeps_tac. Qed.
Lemma identity_connect e : ceffect (keeps identity) (connect (R := R) (F := F) e).
Proof. unfold connect, upd_state. keeps_tac. Qed.
Lemma identity_command e cmd : ceffect (keeps identity) (handleControlCommand (R := R) (F := F) e cmd).
Proof. unfold handleControlCommand, run_command, executeCommand. keeps_tac. Qed.

Lemma commands_close : ceffect (keeps commands_of) (closeAdapter (R := R) (F := F)).
Proof. unfold closeAdapter, closeDataPlane, upd_state. keeps_tac. Qed.
Lemma commands_connect e : ceffect (keeps commands_of) (connect (R := R) (F := F) e).
Proof. unfold connect, upd_state. keeps_tac. Qed.
Lemma commands_apply e u : ceffect (keeps commands_of) (applyServerState (R := R) (F := F) e u).
Proof.
  unfold applyServerState, ensureClientAdapter, closeDataPlane, WriteFile, upd_state. keeps_tac.
Qed.
Lemma commands_configure e b : ceffect (keeps commands_of) (configureDataPlane (R := R) (F := F) e b).
Proof. unfold configureDataPlane, upd_state. keeps_tac. Qed.
Lemma commands_local parse yaml e path r a :
  commands_of (snd (local_serve (R := R) (F := F) parse yaml e path r a)) = commands_of a.
Proof.
  unfold local_serve. destruct (cross_origin r); [done|].
  assert (ceffect (keeps commands_of) (local_dispatch (R := R) (F := F) parse yaml e path r)) as Hm.
  { unfold local_dispatch, get_status, setup, reset, forgetServer, save_client, Join, WriteFile,
      notifyConfigurationChanged, cancelConnection, closeAdapter, closeDataPlane, managementLogin,
      managementLogout, managementMe, managementDevices, managementCommand, managementStartup,
      traySnapshot, trayCommand, trayStartup, trayQuit, tray_only, updateStartup, with_session,
      upd_state. keeps_tac. }
  pose proof (ceffect_local (keeps commands_of) _ a Hm) as Ha. unfold keeps in Ha.
  by destruct (answered _ a).
Qed.
End keeping.
#[export] Hint Resolve identity_close identity_ensure identity_configure identity_connect
  identity_command commands_close commands_connect commands_apply commands_configure : keeps.
