(* ===== verification/ClientCommands.v ===== *)
(** * ClientCommands: which commands the client executes

    A sequence of control commands, whatever else happens in between: the other
    parts of the client do not touch the handled commands and the started
    processes ([ClientEffects]).  A command's process is started at most once,
    before its deadline, for the two system actions only, and after the server
    has accepted the client's signed acceptance. *)
From S2P Require Import Prelude Text Net Clock Protocol Crypto Session Traffic Dataplane DataClient.
From S2P Require Import Commands Config Http Accounts Devices CommandStore.
From S2P Require Import ClientAgent ClientLocal ClientEffects.

Section commands.
Context `{Primitives} {R F : Type} `{AgentJSON} `{Remote R}.
Implicit Types (e : Sys) (a : Agent R F) (cmd : ControlCommand).

Fixpoint handle_all (calls : list (Sys * ControlCommand)) a : Agent R F :=
  match calls with
  | [] => a
  | (e, cmd) :: calls => handle_all calls (snd (handleControlCommand e cmd a))
  end.

(** What justifies a started process. *)
Definition justified (calls : list (Sys * ControlCommand)) (x : string * (string * list string)) : Prop :=
  ∃ e cmd a1 a2, (e, cmd) ∈ calls ∧ ccID cmd = fst x ∧
    ccType cmd ∈ ["system.restart"; "system.shutdown"] ∧
    ExecuteSystem client_os (ccType cmd) = Ok (snd x) ∧ time e 0 ≤ ccExpiresAt cmd ∧
    reportCommandResult (ccID cmd) "accepted" "" "" a1 = (inr tt, a2 : Agent R F).

(** ** One command *)

Lemma report_run id status text err a :
  ∃ o w, reportCommandResult id status text err a = (o, set_remote w a).
Proof.
  destruct (remote_report (F := F) id status text err a) as [w Hw].
  destruct (reportCommandResult id status text err a) as [o a'] eqn:E. exists o, w. f_equal. exact Hw.
Qed.

(** A report, whatever comes of it. *)
Lemma wrap_report_end prefix id status text err a o a' :
  wrap prefix (reportCommandResult id status text err) a = (o, a') → ∃ w, a' = set_remote w a.
Proof.
  destruct (report_run id status text err a) as (o1 & w & E). unfold wrap. rewrite E.
  destruct o1; intros [= _ <-]; by exists w.
Qed.

Lemma run_command_effect e cmd a :
  let a' := snd (run_command e cmd a) in
  commands_of a' = commands_of a ∨
  ∃ a2, reportCommandResult (ccID cmd) "accepted" "" "" a = (inr tt, a2) ∧
    handledCommands a' = <[ccID cmd := ccExpiresAt cmd]> (handledCommands a) ∧
    (executed a' = executed a ∨
     ∃ p, ccType cmd ≠ "client.reconnect" ∧ ExecuteSystem client_os (ccType cmd) = Ok p ∧
          executed a' = executed a ++ [(ccID cmd, p)]).
Proof.
  destruct (run_command e cmd a) as [o a'] eqn:Er. cbn [snd]. unfold run_command in Er.
  destruct (report_run (ccID cmd) "accepted" "" "" a) as (o1 & w & E).
  apply cbind_cases in Er as [(err & Er & _)|([] & a2 & Er & Hk)]; unfold wrap in Er; rewrite E in Er;
    (destruct o1 as [err1|[]]; [|]); try discriminate Er.
  { injection Er as _ <-. by left. }
  injection Er as <-. right. exists (set_remote w a). split; [done|].
  apply cbind_cases in Hk as [(err & [=] & _)|([] & a3 & [= <-] & Hk)].
  destruct (ccType cmd =s "client.reconnect") eqn:Et.
  - apply cbind_cases in Hk as [(err & Hk & _)|([] & a3 & Hk & [= <- <-])];
      apply wrap_report_end in Hk as [w2 ->]; (split; [done|by left]).
  - apply String.eqb_neq in Et. apply cbind_cases in Hk as [(err & Hk & _)|(r & a3 & Hx & Hk)].
    { unfold executeCommand in Hk. by destruct (ExecuteSystem _ _). }
    assert (∃ w2, a' = set_remote w2 a3) as [w2 ->]
      by (destruct r; by eapply wrap_report_end).
    unfold executeCommand in Hx. destruct (ExecuteSystem client_os (ccType cmd)) as [p|msg] eqn:Ex.
    + apply cbind_cases in Hx as [(err & [=] & _)|([] & a4 & [= <-] & [= <- <-])].
      split; [done|]. right. by exists p.
    + injection Hx as <- <-. split; [done|by left].
Qed.
(** ** A sequence of commands *)

Section sequence.
Context (deadline : string → Z).

(** After the calls [past], with a clock that now shows at least [t]: no process
    was started twice, each is justified, and each command that has one is
    remembered or past its deadline. *)
Record once (past : list (Sys * ControlCommand)) (t : Z) a : Prop := {
  o_nodup : NoDup (map fst (executed a));
  o_just : Forall (justified past) (executed a);
  o_handled id x : handledCommands a !! id = Some x → x = deadline id;
  o_known id : id ∈ map fst (executed a) → handledCommands a !! id = Some (deadline id) ∨ deadline id < t
}.

Lemma justified_more past call x : justified past x → justified (past ++ [call]) x.
Proof.
  intros (e & cmd & a1 & a2 & Hin & Hx). exists e, cmd, a1, a2. split; [|done].
  apply elem_of_app. by left.
Qed.

Lemma once_same past call t t' a a' :
  once past t a → t ≤ t' → commands_of a' = commands_of a → once (past ++ [call]) t' a'.
Proof.
  intros [Hn Hj Hh Hk] Ht [= Eh Ex]. split; rewrite ?Eh, ?Ex; try done.
  - eapply Forall_impl; [exact Hj|]. intros x. apply justified_more.
  - intros id Hid. destruct (Hk id Hid) as [?|?]; [by left|right; lia].
Qed.

(** The clock is read once in a call. *)
Definition one_reading e : Prop := ∀ id, sweep_time e id = time e 0.

Lemma sweep_lookup e h id : one_reading e →
  sweep e h !! id = match h !! id with
                    | Some x => if x <? time e 0 then None else Some x
                    | None => None
                    end.
Proof.
  intros He. unfold sweep, After. rewrite map_lookup_imap. destruct (h !! id) as [x|]; [|done].
  cbn. by rewrite He.
Qed.

Lemma once_sweep past call e t a :
  once past t a → one_reading e → t ≤ time e 0 →
  once (past ++ [call]) (time e 0) (set_handled (sweep e (handledCommands a)) a).
Proof.
  intros [Hn Hj Hh Hk] He Ht. split; cbn [handledCommands executed set_handled]; [done| | |].
  - eapply Forall_impl; [exact Hj|]. intros x. apply justified_more.
  - intros id x. rewrite sweep_lookup by done. destruct (handledCommands a !! id) as [y|] eqn:E; [|done].
    destruct (y <? time e 0); [done|]. intros [= <-]. by apply Hh.
  - intros id Hid. rewrite sweep_lookup by done.
    destruct (Hk id Hid) as [E|Hlt]; [rewrite E|right; lia].
    destruct (Z.ltb_spec (deadline id) (time e 0)); [by right|by left].
Qed.

Lemma once_call past e cmd t a :
  once past t a → one_reading e → t ≤ time e 0 → ccExpiresAt cmd = deadline (ccID cmd) →
  once (past ++ [(e, cmd)]) (time e 0) (snd (handleControlCommand e cmd a)).
Proof.
  intros Ho He Ht Hd. unfold handleControlCommand.
  destruct (_ || _ || After _ _) eqn:Eg; [by apply (once_same past _ t _ a)|].
  destruct (negb (bool_decide (ccType cmd ∈ executable))) eqn:Ea; [by apply (once_same past _ t _ a)|].
  apply orb_false_iff in Eg as [_ Eg%Z.ltb_ge]. bprop.
  cbn [cbind cupd cget]. unfold cbind, cupd, cget.
  pose proof (once_sweep past (e, cmd) e t a Ho He Ht) as Hs. set (a1 := set_handled _ a) in *.
  change (handledCommands (set_handled _ a)) with (handledCommands a1).
  destruct (handledCommands a1 !! ccID cmd) as [x|] eqn:Eh; cbn [negb is_none]; [done|].
  pose proof (run_command_effect e cmd a1) as Hr. cbv zeta in Hr.
  set (a' := snd (run_command e cmd a1)) in *. destruct Hr as [Hr|(a2 & Hacc & Hh' & Hx)].
  - injection Hr as Eh' Ex'. destruct Hs as [Hn Hj Hh Hk]. by split; rewrite ?Eh', ?Ex'.
  - destruct Hs as [Hn Hj Hh Hk].
    assert (ccID cmd ∉ map fst (executed a1)) as Hnew.
    { intros Hin. destruct (Hk _ Hin) as [E|E]; [by rewrite Eh in E|lia]. }
    assert (∀ id, handledCommands a1 !! id = Some (deadline id) ∨ deadline id < time e 0 →
      handledCommands a' !! id = Some (deadline id) ∨ deadline id < time e 0) as Hmono.
    { intros id [E|E]; [|by right]. left. rewrite Hh'. destruct (decide (id = ccID cmd)) as [->|Hne];
        [by rewrite lookup_insert_eq, Hd|by rewrite lookup_insert_ne by done]. }
    assert (∀ id x, handledCommands a' !! id = Some x → x = deadline id) as Hall.
    { intros id x. rewrite Hh'. intros [[<- <-]|[_ E]]%lookup_insert_Some; [done|by apply Hh]. }
    destruct Hx as [Ex|(p & Hty & Hex & Ex)]; split; rewrite ?Ex; try done.
    + intros id Hid. by apply Hmono, Hk.
    + rewrite map_app. apply NoDup_app. split; [done|]. split; [|apply NoDup_singleton].
      intros id Hid E%list_elem_of_singleton. cbn [fst] in E. by subst id.
    + apply Forall_app. split; [done|]. constructor; [|done].
      exists e, cmd, a1, a2. split_and!; try done; [apply elem_of_app; right; by left|].
      unfold executable in Ea. rewrite list_elem_of_In in Ea |- *. cbn in Ea |- *. intuition congruence.
    + intros id. rewrite map_app, elem_of_app. intros [Hid|E%list_elem_of_singleton];
        [by apply Hmono, Hk|left; cbn [fst] in E; by rewrite E, Hh', Hd, lookup_insert_eq].
Qed.

Lemma once_all past calls t a :
  once past t a → (∀ e cmd, (e, cmd) ∈ calls → one_reading e ∧ ccExpiresAt cmd = deadline (ccID cmd)) →
  Sorted Z.le (t :: map (λ c, time (fst c) 0) calls) →
  ∃ t', once (past ++ calls) t' (handle_all calls a).
Proof.
  revert past t a. induction calls as [|[e cmd] l IH]; intros past t a Ho Hc Hs.
  - exists t. by rewrite app_nil_r.
  - cbn [handle_all]. apply Sorted_inv in Hs as [Hs Ht%HdRel_inv]. cbn [fst] in Ht.
    destruct (Hc e cmd) as [He Hd]; [by left|].
    destruct (IH (past ++ [(e, cmd)]) (time e 0) (snd (handleControlCommand e cmd a))) as [t' Ht'].
    + by apply (once_call past e cmd t a).
    + intros e' cmd' Hin. apply Hc. by right.
    + exact Hs.
    + exists t'. by rewrite <- (assoc_L (++)) in Ht'.
Qed.
End sequence.

End commands.
