(* ===== verification/ClientProperties.v ===== *)
(** * ClientProperties: the client's loop, identity, adapter and reset

    Invariants of the program at work ([ClientRun.agent_step]): the identity
    file says who the client is, and the data plane runs on the adapter of the
    assigned address.  Asked to stop, the loop ends after a few steps.  A reset
    erases everything, and only the machine itself can ask for it. *)
From S2P Require Import Prelude Text Net Clock Protocol Crypto Session Traffic Dataplane DataClient.
From S2P Require Import Commands Config Http Accounts Devices CommandStore.
From S2P Require Import ClientAgent ClientLocal ClientRun ClientEffects.

Section properties.
Context `{Primitives} {R F : Type} `{AgentJSON} `{Remote R} `{LocalInputs} `{LocalHost F}.
Context (parse_url : string → option (string * string))
  (yaml_encode_client : ClientConfig → result (list byte)) (configPath : string).
Context (ok : Sys → Prop).
Implicit Types (e : Sys) (a : Agent R F) (r : LocalRequest).
Abbreviation run := (run (R := R) (F := F)).
Abbreviation own_step := (own_step ok).
Abbreviation agent_step := (agent_step parse_url yaml_encode_client configPath ok).

(** ** Shutdown *)

(** What the loop's decisions look at, which the connection does not change. *)
Definition settings_of a : bool * bool := (Configured (state a), configurationCh a).

Lemma settings_kept a a' : keeps settings_of a a' →
  Configured (state a') = Configured (state a) ∧ configurationCh a' = configurationCh a.
Proof. by intros [= ? ?]. Qed.

Lemma settings_connect e : ceffect (keeps settings_of) (connect (R := R) (F := F) e).
Proof. unfold connect, upd_state. keeps_tac. Qed.
Lemma settings_close : ceffect (keeps settings_of) (closeAdapter (R := R) (F := F)).
Proof. unfold closeAdapter, closeDataPlane, upd_state. keeps_tac. Qed.
Lemma settings_line e event line : ceffect (keeps settings_of) (stream_line (R := R) (F := F) e event line).
Proof.
  unfold stream_line, data_line, handleControlCommand, run_command, executeCommand, applyServerState,
    ensureClientAdapter, configureDataPlane, closeDataPlane, WriteFile, upd_state. keeps_tac.
Qed.

Lemma finish_cases ctx i err a p a' : finish ctx i err a = (p, a') →
  if Configured (state a) then
    settings_of a' = settings_of a ∧ connectionStop a' = None ∧
    if ctx then p = Returned None else ∃ j, p = Pausing j (pause j)
  else p = Top (S i) ∧ a' = set_stop None a.
Proof.
  unfold finish. cbn [state set_stop]. destruct (Configured (state a)) eqn:Ec; cbn [negb];
    [|by intros [= <- <-]].
  destruct err as [[|msg]|], ctx; unfold return_; intros [= <- <-]; (split; [unfold settings_of; cbn; by rewrite Ec|]);
    (split; [done|]); try done; by eexists.
Qed.

Lemma after_part_cases {X} ctx i (m : C R F error X) next a p a' :
  after_part ctx i m next a = (p, a') →
  (∃ x, m a = (inr x, a') ∧ p = next x) ∨
  (∃ err a1, m a = (inl err, a1) ∧ finish ctx i (Some err) a1 = (p, a')).
Proof.
  unfold after_part. destruct (m a) as [[err|x] a1]; [intros Hf; right; by exists err, a1|].
  intros [= <- <-]. left. by exists x.
Qed.

Lemma finish_left i err a (p : phase) a' : finish true i err a = (p, a') →
  (steps_left (mkRun a' p true) ≤
   if Configured (state a) then 0 else 2 + 2 * (if configurationCh a then 1 else 0))%nat.
Proof.
  intros Hf%finish_cases. destruct (Configured (state a)) eqn:Ec.
  - destruct Hf as (_ & _ & ->). done.
  - destruct Hf as [-> ->]. unfold steps_left. cbn. by rewrite Ec.
Qed.

Lemma own_step_left (x y : run) : cancelled x = true → own_step x y →
  cancelled y = true ∧ (steps_left y < steps_left x)%nat.
Proof.
  intros Hc Hs. destruct Hs as [a i ctx Ec|a i ctx Ec|a p a' Hr|a ctx Ew|e a i ctx p a' _ Hp|
    a i ctx p a' _ Hf|e a i event line ctx p a' _ Hst Hp|a i event ctx p a' _ Hf|a i event err ctx p a' Hf|
    a i d p a' Hr|a i d ctx]; cbn [cancelled] in Hc; subst; (split; [done|]).
  - destruct (settings_kept _ _ (settings_close a)) as [Hk Hw]. unfold effect, steps_left. cbn [at_ agent].
    rewrite Hk, Hw, Ec. lia.
  - unfold steps_left. cbn. rewrite Ec. lia.
  - injection Hr as <- <-. unfold steps_left. cbn. repeat case_match; simplify_eq; lia.
  - unfold steps_left. cbn. rewrite Ew. repeat case_match; simplify_eq; lia.
  - apply after_part_cases in Hp as [(x & Hm & ->)|(err & a1 & Hm & Hf)];
      destruct (settings_kept _ _ (settings_connect e a)) as [Hk Hw]; rewrite Hm in Hk, Hw; cbn [snd] in Hk, Hw.
    + unfold steps_left. cbn. rewrite Hk, Hw. repeat case_match; simplify_eq; lia.
    + apply finish_left in Hf. rewrite Hk, Hw in Hf. eapply Nat.le_lt_trans; [exact Hf|]. unfold steps_left. cbn.
      repeat case_match; simplify_eq; lia.
  - apply finish_left in Hf. eapply Nat.le_lt_trans; [exact Hf|]. unfold steps_left. cbn. repeat case_match; simplify_eq; lia.
  - by destruct (connectionStop a).
  - apply finish_left in Hf. eapply Nat.le_lt_trans; [exact Hf|]. unfold steps_left. cbn. repeat case_match; simplify_eq; lia.
  - apply finish_left in Hf. eapply Nat.le_lt_trans; [exact Hf|]. unfold steps_left. cbn. repeat case_match; simplify_eq; lia.
  - injection Hr as <- <-. unfold steps_left. cbn. repeat case_match; simplify_eq; lia.
  - unfold steps_left. cbn. repeat case_match; simplify_eq; lia.
Qed.

Lemma own_step_possible (x : run) : cancelled x = true → (∀ err, at_ x ≠ Returned err) → ∃ y, own_step x y.
Proof.
  destruct x as [a p ctx]. cbn. intros -> Hp. destruct p as [i| |i|i event|i d|err]; [| | | | |by destruct (Hp err)].
  - destruct (Configured (state a)) eqn:Ec; eexists; [by apply at_top_dial|by apply at_top_idle].
  - eexists. apply at_idle_done. apply surjective_pairing.
  - eexists. eapply at_dial_stopped; [done|apply surjective_pairing].
  - eexists. eapply at_line_stopped; [done|apply surjective_pairing].
  - eexists. apply at_pause_done. apply surjective_pairing.
Qed.

Lemma nsteps_left n (x y : run) : cancelled x = true → nsteps own_step n x y →
  cancelled y = true ∧ (n + steps_left y ≤ steps_left x)%nat.
Proof.
  intros Hc Hn. induction Hn as [x|n x y z Hs _ IH]; [split; [done|lia]|].
  destruct (own_step_left x y Hc Hs) as [Hy Hl]. destruct (IH Hy) as [Hz Hl']. split; [done|lia].
Qed.

Lemma steps_left_max (x : run) : (steps_left x ≤ 6)%nat.
Proof. unfold steps_left. repeat case_match; lia. Qed.

Lemma finish_closed ctx i err a p a' o : finish ctx i err a = (p, a') → p = Returned o →
  o = None ∧ adapter a' = None ∧ dataPlane a' = None.
Proof.
  unfold finish. destruct (negb _); [by intros [= <- <-]|].
  destruct err as [[|msg]|], ctx; unfold return_; intros [= <- <-]; try done; by intros [= <-].
Qed.
Lemma returned_closed (y z : run) err : own_step y z → at_ z = Returned err →
  err = None ∧ adapter (agent z) = None ∧ dataPlane (agent z) = None.
Proof.
  destruct 1 as [a i ctx Ec|a i ctx Ec|a p a' Hr|a ctx Ew|e a i ctx p a' _ Hp|
    a i ctx p a' _ Hf|e a i event line ctx p a' _ Hst Hp|a i event ctx p a' _ Hf|a i event er ctx p a' Hf|
    a i d p a' Hr|a i d ctx]; cbn [at_ agent]; intros Ep; try discriminate Ep.
  - injection Hr as <- <-. by injection Ep as <-.
  - apply after_part_cases in Hp as [(x & Hm & ->)|(er & a1 & Hm & Hf)]; [done|by eapply finish_closed].
  - by eapply finish_closed.
  - apply after_part_cases in Hp as [(x & Hm & ->)|(er & a1 & Hm & Hf)]; [done|by eapply finish_closed].
  - by eapply finish_closed.
  - by eapply finish_closed.
  - injection Hr as <- <-. by injection Ep as <-.
Qed.

(** C12: the client stops. Once the program is asked to stop, and whatever the
    server and the network answer, the loop makes at most six more steps; it is
    never stuck before it has returned; and when it has, without an error, no
    adapter and no session is left. *)
Theorem run_stops (x : run) : cancelled x = true →
  (∀ n y, nsteps own_step n x y → (n ≤ 6)%nat) ∧
  (∀ y, rtc own_step x y → (∀ err, at_ y ≠ Returned err) → ∃ z, own_step y z) ∧
  (∀ y z err, rtc own_step x y → own_step y z → at_ z = Returned err →
     err = None ∧ adapter (agent z) = None ∧ dataPlane (agent z) = None).
Proof.
  intros Hc. split_and!.
  - intros n y Hn. destruct (nsteps_left n x y Hc Hn) as [_ Hl]. pose proof (steps_left_max x). lia.
  - intros y (n & Hn)%rtc_nsteps. destruct (nsteps_left n x y Hc Hn) as [Hy _].
    by apply own_step_possible.
  - intros y z err _. apply returned_closed.
Qed.
End properties.
