(* ===== verification/ClientIdentity.v ===== *)
(** * ClientIdentity: the identity file ([internal/client/client.go])

    The client's identity (the device, its address and network, the private
    key) lives in memory and in identity.json.  As long as the writes of that
    file succeed, the two agree in every state of the program at work, so that a
    client started again is the same device; a client that was reset has no
    identity left.  A write that is cut off loses the private key for good. *)
From S2P Require Import Prelude Text Net Clock Protocol Crypto Session Traffic Dataplane DataClient.
From S2P Require Import Commands Config Http Accounts Devices CommandStore.
From S2P Require Import ClientAgent ClientLocal ClientRun ClientEffects.

Section identity.
Context `{Primitives} {R F : Type} `{AgentJSON} `{Remote R} `{LocalInputs} `{LocalHost F}.
Context (parse_url : string → option (string * string))
  (yaml_encode_client : ClientConfig → result (list byte)) (configPath : string).
Context (ok : Sys → Prop).
Implicit Types (e : Sys) (a : Agent R F) (r : LocalRequest).
Abbreviation run := (run (R := R) (F := F)).
Abbreviation own_step := (own_step ok).
Abbreviation agent_step := (agent_step parse_url yaml_encode_client configPath ok).

(** The identity file is written as a whole, and keys have their length. *)
Record files_work e : Prop := {
  fw_write : write_file e = mkWrite true None true;
  fw_key pub priv : new_key e = Some (pub, priv) → len priv = PrivateKeySize
}.
(** [json.Unmarshal] reads back what [json.Marshal] wrote. *)
Definition identity_json : Prop := ∀ p : persisted, unmarshal_all (marshal p) = Some p.

Definition stored a : option (list byte) := content <$> disk a !! identity_path (config a).
Definition mirrored a : Prop :=
  if Configured (state a)
  then stored a ≫= unmarshal_all = Some (ident a) ∧ len (key a) = PrivateKeySize
  else stored a = None ∧ sNetwork (state a) = "".

Lemma identity_kept a a' : keeps identity a a' → mirrored a → mirrored a'.
Proof.
  unfold keeps, identity. intros E. injection E as Ec _ Ei1 Ei2 Ei3 Ei4 Ep Ed.
  rewrite Ep in Ed. unfold mirrored, stored, ident. by rewrite Ec, Ei1, Ei2, Ei3, Ei4, Ep, Ed.
Qed.

(** ** Writing it *)

Lemma write_file_run e path b a : files_work e →
  WriteFile (R := R) (F := F) (write_file e) path b a =
  (inr tt, set_disk (<[path := mkFile (match disk a !! path with Some f => mode f | None => 384 end) b]>
                       (disk a)) a).
Proof. intros [Hw _]. unfold WriteFile. by rewrite Hw. Qed.

(** After a write of the identity the client is in. *)
Lemma mirrored_written a a1 m :
  identity_json → config a1 = config a → Configured (state a1) = true → len (key a1) = PrivateKeySize →
  disk a1 = <[identity_path (config a) := mkFile m (marshal (ident a1))]> (disk a) → mirrored a1.
Proof.
  intros Hj Hc Hs Hk Hd. unfold mirrored, stored. rewrite Hs, Hc, Hd, lookup_insert_eq. cbn.
  split; [apply Hj|done].
Qed.

(** What the loop keeps: the link of the connection and the file's place. *)
Definition place a : bool * option bool * string :=
  (Configured (state a), connectionStop a, identity_path (config a)).
Lemma place_kept a a' : keeps identity a a' → place a' = place a.
Proof. unfold keeps, identity, place. intros E. by injection E as -> -> _ _ _ _ -> _. Qed.

Lemma mirrored_apply e u a : files_work e → identity_json → Configured (state a) = true → mirrored a →
  mirrored (snd (applyServerState e u a)) ∧ place (snd (applyServerState e u a)) = place a.
Proof.
  intros Hf Hj Hc Hm. unfold applyServerState, cbind, cget, upd_state, cupd. cbv zeta.
  set (ip := assign _ _). set (network := assign _ _).
  set (a1 := set_state (s_assigned ip network _ (state a)) a).
  assert (∀ a2, mirrored a2 ∧ place a2 = place a → mirrored (snd (ensureClientAdapter e ip network a2)) ∧
    place (snd (ensureClientAdapter e ip network a2)) = place a) as Hlast.
  { intros a2 [Hm2 Hp2]. pose proof (identity_ensure e ip network a2) as Hi.
    split; [by eapply identity_kept|]. by rewrite (place_kept _ _ Hi). }
  destruct (negb (ip =s sVirtualIP (state a)) || _) eqn:Eb.
  - unfold wrap. rewrite write_file_run by done. apply Hlast. split; [|done].
    unfold mirrored in Hm. rewrite Hc in Hm. destruct Hm as [_ Hk].
    by eapply (mirrored_written a).
  - apply Hlast. split; [|done]. bprop. unfold mirrored in *. cbn. rewrite Hc in *.
    unfold ident. cbn.
    match goal with E1 : ip = _, E2 : network = _ |- _ => by rewrite E1, E2 end.
Qed.

Lemma mirrored_line e event line a : files_work e → identity_json → Configured (state a) = true →
  mirrored a →
  mirrored (snd (stream_line e event line a)) ∧ place (snd (stream_line e event line a)) = place a.
Proof.
  intros Hf Hj Hc Hm. unfold stream_line. destruct (has_prefix line "event: "); [done|].
  destruct (has_prefix line "data: "); [|done]. unfold data_line, cbind.
  set (data := s2b _).
  assert (∀ m : C R F error unit, (mirrored (snd (m a)) ∧ place (snd (m a)) = place a) →
    mirrored (snd (match m a with (inr _, a') => cret event a' | (inl err, a') => (inl err, a') end)) ∧
    place (snd (match m a with (inr _, a') => cret event a' | (inl err, a') => (inl err, a') end)) = place a)
    as Hend by (intros m; by destruct (m a) as [[]]).
  apply Hend. clear Hend. destruct (event =s "command").
  - destruct (unmarshal_all data) as [cmd|]; [|done].
    pose proof (identity_command e cmd a) as Hi. split; [by eapply identity_kept|by apply place_kept].
  - destruct (unmarshal_all data) as [u|]; [|done].
    pose proof (mirrored_apply e u a Hf Hj Hc Hm) as [Hm1 Hp1].
    destruct (applyServerState e u a) as [[err|[]] a1]; [done|]. cbn [snd] in *.
    destruct (uDataPlane u) as [b|]; [|done].
    assert (ceffect (keeps identity) (wrap "configure data plane: " (configureDataPlane (R := R) (F := F) e b)))
      as Hi by (apply ceffect_wrap; eauto with keeps).
    specialize (Hi a1). split; [by eapply identity_kept|]. by rewrite (place_kept _ _ Hi).
Qed.

(** ** Enrollment, set-up and reset *)

(** What these keep: the connection's context changes only to cancelled. *)
Record moves a a' : Prop := {
  m_mirrored : mirrored a → mirrored a';
  m_path : identity_path (config a') = identity_path (config a);
  m_stop : connectionStop a' = connectionStop a ∧ (Configured (state a) = true → Configured (state a') = true) ∨
           connectionStop a' = (λ _, true) <$> connectionStop a
}.
#[local] Instance moves_preorder : PreOrder moves.
Proof.
  split; [intros a; split; [done|done|by left; split]|].
  intros a b c [Hm Hp Hs] [Hm' Hp' Hs']. split; [tauto|congruence|].
  destruct Hs as [[Hs Hc]|Hs], Hs' as [[Hs' Hc']|Hs']; rewrite Hs', Hs;
    [left; by split; [|auto]|right..]; try done. by destruct (connectionStop a).
Qed.
Lemma moves_kept a a' : keeps identity a a' → moves a a'.
Proof.
  intros Hk. pose proof (place_kept _ _ Hk) as [= Hc Hs Hp]. split; [by apply identity_kept|done|].
  left. split; [done|]. by rewrite Hc.
Qed.

Lemma unconfigured_stored a : mirrored a → disk a !! identity_path (config a) = None →
  Configured (state a) = false ∧ sNetwork (state a) = "".
Proof.
  unfold mirrored, stored. intros Hm E. rewrite E in Hm.
  destruct (Configured (state a)); [by destruct Hm|]. split; [done|apply Hm].
Qed.

Lemma moves_join e token a : files_work e → identity_json → moves a (snd (Join e token a)).
Proof.
  intros Hf Hj. unfold Join, cbind at 1, cget at 1. destruct (TrimSpace token =s ""); [done|].
  destruct (stat_error e); [done|]. unfold cbind at 1, cget at 1.
  destruct (disk a !! identity_path (config a)) as [f|] eqn:Ed; [done|]. cbn [negb is_none].
  destruct (new_key e) as [[pub priv]|] eqn:Ek; [|done].
  set (m := request _ _ _ _). unfold cbind at 1.
  destruct (remote_request "POST" "/api/v1/enroll" (mkJoinRequest token (cName (config a)) GOOS GOARCH
    build_version pub) no_device a) as [w Hw]. fold m in Hw.
  destruct (m a) as [[err|d] a1]; cbn [snd] in Hw; subst a1; [by apply moves_kept|].
  destruct (mkdir_error e); [by apply moves_kept|].
  unfold cbind at 1. rewrite write_file_run by done.
  unfold cbind, cupd, upd_state, notifyConfigurationChanged. cbn [snd].
  split; [|done|by left; split]. intros Hm. destruct (unconfigured_stored a Hm Ed) as [Hc Hn].
  eapply (mirrored_written a); [done..|by apply (fw_key e Hf pub)|]. unfold ident. cbn. by rewrite Hn.
Qed.


Lemma SaveClient_files env c fs P : configPath ≠ P →
  snd (SaveClient parse_url yaml_encode_client env configPath c fs) !! P = fs !! P.
Proof. intros Hne. unfold SaveClient. repeat case_match; cbn; rewrite ?lookup_insert_ne by done; done. Qed.
Lemma save_client_run e c a :
  ∃ o fs, save_client parse_url yaml_encode_client e configPath c a = (o, set_disk fs a) ∧
    ∀ P, configPath ≠ P → fs !! P = disk a !! P.
Proof.
  unfold save_client, cbind, crun.
  pose proof (SaveClient_files (save_config e) c (disk a)) as Hs.
  destruct (SaveClient _ _ _ _ _ _) as [[msg|] fs]; cbn [snd] in Hs; by eexists _, fs.
Qed.

Lemma moves_forget e a : configPath ≠ identity_path (config a) →
  moves a (snd (forgetServer parse_url yaml_encode_client e configPath a)).
Proof.
  intros Hne. unfold forgetServer, cbind at 1, cget at 1. destruct (remove_error e) as [msg|]; [done|].
  cbv beta iota zeta delta [cbind cupd cancelConnection closeAdapter closeDataPlane upd_state wrap].
  match goal with |- context [save_client _ _ _ _ _ ?b] => set (a1 := b) end.
  destruct (save_client_run e (forgotten (config a)) a1) as (o & fs & -> & Hfs).
  assert (moves a (set_disk fs a1)) as Hm; [|by destruct o].
  assert (identity_path (config (set_disk fs a1)) = identity_path (config a)) as Hp by done.
  split; [|done|by right]. intros _. unfold mirrored, stored. rewrite Hp. cbn [disk set_disk].
  rewrite Hfs by done. split; [|done].
  change (disk a1) with (delete (identity_path (config a)) (disk a)). by rewrite lookup_delete_eq.
Qed.

Lemma moves_setup e r a : files_work e → identity_json → configPath ≠ identity_path (config a) →
  moves a (snd (setup parse_url yaml_encode_client e configPath r a)).
Proof.
  intros Hf Hj Hne. unfold setup. destruct (negb (clientSameOrigin r)); [done|].
  unfold cbind at 1, cget at 1. destruct (stat_error e); [done|]. unfold cbind at 1, cget at 1.
  destruct (disk a !! identity_path (config a)) as [f|] eqn:Ed; [done|]. cbn [negb is_none].
  destruct (read_body _ r) as [input|]; [|done]. set (c := mkClientConfig _ _ _ _ _ _ _ _ _ _).
  destruct (ValidateClient parse_url c); [done|].
  unfold cbind at 1, cupd at 1. unfold cbind at 1, attempt at 1.
  destruct (save_client_run e c (set_config c a)) as (o & fs & -> & Hfs).
  assert (moves a (set_disk fs (set_config c a))) as Hm.
  { assert (identity_path (config (set_disk fs (set_config c a))) = identity_path (config a)) as Hp by done.
    split; [|done|by left; split]. unfold mirrored, stored. rewrite Hp. cbn [disk set_disk].
    rewrite Hfs by done. done. }
  destruct o as [err|[]]; [done|]. unfold cbind, attempt.
  pose proof (moves_join e (suToken input) (set_disk fs (set_config c a)) Hf Hj) as Hm2.
  destruct (Join _ _ _) as [[err|[]] a2]; cbn [snd] in Hm2; by etrans.
Qed.

Lemma moves_reset e r a : configPath ≠ identity_path (config a) →
  moves a (snd (reset parse_url yaml_encode_client e configPath r a)).
Proof.
  intros Hne. unfold reset. destruct (negb (clientRemoteIsLoopback _)); [done|].
  destruct (negb (clientSameOrigin r)); [done|]. unfold cbind at 1, cget at 1.
  destruct (negb _); [done|]. unfold cbind, attempt. pose proof (moves_forget e a Hne) as Hm.
  by destruct (forgetServer _ _ _ _ a) as [[err|[]] a1].
Qed.

Lemma moves_local e r a : files_work e → identity_json → configPath ≠ identity_path (config a) →
  moves a (snd (local_serve parse_url yaml_encode_client e configPath r a)).
Proof.
  intros Hf Hj Hne. unfold local_serve. destruct (cross_origin r); [done|].
  assert (moves a (snd (answered (local_dispatch parse_url yaml_encode_client e configPath r) a))) as Hm;
    [|by destruct (answered _ a)].
  unfold answered, local_dispatch. destruct (local_mux _ _);
    try (by (pose proof (moves_setup e r a Hf Hj Hne) as Hm; destruct (setup _ _ _ _ _ a) as [[|[]]]));
    try (by (pose proof (moves_reset e r a Hne) as Hm; destruct (reset _ _ _ _ _ a) as [[|[]]]));
    (match goal with |- moves a (snd (match ?m a with _ => _ end)) =>
       assert (ceffect (keeps identity) m) as Hk end);
    try (specialize (Hk a); match goal with |- moves a (snd (match ?m a with _ => _ end)) =>
       destruct (m a) as [[|[]]]; by apply moves_kept end);
    unfold get_status, managementLogin, managementLogout, managementMe, managementDevices,
      managementCommand, managementStartup, traySnapshot, trayCommand, trayStartup, trayQuit, tray_only,
      updateStartup, with_session; keeps_tac.
Qed.

(** ** The program at work *)

(** A connection that is not cancelled belongs to a configured client. *)
Definition linked (x : run) : Prop :=
  match at_ x with
  | Dialing _ | Reading _ _ =>
    ∃ b, connectionStop (agent x) = Some b ∧ (b = false → Configured (state (agent x)) = true)
  | _ => True
  end.
Record good (place : string) (x : run) : Prop := {
  g_mirrored : mirrored (agent x);
  g_path : identity_path (config (agent x)) = place;
  g_linked : linked x
}.

Lemma finish_good place ctx i err a p a' c :
  finish ctx i err a = (p, a') → mirrored a → identity_path (config a) = place →
  good place (mkRun a' p c).
Proof.
  intros Hf Hm Hp. assert (mirrored a' ∧ identity_path (config a') = place ∧ linked (mkRun a' p c))
    as (? & ? & ?); [|by split]. revert Hf. unfold finish. cbn [state set_stop].
  destruct (negb _) eqn:Ec; [by intros [= <- <-]|].
  destruct err as [[|msg]|], ctx; unfold return_; intros [= <- <-]; by split_and!.
Qed.

Lemma return_good place err a p a' c :
  return_ err a = (p, a') → mirrored a → identity_path (config a) = place → good place (mkRun a' p c).
Proof. intros [= <- <-] Hm Hp. by split. Qed.

Lemma own_good place x y : (∀ e, ok e → files_work e) → identity_json →
  own_step x y → good place x → good place y.
Proof.
  intros Hok Hj Hs [Hm Hp Hl]. destruct Hs as [a i ctx Ec|a i ctx Ec|a p a' Hr|a ctx Ew|e a i ctx p a' Ho Hr|
    a i ctx p a' _ Hf|e a i event line ctx p a' Ho Hst Hr|a i event ctx p a' _ Hf|a i event err ctx p a' Hf|
    a i d p a' Hr|a i d ctx]; cbn [agent at_] in *.
  - split; [exact Hm|done|done].
  - split; [exact Hm|done|by exists false].
  - by eapply return_good.
  - split; [exact Hm|done|done].
  - unfold after_part in Hr. pose proof (identity_connect e a) as Hk.
    pose proof (place_kept _ _ Hk) as [= Ec Es Ep]. destruct (connect e a) as [[err|[]] a1]; cbn [snd] in *.
    + eapply finish_good; [exact Hr|by eapply identity_kept|congruence].
    + injection Hr as <- <-. split; [by eapply identity_kept|cbn; congruence|].
      destruct Hl as (b & Hb & Hc). exists b. cbn in *. by rewrite Es, Ec.
  - by eapply finish_good.
  - unfold after_part in Hr. destruct Hl as (b & Hb & Hc). cbn in Hb, Hc.
    assert (Configured (state a) = true) as Hconf.
    { apply Hc. unfold stopped in Hst. rewrite Hb in Hst. by destruct ctx, b. }
    destruct (mirrored_line e event line a (Hok e Ho) Hj Hconf Hm) as [Hm1 Hp1].
    destruct (stream_line e event line a) as [[err|ev] a1]; cbn [snd] in *; injection Hp1 as Ec Es Ep.
    + eapply finish_good; [exact Hr|done|congruence].
    + injection Hr as <- <-. split; [done|cbn; congruence|]. exists b. cbn in *. by rewrite Es, Ec.
  - by eapply finish_good.
  - by eapply finish_good.
  - by eapply return_good.
  - split; [exact Hm|done|done].
Qed.

Lemma agent_step_good place x y : (∀ e, ok e → files_work e) → identity_json → configPath ≠ place →
  agent_step x y → good place x → good place y.
Proof.
  intros Hok Hj Hne [x' y' Hs|e r v a a' p ctx Ho Hs|a p ctx] Hg.
  - by eapply own_good.
  - destruct Hg as [Hm Hp Hl]. cbn [agent at_] in *. rewrite <- Hp in Hne.
    pose proof (moves_local e r a (Hok e Ho) Hj Hne) as [Hm' Hp' Hs']. rewrite Hs in Hm', Hp', Hs'.
    cbn [snd] in *. split; cbn [agent]; [auto|congruence|]. unfold linked in *. cbn [agent at_] in *.
    destruct p; try done; destruct Hl as (b & Hb & Hc); destruct Hs' as [[Hs' Hc']|Hs']; rewrite Hs', Hb;
      try (exists b; by auto); by exists true.
  - destruct Hg as [Hm Hp Hl]. by split.
Qed.

Lemma start_good e c now d w f a :
  start e (New c now d w f) = (Top 0, a) → good (identity_path c) (mkRun a (Top 0) false).
Proof.
  unfold start, load. destruct (read_error e); [done|]. cbn [disk config New].
  destruct (d !! identity_path c) as [fl|] eqn:Ed.
  - destruct (unmarshal_all (content fl)) as [p|] eqn:Ep; [|done].
    destruct (negb (len (pPrivateKey p) =? PrivateKeySize)) eqn:Ek; [done|]. bprop. intros [= <-].
    split; [|done|done]. unfold mirrored, stored. cbn. rewrite Ed. cbn. rewrite Ep. by destruct p.
  - intros [= <-]. split; [|done|done]. unfold mirrored, stored. cbn. by rewrite Ed.
Qed.


(** A write that is cut off leaves a torn file, with the private key in it. *)
Lemma identity_torn e u n closes a :
  write_file e = mkWrite true (Some n) closes → uVirtualIP u ≠ "" → uVirtualIP u ≠ sVirtualIP (state a) →
  ∃ msg a', applyServerState e u a = (inl (ErrText msg), a') ∧
            stored a' = Some (take n (marshal (ident a'))).
Proof.
  intros Hw Hu Hne. unfold applyServerState, cbind, cget, upd_state, cupd. cbv zeta.
  set (ip := assign _ _). assert (ip = uVirtualIP u) as Hip
    by (subst ip; unfold assign; by rewrite (proj2 (String.eqb_neq _ _))).
  rewrite Hip, (proj2 (String.eqb_neq _ _)) by done. cbn [negb orb].
  unfold wrap, WriteFile, cbind, cupd. rewrite Hw. cbn [open_ok fails_after negb].
  rewrite bool_decide_eq_false_2 by done. cbn [andb]. do 2 eexists. split; [done|].
  unfold stored. cbn. rewrite lookup_insert_eq. done.
Qed.
End identity.
