(* ===== verification/ClientAdapter.v ===== *)
(** * ClientAdapter: the adapter and the data plane of the client

    In every state of the program at work the data plane runs on an adapter of
    the address it was made for, and what the client reports about its adapter
    is true of an adapter that exists. *)
From S2P Require Import Prelude Text Net Clock Protocol Crypto Session Traffic Dataplane DataClient.
From S2P Require Import Commands Config Http Accounts Devices CommandStore.
From S2P Require Import ClientAgent ClientLocal ClientRun ClientEffects ClientIdentity.

Lemma client_send_assigned `{Primitives} cw t now p c :
  cAssigned (snd (client_send cw t now p c)) = cAssigned c.
Proof. unfold client_send. by repeat case_match. Qed.
Lemma Configure_assigned `{Primitives} cw uh rs t1 t2 url ep b c :
  cAssigned (snd (Configure cw uh rs t1 t2 url ep b c)) = cAssigned c.
Proof.
  unfold Configure. repeat case_match; try done; by rewrite client_send_assigned.
Qed.

Section adapter.
Context `{Primitives} {R F : Type} `{AgentJSON} `{Remote R} `{LocalInputs} `{LocalHost F}.
Context (parse_url : string → option (string * string))
  (yaml_encode_client : ClientConfig → result (list byte)) (configPath : string).
Context (ok : Sys → Prop).
Implicit Types (e : Sys) (a : Agent R F) (r : LocalRequest).
Abbreviation run := (run (R := R) (F := F)).
Abbreviation own_step := (own_step ok).
Abbreviation agent_step := (agent_step parse_url yaml_encode_client configPath ok).

Record fitted a : Prop := {
  f_ready : DataPlaneReady (state a) = true → dataPlane a ≠ None;
  f_plane d : dataPlane a = Some d →
    adapter a ≠ None ∧ ∃ ip network,
      client_address ip network = Ok (adapterAddress a) ∧ cAssigned d = To4 (ParseIP ip);
  f_adapter name : adapter a = Some name →
    cTunnelEnabled (config a) = true ∧ Configured (state a) = true ∧
    AdapterReady (state a) = true ∧ AdapterName (state a) = name ∧
    AdapterAddress (state a) = adapterAddress a ∧
    sVirtualIP (state a) ≠ "" ∧ sNetwork (state a) ≠ ""
}.

(** All that it looks at. *)
Definition fit_of a :=
  (DataPlaneReady (state a), dataPlane a, adapter a, adapterAddress a, cTunnelEnabled (config a),
   (Configured (state a), AdapterReady (state a), AdapterName (state a), AdapterAddress (state a),
    sVirtualIP (state a), sNetwork (state a))).
Lemma fit_kept a a' : keeps fit_of a a' → fitted a → fitted a'.
Proof.
  unfold keeps, fit_of. intros E.
  injection E as E1 E2 E3 E4 E5 E6 E7 E8 E9 E10 E11. intros [Hr Hp Ha].
  split; intros *; rewrite ?E1, ?E2, ?E3, ?E4, ?E5, ?E6, ?E7, ?E8, ?E9, ?E10, ?E11; auto.
Qed.

Lemma fit_connect e : ceffect (keeps fit_of) (connect (R := R) (F := F) e).
Proof. unfold connect, upd_state. keeps_tac. Qed.
Lemma fit_command e cmd : ceffect (keeps fit_of) (handleControlCommand (R := R) (F := F) e cmd).
Proof. unfold handleControlCommand, run_command, executeCommand. keeps_tac. Qed.

Lemma fit_closed a : adapter a = None → dataPlane a = None → DataPlaneReady (state a) = false → fitted a.
Proof. intros Ha Hd Hr. split; rewrite ?Ha, ?Hd, ?Hr; done. Qed.
Lemma close_run a : ∃ a', closeAdapter (R := R) (F := F) a = (inr tt, a') ∧
  adapter a' = None ∧ dataPlane a' = None ∧ DataPlaneReady (state a') = false.
Proof. eexists. split; [reflexivity|done]. Qed.

(** Without an adapter there is no data plane. *)
Lemma no_adapter a : fitted a → adapter a = None → dataPlane a = None ∧ DataPlaneReady (state a) = false.
Proof.
  intros [Hr Hp _] Ha. assert (dataPlane a = None) as Hd.
  { destruct (dataPlane a) as [d|]; [|done]. by destruct (Hp d eq_refl). }
  split; [done|]. destruct (DataPlaneReady (state a)); [|done]. by destruct (Hr eq_refl).
Qed.

Lemma fit_ensure e a o a' : fitted a → Configured (state a) = true →
  ensureClientAdapter e (sVirtualIP (state a)) (sNetwork (state a)) a = (o, a') →
  fitted a' ∧ (o = inr tt → sVirtualIP (state a') = sVirtualIP (state a) ∧
    (adapter a' = None ∨
     client_address (sVirtualIP (state a)) (sNetwork (state a)) = Ok (adapterAddress a'))).
Proof.
  intros Hf Hc E. pose proof (f_adapter a Hf) as Ha. unfold ensureClientAdapter, cbind at 1, cget at 1 in E.
  destruct (cTunnelEnabled (config a)) eqn:Et; cbn [negb] in E.
  2: { injection E as <- <-. split; [done|]. intros _. split; [done|left].
       destruct (adapter a) as [n|]; [|done]. by destruct (Ha n eq_refl). }
  destruct ((sVirtualIP (state a) =s "") || (sNetwork (state a) =s "")) eqn:Ee.
  { injection E as <- <-. split; [done|]. intros _. split; [done|left].
    destruct (adapter a) as [n|]; [|done]. destruct (Ha n eq_refl) as (_ & _ & _ & _ & _ & Hi & Hn).
    apply orb_true_iff in Ee as [Ee|Ee]; by apply String.eqb_eq in Ee. }
  apply orb_false_iff in Ee as [Ei%String.eqb_neq En%String.eqb_neq].
  destruct (client_address _ _) as [address|msg] eqn:Ead; [|by injection E as <- <-].
  unfold cbind at 1, cget at 1 in E. destruct (adapter a) as [name|] eqn:Ea; cbn [negb is_none andb] in E.
  - destruct (adapterAddress a =s address) eqn:Es.
    { apply String.eqb_eq in Es. injection E as <- <-. split; [done|]. split; [done|right]. by rewrite Es. }
    cbv beta iota zeta delta [cbind cupd closeDataPlane upd_state] in E.
    cbn [adapter set_state set_dataPlane] in E. rewrite Ea in E. cbn [is_none] in E.
    destruct (tunnel e _ address _) as [device|msg]; injection E as <- <-.
    + split; [|done || by intros _; split; [|right]].
      split; cbn; try done. intros n [= <-]. by split_and!.
    + split; [by apply fit_closed|done].
  - cbv beta iota zeta delta [cbind cupd cret] in E. rewrite Ea in E. cbn [is_none] in E.
    destruct (no_adapter a Hf Ea) as [Hd Hr].
    destruct (tunnel e _ address _) as [device|msg]; injection E as <- <-.
    + split; [|by intros _; split; [|right]].
      split; cbn; rewrite ?Hd, ?Hr; try done. intros n [= <-]. by split_and!.
    + by split.
Qed.

Lemma assign_nonempty new old : old ≠ "" → assign new old ≠ "".
Proof. intros Ho. unfold assign. destruct (String.eqb_spec new ""); congruence. Qed.

Lemma write_disk w path b a o a' :
  WriteFile (R := R) (F := F) w path b a = (o, a') → ∃ d, a' = set_disk d a.
Proof.
  unfold WriteFile, cbind, cupd. destruct (negb (open_ok w)).
  - intros [= _ <-]. exists (disk a). by destruct a.
  - destruct (_ && _); intros [= _ <-]; by eexists.
Qed.
Lemma fit_disk d a : fitted a → fitted (set_disk d a).
Proof. by apply fit_kept. Qed.

Lemma fit_apply e u a o a' : fitted a → Configured (state a) = true →
  applyServerState e u a = (o, a') →
  fitted a' ∧ (o = inr tt → adapter a' = None ∨ ∃ network,
    client_address (sVirtualIP (state a')) network = Ok (adapterAddress a')).
Proof.
  intros Hf Hc E. unfold applyServerState in E. cbv beta iota zeta delta [cbind cget upd_state cupd] in E.
  set (ip := assign _ _) in E. set (network := assign _ _) in E.
  set (a1 := set_state (s_assigned ip network _ (state a)) a) in E.
  assert (fitted a1) as Hf1.
  { destruct Hf as [Hr Hp Ha]. split; cbn; [done..|]. intros n Hn.
    destruct (Ha n Hn) as (? & ? & ? & ? & ? & Hi & Hw).
    split_and!; try done; subst ip network; by apply assign_nonempty. }
  assert (∀ d, ensureClientAdapter e ip network (set_disk d a1) = (o, a') →
    fitted a' ∧ (o = inr tt → adapter a' = None ∨ ∃ network,
      client_address (sVirtualIP (state a')) network = Ok (adapterAddress a'))) as Hlast.
  { intros d Ee. destruct (fit_ensure e (set_disk d a1) o a' (fit_disk d a1 Hf1) Hc Ee) as [Hf' Hx].
    split; [done|]. intros Ho. destruct (Hx Ho) as [Hi [Hn|Hn]]; [by left|right].
    rewrite Hi. by eexists. }
  destruct (negb (ip =s _) || _).
  - unfold wrap in E.
    destruct (WriteFile (write_file e) (identity_path (config a1))
      (marshal (mkPersisted (sDeviceID (state a)) ip network (key a1))) a1) as [[err|[]] a2] eqn:Ew;
      apply write_disk in Ew as [d ->].
    + injection E as <- <-. split; [by apply fit_disk|done].
    + by apply (Hlast d).
  - apply (Hlast (disk a1)). by destruct a1.
Qed.

Lemma fit_configure e b a o a' : fitted a →
  adapter a = None ∨ (∃ network, client_address (sVirtualIP (state a)) network = Ok (adapterAddress a)) →
  configureDataPlane e b a = (o, a') → fitted a'.
Proof.
  intros Hf Hm E. unfold configureDataPlane in E.
  cbv beta iota zeta delta [cbind cget upd_state cupd] in E.
  destruct (adapter a) as [name|] eqn:Ea; cbn [is_none] in E; [|by injection E as <- <-].
  destruct Hm as [?|[network Hm]]; [done|].
  assert (∀ d, (∃ ip n, client_address ip n = Ok (adapterAddress a) ∧ cAssigned d = To4 (ParseIP ip)) →
    fitted (set_dataPlane (Some d) a) ∧
    fitted (set_state (s_plane true (state a)) (set_dataPlane (Some d) a))) as Hset.
  { intros d Hd. destruct Hf as [Hr Hp Ha]. split; split; cbn; rewrite ?Ea; try done.
    - by intros d' [= <-].
    - by rewrite <- Ea.
    - by intros d' [= <-].
    - by rewrite <- Ea. }
  destruct (dataPlane a) as [d|] eqn:Ed.
  - destruct (f_plane a Hf d Ed) as [_ Hd]. cbn [cret] in E.
    pose proof (Configure_assigned conn_write url_hostname resolve (send_time e) (send_time e)
      (cServerURL (config a)) (cTunnelEndpoint (config a)) b d) as Hk.
    destruct (Configure _ _ _ _ _ _ _ _ d) as [[msg|] d']; cbn [snd] in Hk; rewrite <- Hk in Hd;
      injection E as <- <-; by apply (Hset d').
  - destruct (NewClient _ _ _ _ _) as [d|msg] eqn:En; [|by injection E as <- <-].
    assert (cAssigned d = To4 (ParseIP (sVirtualIP (state a)))) as Hn.
    { unfold NewClient in En. guards. by subst d. }
    cbn [cret] in E.
    pose proof (Configure_assigned conn_write url_hostname resolve (send_time e) (send_time e)
      (cServerURL (config a)) (cTunnelEndpoint (config a)) b d) as Hk.
    assert (∃ ip n, client_address ip n = Ok (adapterAddress a) ∧
      cAssigned (snd (Configure conn_write url_hostname resolve (send_time e) (send_time e)
        (cServerURL (config a)) (cTunnelEndpoint (config a)) b d)) = To4 (ParseIP ip)) as Hd
      by (rewrite Hk; by eexists _, network).
    destruct (Configure _ _ _ _ _ _ _ _ d) as [[msg|] d']; injection E as <- <-; by apply (Hset d').
Qed.

Lemma fit_line e event line a : fitted a → Configured (state a) = true →
  fitted (snd (stream_line e event line a)).
Proof.
  intros Hf Hc. unfold stream_line. destruct (has_prefix line "event: "); [done|].
  destruct (has_prefix line "data: "); [|done]. unfold data_line, cbind. set (data := s2b _).
  destruct (event =s "command").
  - destruct (unmarshal_all data) as [cmd|]; [|done].
    pose proof (fit_command e cmd a) as Hk.
    destruct (handleControlCommand e cmd a) as [[err|[]] a1]; by eapply fit_kept.
  - destruct (unmarshal_all data) as [u|]; [|done].
    destruct (applyServerState e u a) as [o a1] eqn:Ea.
    destruct (fit_apply e u a o a1 Hf Hc Ea) as [Hf1 Hx]. destruct o as [err|[]]; [done|].
    destruct (uDataPlane u) as [b|]; [|done]. unfold wrap.
    destruct (configureDataPlane e b a1) as [o a2] eqn:Eb.
    pose proof (fit_configure e b a1 o a2 Hf1 (Hx eq_refl) Eb). by destruct o.
Qed.
(** ** The local interface *)

(** Changes of the identity and of the server, while there is no adapter. *)
Lemma fit_unconfigured a a' : fitted a → Configured (state a) = false →
  adapter a' = adapter a → dataPlane a' = dataPlane a →
  DataPlaneReady (state a') = DataPlaneReady (state a) → fitted a'.
Proof.
  intros Hf Hc Ea Ed Er. assert (adapter a = None) as Hn.
  { destruct (adapter a) as [n|] eqn:E; [|done]. destruct (f_adapter a Hf n E) as (_ & Hx & _).
    by rewrite Hc in Hx. }
  destruct (no_adapter a Hf Hn) as [Hd Hr]. apply fit_closed; congruence.
Qed.

Definition plane_of a := (adapter a, dataPlane a, DataPlaneReady (state a)).
Lemma plane_setup e r :
  ceffect (keeps plane_of) (setup (R := R) (F := F) parse_url yaml_encode_client e configPath r).
Proof.
  unfold setup, save_client, Join, WriteFile, notifyConfigurationChanged, upd_state. keeps_tac.
Qed.
Lemma fit_setup e r a : mirrored a → fitted a →
  fitted (snd (setup parse_url yaml_encode_client e configPath r a)).
Proof.
  intros Hm Hf. destruct (disk a !! identity_path (config a)) as [f|] eqn:Ed.
  - unfold setup. destruct (negb (clientSameOrigin r)); [done|]. unfold cbind at 1, cget at 1.
    destruct (stat_error e); [done|]. unfold cbind at 1, cget at 1. by rewrite Ed.
  - destruct (unconfigured_stored a Hm Ed) as [Hc _].
    pose proof (plane_setup e r a) as Hk. unfold keeps, plane_of in Hk. injection Hk as E1 E2 E3.
    by eapply (fit_unconfigured a).
Qed.

Lemma fit_forget e a : fitted a → fitted (snd (forgetServer parse_url yaml_encode_client e configPath a)).
Proof.
  intros Hf. unfold forgetServer, cbind at 1, cget at 1. destruct (remove_error e) as [msg|]; [done|].
  cbv beta iota zeta delta [cbind cupd cancelConnection closeAdapter closeDataPlane upd_state wrap].
  match goal with |- context [save_client _ _ _ _ _ ?b] => set (a1 := b) end.
  destruct (save_client_run parse_url yaml_encode_client configPath e (forgotten (config a)) a1)
    as (o & fs & -> & _).
  assert (fitted (set_disk fs a1)) by by apply fit_closed. by destruct o.
Qed.
Lemma fit_reset e r a : fitted a → fitted (snd (reset parse_url yaml_encode_client e configPath r a)).
Proof.
  intros Hf. unfold reset. destruct (negb (clientRemoteIsLoopback _)); [done|].
  destruct (negb (clientSameOrigin r)); [done|]. unfold cbind at 1, cget at 1.
  destruct (negb _); [done|]. unfold cbind, attempt. pose proof (fit_forget e a Hf) as Hm.
  by destruct (forgetServer _ _ _ _ a) as [[err|[]] a1].
Qed.

Lemma fit_local e r a : mirrored a → fitted a →
  fitted (snd (local_serve parse_url yaml_encode_client e configPath r a)).
Proof.
  intros Hm Hf. unfold local_serve. destruct (cross_origin r); [done|].
  assert (fitted (snd (answered (local_dispatch parse_url yaml_encode_client e configPath r) a))) as Hx;
    [|by destruct (answered _ a)].
  unfold answered, local_dispatch. destruct (local_mux _ _);
    try (by (pose proof (fit_setup e r a Hm Hf) as Hx; destruct (setup _ _ _ _ _ a) as [[|[]]]));
    try (by (pose proof (fit_reset e r a Hf) as Hx; destruct (reset _ _ _ _ _ a) as [[|[]]]));
    (match goal with |- fitted (snd (match ?m a with _ => _ end)) =>
       assert (ceffect (keeps fit_of) m) as Hk end);
    try (specialize (Hk a); match goal with |- fitted (snd (match ?m a with _ => _ end)) =>
       destruct (m a) as [[|[]]]; by eapply fit_kept end);
    unfold get_status, managementLogin, managementLogout, managementMe, managementDevices,
      managementCommand, managementStartup, traySnapshot, trayCommand, trayStartup, trayQuit, tray_only,
      updateStartup, with_session; keeps_tac.
Qed.

(** ** The program at work *)

Lemma fit_finish ctx i err a p a' : finish ctx i err a = (p, a') → fitted a → fitted a'.
Proof.
  intros E Hf. unfold finish in E. destruct (negb _); [injection E as <- <-; by apply (fit_kept a)|].
  destruct err as [[|msg]|], ctx; unfold return_, effect in E; injection E as <- <-;
    first [by apply fit_closed|by apply (fit_kept a)].
Qed.

Lemma fit_own place x y : own_step x y → good place x → fitted (agent x) → fitted (agent y).
Proof.
  intros Hs [_ _ Hl] Hf. destruct Hs as [a i ctx Ec|a i ctx Ec|a p a' Hr|a ctx Ew|e a i ctx p a' Ho Hr|
    a i ctx p a' _ Hx|e a i event line ctx p a' Ho Hst Hr|a i event ctx p a' _ Hx|a i event err ctx p a' Hx|
    a i d p a' Hr|a i d ctx]; cbn [agent at_] in *.
  - by apply fit_closed.
  - by apply (fit_kept a).
  - injection Hr as <- <-. by apply fit_closed.
  - by apply (fit_kept a).
  - unfold after_part in Hr. pose proof (fit_connect e a) as Hk.
    destruct (connect e a) as [[err|[]] a1]; cbn [snd] in *.
    + eapply fit_finish; [exact Hr|by eapply fit_kept].
    + injection Hr as <- <-. by eapply fit_kept.
  - by eapply fit_finish.
  - unfold after_part in Hr. destruct Hl as (b & Hb & Hc). cbn in Hb, Hc.
    assert (Configured (state a) = true) as Hconf.
    { apply Hc. unfold stopped in Hst. rewrite Hb in Hst. by destruct ctx, b. }
    pose proof (fit_line e event line a Hf Hconf) as Hf1.
    destruct (stream_line e event line a) as [[err|ev] a1]; cbn [snd] in *;
      [by eapply fit_finish|by injection Hr as <- <-].
  - by eapply fit_finish.
  - by eapply fit_finish.
  - injection Hr as <- <-. by apply fit_closed.
  - exact Hf.
Qed.

Lemma fit_step place x y : agent_step x y → good place x → fitted (agent x) → fitted (agent y).
Proof.
  intros [x' y' Hs|e r v a a' p ctx Ho Hs|a p ctx] Hg Hf.
  - by eapply fit_own.
  - pose proof (fit_local e r a (g_mirrored _ _ Hg) Hf) as Hx. by rewrite Hs in Hx.
  - exact Hf.
Qed.

(** C13: the tunnel fits. In every state of the program at work, the data plane
    exists when it is reported as ready; it runs on an adapter, and takes
    packets for just that adapter's address, an address inside its network;
    and an adapter is reported with its own name and address, and only when
    the client is configured with a tunnel. *)
Theorem adapter_fits e0 c now d w f a0 x :
  (∀ e, ok e → files_work e) → identity_json → configPath ≠ identity_path c →
  start e0 (New c now d w f) = (Top 0, a0) → rtc agent_step (mkRun a0 (Top 0) false) x →
  let a := agent x in
  (DataPlaneReady (state a) = true → dataPlane a ≠ None) ∧
  (∀ d, dataPlane a = Some d → ∃ name ip network,
     adapter a = Some name ∧ client_address ip network = Ok (adapterAddress a) ∧
     cAssigned d = To4 (ParseIP ip)) ∧
  (∀ name, adapter a = Some name →
     cTunnelEnabled (config a) = true ∧ Configured (state a) = true ∧
     AdapterReady (state a) = true ∧ AdapterName (state a) = name ∧
     AdapterAddress (state a) = adapterAddress a).
Proof.
  intros Hok Hj Hne Hst Hx. assert (fitted (agent x)) as [Hr Hp Ha].
  { assert (good (identity_path c) (mkRun a0 (Top 0) false) ∧ fitted a0) as Hg.
    { split; [by eapply start_good|]. unfold start, load in Hst.
      repeat case_match; simplify_eq; by apply fit_closed. }
    clear Hst. change a0 with (agent (mkRun a0 (Top 0) false)) in Hg at 2.
    induction Hx as [x|x y z Hs _ IH]; [by destruct Hg|]. destruct Hg as [Hg Hf]. apply IH.
    split; [by eapply agent_step_good|by eapply fit_step]. }
  cbv zeta. split; [done|]. split.
  - intros dp Hdp. destruct (Hp dp Hdp) as (Hn & ip & network & Hi & Has).
    destruct (adapter (agent x)) as [name|]; [|done]. by exists name, ip, network.
  - intros name Hn. destruct (Ha name Hn) as (? & ? & ? & ? & ? & _). by split_and!.
Qed.
End adapter.
