(* ===== verification/ClientGuard.v ===== *)
(** * ClientGuard: who may do what through the local interface

    The local interface serves every program of the machine, and pages of other
    sites can send it requests.  [guarded] says what one request may change, and
    what it may ask of the server; the reset erases the identity. *)
From S2P Require Import Prelude Text Net Clock Protocol Crypto Session Traffic Dataplane DataClient.
From S2P Require Import Commands Config Http Accounts Devices CommandStore.
From S2P Require Import ClientAgent ClientLocal ClientRun ClientEffects ClientIdentity.

Section guard.
Context `{Primitives} {R F : Type} `{AgentJSON} `{Remote R} `{LocalInputs} `{LocalHost F}.
Context (parse_url : string → option (string * string))
  (yaml_encode_client : ClientConfig → result (list byte)) (configPath : string).
Implicit Types (e : Sys) (a : Agent R F) (r : LocalRequest) (P : string → Prop).
Abbreviation serve := (local_serve (R := R) (F := F) parse_url yaml_encode_client).

(** One request to the server, with a token that [P] allows. *)
Definition asked P (w w' : R) : Prop := ∃ q, P (hToken q) ∧ w' = snd (http_do q w).

(** [unconfigure], [reconfigure], [quit] and [startup] hold where the request may
    end the configuration, change the configuration or the key, stop the program,
    or change the start-up entry. *)
Record guarded (unconfigure reconfigure quit startup : Prop) P a a' : Prop := {
  g_configured : Configured (state a) = true → Configured (state a') = true ∨ unconfigure;
  g_config : (config a', key a') = (config a, key a) ∨ reconfigure;
  g_quit : shutdownAsked a' = shutdownAsked a ∨ quit;
  g_startup : host a' = host a ∨ startup;
  g_asked : rtc (asked P) (remote a) (remote a')
}.
#[export] Instance guarded_preorder U C Q S P : PreOrder (guarded U C Q S P).
Proof.
  split; [intros a; split; auto; reflexivity|].
  intros a b c [A1 A2 A3 A4 A5] [B1 B2 B3 B4 B5]. split.
  - intros Ha. destruct (A1 Ha) as [Hb|]; [|by right]. by apply B1.
  - destruct A2 as [E|]; [|by right]. by rewrite <- E.
  - destruct A3 as [E|]; [|by right]. by rewrite <- E.
  - destruct A4 as [E|]; [|by right]. by rewrite <- E.
  - by etrans.
Qed.

Lemma guarded_weaken (U C Q S U' C' Q' S' : Prop) P P' a a' :
  (U → U') → (C → C') → (Q → Q') → (S → S') → (∀ t, P t → P' t) →
  guarded U C Q S P a a' → guarded U' C' Q' S' P' a a'.
Proof.
  intros HU HC HQ HS HP [A1 A2 A3 A4 A5]. split.
  - intros Ha. destruct (A1 Ha); auto.
  - destruct A2; auto.
  - destruct A3; auto.
  - destruct A4; auto.
  - eapply rtc_subrel; [|exact A5]. intros x y (q & Hq & ->). exists q. auto.
Qed.

(** ** The parts *)

Section parts.
Context (U C Q S : Prop) (P : string → Prop).
Abbreviation guarded := (guarded U C Q S P).

Lemma g_request_raw method path token body : P token →
  ceffect guarded (request_raw (R := R) (F := F) method path token body).
Proof.
  intros HP. unfold request_raw. agent_tac idtac. apply ceffect_run. intros a.
  destruct (http_do _ _) as [v w] eqn:Ed. split; cbn; auto.
  apply rtc_once. exists (mkHttpRequest method (server_url x path) token body). by rewrite Ed.
Qed.
Lemma g_request_token {O} `{Unmarshal O} method path token body (zero : O) : P token →
  ceffect guarded (requestWithToken (R := R) (F := F) method path token body zero).
Proof. intros HP. unfold requestWithToken. agent_tac ltac:(by apply g_request_raw). Qed.
Lemma g_request {I O} `{Marshal I} `{Unmarshal O} method path (v : I) (zero : O) : P "" →
  ceffect guarded (request (R := R) (F := F) method path v zero).
Proof. apply g_request_token. Qed.
Lemma g_session {O} `{Unmarshal O} method path token (zero : O) refuse : P token →
  ceffect guarded (with_session (R := R) (F := F) method path token zero refuse).
Proof. intros HP. unfold with_session. agent_tac ltac:(by apply g_request_token). Qed.
Lemma g_raw_bool (b : bool) method path token body : P token →
  ceffect guarded (if b then cret None else succeeds (request_raw (R := R) (F := F) method path token body)).
Proof. intros HP. agent_tac ltac:(by apply g_request_raw). Qed.
End parts.
End guard.

(** A setter, or a request of the context. *)
Ltac guard_leaf := first
  [ apply ceffect_upd; intros ?; split; cbn; auto; try reflexivity; fail
  | apply ceffect_run; intros ?; repeat case_match; split; cbn; auto; try reflexivity; fail
  | by apply g_request_raw | by apply g_request_token | by apply g_request | by apply g_session
  | solve [eauto with guard] ].
Ltac guard_tac := agent_tac ltac:(guard_leaf).
Create HintDb guard.

Section handlers.
Context `{Primitives} {R F : Type} `{AgentJSON} `{Remote R} `{LocalInputs} `{LocalHost F}.
Context (parse_url : string → option (string * string))
  (yaml_encode_client : ClientConfig → result (list byte)) (configPath : string).
Implicit Types (e : Sys) (a : Agent R F) (r : LocalRequest) (P : string → Prop).
Implicit Types (U C Q S : Prop).

Lemma g_save U C Q S P e path c :
  ceffect (guarded U C Q S P) (save_client (R := R) (F := F) parse_url yaml_encode_client e path c).
Proof. unfold save_client. guard_tac. Qed.
Lemma g_join U C Q S P e token : C → P "" →
  ceffect (guarded U C Q S P) (Join (R := R) (F := F) e token).
Proof.
  intros HC HP. unfold Join, WriteFile, notifyConfigurationChanged, upd_state. guard_tac.
Qed.
Lemma g_close U C Q S P : ceffect (guarded U C Q S P) (closeAdapter (R := R) (F := F)).
Proof. unfold closeAdapter, closeDataPlane, upd_state. guard_tac. Qed.
Lemma g_forget U C Q S P e : U → C →
  ceffect (guarded U C Q S P)
    (forgetServer (R := R) (F := F) parse_url yaml_encode_client e configPath).
Proof.
  intros HU HC. pose proof (g_close U C Q S P). pose proof (g_save U C Q S P).
  unfold forgetServer, cancelConnection, upd_state. guard_tac.
Qed.
Lemma g_startup_change U C Q S P r : S → ceffect (guarded U C Q S P) (updateStartup (R := R) (F := F) r).
Proof. intros HS. unfold updateStartup. guard_tac. Qed.

(** ** What each handler needs *)

Definition resets r : Prop :=
  clientRemoteIsLoopback (RemoteAddr (req r)) = true ∧ clientSameOrigin r = true.
Definition sets_up a r : Prop :=
  clientSameOrigin r = true ∧ disk a !! identity_path (config a) = None.
(** The server says that the caller's session is an administrator's. *)
Definition admin_session a r : Prop := ∃ u a',
  incomingBearer r ≠ "" ∧ Role u = "admin" ∧
  requestWithToken (R := R) (F := F) "GET" "/api/v1/auth/me" (incomingBearer r) js_null no_user a = (inr u, a').
Definition own_token r (t : string) : Prop := t = "" ∨ t = incomingBearer r.
Definition tray_token a (t : string) : Prop := t = managementToken a.

Lemma g_setup e r a :
  guarded False (sets_up a r) False False (own_token r) a
    (snd (setup (R := R) (F := F) parse_url yaml_encode_client e configPath r a)).
Proof.
  unfold setup. destruct (clientSameOrigin r) eqn:Es; cbn [negb]; [|reflexivity].
  rewrite cbind_get. destruct (stat_error e); [reflexivity|]. rewrite cbind_get.
  destruct (disk a !! identity_path (config a)) eqn:Ed; cbn [is_none negb]; [reflexivity|].
  assert (sets_up a r) as Hs by done.
  assert (own_token r "") as Hn by (by left).
  pose proof (g_save False (sets_up a r) False False (own_token r)).
  pose proof (g_join False (sets_up a r) False False (own_token r)).
  revert a Ed Hs H4 H5. intros a0 _ Hs Hw Hj. generalize (config a0). intros c.
  refine ((_ : ceffect (guarded False (sets_up a0 r) False False (own_token r)) _) a0). guard_tac.
Qed.

Lemma g_reset e r a :
  guarded (resets r) (resets r) False False (own_token r) a
    (snd (reset (R := R) (F := F) parse_url yaml_encode_client e configPath r a)).
Proof.
  unfold reset. destruct (clientRemoteIsLoopback _) eqn:El; cbn [negb]; [|reflexivity].
  destruct (clientSameOrigin r) eqn:Es; cbn [negb]; [|reflexivity].
  assert (resets r) as Hr by done.
  pose proof (g_forget (resets r) (resets r) False False (own_token r)).
  refine ((_ : ceffect (guarded (resets r) (resets r) False False (own_token r)) _) a). guard_tac.
Qed.

(** The relay uses the caller's session, or none. *)
Lemma g_relay r (m : C R F Answer Empty_set) a :
  m ∈ [get_status; managementLogin r; managementLogout r; managementMe r; managementDevices r]
  ∨ (∃ id action, m = managementCommand r id action) →
  guarded False False False False (own_token r) a (snd (m a)).
Proof.
  intros Hm. refine ((_ : ceffect (guarded False False False False (own_token r)) m) a). revert Hm.
  assert (own_token r "") by (by left). assert (own_token r (incomingBearer r)) by (by right).
  intros [Hm|(id & action & ->)]; [|unfold managementCommand; guard_tac].
  unfold get_status, managementLogin, managementLogout, managementMe, managementDevices in Hm.
  rewrite list_elem_of_In in Hm. cbn [In] in Hm. destruct_or!; subst; try done; guard_tac.
Qed.

Lemma g_admin r a :
  guarded False False False (admin_session a r) (own_token r) a (snd (managementStartup (R := R) (F := F) r a)).
Proof.
  unfold managementStartup, with_session.
  destruct (incomingBearer r =s "") eqn:Eb; [reflexivity|].
  assert (own_token r (incomingBearer r)) as Hn by (by right).
  apply (ceffect_bind_at (guarded False False False (admin_session a r) (own_token r)));
    [exact (ceffect_attempt _ _ _ (g_request_token _ _ _ _ _ _ _ _ _ _ Hn) a)|].
  intros u a1 Eu%attempt_value. destruct (Role u =s "admin") eqn:Er; cbn [negb]; [|reflexivity].
  assert (admin_session a r) as Hs.
  { exists u, a1. split_and!; [|by apply String.eqb_eq|done]. intros E. by rewrite E in Eb. }
  pose proof (g_startup_change False False False (admin_session a r) (own_token r) r Hs).
  refine ((_ : ceffect (guarded False False False (admin_session a r) (own_token r)) _) a1). guard_tac.
Qed.

Lemma tray_only_run {X} r (m : C R F Answer X) a :
  tray_only r m a = (if trayAllowed a r then m a else (inl (http_error "Local tray authentication required" 403), a)).
Proof. unfold tray_only. rewrite cbind_get. by destruct (trayAllowed a r). Qed.

Lemma g_tray_state r a :
  guarded False False False False (tray_token a) a
    (snd (traySnapshot (R := R) (F := F) r a)).
Proof.
  unfold traySnapshot. rewrite tray_only_run. destruct (trayAllowed a r); [|reflexivity].
  rewrite cbind_get. assert (tray_token a (managementToken a)) as Hn by done.
  refine ((_ : ceffect (guarded False False False False (tray_token a)) _) a). guard_tac.
Qed.
Lemma g_tray_command r id action a :
  guarded False False False False (tray_token a) a
    (snd (trayCommand (R := R) (F := F) r id action a)).
Proof.
  unfold trayCommand. rewrite tray_only_run. destruct (trayAllowed a r); [|reflexivity].
  destruct (bool_decide _); cbn [negb]; [|reflexivity].
  rewrite cbind_get. assert (tray_token a (managementToken a)) as Hn by done.
  refine ((_ : ceffect (guarded False False False False (tray_token a)) _) a). guard_tac.
Qed.
End handlers.

(** ** Which handler runs *)

Section routes.
Context `{Primitives} {R F : Type} `{AgentJSON} `{Remote R} `{LocalInputs} `{LocalHost F}.

Definition tray_target (t : target) : bool :=
  match t with TTray | TTrayCommand _ _ | TTrayStartup | TTrayQuit => true | _ => false end.
(** The targets of one pattern of a method without a variable part. *)
Definition plain_target (t : target) : bool :=
  match t with TSetup | TReset | TTrayStartup | TTrayQuit => true | _ => false end.

Lemma mux_clean method path t : local_mux method path = t → (∀ p, t ≠ TRedirect p) →
  local_target method path = t.
Proof.
  unfold local_mux. set (clean := if method =s "CONNECT" then path else cleanPath path).
  destruct (local_target method clean) eqn:Et; intros <- Hn;
    try (destruct (clean =s path) eqn:Ec; [apply String.eqb_eq in Ec; by rewrite Ec in Et|]); by edestruct Hn.
Qed.

Lemma device_target_kind path t : device_target path = Some t → plain_target t = false.
Proof. unfold device_target. intros E. repeat case_match; by simplify_eq. Qed.
Lemma mux_plain method path t : local_mux method path = t → plain_target t = true →
  ∃ m, In (m, path, t) local_patterns ∧ matches m method = true.
Proof.
  intros Hm Hp. apply mux_clean in Hm; [|by intros p ->]. unfold local_target in Hm.
  destruct (find _ local_patterns) as [[[m p] t']|] eqn:Ef.
  - apply find_some in Ef as [Hin [Hc Hpath%String.eqb_eq]%andb_true_iff]. subst. by exists m.
  - destruct (if method =s "POST" then device_target path else None) as [t'|] eqn:Ed.
    + destruct (method =s "POST"); [|done]. apply device_target_kind in Ed. congruence.
    + repeat case_match; subst; discriminate Hp.
Qed.

Lemma matches_exact pattern method : matches pattern method = true → pattern ≠ "GET" →
  method = pattern.
Proof.
  unfold matches. intros [Hm%String.eqb_eq|[Hm%String.eqb_eq _]%andb_true_iff]%orb_true_iff Hg;
    congruence.
Qed.

Ltac mux_pattern := intros (m & Hin & Hm)%mux_plain; [|done]; cbn [In local_patterns] in Hin;
  destruct_or!; simplify_eq; by apply matches_exact in Hm as ->.

Lemma mux_reset method path : local_mux method path = TReset →
  method = "DELETE" ∧ path = "/api/configuration".
Proof. mux_pattern. Qed.
Lemma mux_setup method path : local_mux method path = TSetup →
  method = "POST" ∧ path = "/api/setup".
Proof. mux_pattern. Qed.
Lemma mux_quit method path : local_mux method path = TTrayQuit →
  method = "POST" ∧ path = "/api/tray/quit".
Proof. mux_pattern. Qed.
Lemma mux_tray_startup method path : local_mux method path = TTrayStartup →
  method = "POST" ∧ path = "/api/tray/startup".
Proof. mux_pattern. Qed.
End routes.

(** ** A request *)

Section request.
Context `{Primitives} {R F : Type} `{AgentJSON} `{Remote R} `{LocalInputs} `{LocalHost F}.
Context (parse_url : string → option (string * string))
  (yaml_encode_client : ClientConfig → result (list byte)) (configPath : string).
Implicit Types (e : Sys) (a : Agent R F) (r : LocalRequest).

(** The request is the one for the method and the path. *)
Definition is_request r (method path : string) : Prop := Method (req r) = method ∧ Path (req r) = path.
Definition may_unconfigure r : Prop := is_request r "DELETE" "/api/configuration" ∧ resets r.
Definition may_reconfigure a r : Prop :=
  may_unconfigure r ∨ is_request r "POST" "/api/setup" ∧ sets_up a r.
Definition may_quit a r : Prop := is_request r "POST" "/api/tray/quit" ∧ trayAllowed a r = true.
Definition may_change_startup a r : Prop :=
  is_request r "POST" "/api/tray/startup" ∧ trayAllowed a r = true ∨ admin_session a r.
Definition may_use a r (token : string) : Prop :=
  own_token r token ∨ trayAllowed a r = true ∧ token = managementToken a.
Definition may a r : Agent R F → Agent R F → Prop :=
  guarded (may_unconfigure r) (may_reconfigure a r) (may_quit a r) (may_change_startup a r) (may_use a r).

Lemma answered_snd (m : C R F Answer Empty_set) a : snd (answered m a) = snd (m a).
Proof. unfold answered. by destruct (m a) as [[|[]] ?]. Qed.

Tactic Notation "weaken" uconstr(lemma) := eapply guarded_weaken; [| | | | |apply lemma];
  unfold may_reconfigure, may_unconfigure, is_request, may_change_startup, may_use, tray_token;
  try solve [intros; tauto].

Lemma may_dispatch e r a :
  may a r a (snd (local_dispatch (R := R) (F := F) parse_url yaml_encode_client e configPath r a)).
Proof.
  unfold local_dispatch, may.
  destruct (local_mux _ _) as [| | | | | | |id action| | |id action| | | | |p|] eqn:Em;
    [weaken (g_relay r); left; set_solver| | |weaken (g_relay r); left; set_solver|weaken (g_relay r); left; set_solver
    |weaken (g_relay r); left; set_solver|weaken (g_relay r); left; set_solver
    |weaken (g_relay r); right; by exists id, action|weaken g_admin| | | | |reflexivity..].
  - apply mux_setup in Em. weaken g_setup.
  - apply mux_reset in Em. weaken g_reset.
  - destruct (trayAllowed a r) eqn:Et; [weaken g_tray_state|].
    unfold traySnapshot. by rewrite tray_only_run, Et.
  - destruct (trayAllowed a r) eqn:Et; [weaken g_tray_command|].
    unfold trayCommand. by rewrite tray_only_run, Et.
  - unfold trayStartup. rewrite tray_only_run. destruct (trayAllowed a r) eqn:Et; [|reflexivity].
    apply mux_tray_startup in Em. apply g_startup_change. by left.
  - unfold trayQuit. rewrite tray_only_run. destruct (trayAllowed a r) eqn:Et; [|reflexivity].
    apply mux_quit in Em. split; cbn; auto; [|reflexivity]. by right.
Qed.

(** C4: the guard of the local interface. A request with an unsafe method from
    another origin, and a tray request without the tray's token, are answered
    403 and change nothing. Whatever the request, the configuration ends only by
    a reset of this machine and this origin, and the configuration and the key
    change only by that or by a set-up where no identity exists; the program is
    stopped only by the tray; the start-up entry changes only for the tray or a
    session that the server says is an administrator's; and the requests to the
    server carry no token, the caller's own, or, for the tray only, the stored
    one. *)
Theorem local_guard e r a v a' :
  local_serve parse_url yaml_encode_client e configPath r a = (v, a') →
  (cross_origin r = true → aCode v = 403 ∧ a' = a) ∧
  (tray_target (local_mux (Method (req r)) (Path (req r))) = true → trayAllowed a r = false →
     aCode v = 403 ∧ a' = a) ∧
  may a r a a'.
Proof.
  unfold local_serve. destruct (cross_origin r) eqn:Ec.
  { intros [= <- <-]. split_and!; [done|done|]. unfold may. reflexivity. }
  destruct (answered _ a) as [v0 a0] eqn:Ea. intros [= <- <-]. split_and!; [done| |].
  - unfold answered, local_dispatch in Ea. intros Ht Hn.
    destruct (local_mux _ _); try discriminate Ht;
      unfold traySnapshot, trayCommand, trayStartup, trayQuit in Ea; rewrite tray_only_run, Hn in Ea;
      by injection Ea as <- <-.
  - pose proof (may_dispatch e r a) as Hm. by rewrite <- answered_snd, Ea in Hm.
Qed.
End request.

(** The pattern for GET also takes HEAD, which the handler treats as a change. *)
Lemma startup_by_head `{Primitives} {R F : Type} `{AgentJSON} `{Remote R} `{LocalInputs} `{LocalHost F}
    (a a1 : Agent R F) (r : LocalRequest) u :
  Method (req r) = "HEAD" → Path (req r) = "/api/management/startup" →
  incomingBearer r ≠ "" → Role u = "admin" →
  requestWithToken "GET" "/api/v1/auth/me" (incomingBearer r) js_null no_user a = (inr u, a1) →
  cross_origin r = false ∧ local_mux (Method (req r)) (Path (req r)) = TStartup ∧
  managementStartup r a = updateStartup r a1.
Proof.
  intros Hm Hp Hb Hu Hr. unfold cross_origin. rewrite Hm, Hp. split_and!; [done|done|].
  unfold managementStartup, with_session. rewrite (proj2 (String.eqb_neq _ _) Hb).
  unfold cbind, attempt. by rewrite Hr, Hu, Hm.
Qed.

(** ** The reset *)

Section reset.
Context `{Primitives} {R F : Type} `{AgentJSON} `{Remote R} `{LocalInputs} `{LocalHost F}.
Context (parse_url : string → option (string * string))
  (yaml_encode_client : ClientConfig → result (list byte)) (configPath : string).
Implicit Types (e : Sys) (a : Agent R F) (r : LocalRequest).

(** Everything about the server is gone. *)
Record erased a a' : Prop := {
  er_config : config a' = forgotten (config a);
  er_file : disk a' !! identity_path (config a) = None;
  er_session : managementToken a' = "" ∧ managementUser a' = no_user ∧ managementNodes a' = [];
  er_tunnel : adapter a' = None ∧ dataPlane a' = None;
  er_state : state a' = mkState false "" "" "" 0 "" "" false false None "" (Started (state a)) false;
  er_link : connectionStop a' = (λ _, true) <$> connectionStop a
}.

(** The result of saving the configuration without a server. *)
Definition saved e a : option string * gmap string file :=
  SaveClient parse_url yaml_encode_client (save_config e) configPath (forgotten (config a))
    (delete (identity_path (config a)) (disk a)).

Lemma forget_run e a : remove_error e = None → configPath ≠ identity_path (config a) →
  ∃ o a', forgetServer (R := R) (F := F) parse_url yaml_encode_client e configPath a = (o, a') ∧
    erased a a' ∧ key a' = key a ∧ disk a' = snd (saved e a) ∧
    (o = inr tt ↔ fst (saved e a) = None).
Proof.
  intros Hr Hne. unfold forgetServer. rewrite cbind_get, Hr.
  cbv beta iota zeta delta [cbind cupd cancelConnection closeAdapter closeDataPlane upd_state wrap
    save_client crun].
  match goal with |- context [SaveClient _ _ _ _ _ (disk ?b)] => set (a1 := b) end.
  assert (disk a1 = delete (identity_path (config a)) (disk a)) as Hd by done.
  rewrite Hd. change (SaveClient _ _ _ _ _ _) with (saved e a).
  pose proof (SaveClient_files parse_url yaml_encode_client configPath (save_config e)
    (forgotten (config a)) (delete (identity_path (config a)) (disk a)) _ Hne) as Hs.
  fold (saved e a) in Hs. rewrite lookup_delete_eq in Hs.
  destruct (saved e a) as [[msg|] fs]; cbn [fst snd] in *; do 2 eexists; (split; [done|]);
    (split; [by split|]); done.
Qed.

(** The reset, branch by branch. From another machine or origin it is
    refused with 403, without a configuration with 409, and when the identity
    file cannot be removed it answers 500, each time without any effect.
    Otherwise the identity file, the server's address, the session, the adapter,
    the data plane and the state are erased and the connection is cancelled,
    whatever becomes of the configuration file: 204 when it was saved and 500
    when it was not.  The private key stays in memory. *)
Theorem reset_outcome e r a v a' :
  is_request r "DELETE" "/api/configuration" → configPath ≠ identity_path (config a) →
  local_serve parse_url yaml_encode_client e configPath r a = (v, a') →
  if negb (clientSameOrigin r) || negb (clientRemoteIsLoopback (RemoteAddr (req r)))
  then aCode v = 403 ∧ a' = a
  else if negb (Configured (state a)) then aCode v = 409 ∧ a' = a
  else match remove_error e with
  | Some _ => aCode v = 500 ∧ a' = a
  | None =>
    erased a a' ∧ key a' = key a ∧ disk a' = snd (saved e a) ∧
    aCode v = match fst (saved e a) with None => 204 | Some _ => 500 end
  end.
Proof.
  intros [Hm Hp] Hne. unfold local_serve, cross_origin. rewrite Hm. cbn [String.eqb Ascii.eqb Bool.eqb negb andb].
  destruct (clientSameOrigin r) eqn:Es; cbn [negb orb]; [|by intros [= <- <-]].
  unfold answered, local_dispatch. rewrite Hm, Hp.
  change (local_mux "DELETE" "/api/configuration") with TReset. unfold reset.
  destruct (clientRemoteIsLoopback _); cbn [negb]; [|by intros [= <- <-]]. rewrite Es. cbn [negb].
  rewrite cbind_get. destruct (Configured (state a)) eqn:Ec; cbn [negb]; [|by intros [= <- <-]].
  unfold cbind, attempt. destruct (remove_error e) as [msg|] eqn:Er.
  { unfold forgetServer. rewrite cbind_get, Er. cbn. by intros [= <- <-]. }
  destruct (forget_run e a Er Hne) as (o & a1 & -> & He & Hk & Hd & Ho).
  destruct o as [err|[]]; intros [= <- <-]; split_and!; try done.
  - destruct (fst (saved e a)); [done|]. destruct Ho as [_ Ho]. discriminate (Ho eq_refl).
  - by rewrite (proj1 Ho eq_refl).
Qed.
End reset.
