(* ===== verification/ClientServer.v ===== *)
(** * ClientServer: the client and the management server together

    [Backend] is the network between the client's agent and the management
    server: a request of the client is a run of [ControlStream.serve], in the
    next of a sequence of environments, and the server's outcome, encoded, is
    the client's response.  On it, a command that reaches the client is carried
    through: accepted on the server, executed once, and reported. *)
From S2P Require Import Prelude Text Net Clock Calendar Http Traffic Duration Protocol Crypto Session.
From S2P Require Import Dataplane DataClient Commands Config Database Accounts Devices CommandStore StoreSteps.
From S2P Require Import Auth Control ControlAPI ControlStream ControlEffects ControlDevices.
From S2P Require Import ClientAgent ClientEffects.
From Stdlib Require Import Init.Byte Strings.Byte.

(** ** The network *)

Section network.
Context `{Primitives} {SF SP : Type} `{Inputs} `{!Externals SF} `{DataPlane SP}.

Record Backend := mkBackend {
  bk_server : Control SF SP; bk_env : nat → Env; bk_served : nat
}.

(** [base] is the server's address as the client writes it, [address] the
    client's as the server sees it. *)
Context (base address : string) (encode : Payload → list byte) (status_line : Z → string).

Definition to_request (q : HttpRequest) : Request :=
  mkRequest (hMethod q) (trim_prefix (hURL q) base) (λ _, "") address
    (if hToken q =s "" then "" else "Bearer " +:+ hToken q) None "" "" false (hBody q).
Definition to_response (o : Outcome) : HttpResponse :=
  match o with
  | Reply p => mkHttpResponse (rStatus p) (status_line (rStatus p))
                 (match rPayload p with Some v => encode v | None => [] end)
  | Stream _ _ => mkHttpResponse 200 (status_line 200) []
  end.
Definition deliver (q : HttpRequest) (w : Backend) : result HttpResponse * Backend :=
  let '(o, s) := serve (bk_env w (bk_served w)) (to_request q) (bk_server w) in
  (Ok (to_response o), mkBackend s (bk_env w) (S (bk_served w))).
End network.
Global Arguments Backend : clear implicits.
Global Arguments mkBackend {SF SP}.

(** ** On the server *)

Section server.
Context `{Primitives} {SF SP : Type} `{Inputs} `{!Externals SF} `{DataPlane SP}.
Implicit Types (e : Env) (r : Request) (s : Control SF SP).

(** *** The limiter lets [n] more requests of this address through. *)
Definition host_key (address : string) : string := default "" (fst <$> SplitHostPort address).
Definition room (address : string) (n : nat) s : Prop :=
  (length (default [] (hits s !! host_key address)) + n ≤ request_limit)%nat.

Lemma room_step t address n s : room address (S n) s →
  ∃ h, rateLimit t address s = (true, set_hits h s) ∧ room address n (set_hits h s).
Proof.
  unfold room, rateLimit. fold (host_key address). intros Hr.
  pose proof (List.filter_length_le (λ x, Sub t x <? Minute) (default [] (hits s !! host_key address))) as Hl.
  change (List.filter _ _) with (recent t (default [] (hits s !! host_key address))) in Hl.
  rewrite bool_decide_eq_false_2 by lia. eexists. split; [done|]. cbn [hits set_hits].
  rewrite lookup_insert_eq. change (default [] (Some ?l)) with l. rewrite length_app. cbn [length].
  lia.
Qed.

(** A request that is let through. *)
Lemma serve_step e r n s : room (RemoteAddr r) (S n) s →
  ∃ h, room (RemoteAddr r) n (set_hits h s) ∧
    serve e r s = (let '(o, s') := outcome (dispatch e r) (set_hits h s) in (secured o, s')).
Proof.
  intros (h & E & Hr)%(room_step (limit_now e)). exists h. split; [done|]. unfold serve. by rewrite E.
Qed.

(** *** Challenges *)

Lemma challenge_run e r dev pub nonce s :
  decode r = Some (mkChallengeInput dev) → device_key dev (store (world s)) = Some pub →
  nonce_rnd e = Some nonce →
  outcome (deviceChallenge e r) s =
    (Reply (write 200 (Challenge (EncodeToString nonce))),
     set_challenges (<[dev := mkChallenge nonce (now e 0 + 30 * Second)]> (challenges s)) s).
Proof.
  intros Hd Hk Hn. unfold deviceChallenge, outcome. rewrite Hd. cbn [hdecode chDeviceID].
  unfold htry, hbind at 1. rewrite key_run. pose proof (key_cases dev (store (world s))) as Hc.
  rewrite Hk in Hc. by rewrite Hc, Hn.
Qed.

(** *** A result that is taken *)

Definition is_command (id dev : string) (row : command_row) : bool :=
  bool_decide (c_id row = id) && bool_decide (c_device row = dev).

Lemma update_where_filter {A} (p : A → bool) (g : A → A) (l : list A) :
  (∀ x, p (g x) = p x) → List.filter p (update_where p g l) = map g (List.filter p l).
Proof.
  intros Hg. unfold update_where. induction l as [|x l IH]; [done|].
  cbn [map List.filter]. rewrite IH. destruct (p x) eqn:E; [by rewrite Hg, E|by rewrite E].
Qed.
Lemma update_where_twice {A} (p : A → bool) (f g h : A → A) (l : list A) :
  (∀ x, p (f x) = p x) → (∀ x, g (f x) = h x) →
  update_where p g (update_where p f l) = update_where p h l.
Proof.
  intros Hp Hg. unfold update_where. rewrite map_map. apply map_ext. intros x.
  destruct (p x) eqn:E; [by rewrite Hp, E, Hg|by rewrite E].
Qed.

(** The command is there, once, with a deadline not before [t]. *)
Definition awaits (id dev : string) (t : Z) (row : command_row) (d : db) : Prop :=
  List.filter (is_command id dev) (commands d) = [row] ∧
  ∃ deadline, ParseRFC3339 (c_expires row) = Some deadline ∧ t ≤ deadline.

Lemma valid_transition_facts a b : validTransition a b = true →
  bool_decide (b ∈ result_statuses) = true ∧ is_active a = true ∧ (a =s b) = false.
Proof.
  unfold validTransition. rewrite !orb_true_iff, !andb_true_iff, !orb_true_iff, !String.eqb_eq.
  intros [[-> [-> | ->]]|[[-> | ->] ->]]; done.
Qed.

Lemma result_taken rnd now1 now2 id dev status text err row d :
  awaits id dev now1 row d → validTransition (c_status row) status = true →
  new_id "res" rnd ∉ map r_id (results d) →
  ∃ d', UpdateCommandResult rnd now1 now2 id dev status text err d = (Ok tt, d') ∧
    devices d' = devices d ∧
    commands d' = update_where (is_command id dev) (set_result status text err) (commands d) ∧
    map r_id (results d') = map r_id (results d) ++ [new_id "res" rnd].
Proof.
  intros [Hf (deadline & Hp & Ht)] Hv Hn. unfold UpdateCommandResult.
  destruct (valid_transition_facts _ _ Hv) as (-> & Ha & He).
  cbn [negb]. change (λ r : command_row, bool_decide (c_id r = id) && bool_decide (c_device r = dev))
    with (is_command id dev).
  unfold bind, transaction, query_row, update_commands. rewrite Hf, Hp, Ha, He, Hv.
  rewrite bool_decide_eq_false_2 by done.
  assert (After now1 (default zeroTime (Some deadline)) = false) as -> by (unfold After; cbn; lia).
  cbn [orb andb negb]. unfold insert_result.
  cbn [r_id results set_commands].
  assert (has_value r_id (new_id "res" rnd) (results d) = false) as ->.
  { apply not_true_iff_false. intros (x & Hx%list_elem_of_In & Hi)%existsb_exists. bprop. apply Hn.
    rewrite <- Hi. by apply list_elem_of_fmap_2. }
  change (commands (set_commands ?l d)) with l. cbn [r_command].
  set (l := update_where _ _ _).
  assert (has_value c_id id l = true) as ->.
  { apply existsb_exists. exists (set_result status text err row).
    assert (set_result status text err row ∈ List.filter (is_command id dev) l) as Hin
      by (unfold l; rewrite update_where_filter by done; rewrite Hf; left).
    apply list_elem_of_In, filter_In in Hin as [Hin Hc]. split; [done|].
    by apply andb_true_iff in Hc as [Hc _]. }
  eexists. split; [done|]. cbn. by rewrite map_app.
Qed.
End server.

(** *** The two requests of a report *)

Section requests.
Context `{Primitives} {SF SP : Type} `{Inputs} `{!Externals SF} `{DataPlane SP}.
Implicit Types (e : Env) (r : Request) (s : Control SF SP).

(** What the next requests of [address] find. *)
Record served_well (address dev : string) (pub : list byte) (n : nat) s : Prop := {
  sw_key : device_key dev (store (world s)) = Some pub;
  sw_room : room address n s
}.

Lemma serve_challenge e r dev pub nonce n s :
  served_well (RemoteAddr r) dev pub (S n) s →
  mux (Method r) (Path r) = TChallenge → decode r = Some (mkChallengeInput dev) →
  nonce_rnd e = Some nonce →
  ∃ s', serve e r s = (secured (Reply (write 200 (Challenge (EncodeToString nonce)))), s') ∧
    served_well (RemoteAddr r) dev pub n s' ∧ store (world s') = store (world s) ∧
    challenges s' !! dev = Some (mkChallenge nonce (now e 0 + 30 * Second)).
Proof.
  intros [Hk Hr] Hm Hd Hn. destruct (serve_step e r n s Hr) as (h & Hroom & ->).
  unfold dispatch. rewrite Hm. rewrite (challenge_run e r dev pub nonce (set_hits h s)) by done.
  eexists. split; [done|]. split; [by split|]. split; [done|]. cbn. by rewrite lookup_insert_eq.
Qed.

Lemma serve_result e r id input dev pub nonce payload sig row n s :
  served_well (RemoteAddr r) dev pub (S n) s →
  mux (Method r) (Path r) = TResult id → decode r = Some input → crDeviceID input = dev →
  result_sized id input = true →
  (∃ t, challenges s !! dev = Some (mkChallenge nonce t) ∧ now e 0 ≤ t) →
  DecodeString (crSignature input) = Some sig → result_text id input nonce = Ok payload →
  ed25519_verify pub payload sig = true →
  awaits id dev (now e 1) row (store (world s)) → validTransition (c_status row) (crStatus input) = true →
  new_id "res" (rnd e 0) ∉ map r_id (results (store (world s))) →
  ∃ s', serve e r s = (secured (Reply (write 200 (Status_ (crStatus input)))), s') ∧
    served_well (RemoteAddr r) dev pub n s' ∧
    commands (store (world s')) =
      update_where (is_command id dev) (set_result (crStatus input) (crResult input) (crError input))
        (commands (store (world s))) ∧
    map r_id (results (store (world s'))) = map r_id (results (store (world s))) ++ [new_id "res" (rnd e 0)].
Proof.
  intros [Hk Hr] Hm Hd <- Hz (t & Hc & Ht) Hs Hp Hver Haw Hv Hn.
  destruct (serve_step e r n s Hr) as (h & Hroom & ->). unfold dispatch. rewrite Hm.
  pose proof (command_result_run e r id input (set_hits h s) Hd Hz) as Hrun. cbv zeta in Hrun. rewrite Hrun.
  assert (proof_ok (now e 0) (crDeviceID input) (crSignature input) (result_text id input) (set_hits h s) = true)
    as ->.
  { apply proof_ok_spec. by exists (mkChallenge nonce t), pub, sig, payload. }
  unfold result_run. change (store (world (spent _ (set_hits h s)))) with (store (world s)).
  destruct (result_taken (rnd e 0) (now e 1) (now e 2) id (crDeviceID input) (crStatus input) (crResult input)
    (crError input) row (store (world s)) Haw Hv Hn) as (d & -> & Hdev & Hcom & Hres).
  eexists. split; [done|]. split; [split; [|done]|by split].
  unfold device_key in *. cbn. by rewrite Hdev.
Qed.
End requests.

(** ** A report, end to end *)

Section together.
Context `{Primitives} {SF SP F : Type} `{Inputs} `{!Externals SF} `{DataPlane SP} `{AgentJSON}.
Abbreviation Backend := (Backend SF SP).
Context `{!Remote Backend}.
Context (base address : string) (encode : Payload → list byte) (status_line : Z → string).
Implicit Types (e : Sys) (a : Agent Backend F) (w : Backend).

(** A body, as the server's handlers decode it. *)
Definition decoded {A} `{Unmarshal A} (b : list byte) : option A :=
  decode (mkRequest "" "" (λ _, "") "" "" None "" "" false b).
Lemma decode_body {A} `{Unmarshal A} r : decode (A := A) r = decoded (rBody r).
Proof. unfold decoded, decode, decode_value, limited. cbn [rBody]. reflexivity. Qed.
Lemma mux_challenge : mux "POST" "/control/v1/challenge" = TChallenge.
Proof. vm_compute. reflexivity. Qed.
Definition result_path (id : string) : string := "/control/v1/commands/" +:+ id +:+ "/result".

(** The reports of [handleControlCommand]: status, text and error. *)
Definition accepted : string * string * string := ("accepted", "", "").
Definition reconnecting : string * string * string := ("succeeded", "control connection reconnecting", "").
Definition scheduled : string * string * string := ("succeeded", "system action scheduled", "").
Definition action_failed : string * string * string := ("failed", "", "system action failed").
Definition reports : list (string * string * string) := [accepted; reconnecting; scheduled; action_failed].

(** The client's requests reach this server and its answers come back; what one
    side encodes the other decodes; the client signs with the device's key; the
    command's identifier is one segment of a path. *)
Record wired (dev id : string) (pub priv : list byte) : Prop := {
  wi_new : ∀ path, new_request (R := Backend) "POST" (base +:+ path) = None;
  wi_do : ∀ q w, http_do q w = deliver base address encode status_line q w;
  wi_device : decoded (marshal (mkDeviceRef dev)) = Some (mkChallengeInput dev);
  wi_result : ∀ st text err msg, (st, text, err) ∈ reports →
    let v := mkCommandResult dev st text err (EncodeToString (ed25519_sign (R := Backend) priv msg)) in
    decoded (marshal v) = Some v;
  wi_challenge : ∀ nonce, len nonce = 32 →
    decode_first (encode (Challenge (EncodeToString nonce))) = Some (mkChallengeReply (EncodeToString nonce));
  wi_verify : ∀ msg, ed25519_verify pub msg (ed25519_sign (R := Backend) priv msg) = true;
  wi_path : mux "POST" (result_path id) = TResult id;
  wi_names : dev ≠ "" ∧ id ≠ "" ∧ slen dev ≤ 65535 ∧ slen id ≤ 65535
}.

(** The next two requests: nonces are drawn, clocks stay within [t, u], half a
    minute, and the number of the result is new. *)
Record good_pair (t u : Z) w : Prop := {
  gp_nonce : ∃ nonce, nonce_rnd (bk_env w (bk_served w)) = Some nonce ∧ len nonce = 32;
  gp_early : t ≤ now (bk_env w (bk_served w)) 0;
  gp_late : ∀ i, now (bk_env w (S (bk_served w))) i ≤ u;
  gp_span : u ≤ t + 30 * Second;
  gp_fresh : new_id "res" (rnd (bk_env w (S (bk_served w))) 0) ∉ map r_id (results (store (world (bk_server w))))
}.

(** The client is this device's. *)
Record is_device (dev : string) (priv : list byte) a : Prop := {
  id_base : TrimRightSlash (cServerURL (config a)) = base;
  id_device : sDeviceID (state a) = dev;
  id_key : key a = priv
}.


(** The request of the client for a path, as the server gets it. *)
Definition posted (path : string) (body : list byte) : Request :=
  mkRequest "POST" path (λ _, "") address "" None "" "" false body.
Definition answered_by (w : Backend) s' : Backend := mkBackend s' (bk_env w) (S (bk_served w)).

Section report.
Context (dev id : string) (pub priv : list byte) (Hw : wired dev id pub priv).

Lemma post_run path body v s' a :
  TrimRightSlash (cServerURL (config a)) = base →
  serve (bk_env (remote a) (bk_served (remote a))) (posted path body) (bk_server (remote a)) =
    (secured (Reply (write 200 v)), s') →
  request_raw "POST" path "" body a = (inr (Some (encode v)), set_remote (answered_by (remote a) s') a).
Proof.
  intros Hb Hs. unfold request_raw. rewrite cbind_get. unfold server_url. rewrite Hb.
  rewrite (wi_new _ _ _ _ Hw). unfold cbind at 1, crun. rewrite (wi_do _ _ _ _ Hw).
  unfold deliver, to_request. cbn [hMethod hURL hToken hBody String.eqb]. rewrite trim_prefix_app.
  fold (posted path body). rewrite Hs. reflexivity.
Qed.

Lemma request_run {I O} `{Marshal I} `{Unmarshal O} path (i : I) (out zero : O) v s' a :
  TrimRightSlash (cServerURL (config a)) = base → decode_first (encode v) = Some out →
  serve (bk_env (remote a) (bk_served (remote a))) (posted path (marshal i)) (bk_server (remote a)) =
    (secured (Reply (write 200 v)), s') →
  request "POST" path i zero a = (inr out, set_remote (answered_by (remote a) s') a).
Proof.
  intros Hb Hd Hs. unfold request, requestWithToken, cbind. by rewrite (post_run _ _ v s' a Hb Hs), Hd.
Qed.
Lemma request_done_run {I} `{Marshal I} path (i : I) v s' a :
  TrimRightSlash (cServerURL (config a)) = base →
  serve (bk_env (remote a) (bk_served (remote a))) (posted path (marshal i)) (bk_server (remote a)) =
    (secured (Reply (write 200 v)), s') →
  request_done "POST" path i a = (inr tt, set_remote (answered_by (remote a) s') a).
Proof. intros Hb Hs. unfold request_done, cbind. by rewrite (post_run _ _ v s' a Hb Hs). Qed.
Lemma cbind_try {E X Y} (m : C Backend F E X) (k : E + X → C Backend F E Y) a r a1 :
  m a = (r, a1) → cbind (ctry m) k a = k r a1.
Proof. intros Hm. unfold cbind, ctry. by rewrite Hm. Qed.

(** The payload that is signed exists. *)
Lemma payload_made nonce st text err : len nonce = 32 → (st, text, err) ∈ reports →
  ∃ payload, CommandResultSigningPayload nonce dev id st text err = Ok payload.
Proof.
  intros Hn Hr. destruct (wi_names _ _ _ _ Hw) as (Hd & Hi & Hld & Hli).
  unfold CommandResultSigningPayload. rewrite Hn.
  rewrite (proj2 (String.eqb_neq _ _) Hd), (proj2 (String.eqb_neq _ _) Hi). cbn [negb orb Z.eqb Pos.eqb write_fields].
  rewrite (proj2 (Z.ltb_ge _ _) Hld), (proj2 (Z.ltb_ge _ _) Hli).
  unfold reports, accepted, reconnecting, scheduled, action_failed in Hr.
  rewrite list_elem_of_In in Hr. cbn [In] in Hr.
  destruct Hr as [[= <- <- <-]|[[= <- <- <-]|[[= <- <- <-]|[[= <- <- <-]|[]]]]]; by eexists.
Qed.
Lemma report_sized st text err sigtext : (st, text, err) ∈ reports →
  result_sized id (mkCommandResult dev st text err sigtext) = true.
Proof.
  intros Hr. destruct (wi_names _ _ _ _ Hw) as (_ & Hi & _). unfold result_sized. cbn [crResult crError].
  rewrite (proj2 (String.eqb_neq _ _) Hi). unfold reports in Hr. rewrite list_elem_of_In in Hr.
  destruct Hr as [[= <- <- <-]|[[= <- <- <-]|[[= <- <- <-]|[[= <- <- <-]|[]]]]]; done.
Qed.

Lemma device_decoded path :
  decode (posted path (marshal (mkDeviceRef dev))) = Some (mkChallengeInput dev).
Proof. rewrite decode_body. exact (wi_device _ _ _ _ Hw). Qed.
Lemma result_decoded path st text err msg : (st, text, err) ∈ reports →
  let v := mkCommandResult dev st text err (EncodeToString (ed25519_sign priv msg)) in
  decode (posted path (marshal v)) = Some v.
Proof. intros Hr v. rewrite decode_body. exact (wi_result _ _ _ _ Hw _ _ _ _ Hr). Qed.

(** One report, from the challenge to the answer. *)
Lemma report_attempt_run st text err row t u n a :
  (st, text, err) ∈ reports → is_device dev priv a → good_pair t u (remote a) →
  served_well address dev pub (2 + n) (bk_server (remote a)) →
  awaits id dev u row (store (world (bk_server (remote a)))) →
  validTransition (c_status row) st = true →
  ∃ s', report_attempt id st text err a =
      (inr true, set_remote (mkBackend s' (bk_env (remote a)) (2 + bk_served (remote a))) a) ∧
    served_well address dev pub n s' ∧
    commands (store (world s')) = update_where (is_command id dev) (set_result st text err)
      (commands (store (world (bk_server (remote a))))) ∧
    map r_id (results (store (world s'))) = map r_id (results (store (world (bk_server (remote a))))) ++
      [new_id "res" (rnd (bk_env (remote a) (S (bk_served (remote a)))) 0)].
Proof.
  intros Hr [Hb Hdev Hkey] [(nonce & Hn & Hlen) Hearly Hlate Hspan Hfresh] Hsw Haw Hv.
  destruct (payload_made nonce st text err Hlen Hr) as (payload & Hp).
  set (e0 := bk_env (remote a) (bk_served (remote a))) in *.
  set (e1 := bk_env (remote a) (S (bk_served (remote a)))) in *.
  destruct (serve_challenge e0 (posted "/control/v1/challenge" (marshal (mkDeviceRef dev))) dev pub nonce
    (S n) (bk_server (remote a)) Hsw mux_challenge
    (device_decoded _) Hn) as (s1 & Hs1 & Hsw1 & Hst1 & Hch).
  set (v := mkCommandResult dev st text err (EncodeToString (ed25519_sign priv payload))).
  destruct (serve_result e1 (posted (result_path id) (marshal v)) id v dev pub nonce payload
    (ed25519_sign priv payload) row n s1 Hsw1 (wi_path _ _ _ _ Hw)
    (result_decoded _ st text err payload Hr)
    eq_refl (report_sized st text err _ Hr)) as (s2 & Hs2 & Hsw2 & Hc2 & Hr2).
  - eexists. split; [exact Hch|]. specialize (Hlate 0%nat). lia.
  - unfold v. cbn. apply DecodeString_EncodeToString.
  - exact Hp.
  - apply (wi_verify _ _ _ _ Hw).
  - rewrite Hst1. destruct Haw as [Hf (dl & Hdl & Hle)]. split; [done|]. exists dl. split; [done|].
    specialize (Hlate 1%nat). lia.
  - exact Hv.
  - by rewrite Hst1.
  - exists s2. rewrite Hst1 in Hc2, Hr2. split; [|by split_and!].
    unfold report_attempt. rewrite cbind_get, Hdev.
    erewrite cbind_try by (eapply request_run; [exact Hb|exact (wi_challenge _ _ _ _ Hw nonce Hlen)|exact Hs1]).
    cbn [replyChallenge]. rewrite DecodeString_EncodeToString, Hp, cbind_get. cbn [key set_remote]. rewrite Hkey.
    fold v. erewrite cbind_try by (eapply (request_done_run (result_path id) v); [exact Hb|exact Hs2]).
    reflexivity.
Qed.

Lemma report_served st text err row t u n a :
  (st, text, err) ∈ reports → is_device dev priv a → good_pair t u (remote a) →
  served_well address dev pub (2 + n) (bk_server (remote a)) →
  awaits id dev u row (store (world (bk_server (remote a)))) →
  validTransition (c_status row) st = true →
  ∃ s', reportCommandResult id st text err a =
      (inr tt, set_remote (mkBackend s' (bk_env (remote a)) (2 + bk_served (remote a))) a) ∧
    served_well address dev pub n s' ∧
    commands (store (world s')) = update_where (is_command id dev) (set_result st text err)
      (commands (store (world (bk_server (remote a))))) ∧
    map r_id (results (store (world s'))) = map r_id (results (store (world (bk_server (remote a))))) ++
      [new_id "res" (rnd (bk_env (remote a) (S (bk_served (remote a)))) 0)].
Proof.
  intros Hr Hd Hg Hs Haw Hv.
  destruct (report_attempt_run st text err row t u n a Hr Hd Hg Hs Haw Hv) as (s' & E & Hrest).
  exists s'. split; [|done]. unfold reportCommandResult. cbn [report_attempts]. unfold cbind. by rewrite E.
Qed.

(** The two reports of a command: four requests, in half a minute. *)
Definition result_ids w : list string :=
  map (λ n, new_id "res" (rnd (bk_env w n) 0)) [S (bk_served w); S (2 + bk_served w)].
Record good_requests (t u : Z) w : Prop := {
  gr_nonce : ∀ n, n ∈ [bk_served w; (2 + bk_served w)%nat] →
    ∃ nonce, nonce_rnd (bk_env w n) = Some nonce ∧ len nonce = 32;
  gr_clock : ∀ n i, (bk_served w ≤ n < 4 + bk_served w)%nat → t ≤ now (bk_env w n) i ≤ u;
  gr_span : u ≤ t + 30 * Second;
  gr_fresh : NoDup (map r_id (results (store (world (bk_server w)))) ++ result_ids w)
}.
Lemma good_first t u w : good_requests t u w → good_pair t u w.
Proof.
  intros [Hn Hc Hs Hf]. split; [apply Hn; left|apply Hc; lia|intros i; apply Hc; lia|done|].
  apply NoDup_app in Hf as (_ & Hf & _). intros Hin. apply (Hf _ Hin). left.
Qed.
Lemma good_second t u w (s' : Control SF SP) : good_requests t u w →
  map r_id (results (store (world s'))) = map r_id (results (store (world (bk_server w)))) ++
    [new_id "res" (rnd (bk_env w (S (bk_served w))) 0)] →
  good_pair t u (mkBackend s' (bk_env w) (2 + bk_served w)).
Proof.
  intros [Hn Hc Hs Hf] Hr. split; cbn [bk_env bk_served bk_server];
    [apply Hn; right; left|apply Hc; lia|intros i; apply Hc; lia|done|].
  rewrite Hr. unfold result_ids in Hf. cbn [map] in Hf. rewrite cons_middle, (assoc_L (++)) in Hf.
  apply NoDup_app in Hf as (_ & Hf & _). intros Hin. apply (Hf _ Hin). left.
Qed.

(** After the acceptance. *)
Lemma awaits_accepted u row w (s' : Control SF SP) : awaits id dev u row (store (world (bk_server w))) →
  commands (store (world s')) = update_where (is_command id dev) (set_result "accepted" "" "")
    (commands (store (world (bk_server w)))) →
  awaits id dev u (set_result "accepted" "" "" row) (store (world s')).
Proof.
  intros [Hf Hd] Hc. split; [|done]. rewrite Hc, update_where_filter by done. by rewrite Hf.
Qed.

(** What the execution of a command starts, and what is reported of it. *)
Definition started_by e (typ : string) : list (string * (string * list string)) :=
  match ExecuteSystem (client_os (R := Backend)) typ with Ok p => [(id, p)] | Err _ => [] end.
Definition final_report e (typ : string) : string * string * string :=
  if typ =s "client.reconnect" then reconnecting
  else match ExecuteSystem (client_os (R := Backend)) typ with
       | Ok _ => if is_none (process e) then scheduled else action_failed
       | Err _ => action_failed
       end.
Lemma final_report_in e typ : final_report e typ ∈ reports.
Proof.
  unfold final_report, reports. destruct (typ =s "client.reconnect"); [right; left|].
  destruct (ExecuteSystem _ typ); [|do 3 right; left]. destruct (is_none (process e)); [do 2 right; left|do 3 right; left].
Qed.

(** The end of [run_command], with the acceptance reported. *)
Definition finish_command e (typ : string) : C Backend F error unit :=
  if typ =s "client.reconnect" then
    do@ ClientAgent.wrap "report reconnect: "
          (reportCommandResult id "succeeded" "control connection reconnecting" "");
    cstop ErrReconnect
  else
    let@ err := executeCommand e id typ in
    match err with
    | Some msg =>
      ClientAgent.wrap ("execute command: " +:+ msg +:+ "; report failure: ")
        (reportCommandResult id "failed" "" "system action failed")
    | None =>
      ClientAgent.wrap "report command success: "
        (reportCommandResult id "succeeded" "system action scheduled" "")
    end.
Definition ends typ : error + unit := if typ =s "client.reconnect" then inl ErrReconnect else inr tt.

Lemma run_command_finish e cmd a : ccID cmd = id → run_command e cmd a =
  cbind (ClientAgent.wrap "accept command: " (reportCommandResult id "accepted" "" ""))
    (λ _, cbind (cupd (λ a, set_handled (<[id := ccExpiresAt cmd]> (handledCommands a)) a))
       (λ _, finish_command e (ccType cmd))) a.
Proof. intros E. unfold run_command, finish_command. rewrite E. reflexivity. Qed.

Lemma finish_run e typ a w' :
  let a1 := set_executed (executed a ++ started_by e typ) a in
  (let '(st, text, err) := final_report e typ in
   reportCommandResult id st text err a1 = (inr tt, set_remote w' a1)) →
  finish_command e typ a = (ends typ, set_remote w' a1).
Proof.
  cbv zeta. unfold finish_command, final_report, ends, started_by.
  assert (set_executed (executed a ++ []) a = a) as Ha by (rewrite app_nil_r; by destruct a).
  destruct (typ =s "client.reconnect") eqn:Et.
  - apply String.eqb_eq in Et as ->.
    assert (∃ msg, ExecuteSystem (client_os (R := Backend)) "client.reconnect" = Err msg) as [msg ->]
      by (destruct (client_os (R := Backend)); eexists; vm_compute; reflexivity).
    rewrite Ha. cbn [reconnecting]. intros Hr. unfold cbind, ClientAgent.wrap. by rewrite Hr.
  - unfold executeCommand. destruct (ExecuteSystem _ typ) as [p|msg].
    + unfold cbind, cupd, cret. destruct (process e) as [msg|]; cbn [is_none scheduled action_failed];
        intros Hr; unfold ClientAgent.wrap; by rewrite Hr.
    + rewrite Ha. cbn [action_failed]. intros Hr. unfold cbind, cret, ClientAgent.wrap. by rewrite Hr.
Qed.
End report.

Lemma accepted_goes_on e typ st text err row : final_report e typ = (st, text, err) →
  validTransition (c_status (set_result "accepted" "" "" row)) st = true.
Proof.
  unfold final_report. destruct (typ =s "client.reconnect"); [by intros [= <- _ _]|].
  destruct (ExecuteSystem _ typ); [destruct (is_none (process e))|]; by intros [= <- _ _].
Qed.

(** C1: a command is carried through by the client and the management server
    together. When an executable command that waits in the store reaches its
    device's client in time, with four requests left under the rate limit, the
    client reports its acceptance, starts exactly the process of the command
    (none for a reconnection) and reports the outcome; the server takes both
    reports, so that the command's row holds the final status and text and no
    other command has changed; and the connection is given up exactly for a
    reconnection. *)
Theorem command_completes dev id pub priv t u row e cmd a :
  wired dev id pub priv → is_device dev priv a →
  served_well address dev pub 4 (bk_server (remote a)) → good_requests t u (remote a) →
  awaits id dev u row (store (world (bk_server (remote a)))) → c_status row ∈ ["queued"; "delivered"] →
  ccVersion cmd = Version → ccID cmd = id → ccType cmd ∈ executable → time e 0 ≤ ccExpiresAt cmd →
  sweep e (handledCommands a) !! id = None →
  ∃ a', handleControlCommand e cmd a = (ends (ccType cmd), a') ∧
    executed a' = executed a ++ started_by id e (ccType cmd) ∧
    handledCommands a' !! id = Some (ccExpiresAt cmd) ∧
    commands (store (world (bk_server (remote a')))) =
      update_where (is_command id dev)
        (let '(st, text, err) := final_report e (ccType cmd) in set_result st text err)
        (commands (store (world (bk_server (remote a))))).
Proof.
  intros Hw Hd Hs Hg Haw Hq Hv Hid He Ht Hh.
  unfold handleControlCommand. rewrite Hv, Hid.
  rewrite (proj2 (String.eqb_neq _ _) (proj1 (proj2 (wi_names _ _ _ _ Hw)))).
  assert (After (time e 0) (ccExpiresAt cmd) = false) as -> by (unfold After; lia).
  rewrite bool_decide_eq_true_2 by done. cbn [Z.eqb Pos.eqb Version negb orb].
  unfold cbind at 1, cupd at 1. rewrite cbind_get. cbn [handledCommands set_handled]. rewrite Hh.
  cbn [is_none negb]. rewrite (run_command_finish id) by done.
  set (a0 := set_handled (sweep e (handledCommands a)) a).
  destruct (report_served dev id pub priv Hw "accepted" "" "" row t u 2 a0) as (s1 & E1 & Hs1 & Hc1 & Hr1);
    [left|by destruct Hd|by apply good_first|exact Hs|exact Haw| |].
  { unfold validTransition. cbn. rewrite list_elem_of_In in Hq. by destruct Hq as [<-|[<-|[]]]. }
  change (remote a0) with (remote a) in *.
  set (w1 := mkBackend s1 (bk_env (remote a)) (2 + bk_served (remote a))) in *.
  set (a1 := set_handled (<[id := ccExpiresAt cmd]> (handledCommands (set_remote w1 a0))) (set_remote w1 a0)).
  destruct (final_report e (ccType cmd)) as [[st text] err] eqn:Ef.
  assert ((st, text, err) ∈ reports) as Hin by (rewrite <- Ef; apply final_report_in).
  set (a2 := set_executed (executed a ++ started_by id e (ccType cmd)) a1).
  destruct (report_served dev id pub priv Hw st text err (set_result "accepted" "" "" row) t u 0 a2)
    as (s2 & E2 & _ & Hc2 & _);
    [done|by destruct Hd|by apply good_second|exact Hs1|by eapply awaits_accepted| |].
  { by apply (accepted_goes_on e (ccType cmd) st text err). }
  exists (set_remote (mkBackend s2 (bk_env w1) (2 + bk_served w1)) a2). split_and!; [|done| |].
  - unfold cbind at 1, ClientAgent.wrap. rewrite E1. unfold cbind, cupd. fold a1.
    apply finish_run. rewrite Ef. exact E2.
  - apply lookup_insert_eq.
  - cbn [remote set_remote bk_server]. rewrite Hc2. change (bk_server (remote a2)) with s1. rewrite Hc1.
    by apply update_where_twice.
Qed.
End together.
