(* ===== verification/ClientMain.v ===== *)
(** * ClientMain: the client's program ([cmd/tyxnet-client/main.go])

    The commands, the options, the enrollment from the command line and the
    installation; [serve] is modelled up to its three goroutines: the agent of
    [ClientAgent] with its application, the address of the local interface and
    the start-up entry.  The agent's loop is [ClientRun], its local interface
    [ClientLocal].

    [client_restart]: what the start-up entry's arguments start again. *)
From S2P Require Import Prelude Text Net Clock Protocol Crypto Session Traffic Dataplane DataClient.
From S2P Require Import Flags Commands Config Http Accounts Devices CommandStore ClientAgent ClientLocal.
From S2P Require Import System Startup Installer.
From Stdlib Require Import Init.Byte Strings.Byte.

(** ** The commands *)

Inductive client_action :=
  | CServe (args : list string) | CJoin (args : list string) | CInstall (args : list string)
  | CUninstall | CService (name : string) | CUnknown | CUsage.

Definition client_dispatch (args : list string) : client_action :=
  match args with
  | [] => CUsage
  | cmd :: rest =>
    if bool_decide (cmd ∈ ["run"; "connect"])%string then CServe rest
    else if cmd =s "join" then CJoin rest
    else if cmd =s "install" then CInstall rest
    else if cmd =s "uninstall" then CUninstall
    else if bool_decide (cmd ∈ ["start"; "stop"; "restart"; "status"; "logs"])%string then CService cmd
    else if cmd =s "disconnect" then CService "stop"
    else CUnknown
  end.

Definition client_options : FlagSet :=
  {[ "config" := VString "configs/client.yaml"; "local-web" := VBool false;
     "lan-web" := VBool false ]}%string.

Definition set_local (address : string) (remote : bool) (c : ClientConfig) : ClientConfig :=
  mkClientConfig (cServerURL c) (cTunnelEndpoint c) (cName c) (cStateDir c) address remote
    (cKeepalive c) (cTunnelEnabled c) (cTunnelName c) (cTunnelMTU c).
Definition set_enrollment (url name dir : string) (c : ClientConfig) : ClientConfig :=
  mkClientConfig url (cTunnelEndpoint c) name dir (cLocalAddress c) (cAllowRemoteUI c)
    (cKeepalive c) (cTunnelEnabled c) (cTunnelName c) (cTunnelMTU c).

(** The configuration of a client whose file does not exist. *)
Definition unconfigured : ClientConfig :=
  set_enrollment "https://setup.invalid" "unconfigured" (cStateDir DefaultClient) DefaultClient.

(** The options for the local interface. *)
Definition client_override (localWeb lanWeb : bool) (c : ClientConfig) : ClientConfig :=
  if localWeb then set_local "127.0.0.1:9070" false c
  else if lanWeb then set_local "0.0.0.0:9070" true c
  else c.

Section client.
Context (parse_url : string → option (string * string))
  (yaml_encode : ClientConfig → result (list byte))
  (yaml_decode : list byte → ClientConfig → ClientConfig * option string).
Abbreviation ValidateClient := (ValidateClient parse_url).

(** The configuration of the file, or that of a client to be set up. *)
Definition load_or_setup (path : string) (fs : gmap string file) : result ClientConfig :=
  match fs !! path with
  | None => Ok unconfigured
  | Some _ =>
    match LoadClient parse_url yaml_decode path fs with
    | (_, Some e) => Err e
    | (c, None) => Ok c
    end
  end.

Definition client_flags (args : list string) (fs : gmap string file) : failure + (ClientConfig * string) :=
  try_parse client_options args (λ f _,
    if get_bool "local-web" f && get_bool "lan-web" f
    then inl (Failure "--local-web and --lan-web cannot be used together")
    else
      let path := get_string "config" f in
      match load_or_setup path fs with
      | Err e => inl (Failure e)
      | Ok c =>
        let c := client_override (get_bool "local-web" f) (get_bool "lan-web" f) c in
        match ValidateClient c with
        | Some e => inl (Failure e)
        | None => inr (c, path)
        end
      end).

(** ** Serving *)

(** What describes the process: see [ServerMain]. *)
Record ClientEnv := mkClientEnv {
  ce_goos : platform; ce_executable : string; ce_directory : string; ce_abs : string → string;
  ce_token : string; ce_now : Z
}.

Definition local_is_loopback (c : ClientConfig) : bool :=
  let host := default "" (fst <$> SplitHostPort (cLocalAddress c)) in
  negb (bool_decide (ParseIP host = [])) && IsLoopback (ParseIP host).
Definition client_arguments (configPath : string) (c : ClientConfig) : list string :=
  ["run"; "--config"; configPath] ++ (if local_is_loopback c then ["--local-web"] else []).
Definition local_url (c : ClientConfig) : string :=
  match SplitHostPort (cLocalAddress c) with
  | Some (_, port) => "http://127.0.0.1:" +:+ port
  | None => "http://127.0.0.1:9070"
  end.
Definition client_companion (env : ClientEnv) : string :=
  let path := path_join [b2s (Dir (ce_executable env)); "tyxnet-tray"] in
  if bool_decide (ce_goos env = Windows) then path +:+ ".exe"
  else if bool_decide (ce_goos env = Darwin) then path else "".
Definition client_spec (env : ClientEnv) (path : string) (c : ClientConfig) : StartupSpec :=
  mkSpec "tyxnet-client" "TyxNet Client" (ce_executable env) (ce_directory env)
    (client_arguments (ce_abs env path) c) (client_companion env) ["--client-url"; local_url c]
    (ce_token env).

(** The client before its goroutines start: the agent, the address of the local
    interface, the path of its configuration and its start-up entry. *)
Record Serving (R F : Type) := mkServing {
  svAgent : Agent R F; svAddress : string; svConfig : string; svSpec : StartupSpec
}.
Global Arguments mkServing {R F}.
Global Arguments svAgent {R F}.
Global Arguments svAddress {R F}.
Global Arguments svConfig {R F}.
Global Arguments svSpec {R F}.

Definition serve {R F} (env : ClientEnv) (args : list string) (fs : gmap string file) (r : R) (f : F)
    : failure + Serving R F :=
  match client_flags args fs with
  | inl e => inl e
  | inr (c, path) =>
    inr (mkServing (ConfigureApplication (ce_token env) true (New c (ce_now env) fs r f))
           (cLocalAddress c) (ce_abs env path) (client_spec env path c))
  end.

(** ** Enrollment and installation *)

Definition join_options : FlagSet :=
  {[ "server" := VString ""; "token" := VString ""; "name" := VString "";
     "state-dir" := VString "./client-state" ]}%string.

Section enroll.
Context `{Primitives} {R F : Type} `{AgentJSON} `{Remote R}.

(** The agent after [Join], and its error. *)
Definition joined (e : Sys) (c : ClientConfig) (token : string) (now : Z) (fs : gmap string file) (r : R) (f : F)
    : option failure * Agent R F :=
  match ClientAgent.Join e token (New c now fs r f) with
  | (inl err, a) => (Some (Failure (error_text err)), a)
  | (inr _, a) => (None, a)
  end.

Definition join (e : Sys) (args : list string) (now : Z) (fs : gmap string file) (r : R) (f : F)
    : option failure * option (Agent R F) :=
  match Parse join_options args with
  | inl err => (Some (FlagFailure err), None)
  | inr (o, _) =>
    let c := set_enrollment (get_string "server" o) (get_string "name" o) (get_string "state-dir" o)
               DefaultClient in
    match ValidateClient c with
    | Some err => (Some (Failure err), None)
    | None => let '(err, a) := joined e c (get_string "token" o) now fs r f in (err, Some a)
    end
  end.

Definition client_install_options : FlagSet :=
  {[ "server" := VString ""; "token" := VString ""; "name" := VString "" ]}%string.

(** The configuration that is installed, and whether it is enrolled at once. *)
Definition installConfiguration (server token name : string) : result (ClientConfig * bool) :=
  let c := set_enrollment server name "/var/lib/tyxnet/client" DefaultClient in
  let configured := negb (server =s "") || negb (token =s "") || negb (name =s "") in
  if configured && ((server =s "") || (token =s "") || (name =s ""))
  then Err "--server, --token, and --name must be supplied together"
  else match ValidateClient c with Some e => Err e | None => Ok (c, configured) end.

Definition client_config_path : string := "/etc/tyxnet/client.yaml".
Definition client_service (b : list byte) : Spec :=
  mkServiceSpec "tyxnet-client" "tyxnet-client" client_config_path b.

(** The enrollment acts on the files of the machine. *)
Definition client_install (os : OS) (goos : platform) (argv0 : string) (e : Sys) (args : list string)
    (now : Z) (r : R) (f : F) (m : Machine) : option failure * R * Machine :=
  match Parse client_install_options args with
  | inl err => (Some (FlagFailure err), r, m)
  | inr (o, _) =>
    match installConfiguration (get_string "server" o) (get_string "token" o) (get_string "name" o) with
    | Err err => (Some (Failure err), r, m)
    | Ok (c, configured) =>
      let '(err, r, m) :=
        if configured then
          let '(err, a) := joined e c (get_string "token" o) now (mFiles m) r f in
          (err, remote a, mkMachine (disk a) (mCalls m))
        else (None, r, m) in
      match err with
      | Some err => (Some err, r, m)
      | None =>
        let b := match yaml_encode c with Ok b => b | Err _ => [] end in
        let '(err, m) := Install os goos argv0 (client_service b) m in
        (Failure <$> err, r, m)
      end
    end
  end.
End enroll.

Definition client_uninstall (os : OS) (goos : platform) : Sh (option string) :=
  Uninstall os goos "tyxnet-client" "tyxnet-client" client_config_path.
Definition client_service_action (os : OS) (goos : platform) (name : string) : Sh (option string) :=
  ServiceAction os goos "tyxnet-client" name.

(** ** Properties *)

Lemma set_local_valid address remote c :
  ValidateClient c = None →
  (∃ host port, SplitHostPort address = Some (host, port) ∧ ParseIP host ≠ [] ∧
     (host = "127.0.0.1" ∨ remote = true)) →
  ValidateClient (set_local address remote c) = None.
Proof.
  intros Hv (host & port & Hs & Hip & Hr). unfold Config.ValidateClient in *.
  cbn [set_local cServerURL cName cLocalAddress cAllowRemoteUI cKeepalive cTunnelEnabled
       cTunnelEndpoint cTunnelName cTunnelMTU] in *. rewrite Hs.
  destruct (negb (Bool.eqb _ _)); [done|]. destruct (bad_server_url _ _); [done|].
  destruct (SplitHostPort (cLocalAddress c)) as [[h p]|]; [|done].
  rewrite !Some_if_None in Hv |- *. destruct Hv as (_ & _ & Hk & Ht).
  rewrite bool_decide_eq_false_2 by done. split_and!; try done.
  destruct Hr as [->| ->]; [done|]. by rewrite andb_false_r.
Qed.

Lemma load_or_setup_facts path fs c0 : load_or_setup path fs = Ok c0 →
  ValidateClient c0 = None ∨ c0 = unconfigured.
Proof.
  unfold load_or_setup. destruct (fs !! path); [|intros [= <-]; by right].
  unfold Config.LoadClient. destruct (Config.load _ _ _ _) as [c []]; [done|].
  destruct (ValidateClient c) eqn:E; [done|]. intros [= <-]. by left.
Qed.

(** The options fix the configuration that runs. *)
Lemma client_flags_spec args fs c path : client_flags args fs = inr (c, path) →
  ∃ c0 l w, load_or_setup path fs = Ok c0 ∧ c = client_override l w c0 ∧ l && w = false ∧
    ValidateClient c = None ∧ ValidateClient c0 = None.
Proof.
  unfold client_flags, try_parse. destruct (Parse _ _) as [|[o rest]]; [done|].
  set (l := get_bool "local-web" o). set (w := get_bool "lan-web" o).
  destruct (l && w) eqn:Elw; [done|]. destruct (load_or_setup _ _) as [c0|] eqn:El; [|done].
  destruct (ValidateClient (client_override l w c0)) eqn:Ev; [done|]. intros [= <- <-].
  exists c0, l, w. split_and!; try done.
  destruct (load_or_setup_facts _ _ _ El) as [Hv| ->]; [done|].
  assert (unconfigured = set_local "0.0.0.0:9070" true (client_override l w unconfigured)) as ->
    by by destruct l, w.
  apply set_local_valid; [done|]. exists "0.0.0.0", "9070". split_and!; [by vm_compute|by vm_compute|by right].
Qed.

(** The arguments of the start-up entry name the same file and no other option
    than [--local-web]. *)
Lemma client_arguments_parse p c :
  ∃ args, client_dispatch (client_arguments p c) = CServe args ∧ ∀ fs,
    client_flags args fs =
    match load_or_setup p fs with
    | Err e => inl (Failure e)
    | Ok c0 =>
      let c' := client_override (local_is_loopback c) false c0 in
      match ValidateClient c' with Some e => inl (Failure e) | None => inr (c', p) end
    end.
Proof.
  eexists. split; [done|]. intros fs. unfold client_flags, try_parse.
  change "--config" with (dashed "config"). cbn [app].
  rewrite (Parse_value _ "config" (VString "configs/client.yaml") _ (VString p)) by done.
  by destruct (local_is_loopback c).
Qed.

Lemma loopback_override l w c0 : l && w = false →
  local_is_loopback (client_override l w c0) =
  if l then true else if w then false else local_is_loopback c0.
Proof. intros Hlw. destruct l, w; try done; by vm_compute. Qed.

(** The file of [path] after the start of [c]'s start-up entry. *)
Lemma restart_flags (abs : string → string) args fs c path fs' :
  client_flags args fs = inr (c, path) → fs' !! abs path = fs !! path →
  ∃ c0 l w args', load_or_setup path fs = Ok c0 ∧ c = client_override l w c0 ∧ l && w = false ∧
    client_dispatch (client_arguments (abs path) c) = CServe args' ∧
    client_flags args' fs' = inr (client_override (local_is_loopback c) false c0, abs path).
Proof.
  intros (c0 & l & w & Hl & Hc & Hlw & Hv & Hv0)%client_flags_spec Hf.
  destruct (client_arguments_parse (abs path) c) as (args' & Hd & Hp).
  exists c0, l, w, args'. split_and!; try done. rewrite Hp.
  assert (load_or_setup (abs path) fs' = Ok c0) as ->.
  { revert Hl. unfold load_or_setup, Config.LoadClient, Config.load. by rewrite Hf. }
  cbv zeta. destruct (local_is_loopback c); cbn [client_override]; [|by rewrite Hv0].
  rewrite (set_local_valid "127.0.0.1:9070" false c0); [done..|].
  exists "127.0.0.1", "9070". split_and!; [by vm_compute|by vm_compute|by left].
Qed.

Definition same_enrollment (c c' : ClientConfig) : Prop :=
  set_local "" false c' = set_local "" false c.

(** C35: The client's start-up entry starts the same client again.  For a client
    that [serve] started with some options and configuration file, the entry's
    arguments are a [run] command that, with that file at its absolute path,
    starts a client with the same server, name, state directory, keepalive and
    tunnel, whose entry names the same file.  Its local interface is local again
    if it was; and if it was not, it is the same one unless [--lan-web] had set
    it, which the entry does not keep: then the file's is used.  A local
    interface is restarted on [127.0.0.1:9070], whatever port the file has. *)
Theorem client_restart {R F R' F'} env env' args fs fs' (r : R) (f : F) (r' : R') (f' : F') x c path :
  serve env args fs r f = inr x → client_flags args fs = inr (c, path) →
  fs' !! svConfig x = fs !! path → ce_abs env' (svConfig x) = svConfig x →
  ∃ args' x', client_dispatch (Arguments (svSpec x)) = CServe args' ∧
    serve env' args' fs' r' f' = inr x' ∧ svConfig x' = svConfig x ∧
    config (svAgent x) = c ∧ same_enrollment c (config (svAgent x')) ∧
    (local_is_loopback c = true → svAddress x' = "127.0.0.1:9070" ∧
       Arguments (svSpec x') = Arguments (svSpec x)) ∧
    (local_is_loopback c = false →
       config (svAgent x') = c ∨
       svAddress x = "0.0.0.0:9070" ∧ load_or_setup path fs = Ok (config (svAgent x'))).
Proof.
  intros Hx Hc Hf Ha. unfold serve in Hx. rewrite Hc in Hx. injection Hx as <-. cbn [svConfig] in *.
  destruct (restart_flags (ce_abs env) args fs c path fs' Hc Hf)
    as (c0 & l & w & args' & Hl & -> & Hlw & Hd & Hp).
  eexists args', _. split; [exact Hd|]. split; [unfold serve; by rewrite Hp|].
  cbn [svConfig svAgent svAddress svSpec]. split; [done|]. split; [done|].
  cbn [config ConfigureApplication set_application New client_spec Arguments].
  rewrite Ha. rewrite loopback_override by done. split; [by destruct l, w, (local_is_loopback c0)|].
  split; destruct l, w, (local_is_loopback c0) eqn:E; try done; intros _; cbn; eauto.
  split; [done|]. unfold client_arguments. by rewrite E.
Qed.
End client.

(** ** An example *)

Definition sample_local : ClientConfig :=
  set_local "127.0.0.1:8088" false (set_enrollment "https://vpn.example" "laptop" "/var/lib/tyxnet" DefaultClient).
Definition sample_env : ClientEnv :=
  mkClientEnv Windows "/opt/tyxnet/tyxnet-client" "/opt/tyxnet" (λ p, "/etc/" +:+ p) "token" 0.
Definition sample_env' : ClientEnv :=
  mkClientEnv Windows "/opt/tyxnet/tyxnet-client" "/" (λ p, p) "other" 60.
Definition sample_parse (url : string) : option (string * string) := Some ("https", "vpn.example")%string.
Definition sample_decode (b : list byte) (c : ClientConfig) : ClientConfig * option string :=
  (sample_local, None).
Definition sample_args : list string := ["--config"; "client.yaml"]%string.
Definition sample_files (path : string) : gmap string file := {[ path := mkFile 384 [] ]}.

(** Started with a file that has the port 8088, the client's interface is on
    8088 and so is its tray application; the start-up entry starts it on 9070,
    and its tray application still with 8088. *)
Lemma client_restart_witness :
  ∃ x x' args', serve sample_parse sample_decode sample_env sample_args (sample_files "client.yaml") () () = inr x ∧
    svAddress x = "127.0.0.1:8088" ∧
    CompanionArgs (svSpec x) = ["--client-url"; "http://127.0.0.1:8088"]%string ∧
    client_dispatch (Arguments (svSpec x)) = CServe args' ∧
    serve sample_parse sample_decode sample_env' args' (sample_files "/etc/client.yaml") () () = inr x' ∧
    svAddress x' = "127.0.0.1:9070".
Proof.
  assert (client_flags sample_parse sample_decode sample_args (sample_files "client.yaml") =
    inr (sample_local, "client.yaml")) as Hc by by vm_compute.
  eassert (serve sample_parse sample_decode sample_env sample_args (sample_files "client.yaml") () () = inr _) as Hx
    by (unfold serve; rewrite Hc; reflexivity).
  edestruct (client_restart sample_parse sample_decode sample_env sample_env' sample_args (sample_files "client.yaml")
    (sample_files "/etc/client.yaml") () () () () _ _ _ Hx Hc) as (args' & x' & Hd & Hs & _ & _ & _ & Hl & _);
    [by vm_compute|reflexivity|].
  destruct Hl as [Hl _]; [by vm_compute|].
  eexists _, x', args'. split; [exact Hx|]. split; [reflexivity|]. split; [by vm_compute|].
  split; [exact Hd|]. split; [exact Hs|exact Hl].
Defined.
