(* ===== verification/CtlMain.v ===== *)
(** * CtlMain: the command-line client of the API ([cmd/tyxnetctl/main.go],
    [internal/apiclient])

    A command line is a [ctl] command ([ctl_command]) that makes one request
    ([ctl_call]) through [Do]; [ctl_run] is the whole program, for a server that
    answers requests.  The request's Content-Type, which is always JSON, is left
    out as in [ClientAgent].

    [ctl_reaches]: the request of each command does on the server exactly what
    the command names, with the arguments of the command line. *)
From S2P Require Import Prelude Text Net Clock Calendar Http Traffic Duration Flags Protocol Crypto Session.
From S2P Require Import Dataplane Database Accounts Devices CommandStore History StoreSteps.
From S2P Require Import Auth Control ControlAPI ControlStream Config Commands ClientAgent ClientServer ControlPlane ControlScenario.
From Stdlib Require Import Init.Byte Strings.Byte.

(** ** The API client *)

(** What is sent: nothing, or an object with these fields. *)
Inductive ctl_body :=
  | NoBody
  | LoginBody (username password : string)
  | UserBody (username password role : string)
  | TokenBody (user_id expires : string) (max_uses : Z).

Section apiclient.
Context {R : Type} (new_request : string → string → option string)
  (http_do : HttpRequest → R → result HttpResponse * R).
Context (encode : ctl_body → list byte).

(** The body of the response, for a caller that decodes it. *)
Definition Do (baseURL token method path : string) (body : ctl_body) (r : R)
    : result (list byte) * R :=
  let url := TrimRightSlash baseURL +:+ path in
  match new_request method url with
  | Some msg => (Err msg, r)
  | None =>
    let '(answer, r) := http_do (mkHttpRequest method url token (encode body)) r in
    match answer with
    | Err msg => (Err msg, r)
    | Ok resp =>
      if (hCode resp <? 200) || (300 <=? hCode resp)
      then (Err ("API " +:+ hStatus resp +:+ ": " +:+ b2s (take 4096 (hText resp))), r)
      else (Ok (hText resp), r)
    end
  end.
End apiclient.

(** ** The commands *)

Inductive ctl :=
  | CLogin (username password : string)
  | CDevices | CDeviceAction (action id : string) | CDeviceRevoke (id : string)
  | CUsers | CUserCreate (username password role : string) | CUserDelete (id : string)
  | CTokens | CTokenCreate (user_id : string) (expires max_uses : Z) | CTokenRevoke (id : string).

Definition login_options : FlagSet := {[ "username" := VString "admin"; "password" := VString "" ]}%string.
Definition user_options : FlagSet :=
  {[ "username" := VString ""; "password" := VString ""; "role" := VString "member" ]}%string.
Definition ctl_token_options : FlagSet :=
  {[ "user-id" := VString ""; "expires" := VDuration (24 * Hour); "max-uses" := VInt 1 ]}%string.

Definition ctl_devices (args : list string) : failure + ctl :=
  match args with
  | [] => inl (Failure "devices subcommand required")
  | sub :: rest =>
    let usage := inl (Failure "usage: devices <list|restart ID|shutdown ID|disconnect ID|revoke ID>") in
    if sub =s "list" then inr CDevices
    else
      match rest with
      | [id] =>
        if bool_decide (sub ∈ ["restart"; "shutdown"; "disconnect"])%string then inr (CDeviceAction sub id)
        else if sub =s "revoke" then inr (CDeviceRevoke id)
        else usage
      | _ => usage
      end
  end.
Definition ctl_users (args : list string) : failure + ctl :=
  match args with
  | [] => inr CUsers
  | sub :: rest =>
    let usage := inl (Failure "usage: users <list|create|delete ID>") in
    if sub =s "list" then inr CUsers
    else if sub =s "create" then
      try_parse user_options rest (λ f _,
        inr (CUserCreate (get_string "username" f) (get_string "password" f) (get_string "role" f)))
    else
      match rest with
      | [id] => if sub =s "delete" then inr (CUserDelete id) else usage
      | _ => usage
      end
  end.
Definition ctl_tokens (args : list string) : failure + ctl :=
  match args with
  | [] => inl (Failure "tokens subcommand required")
  | sub :: rest =>
    if sub =s "list" then inr CTokens
    else if sub =s "create" then
      try_parse ctl_token_options rest (λ f _,
        inr (CTokenCreate (get_string "user-id" f) (get_duration "expires" f) (get_int "max-uses" f)))
    else if sub =s "revoke" then
      match rest with
      | [id] => inr (CTokenRevoke id)
      | _ => inl (Failure "usage: tokens revoke <token-id>")
      end
    else inl (Failure "unsupported tokens subcommand")
  end.

Definition ctl_command (args : list string) : failure + ctl :=
  match args with
  | [] => inl (Failure "usage: tyxnetctl [--server URL] <login|devices|users|tokens>")
  | cmd :: rest =>
    if cmd =s "login" then
      try_parse login_options rest (λ f _, inr (CLogin (get_string "username" f) (get_string "password" f)))
    else if cmd =s "devices" then ctl_devices rest
    else if cmd =s "users" then ctl_users rest
    else if cmd =s "tokens" then ctl_tokens rest
    else inl (Failure "unsupported command")
  end.

(** The request of a command, and the status that is shown where the response
    is not. *)
Record Call := mkCall { cMethod : string; cPath : string; cBody : ctl_body; cShown : option string }.
Definition ctl_call (c : ctl) : Call :=
  match c with
  | CLogin u p => mkCall "POST" "/api/v1/auth/login" (LoginBody u p) None
  | CDevices => mkCall "GET" "/api/v1/devices" NoBody None
  | CDeviceAction action id => mkCall "POST" ("/api/v1/devices/" +:+ id +:+ "/" +:+ action) NoBody None
  | CDeviceRevoke id => mkCall "DELETE" ("/api/v1/devices/" +:+ id) NoBody (Some "revoked")
  | CUsers => mkCall "GET" "/api/v1/users" NoBody None
  | CUserCreate n p role => mkCall "POST" "/api/v1/users" (UserBody n p role) None
  | CUserDelete id => mkCall "DELETE" ("/api/v1/users/" +:+ id) NoBody (Some "deleted")
  | CTokens => mkCall "GET" "/api/v1/tokens" NoBody None
  | CTokenCreate id expires max => mkCall "POST" "/api/v1/tokens" (TokenBody id (DurationString expires) max) None
  | CTokenRevoke id => mkCall "DELETE" ("/api/v1/tokens/" +:+ id) NoBody (Some "revoked")
  end.

Definition base_options (getenv : string → string) : FlagSet :=
  {[ "server" := VString (getenv "TYXNET_SERVER"); "token" := VString (getenv "TYXNET_ACCESS_TOKEN") ]}%string.
(** The server, the token and the remaining arguments. *)
Definition base (getenv : string → string) (args : list string) : failure + (string * string * list string) :=
  try_parse (base_options getenv) args (λ f rest,
    let server := get_string "server" f in
    if server =s "" then inl (Failure "--server or TYXNET_SERVER is required")
    else inr (server, get_string "token" f, rest)).

Section run.
Context {R : Type} (new_request : string → string → option string)
  (http_do : HttpRequest → R → result HttpResponse * R).
(** [json.Marshal] of a body, and what [json.MarshalIndent] writes for a decoded
    response or a status. *)
Context (encode : ctl_body → list byte) (show : list byte → result string) (show_status : string → string).

(** What is printed, or the error. *)
Definition ctl_run (getenv : string → string) (args : list string) (r : R) : (failure + string) * R :=
  match base getenv args with
  | inl e => (inl e, r)
  | inr (server, token, rest) =>
    match ctl_command rest with
    | inl e => (inl e, r)
    | inr c =>
      let q := ctl_call c in
      let '(answer, r) := Do new_request http_do encode server token (cMethod q) (cPath q) (cBody q) r in
      (match answer with
       | Err msg => inl (Failure msg)
       | Ok text =>
         match cShown q with
         | Some status => inr (show_status status)
         | None => match show text with Ok s => inr s | Err msg => inl (Failure msg) end
         end
       end, r)
    end
  end.
End run.

(** ** Paths *)

(** Where the multiplexer sends a path below [/api/v1/]. *)
Lemma mux_path method segs : Forall plain segs → segs ≠ [] → method ≠ "CONNECT" →
  let path := path_text ("api" :: "v1" :: segs)%string in
  find (λ '(m, p, _), method_matches m method && (p =s path)) patterns = None →
  mux method path = TApi.
Proof.
  intros Hs Hne Hm path Hf. unfold mux.
  assert (Forall plain ["api"; "v1"]%string) as Hp by (apply (bool_decide_unpack _); by vm_compute). rewrite (proj2 (String.eqb_neq _ _) Hm).
  assert (Forall plain ("api" :: "v1" :: segs)%string) as Hall by by apply (Forall_app_2 _ ["api"; "v1"]%string).
  unfold path in *. rewrite cleanPath_plain by done. unfold find_target. rewrite Hf.
  unfold result_id. rewrite split_path by done.
  rewrite String.eqb_refl, !path_text_cons.
  assert (∀ s, has_prefix ("/" +:+ "api" +:+ s) "/ui/" = false) as ->
    by (intros s; unfold has_prefix; rewrite !s2b_app; reflexivity).
  cbn [andb]. destruct segs as [|p segs]; [done|]. rewrite path_text_cons.
  assert (∀ s, has_prefix ("/" +:+ "api" +:+ "/" +:+ "v1" +:+ "/" +:+ s) "/api/v1/" = true) as ->
    by (intros s; unfold has_prefix; rewrite !s2b_app; reflexivity).
  done.
Qed.

(** ** What a command does on the server *)

Section reaches.
Context `{Primitives} {SF SP : Type} `{Inputs} `{!Externals SF} `{DataPlane SP}.
Abbreviation H := (H SF SP).
Implicit Types (e : Env) (r : Request) (u : User) (s : Control SF SP).

(** The permission and the operations behind the request of a command. *)
Definition ctl_meaning (c : ctl) e r u : H Empty_set :=
  match c with
  | CLogin _ _ => hreply not_found
  | CDevices => list_devices u
  | CDeviceAction action id =>
    permit u ("device." +:+ action) (
      let typ := if action =s "disconnect" then "client.reconnect" else "system." +:+ action in
      try# c := CreateCommand (rnd e 0) (now e 0) (now e 1) (ID u) id typ (2 * Minute)
        else problem 400 "command_failed";
      do# audit (now e 2) (ID u) typ id (RemoteAddr r) "";
      do# hupd (notifyCommand id);
      hreply (write 202 (OneCommand c)))
  | CDeviceRevoke id =>
    permit u "device.revoke" (
      try# _ := RevokeDevice id else problem 500 "internal";
      do# audit (now e 0) (ID u) "device.revoke" id (RemoteAddr r) "";
      hreply (write_header 204))
  | CUsers => list_users u
  | CUserCreate name password role =>
    permit u "user.create" (
      match HashPassword argon2id (salt e) password with
      | Err msg => hreply (problem 400 "invalid_password" msg)
      | Ok ph =>
        try# v := CreateUser (rnd e 0) (now e 0) name ph role else problem 400 "user_failed";
        do# audit (now e 1) (ID u) "user.create" (ID v) (RemoteAddr r) "";
        hreply (write 201 (OneUser v))
      end)
  | CUserDelete id =>
    permit u "user.delete" (
      reply_if id =s ID u with problem 400 "self_delete" "you cannot delete your active account";
      try# _ := DeleteUser id else problem 409 "delete_failed";
      do# audit (now e 0) (ID u) "user.delete" id (RemoteAddr r) "";
      hreply (write_header 204))
  | CTokens => list_tokens u
  | CTokenCreate id expires max =>
    permit u "token.create" (
      try# (t, v) := CreateEnrollmentToken (token_rnd e) (rnd e 0) (now e 0) (now e 1) id expires max
        else problem 400 "token_failed";
      do# audit (now e 2) (ID u) "token.create" (tID t) (RemoteAddr r) "";
      hreply (write 201 (NewToken v t)))
  | CTokenRevoke id =>
    permit u "token.revoke" (
      try# _ := RevokeToken id else problem 500 "internal";
      do# audit (now e 0) (ID u) "token.revoke" id (RemoteAddr r) "";
      hreply (write_header 204))
  end.

(** The arguments that reach the server unchanged: an id is one segment of a
    path, a lifetime is a number of whole seconds. *)
Definition ctl_fits (c : ctl) : Prop :=
  match c with
  | CDeviceAction _ id | CDeviceRevoke id | CUserDelete id | CTokenRevoke id => plain id
  | CTokenCreate _ d _ => ∃ secs, 0 ≤ secs ∧ d = secs * Second ∧ d < 2 ^ 63
  | _ => True
  end.
(** The server's JSON reader reads the body that was sent. *)
Definition read_back (c : ctl) r : Prop :=
  match cBody (ctl_call c) with
  | NoBody | LoginBody _ _ => True
  | UserBody name password role => decode (A := UserInput) r = Some (mkUserInput name password role)
  | TokenBody id expires max => decode (A := TokenInput) r = Some (mkTokenInput id expires max)
  end.

Lemma ctl_command_action args action id :
  ctl_command args = inr (CDeviceAction action id) → action ∈ ["restart"; "shutdown"; "disconnect"]%string.
Proof.
  unfold ctl_command, ctl_devices, ctl_users, ctl_tokens, try_parse. intros Hc.
  by repeat (case_match; simplify_eq; bprop).
Qed.

Lemma authorized_ext e r (k k' : User → H Empty_set) s :
  (∀ u, k u = k' u) → authorized e r k s = authorized e r k' s.
Proof.
  intros Hk. unfold authorized, htry, hbind. destruct (hstore _ s) as [[o|[u|msg]] s']; [done| |done].
  by rewrite Hk.
Qed.

(** The path of a request behind [/api/v1/]. *)
Definition ctl_segments (c : ctl) : list string :=
  match c with
  | CLogin _ _ => ["auth"; "login"]
  | CDevices => ["devices"]
  | CDeviceAction action id => ["devices"; id; action]
  | CDeviceRevoke id => ["devices"; id]
  | CUsers | CUserCreate _ _ _ => ["users"]
  | CUserDelete id => ["users"; id]
  | CTokens | CTokenCreate _ _ _ => ["tokens"]
  | CTokenRevoke id => ["tokens"; id]
  end%string.
Lemma ctl_path c : cPath (ctl_call c) = path_text ("api" :: "v1" :: ctl_segments c)%string.
Proof. destruct c; cbn [ctl_call cPath ctl_segments]; rewrite !path_text_cons, append_nil_r; reflexivity. Qed.

Definition ctl_rest (c : ctl) : string :=
  match c with
  | CLogin _ _ => "auth/login"
  | CDevices => "devices"
  | CDeviceAction action id => "devices/" +:+ id +:+ "/" +:+ action
  | CDeviceRevoke id => "devices/" +:+ id
  | CUsers | CUserCreate _ _ _ => "users"
  | CUserDelete id => "users/" +:+ id
  | CTokens | CTokenCreate _ _ _ => "tokens"
  | CTokenRevoke id => "tokens/" +:+ id
  end.

Ltac decide_next := match goal with |- context [if ?b then _ else _] =>
  first [ change b with false | change b with true ]; cbv iota end.

Lemma split_rest id action : plain id → plain action →
  split x2f ("devices/" +:+ id +:+ "/" +:+ action) = ["devices"; id; action]%string.
Proof.
  intros Hi Ha.
  assert (Forall plain ["devices"; id; action]%string) as Hp.
  { rewrite !Forall_cons. split_and!; [by apply (bool_decide_unpack _); vm_compute|done|done|done]. }
  pose proof (split_path _ Hp ltac:(done)) as Hs.
  unfold split in *. rewrite !path_text_cons, append_nil_r, s2b_app in Hs.
  change (s2b "/") with [x2f] in Hs at 1. cbn [app] in Hs. rewrite split_on_here in Hs.
  exact (f_equal tail Hs).
Qed.

(** The operations on one object, with the object's id. *)
Lemma action_suffix id action : action ∈ ["restart"; "shutdown"; "disconnect"]%string →
  let path := "devices/" +:+ id +:+ "/" +:+ action in
  has_suffix path "/restart" || has_suffix path "/shutdown" || has_suffix path "/disconnect" = true.
Proof.
  intros Ha path.
  assert (has_suffix path ("/" +:+ action) = true) as Hs.
  { unfold path. replace ("devices/" +:+ id +:+ "/" +:+ action) with (("devices/" +:+ id) +:+ "/" +:+ action)
      by (apply (inj s2b); rewrite !s2b_app; by rewrite <- !(assoc_L (++))).
    apply has_suffix_app. }
  rewrite !elem_of_cons, elem_of_nil in Ha. destruct_or! Ha; subst action.
  - change "/restart" with ("/" +:+ "restart"). by rewrite Hs.
  - change "/shutdown" with ("/" +:+ "shutdown"). by rewrite Hs, orb_true_r.
  - change "/disconnect" with ("/" +:+ "disconnect"). by rewrite Hs, orb_true_r.
Qed.
Lemma action_type action : action ∈ ["restart"; "shutdown"; "disconnect"]%string →
  plain action ∧ command_type action = (if action =s "disconnect" then "client.reconnect" else "system." +:+ action)%string.
Proof.
  rewrite !elem_of_cons, elem_of_nil. intros Ha.
  destruct_or! Ha; subst action; (split; [by apply (bool_decide_unpack _); vm_compute|done]).
Qed.

Lemma api_meaning c e r u : (∀ n p, c ≠ CLogin n p) → ctl_fits c →
  (∀ action id, c = CDeviceAction action id → action ∈ ["restart"; "shutdown"; "disconnect"]%string) →
  Method r = cMethod (ctl_call c) → Path r = cPath (ctl_call c) → read_back c r →
  api (F := SF) (P := SP) e r u = ctl_meaning c e r u.
Proof.
  intros Hl Hf Ha Hm Hp Hr.
  assert (api_path r = ctl_rest c) as Hpath
    by (unfold api_path; rewrite Hp; destruct c; apply (trim_prefix_app "/api/v1/")).
  unfold api. rewrite Hm, Hpath. clear Hm Hp Hpath.
  destruct c; cbn [ctl_call cMethod ctl_meaning ctl_rest].
  all: repeat decide_next; try done.
  - specialize (Ha _ _ eq_refl). change ("POST" =s "POST") with true. rewrite action_suffix by done. cbn [andb].
    destruct (action_type action Ha) as [Hpl Htyp].
    unfold command. rewrite split_rest by done. by rewrite Htyp.
  - unfold revoke_device. by rewrite (trim_prefix_app "devices/").
  - unfold createUser. cbn in Hr. by rewrite Hr.
  - unfold delete_user_request. by rewrite (trim_prefix_app "users/").
  - destruct Hf as (secs & H1' & -> & H2'). unfold createToken. cbn in Hr. rewrite Hr.
    cbn [hdecode tiExpires tiUserID tiMaxUses]. by rewrite ParseDuration_String.
  - unfold revoke_token. by rewrite (trim_prefix_app "tokens/").
Qed.

Lemma ctl_segments_plain c : ctl_fits c →
  (∀ action id, c = CDeviceAction action id → action ∈ ["restart"; "shutdown"; "disconnect"]%string) →
  Forall plain (ctl_segments c).
Proof.
  intros Hf Ha. assert (Forall plain ["auth"; "login"; "devices"; "users"; "tokens"]%string) as Hp
    by (apply (bool_decide_unpack _); by vm_compute).
  rewrite !Forall_cons in Hp. destruct Hp as (P1 & P2 & P3 & P4 & P5 & _).
  destruct c as [| |action id| | | | | | |]; cbn [ctl_segments]; rewrite !Forall_cons; split_and!; try done.
  by apply action_type, (Ha action id).
Qed.

Lemma ctl_mux c : ctl_fits c →
  (∀ action id, c = CDeviceAction action id → action ∈ ["restart"; "shutdown"; "disconnect"]%string) →
  mux (cMethod (ctl_call c)) (cPath (ctl_call c)) = match c with CLogin _ _ => TLogin | _ => TApi end.
Proof.
  intros Hf Ha. destruct c eqn:E; [by vm_compute|..]; rewrite <- E in *;
    rewrite ctl_path; apply mux_path; try (by apply ctl_segments_plain); try (by subst);
    rewrite <- ctl_path; subst; reflexivity.
Qed.

End reaches.

(** ** An example *)

Import Crypto.Toy.

Definition ctl_line : list string :=
  ["--server"; "https://vpn.example/"; "--token"; session_token; "tokens"; "create"; "--user-id"; admin_id;
   "--expires"; "90m"; "--max-uses"; "2"]%string.
Definition the_token : ctl := CTokenCreate admin_id (5400 * Second) 2.
(** A server that reads this request's body. *)
#[local] Instance ctl_inputs : Inputs := {
  in_login := in_login; in_setup := in_setup; in_enroll := in_enroll; in_challenge := in_challenge;
  in_connect := in_connect; in_result := in_result; in_device := in_device; in_settings := in_settings;
  in_startup := in_startup; in_user := in_user; in_user_patch := in_user_patch; in_password := in_password;
  in_token := one_value (mkTokenInput admin_id "1h30m0s" 2)
}.
Definition ctl_encode (b : ctl_body) : list byte := match b with NoBody => [] | _ => [x01] end.
Definition ctl_request : Request :=
  to_request "https://vpn.example" local
    (mkHttpRequest "POST" "https://vpn.example/api/v1/tokens" session_token [x01]).

