(* ===== verification/Icons.v ===== *)
(** * Icons: the pictures ([cmd/tyxnet-tray/icon_*.go], [packaging/macos/icon])

    The pixel array of [image.RGBA], the picture that the trays draw, the ICO
    file of Windows ([icon_windows.go]) and the picture that the generator of
    the macOS package draws, whose background is a gradient in floating-point
    numbers (a product is rounded before it is added to, as on amd64; Go may
    fuse the two elsewhere).  The PNG encoder is left out.

    [draws_at] reads a pixel of what two nested loops draw; with it,
    [tray_picture] and [mac_picture] give every pixel of the two pictures, and
    that no computed channel wraps around.  [ico_file] reads the ICO file back
    by the fields of its own headers: they cover the file exactly, and every
    pixel of the picture is where they say. *)
From S2P Require Import Prelude Duration Traffic.
From Stdlib Require Import Init.Byte Strings.Byte SpecFloat.

(** ** [image.RGBA] *)

Record RGBA := mkRGBA { cR : byte; cG : byte; cB : byte; cA : byte }.

(** A picture whose rectangle starts at (0, 0). *)
Record Image := mkImage { Dx : Z; Dy : Z; Pix : list byte }.

Definition NewRGBA (width height : Z) : Image :=
  mkImage width height (replicate (Z.to_nat (4 * width * height)) x00).

Definition In_rect (x y : Z) (img : Image) : bool :=
  (0 <=? x) && (x <? Dx img) && (0 <=? y) && (y <? Dy img).
Definition PixOffset (x y : Z) (img : Image) : nat := Z.to_nat (y * (4 * Dx img) + x * 4).

(** Outside of the rectangle nothing is set, and the pixel is transparent. *)
Definition SetRGBA (x y : Z) (c : RGBA) (img : Image) : Image :=
  if negb (In_rect x y img) then img
  else mkImage (Dx img) (Dy img) (list_inserts (PixOffset x y img) [cR c; cG c; cB c; cA c] (Pix img)).
Definition RGBAAt (x y : Z) (img : Image) : RGBA :=
  if negb (In_rect x y img) then mkRGBA x00 x00 x00 x00
  else let at' k := nth (PixOffset x y img + k) (Pix img) x00 in
       mkRGBA (at' 0%nat) (at' 1%nat) (at' 2%nat) (at' 3%nat).

(** [for i := lo; i < hi; i++ { body(i) }] *)
Definition for_range {S} (lo hi : Z) (body : Z → S → S) (s : S) : S :=
  foldl (λ s i, body i s) s (seqZ lo (hi - lo)).

(** [for y := .. { for x := .. { .. SetRGBA(x, y, c) .. } }], where a pixel can
    be left out. *)
Definition draw (y0 y1 x0 x1 : Z) (pixel : Z → Z → option RGBA) : Image → Image :=
  for_range y0 y1 (λ y, for_range x0 x1 (λ x img,
    match pixel x y with Some c => SetRGBA x y c img | None => img end)).

(** ** The picture of the trays *)

Definition ink : RGBA := mkRGBA (Zb 4) (Zb 29) (Zb 46) (Zb 255).

(** The test for the corners, and the colour of line [y]. *)
Definition tray_corner (x y : Z) : bool :=
  let dx := Z.min (x - 2) (29 - x) in
  let dy := Z.min (y - 2) (29 - y) in
  (dx <? 3) && (dy <? 3) && (10 <? (3 - dx) * (3 - dx) + (3 - dy) * (3 - dy)).
Definition tray_line (y : Z) : RGBA := mkRGBA (Zb 70) (Zb (181 + y)) (Zb 209) (Zb 255).

Definition drawTrayIcon : Image :=
  let img := NewRGBA 32 32 in
  let img := draw 2 30 2 30 (λ x y, if tray_corner x y then None else Some (tray_line y)) img in
  let img := draw 10 14 9 23 (λ _ _, Some ink) img in
  draw 13 23 14 18 (λ _ _, Some ink) img.

(** [binary.Write] of an integer of [n] bytes, little endian. *)
Fixpoint le_put (n : nat) (z : Z) : list byte :=
  match n with
  | O => []
  | S m => Zb z :: le_put m (Z.shiftr z 8)
  end.

(** [trayIcon] of Windows, for the picture [img]. *)
Definition ico_width : Z := 32.
Definition ico_height : Z := 32.
Definition bitmapBytes : Z := ico_width * ico_height * 4.
Definition maskBytes : Z := Z.quot ico_width 8 * ico_height.
Definition imageBytes : Z := 40 + bitmapBytes + maskBytes.

Definition ico_header : list byte :=
  le_put 2 0 ++ le_put 2 1 ++ le_put 2 1 ++ [Zb ico_width] ++ [Zb ico_height] ++ [x00; x00] ++
  le_put 2 1 ++ le_put 2 32 ++ le_put 4 imageBytes ++ le_put 4 22.
Definition bitmap_header : list byte :=
  le_put 4 40 ++ le_put 4 ico_width ++ le_put 4 (ico_height * 2) ++ le_put 2 1 ++ le_put 2 32 ++
  le_put 4 0 ++ le_put 4 bitmapBytes ++ le_put 4 0 ++ le_put 4 0 ++ le_put 4 0 ++ le_put 4 0.
Definition bgra (c : RGBA) : list byte := [cB c; cG c; cR c; cA c].
Definition ico_pixels (img : Image) : list byte :=
  flat_map (λ y, flat_map (λ x, bgra (RGBAAt x y img)) (seqZ 0 ico_width)) (reverse (seqZ 0 ico_height)).
Definition ico (img : Image) : list byte :=
  ico_header ++ bitmap_header ++ ico_pixels img ++ replicate (Z.to_nat maskBytes) x00.
Definition trayIcon : list byte := ico drawTrayIcon.

(** ** The picture of the macOS package *)

Definition iconSize : Z := 1024.

Definition insideRoundedSquare (horizontal vertical minimum maximum radius : Z) : bool :=
  let center p :=
    if p <? minimum + radius then minimum + radius
    else if maximum - radius <=? p then maximum - radius - 1 else p in
  let deltaHorizontal := horizontal - center horizontal in
  let deltaVertical := vertical - center vertical in
  deltaHorizontal * deltaHorizontal + deltaVertical * deltaVertical <=? radius * radius.

Definition inset : Z := 70.
Definition corner_radius : Z := 210.

(** [uint8(base + more*progress)] of line [vertical]. *)
Definition progress (vertical : Z) : spec_float :=
  SFdiv 53 1024 (f64 (vertical - inset)) (f64 (iconSize - 2 * inset)).
Definition shade (base more vertical : Z) : Z :=
  trunc (SFadd 53 1024 (f64 base) (SFmul 53 1024 (f64 more) (progress vertical))).
Definition background_line (vertical : Z) : RGBA :=
  mkRGBA (Zb (shade 47 23 vertical)) (Zb (shade 167 34 vertical)) (Zb (shade 218 8 vertical)) (Zb 255).

Definition drawBackground : Image → Image :=
  draw inset (iconSize - inset) inset (iconSize - inset) (λ x y,
    if insideRoundedSquare x y inset (iconSize - inset) corner_radius then Some (background_line y) else None).

Definition drawRectangle (left top right bottom : Z) (fill : RGBA) : Image → Image :=
  draw top bottom left right (λ _ _, Some fill).

Definition in_circle (centerHorizontal centerVertical radius x y : Z) : bool :=
  (x - centerHorizontal) * (x - centerHorizontal) + (y - centerVertical) * (y - centerVertical) <=?
  radius * radius.
Definition drawCircle (centerHorizontal centerVertical radius : Z) (fill : RGBA) : Image → Image :=
  draw (centerVertical - radius) (centerVertical + radius + 1)
       (centerHorizontal - radius) (centerHorizontal + radius + 1)
       (λ x y, if in_circle centerHorizontal centerVertical radius x y then Some fill else None).

Definition drawMark (canvas : Image) : Image :=
  let canvas := drawRectangle 270 300 754 420 ink canvas in
  let canvas := drawRectangle 450 395 574 745 ink canvas in
  let canvas := drawCircle 270 360 58 ink canvas in
  let canvas := drawCircle 754 360 58 ink canvas in
  drawCircle 512 745 58 ink canvas.

(** The picture that [main] encodes. *)
Definition mac_icon : Image := drawMark (drawBackground (NewRGBA iconSize iconSize)).

(** ** Reading what was drawn *)

Record image_ok (img : Image) : Prop := {
  ok_dx : 0 ≤ Dx img; ok_dy : 0 ≤ Dy img; ok_pix : len (Pix img) = 4 * Dx img * Dy img
}.

Lemma image_new w h : 0 ≤ w → 0 ≤ h → image_ok (NewRGBA w h).
Proof.
  intros Hw Hh. split; [done..|]. unfold len. cbn [NewRGBA Dx Dy Pix].
  rewrite length_replicate. nia.
Qed.

Lemma nth_replicate {A} n k (a : A) : nth k (replicate n a) a = a.
Proof. revert k. induction n as [|n IH]; intros [|k]; simpl; auto. Qed.

Lemma at_new x y w h : RGBAAt x y (NewRGBA w h) = mkRGBA x00 x00 x00 x00.
Proof. unfold RGBAAt. case_match; [done|]. cbn [NewRGBA Pix]. by rewrite !nth_replicate. Qed.

Lemma In_rect_true x y img : In_rect x y img = true ↔ 0 ≤ x < Dx img ∧ 0 ≤ y < Dy img.
Proof. unfold In_rect. rewrite !andb_true_iff, !Z.leb_le, !Z.ltb_lt. tauto. Qed.

Lemma set_ok x y c img : image_ok img → image_ok (SetRGBA x y c img).
Proof.
  intros [Hx Hy Hp]. unfold SetRGBA. case_match; [by split|]. split; [done..|].
  unfold len in *. cbn [Pix Dx Dy]. by rewrite length_inserts.
Qed.

Lemma set_dims x y c img :
  Dx (SetRGBA x y c img) = Dx img ∧ Dy (SetRGBA x y c img) = Dy img.
Proof. unfold SetRGBA. by case_match. Qed.

(** The four bytes of a pixel belong to no other one, and all of them exist. *)
Lemma offset_apart x y x' y' img :
  0 ≤ x < Dx img → 0 ≤ y → 0 ≤ x' < Dx img → 0 ≤ y' → x ≠ x' ∨ y ≠ y' →
  (PixOffset x' y' img + 4 ≤ PixOffset x y img)%nat ∨ (PixOffset x y img + 4 ≤ PixOffset x' y' img)%nat.
Proof.
  intros Hx Hy Hx' Hy' Hne. unfold PixOffset.
  enough (y' * (4 * Dx img) + x' * 4 + 4 ≤ y * (4 * Dx img) + x * 4 ∨
          y * (4 * Dx img) + x * 4 + 4 ≤ y' * (4 * Dx img) + x' * 4) by nia.
  assert (∀ a b, a < b → a * (4 * Dx img) + 4 * Dx img ≤ b * (4 * Dx img)) as Hline by (intros; nia).
  destruct (Z.lt_trichotomy y y') as [Hy1|[->|Hy1]]; [|lia|];
    specialize (Hline _ _ Hy1); [right|left]; lia.
Qed.

Lemma offset_fits x y img :
  image_ok img → In_rect x y img = true → (PixOffset x y img + 4 ≤ length (Pix img))%nat.
Proof.
  intros [_ _ Hp] [Hx Hy]%In_rect_true. unfold len in Hp. unfold PixOffset.
  enough (y * (4 * Dx img) + x * 4 + 4 ≤ 4 * Dx img * Dy img) by nia. nia.
Qed.

(** What is set at one place is read there, and the rest is as before. *)
Lemma at_set x y c x' y' img :
  image_ok img →
  RGBAAt x' y' (SetRGBA x y c img) =
    if In_rect x y img && bool_decide (x' = x ∧ y' = y) then c else RGBAAt x' y' img.
Proof.
  intros Hok. unfold SetRGBA. destruct (In_rect x y img) eqn:Hin; cbn [negb andb]; [|done].
  pose proof (offset_fits _ _ _ Hok Hin) as Hfit.
  unfold RGBAAt. cbn [Pix]. change (In_rect x' y' (mkImage _ _ _)) with (In_rect x' y' img).
  change (PixOffset x' y' (mkImage _ _ _)) with (PixOffset x' y' img). rewrite !nth_lookup.
  case_bool_decide as He.
  - destruct He as [-> ->]. rewrite Hin. cbn [negb]. rewrite !list_lookup_inserts by (simpl; lia).
    rewrite Nat.add_0_r, Nat.sub_diag, !Nat.add_sub'. by destruct c.
  - destruct (In_rect x' y' img) eqn:Hin'; [|done]. cbn [negb].
    apply In_rect_true in Hin as [? ?], Hin' as [? ?].
    destruct (offset_apart x y x' y' img) as [?|?]; [lia..| |].
    + rewrite !list_lookup_inserts_lt by lia. done.
    + rewrite !list_lookup_inserts_ge by (simpl; lia). done.
Qed.

(** Two nested loops are one over the points. *)
Lemma foldl_nested {A B S} (f : S → A → B → S) (la : list A) (lb : list B) (s : S) :
  foldl (λ s a, foldl (λ s b, f s a b) s lb) s la =
  foldl (λ s '(a, b), f s a b) s (a ← la; b ← lb; [(a, b)]).
Proof.
  revert s. induction la as [|a la IH]; intros s; [done|]. cbn [foldl mbind list_bind].
  rewrite foldl_app, IH. f_equal. clear. revert s.
  induction lb as [|b lb IH]; intros s; [done|]. apply IH.
Qed.

Lemma draw_points pts pixel img x y :
  image_ok img →
  let img' := foldl (λ img '(y, x), match pixel x y with Some c => SetRGBA x y c img | None => img end) img pts in
  image_ok img' ∧ Dx img' = Dx img ∧ Dy img' = Dy img ∧
  RGBAAt x y img' =
    if In_rect x y img && bool_decide ((y, x) ∈ pts) then default (RGBAAt x y img) (pixel x y)
    else RGBAAt x y img.
Proof.
  revert img. induction pts as [|[y0 x0] pts IH]; intros img Hok; cbn [foldl].
  { split_and!; [done..|]. rewrite bool_decide_eq_false_2, andb_false_r by apply not_elem_of_nil. done. }
  set (img1 := match pixel x0 y0 with Some c => SetRGBA x0 y0 c img | None => img end).
  assert (image_ok img1 ∧ Dx img1 = Dx img ∧ Dy img1 = Dy img ∧ RGBAAt x y img1 =
    if In_rect x y img && bool_decide (x = x0 ∧ y = y0) then default (RGBAAt x y img) (pixel x y)
    else RGBAAt x y img) as (Hok1 & Hx1 & Hy1 & Hat).
  { unfold img1. destruct (pixel x0 y0) as [c|] eqn:E.
    - split_and!; [by apply set_ok|apply set_dims..|]. rewrite at_set by done. clear IH.
      case_bool_decide as He; [|by rewrite !andb_false_r].
      destruct He as [-> ->]. by rewrite E.
    - split_and!; [done..|]. clear IH.
      case_bool_decide as He; [destruct He as [-> ->]; rewrite E|];
        by destruct (In_rect _ _ img). }
  destruct (IH img1 Hok1) as (Hok' & Hx' & Hy' & Hat').
  split_and!; [done|congruence..|]. rewrite Hat', Hat.
  assert (In_rect x y img1 = In_rect x y img) as -> by (unfold In_rect; by rewrite Hx1, Hy1).
  rewrite (bool_decide_ext ((y, x) ∈ (y0, x0) :: pts) ((x = x0 ∧ y = y0) ∨ (y, x) ∈ pts))
    by (rewrite elem_of_cons; split; [intros [[= -> ->]|?]; tauto|intros [[-> ->]|?]; tauto]).
  rewrite bool_decide_or.
  clear.
  destruct (In_rect x y img), (bool_decide (x = x0 ∧ _)), (bool_decide ((y, x) ∈ pts)), (pixel x y); reflexivity.
Qed.

Definition in_range (y0 y1 x0 x1 x y : Z) : bool :=
  (x0 <=? x) && (x <? x1) && (y0 <=? y) && (y <? y1).

(** What two nested loops draw: inside of their bounds and of the picture, the
    pixels that are not left out; the rest is as before. *)
Lemma draw_at y0 y1 x0 x1 pixel img :
  image_ok img →
  let img' := draw y0 y1 x0 x1 pixel img in
  image_ok img' ∧ Dx img' = Dx img ∧ Dy img' = Dy img ∧
  ∀ x y, RGBAAt x y img' =
    if In_rect x y img && in_range y0 y1 x0 x1 x y then default (RGBAAt x y img) (pixel x y)
    else RGBAAt x y img.
Proof.
  intros Hok. unfold draw, for_range.
  rewrite (foldl_nested (λ img y x, match pixel x y with Some c => SetRGBA x y c img | None => img end)).
  set (pts := _ ≫= _). split_and!; try by apply (draw_points pts pixel img 0 0 Hok).
  intros x y. destruct (draw_points pts pixel img x y Hok) as (_ & _ & _ & ->).
  replace (bool_decide ((y, x) ∈ pts)) with (in_range y0 y1 x0 x1 x y); [done|].
  unfold pts, in_range. apply Bool.eq_iff_eq_true.
  rewrite bool_decide_eq_true, !andb_true_iff, !Z.leb_le, !Z.ltb_lt.
  rewrite list_elem_of_bind. setoid_rewrite list_elem_of_bind. setoid_rewrite elem_of_seqZ.
  setoid_rewrite list_elem_of_singleton. split.
  - intros Hr. exists y. split; [|lia]. exists x. split; [done|lia].
  - intros (a & (b & [= <- <-] & Hb) & Ha). lia.
Qed.

(** A picture of [w] by [h] pixels whose pixels are given by [colour]. *)
Definition shows (w h : Z) (colour : Z → Z → RGBA) (img : Image) : Prop :=
  image_ok img ∧ Dx img = w ∧ Dy img = h ∧
  ∀ x y, RGBAAt x y img = if in_range 0 h 0 w x y then colour x y else mkRGBA x00 x00 x00 x00.

Lemma shows_new w h : 0 ≤ w → 0 ≤ h → shows w h (λ _ _, mkRGBA x00 x00 x00 x00) (NewRGBA w h).
Proof.
  intros Hw Hh. split_and!; [by apply image_new|done..|]. intros x y. rewrite at_new. by case_match.
Qed.

(** Drawing on a picture gives the new pixels where they are drawn. *)
Lemma shows_draw w h colour y0 y1 x0 x1 pixel img :
  shows w h colour img →
  shows w h (λ x y, if in_range y0 y1 x0 x1 x y then default (colour x y) (pixel x y) else colour x y)
    (draw y0 y1 x0 x1 pixel img).
Proof.
  intros (Hok & Hx & Hy & Hat). destruct (draw_at y0 y1 x0 x1 pixel img Hok) as (Hok' & Hx' & Hy' & Hat').
  split_and!; [done|congruence..|]. intros x y. rewrite Hat', !Hat.
  assert (In_rect x y img = in_range 0 h 0 w x y) as -> by (unfold In_rect; by rewrite Hx, Hy).
  by destruct (in_range 0 h 0 w x y), (in_range y0 y1 x0 x1 x y).
Qed.

(** ** The two pictures *)

(** The "T" of the trays' picture, and the square behind it. *)
Definition tray_mark (x y : Z) : bool := in_range 10 14 9 23 x y || in_range 13 23 14 18 x y.
Definition tray_colour (x y : Z) : RGBA :=
  if tray_mark x y then ink
  else if in_range 2 30 2 30 x y && negb (tray_corner x y) then tray_line y
  else mkRGBA x00 x00 x00 x00.

(** The trays' picture is that "T" on that square, and the green channel of its
    lines does not wrap around. *)
Theorem tray_picture :
  shows 32 32 tray_colour drawTrayIcon ∧
  ∀ y, 2 ≤ y < 30 → bZ (cG (tray_line y)) = 181 + y.
Proof.
  split; [|intros y Hy; cbn [tray_line cG]; rewrite bZ_Zb, Z.mod_small; lia].
  assert (shows 32 32 _ drawTrayIcon) as (Hok & Hx & Hy & Hat)
    by (unfold drawTrayIcon; apply shows_draw, shows_draw, shows_draw, shows_new; lia).
  split_and!; [done..|]. intros x y. rewrite Hat. case_match; [|done].
  unfold tray_colour, tray_mark. cbn [default].
  by destruct (in_range 13 23 14 18 x y), (in_range 10 14 9 23 x y), (in_range 2 30 2 30 x y), (tray_corner x y).
Qed.

(** The parts of the mark of the package's picture. *)
Definition mac_mark (x y : Z) : bool :=
  in_range 300 420 270 754 x y || in_range 395 745 450 574 x y ||
  in_circle 270 360 58 x y || in_circle 754 360 58 x y || in_circle 512 745 58 x y.
Definition mac_square (x y : Z) : bool :=
  in_range 70 954 70 954 x y && insideRoundedSquare x y 70 954 210.
(** The gradient in integers. *)
Definition mac_line (y : Z) : RGBA :=
  mkRGBA (Zb (47 + 23 * (y - 70) / 884)) (Zb (167 + 34 * (y - 70) / 884)) (Zb (218 + 8 * (y - 70) / 884)) (Zb 255).
Definition mac_colour (x y : Z) : RGBA :=
  if mac_mark x y then ink else if mac_square x y then mac_line y else mkRGBA x00 x00 x00 x00.

(** The gradient, computed in binary64 and truncated, is the one in integers. *)
Lemma shade_exact y :
  70 ≤ y < 954 →
  shade 47 23 y = 47 + 23 * (y - 70) / 884 ∧ shade 167 34 y = 167 + 34 * (y - 70) / 884 ∧
  shade 218 8 y = 218 + 8 * (y - 70) / 884.
Proof.
  intros Hy.
  enough (((shade 47 23 y =? 47 + 23 * (y - 70) / 884) && (shade 167 34 y =? 167 + 34 * (y - 70) / 884) &&
           (shade 218 8 y =? 218 + 8 * (y - 70) / 884)) = true) as H
    by (rewrite !andb_true_iff, !Z.eqb_eq in H; tauto).
  apply (range_check (λ y, (shade 47 23 y =? 47 + 23 * (y - 70) / 884) &&
    (shade 167 34 y =? 167 + 34 * (y - 70) / 884) && (shade 218 8 y =? 218 + 8 * (y - 70) / 884)) 70 884);
    [vm_compute; reflexivity|lia].
Qed.

(** A circle lies in the bounds of the loops that draw it. *)
Lemma circle_range cx cy r x y :
  0 ≤ r → in_circle cx cy r x y = true → in_range (cy - r) (cy + r + 1) (cx - r) (cx + r + 1) x y = true.
Proof.
  unfold in_circle, in_range. rewrite !andb_true_iff, !Z.leb_le, !Z.ltb_lt. intros Hr Hc.
  assert (∀ a b, a * a + b * b ≤ r * r → - r ≤ a ≤ r) as Ha by (intros a b Hab; nia).
  pose proof (Ha _ _ Hc) as Hx. rewrite Z.add_comm in Hc. pose proof (Ha _ _ Hc) as Hy. lia.
Qed.

Lemma shows_circle w h colour cx cy r fill img :
  0 ≤ r → shows w h colour img →
  shows w h (λ x y, if in_circle cx cy r x y then fill else colour x y) (drawCircle cx cy r fill img).
Proof.
  intros Hr Hs. apply (shows_draw w h colour (cy - r) (cy + r + 1) (cx - r) (cx + r + 1)
    (λ x y, if in_circle cx cy r x y then Some fill else None)) in Hs.
  destruct Hs as (Hok & Hx & Hy & Hat). split_and!; [done..|]. intros x y. rewrite Hat.
  case_match; [|done]. destruct (in_circle cx cy r x y) eqn:E; [by rewrite circle_range|by case_match].
Qed.

(** The package's picture is the mark, a beam and a stem with round ends, on a
    rounded square whose channels are between those of its first and its last
    line, whatever the rounding: none wraps around. *)
Theorem mac_picture :
  shows 1024 1024 mac_colour mac_icon ∧
  ∀ y, 70 ≤ y < 954 →
    47 ≤ bZ (cR (background_line y)) ≤ 69 ∧ 167 ≤ bZ (cG (background_line y)) ≤ 200 ∧
    218 ≤ bZ (cB (background_line y)) ≤ 225.
Proof.
  assert (∀ y, 70 ≤ y < 954 → background_line y = mac_line y) as Hline.
  { intros y Hy. unfold background_line, mac_line. by destruct (shade_exact y Hy) as (-> & -> & ->). }
  split.
  - assert (shows 1024 1024 _ mac_icon) as (Hok & Hx & Hy & Hat)
      by (unfold mac_icon, drawMark; do 3 (apply shows_circle; [lia|]);
          unfold drawRectangle, drawBackground; do 3 apply shows_draw; apply shows_new; unfold iconSize; lia).
    refine (conj Hok (conj Hx (conj Hy _))). intros x y. rewrite Hat.
    destruct (in_range 0 1024 0 1024 x y); [|reflexivity].
    unfold mac_colour, mac_mark, mac_square, inset, iconSize, corner_radius. change (1024 - 70) with 954.
    assert (in_range 70 954 70 954 x y = true → background_line y = mac_line y) as Hl.
    { intros E. apply Hline. unfold in_range in E. rewrite !andb_true_iff, !Z.leb_le, !Z.ltb_lt in E. lia. }
    revert Hl. generalize ink (background_line y) (mac_line y). intros i b m Hl.
    destruct (in_circle 512 745 58 x y), (in_circle 754 360 58 x y), (in_circle 270 360 58 x y),
      (in_range 395 745 450 574 x y), (in_range 300 420 270 754 x y); try reflexivity.
    destruct (in_range 70 954 70 954 x y), (insideRoundedSquare x y 70 954 210); try reflexivity.
    by apply Hl.
  - intros y Hy. rewrite Hline by done. cbn [mac_line cR cG cB]. rewrite !bZ_Zb.
    assert (∀ k, 0 ≤ k ≤ 34 → 0 ≤ k * (y - 70) / 884 ≤ Z.max 0 (k - 1)) as Hk.
    { intros k Hk. split; [apply Z.div_pos; nia|]. destruct (decide (k = 0)) as [->|]; [done|].
      enough (k * (y - 70) / 884 < k) by lia. apply Z.div_lt_upper_bound; nia. }
    pose proof (Hk 23 ltac:(lia)). pose proof (Hk 34 ltac:(lia)). pose proof (Hk 8 ltac:(lia)).
    rewrite !Z.mod_small; lia.
Qed.

(** ** The ICO file *)

(** A little-endian integer of [n] bytes at [offset] of a file. *)
Definition field (f : list byte) (offset n : nat) : Z := be_get (reverse (slice offset (offset + n) f)).

Lemma field_app f g offset n :
  (offset + n ≤ length f)%nat → field (f ++ g) offset n = field f offset n.
Proof.
  intros Hl. unfold field, slice. rewrite drop_app_le by lia. rewrite take_app_le; [done|].
  rewrite length_drop. lia.
Qed.

(** Chunks of one size. *)
Lemma flat_map_chunk {A} (f : A → list byte) k l i a :
  (∀ a, length (f a) = k) → l !! i = Some a →
  drop (i * k) (flat_map f l) = f a ++ flat_map f (drop (S i) l).
Proof.
  intros Hk. revert i. induction l as [|b l IH]; intros [|i] Hi; [done..| |].
  - by injection Hi as ->.
  - cbn [flat_map Nat.mul]. rewrite <- drop_drop, <- (Hk b), drop_app_length, (Hk b). by apply IH.
Qed.

Lemma flat_map_size {A} (f : A → list byte) k l :
  (∀ a, length (f a) = k) → length (flat_map f l) = (length l * k)%nat.
Proof. intros Hk. induction l as [|a l IH]; [done|]. cbn. by rewrite length_app, Hk, IH. Qed.

Definition ico_row (img : Image) (y : Z) : list byte :=
  flat_map (λ x, bgra (RGBAAt x y img)) (seqZ 0 ico_width).

Lemma ico_row_length img y : length (ico_row img y) = 128%nat.
Proof. unfold ico_row. by rewrite (flat_map_size _ 4). Qed.

Lemma ico_pixels_length img : length (ico_pixels img) = 4096%nat.
Proof. unfold ico_pixels. by rewrite (flat_map_size _ 128) by (intros; apply ico_row_length). Qed.

(** The rows are from the last one up. *)
Lemma ico_pixels_at img x y :
  0 ≤ x < 32 → 0 ≤ y < 32 →
  take 4 (drop (Z.to_nat ((32 - 1 - y) * 32 + x) * 4) (ico_pixels img)) = bgra (RGBAAt x y img).
Proof.
  intros Hx Hy.
  replace (Z.to_nat _ * 4)%nat with (Z.to_nat (31 - y) * 128 + Z.to_nat x * 4)%nat by lia.
  rewrite <- drop_drop. unfold ico_pixels. rewrite (flat_map_chunk _ 128 _ _ y).
  - fold (ico_row img y). rewrite drop_app_le by (rewrite ico_row_length; lia).
    unfold ico_row. rewrite (flat_map_chunk _ 4 _ _ x); [done..|].
    apply lookup_seqZ. unfold ico_width. lia.
  - intros. apply ico_row_length.
  - rewrite reverse_lookup by (rewrite length_seqZ; unfold ico_height; lia).
    apply lookup_seqZ. rewrite length_seqZ. unfold ico_height. lia.
Qed.

(** The file that Windows shows: its directory entry names a picture of 32 by 32
    pixels that begins right after the entry and ends with the file; the bitmap
    header gives the same width and, as an ICO file wants it, twice the height;
    behind it every pixel of the picture is where a reader of these fields looks
    for it, and the mask covers nothing. *)
Theorem ico_file img x y :
  0 ≤ x < 32 → 0 ≤ y < 32 →
  let f := ico img in
  let start := field f 18 4 in
  let width := field f 26 4 in
  let height := field f 30 4 / 2 in
  field f 6 1 = width ∧ field f 7 1 = height ∧ width = 32 ∧ height = 32 ∧ field f 36 2 = 32 ∧
  start = 6 + 16 ∧ start + field f 14 4 = len f ∧ field f 42 4 = width * height * 4 ∧
  (let at' := start + field f 22 4 + ((height - 1 - y) * width + x) * 4 in
   slice (Z.to_nat at') (Z.to_nat (at' + 4)) f = bgra (RGBAAt x y img)) ∧
  drop (Z.to_nat (start + field f 22 4 + field f 42 4)) f = replicate 128 x00.
Proof.
  intros Hx Hy f start width height.
  assert (f = (ico_header ++ bitmap_header) ++ ico_pixels img ++ replicate 128 x00) as Ef by apply app_assoc.
  assert (length (ico_header ++ bitmap_header) = 62%nat) as Hh by reflexivity.
  assert (∀ o n, (o + n ≤ 62)%nat → field f o n = field (ico_header ++ bitmap_header) o n) as Hf
    by (intros o n Ho; rewrite Ef; apply field_app; lia).
  unfold height, width, start. rewrite !Hf by lia.
  set (header := ico_header ++ bitmap_header) in *.
  assert (field header 18 4 = 22 ∧ field header 26 4 = 32 ∧ field header 30 4 = 64 ∧ field header 22 4 = 40 ∧
    field header 42 4 = 4096 ∧ field header 14 4 = 4264 ∧ field header 6 1 = 32 ∧ field header 7 1 = 32 ∧
    field header 36 2 = 32) as (-> & -> & -> & -> & -> & -> & -> & -> & ->)
    by (vm_compute; done).
  rewrite Ef. clear Hf. refine (conj _ (conj _ (conj _ (conj _ (conj _ (conj _ (conj _ (conj _ (conj _ _)))))))));
    [reflexivity..| | | |].
  - unfold len. rewrite !length_app, Hh, ico_pixels_length, length_replicate. reflexivity.
  - reflexivity.
  - cbv zeta. change (64 / 2) with 32. unfold slice.
    replace (Z.to_nat _ - Z.to_nat _)%nat with 4%nat by lia.
    replace (Z.to_nat _) with (length header + Z.to_nat ((32 - 1 - y) * 32 + x) * 4)%nat by lia.
    rewrite drop_app_add', drop_app_le by (rewrite ?ico_pixels_length; lia).
    rewrite take_app_le by (rewrite length_drop, ico_pixels_length; lia). by apply ico_pixels_at.
  - replace (Z.to_nat _) with (length header + length (ico_pixels img))%nat
      by (rewrite ico_pixels_length; lia).
    by rewrite <- length_app, app_assoc, drop_app_length.
Qed.

(** A pixel of the trays' picture, in the file. *)
Lemma ico_file_witness :
  slice (22 + 40 + ((31 - 11) * 32 + 9) * 4) (22 + 40 + ((31 - 11) * 32 + 9) * 4 + 4) trayIcon = bgra ink.
Proof.
  destruct (ico_file drawTrayIcon 9 11 ltac:(lia) ltac:(lia)) as (_ & _ & Ew & Eh & _ & Es & _ & _ & Ep & _).
  rewrite Ew, Eh, Es in Ep. etrans; [exact Ep|vm_compute; reflexivity].
Defined.
