(* ===== verification/TrayMain.v ===== *)
(** * TrayMain: the tray applications ([cmd/tyxnet-tray], [cmd/tyxnet-server-tray])

    The menus and what a click or a tick of the refresh loop does, for a local
    interface ([http_do]) that answers requests.  A menu is what it shows; the
    systray library, which shows it, is left out; its icon is [Icons.trayIcon].
    Events are handled one after the other, and a click can only be on an item
    that the menu shows enabled.

    [tray_offers]: the client's tray offers exactly the actions that the
    management server permits the signed-in role, on devices that are not
    revoked.  [tray_run]: which requests it ever makes.  [quit_once]: a refused
    attempt to quit is the last one. *)
From S2P Require Import Prelude Text Net Clock Protocol Crypto Session Traffic Dataplane DataClient.
From S2P Require Import Http Auth Config Commands Accounts Devices CommandStore ClientAgent ClientLocal.
From Stdlib Require Import Init.Byte Strings.Byte.

(** ** Requests *)

Record TrayRequest := mkTrayRequest {
  tqMethod : string; tqURL : string; tqToken : string; tqBody : list byte
}.

Section tray.
Context {R : Type} (new_request : string → string → option string)
  (http_do : TrayRequest → R → result HttpResponse * R).
(** [json.Marshal(map[string]bool{"enabled": enabled})]. *)
Context (enabled_json : bool → list byte).
(** [trayToken], and the base of the URLs. *)
Context (trayToken url : string).

(** A request with the tray's token. *)
Definition tray_do (method path : string) (body : list byte) (r : R) : result HttpResponse * R :=
  match new_request method (url +:+ path) with
  | Some e => (Err e, r)
  | None => http_do (mkTrayRequest method (url +:+ path) trayToken body) r
  end.
(** An error for a status that is not 2xx. *)
Definition tray_post (what path : string) (body : list byte) (r : R) : option string * R :=
  let '(answer, r) := tray_do "POST" path body r in
  match answer with
  | Err e => (Some e, r)
  | Ok p => (if (hCode p <? 200) || (300 <=? hCode p) then Some (what +:+ ": " +:+ hStatus p) else None, r)
  end.

Definition setApplicationState (action : string) (enabled : bool) : R → option string * R :=
  tray_post "tray application action" ("/api/tray/" +:+ action)
    (if action =s "startup" then enabled_json enabled else []).
Definition sendCommand (deviceID action : string) : R → option string * R :=
  tray_post "tray command" ("/api/tray/devices/" +:+ deviceID +:+ "/" +:+ action) [].

(** The snapshot of a response of at most [limit] bytes. *)
Definition fetch {S} (what : string) (read : list byte → result S) (limit : nat) (r : R) : result S * R :=
  let '(answer, r) := tray_do "GET" "/api/tray" [] r in
  match answer with
  | Err e => (Err e, r)
  | Ok p => (if negb (hCode p =? 200) then Err (what +:+ ": " +:+ hStatus p) else read (take limit (hText p)), r)
  end.
End tray.

Definition openBrowser (goos : platform) (url : string) : list string :=
  if bool_decide (goos = Windows) then ["rundll32"; "url.dll,FileProtocolHandler"; url]%string else ["open"; url]%string.

(** ** The client's menu *)

Record trayDevice := mkTrayDevice { tdID : string; tdName : string; tdVirtualIP : string; tdRevoked : bool }.
Record Snapshot := mkSnapshot {
  tsConfigured : bool; tsConnected : bool; tsVirtualIP : string; tsLastError : string;
  tsUsername : string; tsRole : string; tsDevices : list trayDevice; tsStartup : bool
}.

(** An entry of the devices' menu: what it shows, whether it is enabled, and its
    actions: title, device and action. *)
Record Item := mkItem {
  iTitle : string; iTooltip : string; iEnabled : bool; iActions : list (string * string * string)
}.
Record Menu := mkMenu { mStatus : string; mStartup : bool; mDevices : list Item }.

Definition actionTitle (action : string) : string :=
  if action =s "disconnect" then "Reconnect" else if action =s "restart" then "Restart" else "Shutdown".
Definition disabledChild (title : string) : Item := mkItem title title false [].

Definition can_control (role : string) : bool := (role =s "admin") || (role =s "operator").
Definition tray_actions : list string := ["disconnect"; "restart"; "shutdown"].
Definition device_item (control : bool) (d : trayDevice) : Item :=
  let title := tdName d +:+ " · " +:+ tdVirtualIP d in
  if negb control || tdRevoked d then mkItem title (tdID d) false []
  else mkItem title (tdID d) true (map (λ a, (actionTitle a, tdID d, a)) tray_actions).

Definition refresh (snapshot : result Snapshot) (m : Menu) : Menu :=
  match snapshot with
  | Err _ => mkMenu "Client service unavailable" (mStartup m)
               [disabledChild "Open the web console to start TyxNet"]
  | Ok s =>
    mkMenu (if tsConnected s then "Connected · " +:+ tsVirtualIP s
            else if tsConfigured s then "Connecting…" else "Setup required")
      (tsStartup s)
      (if tsRole s =s "" then [disabledChild "Sign in through the web console"]
       else if bool_decide (tsDevices s = []%list) then [disabledChild "No visible devices"]
       else map (device_item (can_control (tsRole s))) (tsDevices s))
  end.

(** ** The client's tray at work *)

Inductive tray_event := Tick | ClickOpen | ClickStartup | ClickQuit | ClickAction (item action : nat).

(** The menu, whether the click on Quit is still waited for, whether the tray
    runs, the started processes, and the local interface. *)
Record Tray (R : Type) := mkTray {
  tMenu : Menu; tQuit : bool; tRuns : bool; tProcesses : list (list string); tNet : R
}.
Global Arguments mkTray {R}.
Global Arguments tMenu {R}.
Global Arguments tQuit {R}.
Global Arguments tRuns {R}.
Global Arguments tProcesses {R}.
Global Arguments tNet {R}.

Section client_tray.
Context {R : Type} (new_request : string → string → option string)
  (http_do : TrayRequest → R → result HttpResponse * R).
Context (enabled_json : bool → list byte) (read_snapshot : list byte → result Snapshot)
  (trayToken clientURL : string) (goos : platform).

Definition fetchSnapshot : R → result Snapshot * R :=
  fetch new_request http_do trayToken clientURL "tray API" read_snapshot (2 ^ 20).
Definition set_startup (m : Menu) (b : bool) : Menu := mkMenu (mStatus m) b (mDevices m).
Definition item_action (m : Menu) (i j : nat) : option (string * string) :=
  item ← mDevices m !! i;
  if iEnabled item then '(_, id, a) ← iActions item !! j; Some (id, a) else None.

Definition tray_step (ev : tray_event) (t : Tray R) : Tray R :=
  if negb (tRuns t) then t
  else
    match ev with
    | Tick =>
      let '(s, r) := fetchSnapshot (tNet t) in
      mkTray (refresh s (tMenu t)) (tQuit t) true (tProcesses t) r
    | ClickOpen =>
      mkTray (tMenu t) (tQuit t) true (tProcesses t ++ [openBrowser goos clientURL]) (tNet t)
    | ClickStartup =>
      let enabled := negb (mStartup (tMenu t)) in
      let '(e, r) := setApplicationState new_request http_do enabled_json trayToken clientURL "startup" enabled (tNet t) in
      mkTray (if is_none e then set_startup (tMenu t) enabled else tMenu t) (tQuit t) true (tProcesses t) r
    | ClickQuit =>
      if tQuit t then
        let '(e, r) := setApplicationState new_request http_do enabled_json trayToken clientURL "quit" false (tNet t) in
        mkTray (tMenu t) false (negb (is_none e)) (tProcesses t) r
      else t
    | ClickAction i j =>
      match item_action (tMenu t) i j with
      | None => t
      | Some (id, a) =>
        let '(_, r) := sendCommand new_request http_do trayToken clientURL id a (tNet t) in
        mkTray (tMenu t) (tQuit t) true (tProcesses t) r
      end
    end.
Definition first_menu : Menu := mkMenu "Checking connection…" false [].
Definition tray_start (r : R) : Tray R := mkTray first_menu true true [] r.
Definition tray_events (evs : list tray_event) (t : Tray R) : Tray R := foldl (λ t ev, tray_step ev t) t evs.
End client_tray.

(** ** The server's tray *)

Record ServerSnapshot := mkServerSnapshot { ssRunning : bool; ssStartup : bool }.
(** The status with its tooltip, and the check mark of the start-up. *)
Record ServerMenu := mkServerMenu { smStatus : string; smTooltip : string; smStartup : bool }.

Section server_tray.
Context {R : Type} (new_request : string → string → option string)
  (http_do : TrayRequest → R → result HttpResponse * R).
Context (enabled_json : bool → list byte) (read_snapshot : list byte → result ServerSnapshot)
  (trayToken argument : string) (goos : platform).

(** [--server-url] without its last slashes. *)
Definition serverURL : string := TrimRightSlash argument.
Definition checkServer : R → result ServerSnapshot * R :=
  fetch new_request http_do trayToken serverURL "tray status" read_snapshot 4096.
Definition server_refresh (s : result ServerSnapshot) (m : ServerMenu) : ServerMenu :=
  match s with
  | Err e => mkServerMenu "Server unavailable" e (smStartup m)
  | Ok s => mkServerMenu "Server running" serverURL (ssStartup s)
  end.

Record ServerTray := mkServerTray {
  stMenu : ServerMenu; stQuit : bool; stRuns : bool; stProcesses : list (list string); stNet : R
}.
Inductive server_event := STick | SClickOpen | SClickStartup | SClickQuit.
Definition server_tray_step (ev : server_event) (t : ServerTray) : ServerTray :=
  if negb (stRuns t) then t
  else
    match ev with
    | STick =>
      let '(s, r) := checkServer (stNet t) in
      mkServerTray (server_refresh s (stMenu t)) (stQuit t) true (stProcesses t) r
    | SClickOpen =>
      mkServerTray (stMenu t) (stQuit t) true (stProcesses t ++ [openBrowser goos serverURL]) (stNet t)
    | SClickStartup =>
      let m := stMenu t in
      let enabled := negb (smStartup m) in
      let '(e, r) := setApplicationState new_request http_do enabled_json trayToken serverURL "startup" enabled (stNet t) in
      mkServerTray (if is_none e then mkServerMenu (smStatus m) (smTooltip m) enabled else m) (stQuit t) true
        (stProcesses t) r
    | SClickQuit =>
      if stQuit t then
        let '(e, r) := setApplicationState new_request http_do enabled_json trayToken serverURL "quit" false (stNet t) in
        mkServerTray (stMenu t) false (negb (is_none e)) (stProcesses t) r
      else t
    end.
Definition server_tray_start (r : R) : ServerTray :=
  mkServerTray (mkServerMenu "Checking server..." "TyxNet Server status" false) true true [] r.
End server_tray.

(** ** What is offered *)

Lemma can_control_allowed role a : a ∈ tray_actions → can_control role = Allowed role ("device." +:+ a).
Proof.
  unfold can_control, Allowed, permissions, tray_actions. rewrite !elem_of_cons, elem_of_nil. intros Ha.
  change Admin with "admin"%string. change Operator with "operator"%string.
  change Member with "member"%string. change Viewer with "viewer"%string.
  destruct (role =s "admin") eqn:E1; [by destruct_or! Ha; subst|].
  destruct (role =s "operator") eqn:E2; [by destruct_or! Ha; subst|].
  destruct (role =s "member"); [by destruct_or! Ha; subst|].
  destruct (role =s "viewer"); by destruct_or! Ha; subst.
Qed.

Lemma item_action_refresh s m i j id a :
  item_action (refresh (Ok s) m) i j = Some (id, a) ↔
  ∃ d, tsDevices s !! i = Some d ∧ tdID d = id ∧ tdRevoked d = false ∧ tray_actions !! j = Some a ∧
       can_control (tsRole s) = true.
Proof.
  unfold item_action. cbn [mDevices refresh].
  destruct (tsRole s =s "") eqn:Er.
  { apply String.eqb_eq in Er. rewrite Er. split; [by destruct i as [|[]]|].
    by intros (d & _ & _ & _ & _ & ?). }
  case_bool_decide as Hd.
  { rewrite Hd. split; [by destruct i as [|[]]|]. by intros (d & ? & _). }
  rewrite list_lookup_fmap. destruct (tsDevices s !! i) as [d|]; cbn [fmap option_fmap option_map mbind option_bind];
    [|by split; [|intros (? & ? & _)]].
  unfold device_item. destruct (can_control (tsRole s)); cbn [negb orb];
    [|split; [done|by intros (? & _ & _ & _ & _ & ?)]].
  destruct (tdRevoked d) eqn:Ev; cbn [iEnabled iActions]; [split; [done|]; intros (? & [= <-] & _ & ? & _); congruence|].
  rewrite list_lookup_fmap. destruct (tray_actions !! j) as [a'|]; cbn.
  - split; [intros [= <- <-]; by exists d|]. by intros (? & [= <-] & <- & _ & [= <-] & _).
  - split; [done|]. by intros (? & _ & _ & _ & ? & _).
Qed.

Lemma tray_path id action : plain id → action ∈ tray_actions →
  local_mux "POST" ("/api/tray/devices/" +:+ id +:+ "/" +:+ action) = TTrayCommand id action.
Proof.
  intros Hi Ha.
  assert (plain action) as Hpa.
  { unfold tray_actions in Ha. rewrite !elem_of_cons, elem_of_nil in Ha.
    destruct_or! Ha; subst; by apply (bool_decide_unpack _); vm_compute. }
  assert (Forall plain ["api"; "tray"; "devices"; id; action]%string) as Hp.
  { rewrite !Forall_cons.
    split_and!; try done; by apply (bool_decide_unpack _); vm_compute. }
  assert ("/api/tray/devices/" +:+ id +:+ "/" +:+ action = path_text ["api"; "tray"; "devices"; id; action])%string as ->
    by (rewrite !path_text_cons, append_nil_r; reflexivity).
  unfold local_mux. change ("POST" =s "CONNECT") with false. cbv iota.
  rewrite cleanPath_plain by done. rewrite String.eqb_refl.
  assert (local_target "POST" (path_text ["api"; "tray"; "devices"; id; action]) = TTrayCommand id action) as ->; [|done].
  unfold local_target, device_target. rewrite split_path by done.
  replace (find _ local_patterns) with (@None (string * string * target)) by reflexivity.
  change ("POST" =s "POST") with true. cbv iota.
  destruct Hi as [Hi _], Hpa as [Hpa _].
  rewrite (proj2 (String.eqb_neq _ _) Hi), (proj2 (String.eqb_neq _ _) Hpa). done.
Qed.

(** C39: the client's tray offers what the management server permits.  For every
    snapshot the tray shows an enabled action exactly for a device that is not
    revoked and an action for which the role of the signed-in user has the
    permission; without a snapshot it shows none.  And the request of an offered
    action is taken by the client's local interface as the command of the tray
    for this device and action (when the device's id is one segment of a path). *)
Theorem tray_offers s m i j id a :
  (item_action (refresh (Ok s) m) i j = Some (id, a) ↔
   ∃ d, tsDevices s !! i = Some d ∧ tdID d = id ∧ tdRevoked d = false ∧ tray_actions !! j = Some a ∧
        Allowed (tsRole s) ("device." +:+ a) = true) ∧
  (∀ e, item_action (refresh (Err e) m) i j = None) ∧
  (plain id → item_action (refresh (Ok s) m) i j = Some (id, a) →
   local_mux "POST" ("/api/tray/devices/" +:+ id +:+ "/" +:+ a) = TTrayCommand id a).
Proof.
  rewrite item_action_refresh. split_and!.
  - assert (∀ a, tray_actions !! j = Some a → a ∈ tray_actions) as Ha by (intros ?; apply list_elem_of_lookup_2).
    split; intros (d & H1 & H2 & H3 & H4 & H5); exists d; split_and!; try done;
      [rewrite <- (can_control_allowed _ a)|rewrite (can_control_allowed _ a)]; by eauto.
  - intros e. by destruct i as [|[]].
  - intros Hp (d & _ & _ & _ & Ha & _). apply tray_path; [done|]. by eapply list_elem_of_lookup_2.
Qed.

(** ** What it asks for *)

Section runs.
Context {R : Type} (new_request : string → string → option string)
  (http_do : TrayRequest → R → result HttpResponse * R).
Context (enabled_json : bool → list byte) (read_snapshot : list byte → result Snapshot)
  (trayToken clientURL : string) (goos : platform).
Abbreviation step := (tray_step new_request http_do enabled_json read_snapshot trayToken clientURL goos).
Abbreviation events := (tray_events new_request http_do enabled_json read_snapshot trayToken clientURL goos).

(** A command that some snapshot allowed. *)
Definition offered (id a : string) : Prop :=
  ∃ text s d, read_snapshot text = Ok s ∧ d ∈ tsDevices s ∧ tdID d = id ∧ tdRevoked d = false ∧
    a ∈ tray_actions ∧ Allowed (tsRole s) ("device." +:+ a) = true.
(** The requests of the tray. *)
Definition own_request (q : TrayRequest) : Prop :=
  tqToken q = trayToken ∧
  ((tqMethod q, tqURL q, tqBody q) = ("GET", clientURL +:+ "/api/tray", [])%string ∨
   tqMethod q = "POST" ∧
   ((∃ b, tqURL q = clientURL +:+ "/api/tray/startup" ∧ tqBody q = enabled_json b) ∨
    tqURL q = clientURL +:+ "/api/tray/quit" ∧ tqBody q = [] ∨
    ∃ id a, offered id a ∧ tqURL q = clientURL +:+ ("/api/tray/devices/" +:+ id +:+ "/" +:+ a) ∧ tqBody q = [])).

Definition menu_offered (m : Menu) : Prop := ∀ i j id a, item_action m i j = Some (id, a) → offered id a.

Lemma refresh_offered text s m : read_snapshot text = Ok s → menu_offered (refresh (Ok s) m).
Proof.
  intros Hs i j id a (d & Hd & <- & Hr & Ha & Hc)%item_action_refresh.
  apply list_elem_of_lookup_2 in Hd, Ha. exists text, s, d. split_and!; try done.
  by rewrite <- can_control_allowed.
Qed.
Lemma refresh_error e m : menu_offered (refresh (Err e) m).
Proof. by intros [|[]] j id a. Qed.

(** The local interface has come from one state to the other by such requests. *)
Definition sees : R → R → Prop := rtc (λ r r', ∃ q, own_request q ∧ r' = snd (http_do q r)).


Lemma tray_do_seen method path body r :
  own_request (mkTrayRequest method (clientURL +:+ path) trayToken body) →
  sees r (snd (tray_do new_request http_do trayToken clientURL method path body r)).
Proof. intros Hq. unfold tray_do. destruct (new_request _ _); [done|]. apply rtc_once. by eexists. Qed.
Lemma tray_post_seen what path body r :
  own_request (mkTrayRequest "POST" (clientURL +:+ path) trayToken body) →
  sees r (snd (tray_post new_request http_do trayToken clientURL what path body r)).
Proof.
  intros Hq. unfold tray_post. pose proof (tray_do_seen "POST" path body r Hq) as Hd.
  destruct (tray_do _ _ _ _ _ _ _ _) as [[p|e] r']; done.
Qed.
Lemma state_seen action enabled r : action = "startup" ∨ action = "quit" →
  sees r (snd (setApplicationState new_request http_do enabled_json trayToken clientURL action enabled r)).
Proof.
  intros Ha. apply tray_post_seen. split; [done|]. right. split; [done|].
  destruct Ha; subst; [left; by exists enabled|right; by left].
Qed.
Lemma fetch_seen r :
  let '(s, r') := fetchSnapshot new_request http_do read_snapshot trayToken clientURL r in
  sees r r' ∧ ∀ m, menu_offered (refresh s m).
Proof.
  unfold fetchSnapshot, fetch.
  pose proof (tray_do_seen "GET" "/api/tray" [] r ltac:(split; [done|by left])) as Hd.
  destruct (tray_do _ _ _ _ _ _ _ _) as [[p|e] r']; (split; [exact Hd|]);
    intros m; [|apply refresh_error].
  destruct (negb _); [apply refresh_error|].
  destruct (read_snapshot _) eqn:E; [by eapply refresh_offered|apply refresh_error].
Qed.

Lemma step_seen ev (t : Tray R) : menu_offered (tMenu t) →
  menu_offered (tMenu (step ev t)) ∧ sees (tNet t) (tNet (step ev t)).
Proof.
  intros Hm. unfold tray_step. destruct (negb (tRuns t)); [by split|]. destruct ev as [| | | |i j].
  - pose proof (fetch_seen (tNet t)) as Hf. destruct (fetchSnapshot _ _ _ _ _ _) as [s r'].
    destruct Hf as [Hp Ho]. split; [apply Ho|exact Hp].
  - by split.
  - pose proof (state_seen "startup" (negb (mStartup (tMenu t))) (tNet t) ltac:(by left)) as Hs.
    destruct (setApplicationState _ _ _ _ _ _ _ _) as [e r']. split; [|done]. by destruct (is_none e).
  - destruct (tQuit t); [|by split]. pose proof (state_seen "quit" false (tNet t) ltac:(by right)) as Hs.
    by destruct (setApplicationState _ _ _ _ _ _ _ _) as [e r'].
  - destruct (item_action (tMenu t) i j) as [[id a]|] eqn:E; [|by split]. unfold sendCommand.
    match goal with |- context [tray_post ?n ?h ?k ?u ?w ?p ?b ?r] =>
      pose proof (tray_post_seen w p b r) as Hs; destruct (tray_post n h k u w p b r) as [e r'] end.
    split; [done|]. apply Hs. split; [done|]. right. split; [done|]. right. right.
    exists id, a. split; [by apply (Hm i j)|done].
Qed.

(** Which requests the client's tray makes.  Whatever is clicked, in any
    order, and whatever the local interface answers, every request the tray ever
    makes carries its token and is the one for the snapshot, the start-up entry or
    the end, or a command that a snapshot it has read allows: for a device that
    was not revoked and an action permitted to the role of the user. *)
Theorem tray_run evs r : sees r (tNet (events evs (tray_start r))).
Proof.
  assert (∀ t : Tray R, menu_offered (tMenu t) → sees (tNet t) (tNet (events evs t))) as Hrun.
  { induction evs as [|ev evs IH]; intros t Hm; [reflexivity|].
    destruct (step_seen ev t Hm) as [Hm' Hs]. etrans; [exact Hs|]. by apply (IH (step ev t)). }
  apply (Hrun (tray_start r)). by intros [|i] j id a.
Qed.

(** C40: a refused attempt to quit is the last one.  The tray waits for one click
    on Quit only: when the request is refused, it runs for ever, whatever is
    clicked afterwards; and it never ends otherwise than by a click on Quit whose
    request was taken. *)
Theorem quit_once (t : Tray R) evs :
  tRuns t = true →
  (tQuit t = false → tRuns (events evs t) = true) ∧
  (∀ e r, setApplicationState new_request http_do enabled_json trayToken clientURL "quit" false (tNet t) = (Some e, r) →
     tRuns (events (ClickQuit :: evs) t) = true) ∧
  (∀ ev, tRuns (step ev t) = false → ev = ClickQuit ∧ tQuit t = true ∧
     fst (setApplicationState new_request http_do enabled_json trayToken clientURL "quit" false (tNet t)) = None).
Proof.
  intros Ht.
  assert (∀ ev (t : Tray R), tRuns t = true → tQuit t = false →
    tRuns (step ev t) = true ∧ tQuit (step ev t) = false) as Hstep.
  { intros ev t' H1 H2. unfold tray_step. rewrite H1, H2. cbn [negb]. by destruct ev; repeat case_match. }
  assert (∀ evs (t : Tray R), tRuns t = true → tQuit t = false → tRuns (events evs t) = true) as Hrun.
  { induction evs0 as [|ev l IH]; intros t' H1 H2; [done|]. destruct (Hstep ev t' H1 H2). by apply IH. }
  split_and!.
  - by apply Hrun.
  - intros e r E. destruct (tQuit t) eqn:Eq; [|by apply Hrun].
    assert (step ClickQuit t = mkTray (tMenu t) false true (tProcesses t) r) as Es
      by (unfold tray_step; by rewrite Ht, Eq, E).
    change (events (ClickQuit :: evs) t) with (events evs (step ClickQuit t)). rewrite Es. by apply Hrun.
  - intros ev He. unfold tray_step in He. rewrite Ht in He. cbn [negb] in He.
    destruct ev as [| | | |i j]; cycle 3;
      [|repeat case_match; cbn in He; congruence|repeat case_match; cbn in He; congruence|done|
        repeat case_match; cbn in He; congruence].
    destruct (tQuit t); [|congruence].
    destruct (setApplicationState _ _ _ _ _ _ _ _) as [[e|] r]; by split_and!.
Qed.
End runs.

(** The server's tray is the same in this. *)
Lemma server_quit_once {R} new_request (http_do : TrayRequest → R → result HttpResponse * R) enabled_json
    read_snapshot token argument goos (t : ServerTray (R := R)) evs :
  stRuns t = true → stQuit t = false →
  stRuns (foldl (λ t ev, server_tray_step new_request http_do enabled_json read_snapshot token argument goos ev t) t evs) = true.
Proof.
  revert t. induction evs as [|ev evs IH]; intros t Hr Hq; [done|]. cbn [foldl].
  apply IH; unfold server_tray_step; rewrite Hr, Hq; cbn [negb]; by destruct ev; repeat case_match.
Qed.

(** ** Examples *)

Definition ann_snapshot (role : string) : Snapshot :=
  mkSnapshot true true "10.90.0.2" "" "ann" role
    [mkTrayDevice "dev_1" "desk" "10.90.0.3" false; mkTrayDevice "dev_2" "old" "10.90.0.4" true] false.
(** A local interface that answers every request with this status. *)
Definition always (code : Z) (q : TrayRequest) (n : nat) : result HttpResponse * nat :=
  (Ok (mkHttpResponse code "status" []), S n).
Definition sample_tray : Tray nat :=
  mkTray (refresh (Ok (ann_snapshot "operator")) first_menu) true true [] 0%nat.

Lemma tray_offers_witness :
  item_action (refresh (Ok (ann_snapshot "operator")) first_menu) 0 1 = Some ("dev_1", "restart")%string ∧
  item_action (refresh (Ok (ann_snapshot "operator")) first_menu) 1 1 = None ∧
  item_action (refresh (Ok (ann_snapshot "viewer")) first_menu) 0 1 = None ∧
  local_mux "POST" "/api/tray/devices/dev_1/restart" = TTrayCommand "dev_1" "restart".
Proof.
  assert (item_action (refresh (Ok (ann_snapshot "operator")) first_menu) 0 1 = Some ("dev_1", "restart")%string) as E
    by reflexivity.
  split; [exact E|]. split; [reflexivity|]. split; [reflexivity|].
  apply (proj2 (proj2 (tray_offers (ann_snapshot "operator") first_menu 0 1 "dev_1" "restart"))); [|exact E].
  apply (bool_decide_unpack _). vm_compute. exact I.
Defined.

(** The second click is not heard, although it would be taken. *)
Lemma quit_once_witness :
  tRuns (tray_events (λ _ _, None) (always 503) (λ _, []) (λ _, Err "") "secret" "http://127.0.0.1:9070" Windows
    [ClickQuit; ClickQuit] sample_tray) = true ∧
  tRuns (tray_events (λ _ _, None) (always 202) (λ _, []) (λ _, Err "") "secret" "http://127.0.0.1:9070" Windows
    [ClickQuit] sample_tray) = false.
Proof.
  split; [|reflexivity].
  destruct (quit_once (λ _ _, None) (always 503) (λ _, []) (λ _, Err "") "secret" "http://127.0.0.1:9070" Windows
    sample_tray [ClickQuit] eq_refl) as (_ & H & _).
  apply (H "tray application action: status"%string 1%nat). reflexivity.
Defined.
