(* ===== verification/ClientScenario.v ===== *)
(** * ClientScenario: clients at work

    Toy encodings and environments, and runs of the client on them, to which
    the theorems on the client are applied: against a server that always
    answers 200, and, for a command from end to end, against the management
    server of [ControlScenario]. *)
From S2P Require Import Prelude Text Net Clock Calendar Protocol Crypto Session Traffic Dataplane.
From S2P Require Import DataplaneProperties DataClient Commands Config Http Accounts Devices CommandStore.
From S2P Require Import ClientAgent ClientLocal ClientRun ClientEffects ClientCommands ClientProperties.
From S2P Require Import ClientIdentity ClientAdapter ClientGuard.
From Stdlib Require Import Init.Byte Strings.Byte.

Import Crypto.Toy.

(** ** A toy encoding: fields of escaped bytes *)

Definition enc (l : list byte) : list byte := concat (map (λ b, [x01; b]) l) ++ [x02].
Fixpoint dec (l : list byte) : list byte * list byte :=
  match l with
  | x01 :: b :: l => let '(v, rest) := dec l in (b :: v, rest)
  | _ :: l => ([], l)
  | [] => ([], [])
  end.
Lemma dec_enc v rest : dec (enc v ++ rest) = (v, rest).
Proof.
  unfold enc. induction v as [|b v IH]; [done|]. cbn [map concat app].
  change ((x01 :: b :: concat (map (λ b, [x01; b]) v)) ++ [x02]) with
    (x01 :: b :: (concat (map (λ b, [x01; b]) v) ++ [x02])). cbn [app dec]. by rewrite IH.
Qed.
Definition enc_text (s : string) : list byte := enc (s2b s).
Definition dec_text (l : list byte) : string * list byte := let '(v, rest) := dec l in (b2s v, rest).
Lemma dec_enc_text s rest : dec_text (enc_text s ++ rest) = (s, rest).
Proof. unfold dec_text, enc_text. by rewrite dec_enc, b2s_s2b. Qed.
Lemma dec_enc_end s : dec_text (enc_text s) = (s, []).
Proof. by rewrite <- (app_nil_r (enc_text s)), dec_enc_text. Qed.

Definition always {A} (v : A) : Unmarshal A := λ _ _, Some (v, []).

(** ** The client's data *)

Definition T0 : Z := 1767225600 * Second.
Definition client_key : list byte := replicate 64 x21.
Definition registered : Bootstrap :=
  match toy_registered with (Ok b, _) => b | (Err _, _) => mkBootstrap 0 "" "" 0 0 end.
Definition assignment : Update := mkUpdate "10.90.0.4" "10.90.0.0/24" 25 (Some registered).
Definition restart_command : ControlCommand :=
  mkControlCommand Version "cmd_1" "system.restart" T0 (T0 + 2 * Minute).
Definition user : User := mkUser "usr_1" "ann" "operator" false T0.

#[export] Instance toy_json : AgentJSON := {
  js_ref d := enc_text (refDevice d);
  js_proof p := enc_text (proofDevice p) ++ enc_text (proofSignature p);
  js_join j := enc_text (jnToken j) ++ enc_text (jnName j) ++ enc (jnPublicKey j);
  js_result c := enc_text (crDeviceID c) ++ enc_text (crStatus c) ++ enc_text (crResult c) ++
                 enc_text (crError c) ++ enc_text (crSignature c);
  js_identity p := enc_text (pDeviceID p) ++ enc_text (pVirtualIP p) ++ enc_text (pNetwork p) ++
                   enc (pPrivateKey p);
  js_credentials c := enc_text (crUsername c) ++ enc_text (crPassword c);
  js_read_challenge := λ _ b, let '(v, rest) := dec_text b in Some (mkChallengeReply v, rest);
  js_read_device := always no_device;
  js_read_devices := always [];
  js_read_user := always user;
  js_read_login := always (mkLoginResponse "TYX-1" 900 user);
  js_read_command := always (mkCommand "cmd_2" "usr_1" "dev_2" "system.restart" "queued" "" "" T0 (T0 + Minute));
  js_read_identity := λ _ b,
    let '(id, b) := dec_text b in let '(ip, b) := dec_text b in
    let '(net, b) := dec_text b in let '(k, b) := dec b in Some (mkPersisted id ip net k, b);
  js_read_update := always assignment;
  js_read_control := always restart_command;
  js_null := []
}.

Lemma toy_identity_json : identity_json.
Proof.
  intros [id ip net k]. unfold unmarshal_all, marshal, js_identity, toy_json, unmarshal. cbn [js_read_identity
    pDeviceID pVirtualIP pNetwork pPrivateKey].
  rewrite !dec_enc_text, <- (app_nil_r (enc k)), dec_enc. done.
Qed.

(** ** A server that answers every request, and keeps the requests *)

Definition a_challenge : list byte := enc_text (EncodeToString (replicate 32 x07)).
#[export] Instance toy_remote : Remote (list HttpRequest) := {
  new_request := λ _ _, None;
  http_do := λ q log, (Ok (mkHttpResponse 200 "200 OK" a_challenge), log ++ [q]);
  ed25519_sign := λ k m, take 32 (sha256 (k ++ m));
  lower_text := λ s, s;
  url_hostname := hostname;
  resolve := resolve_ok;
  conn_write := write_ok;
  client_os := Linux; GOOS := "linux"; GOARCH := "amd64"; build_version := "1.0"
}.
#[export] Instance toy_local_inputs : LocalInputs := {
  in_setup := always (mkSetupRequest "https://vpn.example" "TYX-2" "desk");
  in_credentials := always (mkCredentials "ann" "correct horse" false);
  in_startup := always (mkStartupChange true)
}.
(** The start-up entry is a flag. *)
#[export] Instance toy_host : LocalHost bool := {
  startupEnabled := λ f, Ok f;
  setStartup := λ b _, (None, b);
  index_page := None;
  asset_file := λ _, code_only 404
}.

Definition sys : Sys :=
  mkSys (λ _, T0) (λ _, T0) None None None None (mkWrite true None true)
    (mkSaveEnv true (Some "t") true None true true true) (Some (replicate 32 x05, client_key))
    (λ name _ _, Ok name) (Ok tt) None 6.
Definition only_sys (e : Sys) : Prop := e = sys.
Lemma sys_works e : only_sys e → files_work e.
Proof. intros ->. split; [done|]. by intros pub priv [= <- <-]. Qed.

Definition cfg : ClientConfig :=
  mkClientConfig "https://vpn.example/" "" "desk" "/var/lib/tyxnet" "127.0.0.1:8089" false (25 * Second) true "" 1280.
Definition cfg_path : string := "/etc/tyxnet/client.yaml".
Definition parse_any (_ : string) : option (string * string) := Some ("https", "vpn.example").
Definition yaml (_ : ClientConfig) : result (list byte) := Ok [x79].

Definition stored_identity : gmap string file :=
  {[ identity_path cfg := mkFile 384 (marshal (mkPersisted "dev_1" "10.90.0.9" "" client_key)) ]}.

Abbreviation ToyAgent := (Agent (list HttpRequest) bool).
Definition agent0 : ToyAgent := ClientAgent.New cfg T0 stored_identity [] false.

(** ** A run: the start, the connection, the state the server sends *)

Abbreviation run := (ClientRun.run (R := list HttpRequest) (F := bool)).
Abbreviation toy_step := (agent_step (R := list HttpRequest) (F := bool) parse_any yaml cfg_path only_sys).

Definition agent1 : ToyAgent := snd (start sys agent0).
Definition agent2 : ToyAgent := set_stop (Some false) agent1.
Definition agent3 : ToyAgent := snd (connect sys agent2).
Definition agent4 : ToyAgent := snd (stream_line sys "" "data: {}" agent3).
Definition run1 : run := mkRun agent1 (Top 0) false.
Definition run4 : run := mkRun agent4 (Reading 0 "") false.

Lemma agent1_started : start sys (ClientAgent.New cfg T0 stored_identity [] false) = (Top 0, agent1).
Proof.
  change (start sys agent0 = (Top 0, snd (start sys agent0))).
  assert (fst (start sys agent0) = Top 0) as E by (vm_compute; reflexivity).
  rewrite <- E. apply surjective_pairing.
Qed.

Lemma after_part_value {X} ctx i (m : C (list HttpRequest) bool error X) next a v :
  fst (m a) = inr v → after_part ctx i m next a = (next v, snd (m a)).
Proof. unfold after_part. destruct (m a) as [[] ?]; by intros [= ->]. Qed.

Lemma run4_reached : rtc toy_step run1 run4.
Proof.
  apply (rtc_l _ _ (mkRun agent2 (Dialing 0) false)).
  { apply by_itself, at_top_dial. vm_compute. reflexivity. }
  apply (rtc_l _ _ (mkRun agent3 (Reading 0 "") false)).
  { apply by_itself. apply (at_dial _ sys); [done|].
    apply (after_part_value false 0 (connect sys) (λ _, Reading 0 "") agent2 tt). vm_compute. reflexivity. }
  apply rtc_once, by_itself. apply (at_line _ sys _ _ _ "data: {}"); [done|vm_compute; reflexivity|].
  apply (after_part_value false 0 (stream_line sys "" "data: {}") (Reading 0) agent3 ""). vm_compute. reflexivity.
Qed.

Lemma cfg_path_other : cfg_path ≠ identity_path cfg.
Proof. vm_compute. discriminate. Qed.


Lemma adapter_fits_witness :
  DataPlaneReady (state agent4) = true ∧
  ∃ d name ip network, dataPlane agent4 = Some d ∧ adapter agent4 = Some name ∧
    client_address ip network = Ok "10.90.0.4/24" ∧ cAssigned d = To4 (ParseIP ip).
Proof.
  assert (DataPlaneReady (state agent4) = true) as Hr by (vm_compute; reflexivity). split; [exact Hr|].
  destruct (adapter_fits parse_any yaml cfg_path only_sys sys cfg T0 stored_identity [] false agent1 run4
    sys_works toy_identity_json cfg_path_other agent1_started run4_reached) as (H1 & H2 & _).
  change (agent run4) with agent4 in H1, H2.
  destruct (dataPlane agent4) as [d|] eqn:Ed; [|destruct (H1 Hr eq_refl)].
  destruct (H2 d eq_refl) as (name & ip & network & Ha & Hc & Hp). exists d, name, ip, network.
  split; [reflexivity|]. split; [exact Ha|]. split; [|exact Hp]. rewrite Hc. vm_compute. reflexivity.
Defined.

Lemma run_stops_witness :
  let x := mkRun agent4 (Reading 0 "") true in
  ∃ z, own_step only_sys x z ∧ at_ z = Returned None ∧ adapter (agent z) = None ∧ dataPlane (agent z) = None ∧
       negb (is_none (dataPlane agent4)) = true.
Proof.
  cbv zeta. set (x := mkRun agent4 (Reading 0 "") true).
  destruct (run_stops only_sys x eq_refl) as (_ & _ & Hret).
  assert (finish true 0 None agent4 = (Returned None, snd (finish true 0 None agent4))) as Hf.
  { assert (fst (finish true 0 None agent4) = Returned None) as E by (vm_compute; reflexivity).
    rewrite <- E. apply surjective_pairing. }
  assert (own_step only_sys x (mkRun (snd (finish true 0 None agent4)) (Returned None) true)) as Hs
    by (apply (at_line_stopped only_sys); [reflexivity|exact Hf]).
  eexists. split; [exact Hs|]. split; [reflexivity|].
  destruct (Hret x _ None (rtc_refl _ _) Hs eq_refl) as (_ & Ha & Hd).
  split; [exact Ha|]. split; [exact Hd|]. vm_compute. reflexivity.
Defined.

(** ** A command that comes twice *)

Definition twice : list (Sys * ControlCommand) := [(sys, restart_command); (sys, restart_command)].

(** ** The local interface *)

Definition loopback : string := "127.0.0.1:50000".
Definition ask (method path origin tray : string) : LocalRequest :=
  mkLocal (mkRequest method path (λ _, "") loopback "" None "" tray false [x7b; x7d]) origin "127.0.0.1:8089".
Definition tray_agent : ToyAgent :=
  set_management "TYX-1" user [] (ClientAgent.ConfigureApplication "secret" true agent4).
Abbreviation asked_of r a := (local_serve parse_any yaml sys cfg_path r a).

Lemma tray_restart_token : hToken <$> last (remote (snd (asked_of (ask "POST" "/api/tray/devices/dev_2/restart" "" "secret") tray_agent))) = Some "TYX-1".
Proof. vm_compute. reflexivity. Qed.

Lemma local_guard_witness :
  (let r := ask "POST" "/api/tray/devices/dev_2/restart" "" "secret" in
   aCode (fst (asked_of r tray_agent)) = 202 ∧
   rtc (asked (may_use tray_agent r)) (remote tray_agent) (remote (snd (asked_of r tray_agent)))) ∧
  (let r := ask "POST" "/api/tray/devices/dev_2/restart" "" "guess" in
   aCode (fst (asked_of r tray_agent)) = 403 ∧ snd (asked_of r tray_agent) = tray_agent) ∧
  (let r := ask "DELETE" "/api/configuration" "https://evil.example" "" in
   aCode (fst (asked_of r tray_agent)) = 403 ∧ snd (asked_of r tray_agent) = tray_agent).
Proof.
  cbv zeta. split_and!.
  - vm_compute. reflexivity.
  - set (r := ask _ _ _ _).
    destruct (local_guard parse_any yaml cfg_path sys r tray_agent _ _ (surjective_pairing _)) as (_ & _ & Hm).
    exact (g_asked _ _ _ _ _ _ _ Hm).
  - vm_compute. reflexivity.
  - set (r := ask _ _ _ _).
    destruct (local_guard parse_any yaml cfg_path sys r tray_agent _ _ (surjective_pairing _)) as (_ & Ht & _).
    apply Ht; vm_compute; reflexivity.
  - vm_compute. reflexivity.
  - set (r := ask _ _ _ _).
    destruct (local_guard parse_any yaml cfg_path sys r tray_agent _ _ (surjective_pairing _)) as (Hc & _ & _).
    apply Hc. vm_compute. reflexivity.
Defined.

Lemma reset_outcome_witness :
  let r := ask "DELETE" "/api/configuration" "" "" in
  aCode (fst (asked_of r tray_agent)) = 204 ∧ erased tray_agent (snd (asked_of r tray_agent)) ∧
  key (snd (asked_of r tray_agent)) = client_key.
Proof.
  cbv zeta. set (r := ask _ _ _ _).
  pose proof (reset_outcome parse_any yaml cfg_path sys r tray_agent _ _ (conj eq_refl eq_refl)
    ltac:(vm_compute; discriminate) (surjective_pairing _)) as Hr.
  assert (negb (clientSameOrigin r) || negb (clientRemoteIsLoopback (RemoteAddr (req r))) = false) as E1
    by (vm_compute; reflexivity).
  assert (Configured (state tray_agent) = true) as E2 by (vm_compute; reflexivity).
  rewrite E1, E2 in Hr. cbn [negb remove_error sys] in Hr.
  destruct Hr as (He & Hk & _ & Hc). rewrite Hc, Hk. split_and!; [vm_compute; reflexivity|exact He|vm_compute; reflexivity].
Defined.
