(* ===== verification/EndToEnd.v ===== *)
(** * EndToEnd: a command from the administrator to the laptop and back

    The management server of [ControlScenario], whose administrator has asked
    for a restart of the laptop, and the laptop's client, over the network of
    [ClientServer]: the theorem on commands applied. *)
From S2P Require Import Prelude Text Net Clock Calendar Http Traffic Duration Protocol Crypto Session.
From S2P Require Import Dataplane DataplaneProperties DataClient Commands Config Database Accounts Devices CommandStore.
From S2P Require Import Auth Control ControlAPI ControlStream ControlDevices ControlPlane ControlScenario.
From S2P Require Import ClientAgent ClientScenario ClientServer.
From Stdlib Require Import Init.Byte Strings.Byte.

Import Crypto.Toy.

(** ** The encodings of both sides *)

#[export] Instance laptop_inputs : Inputs := {
  in_login := ControlAPI.in_login; in_setup := ControlAPI.in_setup; in_enroll := ControlAPI.in_enroll;
  in_challenge := λ _ b, let '(v, rest) := dec_text b in Some (mkChallengeInput v, rest);
  in_connect := ControlAPI.in_connect;
  in_result := λ _ b,
    let '(dev, b) := dec_text b in let '(st, b) := dec_text b in let '(text, b) := dec_text b in
    let '(err, b) := dec_text b in let '(sig, b) := dec_text b in
    Some (mkCommandResult dev st text err sig, b);
  in_device := ControlAPI.in_device; in_settings := ControlAPI.in_settings;
  in_startup := ControlAPI.in_startup; in_user := ControlAPI.in_user;
  in_user_patch := ControlAPI.in_user_patch; in_password := ControlAPI.in_password;
  in_token := ControlAPI.in_token
}.
(** A signature: the first bytes of the key and the text. *)
Definition toy_sign (k m : list byte) : list byte := take 48 (k ++ m).
#[export] Instance laptop_externals : Externals unit := {
  argon2id := Auth.toy_argon2id;
  ed25519_verify k m sig := bool_decide (sig = toy_sign k m);
  ToLower := λ s, s; web_index := None; web_asset := λ _, write_header 404;
  startupAvailable := (false, "not supported"); ControlAPI.startupEnabled := λ _, Ok false;
  ControlAPI.setStartup := λ _ f, (None, f)
}.

Definition base : string := "https://vpn.example".
Definition address : string := "192.0.2.9:40000".
Definition encode_payload (v : Payload) : list byte :=
  match v with Challenge c => enc_text c | _ => [] end.
Definition line (code : Z) : string := FormatInt code.

Abbreviation Wire := (Backend unit Plane).
#[export] Instance laptop_remote : Remote Wire := {
  new_request := λ _ _, None;
  http_do := deliver base address encode_payload line;
  ed25519_sign := toy_sign;
  lower_text := λ s, s; url_hostname := hostname; resolve := resolve_ok; conn_write := write_ok;
  client_os := Linux; GOOS := "linux"; GOARCH := "amd64"; build_version := "1.0"
}.

(** ** The encodings fit *)

Lemma b64_length l : (length (b64_encode l) ≤ 2 * length l)%nat.
Proof. induction l as [|a|a b|a b c l IH] using list_ind3; cbn [b64_encode length] in *; lia. Qed.
Lemma enc_length l : length (enc l) = (2 * length l + 1)%nat.
Proof.
  unfold enc. rewrite length_app. cbn [length]. f_equal. induction l as [|b l IH]; [done|].
  cbn [map concat]. rewrite length_app, IH. cbn [length]. lia.
Qed.
Lemma decoded_short {A} `{Unmarshal A} (b : list byte) : len b ≤ 2 ^ 20 →
  decoded b = match unmarshal true b with
              | Some (v, rest) => if at_eof rest then Some v else None
              | None => None
              end.
Proof.
  intros Hl. unfold decoded, decode, decode_value, limited. cbn [rBody].
  rewrite take_ge; [done|]. unfold len in Hl. lia.
Qed.

Lemma result_fits dev st text err sig :
  len (marshal (mkCommandResult dev st text err sig)) ≤ 2 ^ 20 →
  decoded (marshal (mkCommandResult dev st text err sig)) = Some (mkCommandResult dev st text err sig).
Proof.
  intros Hl. rewrite decoded_short by done. unfold marshal, js_result, toy_json, unmarshal, in_result, laptop_inputs.
  cbn [crDeviceID crStatus crResult crError crSignature]. rewrite !dec_enc_text, dec_enc_end. done.
Qed.

(** ** The laptop *)

Definition command_id : string := c_id restart_row.
Definition environment (n : nat) : Env := env_of (Zb (64 + Z.of_nat n)).
Definition wire : Wire := mkBackend (server final) environment 0.
Definition laptop_agent : Agent Wire bool :=
  let a := ClientAgent.New cfg ControlScenario.T0 ∅ wire false in
  ClientAgent.set_state (s_identity laptop "10.90.0.2" "10.90.0.0/24" true (ClientAgent.state a))
    (set_key laptop_key a).
Definition the_command : ControlCommand :=
  mkControlCommand Version command_id "system.restart" ControlScenario.T0 (ControlScenario.T0 + 2 * Minute).

Lemma toy_sign_length k m : (length (toy_sign k m) ≤ 48)%nat.
Proof. unfold toy_sign. rewrite length_take. lia. Qed.
Lemma signature_length k m : (length (s2b (EncodeToString (toy_sign k m))) ≤ 96)%nat.
Proof.
  unfold EncodeToString. rewrite s2b_b2s. pose proof (b64_length (toy_sign k m)).
  pose proof (toy_sign_length k m). lia.
Qed.

Lemma report_fits st text err msg : (st, text, err) ∈ reports →
  let v := mkCommandResult laptop st text err (EncodeToString (toy_sign laptop_key msg)) in
  decoded (marshal v) = Some v.
Proof.
  intros Hr. cbv zeta. apply result_fits. pose proof (signature_length laptop_key msg) as Hs.
  unfold len, marshal, js_result, toy_json. cbn [crDeviceID crStatus crResult crError crSignature].
  rewrite !length_app. unfold enc_text. rewrite !enc_length.
  assert (length (s2b laptop) ≤ 100)%nat as Hl by (apply Nat.leb_le; vm_compute; reflexivity).
  assert ((length (s2b st) ≤ 100)%nat ∧ (length (s2b text) ≤ 100)%nat ∧ (length (s2b err) ≤ 100)%nat) as (? & ? & ?).
  { apply list_elem_of_In in Hr. cbn [In reports] in Hr.
    destruct Hr as [[= <- <- <-]|[[= <- <- <-]|[[= <- <- <-]|[[= <- <- <-]|[]]]]];
      split_and!; apply Nat.leb_le; vm_compute; reflexivity. }
  lia.
Qed.

Lemma laptop_wired : wired base address encode_payload line laptop command_id laptop_key laptop_key.
Proof.
  split.
  - intros path. reflexivity.
  - intros q w. reflexivity.
  - rewrite decoded_short by (apply Z.leb_le; vm_compute; reflexivity).
    unfold marshal, js_ref, toy_json, unmarshal, in_challenge, laptop_inputs. cbn [refDevice].
    rewrite dec_enc_end. reflexivity.
  - intros st text err msg Hr. exact (report_fits st text err msg Hr).
  - intros nonce _. unfold decode_first, unmarshal, js_read_challenge, toy_json. cbn [encode_payload].
    by rewrite dec_enc_end.
  - intros msg. apply bool_decide_eq_true_2. reflexivity.
  - vm_compute. reflexivity.
  - split_and!; [vm_compute; discriminate..| |]; apply Z.leb_le; vm_compute; reflexivity.
Qed.

Lemma stored_commands : commands (store (world (server final))) = [restart_row].
Proof. vm_compute. reflexivity. Qed.
Lemma laptop_device : is_device base laptop laptop_key laptop_agent.
Proof. split; vm_compute; reflexivity. Qed.
Lemma laptop_served : served_well address laptop laptop_key 4 (server final).
Proof.
  split; [vm_compute; reflexivity|]. unfold room. apply Nat.leb_le. vm_compute. reflexivity.
Qed.
Lemma laptop_requests : good_requests ControlScenario.T0 ControlScenario.T0 wire.
Proof.
  split.
  - intros n _. exists (replicate 32 (Zb (64 + Z.of_nat n))). split; reflexivity.
  - intros n i _. split; apply Z.le_refl.
  - apply Z.leb_le. vm_compute. reflexivity.
  - apply (bool_decide_unpack _). vm_compute. exact I.
Qed.
Lemma laptop_awaits : awaits command_id laptop ControlScenario.T0 restart_row (store (world (server final))).
Proof.
  split.
  - rewrite stored_commands. vm_compute. reflexivity.
  - exists (ControlScenario.T0 + 2 * Minute). split; [vm_compute; reflexivity|].
    apply Z.leb_le. vm_compute. reflexivity.
Qed.

Lemma laptop_store : commands (store (world (bk_server (remote laptop_agent)))) = [restart_row].
Proof. exact stored_commands. Qed.
Lemma started_restart : executed laptop_agent ++ started_by (SF := unit) (SP := Plane) command_id sys (ccType the_command) =
  [(command_id, ("systemctl", ["reboot"]))].
Proof. vm_compute. reflexivity. Qed.
Lemma row_queued : map c_status [restart_row] = ["queued"].
Proof. vm_compute. reflexivity. Qed.
Lemma row_done : map c_status (update_where (is_command command_id laptop)
  (let '(st, text, err) := final_report (SF := unit) (SP := Plane) sys (ccType the_command) in set_result st text err)
  [restart_row]) = ["succeeded"].
Proof. vm_compute. reflexivity. Qed.

Lemma command_completes_witness :
  ∃ a', handleControlCommand sys the_command laptop_agent = (inr tt, a') ∧
    executed a' = [(command_id, ("systemctl", ["reboot"]))] ∧
    map c_status (commands (store (world (bk_server (remote laptop_agent))))) = ["queued"] ∧
    map c_status (commands (store (world (bk_server (remote a'))))) = ["succeeded"].
Proof.
  destruct (command_completes base address encode_payload line laptop command_id laptop_key laptop_key
    ControlScenario.T0 ControlScenario.T0 restart_row sys the_command laptop_agent laptop_wired)
    as (a' & Hr & Hx & _ & Hc).
  - exact laptop_device.
  - exact laptop_served.
  - exact laptop_requests.
  - exact laptop_awaits.
  - assert (c_status restart_row = "queued") as -> by (vm_compute; reflexivity). left.
  - reflexivity.
  - reflexivity.
  - left.
  - apply Z.leb_le. vm_compute. reflexivity.
  - vm_compute. reflexivity.
  - exists a'. rewrite laptop_store in Hc |- *. split; [exact Hr|]. split; [by rewrite Hx, started_restart|].
    rewrite Hc. split; [exact row_queued|exact row_done].
Defined.
